(* ===== verification/_CoqProject ===== *)
-Q . S2P
Prelude.v
Util.v
CLib.v
Queue.v
Race.v
State.v
Sync.v
Net.v
Ether.v
Drivers.v
Arp.v
Ip.v
Icmp.v
Udp.v
Service.v
Sock.v
Log.v
Stack.v
Softirq.v
Boot.v
App.v
TestApps.v
System.v
Threads.v
Loop.v
Wire.v
Typed.v
Refine.v
Network.v
Concurrent.v
