(* ===== verification/Prelude.v ===== *)
(** * llnstack: a verification library for the user-space network stack

    ** The program

    llnstack (src/) is a TCP/IP stack in C that runs in one user process: device
    drivers on file descriptors (handler/tap.c, handler/pcap.c) and a loopback device
    (device/loopback.c); a module of devices, protocols, timers and events
    (src/lib/net.c); Ethernet framing (ether.c), ARP (arp.c), IP (ip.c), ICMP (icmp.c),
    UDP (udp.c) and a socket interface (sock.c); a thread that turns signals into
    interrupts (handler/interrupt.c), condition variables (handler/synchronize.c), and
    utilities (util.c).  apps/udp_app.c is an echo server on it, apps/client.c and
    apps/server.c are small test programs.

    A frame comes in by a signal: the interrupt thread runs the service routine of the
    device, which reads the frame and queues its payload with the protocol
    ([network_input_handler]) and raises a signal of its own; for that one the thread
    empties the queues ([network_protocol_handler]) through the handlers of ARP and IP,
    IP calls ICMP or UDP, and UDP wakes up the thread that sleeps in [udp_recvfrom].  The
    way out is a chain of calls, [sock_sendto] to the [transmit] of a device, through the
    routing table and the ARP cache.  Other signals run the timers and the events.

    ** How it is modelled

    The static variables of all files are one record, [stack] (State.v); a C function
    is a function in a state monad ([C A], which is [M stack A] of this file) that
    returns or has a [fault]: an access outside an object, a null pointer, a mutex locked
    twice or unlocked by a thread that does not hold it.  C integers are [Z], with
    the wrap-around of each type written out ([u8], [u16], [u32], [u64]), buffers are
    lists of bytes, pointers to devices, interfaces and control blocks are numbers.
    The machine's byte order is a parameter ([Machine]).

    Everything outside the process is the [world] in the state: the answers of the
    allocator, the clock and the system calls are arbitrary lists, used up call by
    call (an exhausted list answers with success), and the system calls made are
    recorded.  Theorems quantify over all worlds, so they hold for every failure.
    Function pointers are type classes: [DeviceDriver] (Net.v) for the operations of
    a device, [Dispatch] and [IpDispatch] for the handlers; the instances are
    [stack_drivers] (Drivers.v), [stack_dispatch] and [stack_ip_dispatch] (Stack.v).
    A call that can block is a value ([RecvSleep]) and a function that continues it.

    ** The files

    - Prelude.v (this file): integers, buffers, the monad, weakest preconditions
      [wp], partial correctness [pw], frames [Preserves], invariants [maintains], and
      their tactics.
    - Util.v (util.c, util.h): byte order, [cksum16], time macros.
    - CLib.v: [strtol] and the formats of the C library that the sources use.
    - Queue.v (util.c): the linked queues on a heap; the class [Fifo] that the other
      modules use is refined by them.  Race.v: [queue_push] and [queue_pop] one
      statement at a time, alone and against each other.
    - State.v (handler.h, net2.h, ip2.h, sock.h): the state, mutexes, allocation, signals
      and system calls.
    - Sync.v (handler/synchronize.c): contexts threads sleep on, with [sched_sleep] in
      two parts, before and after [pthread_cond_wait].
    - Net.v (net.c), Ether.v (ether.c), Drivers.v (interrupt.c, tap.c, pcap.c,
      loopback.c), Arp.v (arp.c), Ip.v (ip.c), Icmp.v (icmp.c), Udp.v (udp.c), Sock.v
      (sock.c): one file per module, each function a definition of the same name.
    - Service.v: the contract of the datagram service, an abstract machine of mailboxes,
      and its refinement by udp.c.
    - Log.v: the text of [lprintf], [hexdump] and the packet dumps.
    - Stack.v (net.c, interrupt.c): function pointers, start, stop and the rounds of
      the interrupt thread; Softirq.v and Boot.v hold what these establish and keep.
    - App.v (udp_app.c) and TestApps.v (client.c, server.c).
    - System.v: the interleavings of the interrupt thread and the application's
      threads, call by call; Threads.v: the same with sends and soft interrupts cut
      between their critical sections; Loop.v: a datagram through the loopback device, end to end; Wire.v: a
      datagram and its echo between two hosts over Ethernet; Typed.v: the widths of the
      fields.
    - Refine.v: the interleavings of System.v as runs of the contract of Service.v.
    - Network.v: any number of hosts on a medium that loses, repeats, reorders and
      misdirects frames.
    - Concurrent.v: widths, bounds, service and network at the finer steps of Threads.v.

    ** What the theorems show

    - The whole system: every state reached from program start, whatever the
      environment answers short of malformed IP datagrams (below), and however rounds
      and calls interleave, satisfies the invariants of all modules, and the next step
      ends without a fault, a deadlock or a mutex left locked ([system_safe]), also
      when sends are cut after their critical section and soft interrupts between
      packets ([threads_safe]); the fields listed in [typed] keep their C widths and
      only bytes are written to devices ([system_typed], malformed datagrams included);
      frames have a legal length and queued packets and datagrams the lengths their
      entries say ([system_bounded]); start-up establishes the invariants or returns -1
      with a message ([app_start_ready]).
    - Termination: the soft interrupt empties all queues although handlers put
      packets on the queue being emptied; the service routines end.
    - Round trips: what UDP, IP and Ethernet send is what the peer's input accepts and
      delivers; addresses, endpoints (but for port 0, which is refused) and hexadecimal
      dumps are read back as printed.
    - Behaviour end to end: an ARP exchange resolves an address, an echo request is
      answered, a blocked receiver gets the datagram, a datagram through loopback
      arrives, the echo server echoes; a datagram crosses the wire from one host to
      the one it is for and to no other ([wire_delivers]), and a datagram to the echo
      application comes back to its sender ([echo_over_wire]).
    - Integrity: in every run of a network, what an application receives is what
      some application sent, byte for byte ([threads_integrity], and [network_integrity] call by call).
    - Functions against their specification, on every branch: route lookup is by
      longest prefix, the checksum is the one of RFC 1071, the cache evicts the
      oldest entry, bind is exclusive, open and close leak nothing, and so on.
    - Refinement: udp.c implements the datagram service ([udp_refines_service]), whose
      contract gives delivery in order and at most once, and so does the running
      system with its interrupts and threads ([threads_refine_service], and
      [system_refines_service] call by call); the linked queue implements a sequence.
    - Deviations: lemmas that end in a fault, a duplicate or a leak (for example
      [ip_input_short_total_overreads], [arp_input_interleaved_duplicates],
      [sock_open_leaks_slot], [client_overreads], [server_main_overreads], [queue_race],
      [intr_thread_without_timer], [app_args_messages]) show behaviour of the code that is not meant.

    ** Assumptions and bounds

    - The kernel's answers are true to their length ([sys_sane]), and a frame that
      carries IP has a header length of at least 20 bytes within its total length
      ([ip_sane], in [answer_ok] for what arrives and in [queues_sane] for what is
      queued).  The code does not check the latter, and without it [ip_input] over-reads,
      as a lemma shows: the theorems on runs are about those without such datagrams,
      except [system_typed].
    - [recvfrom] of the system respects the size the client gives it.
    - [printf] of a null pointer for %s prints [(null)], as glibc does ([fmt_s]): the
      echo application prints the null [optarg] for bad arguments, and the null result
      of [sockaddr_ntop] when the family it left uninitialised is not AF_INET.
    - Loops that are not structural take fuel and say when it runs out.  The loop
      that empties the queues needs two rounds per packet queued ([stack_ready] bounds what
      a handler queues), a service routine one round more than the kernel has answers,
      the folding of the checksum two rounds; the theorems give these bounds and that
      within them the result is reached ([enough_fuel] in System.v), and more fuel
      does not change it.
    - A step of [sys_step] is a whole call or a whole round of the interrupt thread,
      split where a thread sleeps.  In Threads.v a step is a part: the critical
      section of a send, the output of its datagram, a packet of the soft interrupt, and
      Arp.v treats the finer interleaving between the two critical sections of
      [arp_input].  The rest of an output works on the thread's own buffers, on tables
      that do not change after start-up, and under the mutexes of ip.c and arp.c.  The
      queues of the protocols have no lock: a thread that sends through the loopback
      device pushes on them while the interrupt thread pops, and Race.v shows what can
      come of it; with the other devices only the interrupt thread touches them.
    - In Network.v the medium hands out only frames that some host wrote; in Wire.v
      what one host writes is what the other reads.

    ** Not modelled

    Every C function of the stack and of its programs is modelled by a definition, except
    [memory_free] and [mutex_init], which change nothing of the state.  Left out are:
    - The output streams, their locks and the formatting of the time of day; log lines
      inside operations that print nothing but numbers and strings that are there.
    - [sched_sleep] with a time limit, which no source uses.
    - The contents of the [ifreq] structures and the signal sets, beyond the calls
      that are made with them.
    - The kernel, the system's own socket calls (a parameter of TestApps.v), and
      src/app.py and the Makefile, which are not C. *)

From stdpp Require Import base numbers list option gmap strings.
From Stdlib Require Import ZArith Lia.

Open Scope Z_scope.

(** ** Machine integers

    A [w]-bit unsigned C integer is a [Z]; the conversions the source performs
    implicitly (assignment to a narrower type, unsigned arithmetic) are written
    out with these functions. *)

Definition u8 (z : Z) : Z := z mod 2 ^ 8.
Definition u16 (z : Z) : Z := z mod 2 ^ 16.
Definition u32 (z : Z) : Z := z mod 2 ^ 32.
Definition u64 (z : Z) : Z := z mod 2 ^ 64.

(** A C truth value: any non-zero integer counts as true. *)
Definition truthy (z : Z) : bool := negb (z =? 0).

Definition in_u8 (z : Z) : Prop := 0 <= z < 2 ^ 8.
Definition in_u16 (z : Z) : Prop := 0 <= z < 2 ^ 16.
Definition in_u32 (z : Z) : Prop := 0 <= z < 2 ^ 32.

(** A buffer is the list of its bytes, each in [0, 256). *)
Definition bytes (l : list Z) : Prop := Forall in_u8 l.
Definition bytesb (l : list Z) : bool := forallb (fun b => (0 <=? b) && (b <? 256)) l.

Create HintDb word.

Lemma u8_range z : in_u8 (u8 z).
Proof. apply Z.mod_pos_bound. lia. Qed.

Lemma u16_range z : in_u16 (u16 z).
Proof. apply Z.mod_pos_bound. lia. Qed.

Lemma u32_range z : in_u32 (u32 z).
Proof. apply Z.mod_pos_bound. lia. Qed.

Lemma u8_small z : in_u8 z -> u8 z = z.
Proof. apply Z.mod_small. Qed.

Lemma u16_small z : in_u16 z -> u16 z = z.
Proof. apply Z.mod_small. Qed.

Lemma u32_small z : in_u32 z -> u32 z = z.
Proof. apply Z.mod_small. Qed.

Lemma u64_small z : 0 <= z < 2 ^ 64 -> u64 z = z.
Proof. apply Z.mod_small. Qed.

#[export] Hint Resolve u8_range u16_range u32_range : word.

(** Bit-or of disjoint bit fields is addition, and a mask of a byte is a digit. *)
Lemma lor_add_disjoint a b k :
  0 <= k -> 0 <= b < 2 ^ k -> Z.lor (a * 2 ^ k) b = a * 2 ^ k + b.
Proof.
  intros Hk Hb. pose proof (Z.add_lor_land (a * 2 ^ k) b) as E.
  enough (Z.land (a * 2 ^ k) b = 0) by lia. clear E.
  apply Z.bits_inj'. intros n Hn. rewrite Z.land_spec, Z.bits_0.
  destruct (Z.ltb_spec n k).
  - by rewrite Z.mul_pow2_bits_low by lia.
  - replace (Z.testbit b n) with false; [apply andb_false_r|].
    destruct (Z.eq_dec b 0) as [->|]; [by rewrite Z.bits_0|].
    symmetry. apply Z.bits_above_log2; [lia|].
    apply Z.lt_le_trans with k; [|lia]. apply Z.log2_lt_pow2; lia.
Qed.

Lemma land_byte v k : 0 <= k -> Z.land v (Z.shiftl 255 k) = (v / 2 ^ k mod 256) * 2 ^ k.
Proof.
  intros Hk. rewrite <- Z.shiftr_div_pow2 by done. change 256 with (2 ^ 8).
  rewrite <- Z.land_ones by lia. rewrite <- Z.shiftl_mul_pow2 by done.
  apply Z.bits_inj'. intros n Hn. rewrite Z.land_spec, !Z.shiftl_spec by done.
  destruct (Z.ltb_spec n k).
  - by rewrite !(Z.testbit_neg_r _ (n - k)), andb_false_r by lia.
  - rewrite Z.land_spec, Z.shiftr_spec by lia. f_equal. f_equal. lia.
Qed.

Lemma bytesb_spec l : bytesb l = true <-> bytes l.
Proof.
  unfold bytesb, bytes, in_u8. rewrite forallb_forall, Forall_forall.
  split; intros H x Hx.
  - apply list_elem_of_In, H, andb_prop in Hx as [? ?]. lia.
  - apply list_elem_of_In, H in Hx. apply andb_true_intro. lia.
Qed.

Lemma bytes_app l k : bytes (l ++ k) <-> bytes l /\ bytes k.
Proof. apply Forall_app. Qed.

Lemma bytes_cons b l : bytes (b :: l) <-> in_u8 b /\ bytes l.
Proof. apply Forall_cons. Qed.

Lemma bytes_nil : bytes [].
Proof. apply Forall_nil_2. Qed.

Lemma bytes_take n l : bytes l -> bytes (take n l).
Proof. apply Forall_take. Qed.

Lemma bytes_drop n l : bytes l -> bytes (drop n l).
Proof. apply Forall_drop. Qed.

Lemma bytes_zeros n : bytes (replicate n 0).
Proof. apply Forall_replicate. unfold in_u8. lia. Qed.

#[export] Hint Resolve bytes_nil bytes_take bytes_drop bytes_zeros : word.

(** ** Byte order of the machine

    Multi-byte loads and stores depend on the platform.  The source finds the
    order out at run time ([byteorder] of util.c), so the model is generic in
    it: every theorem holds on both kinds of machine unless it says otherwise. *)

Inductive byte_order := LittleEndian | BigEndian.

Class Machine := machine_order : byte_order.

Definition little_endian_machine : Machine := LittleEndian.
Definition big_endian_machine : Machine := BigEndian.

Section Memory.
Context {Mc : Machine}.

(** The value of a [uint16_t] object whose bytes, in address order, are [b0], [b1]. *)
Definition load16 (b0 b1 : Z) : Z :=
  match machine_order with
  | LittleEndian => b0 + 256 * b1
  | BigEndian => 256 * b0 + b1
  end.

Definition store16 (v : Z) : list Z :=
  match machine_order with
  | LittleEndian => [v mod 256; v / 256]
  | BigEndian => [v / 256; v mod 256]
  end.

Definition load32 (b0 b1 b2 b3 : Z) : Z :=
  match machine_order with
  | LittleEndian => b0 + 256 * b1 + 65536 * b2 + 16777216 * b3
  | BigEndian => 16777216 * b0 + 65536 * b1 + 256 * b2 + b3
  end.

Definition store32 (v : Z) : list Z :=
  match machine_order with
  | LittleEndian => [v mod 256; v / 256 mod 256; v / 65536 mod 256; v / 16777216]
  | BigEndian => [v / 16777216; v / 65536 mod 256; v / 256 mod 256; v mod 256]
  end.

(** Field reads at a byte offset of a buffer; [None] is a read past its end. *)
Definition rd8 (buf : list Z) (off : nat) : option Z := buf !! off.

Definition rd16 (buf : list Z) (off : nat) : option Z :=
  match drop off buf with
  | b0 :: b1 :: _ => Some (load16 b0 b1)
  | _ => None
  end.

Definition rd32 (buf : list Z) (off : nat) : option Z :=
  match drop off buf with
  | b0 :: b1 :: b2 :: b3 :: _ => Some (load32 b0 b1 b2 b3)
  | _ => None
  end.

(** [n] bytes from offset [off], [None] when they are not all there. *)
Definition rdn (buf : list Z) (off n : nat) : option (list Z) :=
  if decide (off + n <= length buf)%nat then Some (take n (drop off buf)) else None.

Lemma load16_range b0 b1 : in_u8 b0 -> in_u8 b1 -> in_u16 (load16 b0 b1).
Proof. unfold in_u8, in_u16, load16. destruct machine_order; lia. Qed.

Lemma load32_range b0 b1 b2 b3 :
  in_u8 b0 -> in_u8 b1 -> in_u8 b2 -> in_u8 b3 -> in_u32 (load32 b0 b1 b2 b3).
Proof. unfold in_u8, in_u32, load32. destruct machine_order; lia. Qed.

Lemma store16_bytes v : in_u16 v -> bytes (store16 v).
Proof.
  unfold in_u16, store16, bytes, in_u8. intros H.
  destruct machine_order; repeat constructor; Z.div_mod_to_equations; lia.
Qed.

Lemma store32_bytes v : in_u32 v -> bytes (store32 v).
Proof.
  unfold in_u32, store32, bytes, in_u8. intros H.
  destruct machine_order; repeat constructor; Z.div_mod_to_equations; lia.
Qed.

Lemma length_store16 v : length (store16 v) = 2%nat.
Proof. unfold store16. by destruct machine_order. Qed.

Lemma length_store32 v : length (store32 v) = 4%nat.
Proof. unfold store32. by destruct machine_order. Qed.

(** Loading what was stored gives the value back. *)
Lemma store16_load16 v :
  exists b0 b1, store16 v = [b0; b1] /\ load16 b0 b1 = v.
Proof.
  unfold store16, load16. destruct machine_order; do 2 eexists; split; [done| |done|];
    Z.div_mod_to_equations; lia.
Qed.

Lemma store32_load32 v :
  exists b0 b1 b2 b3, store32 v = [b0; b1; b2; b3] /\ load32 b0 b1 b2 b3 = v.
Proof.
  unfold store32, load32.
  destruct machine_order; do 4 eexists; (split; [done|]); Z.div_mod_to_equations; lia.
Qed.

Lemma load16_store16 b0 b1 :
  in_u8 b0 -> in_u8 b1 -> store16 (load16 b0 b1) = [b0; b1].
Proof.
  unfold in_u8, store16, load16. intros ? ?.
  destruct machine_order; repeat f_equal; Z.div_mod_to_equations; lia.
Qed.

Lemma load32_store32 b0 b1 b2 b3 :
  in_u8 b0 -> in_u8 b1 -> in_u8 b2 -> in_u8 b3 ->
  store32 (load32 b0 b1 b2 b3) = [b0; b1; b2; b3].
Proof.
  unfold in_u8, store32, load32. intros ? ? ? ?.
  destruct machine_order; repeat f_equal; Z.div_mod_to_equations; lia.
Qed.

Lemma rd16_app_store (pre post : list Z) v off :
  off = length pre -> rd16 (pre ++ store16 v ++ post) off = Some v.
Proof.
  intros ->. unfold rd16. rewrite drop_app_length.
  destruct (store16_load16 v) as (b0 & b1 & -> & E). simpl. by rewrite E.
Qed.

Lemma rd32_app_store (pre post : list Z) v off :
  off = length pre -> rd32 (pre ++ store32 v ++ post) off = Some v.
Proof.
  intros ->. unfold rd32. rewrite drop_app_length.
  destruct (store32_load32 v) as (b0 & b1 & b2 & b3 & -> & E). simpl. by rewrite E.
Qed.

Lemma rd8_in buf off : (off < length buf)%nat -> exists v, rd8 buf off = Some v.
Proof. intros H. apply lookup_lt_is_Some_2 in H as [v ?]. by exists v. Qed.

Lemma rd16_in buf off : (off + 2 <= length buf)%nat -> exists v, rd16 buf off = Some v.
Proof.
  intros H. unfold rd16. pose proof (length_drop buf off) as L.
  destruct (drop off buf) as [|b0 [|b1 r]]; simpl in L; [lia..|eauto].
Qed.

Lemma rd32_in buf off : (off + 4 <= length buf)%nat -> exists v, rd32 buf off = Some v.
Proof.
  intros H. unfold rd32. pose proof (length_drop buf off) as L.
  destruct (drop off buf) as [|b0 [|b1 [|b2 [|b3 r]]]]; simpl in L; [lia..|eauto].
Qed.

Lemma rdn_in buf off n :
  (off + n <= length buf)%nat -> rdn buf off n = Some (take n (drop off buf)).
Proof. intros H. unfold rdn. by rewrite decide_True by lia. Qed.

Lemma rdn_app_mid (pre mid post : list Z) off n :
  off = length pre -> n = length mid -> rdn (pre ++ mid ++ post) off n = Some mid.
Proof.
  intros -> ->. rewrite rdn_in by (rewrite !length_app; lia).
  by rewrite drop_app_length, take_app_length.
Qed.

Lemma rd16_bytes buf off v : bytes buf -> rd16 buf off = Some v -> in_u16 v.
Proof.
  unfold rd16. intros Hb%(bytes_drop off).
  destruct (drop off buf) as [|b0 [|b1 r]]; [done..|].
  apply bytes_cons in Hb as [? [? _]%bytes_cons]. intros [= <-]. by apply load16_range.
Qed.

Lemma rd32_bytes buf off v : bytes buf -> rd32 buf off = Some v -> in_u32 v.
Proof.
  unfold rd32. intros Hb%(bytes_drop off).
  destruct (drop off buf) as [|b0 [|b1 [|b2 [|b3 r]]]]; [done..|].
  apply bytes_cons in Hb as [? [? [? [? _]%bytes_cons]%bytes_cons]%bytes_cons].
  intros [= <-]. by apply load32_range.
Qed.

Lemma rd8_bytes buf off v : bytes buf -> rd8 buf off = Some v -> in_u8 v.
Proof. unfold rd8. intros Hb E. by eapply Forall_lookup_1 in E. Qed.

Lemma rdn_bytes buf off n v : bytes buf -> rdn buf off n = Some v -> bytes v.
Proof. unfold rdn. intros Hb. case_decide; [|done]. intros [= <-]. by apply bytes_take, bytes_drop. Qed.

Lemma rdn_Some buf off n v :
  rdn buf off n = Some v -> (off + n <= length buf)%nat /\ v = take n (drop off buf).
Proof. unfold rdn. case_decide; [|done]. by intros [= <-]. Qed.

Lemma rdn_length buf off n v : rdn buf off n = Some v -> length v = n.
Proof.
  unfold rdn. case_decide; [|done]. intros [= <-]. rewrite length_take, length_drop. lia.
Qed.

End Memory.

#[export] Hint Resolve load16_range load32_range store16_bytes store32_bytes
  rd8_bytes rd16_bytes rd32_bytes rdn_bytes : word.

(** ** Effects

    The code runs on a state [S] and either returns or does something C leaves
    undefined; [fault] names what went wrong. *)

Inductive fault :=
| OutOfBounds   (* access outside an object *)
| NullDeref     (* use of a null or dangling pointer *)
| Deadlock      (* a thread locks a mutex it already holds *)
| NotOwner      (* unlock of a mutex that is not held *).

Inductive outcome (S A : Type) :=
| Ret (a : A) (s : S)
| Fault (f : fault).
Arguments Ret {S A} a s.
Arguments Fault {S A} f.

Definition M (S A : Type) : Type := S -> outcome S A.

Definition ret {S A} (a : A) : M S A := fun s => Ret a s.
Definition bind {S A B} (m : M S A) (k : A -> M S B) : M S B :=
  fun s => match m s with
           | Ret a s' => k a s'
           | Fault f => Fault f
           end.
Definition throw {S A} (f : fault) : M S A := fun _ => Fault f.
Definition get {S} : M S S := fun s => Ret s s.
Definition gets {S A} (f : S -> A) : M S A := fun s => Ret (f s) s.
Definition modify {S} (f : S -> S) : M S unit := fun s => Ret tt (f s).
(** A read that may leave its object. *)
Definition opt {S A} (f : fault) (o : option A) : M S A :=
  match o with Some a => ret a | None => throw f end.

Declare Scope cmonad_scope.
Delimit Scope cmonad_scope with cmonad.
Notation "'let!' x := m 'in' k" := (bind m (fun x => k))
  (at level 10, x pattern at level 0, m at level 100, k at level 200) : cmonad_scope.
Notation "m ;; k" := (bind m (fun _ => k))
  (at level 100, k at level 200, right associativity) : cmonad_scope.

(** Weakest preconditions: [wp m s Q] says that [m] run from [s] returns, without
    a fault, in a state where [Q] holds. *)
Definition wp {S A} (m : M S A) (s : S) (Q : A -> S -> Prop) : Prop :=
  match m s with
  | Ret a s' => Q a s'
  | Fault _ => False
  end.

Section Wp.
Context {S : Type}.

Lemma wp_ret {A} (a : A) (s : S) Q : Q a s -> wp (ret a) s Q.
Proof. done. Qed.

Lemma wp_bind {A B} (m : M S A) (k : A -> M S B) s Q :
  wp m s (fun a s' => wp (k a) s' Q) -> wp (bind m k) s Q.
Proof. unfold wp, bind. by destruct (m s). Qed.

Lemma wp_mono {A} (m : M S A) s (Q Q' : A -> S -> Prop) :
  wp m s Q -> (forall a s', Q a s' -> Q' a s') -> wp m s Q'.
Proof. unfold wp. destruct (m s); eauto. Qed.

Lemma wp_gets {A} (f : S -> A) s (Q : A -> S -> Prop) : Q (f s) s -> wp (gets f) s Q.
Proof. done. Qed.

Lemma wp_get s (Q : S -> S -> Prop) : Q s s -> wp get s Q.
Proof. done. Qed.

Lemma wp_modify (f : S -> S) s (Q : unit -> S -> Prop) : Q tt (f s) -> wp (modify f) s Q.
Proof. done. Qed.

Lemma wp_opt {A} e (o : option A) a s (Q : A -> S -> Prop) :
  o = Some a -> Q a s -> wp (opt e o) s Q.
Proof. by intros ->. Qed.

Lemma wp_run {A} (m : M S A) s Q :
  wp m s Q -> exists a s', m s = Ret a s' /\ Q a s'.
Proof. unfold wp. destruct (m s); [eauto|done]. Qed.

Lemma wp_of_run {A} (m : M S A) s a s' (Q : A -> S -> Prop) :
  m s = Ret a s' -> Q a s' -> wp m s Q.
Proof. unfold wp. by intros ->. Qed.

Lemma wp_and {A} (m : M S A) s (P Q : A -> S -> Prop) :
  wp m s P -> wp m s Q -> wp m s (fun a s' => P a s' /\ Q a s').
Proof. unfold wp. destruct (m s); eauto. Qed.

Lemma bind_ret {A B} (m : M S A) (k : A -> M S B) s a s' :
  m s = Ret a s' -> bind m k s = k a s'.
Proof. unfold bind. by intros ->. Qed.

Lemma bind_fault {A B} (m : M S A) (k : A -> M S B) s e : m s = Fault e -> bind m k s = Fault e.
Proof. unfold bind. by intros ->. Qed.

Lemma bind_inv {A B} (m : M S A) (k : A -> M S B) s b s'' :
  bind m k s = Ret b s'' -> exists a s', m s = Ret a s' /\ k a s' = Ret b s''.
Proof. unfold bind. destruct (m s); [eauto|done]. Qed.
End Wp.

(** Partial correctness: if [m] returns, then in a state where [Q] holds. *)
Definition pw {S A} (m : M S A) (s : S) (Q : A -> S -> Prop) : Prop :=
  match m s with
  | Ret a s' => Q a s'
  | Fault _ => True
  end.

Section Pw.
Context {S : Type}.

Lemma pw_ret {A} (a : A) (s : S) (Q : A -> S -> Prop) : Q a s -> pw (ret a) s Q.
Proof. done. Qed.

Lemma pw_throw {A} e (s : S) (Q : A -> S -> Prop) : pw (throw e) s Q.
Proof. done. Qed.

Lemma pw_bind {A B} (m : M S A) (k : A -> M S B) s Q :
  pw m s (fun a s' => pw (k a) s' Q) -> pw (bind m k) s Q.
Proof. unfold pw, bind. by destruct (m s). Qed.

Lemma pw_mono {A} (m : M S A) s (Q Q' : A -> S -> Prop) :
  pw m s Q -> (forall a s', Q a s' -> Q' a s') -> pw m s Q'.
Proof. unfold pw. destruct (m s); eauto. Qed.

Lemma pw_gets {A} (f : S -> A) s (Q : A -> S -> Prop) : Q (f s) s -> pw (gets f) s Q.
Proof. done. Qed.

Lemma pw_get s (Q : S -> S -> Prop) : Q s s -> pw get s Q.
Proof. done. Qed.

Lemma pw_modify (f : S -> S) s (Q : unit -> S -> Prop) : Q tt (f s) -> pw (modify f) s Q.
Proof. done. Qed.

Lemma pw_opt {A} e (o : option A) s (Q : A -> S -> Prop) : (forall a, o = Some a -> Q a s) -> pw (opt e o) s Q.
Proof. destruct o; [intros H; by apply H|done]. Qed.

Lemma pw_and {A} (m : M S A) s (P Q : A -> S -> Prop) :
  pw m s P -> pw m s Q -> pw m s (fun a s' => P a s' /\ Q a s').
Proof. unfold pw. destruct (m s); done. Qed.

Lemma pw_of_wp {A} (m : M S A) s (Q : A -> S -> Prop) : wp m s Q -> pw m s Q.
Proof. unfold wp, pw. by destruct (m s). Qed.

Lemma wp_pw {A} (m : M S A) s (P Q : A -> S -> Prop) :
  wp m s P -> pw m s Q -> wp m s (fun a s' => P a s' /\ Q a s').
Proof. unfold wp, pw. destruct (m s); done. Qed.
End Pw.

(** A computation that leaves a projection of the state as it was. *)
Class Preserves {S A T} (f : S -> T) (m : M S A) : Prop :=
  preserves : forall s a s', m s = Ret a s' -> f s' = f s.

Section Preserves.
Context {S T : Type} (f : S -> T).

#[export] Instance preserves_ret {A} (a : A) : Preserves f (ret a).
Proof. by intros s b s' [= <- <-]. Qed.

#[export] Instance preserves_throw {A} e : Preserves f (@throw S A e).
Proof. intros s b s' [=]. Qed.

#[export] Instance preserves_get : Preserves f get.
Proof. by intros s b s' [= <- <-]. Qed.

#[export] Instance preserves_gets {A} (g : S -> A) : Preserves f (gets g).
Proof. by intros s b s' [= <- <-]. Qed.

#[export] Instance preserves_opt {A} e (o : option A) : Preserves f (opt e o).
Proof. destruct o; apply _. Qed.

#[export] Instance preserves_bind {A B} (m : M S A) (k : A -> M S B) :
  Preserves f m -> (forall a, Preserves f (k a)) -> Preserves f (bind m k).
Proof.
  intros Hm Hk s b s'' (a & s' & E & E')%bind_inv.
  rewrite (Hk a _ _ _ E'). exact (Hm _ _ _ E).
Qed.

Lemma preserves_bind_opt {A B} e (o : option A) (k : A -> M S B) :
  (forall a, o = Some a -> Preserves f (k a)) -> Preserves f (bind (opt e o) k).
Proof. intros H. destruct o as [a|]; [by apply (H a)|]. by intros s b s'. Qed.

Lemma preserves_modify (g : S -> S) : (forall s, f (g s) = f s) -> Preserves f (modify g).
Proof. intros H s b s' [= _ <-]. apply H. Qed.
End Preserves.

Lemma wp_preserves {S A T} (f : S -> T) (m : M S A) s Q :
  Preserves f m -> wp m s Q -> wp m s (fun a s' => Q a s' /\ f s' = f s).
Proof. unfold wp. intros P W. destruct (m s) eqn:E; [|done]. split; [done|]. by eapply P. Qed.

Lemma pw_preserves {S A T} (f : S -> T) (m : M S A) s :
  Preserves f m -> pw m s (fun _ s' => f s' = f s).
Proof. unfold pw. intros P. destruct (m s) eqn:E; [by eapply P|done]. Qed.

(** A computation that moves the state along a preorder. *)
Class Evolves {S A} (R : S -> S -> Prop) (m : M S A) : Prop :=
  evolves : forall s a s', m s = Ret a s' -> R s s'.

Section Evolves.
Context {S : Type} (R : S -> S -> Prop) `{!PreOrder R}.

#[export] Instance evolves_ret {A} (a : A) : Evolves R (ret a).
Proof. by intros s b s' [= <- <-]. Qed.

#[export] Instance evolves_throw {A} e : Evolves R (@throw S A e).
Proof. intros s b s' [=]. Qed.

#[export] Instance evolves_get : Evolves R get.
Proof. by intros s b s' [= <- <-]. Qed.

#[export] Instance evolves_gets {A} (g : S -> A) : Evolves R (gets g).
Proof. by intros s b s' [= <- <-]. Qed.

#[export] Instance evolves_opt {A} e (o : option A) : Evolves R (opt e o).
Proof. destruct o; apply _. Qed.

#[export] Instance evolves_bind {A B} (m : M S A) (k : A -> M S B) :
  Evolves R m -> (forall a, Evolves R (k a)) -> Evolves R (bind m k).
Proof.
  intros Hm Hk s b s'' (a & s' & E & E')%bind_inv. transitivity s'; [exact (Hm _ _ _ E)|exact (Hk a _ _ _ E')].
Qed.

Lemma evolves_modify (g : S -> S) : (forall s, R s (g s)) -> Evolves R (modify g).
Proof. intros H s b s' [= _ <-]. apply H. Qed.

Lemma pw_evolves {A} (m : M S A) s : Evolves R m -> pw m s (fun _ s' => R s s').
Proof. unfold pw. intros P. destruct (m s) eqn:E; [by eapply P|done]. Qed.

Lemma wp_evolves {A} (m : M S A) s Q : Evolves R m -> wp m s Q -> wp m s (fun a s' => Q a s' /\ R s s').
Proof. intros P W. apply wp_pw; [done|by apply pw_evolves]. Qed.
End Evolves.

(** One step of symbolic execution, and its iteration. *)
Ltac wp_step :=
  lazymatch goal with
  | |- wp (bind _ _) _ _ => apply wp_bind
  | |- wp (ret _) _ _ => apply wp_ret
  | |- wp (gets _) _ _ => apply wp_gets
  | |- wp get _ _ => apply wp_get
  | |- wp (modify _) _ _ => apply wp_modify
  | |- wp (opt _ (Some _)) _ _ => eapply wp_opt; [reflexivity|]
  | H : ?o = Some _ |- wp (opt _ ?o) _ _ => apply (wp_opt _ _ _ _ _ H)
  end; cbv beta.
Ltac wp_steps := repeat wp_step.

Ltac pw_step :=
  lazymatch goal with
  | |- pw (bind _ _) _ _ => apply pw_bind
  | |- pw (ret _) _ _ => apply pw_ret
  | |- pw (throw _) _ _ => apply pw_throw
  | |- pw (gets _) _ _ => apply pw_gets
  | |- pw get _ _ => apply pw_get
  | |- pw (modify _) _ _ => apply pw_modify
  | |- pw (opt _ _) _ _ => let a := fresh "a" in let E := fresh "E" in apply pw_opt; intros a E
  end; cbv beta.
Ltac pw_steps := repeat pw_step.

(** Discharges [Preserves] goals of a straight-line or branching body. *)
Ltac solve_preserves :=
  repeat match goal with
  | |- Preserves _ (bind _ _) => apply preserves_bind; [|intros ?]
  | |- Preserves _ (modify _) => apply preserves_modify; intros ?; reflexivity
  | |- Preserves _ (match ?x with _ => _ end) => destruct x
  | |- Preserves _ (let '_ := ?x in _) => destruct x
  | |- Preserves _ _ => apply _
  end.

(** The same for [Evolves]. *)
Ltac solve_evolves :=
  repeat match goal with
  | |- Evolves _ (bind _ _) => apply evolves_bind; [typeclasses eauto| |intros ?]
  | |- Evolves _ (match ?x with _ => _ end) => destruct x
  | |- Evolves _ (let '_ := ?x in _) => destruct x
  | |- Evolves _ _ => apply _
  end.

(** ** Invariants

    [maintains I P m]: run in a state of [I], [m] leaves such a state and returns a
    value in [P].  The rules are in the hint database [maintains]; a component adds
    a lemma per operation, and [maintains_tac] runs through a body with them. *)

Definition maintains {S A} (I : S -> Prop) (P : A -> Prop) (m : M S A) : Prop :=
  forall s, I s -> pw m s (fun a s' => I s' /\ P a).

(** Any value. *)
Definition any {A} : A -> Prop := fun _ => True.

Section Maintains.
Context {S : Type} (I : S -> Prop).

Lemma maintains_ret {A} (P : A -> Prop) a : P a -> maintains I P (ret a).
Proof. intros H s T. by apply pw_ret. Qed.

Lemma maintains_throw {A} (P : A -> Prop) e : maintains I P (throw e).
Proof. intros s T. apply pw_throw. Qed.

Lemma maintains_bind {A B} (P : A -> Prop) (Q : B -> Prop) m k :
  maintains I P m -> (forall a, P a -> maintains I Q (k a)) -> maintains I Q (bind m k).
Proof. intros Hm Hk s T. apply pw_bind. eapply pw_mono; [by apply Hm|]. intros a s' [T' Ha]. by apply Hk. Qed.

Lemma maintains_mono {A} (P Q : A -> Prop) m : maintains I P m -> (forall a, P a -> Q a) -> maintains I Q m.
Proof. intros Hm H s T. eapply pw_mono; [by apply Hm|]. intros a s' [T' Ha]. auto. Qed.

Lemma maintains_any {A} (P : A -> Prop) (m : M S A) : maintains I P m -> maintains I any m.
Proof. intros H. by eapply maintains_mono. Qed.

Lemma maintains_gets {A} (P : A -> Prop) f : (forall s, I s -> P (f s)) -> maintains I P (gets f).
Proof. intros H s T. apply pw_gets. auto. Qed.

Lemma maintains_modify f : (forall s, I s -> I (f s)) -> maintains I any (modify f).
Proof. intros H s T. apply pw_modify. split; [auto|done]. Qed.

(** A read, whose value is in its buffer. *)
Lemma maintains_opt {A} e (o : option A) : maintains I (fun a => o = Some a) (opt e o).
Proof. intros s T. apply pw_opt. intros a E. auto. Qed.

Lemma maintains_bind_Some {A B} (Q : B -> Prop) e (a : A) k : maintains I Q (k a) -> maintains I Q (bind (opt e (Some a)) k).
Proof. intros H. eapply maintains_bind; [apply maintains_opt|]. by intros x [= <-]. Qed.

(** A computation that leaves alone what the invariant is about. *)
Lemma maintains_preserves {A T} (f : S -> T) (m : M S A) :
  (forall s s', f s' = f s -> I s -> I s') -> Preserves f m -> maintains I any m.
Proof.
  intros Hf H s T'. unfold pw. destruct (m s) as [a s'|] eqn:E; [|done]. split; [|done].
  eapply Hf; [by eapply H|done].
Qed.
End Maintains.

Create HintDb maintains.
#[export] Hint Resolve maintains_ret maintains_throw maintains_opt : maintains.
#[export] Hint Extern 1 (any _) => exact I : maintains.

(** One step of a computation: the next call has a lemma among the hints. *)
Ltac maintains_step :=
  lazymatch goal with
  | |- maintains ?I _ (bind _ _) =>
      first [eapply maintains_bind; [solve [eauto with maintains]|]
            |eapply (maintains_bind I any); [solve [repeat maintains_step]|]];
      intros ? ?; cbn beta iota zeta in *
  | |- maintains _ _ (ret _) => apply maintains_ret; solve [eauto with maintains]
  | |- maintains _ _ (throw _) => apply maintains_throw
  | |- maintains _ _ (match ?x with _ => _ end) => let E := fresh "E" in destruct x eqn:E
  | |- maintains _ _ (let '(_, _) := ?x in _) => destruct x
  | |- maintains _ _ _ => first [solve [eauto with maintains]|eapply maintains_any; solve [eauto with maintains]]
  end.
Ltac maintains_tac := repeat maintains_step.
