(* ===== verification/Util.v ===== *)
(** * Byte order, Internet checksum and time arithmetic (src/lib/util.c, util.h)

    The conversions between host and network order with their cached byte order,
    the Internet checksum loop, and the time macros.  The checksum is related to
    the one's complement sum of RFC 1071 through [ones], the value the carry
    folding loop computes. *)

From stdpp Require Import base numbers list option.
From Stdlib Require Import ZArith Lia.
From S2P Require Import Prelude.

(** ** Byte order conversions *)

Definition BIG_ENDIAN : Z := 4321.
Definition LITTLE_ENDIAN : Z := 1234.

Section ByteOrder.
Context {Mc : Machine}.

(** [x = 0x00000001] seen through its first byte. *)
Definition byteorder : Z :=
  match store32 1 with
  | b :: _ => if truthy b then LITTLE_ENDIAN else BIG_ENDIAN
  | [] => BIG_ENDIAN
  end.

Definition byteswap16 (v : Z) : Z :=
  u16 (Z.lor (Z.shiftl (Z.land v 0x00ff) 8) (Z.shiftr (Z.land v 0xff00) 8)).

Definition byteswap32 (v : Z) : Z :=
  u32 (Z.lor (Z.lor (Z.lor (Z.shiftl (Z.land v 0x000000ff) 24)
                           (Z.shiftl (Z.land v 0x0000ff00) 8))
                    (Z.shiftr (Z.land v 0x00ff0000) 8))
             (Z.shiftr (Z.land v 0xff000000) 24)).

(** The functions as written: [endian] is the static variable that caches the
    byte order, 0 until the first call.  The result carries its new value. *)
Definition hton16_cached (endian h : Z) : Z * Z :=
  let endian := if truthy endian then endian else byteorder in
  (if endian =? LITTLE_ENDIAN then byteswap16 h else h, endian).

Definition ntoh16_cached (endian n : Z) : Z * Z :=
  let endian := if truthy endian then endian else byteorder in
  (if endian =? LITTLE_ENDIAN then byteswap16 n else n, endian).

Definition hton32_cached (endian h : Z) : Z * Z :=
  let endian := if truthy endian then endian else byteorder in
  (if endian =? LITTLE_ENDIAN then byteswap32 h else h, endian).

Definition ntoh32_cached (endian n : Z) : Z * Z :=
  let endian := if truthy endian then endian else byteorder in
  (if endian =? LITTLE_ENDIAN then byteswap32 n else n, endian).

(** What the rest of the stack sees: the cache never shows ([hton_cache_transparent]),
    so the clients use the conversions from the initial value of [endian]. *)
Definition hton16 (h : Z) : Z := (hton16_cached 0 h).1.
Definition ntoh16 (n : Z) : Z := (ntoh16_cached 0 n).1.
Definition hton32 (h : Z) : Z := (hton32_cached 0 h).1.
Definition ntoh32 (n : Z) : Z := (ntoh32_cached 0 n).1.

(** The values [endian] can take: unset, or the byte order of the machine. *)
Definition endian_ok (endian : Z) : Prop := endian = 0 \/ endian = byteorder.

End ByteOrder.

(** ** Internet checksum *)

Section Checksum.
Context {Mc : Machine}.

(** [while (count > 1) { sum += *(addr++); count -= 2; }]: the sum, what is left
    of [count] and of the buffer; [None] when a read leaves the buffer. *)
Fixpoint cksum_words (addr : list Z) (count sum : Z) : option (Z * Z * list Z) :=
  if count >? 1 then
    match addr with
    | b0 :: b1 :: rest => cksum_words rest (count - 2) (u32 (sum + load16 b0 b1))
    | _ => None
    end
  else Some (sum, count, addr).

(** [while (sum >> 16) sum = (sum & 0xffff) + (sum >> 16)], with fuel. *)
Fixpoint cksum_fold (fuel : nat) (sum : Z) : option Z :=
  if truthy (Z.shiftr sum 16) then
    match fuel with
    | O => None
    | S fuel => cksum_fold fuel (u32 (Z.land sum 0xffff + Z.shiftr sum 16))
    end
  else Some sum.

(** Two rounds are enough for a 32-bit sum ([cksum_fold_ones]). *)
Definition cksum_fuel : nat := 2.

(** [cksum16(addr, count, init)]: [count] is a [uint16_t] and [init] a [uint32_t]
    parameter, so the arguments are truncated first. *)
Definition cksum16 (addr : list Z) (count init : Z) : option Z :=
  match cksum_words addr (u16 count) (u32 init) with
  | None => None
  | Some (sum, count, addr) =>
      match (if count >? 0 then
               match addr with
               | b :: _ => Some (u32 (sum + b))
               | [] => None
               end
             else Some sum) with
      | None => None
      | Some sum =>
          match cksum_fold cksum_fuel sum with
          | None => None
          | Some sum => Some (u16 (Z.lnot (u16 sum)))
          end
      end
  end.

(** The sum of the 16-bit words of a buffer as the loop takes them, an odd last
    byte on its own. *)
Fixpoint wsum (l : list Z) : Z :=
  match l with
  | b0 :: b1 :: rest => load16 b0 b1 + wsum rest
  | [b] => b
  | [] => 0
  end.

End Checksum.

(** The representative of [s] modulo 65535 that carry folding ends in: 0 only
    for 0, and 65535 for the other multiples. *)
Definition ones (s : Z) : Z := if s =? 0 then 0 else 1 + (s - 1) mod 65535.

(** RFC 1071: the checksum of a buffer whose words are in network order, an odd
    last byte padded on the right with a zero byte. *)
Fixpoint rfc1071_sum (l : list Z) : Z :=
  match l with
  | b0 :: b1 :: rest => 256 * b0 + b1 + rfc1071_sum rest
  | [b] => 256 * b
  | [] => 0
  end.

Definition rfc1071 (l : list Z) : Z := 65535 - ones (rfc1071_sum l).

(** ** Time (the macros of sys/time.h the source uses) *)

Record timeval := Timeval { tv_sec : Z; tv_usec : Z }.

#[export] Instance timeval_eq_dec : EqDecision timeval.
Proof. solve_decision. Defined.

(** A normalised time: less than a million microseconds. *)
Definition timeval_ok (t : timeval) : Prop := 0 <= tv_usec t < 1000000.

Definition timersub (a b : timeval) : timeval :=
  let sec := tv_sec a - tv_sec b in
  let usec := tv_usec a - tv_usec b in
  if usec <? 0 then Timeval (sec - 1) (usec + 1000000) else Timeval sec usec.

Definition timercmp_lt (a b : timeval) : bool :=
  if tv_sec a =? tv_sec b then tv_usec a <? tv_usec b else tv_sec a <? tv_sec b.

Definition timercmp_gt (a b : timeval) : bool :=
  if tv_sec a =? tv_sec b then tv_usec a >? tv_usec b else tv_sec a >? tv_sec b.

Definition timeval_add_usec (x : timeval) (y : Z) : timeval :=
  let sec := tv_sec x + Z.quot y 1000000 in
  let usec := tv_usec x + Z.rem y 1000000 in
  if usec >=? 1000000 then Timeval (sec + 1) (usec - 1000000) else Timeval sec usec.

(** [timespec_add_nsec]: the same on a pair of seconds and nanoseconds. *)
Definition timespec_add_nsec (x : Z * Z) (y : Z) : Z * Z :=
  let sec := x.1 + Z.quot y 1000000000 in
  let nsec := x.2 + Z.rem y 1000000000 in
  if nsec >=? 1000000000 then (sec + 1, nsec - 1000000000) else (sec, nsec).

(** Microseconds since the epoch. *)
Definition usecs (t : timeval) : Z := 1000000 * tv_sec t + tv_usec t.

(** ** Lemmas: byte order *)

Section ByteOrderFacts.
Context {Mc : Machine}.

Lemma byteorder_cases :
  (machine_order = LittleEndian /\ byteorder = LITTLE_ENDIAN) \/
  (machine_order = BigEndian /\ byteorder = BIG_ENDIAN).
Proof. unfold byteorder, store32. destruct machine_order; [left|right]; done. Qed.

Lemma byteswap16_spec v : in_u16 v -> byteswap16 v = 256 * (v mod 256) + v / 256.
Proof.
  unfold in_u16, byteswap16, u16. intros H.
  change 0x00ff with (Z.shiftl 255 0). change 0xff00 with (Z.shiftl 255 8).
  rewrite !land_byte by lia.
  rewrite Z.shiftl_mul_pow2, Z.shiftr_div_pow2 by lia.
  rewrite Z.div_mul, lor_add_disjoint by (Z.div_mod_to_equations; lia).
  rewrite Z.mod_small; Z.div_mod_to_equations; lia.
Qed.

Lemma byteswap32_spec v :
  in_u32 v ->
  byteswap32 v = 16777216 * (v mod 256) + 65536 * (v / 256 mod 256)
                 + 256 * (v / 65536 mod 256) + v / 16777216.
Proof.
  unfold in_u32, byteswap32, u32. intros H.
  change 0x000000ff with (Z.shiftl 255 0). change 0x0000ff00 with (Z.shiftl 255 8).
  change 0x00ff0000 with (Z.shiftl 255 16). change 0xff000000 with (Z.shiftl 255 24).
  rewrite !land_byte by lia.
  rewrite !Z.shiftl_mul_pow2, !Z.shiftr_div_pow2 by lia.
  change (2 ^ 0) with 1. change (2 ^ 8) with 256. change (2 ^ 16) with 65536.
  change (2 ^ 24) with 16777216. rewrite Z.div_1_r, !Z.mul_1_r.
  set (a := v mod 256). set (b := v / 256 mod 256).
  set (c := v / 65536 mod 256). set (d := v / 16777216 mod 256).
  assert (0 <= a < 256 /\ 0 <= b < 256 /\ 0 <= c < 256 /\ 0 <= d < 256) as (Ha & Hb & Hc & Hd)
    by (repeat split; apply Z.mod_pos_bound; lia).
  assert (d = v / 16777216) as Ed by (unfold d; apply Z.mod_small; Z.div_mod_to_equations; lia).
  replace (c * 65536 / 256) with (c * 256) by (Z.div_mod_to_equations; lia).
  rewrite Z.div_mul by lia.
  change (Z.lor (a * 16777216)) with (Z.lor (a * 2 ^ 24)).
  rewrite (lor_add_disjoint a (b * 256 * 256) 24) by lia.
  replace (a * 2 ^ 24 + b * 256 * 256) with ((a * 256 + b) * 2 ^ 16) by lia.
  rewrite lor_add_disjoint by lia.
  replace ((a * 256 + b) * 2 ^ 16 + c * 256) with ((a * 65536 + b * 256 + c) * 2 ^ 8) by lia.
  rewrite lor_add_disjoint by lia. rewrite Z.mod_small by lia. lia.
Qed.

(** Conversion to network order makes the bytes in memory big-endian. *)
Lemma store16_hton16 v : in_u16 v -> store16 (hton16 v) = [v / 256; v mod 256].
Proof.
  intros H. unfold hton16, hton16_cached, store16. simpl.
  destruct byteorder_cases as [[-> ->]|[-> ->]]; simpl; [|done].
  rewrite byteswap16_spec by done. unfold in_u16 in H.
  repeat f_equal; Z.div_mod_to_equations; lia.
Qed.

Lemma load16_ntoh16 b0 b1 : in_u8 b0 -> in_u8 b1 -> ntoh16 (load16 b0 b1) = 256 * b0 + b1.
Proof.
  intros H0 H1. pose proof (load16_range b0 b1 H0 H1) as H.
  unfold ntoh16, ntoh16_cached, load16 in *. unfold in_u8 in *. simpl.
  destruct byteorder_cases as [[E ->]|[E ->]]; rewrite E in *; simpl; [|done].
  rewrite byteswap16_spec by done. Z.div_mod_to_equations; lia.
Qed.

Lemma load32_ntoh32 b0 b1 b2 b3 :
  in_u8 b0 -> in_u8 b1 -> in_u8 b2 -> in_u8 b3 ->
  ntoh32 (load32 b0 b1 b2 b3) = 16777216 * b0 + 65536 * b1 + 256 * b2 + b3.
Proof.
  intros H0 H1 H2 H3. pose proof (load32_range b0 b1 b2 b3 H0 H1 H2 H3) as H.
  unfold ntoh32, ntoh32_cached, load32 in *. unfold in_u8 in *. simpl.
  destruct byteorder_cases as [[E ->]|[E ->]]; rewrite E in *; simpl; [|done].
  rewrite byteswap32_spec by done. Z.div_mod_to_equations; lia.
Qed.

Lemma byteswap16_range v : in_u16 (byteswap16 v).
Proof. apply u16_range. Qed.

Lemma hton16_range v : in_u16 v -> in_u16 (hton16 v).
Proof.
  intros H. unfold hton16, hton16_cached. simpl.
  destruct byteorder_cases as [[_ ->]|[_ ->]]; simpl; [apply byteswap16_range|done].
Qed.

Lemma ntoh16_hton16 v : in_u16 v -> ntoh16 (hton16 v) = v.
Proof.
  intros H. unfold ntoh16, ntoh16_cached, hton16, hton16_cached. simpl.
  destruct byteorder_cases as [[_ ->]|[_ ->]]; simpl; [|done].
  rewrite !byteswap16_spec by (done || apply byteswap16_range || (rewrite byteswap16_spec; unfold in_u16 in *; Z.div_mod_to_equations; lia)).
  unfold in_u16 in H. Z.div_mod_to_equations; lia.
Qed.

Lemma hton16_ntoh16 v : in_u16 v -> hton16 (ntoh16 v) = v.
Proof. exact (ntoh16_hton16 v). Qed.

Lemma ntoh16_range v : in_u16 v -> in_u16 (ntoh16 v).
Proof. exact (hton16_range v). Qed.

Lemma hton16_inj v w : in_u16 v -> in_u16 w -> hton16 v = hton16 w -> v = w.
Proof. intros Hv Hw E. rewrite <- (ntoh16_hton16 v), <- (ntoh16_hton16 w) by done. by rewrite E. Qed.

Lemma byteswap32_digits a b c d :
  in_u8 a -> in_u8 b -> in_u8 c -> in_u8 d ->
  byteswap32 (a + 256 * b + 65536 * c + 16777216 * d)
  = d + 256 * c + 65536 * b + 16777216 * a.
Proof.
  unfold in_u8. intros. rewrite byteswap32_spec by (unfold in_u32; lia).
  Z.div_mod_to_equations; lia.
Qed.

Lemma digits32 v :
  in_u32 v -> exists a b c d, in_u8 a /\ in_u8 b /\ in_u8 c /\ in_u8 d /\
  v = a + 256 * b + 65536 * c + 16777216 * d.
Proof.
  unfold in_u32, in_u8. intros H.
  exists (v mod 256), (v / 256 mod 256), (v / 65536 mod 256), (v / 16777216).
  Z.div_mod_to_equations; lia.
Qed.

Lemma ntoh32_hton32 v : in_u32 v -> ntoh32 (hton32 v) = v.
Proof.
  intros (a & b & c & d & Ha & Hb & Hc & Hd & ->)%digits32.
  unfold ntoh32, ntoh32_cached, hton32, hton32_cached. simpl.
  destruct byteorder_cases as [[_ ->]|[_ ->]]; simpl; [|done].
  by rewrite !byteswap32_digits.
Qed.

Lemma store32_hton32 v :
  in_u32 v -> store32 (hton32 v) = [v / 16777216; v / 65536 mod 256; v / 256 mod 256; v mod 256].
Proof.
  intros (a & b & c & d & Ha & Hb & Hc & Hd & ->)%digits32. unfold hton32, hton32_cached, store32. simpl.
  destruct byteorder_cases as [[-> ->]|[-> ->]]; simpl; [|done].
  rewrite byteswap32_digits by done. unfold in_u8 in *.
  f_equal; [|f_equal; [|f_equal; [|f_equal]]]; Z.div_mod_to_equations; lia.
Qed.

Lemma hton16_0 : hton16 0 = 0.
Proof. unfold hton16, hton16_cached. simpl. by destruct byteorder_cases as [[_ ->]|[_ ->]]. Qed.

Lemma ntoh16_0 : ntoh16 0 = 0.
Proof. exact hton16_0. Qed.

End ByteOrderFacts.

#[export] Hint Resolve hton16_range ntoh16_range byteswap16_range : word.

(** ** Lemmas: one's complement sums *)

Lemma ones_range s : 0 <= s -> 0 <= ones s <= 65535.
Proof. intros H. unfold ones. case_match; [lia|]. Z.div_mod_to_equations; lia. Qed.

Lemma ones_zero s : 0 <= s -> ones s = 0 <-> s = 0.
Proof. intros H. unfold ones. case_match; [lia|]. Z.div_mod_to_equations; lia. Qed.

Lemma ones_cong s : 0 <= s -> exists k, s = ones s + 65535 * k.
Proof.
  intros H. unfold ones. destruct (Z.eqb_spec s 0); [exists 0; lia|].
  exists ((s - 1) / 65535). Z.div_mod_to_equations; lia.
Qed.

(** [ones s] is the only value of its range congruent to [s] and zero exactly with it. *)
Lemma ones_unique s t k :
  0 <= s -> 0 <= t <= 65535 -> s = t + 65535 * k -> (t = 0 <-> s = 0) -> ones s = t.
Proof.
  intros Hs Ht E Hz. destruct (ones_cong s Hs) as [k' E'].
  pose proof (ones_range s Hs). pose proof (ones_zero s Hs). nia.
Qed.

Lemma ones_id s : 0 <= s <= 65535 -> ones s = s.
Proof. intros. apply (ones_unique s s 0); lia. Qed.

Lemma ones_add a b : 0 <= a -> 0 <= b -> ones (ones a + b) = ones (a + b).
Proof.
  intros Ha Hb. destruct (ones_cong a Ha) as [k Ea]. pose proof (ones_range a Ha).
  pose proof (ones_zero a Ha). destruct (ones_cong (a + b)) as [j Ej]; [lia|].
  pose proof (ones_range (a + b) ltac:(lia)). pose proof (ones_zero (a + b) ltac:(lia)).
  apply (ones_unique _ _ (j - k)); lia.
Qed.

(** A sum complements to zero exactly when it is a positive multiple of 65535. *)
Lemma ones_full s : 0 <= s -> ones s = 65535 <-> s mod 65535 = 0 /\ s <> 0.
Proof.
  intros H. unfold ones. destruct (Z.eqb_spec s 0); [lia|].
  split; intros; Z.div_mod_to_equations; lia.
Qed.

Lemma ones_complement s : 0 <= s -> ones (s + (65535 - ones s)) = 65535.
Proof.
  intros H. destruct (ones_cong s H) as [k E]. pose proof (ones_range s H).
  apply ones_full; [lia|]. pose proof (ones_zero s H).
  replace (s + (65535 - ones s)) with ((k + 1) * 65535) by lia. rewrite Z.mod_mul by lia. lia.
Qed.

(** One round of the folding loop. *)
Lemma fold_round s :
  65536 <= s < 2 ^ 32 ->
  let s' := s mod 65536 + s / 65536 in ones s' = ones s /\ 0 < s' <= 131070 /\ (s <= 131070 -> s' <= 65535).
Proof.
  intros H s'. unfold s'. destruct (ones_cong s) as [k E]; [lia|].
  pose proof (ones_range s ltac:(lia)). pose proof (ones_zero s ltac:(lia)).
  split; [|Z.div_mod_to_equations; lia].
  apply (ones_unique _ _ (k - s / 65536)); Z.div_mod_to_equations; lia.
Qed.

Lemma cksum_fold_ones s : 0 <= s < 2 ^ 32 -> cksum_fold cksum_fuel s = Some (ones s).
Proof.
  intros H.
  assert (forall t, 0 <= t <= 65535 -> forall n, cksum_fold n t = Some (ones t)) as Done.
  { intros t Ht [|n]; simpl; rewrite Z.shiftr_div_pow2, Z.div_small by lia; simpl; by rewrite ones_id. }
  assert (forall t n, 65536 <= t < 2 ^ 32 -> cksum_fold (S n) t = cksum_fold n (t mod 65536 + t / 65536)) as Step.
  { intros t n Ht. simpl. rewrite Z.shiftr_div_pow2 by lia. change 65535 with (Z.ones 16).
    rewrite Z.land_ones by lia. change (2 ^ 16) with 65536. unfold truthy.
    destruct (Z.eqb_spec (t / 65536) 0) as [E|_]; simpl; [Z.div_mod_to_equations; lia|].
    rewrite u32_small; [done|]. unfold in_u32. Z.div_mod_to_equations; lia. }
  unfold cksum_fuel. destruct (Z.leb_spec s 65535); [by apply Done; lia|].
  rewrite Step by lia. destruct (fold_round s) as (E1 & B1 & _); [lia|].
  set (s1 := s mod 65536 + s / 65536) in *.
  destruct (Z.leb_spec s1 65535); [by rewrite Done, E1 by lia|].
  rewrite Step by lia. destruct (fold_round s1) as (E2 & B2 & B2'); [lia|].
  rewrite Done by lia. by rewrite E2, E1.
Qed.

Section ChecksumFacts.
Context {Mc : Machine}.

(** Induction on a list two elements at a time. *)
Lemma list_pair_ind {A} (P : list A -> Prop) :
  P [] -> (forall a, P [a]) -> (forall a b l, P l -> P (a :: b :: l)) -> forall l, P l.
Proof.
  intros H0 H1 H2 l. cut (P l /\ forall a, P (a :: l)); [tauto|].
  induction l as [|b l [IH IH']]; split; eauto.
Qed.

Lemma wsum_nonneg l : bytes l -> 0 <= wsum l.
Proof.
  induction l as [|a|a b l IH] using list_pair_ind; simpl; intros Hb; [lia|..].
  - apply bytes_cons in Hb as [Ha _]. unfold in_u8 in Ha. lia.
  - apply bytes_cons in Hb as [Ha [Hb Hl]%bytes_cons].
    pose proof (load16_range a b Ha Hb) as R. unfold in_u16 in R. specialize (IH Hl). lia.
Qed.

Lemma wsum_bound l : bytes l -> wsum l <= 65535 * Z.of_nat (length l).
Proof.
  induction l as [|a|a b l IH] using list_pair_ind; simpl; intros Hb; [lia|..].
  - apply bytes_cons in Hb as [Ha _]. unfold in_u8 in Ha. lia.
  - apply bytes_cons in Hb as [Ha [Hb Hl]%bytes_cons].
    pose proof (load16_range a b Ha Hb) as R. unfold in_u16 in R. specialize (IH Hl). lia.
Qed.

(** Half of it: a word has two bytes. *)
Lemma wsum_bound2 l : bytes l -> 2 * wsum l <= 65535 * (Z.of_nat (length l) + 1).
Proof.
  induction l as [|a|a b l IH] using list_pair_ind; simpl; intros Hb; [lia|..].
  - apply bytes_cons in Hb as [Ha _]. unfold in_u8 in Ha. lia.
  - apply bytes_cons in Hb as [Ha [Hb Hl]%bytes_cons].
    pose proof (load16_range a b Ha Hb) as R. unfold in_u16 in R. specialize (IH Hl). lia.
Qed.

Lemma wsum_app a b : Nat.even (length a) = true -> wsum (a ++ b) = wsum a + wsum b.
Proof.
  induction a as [|x|x y a IH] using list_pair_ind; simpl; intros He; [done..|].
  rewrite IH by done. lia.
Qed.

Lemma wsum_store16 v b : wsum (store16 v ++ b) = v + wsum b.
Proof. destruct (store16_load16 v) as (b0 & b1 & -> & <-). done. Qed.

Lemma u32_add_l a b : u32 (u32 a + b) = u32 (a + b).
Proof. unfold u32. apply Z.add_mod_idemp_l. lia. Qed.

(** The loop over the words and the odd byte, with the sum wrapping at 32 bits. *)
Lemma cksum_tail_run l count sum :
  0 <= count <= Z.of_nat (length l) ->
  exists s c r, cksum_words l count (u32 sum) = Some (s, c, r) /\
    (if c >? 0 then match r with b :: _ => Some (u32 (s + b)) | [] => None end else Some s)
    = Some (u32 (sum + wsum (take (Z.to_nat count) l))).
Proof.
  revert count sum. induction l as [|a|a b l IH] using list_pair_ind; intros count sum Hc; simpl length in Hc.
  - exists (u32 sum), count, []. replace count with 0 by lia. simpl. by rewrite Z.add_0_r.
  - exists (u32 sum), count, [a]. assert (count = 0 \/ count = 1) as [-> | ->] by lia; simpl;
      [by rewrite Z.add_0_r|by rewrite u32_add_l].
  - destruct (Z.gtb_spec count 1).
    + cbn [cksum_words]. replace (count >? 1) with true by lia. rewrite u32_add_l.
      destruct (IH (count - 2) (sum + load16 a b)) as (s & c & r & E & E'); [lia|].
      exists s, c, r. split; [done|]. rewrite E'. do 2 f_equal.
      replace (Z.to_nat count) with (S (S (Z.to_nat (count - 2)))) by lia. cbn [take wsum]. lia.
    + cbn [cksum_words]. replace (count >? 1) with false by lia. exists (u32 sum), count, (a :: b :: l). split; [done|].
      assert (count = 0 \/ count = 1) as [-> | ->] by lia; simpl; [by rewrite Z.add_0_r|by rewrite u32_add_l].
Qed.

Lemma u16_lnot v : in_u16 v -> u16 (Z.lnot v) = 65535 - v.
Proof.
  unfold in_u16, u16, Z.lnot. intros H. replace (Z.pred (- v)) with ((65535 - v) + (-1) * 2 ^ 16) by lia.
  rewrite Z.mod_add by lia. apply Z.mod_small. lia.
Qed.

(** The checksum loop computes the complement of the folded sum. *)
Lemma cksum16_wrap l count init :
  0 <= count < 65536 -> count <= Z.of_nat (length l) ->
  cksum16 l count init = Some (65535 - ones (u32 (init + wsum (take (Z.to_nat count) l)))).
Proof.
  intros Hc Hl. unfold cksum16. rewrite u16_small by (unfold in_u16; lia).
  destruct (cksum_tail_run l count init) as (s & c & r & -> & ->); [lia|].
  set (t := u32 _). pose proof (u32_range (init + wsum (take (Z.to_nat count) l)) : in_u32 t) as R. unfold in_u32 in R.
  rewrite cksum_fold_ones by lia. assert (0 <= ones t <= 65535) by (apply ones_range; lia).
  rewrite (u16_small (ones _)), u16_lnot by (unfold in_u16; lia). done.
Qed.

Lemma cksum16_run l count init :
  bytes l -> 0 <= count < 65536 -> count <= Z.of_nat (length l) -> 0 <= init <= 65535 ->
  cksum16 l count init = Some (65535 - ones (init + wsum (take (Z.to_nat count) l))).
Proof.
  intros Hb Hc Hl Hi. rewrite cksum16_wrap by lia. do 3 f_equal.
  set (t := take (Z.to_nat count) l). assert (bytes t) as Ht by by apply bytes_take.
  pose proof (wsum_nonneg t Ht). pose proof (wsum_bound2 t Ht).
  assert (Z.of_nat (length t) <= 65535) by (unfold t; rewrite length_take; lia).
  apply u32_small. unfold in_u32. lia.
Qed.

(** The recomputation of the log lines, [cksum16(data, count, -sum)]: the negated
    checksum, wrapped to 32 bits, takes the checksum's own word out of the sum. *)
Lemma cksum16_recompute pre c post rest :
  Nat.even (length pre) = true ->
  let n := Z.of_nat (length pre + 2 + length post) in n < 65536 ->
  cksum16 (pre ++ store16 c ++ post ++ rest) n (- c) = cksum16 (pre ++ store16 0 ++ post ++ rest) n 0.
Proof.
  intros He n Hn. assert (forall v, length (pre ++ store16 v ++ post) = Z.to_nat n) as L
    by (intros v; rewrite !length_app, length_store16; unfold n; lia).
  assert (forall v, take (Z.to_nat n) (pre ++ store16 v ++ post ++ rest) = pre ++ store16 v ++ post) as T
    by (intros v; rewrite <- (L v); rewrite !app_assoc; rewrite take_app_length; done).
  rewrite !cksum16_wrap by (rewrite ?length_app, ?length_store16; lia). rewrite !T.
  rewrite (wsum_app pre (store16 c ++ post)), (wsum_app pre (store16 0 ++ post)), !wsum_store16 by done.
  by replace (- c + (wsum pre + (c + wsum post))) with (0 + (wsum pre + (0 + wsum post))) by lia.
Qed.

Lemma cksum16_run_all l init :
  bytes l -> Z.of_nat (length l) < 65536 -> 0 <= init <= 65535 ->
  cksum16 l (Z.of_nat (length l)) init = Some (65535 - ones (init + wsum l)).
Proof.
  intros. rewrite cksum16_run by (done || lia). by rewrite Nat2Z.id, firstn_all.
Qed.

Lemma cksum_words_oob l count sum :
  Z.of_nat (length l) < count ->
  match cksum_words l count sum with
  | None => True
  | Some (_, c, r) => c > 0 /\ r = []
  end.
Proof.
  revert count sum. induction l as [|a|a b l IH] using list_pair_ind; intros count sum Hlt;
    cbn [length] in Hlt; cbn [cksum_words].
  - destruct (Z.gtb_spec count 1); [done|]. split; [lia|done].
  - replace (count >? 1) with true by lia. done.
  - replace (count >? 1) with true by lia. apply IH. lia.
Qed.

(** Summing past the end of the buffer is an out-of-bounds read. *)
Lemma cksum16_oob l count init :
  Z.of_nat (length l) < u16 count -> cksum16 l count init = None.
Proof.
  intros H. unfold cksum16. pose proof (cksum_words_oob l (u16 count) (u32 init) H) as Hw.
  destruct (cksum_words _ _ _) as [[[s c] r]|]; [|done]. destruct Hw as [Hc ->].
  by replace (c >? 0) with true by lia.
Qed.

(** Within the buffer the checksum is always computed. *)
Lemma cksum_words_in l count sum :
  count <= Z.of_nat (length l) -> in_u32 sum ->
  exists s c r, cksum_words l count sum = Some (s, c, r) /\ in_u32 s /\ c <= Z.of_nat (length r).
Proof.
  revert count sum. induction l as [|a|a b l IH] using list_pair_ind; intros count sum Hc Hs.
  - cbn [cksum_words]. replace (count >? 1) with false by (simpl in Hc; lia). eauto 10.
  - cbn [cksum_words]. replace (count >? 1) with false by (simpl in Hc; lia). eauto 10.
  - cbn [cksum_words]. destruct (count >? 1); [|eauto 10].
    apply IH; [simpl in Hc; lia|apply u32_range].
Qed.

Lemma cksum16_in l count init :
  u16 count <= Z.of_nat (length l) -> exists v, cksum16 l count init = Some v.
Proof.
  intros H. unfold cksum16.
  destruct (cksum_words_in l (u16 count) (u32 init) H (u32_range _)) as (s & c & r & -> & Hs & Hr).
  destruct (c >? 0) eqn:E.
  - destruct r as [|b r]; [simpl in Hr; lia|].
    rewrite cksum_fold_ones by apply u32_range. eauto.
  - rewrite cksum_fold_ones by apply Hs. eauto.
Qed.

Lemma cksum16_zero_iff l init :
  bytes l -> Z.of_nat (length l) < 65536 -> 0 <= init <= 65535 ->
  cksum16 l (Z.of_nat (length l)) init = Some 0 <->
  (init + wsum l) mod 65535 = 0 /\ init + wsum l <> 0.
Proof.
  intros Hb Hl Hi. rewrite cksum16_run_all by done. pose proof (wsum_nonneg l Hb).
  rewrite <- ones_full by lia. split; [intros [= E]; lia|intros ->; done].
Qed.

(** Storing the checksum of a buffer with a zeroed checksum field makes it verify. *)
Lemma cksum16_fill pre post init c :
  bytes pre -> bytes post -> Nat.even (length pre) = true ->
  Z.of_nat (length (pre ++ store16 0 ++ post)) < 65536 -> 0 <= init <= 65535 ->
  cksum16 (pre ++ store16 0 ++ post) (Z.of_nat (length (pre ++ store16 0 ++ post))) init = Some c ->
  in_u16 c /\
  cksum16 (pre ++ store16 c ++ post) (Z.of_nat (length (pre ++ store16 c ++ post))) init = Some 0.
Proof.
  intros Hpre Hpost He Hlen Hi Hc.
  assert (forall v, length (pre ++ store16 v ++ post) = (length pre + (2 + length post))%nat) as L
    by (intros; by rewrite !length_app, length_store16).
  assert (forall v, wsum (pre ++ store16 v ++ post) = wsum pre + v + wsum post) as W
    by (intros; rewrite wsum_app, wsum_store16 by done; lia).
  pose proof (wsum_nonneg _ Hpre). pose proof (wsum_nonneg _ Hpost).
  assert (forall v, in_u16 v -> bytes (pre ++ store16 v ++ post)) as B
    by (intros; rewrite !bytes_app; auto with word).
  rewrite cksum16_run_all in Hc by (done || apply B; unfold in_u16; lia).
  injection Hc as <-. rewrite W.
  assert (0 <= ones (init + (wsum pre + 0 + wsum post)) <= 65535) by (apply ones_range; lia).
  assert (in_u16 (65535 - ones (init + (wsum pre + 0 + wsum post)))) as R by (unfold in_u16; lia).
  split; [done|]. rewrite cksum16_run_all by (done || (rewrite L in *; lia) || by apply B).
  f_equal. rewrite W.
  set (o := ones (init + (wsum pre + 0 + wsum post))) in *.
  replace (init + (wsum pre + (65535 - o) + wsum post))
    with ((init + (wsum pre + 0 + wsum post)) + (65535 - o)) by lia.
  unfold o. rewrite ones_complement by lia. lia.
Qed.

End ChecksumFacts.

(** ** Properties *)

Section UtilProperties.
Context {Mc : Machine}.

(** C40. The cached byte order never shows: whatever the static [endian] holds at
    the call (0 or the byte order found by an earlier call), the four conversions
    return the same value and leave the byte order in the cache; host-to-network
    puts the two, or the four, bytes of the value in memory with the most significant
    one first on either kind of machine, and network-to-host undoes it. *)
Theorem hton_ntoh_correct (endian v w : Z)
    (He : endian_ok endian) (Hv : in_u16 v) (Hw : in_u32 w) :
  hton16_cached endian v = (hton16 v, byteorder) /\
  ntoh16_cached endian v = (ntoh16 v, byteorder) /\
  hton32_cached endian w = (hton32 w, byteorder) /\
  ntoh32_cached endian w = (ntoh32 w, byteorder) /\
  store16 (hton16 v) = [v / 256; v mod 256] /\
  store32 (hton32 w) = [w / 16777216; w / 65536 mod 256; w / 256 mod 256; w mod 256] /\
  ntoh16 (hton16 v) = v /\ ntoh32 (hton32 w) = w.
Proof.
  split_and!; auto using store16_hton16, store32_hton32, ntoh16_hton16, ntoh32_hton32.
  all: destruct He as [-> | ->]; unfold hton16_cached, ntoh16_cached, hton32_cached, ntoh32_cached,
    hton16, ntoh16, hton32, ntoh32; simpl; try done.
  all: by destruct byteorder_cases as [[_ ->]|[_ ->]].
Qed.

Lemma wsum_rfc_even l :
  Nat.even (length l) = true -> bytes l ->
  match machine_order with
  | LittleEndian => exists k, 256 * wsum l = rfc1071_sum l + 65535 * k
  | BigEndian => wsum l = rfc1071_sum l
  end.
Proof.
  induction l as [|a|a b l IH] using list_pair_ind; simpl; intros He Hb.
  - destruct machine_order; [by exists 0|done].
  - done.
  - apply bytes_cons in Hb as [_ [_ Hb]%bytes_cons]. specialize (IH He Hb). unfold load16 in *.
    destruct machine_order; [|lia]. destruct IH as [k E]. exists (k + b). lia.
Qed.

Lemma wsum_rfc_little l :
  machine_order = LittleEndian -> exists k, 256 * wsum l = rfc1071_sum l + 65535 * k.
Proof.
  intros E. induction l as [|a|a b l [k IH]] using list_pair_ind; simpl.
  - by exists 0.
  - exists 0. lia.
  - unfold load16. rewrite E. exists (k + b). lia.
Qed.

Lemma rfc1071_sum_zero l : bytes l -> 0 <= rfc1071_sum l /\ (rfc1071_sum l = 0 <-> wsum l = 0).
Proof.
  induction l as [|a|a b l IH] using list_pair_ind; simpl; intros Hb; [done|..].
  - apply bytes_cons in Hb as [Ha _]. unfold in_u8 in Ha. lia.
  - apply bytes_cons in Hb as [Ha [Hb Hl]%bytes_cons]. pose proof (wsum_nonneg l Hl).
    destruct (IH Hl). unfold in_u8, load16 in *. destruct machine_order; lia.
Qed.

(** Swapping the bytes of a folded sum multiplies it by 256 modulo 65535. *)
Lemma ones_swap w r k :
  0 <= w -> 0 <= r -> (r = 0 <-> w = 0) -> 256 * w = r + 65535 * k ->
  ones r = 256 * (ones w mod 256) + ones w / 256.
Proof.
  intros Hw Hr Hz E. destruct (ones_cong w Hw) as [j Ej].
  pose proof (ones_range w Hw). pose proof (ones_zero w Hw).
  apply (ones_unique _ _ (ones w / 256 + 256 * j - k)); Z.div_mod_to_equations; lia.
Qed.

(** C21. The checksum is that of RFC 1071: the two bytes the code stores are the
    big-endian bytes of the complement of the one's complement sum of the buffer's
    network-order words.  On a big-endian machine the buffer must have even
    length (see [cksum16_odd_big_endian]). *)
Theorem cksum16_rfc1071 (l : list Z)
    (Hb : bytes l) (Hlen : Z.of_nat (length l) < 65536)
    (Hodd : machine_order = LittleEndian \/ Nat.even (length l) = true) :
  exists c, cksum16 l (Z.of_nat (length l)) 0 = Some c /\
            store16 c = [rfc1071 l / 256; rfc1071 l mod 256].
Proof.
  rewrite cksum16_run_all by (done || lia). eexists; split; [done|]. rewrite Z.add_0_l.
  pose proof (wsum_nonneg l Hb) as Hw. pose proof (ones_range (wsum l) Hw) as Ho.
  destruct (rfc1071_sum_zero l Hb) as [Hr Hz]. unfold rfc1071.
  assert (machine_order = LittleEndian \/ (machine_order = BigEndian /\ wsum l = rfc1071_sum l)) as [E|[E Eb]].
  { destruct Hodd as [|He]; [by left|]. pose proof (wsum_rfc_even l He Hb) as W.
    destruct machine_order; [by left|by right]. }
  - destruct (wsum_rfc_little l E) as [k Ek]. unfold store16. rewrite E.
    rewrite (ones_swap _ _ k Hw Hr Hz Ek).
    set (o := ones (wsum l)) in *. repeat f_equal; Z.div_mod_to_equations; lia.
  - unfold store16. by rewrite E, Eb.
Qed.

(** Errors in one word are detected: if a buffer verifies and one of its
    aligned 16-bit words is overwritten by another value, the check fails, except
    for the two representations 0 and 65535 of zero. *)
Theorem cksum16_detects_word (pre post : list Z) (v w init : Z)
    (Hpre : bytes pre) (Hpost : bytes post) (Hev : Nat.even (length pre) = true)
    (Hlen : Z.of_nat (length (pre ++ store16 v ++ post)) < 65536)
    (Hi : 0 <= init <= 65535) (Hv : in_u16 v) (Hw : in_u16 w) (Hne : v <> w)
    (Hz : ~ (v = 0 /\ w = 65535)) (Hz' : ~ (v = 65535 /\ w = 0))
    (Hok : cksum16 (pre ++ store16 v ++ post) (Z.of_nat (length (pre ++ store16 v ++ post))) init = Some 0) :
  exists c, c <> 0 /\
  cksum16 (pre ++ store16 w ++ post) (Z.of_nat (length (pre ++ store16 w ++ post))) init = Some c.
Proof.
  assert (forall x, length (pre ++ store16 x ++ post) = (length pre + (2 + length post))%nat) as L
    by (intros; by rewrite !length_app, length_store16).
  assert (forall x, wsum (pre ++ store16 x ++ post) = wsum pre + x + wsum post) as W
    by (intros; rewrite wsum_app, wsum_store16 by done; lia).
  assert (forall x, in_u16 x -> bytes (pre ++ store16 x ++ post)) as B
    by (intros; rewrite !bytes_app; auto with word).
  apply cksum16_zero_iff in Hok as [Hm Hnz]; [|by auto..]. rewrite W in Hm, Hnz.
  rewrite cksum16_run_all by (auto || (rewrite L in *; lia)). eexists; split; [|done].
  pose proof (wsum_nonneg _ Hpre). pose proof (wsum_nonneg _ Hpost). unfold in_u16 in Hv, Hw.
  rewrite W. intros E0.
  assert (ones (init + (wsum pre + w + wsum post)) = 65535) as E1 by lia.
  apply ones_full in E1 as [Hm' _]; [|lia].
  Z.div_mod_to_equations. nia.
Qed.

End UtilProperties.

(** On a big-endian machine an odd last byte is added as the low byte of a word,
    where RFC 1071 pads it on the right. *)
Lemma cksum16_odd_big_endian :
  exists c, @cksum16 big_endian_machine [1] 1 0 = Some c /\
            @store16 big_endian_machine c <> [rfc1071 [1] / 256; rfc1071 [1] mod 256].
Proof. exists 65534. by vm_compute. Qed.

(** The difference of two times, in microseconds, is the difference of the times. *)
Lemma timersub_usecs a b :
  timeval_ok a -> timeval_ok b ->
  timeval_ok (timersub a b) /\ usecs (timersub a b) = usecs a - usecs b.
Proof.
  unfold timeval_ok, timersub, usecs. intros Ha Hb.
  destruct (Z.ltb_spec (tv_usec a - tv_usec b) 0); simpl; lia.
Qed.

Lemma timercmp_lt_usecs a b :
  timeval_ok a -> timeval_ok b -> timercmp_lt a b = (usecs a <? usecs b).
Proof.
  unfold timeval_ok, timercmp_lt, usecs. intros Ha Hb.
  destruct (Z.eqb_spec (tv_sec a) (tv_sec b)); lia.
Qed.

Lemma timercmp_gt_usecs a b :
  timeval_ok a -> timeval_ok b -> timercmp_gt a b = (usecs a >? usecs b).
Proof.
  unfold timeval_ok, timercmp_gt, usecs. intros Ha Hb.
  destruct (Z.eqb_spec (tv_sec a) (tv_sec b)); lia.
Qed.

(** The interval macros normalise: adding a non-negative number of
    microseconds (nanoseconds) to a normalised time gives the normalised time
    that many units later. *)
Theorem time_add_normal (x : timeval) (p : Z * Z) (y : Z)
    (Hx : timeval_ok x) (Hp : 0 <= p.2 < 1000000000) (Hy : 0 <= y) :
  timeval_ok (timeval_add_usec x y) /\ usecs (timeval_add_usec x y) = usecs x + y /\
  0 <= (timespec_add_nsec p y).2 < 1000000000 /\
  1000000000 * (timespec_add_nsec p y).1 + (timespec_add_nsec p y).2
  = 1000000000 * p.1 + p.2 + y.
Proof.
  unfold timeval_ok, timeval_add_usec, timespec_add_nsec, usecs in *.
  rewrite !Z.quot_div_nonneg, !Z.rem_mod_nonneg by lia.
  destruct (Z.geb_spec (tv_usec x + y mod 1000000) 1000000);
    destruct (Z.geb_spec (p.2 + y mod 1000000000) 1000000000); simpl;
    Z.div_mod_to_equations; lia.
Qed.

(** Witnesses of the properties at concrete inputs. *)
Lemma hton_ntoh_correct_witness :
  @hton16_cached little_endian_machine 1234 0x0800 = (8, 1234).
Proof.
  refine (eq_trans (proj1 (@hton_ntoh_correct little_endian_machine 1234 0x0800 0 _ _ _)) _).
  - right. reflexivity.
  - vm_compute. split; congruence.
  - vm_compute. split; congruence.
  - reflexivity.
Defined.

Lemma cksum16_rfc1071_witness :
  exists c, @cksum16 little_endian_machine [0x45; 0; 1] 3 0 = Some c /\
            @store16 little_endian_machine c = [0xb9; 0xff].
Proof.
  refine (@cksum16_rfc1071 little_endian_machine [0x45; 0; 1] _ _ _).
  - apply bytesb_spec. reflexivity.
  - reflexivity.
  - left. reflexivity.
Defined.

Lemma cksum16_detects_word_witness :
  exists c, c <> 0 /\ @cksum16 little_endian_machine [0x45; 1; 0xba; 0xff] 4 0 = Some c.
Proof.
  refine (@cksum16_detects_word little_endian_machine [] [0xba; 0xff] 0x0045 0x0145 0 _ _ _ _ _ _ _ _ _ _ _).
  - apply bytesb_spec. reflexivity.
  - apply bytesb_spec. reflexivity.
  - reflexivity.
  - reflexivity.
  - lia.
  - vm_compute. split; congruence.
  - vm_compute. split; congruence.
  - lia.
  - lia.
  - lia.
  - reflexivity.
Defined.

Lemma time_add_normal_witness :
  timeval_add_usec (Timeval 7 999999) 2000003 = Timeval 10 2 /\
  usecs (timeval_add_usec (Timeval 7 999999) 2000003) = usecs (Timeval 7 999999) + 2000003.
Proof.
  split; [reflexivity|].
  refine (proj1 (proj2 (time_add_normal (Timeval 7 999999) (0, 0) 2000003 _ _ _))).
  - vm_compute. split; congruence.
  - simpl. lia.
  - lia.
Defined.
