(* ===== verification/CLib.v ===== *)
(** * The C library functions on strings the stack uses

    [strtol], the [%d], [%02x] and [%04x] conversions of [snprintf], [strncpy] and
    [strrchr], on strings without their terminating NUL (the empty rest of a
    string is the position of the NUL). *)

From stdpp Require Import base numbers list option strings.
From Stdlib Require Import ZArith Lia Ascii String.
From S2P Require Import Prelude.
Open Scope Z_scope.

(** ** Characters *)

Definition code (c : ascii) : Z := Z.of_N (N_of_ascii c).

Definition isspace (c : ascii) : bool :=
  (code c =? 32) || ((9 <=? code c) && (code c <=? 13)).

(** The value of a digit in a base up to 16. *)
Definition digit_value (c : ascii) : option Z :=
  let z := code c in
  if (48 <=? z) && (z <=? 57) then Some (z - 48)
  else if (97 <=? z) && (z <=? 102) then Some (z - 87)
  else if (65 <=? z) && (z <=? 70) then Some (z - 55)
  else None.

Definition digit_in (base : Z) (c : ascii) : option Z :=
  match digit_value c with
  | Some d => if d <? base then Some d else None
  | None => None
  end.

(** The character of a digit, lower case as [%x] prints it. *)
Definition digit_char (d : Z) : ascii :=
  ascii_of_N (Z.to_N (if d <? 10 then 48 + d else 87 + d)).

(** ** strtol *)

Definition LONG_MAX : Z := 2 ^ 63 - 1.
Definition LONG_MIN : Z := - 2 ^ 63.

Fixpoint skip_space (s : string) : string :=
  match s with
  | String c r => if isspace c then skip_space r else s
  | EmptyString => s
  end.

(** The digits at the head of [s], accumulated on [acc], and what follows them. *)
Fixpoint scan_digits (base acc : Z) (s : string) : Z * string :=
  match s with
  | String c r =>
      match digit_in base c with
      | Some d => scan_digits base (acc * base + d) r
      | None => (acc, s)
      end
  | EmptyString => (acc, s)
  end.

Definition starts_digit (base : Z) (s : string) : bool :=
  match s with
  | String c _ => match digit_in base c with Some _ => true | None => false end
  | EmptyString => false
  end.

(** The optional [0x] of base 16, taken only when a digit follows it. *)
Definition skip_0x (base : Z) (s : string) : string :=
  match s with
  | String z (String x r) =>
      if (base =? 16) && (code z =? 48) && ((code x =? 120) || (code x =? 88)) && starts_digit base r
      then r else s
  | _ => s
  end.

Definition clamp_long (z : Z) : Z := Z.max LONG_MIN (Z.min LONG_MAX z).

(** [strtol(s, &ep, base)]: the value and, when there was a number, the string at
    [ep]; [None] stands for [ep == s]. *)
Definition strtol (base : Z) (s : string) : Z * option string :=
  let t := skip_space s in
  let '(neg, t) :=
    match t with
    | String c r => if code c =? 45 then (true, r) else if code c =? 43 then (false, r) else (false, t)
    | EmptyString => (false, t)
    end in
  let t := skip_0x base t in
  if starts_digit base t then
    let '(v, r) := scan_digits base 0 t in
    (clamp_long (if (neg : bool) then - v else v), Some r)
  else (0, None).

(** The character at a position, the NUL code past the end. *)
Definition char_at_head (s : string) : Z :=
  match s with String c _ => code c | EmptyString => 0 end.

Definition string_tail (s : string) : string :=
  match s with String _ r => r | EmptyString => EmptyString end.

(** ** Formatting *)

(** [%d] of a non-negative number: at most 20 digits are needed for 64 bits. *)
Fixpoint dec_digits (fuel : nat) (n : Z) (acc : string) : string :=
  match fuel with
  | O => acc
  | S fuel =>
      let acc := String (digit_char (n mod 10)) acc in
      if n <? 10 then acc else dec_digits fuel (n / 10) acc
  end.

Definition fmt_d (n : Z) : string := dec_digits 20 n "".

(** [%02x] of a byte and [%04x] of a 16-bit value. *)
Definition fmt_02x (n : Z) : string :=
  String (digit_char (n / 16)) (String (digit_char (n mod 16)) "").

Definition fmt_04x (n : Z) : string := (fmt_02x (n / 256) ++ fmt_02x (n mod 256))%string.

(** [%s] of a string or a null pointer.  The standard leaves the latter undefined;
    the C library of the platform the drivers are written for (Linux, glibc) prints
    [(null)]. *)
Definition fmt_s (s : option string) : string := default "(null)"%string s.

(** [snprintf(p, size, ...)]: at most [size - 1] characters of the text. *)
Definition snprintf (size : nat) (text : string) : string :=
  String.substring 0 (size - 1) text.

(** [strncpy(dst, src, n)] into a zeroed buffer of [n + 1] bytes. *)
Definition strncpy (n : nat) (src : string) : string := String.substring 0 n src.

(** [strrchr(s, c)]: what is before and after the last [c]. *)
Fixpoint strrchr (c : ascii) (s : string) : option (string * string) :=
  match s with
  | EmptyString => None
  | String d r =>
      match strrchr c r with
      | Some (a, b) => Some (String d a, b)
      | None => if Ascii.eqb c d then Some (EmptyString, r) else None
      end
  end.

(** ** Lemmas *)

Lemma code_digit_char d : 0 <= d < 16 -> code (digit_char d) = if d <? 10 then 48 + d else 87 + d.
Proof.
  intros H. unfold code, digit_char. rewrite N_ascii_embedding; [|destruct (d <? 10); lia].
  destruct (d <? 10); lia.
Qed.

Lemma digit_in_char base d :
  0 <= d < base -> base <= 16 -> digit_in base (digit_char d) = Some d.
Proof.
  intros H Hb. unfold digit_in, digit_value. rewrite code_digit_char by lia.
  destruct (Z.ltb_spec d 10).
  - replace ((48 <=? 48 + d) && (48 + d <=? 57)) with true by lia.
    replace (48 + d - 48) with d by lia. by replace (d <? base) with true by lia.
  - replace ((48 <=? 87 + d) && (87 + d <=? 57)) with false by lia.
    replace ((97 <=? 87 + d) && (87 + d <=? 102)) with true by lia.
    replace (87 + d - 87) with d by lia. by replace (d <? base) with true by lia.
Qed.

Lemma digit_char_not_space d : 0 <= d < 16 -> isspace (digit_char d) = false.
Proof. intros H. unfold isspace. rewrite code_digit_char by done. destruct (d <? 10) eqn:?; lia. Qed.

Lemma append_cons c s t : (String c s ++ t)%string = String c (s ++ t).
Proof. done. Qed.

Lemma append_assoc s t u : ((s ++ t) ++ u)%string = (s ++ (t ++ u))%string.
Proof. induction s as [|c s IH]; [done|]. rewrite !append_cons. by rewrite IH. Qed.

Lemma dec_digits_append f n acc t : (dec_digits f n acc ++ t)%string = dec_digits f n (acc ++ t).
Proof.
  revert n acc. induction f as [|f IH]; intros n acc; [done|]. simpl.
  destruct (n <? 10); [done|]. by rewrite IH.
Qed.

(** Scanning a printed number adds it to the accumulator. *)
Lemma scan_dec_digits f n t :
  0 <= n < 10 ^ Z.of_nat f -> (0 < f)%nat ->
  exists k, 0 <= k /\ forall a, scan_digits 10 a (dec_digits f n t) = scan_digits 10 (a * 10 ^ k + n) t.
Proof.
  revert n t. induction f as [|f IH]; intros n t Hn Hf; [lia|].
  cbn [dec_digits]. assert (0 <= n mod 10 < 10) by (apply Z.mod_pos_bound; lia).
  destruct (Z.ltb_spec n 10).
  - exists 1. split; [lia|]. intros a. simpl. rewrite digit_in_char by lia.
    rewrite Z.mod_small by lia. done.
  - rewrite Nat2Z.inj_succ, Z.pow_succ_r in Hn by lia.
    assert (0 < f)%nat by (destruct f; [simpl in Hn; lia|lia]).
    destruct (IH (n / 10) (String (digit_char (n mod 10)) t)) as (k & Hk & E);
      [Z.div_mod_to_equations; lia|done|].
    exists (k + 1). split; [lia|]. intros a. rewrite E. simpl. rewrite digit_in_char by lia.
    rewrite Z.pow_add_r by lia. f_equal. Z.div_mod_to_equations; lia.
Qed.

(** The first character of a printed number is a digit. *)
Lemma dec_digits_head f n t :
  0 <= n -> (0 < f)%nat ->
  exists d r, 0 <= d < 10 /\ dec_digits f n t = String (digit_char d) r.
Proof.
  revert n t. induction f as [|f IH]; intros n t Hn Hf; [lia|]. cbn [dec_digits].
  assert (0 <= n mod 10 < 10) by (apply Z.mod_pos_bound; lia).
  destruct (Z.ltb_spec n 10); [eauto|]. destruct f as [|f]; [simpl; eauto|].
  apply IH; [Z.div_mod_to_equations; lia|lia].
Qed.

Lemma skip_space_digit d r : 0 <= d < 16 -> skip_space (String (digit_char d) r) = String (digit_char d) r.
Proof. intros. simpl. by rewrite digit_char_not_space. Qed.

(** [strtol] on text that starts with a digit of the base and no [0x] prefix. *)
Lemma strtol_digit base d r :
  0 <= d < base -> base <= 16 -> skip_0x base (String (digit_char d) r) = String (digit_char d) r ->
  strtol base (String (digit_char d) r) =
  let '(v, t) := scan_digits base 0 (String (digit_char d) r) in (clamp_long v, Some t).
Proof.
  intros Hd Hb Hx. unfold strtol. rewrite skip_space_digit by lia.
  rewrite code_digit_char by lia.
  replace ((if d <? 10 then 48 + d else 87 + d) =? 45) with false by (destruct (d <? 10) eqn:?; lia).
  replace ((if d <? 10 then 48 + d else 87 + d) =? 43) with false by (destruct (d <? 10) eqn:?; lia).
  rewrite Hx. simpl starts_digit. by rewrite digit_in_char by lia.
Qed.

(** Reading back a number printed with [%d]. *)
Lemma strtol_fmt_d n t :
  0 <= n <= LONG_MAX -> starts_digit 10 t = false ->
  strtol 10 (fmt_d n ++ t) = (n, Some t).
Proof.
  intros Hn Ht. unfold fmt_d. rewrite dec_digits_append. change ("" ++ t)%string with t.
  destruct (dec_digits_head 20 n t) as (d & r & Hd & E); [lia..|].
  rewrite E, strtol_digit; [|lia..|by destruct r]. rewrite <- E.
  destruct (scan_dec_digits 20 n t) as (k & _ & ->); [unfold LONG_MAX in Hn; lia|lia|].
  replace (0 * 10 ^ k + n) with n by lia.
  assert (scan_digits 10 n t = (n, t)) as ->.
  { destruct t as [|c t]; [done|]. cbn [scan_digits starts_digit] in *. by destruct (digit_in 10 c). }
  unfold clamp_long, LONG_MIN, LONG_MAX in *. f_equal. lia.
Qed.

(** Reading back a byte printed with [%02x]. *)
Lemma strtol_fmt_02x n t :
  0 <= n < 256 -> starts_digit 16 t = false ->
  strtol 16 (fmt_02x n ++ t) = (n, Some t).
Proof.
  intros Hn Ht. unfold fmt_02x. rewrite !append_cons. change ("" ++ t)%string with t.
  assert (0 <= n / 16 < 16 /\ 0 <= n mod 16 < 16) as [H1 H2] by (Z.div_mod_to_equations; lia).
  rewrite strtol_digit; [|lia..|].
  2:{ unfold skip_0x. rewrite (code_digit_char (n mod 16)) by lia.
      replace ((if n mod 16 <? 10 then 48 + n mod 16 else 87 + n mod 16) =? 120) with false
        by (destruct (n mod 16 <? 10) eqn:?; lia).
      replace ((if n mod 16 <? 10 then 48 + n mod 16 else 87 + n mod 16) =? 88) with false
        by (destruct (n mod 16 <? 10) eqn:?; lia).
      simpl. by rewrite andb_false_r. }
  cbn [scan_digits]. rewrite digit_in_char by lia. cbn [scan_digits]. rewrite digit_in_char by lia.
  replace ((0 * 16 + n / 16) * 16 + n mod 16) with n by (Z.div_mod_to_equations; lia).
  assert (scan_digits 16 n t = (n, t)) as ->.
  { destruct t as [|c t]; [done|]. cbn [scan_digits starts_digit] in *. by destruct (digit_in 16 c). }
  unfold clamp_long, LONG_MIN, LONG_MAX. f_equal. lia.
Qed.

(** The length of a printed number: at most one digit per power of ten. *)
Lemma length_dec_digits f n t k :
  0 <= n < 10 ^ Z.of_nat (S k) -> (S k <= f)%nat ->
  (String.length (dec_digits f n t) <= S k + String.length t)%nat.
Proof.
  revert n t k. induction f as [|f IH]; intros n t k Hn Hf; [lia|]. cbn [dec_digits].
  destruct (Z.ltb_spec n 10); [simpl; lia|].
  destruct k as [|k]; [simpl in Hn; lia|].
  rewrite Nat2Z.inj_succ, Z.pow_succ_r in Hn by lia.
  etransitivity; [apply (IH _ _ k); [Z.div_mod_to_equations; lia|lia]|]. simpl. lia.
Qed.

Lemma length_append s t : String.length (s ++ t) = (String.length s + String.length t)%nat.
Proof. induction s as [|c s IH]; [done|]. simpl. by rewrite IH. Qed.

Lemma substring_all n s : (String.length s <= n)%nat -> String.substring 0 n s = s.
Proof.
  revert n. induction s as [|c s IH]; intros [|n] H; simpl in *; [done..|lia|].
  by rewrite IH by lia.
Qed.

Lemma snprintf_fits size s : (String.length s < size)%nat -> snprintf size s = s.
Proof. intros. apply substring_all. lia. Qed.

Lemma length_fmt_02x n : String.length (fmt_02x n) = 2%nat.
Proof. done. Qed.
