(* ===== verification/Queue.v ===== *)
(** * The linked queue (src/lib/util.c, struct queue_head / queue_entry)

    [queue_push], [queue_pop], [queue_peek] and [queue_foreach] as the source has
    them, on a heap of [queue_entry] cells shared by every queue, and the interface
    [Fifo] they offer to the rest of the stack: a sequence of entries, added at the
    end and taken from the front.  The clients (protocol input queues, UDP receive
    queues) use the sequence; [linked_queue_refines_sequence] is the simulation
    that lets them. *)

From stdpp Require Import base numbers list option gmap.
From Stdlib Require Import ZArith Lia.
From S2P Require Import Prelude.
Open Scope Z_scope.

(** ** The interface *)

(** What a queue promises: it stands for a sequence, [fifo_push] appends,
    [fifo_pop] takes the first element and [fifo_peek] reads it. *)
Class Fifo (Q A : Type) := {
  fifo_repr : Q -> list A -> Prop;
  fifo_init : Q;
  fifo_push : Q -> A -> Q;
  fifo_pop : Q -> option A * Q;
  fifo_peek : Q -> option A;
  fifo_init_repr : fifo_repr fifo_init [];
  fifo_push_repr q xs x : fifo_repr q xs -> fifo_repr (fifo_push q x) (xs ++ [x]);
  fifo_pop_repr q xs :
    fifo_repr q xs -> (fifo_pop q).1 = head xs /\ fifo_repr (fifo_pop q).2 (tail xs);
  fifo_peek_repr q xs : fifo_repr q xs -> fifo_peek q = head xs;
}.

(** The sequence itself is a queue. *)
#[export, refine] Instance list_fifo (A : Type) : Fifo (list A) A := {|
  fifo_repr q xs := q = xs;
  fifo_init := [];
  fifo_push q x := q ++ [x];
  fifo_pop q := match q with [] => (None, []) | x :: r => (Some x, r) end;
  fifo_peek q := head q;
  fifo_init_repr := eq_refl;
|}.
Proof.
  - by intros q xs x ->.
  - by intros [|x q] xs <-.
  - by intros q xs ->.
Defined.

(** [while ((entry = queue_pop(q)) != NULL) free(entry);] on any queue: the
    entries in the order they come out, and the queue left. *)
Fixpoint queue_drain {Q A} `{Fifo Q A} (fuel : nat) (q : Q) : option (list A * Q) :=
  match fifo_pop q with
  | (None, q) => Some ([], q)
  | (Some x, q) =>
      match fuel with
      | O => None
      | S fuel =>
          match queue_drain fuel q with
          | Some (xs, q) => Some (x :: xs, q)
          | None => None
          end
      end
  end.

(** Draining ends, takes every entry in order and leaves the queue empty. *)
Lemma queue_drain_spec {Q A} `{Fifo Q A} (q : Q) (xs : list A) fuel :
  fifo_repr q xs -> (length xs <= fuel)%nat ->
  exists q', queue_drain fuel q = Some (xs, q') /\ fifo_repr q' [].
Proof.
  revert q fuel. induction xs as [|x xs IH]; intros q fuel Hq Hf.
  - destruct (fifo_pop_repr q [] Hq) as [E R]. simpl in *.
    destruct fuel; simpl; destruct (fifo_pop q) as [o q']; simpl in *; subst o; eauto.
  - destruct (fifo_pop_repr q _ Hq) as [E R]. simpl in *.
    destruct fuel as [|fuel]; [lia|]. simpl. destruct (fifo_pop q) as [o q']; simpl in *. subst o.
    destruct (IH q' fuel R) as (q'' & -> & R'); [lia|]. eauto.
Qed.

(** ** The linked list of the source *)

Definition loc := positive.

Section Linked.
Context {A : Type}.

Record queue_entry := QueueEntry { qe_next : option loc; qe_data : A }.

Record queue_head := QueueHead { q_head : option loc; q_tail : option loc; q_num : Z }.

Implicit Types (h : gmap loc queue_entry) (q : queue_head).

Definition queue_init : queue_head := QueueHead None None 0.

(** [queue_push(queue, data)]: [alloc] is what [memory_alloc] returns.  The result
    is the returned pointer (the entry pushed, or NULL), the queue and the heap;
    [None] is the use of a dangling pointer. *)
Definition queue_push (queue : option queue_head) (alloc : option loc) (x : A) h :
    option (option A * option queue_head * gmap loc queue_entry) :=
  match queue with
  | None => Some (None, None, h)
  | Some q =>
      match alloc with
      | None => Some (None, Some q, h)
      | Some l =>
          let h := <[l := QueueEntry None x]> h in
          match (match q_tail q with
                 | None => Some h
                 | Some t =>
                     match h !! t with
                     | None => None
                     | Some e => Some (<[t := QueueEntry (Some l) (qe_data e)]> h)
                     end
                 end) with
          | None => None
          | Some h =>
              let hd := match q_head q with None => Some l | Some _ => q_head q end in
              Some (Some x, Some (QueueHead hd (Some l) (u32 (q_num q + 1))), h)
          end
      end
  end.

(** [queue_pop(queue)]: the entry is freed, so its cell leaves the heap. *)
Definition queue_pop (queue : option queue_head) h :
    option (option A * option queue_head * gmap loc queue_entry) :=
  match queue with
  | None => Some (None, None, h)
  | Some q =>
      match q_head q with
      | None => Some (None, Some q, h)
      | Some l =>
          match h !! l with
          | None => None
          | Some e =>
              let hd := qe_next e in
              let tl := match hd with None => None | Some _ => q_tail q end in
              Some (Some (qe_data e), Some (QueueHead hd tl (u32 (q_num q - 1))), delete l h)
          end
      end
  end.

Definition queue_peek (queue : option queue_head) h : option (option A) :=
  match queue with
  | None => Some None
  | Some q =>
      match q_head q with
      | None => Some None
      | Some l => match h !! l with None => None | Some e => Some (Some (qe_data e)) end
      end
  end.

(** The loop of [queue_foreach], with [func] acting on [arg]; the fuel bounds the
    number of entries visited. *)
Fixpoint queue_foreach_loop {B} (fuel : nat) (entry : option loc) (func : B -> A -> B) (arg : B) h :
    option B :=
  match entry with
  | None => Some arg
  | Some l =>
      match fuel, h !! l with
      | S fuel, Some e => queue_foreach_loop fuel (qe_next e) func (func arg (qe_data e)) h
      | _, _ => None
      end
  end.

Definition queue_foreach {B} (fuel : nat) (queue : option queue_head)
    (func : option (B -> A -> B)) (arg : B) h : option B :=
  match queue, func with
  | Some q, Some func => queue_foreach_loop fuel (q_head q) func arg h
  | _, _ => Some arg
  end.

(** ** Representation *)

(** The cells at [ls], chained from [p] to NULL, hold the entries [xs]. *)
Fixpoint chain h (p : option loc) (ls : list loc) (xs : list A) : Prop :=
  match ls, xs with
  | [], [] => p = None
  | l :: ls, x :: xs => p = Some l /\ exists n, h !! l = Some (QueueEntry n x) /\ chain h n ls xs
  | _, _ => False
  end.

(** The queue [q] on heap [h] stands for the sequence [xs], in the cells [ls]. *)
Definition is_queue h q (ls : list loc) (xs : list A) : Prop :=
  chain h (q_head q) ls xs /\ NoDup ls /\ q_tail q = last ls /\ q_num q = u32 (Z.of_nat (length xs)).

Lemma chain_length h p ls xs : chain h p ls xs -> length ls = length xs.
Proof.
  revert p xs. induction ls as [|l ls IH]; intros p [|x xs]; simpl; try done.
  intros (_ & n & _ & C). f_equal. eauto.
Qed.

Lemma chain_frame h h' p ls xs :
  (forall l, l ∈ ls -> h' !! l = h !! l) -> chain h p ls xs -> chain h' p ls xs.
Proof.
  revert p xs. induction ls as [|l ls IH]; intros p [|x xs] Hf; simpl; try done.
  intros (-> & n & E & C). split; [done|]. exists n. split.
  - rewrite Hf; [done|]. by left.
  - eapply IH; [|done]. intros k Hk. apply Hf. by right.
Qed.

(** A queue only depends on its own cells. *)
Lemma is_queue_frame h h' q ls xs :
  (forall l, l ∈ ls -> h' !! l = h !! l) -> is_queue h q ls xs -> is_queue h' q ls xs.
Proof. intros Hf (C & N & T & K). split; [by eapply chain_frame|done]. Qed.

Lemma is_queue_init : is_queue ∅ queue_init [] [].
Proof. repeat split. constructor. Qed.

Lemma chain_dom h p ls xs l : chain h p ls xs -> l ∈ ls -> is_Some (h !! l).
Proof.
  revert p xs. induction ls as [|k ls IH]; intros p [|x xs]; simpl; try done.
  - by intros _ ?%elem_of_nil.
  - intros (_ & n & E & C) [->|Hl]%elem_of_cons; eauto.
Qed.

(** Linking a new last cell [l]. *)
Lemma chain_snoc h p ls t xs l x :
  chain h p (ls ++ [t]) xs -> NoDup (ls ++ [t]) -> h !! l = None ->
  exists y, h !! t = Some (QueueEntry None y) /\
  chain (<[t := QueueEntry (Some l) y]> (<[l := QueueEntry None x]> h)) p ((ls ++ [t]) ++ [l]) (xs ++ [x]).
Proof.
  revert p xs. induction ls as [|k ls IH]; intros p [|z xs]; simpl; try done.
  - intros (-> & n & E & C) _ Hl. destruct xs; [|done]. simpl in C. subst n.
    assert (t <> l) by (intros ->; congruence).
    exists z. split; [done|]. split; [done|]. exists (Some l). rewrite lookup_insert_eq. split; [done|].
    split; [done|]. exists None. by rewrite lookup_insert_ne, lookup_insert_eq.
  - intros (-> & n & E & C) [Hk N]%NoDup_cons Hl. destruct (IH n xs C N Hl) as (y & Et & C').
    exists y. split; [done|]. split; [done|]. exists n. split; [|done].
    assert (k <> t) by (intros ->; apply Hk; set_solver). assert (k <> l) by (intros ->; congruence).
    by rewrite !lookup_insert_ne.
Qed.

(** A push with a fresh cell appends to the sequence and touches no other cell
    than the queue's own and the new one. *)
Lemma queue_push_spec h q ls xs l x :
  is_queue h q ls xs -> h !! l = None ->
  exists q' h', queue_push (Some q) (Some l) x h = Some (Some x, Some q', h') /\
    is_queue h' q' (ls ++ [l]) (xs ++ [x]) /\
    forall k, k ∉ ls ++ [l] -> h' !! k = h !! k.
Proof.
  intros (C & N & T & K) Hl. unfold queue_push. pose proof (chain_length _ _ _ _ C) as L.
  assert (l ∉ ls) as Hnl by (intros Hin; apply (chain_dom _ _ _ _ _ C) in Hin as [? ?]; congruence).
  assert (NoDup (ls ++ [l])) as N' by (apply NoDup_app; split; [done|split; [by intros ? ? ->%list_elem_of_singleton|apply NoDup_singleton]]).
  destruct ls as [|t ls _] using rev_ind.
  - destruct xs as [|? ?]; [|done]. simpl in C, T. rewrite T, C. simpl.
    do 2 eexists; split; [done|]. split; [|intros k Hk; apply lookup_insert_ne; set_solver].
    repeat split; [|done|]; simpl.
    + exists None. by rewrite lookup_insert_eq.
    + rewrite K. done.
  - rewrite last_snoc in T. rewrite T.
    destruct (chain_snoc h (q_head q) ls t xs l x C N Hl) as (y & Et & C').
    rewrite lookup_insert_ne by (intros ->; apply Hnl; set_solver). rewrite Et. simpl.
    assert (exists hd, q_head q = Some hd) as [hd Ehd].
    { destruct ls, xs; simpl in C; try done; destruct C as [-> _]; eauto. }
    rewrite Ehd in *. do 2 eexists; split; [done|]. split.
    + split; [done|]. split; [done|]. split; [by rewrite last_snoc|]. simpl. rewrite K, length_app. simpl.
      unfold u32. rewrite Zplus_mod_idemp_l. f_equal. lia.
    + intros k Hk. rewrite !lookup_insert_ne; set_solver.
Qed.

(** A pop of a non-empty queue returns the first entry and frees its cell. *)
Lemma queue_pop_spec h q ls xs :
  is_queue h q ls xs ->
  match ls, xs with
  | l :: ls, x :: xs =>
      exists q', queue_pop (Some q) h = Some (Some x, Some q', delete l h) /\
                 is_queue (delete l h) q' ls xs
  | _, _ => queue_pop (Some q) h = Some (None, Some q, h)
  end.
Proof.
  intros (C & N & T & K). unfold queue_pop. destruct ls as [|l ls], xs as [|x xs]; simpl in C; try done.
  - by rewrite C.
  - destruct C as (E & n & El & C). rewrite E, El. simpl.
    apply NoDup_cons in N as [Hl N].
    eexists; split; [done|]. split; [|split; [done|split]]; simpl.
    + eapply chain_frame; [|done]. intros k Hk. apply lookup_delete_ne. by intros ->.
    + destruct ls as [|k ls], xs; simpl in C; try done.
      * by subst n.
      * destruct C as [-> _]. by rewrite T.
    + rewrite K. simpl length. unfold u32. rewrite Zminus_mod_idemp_l. f_equal. lia.
Qed.

Lemma queue_peek_spec h q ls xs :
  is_queue h q ls xs -> queue_peek (Some q) h = Some (hd_error xs).
Proof.
  intros (C & _). unfold queue_peek. destruct ls as [|l ls], xs as [|x xs]; simpl in C; try done.
  - by rewrite C.
  - destruct C as (-> & n & -> & _). done.
Qed.

Lemma queue_foreach_spec {B} h q ls xs (f : B -> A -> B) arg fuel :
  is_queue h q ls xs -> (length xs <= fuel)%nat ->
  queue_foreach fuel (Some q) (Some f) arg h = Some (fold_left f xs arg).
Proof.
  intros (C & _) Hf. simpl. generalize dependent (q_head q). intros p C.
  revert p xs fuel arg C Hf. induction ls as [|l ls IH]; intros p [|x xs] fuel arg C Hf; simpl in C; try done.
  - subst p. by destruct fuel.
  - destruct C as (-> & n & E & C). destruct fuel as [|fuel]; [simpl in Hf; lia|]. simpl. rewrite E.
    apply IH; [done|]. simpl in Hf. lia.
Qed.

End Linked.

Arguments queue_entry : clear implicits.

(** ** The linked queue offers the interface *)

(** A queue with the heap its cells live in and an allocator that hands out the
    next unused address. *)
Record linked_queue (A : Type) := LinkedQueue {
  lq_heap : gmap loc (queue_entry A);
  lq_queue : queue_head;
  lq_brk : loc;
}.
Arguments LinkedQueue {A}.
Arguments lq_heap {A}.
Arguments lq_queue {A}.
Arguments lq_brk {A}.

Section LinkedFifo.
Context {A : Type}.
Implicit Types lq : linked_queue A.

Definition linked_init : linked_queue A := LinkedQueue ∅ queue_init 1%positive.

(** A push whose allocation succeeds or fails as [ok] says: the returned pointer. *)
Definition linked_push (ok : bool) lq (x : A) : option (option A * linked_queue A) :=
  match queue_push (Some (lq_queue lq)) (if ok then Some (lq_brk lq) else None) x (lq_heap lq) with
  | Some (r, Some q, h) => Some (r, LinkedQueue h q (if ok then Pos.succ (lq_brk lq) else lq_brk lq))
  | _ => None
  end.

Definition linked_pop lq : option (option A * linked_queue A) :=
  match queue_pop (Some (lq_queue lq)) (lq_heap lq) with
  | Some (r, Some q, h) => Some (r, LinkedQueue h q (lq_brk lq))
  | _ => None
  end.

Definition linked_peek lq : option (option A) := queue_peek (Some (lq_queue lq)) (lq_heap lq).

Definition linked_repr lq (xs : list A) : Prop :=
  (exists ls, is_queue (lq_heap lq) (lq_queue lq) ls xs) /\
  forall l, (lq_brk lq <= l)%positive -> lq_heap lq !! l = None.

Lemma linked_push_spec lq xs x :
  linked_repr lq xs ->
  exists lq', linked_push true lq x = Some (Some x, lq') /\ linked_repr lq' (xs ++ [x]).
Proof.
  intros [[ls Q] F]. unfold linked_push.
  destruct (queue_push_spec _ _ _ _ (lq_brk lq) x Q) as (q & h & -> & Q' & Fr); [by apply F|].
  eexists; split; [done|]. split; [by exists (ls ++ [lq_brk lq])|]. simpl. intros l Hl.
  rewrite Fr; [apply F; lia|]. intros [Hin|Hin]%elem_of_app.
  - destruct Q as [C _]. apply (chain_dom _ _ _ _ _ C) in Hin as [? E].
    rewrite F in E; [done|lia].
  - apply list_elem_of_singleton in Hin. lia.
Qed.

Lemma linked_pop_spec lq xs :
  linked_repr lq xs ->
  exists lq', linked_pop lq = Some (head xs, lq') /\ linked_repr lq' (tail xs).
Proof.
  intros [[ls Q] F]. unfold linked_pop. pose proof (queue_pop_spec _ _ _ _ Q) as P.
  pose proof Q as (C & _). pose proof (chain_length _ _ _ _ C).
  destruct ls as [|l ls], xs as [|x xs]; try done.
  - rewrite P. eexists; split; [done|]. split; [by exists []|done].
  - destruct P as (q & -> & Q'). eexists; split; [done|]. split; [by exists ls|].
    simpl. intros k Hk. rewrite lookup_delete_None. right. by apply F.
Qed.

Lemma linked_peek_spec lq xs : linked_repr lq xs -> linked_peek lq = Some (head xs).
Proof. intros [[ls Q] _]. apply (queue_peek_spec _ _ _ _ Q). Qed.

#[export, refine] Instance linked_fifo : Fifo (linked_queue A) A := {|
  fifo_repr := linked_repr;
  fifo_init := linked_init;
  fifo_push q x := match linked_push true q x with Some (_, q) => q | None => q end;
  fifo_pop q := match linked_pop q with Some r => r | None => (None, q) end;
  fifo_peek q := match linked_peek q with Some r => r | None => None end;
|}.
Proof.
  - split; [exists []; apply is_queue_init|done].
  - intros q xs x (q' & -> & R)%(linked_push_spec _ _ x). done.
  - intros q xs (q' & -> & R)%linked_pop_spec. done.
  - intros q xs ->%linked_peek_spec. done.
Defined.

(** ** Simulation *)

Inductive queue_op :=
| OpPush (ok : bool) (x : A)   (* [ok]: whether memory_alloc succeeds *)
| OpPop
| OpPeek.

Definition linked_step lq (op : queue_op) : option (option A * linked_queue A) :=
  match op with
  | OpPush ok x => linked_push ok lq x
  | OpPop => linked_pop lq
  | OpPeek => match linked_peek lq with Some r => Some (r, lq) | None => None end
  end.

Fixpoint linked_run lq (ops : list queue_op) : option (list (option A) * linked_queue A) :=
  match ops with
  | [] => Some ([], lq)
  | op :: ops =>
      match linked_step lq op with
      | None => None
      | Some (r, lq) =>
          match linked_run lq ops with
          | None => None
          | Some (rs, lq) => Some (r :: rs, lq)
          end
      end
  end.

(** The same operations on the sequence. *)
Definition sequence_step (xs : list A) (op : queue_op) : option A * list A :=
  match op with
  | OpPush true x => (Some x, xs ++ [x])
  | OpPush false _ => (None, xs)
  | OpPop => (head xs, tail xs)
  | OpPeek => (head xs, xs)
  end.

Fixpoint sequence_run (xs : list A) (ops : list queue_op) : list (option A) * list A :=
  match ops with
  | [] => ([], xs)
  | op :: ops =>
      let '(r, xs) := sequence_step xs op in
      let '(rs, xs) := sequence_run xs ops in (r :: rs, xs)
  end.

Lemma linked_step_sim lq xs op :
  linked_repr lq xs ->
  exists lq', linked_step lq op = Some ((sequence_step xs op).1, lq') /\
              linked_repr lq' (sequence_step xs op).2.
Proof.
  intros R. destruct op as [[] x| |]; simpl.
  - by apply linked_push_spec.
  - unfold linked_push. simpl. destruct lq; simpl. eauto.
  - by apply linked_pop_spec.
  - rewrite (linked_peek_spec _ _ R). eauto.
Qed.

(** C36. The linked list of [queue_head] refines the sequence: any sequence of
    pushes (allocation failing or not), pops and peeks on a queue from
    [queue_init] runs without touching a dangling pointer and returns what the
    sequence returns, and the linked list ends up holding the sequence's entries. *)
Theorem linked_queue_refines_sequence (ops : list queue_op) :
  exists lq, linked_run linked_init ops = Some ((sequence_run [] ops).1, lq) /\
             linked_repr lq (sequence_run [] ops).2.
Proof.
  assert (linked_repr linked_init []) as R by exact (@fifo_init_repr _ _ linked_fifo).
  revert R. generalize linked_init, (@nil A).
  induction ops as [|op ops IH]; intros lq xs R; simpl; [eauto|].
  destruct (linked_step_sim lq xs op R) as (lq' & -> & R').
  destruct (sequence_step xs op) as [r xs']. simpl in *.
  destruct (IH lq' xs' R') as (lq'' & -> & R'').
  destruct (sequence_run xs' ops). eauto.
Qed.

(** Queues on one heap do not interfere: with disjoint cells, a push or a pop
    on one queue keeps the other queue and its entries, and the cells stay
    disjoint. *)
Theorem queue_isolation (h : gmap loc (queue_entry A)) (q q2 : queue_head) (ls ls2 : list loc)
    (xs xs2 : list A) (l : loc) (x : A)
    (HQ : is_queue h q ls xs) (HQ2 : is_queue h q2 ls2 xs2) (Hd : ls ## ls2) (Hl : h !! l = None) :
  (exists q' h', queue_push (Some q) (Some l) x h = Some (Some x, Some q', h') /\
     is_queue h' q' (ls ++ [l]) (xs ++ [x]) /\ is_queue h' q2 ls2 xs2 /\ (ls ++ [l]) ## ls2) /\
  (exists q' h', queue_pop (Some q) h = Some (head xs, Some q', h') /\
     is_queue h' q' (tail ls) (tail xs) /\ is_queue h' q2 ls2 xs2 /\ tail ls ## ls2).
Proof.
  assert (l ∉ ls2) as Hl2.
  { intros Hin. destruct HQ2 as [C _]. apply (chain_dom _ _ _ _ _ C) in Hin as [? ?]. congruence. }
  split.
  - destruct (queue_push_spec h q ls xs l x HQ Hl) as (q' & h' & E & Q' & Fr).
    exists q', h'. split; [done|]. split; [done|]. split; [|set_solver].
    apply (is_queue_frame h); [|done]. intros k Hk. apply Fr. set_solver.
  - pose proof (queue_pop_spec h q ls xs HQ) as P. pose proof HQ as (C & _).
    pose proof (chain_length _ _ _ _ C). destruct ls as [|k ls], xs as [|y xs]; try done.
    + rewrite P. eauto 10.
    + destruct P as (q' & -> & Q'). do 2 eexists; split; [done|]. split; [done|].
      split; [|set_solver]. apply (is_queue_frame h); [|done].
      intros j Hj. apply lookup_delete_ne. set_solver.
Qed.

End LinkedFifo.

Lemma queue_isolation_witness :
  exists q' h', queue_push (Some (@queue_init)) (Some 2%positive) 7
    {[1%positive := QueueEntry None 5]} = Some (Some 7, Some q', h') /\
    is_queue h' q' [2%positive] [7] /\
    is_queue h' (QueueHead (Some 1%positive) (Some 1%positive) 1) [1%positive] [5].
Proof.
  destruct (proj1 (queue_isolation {[1%positive := QueueEntry None 5]} queue_init
    (QueueHead (Some 1%positive) (Some 1%positive) 1) [] [1%positive] [] [5] 2%positive 7
    ltac:(repeat split; constructor)
    ltac:(repeat split; [exists None; done|apply NoDup_singleton])
    ltac:(set_solver) ltac:(reflexivity))) as (q' & h' & E & Q & Q2 & _).
  exists q', h'. split; [exact E|]. split; [exact Q|exact Q2].
Defined.
