(* ===== verification/Race.v ===== *)
(** * Queue operations step by step (src/lib/util.c)

    [queue_push] and [queue_pop] of Queue.v are whole calls.  Here they are the
    statements of the source, one access to shared memory per step, so that the calls of
    two threads can interleave: a datagram sent through the loopback device is pushed on
    the queue of its protocol by the sending thread, while the interrupt thread pops.
    A call that runs alone does what Queue.v says; two that interleave may not. *)

From stdpp Require Import base numbers list option gmap.
From Stdlib Require Import ZArith Lia.
From S2P Require Import Prelude Queue.
Open Scope Z_scope.

Section Steps.
Context {A : Type}.

(** The queue and the heap the threads share. *)
Definition shared : Type := queue_head * gmap loc (@queue_entry A).

(** Where a thread is in [queue_push], [entry] being allocated.  The test of a pointer
    and its use are separate reads, as in the source. *)
Inductive push_pc :=
| PushFill | PushTestTail | PushLoadTail | PushLink (tail : loc) | PushSetTail | PushTestHead | PushSetHead
| PushLoadNum | PushStoreNum (num : Z) | PushDone.

(** [None]: a NULL or dangling pointer is used. *)
Definition push_step (entry : loc) (data : A) (pc : push_pc) (s : shared) : option (push_pc * shared) :=
  let '(q, h) := s in
  match pc with
  | PushFill => Some (PushTestTail, (q, <[entry := QueueEntry None data]> h))
  | PushTestTail => Some (if bool_decide (is_Some (q_tail q)) then PushLoadTail else PushSetTail, s)
  | PushLoadTail => match q_tail q with Some t => Some (PushLink t, s) | None => None end
  | PushLink t =>
      match h !! t with
      | Some e => Some (PushSetTail, (q, <[t := QueueEntry (Some entry) (qe_data e)]> h))
      | None => None
      end
  | PushSetTail => Some (PushTestHead, (QueueHead (q_head q) (Some entry) (q_num q), h))
  | PushTestHead => Some (if bool_decide (q_head q = None) then PushSetHead else PushLoadNum, s)
  | PushSetHead => Some (PushLoadNum, (QueueHead (Some entry) (q_tail q) (q_num q), h))
  | PushLoadNum => Some (PushStoreNum (q_num q), s)
  | PushStoreNum num => Some (PushDone, (QueueHead (q_head q) (q_tail q) (u32 (num + 1)), h))
  | PushDone => Some (PushDone, s)
  end.

(** Where a thread is in [queue_pop]. *)
Inductive pop_pc :=
| PopTest | PopLoad | PopNext (entry : loc) | PopSetHead (entry : loc) (next : option loc) | PopTestHead (entry : loc)
| PopClearTail (entry : loc) | PopLoadNum (entry : loc) | PopStoreNum (entry : loc) (num : Z) | PopFree (entry : loc)
| PopDone (result : option A).

Definition pop_step (pc : pop_pc) (s : shared) : option (pop_pc * shared) :=
  let '(q, h) := s in
  match pc with
  | PopTest => Some (if bool_decide (q_head q = None) then PopDone None else PopLoad, s)
  | PopLoad => match q_head q with Some l => Some (PopNext l, s) | None => None end
  | PopNext l => match h !! l with Some e => Some (PopSetHead l (qe_next e), s) | None => None end
  | PopSetHead l n => Some (PopTestHead l, (QueueHead n (q_tail q) (q_num q), h))
  | PopTestHead l => Some (if bool_decide (q_head q = None) then PopClearTail l else PopLoadNum l, s)
  | PopClearTail l => Some (PopLoadNum l, (QueueHead (q_head q) None (q_num q), h))
  | PopLoadNum l => Some (PopStoreNum l (q_num q), s)
  | PopStoreNum l num => Some (PopFree l, (QueueHead (q_head q) (q_tail q) (u32 (num - 1)), h))
  | PopFree l => match h !! l with Some e => Some (PopDone (Some (qe_data e)), (q, delete l h)) | None => None end
  | PopDone r => Some (PopDone r, s)
  end.

(** ** A call that runs alone *)

Fixpoint push_run (n : nat) (entry : loc) (data : A) (pc : push_pc) (s : shared) : option (push_pc * shared) :=
  match n with
  | O => Some (pc, s)
  | S n => match push_step entry data pc s with Some (pc, s) => push_run n entry data pc s | None => None end
  end.

Fixpoint pop_run (n : nat) (pc : pop_pc) (s : shared) : option (pop_pc * shared) :=
  match n with
  | O => Some (pc, s)
  | S n => match pop_step pc s with Some (pc, s) => pop_run n pc s | None => None end
  end.

(** The steps of a call, run without interruption, are the call: with nine steps, one for
    each access, [queue_push] and [queue_pop] end as the functions of Queue.v do, on
    every queue and heap, the use of a dangling pointer included. *)
Theorem queue_steps_atomic (q : queue_head) (h : gmap loc (@queue_entry A)) (entry : loc) (data : A) :
  push_run 9 entry data PushFill (q, h)
  = match queue_push (Some q) (Some entry) data h with
    | Some (_, Some q', h') => Some (PushDone, (q', h'))
    | _ => None
    end /\
  pop_run 9 PopTest (q, h)
  = match queue_pop (Some q) h with
    | Some (r, Some q', h') => Some (PopDone r, (q', h'))
    | _ => None
    end.
Proof.
  destruct q as [hd tl num]. split.
  - destruct tl as [t|].
    + cbn. destruct (<[entry := QueueEntry None data]> h !! t) as [e|] eqn:E; [|done]. by destruct hd.
    + by destruct hd.
  - destruct hd as [l|]; [|done]. cbn. destruct (h !! l) as [e|] eqn:E; [|done]. destruct (qe_next e); cbn; by rewrite E.
Qed.

(** ** Two threads *)

(** Thread 1 pops, thread 2 pushes [data] in cell [entry]; [true] in the schedule is a
    step of thread 1. *)
Fixpoint race (sched : list bool) (entry : loc) (data : A) (pc1 : pop_pc) (pc2 : push_pc) (s : shared) :
    option (pop_pc * push_pc * shared) :=
  match sched with
  | [] => Some (pc1, pc2, s)
  | true :: sched => match pop_step pc1 s with Some (pc1, s) => race sched entry data pc1 pc2 s | None => None end
  | false :: sched => match push_step entry data pc2 s with Some (pc2, s) => race sched entry data pc1 pc2 s | None => None end
  end.

(** One after the other: the pop is through before the push starts, or the push before
    the pop. *)
Definition serial (first : bool) : list bool := replicate 9 first ++ replicate 9 (negb first).

Lemma race_pop n sched entry data pc1 pc2 s :
  race (replicate n true ++ sched) entry data pc1 pc2 s
  = match pop_run n pc1 s with Some (pc1, s) => race sched entry data pc1 pc2 s | None => None end.
Proof. revert pc1 s. induction n as [|n IH]; intros pc1 s; [done|]. simpl. destruct (pop_step pc1 s) as [[]|]; [apply IH|done]. Qed.

Lemma race_push n sched entry data pc1 pc2 s :
  race (replicate n false ++ sched) entry data pc1 pc2 s
  = match push_run n entry data pc2 s with Some (pc2, s) => race sched entry data pc1 pc2 s | None => None end.
Proof. revert pc2 s. induction n as [|n IH]; intros pc2 s; [done|]. simpl. destruct (push_step _ _ pc2 s) as [[]|]; [apply IH|done]. Qed.

(** A queue with the one entry [a], in cell 1. *)
Definition one_entry (a : A) : shared := (QueueHead (Some 1%positive) (Some 1%positive) 1, {[1%positive := QueueEntry None a]}).

Lemma one_entry_queue a : is_queue (one_entry a).2 (one_entry a).1 [1%positive] [a].
Proof. split_and!; [|apply NoDup_singleton|done|done]. split; [done|]. exists None. done. Qed.

(** The pop has taken the last entry and is about to clear the tail when the push comes. *)
Definition lossy : list bool := replicate 5 true ++ replicate 9 false ++ replicate 4 true.

(** The push has read the tail when the pop frees the entry. *)
Definition dangling : list bool := replicate 3 false ++ replicate 9 true ++ replicate 1 false.

(** The queue is not safe for two threads.  On a queue with one entry [a], with a pop
    by one thread and a push of [b] by another: one after the other, in either order,
    they leave a queue of [b] alone; but some interleaving, after which both have
    returned with success, leaves a queue that stands for no sequence, so that an
    entry [c] pushed next never comes out, is not freed, and the count stays one
    with nothing to pop; and another writes to the entry after it was freed. *)
Theorem queue_race (a b c : A) :
  (forall first, exists q h, race (serial first) 2%positive b PopTest PushFill (one_entry a) = Some (PopDone (Some a), PushDone, (q, h)) /\
     is_queue h q [2%positive] [b]) /\
  (exists q h, race lossy 2%positive b PopTest PushFill (one_entry a) = Some (PopDone (Some a), PushDone, (q, h)) /\
     (forall ls xs, ~ is_queue h q ls xs) /\
     exists q1 h1 q2 h2, queue_push (Some q) (Some 3%positive) c h = Some (Some c, Some q1, h1) /\
       queue_pop (Some q1) h1 = Some (Some b, Some q2, h2) /\ queue_pop (Some q2) h2 = Some (None, Some q2, h2) /\
       q_num q2 = 1 /\ h2 !! 3%positive = Some (QueueEntry None c)) /\
  race dangling 2%positive b PopTest PushFill (one_entry a) = None.
Proof.
  split_and!.
  - intros []; unfold serial; cbn [negb].
    + rewrite race_pop. cbn. eexists _, _. split; [reflexivity|].
      split_and!; [|apply NoDup_singleton|done|done]. split; [done|]. exists None. done.
    + rewrite race_push. cbn. eexists _, _. split; [reflexivity|].
      split_and!; [|apply NoDup_singleton|done|done]. split; [done|]. exists None. done.
  - eexists _, _. split; [reflexivity|]. split.
    + intros ls xs (C & _ & T & _). simpl in T. destruct ls as [|l ls]; [by destruct xs|].
      symmetry in T. apply last_None in T. done.
    + eexists _, _, _, _. split; [reflexivity|]. split; [reflexivity|]. split; [reflexivity|]. done.
  - reflexivity.
Qed.

End Steps.
