(* ===== verification/State.v ===== *)
(** * The data of the stack

    The structures of net2.h, ip2.h, sock.h, handler.h and of the .c files, the
    static variables of every translation unit gathered in one record, and the
    effects on them that all components share: memory allocation, the clock,
    mutexes, signals and system calls.

    Objects reached through pointers that the source shares (devices, interfaces)
    live in finite maps indexed by their address; a singly linked list built by
    pushing at its head is the list of its elements, head first; a function pointer
    is the name of the function it points to. *)

From stdpp Require Import base numbers list option gmap strings.
From Stdlib Require Import ZArith Lia.
From S2P Require Import Prelude Util Queue.
Open Scope Z_scope.
Open Scope cmonad_scope.

(** ** Devices and interfaces (net2.h) *)

Definition dev_id := nat.
Definition iface_id := nat.

Definition NETWORK_DEVICE_TYPE_NULL : Z := 0x0000.
Definition NETWORK_DEVICE_TYPE_LOOPBACK : Z := 0x0001.
Definition NETWORK_DEVICE_TYPE_ETHERNET : Z := 0x0002.

Definition NETWORK_DEVICE_FLAG_UP : Z := 0x0001.
Definition NETWORK_DEVICE_FLAG_LOOPBACK : Z := 0x0010.
Definition NETWORK_DEVICE_FLAG_BROADCAST : Z := 0x0020.
Definition NETWORK_DEVICE_FLAG_P2P : Z := 0x0040.
Definition NETWORK_DEVICE_FLAG_NEED_ARP : Z := 0x0100.

Definition NETWORK_DEVICE_ADDR_LEN : nat := 16.

Definition NETWORK_INTERFACE_FAMILY_IP : Z := 1.
Definition NETWORK_INTERFACE_FAMILY_IPV6 : Z := 2.

Definition NETWORK_PROTOCOL_TYPE_IP : Z := 0x0800.
Definition NETWORK_PROTOCOL_TYPE_ARP : Z := 0x0806.
Definition NETWORK_PROTOCOL_TYPE_IPV6 : Z := 0x86dd.

Definition NETWORK_IRQ_SHARED : Z := 0x0001.
Definition MAX_NAME_LENGTH : nat := 16.
Definition IFNAMSIZ : nat := 16.

(** The [network_device_operations] structures the source defines. *)
Inductive device_ops := loopback_ops | ether_tap_ops | ether_pcap_ops.

(** [struct ether_tap] and [struct ether_pcap], the [priv] of an Ethernet device. *)
Record ether_priv := EtherPriv { ep_name : string; ep_fd : Z; ep_irq : Z }.

Record network_device := NetworkDevice {
  dev_interfaces : list iface_id;
  dev_index : Z;
  dev_name : string;
  dev_type : Z;
  dev_mtu : Z;
  dev_flags : Z;
  dev_header_len : Z;
  dev_address_len : Z;
  dev_address : list Z;
  dev_broadcast : list Z;   (* the union of [peer] and [broadcast] *)
  dev_ops : option device_ops;
  dev_priv : option ether_priv;
}.

(** Assignments to single fields. *)
Definition with_interfaces (l : list iface_id) (d : network_device) : network_device :=
  NetworkDevice l (dev_index d) (dev_name d) (dev_type d) (dev_mtu d) (dev_flags d)
    (dev_header_len d) (dev_address_len d) (dev_address d) (dev_broadcast d) (dev_ops d) (dev_priv d).
Definition with_index_name (i : Z) (name : string) (d : network_device) : network_device :=
  NetworkDevice (dev_interfaces d) i name (dev_type d) (dev_mtu d) (dev_flags d)
    (dev_header_len d) (dev_address_len d) (dev_address d) (dev_broadcast d) (dev_ops d) (dev_priv d).
Definition with_flags (fl : Z) (d : network_device) : network_device :=
  NetworkDevice (dev_interfaces d) (dev_index d) (dev_name d) (dev_type d) (dev_mtu d) fl
    (dev_header_len d) (dev_address_len d) (dev_address d) (dev_broadcast d) (dev_ops d) (dev_priv d).
Definition with_address (a : list Z) (d : network_device) : network_device :=
  NetworkDevice (dev_interfaces d) (dev_index d) (dev_name d) (dev_type d) (dev_mtu d) (dev_flags d)
    (dev_header_len d) (dev_address_len d) a (dev_broadcast d) (dev_ops d) (dev_priv d).
Definition with_ops (o : device_ops) (d : network_device) : network_device :=
  NetworkDevice (dev_interfaces d) (dev_index d) (dev_name d) (dev_type d) (dev_mtu d) (dev_flags d)
    (dev_header_len d) (dev_address_len d) (dev_address d) (dev_broadcast d) (Some o) (dev_priv d).
Definition with_priv (p : ether_priv) (d : network_device) : network_device :=
  NetworkDevice (dev_interfaces d) (dev_index d) (dev_name d) (dev_type d) (dev_mtu d) (dev_flags d)
    (dev_header_len d) (dev_address_len d) (dev_address d) (dev_broadcast d) (dev_ops d) (Some p).

(** What [memory_alloc] hands out: every field zero. *)
Definition network_device_zero : network_device :=
  NetworkDevice [] 0 "" 0 0 0 0 0
    (replicate NETWORK_DEVICE_ADDR_LEN 0) (replicate NETWORK_DEVICE_ADDR_LEN 0) None None.

Definition NETWORK_DEVICE_IS_UP (d : network_device) : bool :=
  truthy (Z.land (dev_flags d) NETWORK_DEVICE_FLAG_UP).

(** [struct IP_INTERFACE] with its embedded [network_interface]. *)
Record ip_interface := IpInterface {
  if_dev : option dev_id;
  if_family : Z;
  if_unicast : Z;
  if_netmask : Z;
  if_broadcast : Z;
}.

(** ** net.c *)

(** The functions the stack registers through function pointers. *)
Inductive protocol_handler := fn_arp_input | fn_ip_input.
Inductive ip_handler := fn_icmp_input | fn_udp_input.
Inductive timer_fn := fn_arp_timer.
Inductive event_fn := fn_udp_event_handler.
Inductive irq_fn := fn_ether_tap_isr | fn_ether_pcap_isr.

Record network_protocol_queue_entry := NetQueueEntry {
  nqe_dev : dev_id;
  nqe_len : Z;
  nqe_data : list Z;
}.

Record network_protocol := NetworkProtocol {
  np_name : string;
  np_type : Z;
  np_queue : list network_protocol_queue_entry;
  np_handler : protocol_handler;
}.

Record network_timer := NetworkTimer {
  nt_name : string;
  nt_interval : timeval;
  nt_last : timeval;
  nt_handler : timer_fn;
}.

Record network_event := NetworkEvent { ne_handler : event_fn }.

Record net_state := NetState {
  n_devs : gmap dev_id network_device;
  n_ifs : gmap iface_id ip_interface;
  n_index : Z;                     (* the static counter of network_device_register *)
  n_devices : list dev_id;
  n_protocols : list network_protocol;
  n_timers : list network_timer;
  n_events : list network_event;
}.

(** ** arp.c *)

Inductive cache_state :=
| ARP_CACHE_STATE_FREE | ARP_CACHE_STATE_INCOMPLETE
| ARP_CACHE_STATE_RESOLVED | ARP_CACHE_STATE_STATIC.

#[export] Instance cache_state_eq_dec : EqDecision cache_state.
Proof. solve_decision. Defined.

Record arp_cache := ArpCache {
  ac_state : cache_state;
  ac_pa : Z;
  ac_ha : list Z;
  ac_timestamp : timeval;
}.

(** ** ip.c *)

Record ip_protocol := IpProtocol { ipp_name : string; ipp_type : Z; ipp_handler : ip_handler }.

Record ip_route := IpRoute {
  rt_network : Z;
  rt_netmask : Z;
  rt_nexthop : Z;
  rt_iface : iface_id;
}.

Record ip_state := IpState {
  ip_ifaces : list iface_id;
  ip_protocols : list ip_protocol;
  ip_routes : list ip_route;
  ip_id : Z;                       (* the static counter of ip_generate_id *)
}.

(** ** udp.c, synchronize.c *)

Record endpoint := Endpoint { ep_address : Z; ep_port : Z }.

#[export] Instance endpoint_eq_dec : EqDecision endpoint.
Proof. solve_decision. Defined.

Inductive pcb_state := UDP_PCB_STATE_FREE | UDP_PCB_STATE_OPEN | UDP_PCB_STATE_CLOSING.

#[export] Instance pcb_state_eq_dec : EqDecision pcb_state.
Proof. solve_decision. Defined.

(** [struct sched_ctx]; [cond] counts the threads blocked on the condition variable. *)
Record sched_ctx := SchedCtx { sc_cond : Z; sc_interrupted : Z; sc_wc : Z }.

Record udp_queue_entry := UdpQueueEntry {
  uqe_foreign : endpoint;
  uqe_len : Z;
  uqe_data : list Z;
}.

Record udp_pcb := UdpPcb {
  pcb_st : pcb_state;
  pcb_local : endpoint;
  pcb_queue : list udp_queue_entry;
  pcb_ctx : sched_ctx;
}.

(** ** sock.c *)

Record sock := Sock { sk_used : Z; sk_family : Z; sk_type : Z; sk_desc : Z }.

(** ** interrupt.c *)

Record irq_entry := IrqEntry {
  irq_num : Z;
  irq_handler : irq_fn;
  irq_flags : Z;
  irq_name : string;
  irq_dev : dev_id;
}.

Record intr_state := IntrState { irq_vec : list irq_entry; intr_sigmask : list Z }.

(** ** The environment

    [w_alloc] and [w_sys] are the outcomes of the next allocations and system
    calls, [w_clock] the next readings of the clock (the last one stays); when an
    outcome list is used up, calls succeed.  Any behaviour of the environment on a
    finite run is some choice of these lists.  [w_trace] records the system calls
    made with their results, [w_pending] the signals raised and not yet taken. *)

Inductive syscall :=
| SysOpen | SysSocket | SysIoctl (fd : Z) (request : string) | SysBind (fd : Z) | SysFcntl (fd : Z) (cmd : string) | SysClose (fd : Z)
| SysWrite (fd : Z) (frame : list Z) | SysRead (fd : Z) (size : Z) | SysPoll (fd : Z)
| SysTimerCreate | SysTimerSettime | SysSigmask | SysThreadCreate
| SysCondDestroy.

Record sysres := SysRes { r_ret : Z; r_errno : Z; r_data : list Z }.

Record world := World {
  w_alloc : list bool;
  w_clock : list timeval;
  w_sys : list sysres;
  w_trace : list (syscall * Z);
  w_pending : list Z;
  w_errno : Z;
}.

(** The mutexes: of arp.c, of udp.c and the static one of [ip_generate_id]. *)
Inductive mutex := arp_mutex | udp_mutex | ip_id_mutex.

#[export] Instance mutex_eq_dec : EqDecision mutex.
Proof. solve_decision. Defined.

(** ** The whole state *)

Record stack := Stack {
  st_net : net_state;
  st_arp : list arp_cache;         (* caches[] *)
  st_ip : ip_state;
  st_udp : list udp_pcb;           (* pcbs[] *)
  st_sock : list sock;             (* socks[] *)
  st_intr : intr_state;
  st_held : list mutex;            (* the mutexes held by the running thread *)
  st_world : world;
}.

Definition set_net (f : net_state -> net_state) (s : stack) : stack :=
  Stack (f (st_net s)) (st_arp s) (st_ip s) (st_udp s) (st_sock s) (st_intr s) (st_held s) (st_world s).
Definition set_arp (f : list arp_cache -> list arp_cache) (s : stack) : stack :=
  Stack (st_net s) (f (st_arp s)) (st_ip s) (st_udp s) (st_sock s) (st_intr s) (st_held s) (st_world s).
Definition set_ip (f : ip_state -> ip_state) (s : stack) : stack :=
  Stack (st_net s) (st_arp s) (f (st_ip s)) (st_udp s) (st_sock s) (st_intr s) (st_held s) (st_world s).
Definition set_udp (f : list udp_pcb -> list udp_pcb) (s : stack) : stack :=
  Stack (st_net s) (st_arp s) (st_ip s) (f (st_udp s)) (st_sock s) (st_intr s) (st_held s) (st_world s).
Definition set_sock (f : list sock -> list sock) (s : stack) : stack :=
  Stack (st_net s) (st_arp s) (st_ip s) (st_udp s) (f (st_sock s)) (st_intr s) (st_held s) (st_world s).
Definition set_intr (f : intr_state -> intr_state) (s : stack) : stack :=
  Stack (st_net s) (st_arp s) (st_ip s) (st_udp s) (st_sock s) (f (st_intr s)) (st_held s) (st_world s).
Definition set_held (f : list mutex -> list mutex) (s : stack) : stack :=
  Stack (st_net s) (st_arp s) (st_ip s) (st_udp s) (st_sock s) (st_intr s) (f (st_held s)) (st_world s).
Definition set_world (f : world -> world) (s : stack) : stack :=
  Stack (st_net s) (st_arp s) (st_ip s) (st_udp s) (st_sock s) (st_intr s) (st_held s) (f (st_world s)).

Definition set_devs (f : gmap dev_id network_device -> gmap dev_id network_device) (n : net_state) : net_state :=
  NetState (f (n_devs n)) (n_ifs n) (n_index n) (n_devices n) (n_protocols n) (n_timers n) (n_events n).
Definition set_ifs (f : gmap iface_id ip_interface -> gmap iface_id ip_interface) (n : net_state) : net_state :=
  NetState (n_devs n) (f (n_ifs n)) (n_index n) (n_devices n) (n_protocols n) (n_timers n) (n_events n).
Definition set_index (f : Z -> Z) (n : net_state) : net_state :=
  NetState (n_devs n) (n_ifs n) (f (n_index n)) (n_devices n) (n_protocols n) (n_timers n) (n_events n).
Definition set_devices (f : list dev_id -> list dev_id) (n : net_state) : net_state :=
  NetState (n_devs n) (n_ifs n) (n_index n) (f (n_devices n)) (n_protocols n) (n_timers n) (n_events n).
Definition set_protocols (f : list network_protocol -> list network_protocol) (n : net_state) : net_state :=
  NetState (n_devs n) (n_ifs n) (n_index n) (n_devices n) (f (n_protocols n)) (n_timers n) (n_events n).
Definition set_timers (f : list network_timer -> list network_timer) (n : net_state) : net_state :=
  NetState (n_devs n) (n_ifs n) (n_index n) (n_devices n) (n_protocols n) (f (n_timers n)) (n_events n).
Definition set_events (f : list network_event -> list network_event) (n : net_state) : net_state :=
  NetState (n_devs n) (n_ifs n) (n_index n) (n_devices n) (n_protocols n) (n_timers n) (f (n_events n)).

Definition set_alloc (l : list bool) (w : world) : world :=
  World l (w_clock w) (w_sys w) (w_trace w) (w_pending w) (w_errno w).
Definition set_clock (l : list timeval) (w : world) : world :=
  World (w_alloc w) l (w_sys w) (w_trace w) (w_pending w) (w_errno w).
Definition set_pending (l : list Z) (w : world) : world :=
  World (w_alloc w) (w_clock w) (w_sys w) (w_trace w) l (w_errno w).
Definition set_errno (e : Z) (w : world) : world :=
  World (w_alloc w) (w_clock w) (w_sys w) (w_trace w) (w_pending w) e.

(** The state at program start: static storage is zero, except the counter of
    [ip_generate_id], and the environment [w] is arbitrary. *)
Definition ARP_CACHE_SIZE : nat := 32.
Definition UDP_PCB_SIZE : nat := 16.
Definition MAX_SOCKS : nat := 128.

Definition arp_cache_zero : arp_cache := ArpCache ARP_CACHE_STATE_FREE 0 [0; 0; 0; 0; 0; 0] (Timeval 0 0).
Definition udp_pcb_zero : udp_pcb := UdpPcb UDP_PCB_STATE_FREE (Endpoint 0 0) [] (SchedCtx 0 0 0).
Definition sock_zero : sock := Sock 0 0 0 0.

Definition stack_boot (w : world) : stack :=
  Stack (NetState ∅ ∅ 0 [] [] [] []) (replicate ARP_CACHE_SIZE arp_cache_zero) (IpState [] [] [] 128)
    (replicate UDP_PCB_SIZE udp_pcb_zero) (replicate MAX_SOCKS sock_zero) (IntrState [] []) [] w.

(** An environment in which every call succeeds at time [t]. *)
Definition world_quiet (t : timeval) : world := World [] [t] [] [] [] 0.

(** ** Shared effects *)

Abbreviation C := (M stack).

(** [memory_alloc]: whether it returned a block. *)
Definition memory_alloc : C bool :=
  let! s := get in
  match w_alloc (st_world s) with
  | [] => ret true
  | b :: r => modify (set_world (set_alloc r));; ret b
  end.

Definition gettimeofday : C timeval :=
  let! s := get in
  match w_clock (st_world s) with
  | [] => ret (Timeval 0 0)
  | [t] => ret t
  | t :: r => modify (set_world (set_clock r));; ret t
  end.

Definition mutex_lock (m : mutex) : C unit :=
  let! held := gets st_held in
  if decide (m ∈ held) then throw Deadlock else modify (set_held (cons m)).

(** Mutexes are released in any order. *)
Definition mutex_unlock (m : mutex) : C unit :=
  let! held := gets st_held in
  if decide (m ∈ held) then modify (set_held (filter (fun k => k <> m))) else throw NotOwner.

(** A system call: recorded, and answered by the environment; [dflt] is the
    answer when it does not say. *)
Definition syscall_do (c : syscall) (dflt : sysres) : C sysres :=
  let! s := get in
  let w := st_world s in
  let '(r, rest) := match w_sys w with [] => (dflt, []) | r :: rest => (r, rest) end in
  modify (set_world (fun w =>
    World (w_alloc w) (w_clock w) rest (w_trace w ++ [(c, r_ret r)]) (w_pending w)
      (if r_ret r =? -1 then r_errno r else w_errno w)));;
  ret r.

(** [kill(getpid(), sig)]: a standard signal is pending at most once. *)
Definition raise_signal (sig : Z) : C unit :=
  modify (set_world (fun w =>
    if decide (sig ∈ w_pending w) then w else set_pending (w_pending w ++ [sig]) w)).

Definition SIGUSR1 : Z := 10.
Definition SIGUSR2 : Z := 12.
Definition SIGALRM : Z := 14.
Definition SIGINT : Z := 2.
Definition SIGRTMIN : Z := 34.
Definition EINTR : Z := 4.

(** [raise_softirq] *)
Definition raise_softirq : C unit := raise_signal SIGUSR1.

(** ** Objects *)

Definition get_dev (d : dev_id) : C network_device :=
  let! n := gets st_net in opt NullDeref (n_devs n !! d).

Definition set_dev (d : dev_id) (f : network_device -> network_device) : C unit :=
  let! dev := get_dev d in
  modify (set_net (set_devs (insert d (f dev)))).

Definition get_iface (i : iface_id) : C ip_interface :=
  let! n := gets st_net in opt NullDeref (n_ifs n !! i).

(** The device of a registered interface. *)
Definition iface_dev (i : iface_id) : C dev_id :=
  let! f := get_iface i in opt NullDeref (if_dev f).

(** An address at which no object of the map lives. *)
Definition fresh_id {V} (m : gmap nat V) : nat :=
  map_fold (fun k _ acc => Nat.max (S k) acc) 0%nat m.

Lemma fresh_id_above {V} (m : gmap nat V) k : is_Some (m !! k) -> (k < fresh_id m)%nat.
Proof.
  unfold fresh_id. apply (map_fold_weak_ind (fun r m => is_Some (m !! k) -> (k < r)%nat)).
  - rewrite lookup_empty. by intros [? ?].
  - intros i x m' r _ IH. rewrite lookup_insert. case_decide; [subst; lia|]. intros Hk%IH. lia.
Qed.

Lemma fresh_id_None {V} (m : gmap nat V) : m !! fresh_id m = None.
Proof. apply eq_None_not_Some. intros H%fresh_id_above. lia. Qed.

(** [queue_push] on the queues of the stack, with the allocation of its cell. *)
Definition queue_push_c {A} (q : list A) (x : A) : C (option (list A)) :=
  let! ok := memory_alloc in
  if (ok : bool) then ret (Some (fifo_push q x)) else ret None.

(** ** Frame lemmas of the shared effects *)

Section SharedFrames.
Context {T : Type} (f : stack -> T).
Hypothesis Hf : forall g s, f (set_world g s) = f s.

Lemma memory_alloc_frame : Preserves f memory_alloc.
Proof. unfold memory_alloc. solve_preserves; apply preserves_modify; auto. Qed.

Lemma gettimeofday_frame : Preserves f gettimeofday.
Proof. unfold gettimeofday. solve_preserves; apply preserves_modify; auto. Qed.

Lemma syscall_frame c d : Preserves f (syscall_do c d).
Proof.
  unfold syscall_do. apply preserves_bind; [apply _|]. intros s.
  destruct (match w_sys _ with [] => _ | _ => _ end) as [r rest].
  apply preserves_bind; [apply preserves_modify; auto|]. apply _.
Qed.

Lemma raise_signal_frame sig : Preserves f (raise_signal sig).
Proof. apply preserves_modify; auto. Qed.
End SharedFrames.

(** ** Symbolic execution of the shared effects *)

Lemma mutex_lock_wp m s (Q : unit -> stack -> Prop) :
  m ∉ st_held s -> Q tt (set_held (cons m) s) -> wp (mutex_lock m) s Q.
Proof. intros H HQ. unfold mutex_lock. wp_steps. rewrite decide_False by done. by wp_steps. Qed.

Lemma mutex_unlock_wp m s (Q : unit -> stack -> Prop) :
  m ∈ st_held s -> Q tt (set_held (filter (fun k => k <> m)) s) -> wp (mutex_unlock m) s Q.
Proof. intros H HQ. unfold mutex_unlock. wp_steps. rewrite decide_True by done. by wp_steps. Qed.

Lemma mutex_lock_run m s : m ∉ st_held s -> mutex_lock m s = Ret tt (set_held (cons m) s).
Proof. intros H. unfold mutex_lock, bind, gets. by rewrite decide_False by done. Qed.

Lemma mutex_unlock_run m s :
  m ∈ st_held s -> mutex_unlock m s = Ret tt (set_held (filter (fun k => k <> m)) s).
Proof. intros H. unfold mutex_unlock, bind, gets. by rewrite decide_True by done. Qed.

(** Locking and unlocking leaves the held mutexes as they were. *)
Lemma unlock_held (m : mutex) (held : list mutex) :
  m ∉ held -> filter (fun k => k <> m) (m :: held) = held.
Proof.
  intros H. rewrite filter_cons_False by tauto. induction held as [|k held IH]; [done|].
  rewrite filter_cons_True by (intros ->; apply H; by left). f_equal. apply IH. intros Hm. apply H. by right.
Qed.

(** Reading the clock changes at most the readings to come. *)
Lemma gettimeofday_wp s (Q : timeval -> stack -> Prop) :
  (forall now w, now = default (Timeval 0 0) (head (w_clock (st_world s))) ->
     w_alloc w = w_alloc (st_world s) -> w_sys w = w_sys (st_world s) ->
     w_trace w = w_trace (st_world s) -> w_pending w = w_pending (st_world s) ->
     Q now (set_world (fun _ => w) s)) ->
  wp gettimeofday s Q.
Proof.
  intros H. unfold gettimeofday. wp_steps.
  destruct (w_clock (st_world s)) as [|t [|t' r]] eqn:E; wp_steps.
  - destruct s. by apply H.
  - destruct s. by apply H.
  - by apply (H t (set_clock (t' :: r) (st_world s))).
Qed.
