(* ===== verification/Sync.v ===== *)
(** * Sleeping and waking (handler/synchronize.c, handler.h)

    A [struct sched_ctx] inside a larger object, reached through a pointer
    ([ctx_ref]); [sc_cond] counts the threads blocked on the condition variable.
    [sched_sleep] gives up the processor in [pthread_cond_wait], so it is two steps:
    [sched_sleep_enter] up to the wait, which blocks the thread and releases the
    mutex, and [sched_sleep_leave] from the return of the wait on, which first takes
    the mutex again.  The source only passes a null [abstime]. *)

From stdpp Require Import base numbers list option gmap strings.
From Stdlib Require Import ZArith Lia.
From S2P Require Import Prelude Util Queue State.
Open Scope Z_scope.
Open Scope cmonad_scope.

(** A pointer to a context: reading and writing it commute with the rest. *)
Record ctx_ref := CtxRef {
  ctx_view : stack -> option sched_ctx;
  ctx_put : (sched_ctx -> sched_ctx) -> stack -> stack;
  ctx_view_put f s : ctx_view (ctx_put f s) = f <$> ctx_view s;
  ctx_view_held f s : ctx_view (set_held f s) = ctx_view s;
  ctx_view_world f s : ctx_view (set_world f s) = ctx_view s;
  ctx_put_held f s : st_held (ctx_put f s) = st_held s;
}.

Section Sched.
Context (ctx : ctx_ref).

Definition ctx_get : C sched_ctx := let! s := get in opt NullDeref (ctx_view ctx s).
Definition ctx_set (f : sched_ctx -> sched_ctx) : C unit := modify (ctx_put ctx f).

Definition sched_ctx_init : C Z :=
  ctx_set (fun _ => SchedCtx 0 0 0);;
  ret 0.

(** The answer of [pthread_cond_destroy]: 0 or an error number. *)
Definition sched_ctx_destroy : C Z :=
  let! r := syscall_do SysCondDestroy (SysRes 0 0 []) in ret (r_ret r).

(** Whether the thread went to sleep. *)
Definition sched_sleep_enter (m : mutex) : C bool :=
  let! x := ctx_get in
  if truthy (sc_interrupted x) then
    modify (set_world (set_errno EINTR));;
    ret false
  else
    ctx_set (fun x => SchedCtx (sc_cond x + 1) (sc_interrupted x) (sc_wc x + 1));;
    mutex_unlock m;;
    ret true.

(** [r] is what [pthread_cond_wait] returned. *)
Definition sched_sleep_leave (m : mutex) (r : Z) : C Z :=
  mutex_lock m;;
  ctx_set (fun x => SchedCtx (sc_cond x) (sc_interrupted x) (sc_wc x - 1));;
  let! x := ctx_get in
  if truthy (sc_interrupted x) then
    (if negb (truthy (sc_wc x)) then ctx_set (fun x => SchedCtx (sc_cond x) 0 (sc_wc x)) else ret tt);;
    modify (set_world (set_errno EINTR));;
    ret (-1)
  else ret r.

(** [pthread_cond_broadcast] unblocks every thread. *)
Definition sched_wakeup : C Z :=
  ctx_set (fun x => SchedCtx 0 (sc_interrupted x) (sc_wc x));;
  ret 0.

Definition sched_interrupt : C Z :=
  ctx_set (fun x => SchedCtx 0 1 (sc_wc x));;
  ret 0.

(** ** The states a context goes through

    [sched_state s w]: the context as it is in [s], with [w] threads that were woken
    and have not left yet.  A blocked thread may also wake up spuriously. *)

Inductive sched_run (m : mutex) : stack -> nat -> Prop :=
| run_init s s' : sched_ctx_init s = Ret 0 s' -> is_Some (ctx_view ctx s) -> sched_run m s' 0
| run_enter s s' w b : sched_run m s w -> sched_sleep_enter m s = Ret b s' -> sched_run m s' w
| run_spurious s w x : sched_run m s w -> ctx_view ctx s = Some x -> 0 < sc_cond x ->
    sched_run m (ctx_put ctx (fun x => SchedCtx (sc_cond x - 1) (sc_interrupted x) (sc_wc x)) s) (S w)
| run_leave s s' w r : sched_run m s (S w) -> sched_sleep_leave m 0 s = Ret r s' -> sched_run m s' w
| run_wakeup s s' w x : sched_run m s w -> ctx_view ctx s = Some x -> sched_wakeup s = Ret 0 s' ->
    sched_run m s' (w + Z.to_nat (sc_cond x))
| run_interrupt s s' w x : sched_run m s w -> ctx_view ctx s = Some x -> sched_interrupt s = Ret 0 s' ->
    sched_run m s' (w + Z.to_nat (sc_cond x))
| run_other s s' w : sched_run m s w -> ctx_view ctx s' = ctx_view ctx s -> sched_run m s' w.

(** The context with [w] woken threads: the count is right, and nobody is blocked
    while the interrupt is pending. *)
Definition ctx_ok (x : sched_ctx) (w : nat) : Prop :=
  0 <= sc_cond x /\ sc_wc x = sc_cond x + Z.of_nat w /\
  (sc_interrupted x = 0 \/ sc_interrupted x = 1) /\ (sc_interrupted x <> 0 -> sc_cond x = 0).

(** ** Lemmas *)

Lemma ctx_get_run s x : ctx_view ctx s = Some x -> ctx_get s = Ret x s.
Proof. intros E. unfold ctx_get, bind, get, opt. by rewrite E. Qed.

Lemma sleep_enter_run m s x :
  ctx_view ctx s = Some x -> m ∈ st_held s ->
  sched_sleep_enter m s =
  if truthy (sc_interrupted x) then Ret false (set_world (set_errno EINTR) s)
  else Ret true (set_held (filter (fun k => k <> m))
         (ctx_put ctx (fun x => SchedCtx (sc_cond x + 1) (sc_interrupted x) (sc_wc x + 1)) s)).
Proof.
  intros E Hm. unfold sched_sleep_enter. erewrite bind_ret by by apply ctx_get_run.
  destruct (truthy _); [done|]. unfold ctx_set. erewrite bind_ret by reflexivity.
  erewrite bind_ret; [done|]. apply mutex_unlock_run. by rewrite ctx_put_held.
Qed.

Lemma sleep_enter_inv m s x b s' :
  ctx_view ctx s = Some x -> sched_sleep_enter m s = Ret b s' ->
  if truthy (sc_interrupted x) then b = false /\ ctx_view ctx s' = Some x
  else b = true /\ ctx_view ctx s' = Some (SchedCtx (sc_cond x + 1) (sc_interrupted x) (sc_wc x + 1)).
Proof.
  intros E. unfold sched_sleep_enter. erewrite bind_ret by by apply ctx_get_run.
  destruct (truthy _).
  - intros [= <- <-]. by rewrite ctx_view_world.
  - unfold ctx_set. erewrite bind_ret by reflexivity. intros (u & s1 & H1 & H2)%bind_inv.
    injection H2 as <- <-. unfold mutex_unlock, bind, gets in H1. case_decide; [|done].
    injection H1 as _ <-. by rewrite ctx_view_held, ctx_view_put, E.
Qed.

Lemma sleep_leave_inv m s x r s' :
  ctx_view ctx s = Some x -> sched_sleep_leave m 0 s = Ret r s' ->
  if truthy (sc_interrupted x)
  then r = -1 /\ ctx_view ctx s' = Some (SchedCtx (sc_cond x)
         (if sc_wc x - 1 =? 0 then 0 else sc_interrupted x) (sc_wc x - 1))
  else r = 0 /\ ctx_view ctx s' = Some (SchedCtx (sc_cond x) (sc_interrupted x) (sc_wc x - 1)).
Proof.
  intros E. unfold sched_sleep_leave. intros (u & s1 & H1 & H2)%bind_inv.
  unfold mutex_lock, bind, gets in H1. case_decide; [done|]. injection H1 as _ <-.
  unfold ctx_set in H2. erewrite bind_ret in H2 by reflexivity.
  erewrite bind_ret in H2 by (apply ctx_get_run; by rewrite ctx_view_put, ctx_view_held, E). cbn [sc_interrupted sc_wc] in H2.
  destruct (truthy (sc_interrupted x)).
  - unfold truthy in H2. rewrite negb_involutive in H2. destruct (sc_wc x - 1 =? 0).
    + do 2 (erewrite bind_ret in H2 by reflexivity). injection H2 as <- <-.
      by rewrite ctx_view_world, !ctx_view_put, ctx_view_held, E.
    + do 2 (erewrite bind_ret in H2 by reflexivity). injection H2 as <- <-.
      by rewrite ctx_view_world, !ctx_view_put, ctx_view_held, E.
  - injection H2 as <- <-. by rewrite ctx_view_put, ctx_view_held, E.
Qed.

Lemma sched_run_ok m s w : sched_run m s w -> exists x, ctx_view ctx s = Some x /\ ctx_ok x w.
Proof.
  induction 1 as [s s' E [x Hx]|s s' w b _ (x & Hx & O) E|s w x _ (x' & Hx' & O) Hx Hpos
    |s s' w r _ (x & Hx & O) E|s s' w x _ (x' & Hx' & O) Hx E|s s' w x _ (x' & Hx' & O) Hx E
    |s s' w _ (x & Hx & O) E].
  - injection E as <-. rewrite ctx_view_put, Hx. eexists; split; [done|]. unfold ctx_ok. simpl. lia.
  - pose proof (sleep_enter_inv _ _ _ _ _ Hx E) as H. unfold ctx_ok, truthy in *.
    destruct (sc_interrupted x =? 0) eqn:Ei; simpl in H; destruct H as [_ ->]; (eexists; split; [done|]); simpl; lia.
  - rewrite ctx_view_put, Hx. eexists; split; [done|]. rewrite Hx in Hx'. injection Hx' as <-.
    unfold ctx_ok in *. simpl. lia.
  - pose proof (sleep_leave_inv _ _ _ _ _ Hx E) as H. unfold ctx_ok, truthy in *.
    destruct (sc_interrupted x =? 0) eqn:Ei; simpl in H; destruct H as [_ ->]; (eexists; split; [done|]); simpl;
      [lia|destruct (sc_wc x - 1 =? 0); lia].
  - injection E as <-. rewrite ctx_view_put, Hx. eexists; split; [done|]. rewrite Hx in Hx'. injection Hx' as <-.
    unfold ctx_ok in *. simpl. lia.
  - injection E as <-. rewrite ctx_view_put, Hx. eexists; split; [done|]. rewrite Hx in Hx'. injection Hx' as <-.
    unfold ctx_ok in *. simpl. lia.
  - exists x. by rewrite E.
Qed.

End Sched.

(** ** Properties *)

(** C24. No thread sleeps through an interrupt: in every state a context can reach
    by sleeping, waking, spurious wake-ups, broadcasts and interrupts, the waiter
    count is the number of blocked and woken threads; and while an interrupt is
    pending no thread is blocked, none can go to sleep, each woken thread leaves
    [sched_sleep] with -1, and the one that leaves last clears the interrupt. *)
Theorem sched_no_sleep_through_interrupt (ctx : ctx_ref) (m : mutex) (s : stack) (w : nat)
    (R : sched_run ctx m s w) :
  exists x, ctx_view ctx s = Some x /\ sc_wc x = sc_cond x + Z.of_nat w /\
    (sc_interrupted x <> 0 ->
       sc_cond x = 0 /\
       (forall b s', sched_sleep_enter ctx m s = Ret b s' -> b = false) /\
       (forall r s' w', w = S w' -> sched_sleep_leave ctx m 0 s = Ret r s' ->
          r = -1 /\ exists x', ctx_view ctx s' = Some x' /\ (sc_interrupted x' = 0 <-> w' = 0%nat))).
Proof.
  destruct (sched_run_ok ctx m s w R) as (x & Hx & Hc & Hwc & Hi & Hn). exists x. split_and!; [done|done|].
  intros Hint. assert (truthy (sc_interrupted x) = true) as Ht by (unfold truthy; lia).
  split_and!; [auto|..].
  - intros b s' E. pose proof (sleep_enter_inv _ _ _ _ _ _ Hx E) as K. rewrite Ht in K. apply K.
  - intros r s' w' -> E. pose proof (sleep_leave_inv _ _ _ _ _ _ Hx E) as K. rewrite Ht in K.
    destruct K as [-> Hv]. split; [done|]. eexists; split; [exact Hv|]. simpl. specialize (Hn Hint).
    destruct (Z.eqb_spec (sc_wc x - 1) 0); lia.
Qed.

(** An interrupt that comes when no thread sleeps is never consumed: it stays
    pending, and every later attempt to sleep fails and leaves it pending. *)
Lemma sched_interrupt_sticky (ctx : ctx_ref) (m : mutex) (s s1 s2 : stack) (x : sched_ctx) (b : bool) :
  ctx_view ctx s = Some x -> sched_interrupt ctx s = Ret 0 s1 -> sched_sleep_enter ctx m s1 = Ret b s2 ->
  b = false /\ sc_interrupted <$> ctx_view ctx s2 = Some 1.
Proof.
  intros Hx E1 E2. injection E1 as <-.
  assert (ctx_view ctx (ctx_put ctx (fun x => SchedCtx 0 1 (sc_wc x)) s) = Some (SchedCtx 0 1 (sc_wc x))) as V
    by (by rewrite ctx_view_put, Hx).
  pose proof (sleep_enter_inv _ _ _ _ _ _ V E2) as K. simpl in K. destruct K as [-> ->]. done.
Qed.
