(* ===== verification/Net.v ===== *)
(** * Devices, protocols, timers and events (src/lib/net.c)

    The operations of net.c, generic in the device drivers (the
    [network_device_operations] structures, class [DeviceDriver]) and in the
    functions registered as protocol, timer and event handlers (class
    [Dispatch]). *)

From stdpp Require Import base numbers list option gmap strings.
From Stdlib Require Import ZArith Lia.
From S2P Require Import Prelude Util CLib Queue State.
Open Scope Z_scope.
Open Scope cmonad_scope.

(** A 32-bit integer printed through [%d]. *)
Definition s32 (z : Z) : Z := if u32 z <? 2 ^ 31 then u32 z else u32 z - 2 ^ 32.
Definition fmt_int (z : Z) : string :=
  if s32 z <? 0 then ("-" ++ fmt_d (- s32 z))%string else fmt_d (s32 z).

Lemma s32_small z : 0 <= z < 2 ^ 31 -> s32 z = z.
Proof. intros H. unfold s32, u32. rewrite Z.mod_small by lia. destruct (Z.ltb_spec z (2 ^ 31)); lia. Qed.

(** ** The interface of device drivers

    The open, close and transmit operations of each operations structure, [None]
    for a null function pointer.  A driver's operation works on its device and
    the environment, and may hand frames to [network_input_handler]: it keeps the
    state of the protocol modules, the interfaces and the registered devices and
    protocol handlers. *)

(** What a driver must leave alone. *)
Definition driver_frame (s : stack) :=
  (st_arp s, st_ip s, st_udp s, st_sock s, st_intr s, st_held s,
   n_ifs (st_net s), n_index (st_net s), n_devices (st_net s), n_timers (st_net s), n_events (st_net s),
   (fun p => (np_name p, np_type p, np_handler p)) <$> n_protocols (st_net s)).

Class DeviceDriver := {
  drv_open : device_ops -> option (dev_id -> C Z);
  drv_close : device_ops -> option (dev_id -> C Z);
  drv_transmit : device_ops -> option (dev_id -> Z -> list Z -> Z -> list Z -> C Z);
  drv_open_frame o f d : drv_open o = Some f -> Preserves driver_frame (f d);
  drv_close_frame o f d : drv_close o = Some f -> Preserves driver_frame (f d);
  drv_transmit_frame o f d ty data len dst :
    drv_transmit o = Some f -> Preserves driver_frame (f d ty data len dst);
  (** Transmission does not reconfigure devices. *)
  drv_transmit_devs o f d ty data len dst :
    drv_transmit o = Some f -> Preserves (fun s => n_devs (st_net s)) (f d ty data len dst);
}.

(** ** Devices *)

Definition network_device_allocate (setup : option (network_device -> network_device)) :
    C (option dev_id) :=
  let! ok := memory_alloc in
  if negb ok then ret None
  else
    let! n := gets st_net in
    let d := fresh_id (n_devs n) in
    let dev := match setup with Some f => f network_device_zero | None => network_device_zero end in
    modify (set_net (set_devs (insert d dev)));;
    ret (Some d).

Definition network_device_register (d : dev_id) : C Z :=
  let! n := gets st_net in
  let index := n_index n in
  modify (set_net (set_index (fun i => u32 (i + 1))));;
  set_dev d (with_index_name index (snprintf IFNAMSIZ ("net" ++ fmt_int index)));;
  modify (set_net (set_devices (cons d)));;
  ret 0.

(** The loop of [network_device_add_interface] and [network_device_get_interface]. *)
Fixpoint find_interface (entries : list iface_id) (family : Z) : C (option iface_id) :=
  match entries with
  | [] => ret None
  | entry :: rest =>
      let! e := get_iface entry in
      if if_family e =? family then ret (Some entry) else find_interface rest family
  end.

Definition network_device_add_interface (d : dev_id) (iface : iface_id) : C Z :=
  let! dev := get_dev d in
  let! f := get_iface iface in
  let! entry := find_interface (dev_interfaces dev) (if_family f) in
  match entry with
  | Some _ => ret (-1)
  | None =>
      modify (set_net (set_ifs (insert iface
        (IpInterface (Some d) (if_family f) (if_unicast f) (if_netmask f) (if_broadcast f)))));;
      set_dev d (fun dev => with_interfaces (iface :: dev_interfaces dev) dev);;
      ret 0
  end.

Definition network_device_get_interface (d : dev_id) (family : Z) : C (option iface_id) :=
  let! dev := get_dev d in find_interface (dev_interfaces dev) family.

Section Drivers.
Context {D : DeviceDriver}.

Definition network_device_open (d : dev_id) : C Z :=
  let! dev := get_dev d in
  if NETWORK_DEVICE_IS_UP dev then ret (-1)
  else
    let! ops := opt NullDeref (dev_ops dev) in
    let! failed := match drv_open ops with
                   | Some f => let! r := f d in ret (r =? -1)
                   | None => ret false
                   end in
    if (failed : bool) then ret (-1)
    else
      set_dev d (fun dev => with_flags (u16 (Z.lor (dev_flags dev) NETWORK_DEVICE_FLAG_UP)) dev);;
      ret 0.

Definition network_device_close (d : dev_id) : C Z :=
  let! dev := get_dev d in
  if negb (NETWORK_DEVICE_IS_UP dev) then ret (-1)
  else
    let! ops := opt NullDeref (dev_ops dev) in
    let! failed := match drv_close ops with
                   | Some f => let! r := f d in ret (r =? -1)
                   | None => ret false
                   end in
    if (failed : bool) then ret (-1)
    else
      set_dev d (fun dev => with_flags (u16 (Z.land (dev_flags dev) (Z.lnot NETWORK_DEVICE_FLAG_UP))) dev);;
      ret 0.

Definition network_device_output (d : dev_id) (ty : Z) (data : list Z) (len : Z) (dst : list Z) : C Z :=
  let! dev := get_dev d in
  if negb (NETWORK_DEVICE_IS_UP dev) then ret (-1)
  else if len >? dev_mtu dev then ret (-1)
  else
    let! ops := opt NullDeref (dev_ops dev) in
    let! transmit := opt NullDeref (drv_transmit ops) in
    let! r := transmit d ty data len dst in
    if r =? -1 then ret (-1) else ret 0.

End Drivers.

(** ** Protocols *)

(** Assignment to the queue of the protocol at a position of the list. *)
Definition with_queue (q : list network_protocol_queue_entry) (p : network_protocol) : network_protocol :=
  NetworkProtocol (np_name p) (np_type p) q (np_handler p).

Definition set_queue (i : nat) (q : list network_protocol_queue_entry) : C unit :=
  modify (set_net (set_protocols (alter (with_queue q) i))).

Definition network_input_handler (ty : Z) (data : list Z) (len : Z) (d : dev_id) : C Z :=
  let! n := gets st_net in
  match list_find (fun p => np_type p = ty) (n_protocols n) with
  | None => ret 0
  | Some (i, proto) =>
      let! ok := memory_alloc in
      if negb ok then ret (-1)
      else
        let! payload := opt OutOfBounds (rdn data 0 (Z.to_nat len)) in
        let! pushed := queue_push_c (np_queue proto) (NetQueueEntry d len payload) in
        match pushed with
        | None => ret (-1)
        | Some q => set_queue i q;; raise_softirq;; ret 0
        end
  end.

Definition network_protocol_register (name : string) (ty : Z) (handler : protocol_handler) : C Z :=
  let! n := gets st_net in
  match list_find (fun p => np_type p = ty) (n_protocols n) with
  | Some _ => ret (-1)
  | None =>
      let! ok := memory_alloc in
      if negb ok then ret (-1)
      else
        modify (set_net (set_protocols
          (cons (NetworkProtocol (strncpy (MAX_NAME_LENGTH - 1) name) ty fifo_init handler))));;
        ret 0
  end.

Definition network_protocol_name (n : net_state) (ty : Z) : string :=
  match list_find (fun p => np_type p = ty) (n_protocols n) with
  | Some (_, p) => np_name p
  | None => "UNKNOWN"
  end.

(** ** Handlers registered through function pointers *)

Class Dispatch := {
  call_protocol : protocol_handler -> list Z -> Z -> dev_id -> C unit;
  call_timer : timer_fn -> C unit;
  call_event : event_fn -> C unit;
}.

Section Handlers.
Context {H : Dispatch}.

(** [while (1) { entry = queue_pop(&proto->queue); ... }] for the protocol at
    position [i]; [false] when the fuel runs out first. *)
Fixpoint protocol_drain (fuel : nat) (i : nat) : C bool :=
  let! n := gets st_net in
  let! proto := opt NullDeref (n_protocols n !! i) in
  match fifo_pop (np_queue proto) with
  | (None, _) => ret true
  | (Some entry, q) =>
      match fuel with
      | O => ret false
      | S fuel =>
          set_queue i q;;
          call_protocol (np_handler proto) (nqe_data entry) (nqe_len entry) (nqe_dev entry);;
          protocol_drain fuel i
      end
  end.

(** The protocols at positions [i], [i+1], ... of a list of [k] more. *)
Fixpoint protocol_drain_all (fuel : nat) (i k : nat) : C bool :=
  match k with
  | O => ret true
  | S k =>
      let! done := protocol_drain fuel i in
      if (done : bool) then protocol_drain_all fuel (S i) k else ret false
  end.

Definition network_protocol_handler (fuel : nat) : C bool :=
  let! n := gets st_net in protocol_drain_all fuel 0 (length (n_protocols n)).

End Handlers.

(** ** Timers *)

Definition network_timer_register (name : string) (interval : timeval) (handler : timer_fn) : C Z :=
  let! ok := memory_alloc in
  if negb ok then ret (-1)
  else
    let! now := gettimeofday in
    modify (set_net (set_timers
      (cons (NetworkTimer (strncpy (MAX_NAME_LENGTH - 1) name) interval now handler))));;
    ret 0.

(** Whether more than the interval has passed since a timer last fired. *)
Definition timer_due (t : network_timer) (now : timeval) : bool :=
  timercmp_lt (nt_interval t) (timersub now (nt_last t)).

Definition with_last (now : timeval) (t : network_timer) : network_timer :=
  NetworkTimer (nt_name t) (nt_interval t) now (nt_handler t).

Fixpoint timer_loop `{Dispatch} (i k : nat) : C unit :=
  match k with
  | O => ret tt
  | S k =>
      let! n := gets st_net in
      let! timer := opt NullDeref (n_timers n !! i) in
      let! now := gettimeofday in
      (if timer_due timer now then
         call_timer (nt_handler timer);;
         modify (set_net (set_timers (alter (with_last now) i)))
       else ret tt);;
      timer_loop (S i) k
  end.

Definition network_timer_handler `{Dispatch} : C Z :=
  let! n := gets st_net in
  timer_loop 0 (length (n_timers n));; ret 0.

(** ** Events *)

Definition network_interrupt : C Z := raise_signal SIGUSR2;; ret 0.

Definition network_event_subscribe (handler : event_fn) : C Z :=
  let! ok := memory_alloc in
  if negb ok then ret (-1)
  else modify (set_net (set_events (cons (NetworkEvent handler))));; ret 0.

Fixpoint event_loop `{Dispatch} (events : list network_event) : C unit :=
  match events with
  | [] => ret tt
  | e :: rest => call_event (ne_handler e);; event_loop rest
  end.

Definition network_event_handler `{Dispatch} : C Z :=
  let! n := gets st_net in event_loop (n_events n);; ret 0.

(** ** Lemmas: the protocol list *)

(** The input queue of a protocol type: that of the first protocol of the type. *)
Definition proto_queue (ty : Z) (n : net_state) : list network_protocol_queue_entry :=
  match list_find (fun p => np_type p = ty) (n_protocols n) with
  | Some (_, p) => np_queue p
  | None => []
  end.

(** A protocol of the type is registered. *)
Definition registered (ty : Z) (n : net_state) : Prop := ty ∈ (np_type <$> n_protocols n).

(** At most one protocol per type. *)
Definition protocols_unique (n : net_state) : Prop := NoDup (np_type <$> n_protocols n).

Lemma find_type_Some ps ty i p :
  list_find (fun p => np_type p = ty) ps = Some (i, p) -> ps !! i = Some p /\ np_type p = ty.
Proof. rewrite list_find_Some. tauto. Qed.

Lemma find_type_None ps ty :
  list_find (fun p => np_type p = ty) ps = None <-> ty ∉ (np_type <$> ps).
Proof.
  rewrite list_find_None, Forall_forall, list_elem_of_fmap. split.
  - intros H (p & -> & Hp). by apply (H p Hp).
  - intros H p Hp E. apply H. exists p. by rewrite E.
Qed.

Lemma find_type_alter_same ps ty i p q :
  list_find (fun p => np_type p = ty) ps = Some (i, p) ->
  list_find (fun p => np_type p = ty) (alter (with_queue q) i ps) = Some (i, with_queue q p).
Proof.
  rewrite !list_find_Some. intros (Hi & Hp & Hb). split; [by rewrite list_lookup_alter_eq, Hi|].
  split; [done|]. intros j y Hj Hlt. rewrite list_lookup_alter_ne in Hj by lia. eauto.
Qed.

Lemma find_type_alter_other ps ty ty' i p q :
  ps !! i = Some p -> np_type p = ty -> ty <> ty' ->
  list_find (fun p => np_type p = ty') (alter (with_queue q) i ps) =
  list_find (fun p => np_type p = ty') ps.
Proof.
  revert i. induction ps as [|p' ps IH]; intros [|i] Hi Hp Hne; simpl in *; simplify_eq; try done.
  - rewrite !decide_False by (simpl; congruence). done.
  - case_decide; [done|]. f_equal. by apply (IH i).
Qed.

Lemma with_queue_config (ps : list network_protocol) (i : nat) q :
  (fun p => (np_name p, np_type p, np_handler p)) <$> alter (with_queue q) i ps =
  (fun p => (np_name p, np_type p, np_handler p)) <$> ps.
Proof. revert i. induction ps as [|p ps IH]; intros [|i]; [done..|]. cbn. f_equal. apply IH. Qed.

Lemma with_queue_types (ps : list network_protocol) (i : nat) q : np_type <$> alter (with_queue q) i ps = np_type <$> ps.
Proof. revert i. induction ps as [|p ps IH]; intros [|i]; [done..|]. cbn. f_equal. apply IH. Qed.

Lemma proto_queue_same ty i p q (n : net_state) :
  list_find (fun p => np_type p = ty) (n_protocols n) = Some (i, p) ->
  proto_queue ty (set_protocols (alter (with_queue q) i) n) = q.
Proof. intros E. unfold proto_queue. simpl. by rewrite (find_type_alter_same _ _ _ _ _ E). Qed.

Lemma proto_queue_other ty ty' i p q (n : net_state) :
  list_find (fun p => np_type p = ty) (n_protocols n) = Some (i, p) -> ty <> ty' ->
  proto_queue ty' (set_protocols (alter (with_queue q) i) n) = proto_queue ty' n.
Proof.
  intros [Hi Hp]%find_type_Some Hne. unfold proto_queue. simpl.
  by rewrite (find_type_alter_other _ _ _ _ _ _ Hi Hp Hne).
Qed.

(** ** Lemmas: allocation and signals *)

Lemma memory_alloc_wp s (Q : bool -> stack -> Prop) :
  (forall b w, (w_alloc (st_world s) = [] -> b = true /\ w = st_world s) ->
     w_pending w = w_pending (st_world s) -> w_trace w = w_trace (st_world s) ->
     Q b (set_world (fun _ => w) s)) ->
  wp memory_alloc s Q.
Proof.
  intros H. unfold memory_alloc. wp_steps. destruct (w_alloc (st_world s)) as [|b r] eqn:E.
  - wp_steps. destruct s; by apply (H true).
  - wp_steps. apply (H b (set_alloc r (st_world s))); done.
Qed.

(** An allocation that fails is one the environment lets fail. *)
Lemma memory_alloc_failing s (Q : bool -> stack -> Prop) :
  (forall b w, (b = false -> false ∈ w_alloc (st_world s)) -> w_alloc w ⊆ w_alloc (st_world s) ->
     Q b (set_world (fun _ => w) s)) ->
  wp memory_alloc s Q.
Proof.
  intros H. unfold memory_alloc. wp_steps. destruct (w_alloc (st_world s)) as [|b r] eqn:E; wp_steps.
  - destruct s; apply (H true); [done|]. simpl in *. by rewrite E.
  - apply (H b (set_alloc r (st_world s))); [intros ->; by left|]. simpl. set_solver.
Qed.

(** When no allocation is set to fail, they all succeed and nothing changes. *)
Lemma memory_alloc_ok s : w_alloc (st_world s) = [] -> memory_alloc s = Ret true s.
Proof. intros E. unfold memory_alloc, bind, get. by rewrite E. Qed.

Lemma queue_push_ok {A} (q : list A) x s :
  w_alloc (st_world s) = [] -> queue_push_c q x s = Ret (Some (q ++ [x])) s.
Proof. intros E. unfold queue_push_c. by erewrite bind_ret by by apply memory_alloc_ok. Qed.

(** The state after a signal was raised. *)
Definition signalled (sig : Z) : stack -> stack :=
  set_world (fun w => if decide (sig ∈ w_pending w) then w else set_pending (w_pending w ++ [sig]) w).

Lemma signalled_pending sig s : sig ∈ w_pending (st_world (signalled sig s)).
Proof. unfold signalled. simpl. case_decide; [done|]. simpl. set_solver. Qed.

(** The state after an entry was queued. *)
Definition enqueued (ty : Z) (entry : network_protocol_queue_entry) (s : stack) : stack :=
  match list_find (fun p => np_type p = ty) (n_protocols (st_net s)) with
  | None => s
  | Some (i, p) =>
      signalled SIGUSR1 (set_net (set_protocols (alter (with_queue (np_queue p ++ [entry])) i)) s)
  end.

(** Without allocation failures, input is queued under its type, if registered. *)
Lemma network_input_ok ty data len d s :
  w_alloc (st_world s) = [] -> (Z.to_nat len <= length data)%nat ->
  network_input_handler ty data len d s
  = Ret 0 (enqueued ty (NetQueueEntry d len (take (Z.to_nat len) data)) s).
Proof.
  intros Ea Hl. unfold network_input_handler, enqueued. erewrite bind_ret by reflexivity.
  destruct (list_find _ _) as [[i p]|] eqn:E; [|done].
  erewrite bind_ret by by apply memory_alloc_ok. cbn [negb].
  rewrite rdn_in, drop_0 by lia. cbn [opt]. erewrite bind_ret by reflexivity.
  erewrite bind_ret by by apply queue_push_ok. done.
Qed.

#[export] Instance network_input_frame ty data len d :
  Preserves driver_frame (network_input_handler ty data len d).
Proof.
  unfold network_input_handler. solve_preserves.
  - by apply memory_alloc_frame.
  - unfold queue_push_c. solve_preserves. by apply memory_alloc_frame.
  - apply preserves_modify. intros s. unfold driver_frame. simpl. by rewrite with_queue_config.
  - by apply raise_signal_frame.
Qed.

#[export] Instance network_input_devs ty data len d :
  Preserves (fun s => n_devs (st_net s)) (network_input_handler ty data len d).
Proof.
  unfold network_input_handler. solve_preserves.
  - by apply memory_alloc_frame.
  - unfold queue_push_c. solve_preserves. by apply memory_alloc_frame.
  - by apply preserves_modify.
  - by apply raise_signal_frame.
Qed.

(** Output leaves alone what drivers leave alone. *)
Lemma network_device_output_preserves {D : DeviceDriver} {T} (f : stack -> T) d ty data len dst :
  (forall o g, drv_transmit o = Some g -> Preserves f (g d ty data len dst)) ->
  Preserves f (network_device_output d ty data len dst).
Proof.
  intros H. unfold network_device_output, get_dev. apply preserves_bind; [solve_preserves|]. intros dev.
  destruct (negb _); [apply _|]. destruct (len >? _); [apply _|].
  apply preserves_bind_opt. intros o _. apply preserves_bind_opt. intros g Hg.
  apply preserves_bind; [by eapply H|]. intros r. solve_preserves.
Qed.

#[export] Instance network_device_output_frame {D : DeviceDriver} d ty data len dst :
  Preserves driver_frame (network_device_output d ty data len dst).
Proof. apply network_device_output_preserves. intros. by eapply drv_transmit_frame. Qed.

#[export] Instance network_device_output_devs {D : DeviceDriver} d ty data len dst :
  Preserves (fun s => n_devs (st_net s)) (network_device_output d ty data len dst).
Proof. apply network_device_output_preserves. intros. by eapply drv_transmit_devs. Qed.

(** Input whose bytes are in the buffer never faults, and does not consume the
    answers to system calls. *)
Lemma network_input_safe ty data len d s :
  (Z.to_nat len <= length data)%nat -> wp (network_input_handler ty data len d) s (fun _ _ => True).
Proof.
  intros Hl. unfold network_input_handler. wp_steps. destruct (list_find _ _) as [[i p]|]; [|by apply wp_ret].
  apply wp_bind, memory_alloc_wp. intros b w _ _ _. destruct b; cbn [negb]; [|by apply wp_ret].
  rewrite rdn_in by lia. wp_steps. unfold queue_push_c. wp_steps. apply memory_alloc_wp. intros b w' _ _ _.
  destruct b; wp_steps; [|done]. by apply wp_modify.
Qed.

#[export] Instance network_input_sys ty data len d :
  Preserves (fun s => w_sys (st_world s)) (network_input_handler ty data len d).
Proof.
  assert (Preserves (fun s => w_sys (st_world s)) memory_alloc) by (unfold memory_alloc; solve_preserves).
  unfold network_input_handler, queue_push_c. solve_preserves; apply preserves_modify; [done|].
  intros s. simpl. by case_decide.
Qed.

(** ** Properties *)

(** C38. Input reaches the queue of its protocol and no other: for a packet whose
    [len] bytes are in the buffer, [network_input_handler] either appends exactly
    those bytes, with their device, to the queue of the packet's type, keeps the
    other queues and signals the soft interrupt, or an allocation fails, it returns -1
    and no queue changed; with an unregistered type it succeeds and changes nothing. *)
Theorem network_input_delivers (ty : Z) (data : list Z) (len : Z) (d : dev_id) (s : stack)
    (Hlen : 0 <= len <= Z.of_nat (length data)) :
  wp (network_input_handler ty data len d) s (fun r s' =>
    (registered ty (st_net s) /\ r = 0 /\
     proto_queue ty (st_net s')
     = proto_queue ty (st_net s) ++ [NetQueueEntry d len (take (Z.to_nat len) data)] /\
     (forall ty', ty' <> ty -> proto_queue ty' (st_net s') = proto_queue ty' (st_net s)) /\
     SIGUSR1 ∈ w_pending (st_world s')) \/
    (registered ty (st_net s) /\ r = -1 /\ false ∈ w_alloc (st_world s) /\ st_net s' = st_net s) \/
    (~ registered ty (st_net s) /\ r = 0 /\ s' = s)).
Proof.
  unfold network_input_handler. wp_steps.
  destruct (list_find _ _) as [[i p]|] eqn:E.
  2:{ apply wp_ret. right; right. by apply find_type_None in E. }
  assert (registered ty (st_net s)) as Hr.
  { apply find_type_Some in E as [Ei <-]. apply list_elem_of_fmap. exists p.
    split; [done|]. by eapply list_elem_of_lookup_2. }
  apply wp_bind, memory_alloc_failing. intros b w Hw Hsub.
  destruct b; cbn [negb]; [|apply wp_ret; right; left; split_and!; try done; by apply Hw].
  rewrite rdn_in, drop_0 by lia. wp_steps.
  unfold queue_push_c. wp_steps. apply memory_alloc_failing. intros b w' Hw' _.
  unfold set_queue, raise_softirq, raise_signal.
  destruct b; wp_steps; cbn [st_net set_net set_world] in *.
  - left. split_and!; try done.
    + rewrite (proto_queue_same ty i p) by done. unfold proto_queue. by rewrite E.
    + intros ty' Hne. by rewrite (proto_queue_other ty ty' i p).
    + simpl. case_decide; [done|]. simpl. set_solver.
  - right; left. split_and!; try done. by apply Hsub, Hw'.
Qed.

(** The registry of protocols keeps one handler per type: registration of a
    new type puts it in front with an empty queue and keeps the others;
    registering a type twice, or failing to allocate, returns -1 and changes no
    protocol. *)
Theorem network_protocol_register_unique (name : string) (ty : Z) (h : protocol_handler) (s : stack)
    (Hu : protocols_unique (st_net s)) :
  wp (network_protocol_register name ty h) s (fun r s' =>
    protocols_unique (st_net s') /\
    (r = 0 /\ ~ registered ty (st_net s) /\ registered ty (st_net s') /\
       proto_queue ty (st_net s') = [] /\
       n_protocols (st_net s')
       = NetworkProtocol (strncpy 15 name) ty [] h :: n_protocols (st_net s) \/
     r = -1 /\ (registered ty (st_net s) \/ w_alloc (st_world s) <> []) /\ st_net s' = st_net s)).
Proof.
  unfold network_protocol_register. wp_steps.
  destruct (list_find _ _) as [[i p]|] eqn:E.
  - apply wp_ret. split; [done|]. right. split_and!; try done. left.
    apply find_type_Some in E as [Ei <-]. apply list_elem_of_fmap. exists p.
    split; [done|]. by eapply list_elem_of_lookup_2.
  - apply find_type_None in E. apply wp_bind, memory_alloc_wp. intros b w Hw _ _.
    destruct b; cbn [negb]; wp_steps; simpl.
    + split; [by apply NoDup_cons|]. left. split_and!; try done.
      * unfold registered. simpl. by left.
      * unfold proto_queue. simpl. by rewrite decide_True.
    + split; [done|]. right. split_and!; try done. right. by intros []%Hw.
Qed.

(** ** A concrete state *)

(** A stack with the two protocols registered and nothing queued. *)
Definition sample_protocols : stack :=
  set_net (set_protocols (fun _ =>
      [NetworkProtocol "IP" NETWORK_PROTOCOL_TYPE_IP [] fn_ip_input;
       NetworkProtocol "ARP" NETWORK_PROTOCOL_TYPE_ARP [] fn_arp_input]))
    (stack_boot (world_quiet (Timeval 0 0))).

Lemma network_input_delivers_witness :
  wp (network_input_handler 0x800 [1; 2; 3] 2 0%nat) sample_protocols (fun r s' =>
    r = 0 /\ proto_queue 0x800 (st_net s') = [NetQueueEntry 0%nat 2 [1; 2]] /\
    proto_queue 0x806 (st_net s') = []).
Proof.
  eapply wp_mono; [apply (network_input_delivers 0x800 [1; 2; 3] 2 0%nat sample_protocols); simpl; lia|].
  assert (registered 0x800 (st_net sample_protocols)) by by left.
  intros r s' [(_ & -> & Hq & Ho & _)|[(_ & _ & Hf & _)|([] & _)]]; [|by apply elem_of_nil in Hf|done].
  split_and!; [done|by rewrite Hq|by rewrite (Ho 0x806)].
Defined.

Lemma network_protocol_register_unique_witness :
  wp (network_protocol_register "IP" 0x800 fn_ip_input) sample_protocols (fun r s' =>
    r = -1 /\ st_net s' = st_net sample_protocols).
Proof.
  eapply wp_mono; [apply (network_protocol_register_unique "IP" 0x800 fn_ip_input sample_protocols)|].
  { apply (bool_decide_unpack _). vm_compute. done. }
  intros r s' [_ [(_ & [] & _)|(-> & _ & E)]]; [by left|done].
Defined.
