(* ===== verification/Ether.v ===== *)
(** * Ethernet addresses and frames (src/lib/ether.c, ether.h) *)

From stdpp Require Import base numbers list option gmap strings.
From Stdlib Require Import ZArith Lia Ascii.
From S2P Require Import Prelude Util CLib Queue State Net.
Open Scope Z_scope.
Open Scope cmonad_scope.

Definition ETHER_ADDR_LEN : nat := 6.
Definition ETHER_ADDR_STR_LEN : nat := 18.
Definition ETHER_HDR_SIZE : Z := 14.
Definition ETHER_FRAME_SIZE_MIN : Z := 60.
Definition ETHER_FRAME_SIZE_MAX : Z := 1514.
Definition ETHER_PAYLOAD_SIZE_MIN : Z := ETHER_FRAME_SIZE_MIN - ETHER_HDR_SIZE.
Definition ETHER_PAYLOAD_SIZE_MAX : Z := ETHER_FRAME_SIZE_MAX - ETHER_HDR_SIZE.
Definition ETHER_TYPE_IP : Z := 0x0800.
Definition ETHER_TYPE_ARP : Z := 0x0806.
Definition ETHER_TYPE_IPV6 : Z := 0x86dd.
Definition ETHER_ADDR_ANY : list Z := [0; 0; 0; 0; 0; 0].
Definition ETHER_ADDR_BROADCAST : list Z := [255; 255; 255; 255; 255; 255].

(** ** Addresses as text *)

(** The loop of [ether_addr_pton] from [index] on, with [k] rounds to go: whether
    it ran to its end, the string at [ep] and the bytes of [n] written so far. *)
Fixpoint ether_pton_loop (index k : nat) (p ep : string) (n : list Z) : bool * string * list Z :=
  match k with
  | O => (true, ep, n)
  | S k =>
      match strtol 16 p with
      | (_, None) => (false, p, n)
      | (val, Some ep) =>
          if (val <? 0) || (val >? 0xff)
             || (bool_decide (index < ETHER_ADDR_LEN - 1)%nat && negb (char_at_head ep =? 58))
          then (false, ep, n)
          else ether_pton_loop (S index) k (string_tail ep) ep (<[index := u8 val]> n)
      end
  end.

(** [ether_addr_pton(p, n)]: the result and the bytes at [n] afterwards. *)
Definition ether_addr_pton (p : option string) (n : list Z) : Z * list Z :=
  match p with
  | None => (-1, n)
  | Some p =>
      let '(ended, ep, n) := ether_pton_loop 0 ETHER_ADDR_LEN p p n in
      if negb ended || negb (char_at_head ep =? 0) then (-1, n) else (0, n)
  end.

(** [ether_addr_ntop(n, p, size)]: the text written to [p]; [None] is a read past
    the end of [n]. *)
Definition ether_addr_ntop (n : list Z) (size : nat) : option string :=
  match n with
  | a :: b :: c :: d :: e :: f :: _ =>
      Some (snprintf size
        (fmt_02x a ++ ":" ++ fmt_02x b ++ ":" ++ fmt_02x c ++ ":" ++
         fmt_02x d ++ ":" ++ fmt_02x e ++ ":" ++ fmt_02x f)%string)
  | _ => None
  end.

(** ** Frames *)

Section Ether.
Context {Mc : Machine}.

Definition ether_type_ntoa (ty : Z) : string :=
  let t := ntoh16 ty in
  if t =? ETHER_TYPE_IP then "IP"
  else if t =? ETHER_TYPE_ARP then "ARP"
  else if t =? ETHER_TYPE_IPV6 then "IPv6"
  else "UNKNOWN".

(** [ether_transmit_helper]: the frame is a zeroed array of [ETHER_FRAME_SIZE_MAX]
    bytes that the header and the payload are copied into. *)
Definition ether_transmit_helper (d : dev_id) (ty : Z) (data : list Z) (len : Z) (dst : list Z)
    (callback : dev_id -> list Z -> Z -> C Z) : C Z :=
  let! dev := get_dev d in
  let! hdst := opt OutOfBounds (rdn dst 0 ETHER_ADDR_LEN) in
  let! hsrc := opt OutOfBounds (rdn (dev_address dev) 0 ETHER_ADDR_LEN) in
  let! payload := opt OutOfBounds (rdn data 0 (Z.to_nat len)) in
  if len >? ETHER_PAYLOAD_SIZE_MAX then throw OutOfBounds
  else
    let frame := hdst ++ hsrc ++ store16 (hton16 ty) ++ payload
                 ++ replicate (Z.to_nat (ETHER_PAYLOAD_SIZE_MAX - len)) 0 in
    let pad := if len <? ETHER_PAYLOAD_SIZE_MIN then ETHER_PAYLOAD_SIZE_MIN - len else 0 in
    let flen := ETHER_HDR_SIZE + len + pad in
    let! r := callback d (take (Z.to_nat flen) frame) flen in
    ret (if r =? flen then 0 else -1).

(** [ether_poll_helper]: [callback] returns the length and the bytes it stored in
    the frame buffer. *)
Definition ether_poll_helper (d : dev_id) (callback : dev_id -> Z -> C (Z * list Z)) : C Z :=
  let! (flen, frame) := callback d ETHER_FRAME_SIZE_MAX in
  if flen <? ETHER_HDR_SIZE then ret (-1)
  else
    let! dev := get_dev d in
    let! addr := opt OutOfBounds (rdn (dev_address dev) 0 ETHER_ADDR_LEN) in
    let! hdst := opt OutOfBounds (rdn frame 0 ETHER_ADDR_LEN) in
    if negb (bool_decide (addr = hdst)) && negb (bool_decide (ETHER_ADDR_BROADCAST = hdst))
    then ret (-1)
    else
      let! t := opt OutOfBounds (rd16 frame 12) in
      network_input_handler (ntoh16 t) (drop 14 frame) (flen - ETHER_HDR_SIZE) d.

End Ether.

Definition ether_setup_helper (d : network_device) : network_device :=
  NetworkDevice (dev_interfaces d) (dev_index d) (dev_name d)
    NETWORK_DEVICE_TYPE_ETHERNET ETHER_PAYLOAD_SIZE_MAX
    (Z.lor NETWORK_DEVICE_FLAG_BROADCAST NETWORK_DEVICE_FLAG_NEED_ARP)
    ETHER_HDR_SIZE (Z.of_nat ETHER_ADDR_LEN) (dev_address d)
    (ETHER_ADDR_BROADCAST ++ drop ETHER_ADDR_LEN (dev_broadcast d))
    (dev_ops d) (dev_priv d).

(** ** Lemmas *)

Lemma pton_step index k v rest ep0 n :
  0 <= v < 256 ->
  (index < 5)%nat ->
  ether_pton_loop index (S k) (fmt_02x v ++ ":" ++ rest) ep0 n
  = ether_pton_loop (S index) k rest (":" ++ rest) (<[index := v]> n).
Proof.
  intros Hv Hi. cbn [ether_pton_loop]. rewrite strtol_fmt_02x by done.
  replace ((v <? 0) || (v >? 255)) with false by lia.
  rewrite bool_decide_true by (unfold ETHER_ADDR_LEN; lia).
  cbn [orb andb]. change (char_at_head (":" ++ rest)%string =? 58) with true. cbn [negb].
  rewrite u8_small by done. done.
Qed.

Lemma pton_last v ep0 n :
  0 <= v < 256 ->
  ether_pton_loop 5 1 (fmt_02x v) ep0 n = (true, ""%string, <[5%nat := v]> n).
Proof.
  intros Hv. cbn [ether_pton_loop].
  replace (fmt_02x v) with (fmt_02x v ++ "")%string by done. rewrite strtol_fmt_02x by done.
  replace ((v <? 0) || (v >? 255)) with false by lia.
  rewrite bool_decide_false by (unfold ETHER_ADDR_LEN; lia). simpl.
  rewrite u8_small by done. done.
Qed.

Section EtherFacts.
Context {Mc : Machine}.

(** The bytes a device's driver is given for a payload. *)
Definition ether_frame (dst src : list Z) (ty : Z) (payload : list Z) : list Z :=
  dst ++ src ++ [ty / 256; ty mod 256] ++ payload
  ++ replicate (46 - length payload) 0.

Lemma ether_transmit_run d ty data len dst callback s dev :
  n_devs (st_net s) !! d = Some dev ->
  (6 <= length dst)%nat -> (6 <= length (dev_address dev))%nat ->
  in_u16 ty -> 0 <= len <= 1500 -> (Z.to_nat len <= length data)%nat ->
  let frame := ether_frame (take 6 dst) (take 6 (dev_address dev)) ty (take (Z.to_nat len) data) in
  ether_transmit_helper d ty data len dst callback s
  = bind (callback d frame (Z.of_nat (length frame)))
      (fun r => ret (if r =? Z.of_nat (length frame) then 0 else -1)) s.
Proof.
  intros Hd Hdst Hsrc Hty Hlen Hdata frame.
  assert (length frame = Z.to_nat (14 + len + (if len <? 46 then 46 - len else 0))) as L.
  { unfold frame, ether_frame. rewrite !length_app, length_replicate, !length_take. cbn [length].
    destruct (Z.ltb_spec len 46); lia. }
  unfold ether_transmit_helper. erewrite bind_ret.
  2:{ unfold get_dev, bind, gets, opt. by rewrite Hd. }
  rewrite !rdn_in by (unfold ETHER_ADDR_LEN; lia).
  cbn [opt]. erewrite bind_ret by reflexivity. erewrite bind_ret by reflexivity.
  erewrite bind_ret by reflexivity. rewrite !drop_0.
  change ETHER_PAYLOAD_SIZE_MAX with 1500. change ETHER_PAYLOAD_SIZE_MIN with 46.
  change ETHER_HDR_SIZE with 14. change ETHER_ADDR_LEN with 6%nat.
  replace (len >? 1500) with false by lia.
  rewrite store16_hton16 by done.
  replace (Z.of_nat (length frame)) with (14 + len + (if len <? 46 then 46 - len else 0))
    by (rewrite L; destruct (Z.ltb_spec len 46); lia).
  replace (take _ _) with frame; [done|].
  unfold frame, ether_frame.
  replace (Z.to_nat (1500 - len))
    with (46 - length (take (Z.to_nat len) data) +
          (Z.to_nat (1500 - len) - (46 - length (take (Z.to_nat len) data))))%nat
    by (rewrite length_take; lia).
  rewrite replicate_add, !app_assoc.
  rewrite take_app_length'; [done|].
  rewrite <- !app_assoc. fold (ether_frame (take 6 dst) (take 6 (dev_address dev)) ty (take (Z.to_nat len) data)).
  fold frame. rewrite L. done.
Qed.

End EtherFacts.

(** ** Properties *)

(** Printing and parsing hardware addresses are inverse: every six-byte
    address printed into a buffer of [ETHER_ADDR_STR_LEN] bytes (the text fits
    with its NUL) is read back by [ether_addr_pton] as the same six bytes,
    whatever the destination held. *)
Theorem ether_addr_roundtrip (addr n : list Z)
    (Hb : bytes addr) (Hl : length addr = 6%nat) (Hn : length n = 6%nat) :
  exists text, ether_addr_ntop addr ETHER_ADDR_STR_LEN = Some text /\
    String.length text = 17%nat /\ ether_addr_pton (Some text) n = (0, addr).
Proof.
  destruct addr as [|a [|b [|c [|d [|e [|f [|? ?]]]]]]]; try done.
  destruct n as [|n0 [|n1 [|n2 [|n3 [|n4 [|n5 [|? ?]]]]]]]; try done.
  repeat (apply bytes_cons in Hb as [? Hb]). unfold in_u8 in *.
  unfold ether_addr_ntop, ETHER_ADDR_STR_LEN.
  rewrite snprintf_fits by (rewrite !length_append; simpl; lia).
  eexists; split; [reflexivity|]. split; [by rewrite !length_append|].
  unfold ether_addr_pton, ETHER_ADDR_LEN.
  rewrite !pton_step by lia. rewrite pton_last by lia. done.
Qed.

Lemma ether_addr_roundtrip_witness :
  exists text, ether_addr_ntop [0x00; 0x00; 0x5e; 0x00; 0x53; 0x01] ETHER_ADDR_STR_LEN = Some text /\
    String.length text = 17%nat /\
    ether_addr_pton (Some text) [0; 0; 0; 0; 0; 0] = (0, [0x00; 0x00; 0x5e; 0x00; 0x53; 0x01]).
Proof.
  apply (ether_addr_roundtrip [0x00; 0x00; 0x5e; 0x00; 0x53; 0x01] [0; 0; 0; 0; 0; 0]).
  - apply bytesb_spec. reflexivity.
  - reflexivity.
  - reflexivity.
Defined.
