(* ===== verification/Drivers.v ===== *)
(** * Interrupt registration and the device drivers
      (handler/interrupt.c, handler/tap.c, handler/pcap.c, device/loopback.c)

    The loopback device hands every packet back to [network_input_handler]; the
    TAP and packet-capture devices are Ethernet devices on a file descriptor.
    [stack_drivers] is the [DeviceDriver] instance they make up. *)

From stdpp Require Import base numbers list option gmap strings.
From Stdlib Require Import ZArith Lia.
From S2P Require Import Prelude Util CLib Queue State Net Ether.
Open Scope Z_scope.
Open Scope cmonad_scope.

(** ** Interrupts (handler/interrupt.c) *)

Definition sigaddset (mask : list Z) (sig : Z) : list Z :=
  if decide (sig ∈ mask) then mask else mask ++ [sig].

Definition intr_init : C Z :=
  modify (set_intr (fun i => IntrState (irq_vec i)
    (sigaddset (sigaddset (sigaddset [] SIGUSR1) SIGUSR2) SIGALRM)));;
  ret 0.

(** An entry of [irq_vec] that does not let another handler share its line. *)
Definition irq_conflict (irq flags : Z) (e : irq_entry) : bool :=
  (irq_num e =? irq) &&
  (truthy (Z.lxor (irq_flags e) NETWORK_IRQ_SHARED) || truthy (Z.lxor flags NETWORK_IRQ_SHARED)).

Definition intr_request_irq (irq : Z) (handler : irq_fn) (flags : Z) (name : string) (d : dev_id) : C Z :=
  let! i := gets st_intr in
  if existsb (irq_conflict irq flags) (irq_vec i) then ret (-1)
  else
    let! ok := memory_alloc in
    if negb ok then ret (-1)
    else
      modify (set_intr (fun i => IntrState
        (IrqEntry irq handler flags (strncpy 15 name) d :: irq_vec i)
        (sigaddset (intr_sigmask i) irq)));;
      ret 0.

Definition intr_timer_setup : C Z :=
  let! r := syscall_do SysTimerCreate (SysRes 0 0 []) in
  if r_ret r =? -1 then ret (-1)
  else
    let! r := syscall_do SysTimerSettime (SysRes 0 0 []) in
    if r_ret r =? -1 then ret (-1) else ret 0.

(** [pthread_sigmask] and [pthread_create] return an error number, 0 for success. *)
Definition intr_run : C Z :=
  let! err := syscall_do SysSigmask (SysRes 0 0 []) in
  if truthy (r_ret err) then ret (-1)
  else
    let! err := syscall_do SysThreadCreate (SysRes 0 0 []) in
    if truthy (r_ret err) then ret (-1) else ret 0.

(** ** Loopback (device/loopback.c) *)

Definition LOOPBACK_MTU : Z := 65535.

Definition loopback_transmit (d : dev_id) (ty : Z) (data : list Z) (len : Z) (dst : list Z) : C Z :=
  network_input_handler ty data len d;; ret 0.

Definition loopback_setup (d : network_device) : network_device :=
  NetworkDevice (dev_interfaces d) (dev_index d) (dev_name d)
    NETWORK_DEVICE_TYPE_LOOPBACK LOOPBACK_MTU NETWORK_DEVICE_FLAG_LOOPBACK 0 0
    (dev_address d) (dev_broadcast d) (Some loopback_ops) (dev_priv d).

Definition loopback_init : C (option dev_id) :=
  let! dev := network_device_allocate (Some loopback_setup) in
  match dev with
  | None => ret None
  | Some d =>
      let! r := network_device_register d in
      if r =? -1 then ret None else ret (Some d)
  end.

(** ** Ethernet devices on a file descriptor *)

Definition dev_private (d : dev_id) : C ether_priv :=
  let! dev := get_dev d in opt NullDeref (dev_priv dev).

Definition set_fd (d : dev_id) (fd : Z) : C unit :=
  let! p := dev_private d in
  set_dev d (with_priv (EtherPriv (ep_name p) fd (ep_irq p))).

(** The system calls the drivers make; their result when the environment says
    nothing is success. *)
Definition sys_close (fd : Z) : C unit := syscall_do (SysClose fd) (SysRes 0 0 []);; ret tt.
Definition sys_ioctl (fd : Z) (request : string) : C Z :=
  let! r := syscall_do (SysIoctl fd request) (SysRes 0 0 []) in ret (r_ret r).
Definition sys_fcntl (fd : Z) (cmd : string) : C Z :=
  let! r := syscall_do (SysFcntl fd cmd) (SysRes 0 0 []) in ret (r_ret r).
Definition sys_bind (fd : Z) : C Z := let! r := syscall_do (SysBind fd) (SysRes 0 0 []) in ret (r_ret r).
Definition sys_open : C Z := let! r := syscall_do SysOpen (SysRes 3 0 []) in ret (r_ret r).
Definition sys_socket : C Z := let! r := syscall_do SysSocket (SysRes 3 0 []) in ret (r_ret r).

(** [ioctl(soc, SIOCGIFHWADDR, &ifr)] fills in the six bytes of the address. *)
Definition sys_hwaddr (fd : Z) : C (Z * list Z) :=
  let! r := syscall_do (SysIoctl fd "SIOCGIFHWADDR") (SysRes 0 0 ETHER_ADDR_ANY) in
  ret (r_ret r, take ETHER_ADDR_LEN (r_data r ++ ETHER_ADDR_ANY)).

Section Ethernet.
Context {Mc : Machine}.

(** [ether_tap_addr] and [ether_pcap_addr] have the same body. *)
Definition ether_tap_addr (d : dev_id) : C Z :=
  let! soc := sys_socket in
  if soc =? -1 then ret (-1)
  else
    let! (r, hw) := sys_hwaddr soc in
    if r =? -1 then sys_close soc;; ret (-1)
    else
      set_dev d (fun dev => with_address (hw ++ drop ETHER_ADDR_LEN (dev_address dev)) dev);;
      sys_close soc;;
      ret 0.

Definition ether_pcap_addr (d : dev_id) : C Z :=
  let! soc := sys_socket in
  if soc =? -1 then ret (-1)
  else
    let! (r, hw) := sys_hwaddr soc in
    if r =? -1 then sys_close soc;; ret (-1)
    else
      set_dev d (fun dev => with_address (hw ++ drop ETHER_ADDR_LEN (dev_address dev)) dev);;
      sys_close soc;;
      ret 0.

(** A run of set-up calls on [fd]: the first that fails closes [fd] and gives up. *)
Fixpoint setup_calls (fd : Z) (calls : list (C Z)) : C bool :=
  match calls with
  | [] => ret true
  | c :: rest =>
      let! r := c in
      if r =? -1 then sys_close fd;; ret false else setup_calls fd rest
  end.

(** The address is asked of the system unless it was configured. *)
Definition setup_address (d : dev_id) (fd : Z) (addr : dev_id -> C Z) : C Z :=
  let! dev := get_dev d in
  let! a := opt OutOfBounds (rdn (dev_address dev) 0 ETHER_ADDR_LEN) in
  if bool_decide (a = ETHER_ADDR_ANY) then
    let! r := addr d in
    if r =? -1 then sys_close fd;; ret (-1) else ret 0
  else ret 0.

Definition ether_tap_open (d : dev_id) : C Z :=
  let! tap := dev_private d in
  let! fd := sys_open in
  set_fd d fd;;
  if fd =? -1 then ret (-1)
  else
    let! ok := setup_calls fd 
      [sys_ioctl fd "TUNSETIFF"; sys_fcntl fd "F_SETOWN"; sys_fcntl fd "F_SETFL"; sys_fcntl fd "F_SETSIG"] in
    if negb ok then ret (-1) else setup_address d fd ether_tap_addr.

Definition ether_pcap_open (d : dev_id) : C Z :=
  let! pcap := dev_private d in
  let! fd := sys_socket in
  set_fd d fd;;
  if fd =? -1 then ret (-1)
  else
    let! ok := setup_calls fd 
      [sys_ioctl fd "SIOCGIFINDEX"; sys_bind fd; sys_ioctl fd "SIOCGIFFLAGS"; sys_ioctl fd "SIOCSIFFLAGS";
       sys_fcntl fd "F_SETOWN"; sys_fcntl fd "F_SETFL"; sys_fcntl fd "F_SETSIG"] in
    if negb ok then ret (-1) else setup_address d fd ether_pcap_addr.

Definition ether_tap_close (d : dev_id) : C Z :=
  let! tap := dev_private d in sys_close (ep_fd tap);; ret 0.

Definition ether_pcap_close (d : dev_id) : C Z :=
  let! pcap := dev_private d in sys_close (ep_fd pcap);; ret 0.

Definition ether_tap_write (d : dev_id) (frame : list Z) (flen : Z) : C Z :=
  let! tap := dev_private d in
  let! r := syscall_do (SysWrite (ep_fd tap) frame) (SysRes flen 0 []) in ret (r_ret r).

Definition ether_pcap_write (d : dev_id) (frame : list Z) (flen : Z) : C Z :=
  let! pcap := dev_private d in
  let! r := syscall_do (SysWrite (ep_fd pcap) frame) (SysRes flen 0 []) in ret (r_ret r).

Definition ether_tap_transmit (d : dev_id) (ty : Z) (buf : list Z) (len : Z) (dst : list Z) : C Z :=
  ether_transmit_helper d ty buf len dst ether_tap_write.

Definition ether_pcap_transmit (d : dev_id) (ty : Z) (buf : list Z) (len : Z) (dst : list Z) : C Z :=
  ether_transmit_helper d ty buf len dst ether_pcap_write.

(** [read] on the device: the length and the bytes stored. *)
Definition ether_tap_read (d : dev_id) (size : Z) : C (Z * list Z) :=
  let! tap := dev_private d in
  let! r := syscall_do (SysRead (ep_fd tap) size) (SysRes 0 0 []) in
  if r_ret r <=? 0 then ret (-1, []) else ret (r_ret r, r_data r).

Definition ether_pcap_read (d : dev_id) (size : Z) : C (Z * list Z) :=
  let! pcap := dev_private d in
  let! r := syscall_do (SysRead (ep_fd pcap) size) (SysRes 0 0 []) in
  if r_ret r <=? 0 then ret (-1, []) else ret (r_ret r, r_data r).

(** The loop of an interrupt service routine: poll the descriptor and take a
    frame while there is one.  [None] when the fuel runs out; a call answered by
    the environment uses up one of its answers, so one more round than there are
    answers is enough. *)
Fixpoint isr_loop (fuel : nat) (d : dev_id) (fd : Z) (read : dev_id -> Z -> C (Z * list Z)) :
    C (option Z) :=
  match fuel with
  | O => ret None
  | S fuel =>
      let! r := syscall_do (SysPoll fd) (SysRes 0 0 []) in
      if r_ret r =? -1 then
        if r_errno r =? EINTR then isr_loop fuel d fd read else ret (Some (-1))
      else if r_ret r =? 0 then ret (Some 0)
      else ether_poll_helper d read;; isr_loop fuel d fd read
  end.

Definition ether_tap_isr (fuel : nat) (irq : Z) (d : dev_id) : C (option Z) :=
  let! tap := dev_private d in isr_loop fuel d (ep_fd tap) ether_tap_read.

Definition ether_pcap_isr (fuel : nat) (irq : Z) (d : dev_id) : C (option Z) :=
  let! pcap := dev_private d in isr_loop fuel d (ep_fd pcap) ether_pcap_read.

Definition ETHER_TAP_IRQ : Z := SIGRTMIN + 2.
Definition ETHER_PCAP_IRQ : Z := SIGRTMIN + 3.

(** The address argument of [ether_tap_init] / [ether_pcap_init], parsed into the
    device; [false] when it is given and malformed. *)
Definition init_address (d : dev_id) (addr : option string) : C bool :=
  match addr with
  | None => ret true
  | Some a =>
      let! dev := get_dev d in
      let '(r, bs) := ether_addr_pton (Some a) (dev_address dev) in
      set_dev d (with_address bs);;
      ret (negb (r =? -1))
  end.

(** The common part of the two init functions after the operations were set. *)
Definition ether_attach (d : dev_id) (name : string) (irq : Z) (isr : irq_fn) : C (option dev_id) :=
  let! ok := memory_alloc in
  if negb ok then ret None
  else
    set_dev d (with_priv (EtherPriv (strncpy (IFNAMSIZ - 1) name) (-1) irq));;
    let! r := network_device_register d in
    if r =? -1 then ret None
    else
      let! dev := get_dev d in
      intr_request_irq irq isr NETWORK_IRQ_SHARED (dev_name dev) d;;
      ret (Some d).

Definition ether_tap_init (name : string) (addr : option string) : C (option dev_id) :=
  let! dev := network_device_allocate (Some ether_setup_helper) in
  match dev with
  | None => ret None
  | Some d =>
      let! ok := init_address d addr in
      if negb ok then ret None
      else set_dev d (with_ops ether_tap_ops);; ether_attach d name ETHER_TAP_IRQ fn_ether_tap_isr
  end.

Definition ether_pcap_init (name : string) (addr : option string) : C (option dev_id) :=
  let! dev := network_device_allocate (Some ether_setup_helper) in
  match dev with
  | None => ret None
  | Some d =>
      let! ok := init_address d addr in
      if negb ok then ret None
      else set_dev d (with_ops ether_pcap_ops);; ether_attach d name ETHER_PCAP_IRQ fn_ether_pcap_isr
  end.

End Ethernet.

(** ** Frames *)

Create HintDb frame.

Section DriverFrames.
Context {Mc : Machine}.

(** The configuration of the devices, without hardware address and private data. *)
Definition dev_config (d : network_device) :=
  (dev_interfaces d, dev_index d, dev_name d, dev_type d, dev_mtu d, dev_flags d,
   dev_header_len d, dev_address_len d, dev_broadcast d, dev_ops d).

Definition devs_config (s : stack) : gmap dev_id _ := dev_config <$> n_devs (st_net s).

Lemma set_dev_frame {T} (f : stack -> T) d g :
  (forall h s, f (set_net (set_devs h) s) = f s) -> Preserves f (set_dev d g).
Proof.
  intros H. unfold set_dev, get_dev. solve_preserves. by apply preserves_modify.
Qed.

(** An update of one device that keeps its configuration. *)
Lemma set_dev_config d g :
  (forall dev, dev_config (g dev) = dev_config dev) -> Preserves devs_config (set_dev d g).
Proof.
  intros Hg s a s'. unfold set_dev, get_dev, gets, modify, bind. simpl.
  destruct (n_devs (st_net s) !! d) as [dev|] eqn:E; [|done]. intros [= _ <-].
  unfold devs_config. simpl. rewrite fmap_insert, Hg. apply insert_id. by rewrite lookup_fmap, E.
Qed.

Lemma sys_frame {T} (f : stack -> T) (Hf : forall g s, f (set_world g s) = f s) :
  (forall fd, Preserves f (sys_close fd)) /\ (forall fd r, Preserves f (sys_ioctl fd r)) /\
  (forall fd r, Preserves f (sys_fcntl fd r)) /\ (forall fd, Preserves f (sys_bind fd)) /\
  Preserves f sys_open /\ Preserves f sys_socket /\ (forall fd, Preserves f (sys_hwaddr fd)).
Proof.
  split_and!; intros; unfold sys_close, sys_ioctl, sys_fcntl, sys_bind, sys_open, sys_socket, sys_hwaddr;
    solve_preserves; by apply syscall_frame.
Qed.

(** What the open and close functions of the Ethernet drivers preserve. *)
Section OpenFrame.
Context {T : Type} (f : stack -> T).
Hypothesis Hw : forall g s, f (set_world g s) = f s.
Hypothesis Haddr : forall d a, Preserves f (set_dev d (fun dev => with_address (a dev) dev)).
Hypothesis Hpriv : forall d p, Preserves f (set_dev d (with_priv p)).

Ltac driver_frame_tac :=
  destruct (sys_frame f Hw) as (?&?&?&?&?&?&?);
  repeat match goal with
  | |- Preserves _ (set_dev _ (with_priv _)) => apply Hpriv
  | |- Preserves _ (set_dev _ (fun dev => with_address _ dev)) =>
      apply (Haddr _ (fun dev => _ dev))
  | |- Preserves _ (bind _ _) => apply preserves_bind; [|intros ?]
  | |- Preserves _ (match ?x with _ => _ end) => destruct x
  | |- Preserves _ (syscall_do _ _) => by apply syscall_frame
  | |- Preserves _ _ => solve [auto | apply _]
  end.

Lemma setup_calls_frame fd calls :
  Forall (fun c => Preserves f c) calls -> Preserves f (setup_calls fd calls).
Proof. induction 1; simpl; driver_frame_tac. Qed.

Lemma ether_addr_frame d : Preserves f (ether_tap_addr d) /\ Preserves f (ether_pcap_addr d).
Proof.
  split; unfold ether_tap_addr, ether_pcap_addr; driver_frame_tac;
    apply (Haddr d (fun dev => _ ++ drop ETHER_ADDR_LEN (dev_address dev))).
Qed.

Lemma ether_open_frame d : Preserves f (ether_tap_open d) /\ Preserves f (ether_pcap_open d).
Proof.
  destruct (ether_addr_frame d) as [Ht Hp].
  destruct (sys_frame f Hw) as (?&?&?&?&?&?&?).
  split; unfold ether_tap_open, ether_pcap_open, set_fd, dev_private, get_dev, setup_address;
    driver_frame_tac; apply setup_calls_frame; repeat constructor; auto.
Qed.

Lemma ether_close_frame d : Preserves f (ether_tap_close d) /\ Preserves f (ether_pcap_close d).
Proof. split; unfold ether_tap_close, ether_pcap_close, dev_private, get_dev; driver_frame_tac. Qed.
End OpenFrame.

Lemma ether_write_frame {T} (f : stack -> T) (Hf : forall g s, f (set_world g s) = f s) d ty data len dst :
  Preserves f (ether_tap_transmit d ty data len dst) /\ Preserves f (ether_pcap_transmit d ty data len dst).
Proof.
  split; unfold ether_tap_transmit, ether_pcap_transmit, ether_transmit_helper, ether_tap_write,
    ether_pcap_write, dev_private, get_dev; solve_preserves; by apply syscall_frame.
Qed.

Lemma loopback_frame d ty data len dst :
  Preserves driver_frame (loopback_transmit d ty data len dst) /\
  Preserves (fun s => n_devs (st_net s)) (loopback_transmit d ty data len dst).
Proof. split; unfold loopback_transmit; solve_preserves. Qed.

(** ** The drivers of the stack *)

Definition stack_open (o : device_ops) : option (dev_id -> C Z) :=
  match o with
  | loopback_ops => None
  | ether_tap_ops => Some ether_tap_open
  | ether_pcap_ops => Some ether_pcap_open
  end.

Definition stack_close (o : device_ops) : option (dev_id -> C Z) :=
  match o with
  | loopback_ops => None
  | ether_tap_ops => Some ether_tap_close
  | ether_pcap_ops => Some ether_pcap_close
  end.

Definition stack_transmit (o : device_ops) : option (dev_id -> Z -> list Z -> Z -> list Z -> C Z) :=
  match o with
  | loopback_ops => Some loopback_transmit
  | ether_tap_ops => Some ether_tap_transmit
  | ether_pcap_ops => Some ether_pcap_transmit
  end.

#[export, refine] Instance stack_drivers : DeviceDriver := {|
  drv_open := stack_open;
  drv_close := stack_close;
  drv_transmit := stack_transmit;
|}.
Proof.
  - intros [] f d [= <-]; eapply ether_open_frame; intros; solve [done | by apply set_dev_frame].
  - intros [] f d [= <-]; eapply ether_close_frame; intros; solve [done | by apply set_dev_frame].
  - intros [] f d ty data len dst [= <-]; [apply loopback_frame|by apply ether_write_frame..].
  - intros [] f d ty data len dst [= <-]; [apply loopback_frame|by apply ether_write_frame..].
Defined.

End DriverFrames.

(** ** Well-formed devices *)

(** What [loopback_init], [ether_tap_init] and [ether_pcap_init] set up: an
    Ethernet device has private data and its MTU fits a frame. *)
Definition dev_wf (dev : network_device) : Prop :=
  length (dev_address dev) = 16%nat /\ length (dev_broadcast dev) = 16%nat /\ in_u16 (dev_flags dev) /\
  match dev_ops dev with
  | None => False
  | Some loopback_ops => True
  | Some _ => dev_mtu dev <= ETHER_PAYLOAD_SIZE_MAX /\ is_Some (dev_priv dev)
  end.

Definition devs_wf (s : stack) : Prop := map_Forall (fun _ => dev_wf) (n_devs (st_net s)).

Lemma get_dev_ok d s dev : n_devs (st_net s) !! d = Some dev -> get_dev d s = Ret dev s.
Proof. intros E. unfold get_dev, bind, gets, opt. by rewrite E. Qed.

Lemma set_dev_ok d g s dev :
  n_devs (st_net s) !! d = Some dev ->
  set_dev d g s = Ret tt (set_net (set_devs (insert d (g dev))) s).
Proof. intros E. unfold set_dev. by erewrite bind_ret by by apply get_dev_ok. Qed.

Lemma dev_private_ok d s dev p :
  n_devs (st_net s) !! d = Some dev -> dev_priv dev = Some p -> dev_private d s = Ret p s.
Proof. intros E Ep. unfold dev_private. erewrite bind_ret by by apply get_dev_ok. by rewrite Ep. Qed.

(** A system call always returns; it adds one entry to the trace. *)
Lemma syscall_wp c dflt s (Q : sysres -> stack -> Prop) :
  (forall r w, w_trace w = w_trace (st_world s) ++ [(c, r_ret r)] ->
     w_sys w = tail (w_sys (st_world s)) -> w_alloc w = w_alloc (st_world s) ->
     w_pending w = w_pending (st_world s) -> w_clock w = w_clock (st_world s) ->
     r = match w_sys (st_world s) with [] => dflt | r :: _ => r end ->
     Q r (set_world (fun _ => w) s)) ->
  wp (syscall_do c dflt) s Q.
Proof.
  intros H. unfold syscall_do. wp_steps.
  destruct (w_sys (st_world s)) as [|r rest] eqn:E; wp_steps; (eapply H; [done|by rewrite ?E|done..]).
Qed.

Section TransmitFacts.
Context {Mc : Machine}.

(** What a transmission does to the state: only the environment changes, by one
    write of the frame, and the result says whether all of it was written. *)
Definition transmitted (fd : Z) (frame : list Z) (s : stack) (r : Z) (s' : stack) : Prop :=
  exists w n, s' = set_world (fun _ => w) s /\
    w_trace w = w_trace (st_world s) ++ [(SysWrite fd frame, n)] /\
    w_alloc w = w_alloc (st_world s) /\ w_pending w = w_pending (st_world s) /\
    w_sys w = tail (w_sys (st_world s)) /\ w_clock w = w_clock (st_world s) /\
    n = match w_sys (st_world s) with [] => Z.of_nat (length frame) | x :: _ => r_ret x end /\
    r = if n =? Z.of_nat (length frame) then 0 else -1.

Lemma ether_transmit_wp (pcap : bool) d ty data len dst s dev p :
  n_devs (st_net s) !! d = Some dev -> length (dev_address dev) = 16%nat -> dev_priv dev = Some p ->
  (6 <= length dst)%nat -> in_u16 ty -> 0 <= len <= 1500 -> (Z.to_nat len <= length data)%nat ->
  wp (if pcap then ether_pcap_transmit d ty data len dst else ether_tap_transmit d ty data len dst) s
    (transmitted (ep_fd p)
      (ether_frame (take 6 dst) (take 6 (dev_address dev)) ty (take (Z.to_nat len) data)) s).
Proof.
  intros Hd Ha Hp Hdst Hty Hlen Hdata.
  destruct pcap; unfold ether_pcap_transmit, ether_tap_transmit, wp;
    (erewrite ether_transmit_run by (done || lia));
    unfold ether_pcap_write, ether_tap_write;
    match goal with |- match ?m ?s with _ => _ end => change (wp m s (transmitted (ep_fd p)
      (ether_frame (take 6 dst) (take 6 (dev_address dev)) ty (take (Z.to_nat len) data)) s)) end;
    apply wp_bind, wp_bind; (eapply wp_of_run; [by eapply dev_private_ok|]);
    apply wp_bind, syscall_wp; intros r w Ht Hs Hal Hpe Hcl Hr; wp_steps;
    exists w, (r_ret r); (split_and!; try done); subst r; by destruct (w_sys (st_world s)).
Qed.

(** The same through [network_device_output]. *)
Lemma network_device_output_ether d ty data len dst s dev p :
  n_devs (st_net s) !! d = Some dev -> dev_wf dev -> dev_ops dev <> Some loopback_ops ->
  dev_priv dev = Some p -> NETWORK_DEVICE_IS_UP dev = true ->
  (6 <= length dst)%nat -> in_u16 ty -> 0 <= len <= dev_mtu dev -> (Z.to_nat len <= length data)%nat ->
  wp (network_device_output d ty data len dst) s
    (transmitted (ep_fd p)
      (ether_frame (take 6 dst) (take 6 (dev_address dev)) ty (take (Z.to_nat len) data)) s).
Proof.
  intros Hd (Ha & _ & _ & Ho) Hne Hp Hup Hdst Hty Hlen Hdata.
  unfold network_device_output. apply wp_bind. eapply wp_of_run; [by apply get_dev_ok|].
  rewrite Hup. cbn [negb]. replace (len >? dev_mtu dev) with false by lia.
  destruct (dev_ops dev) as [o|]; [|done]. wp_steps.
  assert (exists b : bool, drv_transmit o = Some (if b then ether_pcap_transmit else ether_tap_transmit)) as [b ->].
  { destruct o; [done|by exists false|by exists true]. }
  wp_steps.
  assert (dev_mtu dev <= 1500) as Hm by (destruct o; [done|apply Ho..]).
  eapply wp_mono.
  - pose proof (ether_transmit_wp b d ty data len dst s dev p Hd Ha Hp Hdst Hty ltac:(lia) Hdata) as W.
    destruct b; exact W.
  - intros r s' T. pose proof T as (w & n & -> & ? & ? & ? & ? & ? & ? & Er).
    destruct (r =? -1) eqn:E; wp_steps.
    + replace (-1) with r by lia. done.
    + replace 0 with r; [done|]. destruct (n =? _); lia.
Qed.

(** Output on a well-formed device never faults. *)
Lemma network_device_output_wp d ty data len dst s dev :
  n_devs (st_net s) !! d = Some dev -> dev_wf dev ->
  (6 <= length dst)%nat -> in_u16 ty -> 0 <= len -> (Z.to_nat len <= length data)%nat ->
  wp (network_device_output d ty data len dst) s (fun r s' =>
    (r = 0 \/ r = -1) /\ driver_frame s' = driver_frame s /\ n_devs (st_net s') = n_devs (st_net s)).
Proof.
  intros Hd Hwf Hdst Hty Hlen Hdata.
  assert (wp (network_device_output d ty data len dst) s (fun r _ => r = 0 \/ r = -1)) as W.
  { destruct (NETWORK_DEVICE_IS_UP dev && (len <=? dev_mtu dev)) eqn:G.
    - apply andb_prop in G as [Hup Hm]. destruct (dev_ops dev) as [o|] eqn:Eo.
      2:{ by destruct Hwf as (_ & _ & _ & Hwf); rewrite Eo in Hwf. }
      destruct o.
      + unfold network_device_output. apply wp_bind. eapply wp_of_run; [by apply get_dev_ok|].
        rewrite Hup, Eo. cbn [negb]. replace (len >? dev_mtu dev) with false by lia. wp_steps.
        cbn [drv_transmit stack_drivers stack_transmit]. unfold loopback_transmit. wp_steps.
        eapply wp_mono; [by apply network_input_safe|]. intros _ s' _. wp_steps. by left.
      + pose proof Hwf as (_ & _ & _ & Ho). rewrite Eo in Ho. destruct Ho as [_ [p Hp]].
        eapply wp_mono; [apply (network_device_output_ether d ty data len dst s dev p); try done; [by rewrite Eo|lia]|].
        intros r s' (w & n & _ & _ & _ & _ & _ & _ & _ & ->). destruct (n =? _); auto.
      + pose proof Hwf as (_ & _ & _ & Ho). rewrite Eo in Ho. destruct Ho as [_ [p Hp]].
        eapply wp_mono; [apply (network_device_output_ether d ty data len dst s dev p); try done; [by rewrite Eo|lia]|].
        intros r s' (w & n & _ & _ & _ & _ & _ & _ & _ & ->). destruct (n =? _); auto.
    - unfold network_device_output. apply wp_bind. eapply wp_of_run; [by apply get_dev_ok|].
      destruct (NETWORK_DEVICE_IS_UP dev); cbn [negb andb] in *; [|apply wp_ret; by right].
      replace (len >? dev_mtu dev) with true by lia. apply wp_ret. by right. }
  apply (wp_preserves driver_frame) in W; [|apply _].
  apply (wp_preserves (fun s => n_devs (st_net s))) in W; [|apply _].
  eapply wp_mono; [exact W|]. intros r s' [[? ?] ?]. done.
Qed.

(** On the loopback device, output is input. *)
Lemma network_device_output_loopback d ty data len dst s dev :
  n_devs (st_net s) !! d = Some dev -> dev_ops dev = Some loopback_ops ->
  NETWORK_DEVICE_IS_UP dev = true -> w_alloc (st_world s) = [] ->
  0 <= len <= dev_mtu dev -> (Z.to_nat len <= length data)%nat ->
  network_device_output d ty data len dst s
  = Ret 0 (enqueued ty (NetQueueEntry d len (take (Z.to_nat len) data)) s).
Proof.
  intros Hd Ho Hup Ha Hlen Hdata. unfold network_device_output.
  erewrite bind_ret by by apply get_dev_ok. rewrite Hup, Ho. cbn [negb opt].
  replace (len >? dev_mtu dev) with false by lia. do 2 erewrite bind_ret by reflexivity.
  cbn [drv_transmit stack_drivers stack_transmit].
  unfold loopback_transmit, bind. by rewrite network_input_ok.
Qed.

End TransmitFacts.

(** ** Open descriptors *)

Fixpoint remove1 (x : Z) (l : list Z) : list Z :=
  match l with
  | [] => []
  | y :: l => if x =? y then l else y :: remove1 x l
  end.

Definition fd_event (open : list Z) (e : syscall * Z) : list Z :=
  match e.1 with
  | SysOpen | SysSocket => if e.2 =? -1 then open else e.2 :: open
  | SysClose fd => remove1 fd open
  | _ => open
  end.

(** The descriptors a trace of system calls leaves open, the last opened first. *)
Definition open_fds (s : stack) : list Z := fold_left fd_event (w_trace (st_world s)) [].

Lemma remove1_head x l : remove1 x (x :: l) = l.
Proof. simpl. by rewrite Z.eqb_refl. Qed.

Section DescriptorFacts.
Context {Mc : Machine}.

Lemma syscall_fds_wp c dflt s (Q : sysres -> stack -> Prop) :
  (forall r s', st_net s' = st_net s -> open_fds s' = fd_event (open_fds s) (c, r_ret r) -> Q r s') ->
  wp (syscall_do c dflt) s Q.
Proof.
  intros H. apply syscall_wp. intros r w Ht _ _ _ _ _. apply H; [done|].
  unfold open_fds. simpl. by rewrite Ht, fold_left_app.
Qed.

(** A call that opens and closes nothing. *)
Definition fd_neutral (c : C Z) : Prop :=
  forall s Q, (forall r s', st_net s' = st_net s -> open_fds s' = open_fds s -> Q r s') -> wp c s Q.

Lemma ioctl_neutral fd r : fd_neutral (sys_ioctl fd r).
Proof. intros s Q H. unfold sys_ioctl. wp_steps. apply syscall_fds_wp. intros. wp_steps. by apply H. Qed.

Lemma fcntl_neutral fd r : fd_neutral (sys_fcntl fd r).
Proof. intros s Q H. unfold sys_fcntl. wp_steps. apply syscall_fds_wp. intros. wp_steps. by apply H. Qed.

Lemma bind_neutral fd : fd_neutral (sys_bind fd).
Proof. intros s Q H. unfold sys_bind. wp_steps. apply syscall_fds_wp. intros. wp_steps. by apply H. Qed.

Lemma sys_close_wp fd s (Q : unit -> stack -> Prop) :
  (forall s', st_net s' = st_net s -> open_fds s' = remove1 fd (open_fds s) -> Q tt s') ->
  wp (sys_close fd) s Q.
Proof. intros H. unfold sys_close. wp_steps. apply syscall_fds_wp. intros. wp_steps. by apply H. Qed.

Lemma setup_calls_wp fd calls s (Q : bool -> stack -> Prop) :
  Forall fd_neutral calls ->
  (forall b s', st_net s' = st_net s ->
     open_fds s' = (if b : bool then open_fds s else remove1 fd (open_fds s)) -> Q b s') ->
  wp (setup_calls fd calls) s Q.
Proof.
  intros Hc. revert s. induction Hc as [|c calls Hn Hc IH]; intros s H; cbn [setup_calls].
  - wp_steps. by apply H.
  - apply wp_bind, Hn. intros r s1 N1 F1. destruct (r =? -1).
    + apply wp_bind, sys_close_wp. intros s2 N2 F2. wp_steps. apply H; congruence.
    + apply IH. intros b s2 N2 F2. apply H; [congruence|]. by rewrite <- F1.
Qed.

(** Asking for the hardware address leaves no socket behind. *)
Lemma ether_addr_wp (pcap : bool) d s dev (Q : Z -> stack -> Prop) :
  n_devs (st_net s) !! d = Some dev ->
  (forall r s', (r = 0 \/ r = -1) -> open_fds s' = open_fds s ->
     (exists dev', n_devs (st_net s') !! d = Some dev' /\ dev_priv dev' = dev_priv dev) -> Q r s') ->
  wp (if pcap then ether_pcap_addr d else ether_tap_addr d) s Q.
Proof.
  intros Hd H.
  assert ((if pcap then ether_pcap_addr d else ether_tap_addr d) = ether_tap_addr d) as -> by by destruct pcap.
  unfold ether_tap_addr, sys_socket, sys_hwaddr. wp_steps. apply syscall_fds_wp. intros r s1 N1 F1. wp_steps.
  unfold fd_event in F1; simpl in F1. destruct (r_ret r =? -1) eqn:E.
  { wp_steps. apply H; [by right|done|]. exists dev. by rewrite N1. }
  wp_steps. apply syscall_fds_wp. intros r2 s2 N2 F2. wp_steps. unfold fd_event in F2; simpl in F2.
  destruct (r_ret r2 =? -1).
  - wp_steps. apply sys_close_wp. intros s3 N3 F3. wp_steps.
    apply H; [by right|by rewrite F3, F2, F1, remove1_head|]. exists dev. by rewrite N3, N2, N1.
  - wp_steps. eapply wp_of_run; [apply set_dev_ok; by rewrite N2, N1|].
    apply wp_bind, sys_close_wp. intros s3 N3 F3. wp_steps.
    apply H; [by left| |].
    + rewrite F3. unfold open_fds at 1. simpl. fold (open_fds s2). by rewrite F2, F1, remove1_head.
    + eexists. rewrite N3. simpl. rewrite lookup_insert_eq. done.
Qed.

(** Both open functions: after the first call, the same shape. *)
Lemma ether_open_wp (pcap : bool) d s dev p (Q : Z -> stack -> Prop) :
  n_devs (st_net s) !! d = Some dev -> dev_priv dev = Some p -> length (dev_address dev) = 16%nat ->
  (forall r s', (r = 0 \/ r = -1) ->
     (exists dev' p', n_devs (st_net s') !! d = Some dev' /\ dev_priv dev' = Some p' /\
        open_fds s' = if r =? 0 then ep_fd p' :: open_fds s else open_fds s) -> Q r s') ->
  wp (if pcap then ether_pcap_open d else ether_tap_open d) s Q.
Proof.
  intros Hd Hp Ha H.
  set (fin := fun r s' => (r = 0 \/ r = -1) /\ exists dev' p', n_devs (st_net s') !! d = Some dev' /\
    dev_priv dev' = Some p' /\ open_fds s' = if r =? 0 then ep_fd p' :: open_fds s else open_fds s).
  enough (wp (if pcap then ether_pcap_open d else ether_tap_open d) s fin) as W.
  { eapply wp_mono; [exact W|]. intros r s' [? ?]. by apply H. }
  assert (forall calls fd s1, Forall fd_neutral calls -> st_net s1 = st_net s ->
    open_fds s1 = (if fd =? -1 then open_fds s else fd :: open_fds s) ->
    wp (set_fd d fd;;
        if fd =? -1 then ret (-1)
        else let! ok := setup_calls fd calls in
             if negb ok then ret (-1)
             else setup_address d fd (if pcap then ether_pcap_addr else ether_tap_addr)) s1 fin) as Body.
  { intros calls fd s1 Hc N1 F1. unfold set_fd. wp_steps.
    eapply wp_of_run; [eapply dev_private_ok; [by rewrite N1|done]|].
    eapply wp_of_run; [apply set_dev_ok; by rewrite N1|].
    set (dev1 := with_priv _ dev). set (s2 := set_net _ s1).
    assert (n_devs (st_net s2) !! d = Some dev1) as Hd2 by (unfold s2; simpl; by rewrite lookup_insert_eq).
    assert (open_fds s2 = open_fds s1) as F2 by done.
    destruct (fd =? -1) eqn:Efd.
    { wp_steps. split; [by right|]. exists dev1. eexists. split_and!; [done..|by rewrite F2, F1]. }
    apply wp_bind, setup_calls_wp; [done|]. intros b s3 N3 F3. rewrite F2, F1 in F3.
    destruct b; cbn [negb].
    2:{ wp_steps. split; [by right|]. exists dev1. eexists. rewrite N3. split_and!; [done..|by rewrite F3, remove1_head]. }
    unfold setup_address. apply wp_bind. eapply wp_of_run; [apply get_dev_ok; by rewrite N3|].
    change (dev_address dev1) with (dev_address dev). rewrite rdn_in by (unfold ETHER_ADDR_LEN; lia).
    wp_steps. case_bool_decide.
    2:{ wp_steps. split; [by left|]. exists dev1. eexists. rewrite N3. split_and!; done. }
    apply wp_bind. pose proof (ether_addr_wp pcap d s3 dev1) as A. destruct pcap; apply A; clear A;
      try (by rewrite N3);
      (intros r s4 Hr F4 (dev4 & Hd4 & Hp4); destruct (r =? -1) eqn:Er;
       [apply wp_bind, sys_close_wp; intros s5 N5 F5; wp_steps; split; [by right|];
        exists dev4; eexists; rewrite N5; split_and!; [done|exact Hp4|by rewrite F5, F4, F3, remove1_head]
       |wp_steps; split; [by left|]; exists dev4; eexists; split_and!; [done|exact Hp4|by rewrite F4, F3]]). }
  destruct pcap; unfold ether_pcap_open, ether_tap_open, sys_open, sys_socket; apply wp_bind;
    (eapply wp_of_run; [by eapply dev_private_ok|]); apply wp_bind, wp_bind, syscall_fds_wp;
    intros r s1 N1 F1; wp_step; (eapply Body; [|done|exact F1]);
    repeat constructor; auto using ioctl_neutral, fcntl_neutral, bind_neutral.
Qed.

End DescriptorFacts.

(** ** Flags *)

Lemma is_up_odd dev : NETWORK_DEVICE_IS_UP dev = Z.odd (dev_flags dev).
Proof.
  unfold NETWORK_DEVICE_IS_UP, NETWORK_DEVICE_FLAG_UP. change 1 with (Z.ones 1) at 1.
  rewrite Z.land_ones by lia. rewrite Zmod_odd. by destruct (Z.odd _).
Qed.

Lemma flag_set_up f : in_u16 f -> Z.odd (u16 (Z.lor f 1)) = true /\ Z.div2 (u16 (Z.lor f 1)) = Z.div2 f.
Proof.
  intros H.
  assert (Z.lor f 1 = 2 * Z.div2 f + 1) as E.
  { pose proof (lor_add_disjoint (Z.div2 f) 1 1 ltac:(lia) ltac:(lia)) as D.
    change (2 ^ 1) with 2 in D. pose proof (Z.div2_odd f) as F. revert D F.
    generalize (Z.div2 f) as q. intros q D F. rewrite (Z.mul_comm q 2) in D.
    destruct (Z.odd f); cbn [Z.b2z] in F.
    - rewrite F, <- D, <- Z.lor_assoc, Z.lor_diag. done.
    - rewrite F, Z.add_0_r. exact D. }
  pose proof (Z.div2_odd f). unfold in_u16 in H.
  rewrite E, u16_small by (unfold in_u16; destruct (Z.odd f); cbn [Z.b2z] in *; lia).
  split; [by rewrite Z.odd_add, Z.odd_mul|].
  rewrite !Z.div2_div. Z.div_mod_to_equations; lia.
Qed.

Lemma flag_clear_up f :
  in_u16 f ->
  Z.odd (u16 (Z.land f (Z.lnot 1))) = false /\ Z.div2 (u16 (Z.land f (Z.lnot 1))) = Z.div2 f.
Proof.
  intros H. assert (Z.land f (Z.lnot 1) = 2 * Z.div2 f) as E.
  { rewrite <- Z.ldiff_land. change 1 with (Z.ones 1). rewrite Z.ldiff_ones_r by lia.
    rewrite Z.shiftr_div_pow2, Z.shiftl_mul_pow2, Z.div2_div by lia. change (2 ^ 1) with 2. apply Z.mul_comm. }
  pose proof (Z.div2_odd f). unfold in_u16 in H.
  rewrite E, u16_small by (unfold in_u16; destruct (Z.odd f); cbn [Z.b2z] in *; lia).
  split; [by rewrite Z.odd_mul|]. rewrite !Z.div2_div. Z.div_mod_to_equations; lia.
Qed.

(** ** Properties *)

Section DriverProperties.
Context {Mc : Machine}.

(** C34. Opening a device leaks no descriptor: when [ether_tap_open] or
    [ether_pcap_open] fails, at whatever system call, the descriptors open are
    those open before; when it succeeds, exactly one more is open, the one stored
    in the device. *)
Theorem ether_open_no_leak (d : dev_id) (s : stack) (dev : network_device) (p : ether_priv)
    (Hd : n_devs (st_net s) !! d = Some dev) (Hp : dev_priv dev = Some p)
    (Ha : length (dev_address dev) = 16%nat) :
  let post := fun r s' => (r = 0 \/ r = -1) /\
    exists dev' p', n_devs (st_net s') !! d = Some dev' /\ dev_priv dev' = Some p' /\
      open_fds s' = if r =? 0 then ep_fd p' :: open_fds s else open_fds s in
  wp (ether_tap_open d) s post /\ wp (ether_pcap_open d) s post.
Proof.
  intros post. split.
  - by apply (ether_open_wp false d s dev p).
  - by apply (ether_open_wp true d s dev p).
Qed.

(** The flags of a device other than UP, and its other configuration. *)
Definition dev_rest (dev : network_device) :=
  (dev_interfaces dev, dev_index dev, dev_name dev, dev_type dev, dev_mtu dev, Z.div2 (dev_flags dev),
   dev_header_len dev, dev_address_len dev, dev_broadcast dev, dev_ops dev).

Lemma driver_call_wp (o : device_ops) (opening : bool) d s dev (Q : bool -> stack -> Prop) :
  n_devs (st_net s) !! d = Some dev -> dev_wf dev -> dev_ops dev = Some o ->
  (forall b s', (exists dev', n_devs (st_net s') !! d = Some dev' /\ dev_config dev' = dev_config dev) -> Q b s') ->
  wp (match (if opening then drv_open o else drv_close o) with
      | Some f => let! r := f d in ret (r =? -1)
      | None => ret false
      end) s Q.
Proof.
  intros Hd (Ha & _ & _ & Ho) Eo H. rewrite Eo in Ho.
  assert (forall s', devs_config s' = devs_config s ->
    exists dev', n_devs (st_net s') !! d = Some dev' /\ dev_config dev' = dev_config dev) as Conf.
  { intros s' E. apply (f_equal (lookup d)) in E. unfold devs_config in E. rewrite !lookup_fmap, Hd in E.
    destruct (n_devs (st_net s') !! d) as [dev'|]; [|done].
    exists dev'. split; [done|]. exact (inj Some _ _ E). }
  assert (forall (m : C Z) P, Preserves devs_config m -> wp m s P ->
            wp (let! r := m in ret (r =? -1)) s Q) as Run.
  { intros m P Hm W. apply wp_bind. eapply wp_mono; [exact (wp_preserves _ _ _ _ Hm W)|].
    intros r s' [_ E]. apply wp_ret, H. by apply Conf. }
  assert (forall d a, Preserves devs_config (set_dev d (fun dev => with_address (a dev) dev))) as Fa
    by (intros; by apply set_dev_config).
  assert (forall d p, Preserves devs_config (set_dev d (with_priv p))) as Fp
    by (intros; by apply set_dev_config).
  assert (forall g s, devs_config (set_world g s) = devs_config s) as Fw by done.
  assert (forall p, dev_priv dev = Some p -> wp (sys_close (ep_fd p);; ret 0) s (fun _ _ => True)) as Wc.
  { intros p Hp. apply wp_bind, sys_close_wp. intros. by apply wp_ret. }
  destruct o; [by destruct opening; apply wp_ret, H; eauto|..]; destruct Ho as [_ [p Hp]];
    destruct opening; cbn [drv_open drv_close stack_drivers stack_open stack_close].
  - eapply Run; [by eapply ether_open_frame|]. by apply (ether_open_wp false d s dev p (fun _ _ => True)).
  - eapply Run; [by eapply ether_close_frame|]. unfold ether_tap_close. apply wp_bind.
    eapply wp_of_run; [by eapply dev_private_ok|]. by apply Wc.
  - eapply Run; [by eapply ether_open_frame|]. by apply (ether_open_wp true d s dev p (fun _ _ => True)).
  - eapply Run; [by eapply ether_close_frame|]. unfold ether_pcap_close. apply wp_bind.
    eapply wp_of_run; [by eapply dev_private_ok|]. by apply Wc.
Qed.

(** The life cycle of a device: opening or closing a well-formed device
    returns 0 or -1; a device that is already up (down) is refused with nothing
    changed; success sets (clears) the UP flag, failure leaves it; the other flags
    and the configuration of the device stay. *)
Theorem network_device_lifecycle (d : dev_id) (s : stack) (dev : network_device)
    (Hd : n_devs (st_net s) !! d = Some dev) (Hwf : dev_wf dev) :
  wp (network_device_open d) s (fun r s' => exists dev', n_devs (st_net s') !! d = Some dev' /\
    dev_rest dev' = dev_rest dev /\ (r = 0 \/ r = -1) /\
    (NETWORK_DEVICE_IS_UP dev = true -> r = -1 /\ s' = s) /\
    NETWORK_DEVICE_IS_UP dev' = NETWORK_DEVICE_IS_UP dev || (r =? 0)) /\
  wp (network_device_close d) s (fun r s' => exists dev', n_devs (st_net s') !! d = Some dev' /\
    dev_rest dev' = dev_rest dev /\ (r = 0 \/ r = -1) /\
    (NETWORK_DEVICE_IS_UP dev = false -> r = -1 /\ s' = s) /\
    NETWORK_DEVICE_IS_UP dev' = NETWORK_DEVICE_IS_UP dev && negb (r =? 0)).
Proof.
  pose proof Hwf as (_ & _ & Hf & Ho).
  destruct (dev_ops dev) as [o|] eqn:Eo; [|done]. clear Ho.
  split; [unfold network_device_open|unfold network_device_close]; apply wp_bind;
    (eapply wp_of_run; [by apply get_dev_ok|]); rewrite Eo.
  - destruct (NETWORK_DEVICE_IS_UP dev) eqn:Up.
    { apply wp_ret. exists dev. rewrite Up. split_and!; auto. }
    apply wp_bind, wp_ret, wp_bind, (driver_call_wp o true d s dev); try done.
    intros b s' (dev' & Hd' & Ec). unfold dev_config in Ec. injection Ec as E1 E2 E3 E4 E5 E6 E7 E8 E9 E10.
    destruct b.
    + apply wp_ret. exists dev'. rewrite is_up_odd, E6, <- is_up_odd, Up.
      unfold dev_rest. split_and!; auto; congruence.
    + apply wp_bind. eapply wp_of_run; [by apply set_dev_ok|]. apply wp_ret.
      eexists. simpl. rewrite lookup_insert_eq. split; [done|].
      rewrite is_up_odd. unfold dev_rest. simpl. rewrite E6. change NETWORK_DEVICE_FLAG_UP with 1.
      destruct (flag_set_up (dev_flags dev) Hf) as [-> ->]. split_and!; auto; congruence.
  - destruct (NETWORK_DEVICE_IS_UP dev) eqn:Up; cbn [negb].
    2:{ apply wp_ret. exists dev. rewrite Up. split_and!; auto. }
    apply wp_bind, wp_ret, wp_bind, (driver_call_wp o false d s dev); try done.
    intros b s' (dev' & Hd' & Ec). unfold dev_config in Ec. injection Ec as E1 E2 E3 E4 E5 E6 E7 E8 E9 E10.
    destruct b.
    + apply wp_ret. exists dev'. rewrite is_up_odd, E6, <- is_up_odd, Up.
      unfold dev_rest. split_and!; auto; congruence.
    + apply wp_bind. eapply wp_of_run; [by apply set_dev_ok|]. apply wp_ret.
      eexists. simpl. rewrite lookup_insert_eq. split; [done|].
      rewrite is_up_odd. unfold dev_rest. simpl. rewrite E6. change NETWORK_DEVICE_FLAG_UP with 1.
      destruct (flag_clear_up (dev_flags dev) Hf) as [-> ->]. split_and!; auto; congruence.
Qed.

(** An answer of the kernel that is true to its length: a positive result comes
    with at least that many bytes of data (which only reads look at). *)
Definition sys_sane (r : sysres) : Prop := r_ret r <= 0 \/ r_ret r <= Z.of_nat (length (r_data r)).

(** One frame: either read function of an Ethernet device, in a sane environment.
    The frame is dropped, or handed on: [r] is the answer of the read. *)
Lemma poll_helper_cases (pcap : bool) d s dev p (Q : Z -> stack -> Prop) :
  n_devs (st_net s) !! d = Some dev -> length (dev_address dev) = 16%nat -> dev_priv dev = Some p ->
  Forall sys_sane (w_sys (st_world s)) ->
  (forall w, w_sys w = tail (w_sys (st_world s)) -> Q (-1) (set_world (fun _ => w) s)) ->
  (forall w r t, w_sys w = tail (w_sys (st_world s)) -> r ∈ w_sys (st_world s) ->
     14 <= r_ret r <= Z.of_nat (length (r_data r)) -> rd16 (r_data r) 12 = Some t ->
     wp (network_input_handler (ntoh16 t) (drop 14 (r_data r)) (r_ret r - 14) d) (set_world (fun _ => w) s) Q) ->
  wp (ether_poll_helper d (if pcap then ether_pcap_read else ether_tap_read)) s Q.
Proof.
  intros Hd Ha Hp Hs HN HF. unfold ether_poll_helper. change ETHER_HDR_SIZE with 14. change ETHER_ADDR_LEN with 6%nat.
  apply wp_bind. destruct pcap; unfold ether_pcap_read, ether_tap_read; apply wp_bind;
    (eapply wp_of_run; [by eapply dev_private_ok|]); apply wp_bind, syscall_wp;
    intros r w _ Hsys _ _ _ Hr; (destruct (Z.leb_spec (r_ret r) 0); wp_step; cbn iota; [by apply wp_ret, HN|]);
    (destruct (w_sys (st_world s)) as [|r0 rest]; [subst r; simpl in *; lia|]); subst r0;
    apply Forall_cons in Hs as [[?|?] _]; try lia;
    (destruct (Z.ltb_spec (r_ret r) 14); [by apply wp_ret, HN|]);
    (apply wp_bind; eapply wp_of_run; [by apply get_dev_ok|]); rewrite !rdn_in by lia; wp_steps;
    (case_match; [by apply wp_ret, HN|]); (destruct (rd16_in (r_data r) 12) as [t Et]; [lia|]); rewrite Et; wp_steps;
    (apply HF; [done|by left|lia|done]).
Qed.

Lemma poll_helper_wp (pcap : bool) d s dev p :
  n_devs (st_net s) !! d = Some dev -> length (dev_address dev) = 16%nat -> dev_priv dev = Some p ->
  Forall sys_sane (w_sys (st_world s)) ->
  wp (ether_poll_helper d (if pcap then ether_pcap_read else ether_tap_read)) s (fun _ s' =>
    n_devs (st_net s') = n_devs (st_net s) /\ w_sys (st_world s') = tail (w_sys (st_world s))).
Proof.
  intros Hd Ha Hp Hs. eapply poll_helper_cases; [done|done|done|done|done|]. intros w r t Hw _ Hlen _.
  eapply wp_mono; [apply (wp_preserves (fun s => (n_devs (st_net s), w_sys (st_world s))));
    [|apply network_input_safe; rewrite length_drop; lia]|].
  - intros u a u' E. rewrite (network_input_devs _ _ _ _ _ _ _ E), (network_input_sys _ _ _ _ _ _ _ E). done.
  - intros a s' [_ [= E1 E2]]. by rewrite E1, E2.
Qed.

(** The polling loop, with an invariant that taking an answer and a frame keep. *)
Lemma isr_loop_wp (I : stack -> Prop) (pcap : bool) fuel d fd s :
  (forall s w, I s -> w_sys w = tail (w_sys (st_world s)) -> I (set_world (fun _ => w) s)) ->
  (forall s, I s -> wp (ether_poll_helper d (if pcap then ether_pcap_read else ether_tap_read)) s
     (fun _ s' => I s' /\ w_sys (st_world s') = tail (w_sys (st_world s)))) ->
  I s -> (length (w_sys (st_world s)) < fuel)%nat ->
  wp (isr_loop fuel d fd (if pcap then ether_pcap_read else ether_tap_read)) s
    (fun r s' => (r = Some 0 \/ r = Some (-1)) /\ I s').
Proof.
  intros Hw Hpoll. revert s. induction fuel as [|fuel IH]; intros s Hi Hf; [lia|].
  cbn [isr_loop]. apply wp_bind, syscall_wp. intros r w _ Hsys _ _ _ Hr.
  assert (I (set_world (fun _ => w) s)) as Hi' by by apply Hw.
  assert (r_ret r <> 0 -> (length (w_sys w) < fuel)%nat) as Hf'.
  { intros Hne. rewrite Hsys. destruct (w_sys (st_world s)); [by subst r|]. simpl in *. lia. }
  destruct (r_ret r =? -1) eqn:E1; [destruct (r_errno r =? EINTR)|destruct (r_ret r =? 0) eqn:E0].
  - apply IH; [done|apply Hf'; lia].
  - apply wp_ret. auto.
  - apply wp_ret. auto.
  - apply wp_bind. eapply wp_mono; [by apply Hpoll|]. simpl. intros _ s' [N S].
    apply IH; [done|]. rewrite S. specialize (Hf' ltac:(lia)). destruct (w_sys w); simpl in *; lia.
Qed.

(** C35. The interrupt service routines end: with answers of the kernel that are
    true to their lengths, one round more than there are answers is enough fuel
    for the polling loop of [ether_tap_isr] and [ether_pcap_isr] to return, without
    touching memory outside the frame; and the devices are as before. *)
Theorem ether_isr_terminates (fuel : nat) (irq : Z) (d : dev_id) (s : stack) (dev : network_device)
    (p : ether_priv)
    (Hd : n_devs (st_net s) !! d = Some dev) (Ha : length (dev_address dev) = 16%nat)
    (Hp : dev_priv dev = Some p) (Hs : Forall sys_sane (w_sys (st_world s)))
    (Hf : (length (w_sys (st_world s)) < fuel)%nat) :
  let post := fun (r : option Z) s' => (r = Some 0 \/ r = Some (-1)) /\ n_devs (st_net s') = n_devs (st_net s) in
  wp (ether_tap_isr fuel irq d) s post /\ wp (ether_pcap_isr fuel irq d) s post.
Proof.
  intros post.
  enough (forall b : bool, wp (isr_loop fuel d (ep_fd p) (if b then ether_pcap_read else ether_tap_read)) s post) as W.
  { split; [unfold ether_tap_isr|unfold ether_pcap_isr]; apply wp_bind;
      (eapply wp_of_run; [by eapply dev_private_ok|]); [apply (W false)|apply (W true)]. }
  intros b. unfold post. clear post. eapply wp_mono.
  - apply (isr_loop_wp (fun s' => n_devs (st_net s') = n_devs (st_net s) /\ Forall sys_sane (w_sys (st_world s')))); [..|done].
    + intros s1 w [E F] Hw. split; [done|]. simpl. rewrite Hw. by apply Forall_tail.
    + intros s1 [E F]. eapply wp_mono; [by eapply (poll_helper_wp b); rewrite ?E|]. intros _ s2 [E2 S2].
      rewrite E2, S2. split_and!; [done|by apply Forall_tail|done].
    + done.
  - by intros r s' [? [? _]].
Qed.

(** [network_device_output] on a well-formed device is memory safe and
    guarded: a device that is down, or a packet longer than the MTU, is refused
    with the state unchanged; otherwise an Ethernet device writes exactly one
    frame (destination, its own address, the type in network order, the payload,
    zero padding to the minimum size) of 60 to 1514 bytes, and the call returns 0
    exactly when the whole frame was written. *)
Theorem network_device_output_safe (d : dev_id) (ty : Z) (data : list Z) (len : Z) (dst : list Z)
    (s : stack) (dev : network_device) (p : ether_priv)
    (Hd : n_devs (st_net s) !! d = Some dev) (Hwf : dev_wf dev)
    (Hne : dev_ops dev <> Some loopback_ops) (Hp : dev_priv dev = Some p)
    (Hdst : (6 <= length dst)%nat) (Hty : in_u16 ty)
    (Hlen : 0 <= len) (Hdata : (Z.to_nat len <= length data)%nat) :
  wp (network_device_output d ty data len dst) s (fun r s' =>
    if NETWORK_DEVICE_IS_UP dev && (len <=? dev_mtu dev) then
      let frame := ether_frame (take 6 dst) (take 6 (dev_address dev)) ty (take (Z.to_nat len) data) in
      60 <= Z.of_nat (length frame) <= 1514 /\ transmitted (ep_fd p) frame s r s'
    else r = -1 /\ s' = s).
Proof.
  destruct (NETWORK_DEVICE_IS_UP dev && (len <=? dev_mtu dev)) eqn:G.
  - apply andb_prop in G as [Hup Hm]. eapply wp_mono; [apply (network_device_output_ether d ty data len dst s dev p); try done; lia|].
    intros r s' T. cbv zeta. split; [|done].
    destruct Hwf as (Ha & _ & _ & Ho). unfold ether_frame.
    assert (dev_mtu dev <= 1500) by (destruct (dev_ops dev) as [[]|]; [done|apply Ho..|done]).
    rewrite !length_app, length_replicate, !length_take, Ha. cbn [length]. lia.
  - unfold network_device_output. apply wp_bind. eapply wp_of_run; [by apply get_dev_ok|].
    destruct (NETWORK_DEVICE_IS_UP dev); cbn [negb andb] in *; [|by apply wp_ret].
    replace (len >? dev_mtu dev) with true by lia. by apply wp_ret.
Qed.

Lemma rd16_be b0 b1 (pre post : list Z) off :
  in_u8 b0 -> in_u8 b1 -> off = length pre ->
  exists v, rd16 (pre ++ [b0; b1] ++ post) off = Some v /\ ntoh16 v = 256 * b0 + b1.
Proof.
  intros H0 H1 ->. unfold rd16. rewrite drop_app_length. simpl. eexists; split; [done|].
  by apply load16_ntoh16.
Qed.

(** A frame that comes in, read whole. *)
Lemma ether_poll_frame (dst src : list Z) (ty : Z) (payload : list Z) (d : dev_id) read (s s' : stack)
    (dev : network_device) :
  n_devs (st_net s') !! d = Some dev -> length (dev_address dev) = 16%nat ->
  length dst = 6%nat -> length src = 6%nat -> in_u16 ty ->
  let frame := ether_frame dst src ty payload in
  read d ETHER_FRAME_SIZE_MAX s = Ret (Z.of_nat (length frame), frame) s' ->
  ether_poll_helper d read s =
  (if bool_decide (take 6 (dev_address dev) = dst) || bool_decide (ETHER_ADDR_BROADCAST = dst) then
     network_input_handler ty (payload ++ replicate (46 - length payload) 0)
       (Z.max 46 (Z.of_nat (length payload))) d s'
   else Ret (-1) s').
Proof.
  intros Hd Ha Hdst Hsrc Hty frame Hr.
  assert (length frame = 14 + (length payload + (46 - length payload)))%nat as L.
  { unfold frame, ether_frame. rewrite !length_app, length_replicate, Hdst, Hsrc. done. }
  unfold ether_poll_helper. erewrite bind_ret by exact Hr. cbv beta iota.
  change ETHER_HDR_SIZE with 14. change ETHER_ADDR_LEN with 6%nat.
  replace (Z.of_nat (length frame) <? 14) with false by lia.
  erewrite bind_ret by by apply get_dev_ok.
  rewrite (rdn_in (dev_address dev)), drop_0 by lia. cbn [opt]. erewrite bind_ret by reflexivity.
  assert (rdn frame 0 6 = Some dst) as ->.
  { unfold frame, ether_frame. by apply (rdn_app_mid [] dst). }
  erewrite bind_ret by reflexivity.
  case_bool_decide as E1; case_bool_decide as E2; cbn [negb andb orb]; [..|done];
  ( destruct (rd16_be (ty / 256) (ty mod 256) (dst ++ src) (payload ++ replicate (46 - length payload) 0) 12)
      as (v & Ev & Env);
      [unfold in_u16, in_u8 in *; Z.div_mod_to_equations; lia
      |unfold in_u16, in_u8 in *; Z.div_mod_to_equations; lia
      |by rewrite length_app, Hdst, Hsrc|];
    replace (rd16 frame 12) with (Some v) by (unfold frame, ether_frame; by rewrite app_assoc);
    erewrite bind_ret by reflexivity; rewrite Env;
    replace (256 * (ty / 256) + ty mod 256) with ty by (Z.div_mod_to_equations; lia);
    replace (drop 14 frame) with (payload ++ replicate (46 - length payload) 0)
      by (replace frame with ((dst ++ src ++ [ty / 256; ty mod 256]) ++ payload ++ replicate (46 - length payload) 0)
            by (unfold frame, ether_frame; by rewrite <- !app_assoc);
          rewrite drop_app_length'; [done|by rewrite !length_app, Hdst, Hsrc]);
    f_equal; lia).
Qed.

(** C33. What one station transmits another receives.  [ether_transmit_helper] builds
    one frame, of a legal length, and gives it to the driver.  [ether_poll_helper] of
    any device whose driver reads that frame passes it on to [network_input_handler],
    with the type and the payload (zero padded to 46 bytes) that were transmitted, when
    the destination is the device's address or the broadcast address, and drops it,
    with the state as the driver left it, otherwise. *)
Theorem ether_wire_roundtrip (sA sB sB' : stack) (dA dB : dev_id) (devA devB : network_device) (ty : Z) (data : list Z) (len : Z)
    (dst : list Z) (HA : n_devs (st_net sA) !! dA = Some devA) (WA : dev_wf devA)
    (HB : n_devs (st_net sB') !! dB = Some devB) (WB : dev_wf devB)
    (Hdst : (6 <= length dst)%nat) (Hty : in_u16 ty) (Hlen : 0 <= len <= ETHER_PAYLOAD_SIZE_MAX) (Hdata : len <= Z.of_nat (length data)) :
  exists frame,
    (forall write, ether_transmit_helper dA ty data len dst write sA
       = bind (write dA frame (Z.of_nat (length frame))) (fun r => ret (if r =? Z.of_nat (length frame) then 0 else -1)) sA) /\
    ETHER_FRAME_SIZE_MIN <= Z.of_nat (length frame) <= ETHER_FRAME_SIZE_MAX /\
    (forall read, read dB ETHER_FRAME_SIZE_MAX sB = Ret (Z.of_nat (length frame), frame) sB' ->
       ether_poll_helper dB read sB =
       if bool_decide (take 6 (dev_address devB) = take 6 dst) || bool_decide (ETHER_ADDR_BROADCAST = take 6 dst) then
         network_input_handler ty (take (Z.to_nat len) data ++ replicate (46 - Z.to_nat len) 0) (Z.max 46 len) dB sB'
       else Ret (-1) sB').
Proof.
  destruct WA as [LA _], WB as [LB _]. unfold ETHER_PAYLOAD_SIZE_MAX, ETHER_FRAME_SIZE_MAX, ETHER_HDR_SIZE in Hlen.
  set (payload := take (Z.to_nat len) data). assert (length payload = Z.to_nat len) as Lp by (unfold payload; rewrite length_take; lia).
  exists (ether_frame (take 6 dst) (take 6 (dev_address devA)) ty payload). split_and!.
  - intros write. apply (ether_transmit_run _ _ _ _ _ _ _ _ HA); try done; lia.
  - unfold ether_frame, ETHER_FRAME_SIZE_MIN. rewrite !length_app, length_replicate, !length_take, Lp. cbn [length]. lia.
  - unfold ether_frame, ETHER_FRAME_SIZE_MAX. rewrite !length_app, length_replicate, !length_take, Lp. cbn [length]. lia.
  - intros read Hr. rewrite (ether_poll_frame (take 6 dst) (take 6 (dev_address devA)) ty payload dB read sB sB' devB);
      try done; [|rewrite length_take; lia..]. rewrite Lp, Z2Nat.id by lia. done.
Qed.

End DriverProperties.

(** ** Concrete hosts *)

(** An open TAP device with hardware address [mac], and a host with one interface
    on it. *)
Definition sample_dev (mac : list Z) : network_device :=
  NetworkDevice [1%nat] 0 "net0" NETWORK_DEVICE_TYPE_ETHERNET 1500 0x0121 14 6
    (mac ++ replicate 10 0) (ETHER_ADDR_BROADCAST ++ replicate 10 0)
    (Some ether_tap_ops) (Some (EtherPriv "tap0" 3 ETHER_TAP_IRQ)).

Definition sample_iface (addr mask bcast : Z) : ip_interface :=
  IpInterface (Some 1%nat) NETWORK_INTERFACE_FAMILY_IP addr mask bcast.

Definition sample_host (mac : list Z) (addr mask bcast : Z) : stack :=
  set_net (fun n => NetState {[1%nat := sample_dev mac]} {[1%nat := sample_iface addr mask bcast]}
                      1 [1%nat] (n_protocols n) [] []) sample_protocols.

Lemma sample_dev_wf mac : length mac = 6%nat -> dev_wf (sample_dev mac).
Proof.
  intros H. unfold dev_wf, sample_dev, in_u16, ETHER_PAYLOAD_SIZE_MAX, ETHER_FRAME_SIZE_MAX, ETHER_HDR_SIZE.
  simpl. rewrite length_app, H. split_and!; try done; lia.
Qed.

(** The same host when the next system calls are answered by [answers]. *)
Definition sample_answers (answers : list sysres) (s : stack) : stack :=
  set_world (fun w => World (w_alloc w) (w_clock w) answers (w_trace w) (w_pending w) (w_errno w)) s.

Definition sample_mac : list Z := [2; 0; 0; 0; 0; 1].
Definition sample_state : stack := sample_host sample_mac 0 0 0.

Section DriverWitnesses.
#[local] Existing Instance little_endian_machine.

(** The descriptor is opened, the first configuration call fails. *)
Lemma ether_open_no_leak_witness :
  wp (ether_tap_open 1%nat) (sample_answers [SysRes 5 0 []; SysRes (-1) 13 []] sample_state)
    (fun r s' => r = -1 -> open_fds s' = []).
Proof.
  eapply wp_mono.
  - apply (ether_open_no_leak 1%nat (sample_answers [SysRes 5 0 []; SysRes (-1) 13 []] sample_state)
      (sample_dev sample_mac) (EtherPriv "tap0" 3 ETHER_TAP_IRQ)); reflexivity.
  - intros r s' [_ (dev' & p' & _ & _ & E)] ->. exact E.
Defined.

Lemma network_device_lifecycle_witness :
  wp (network_device_close 1%nat) sample_state (fun r s' =>
    exists dev', n_devs (st_net s') !! 1%nat = Some dev' /\
      dev_rest dev' = dev_rest (sample_dev sample_mac) /\
      NETWORK_DEVICE_IS_UP dev' = negb (r =? 0)).
Proof.
  eapply wp_mono.
  - apply (network_device_lifecycle 1%nat sample_state (sample_dev sample_mac));
      [reflexivity|by apply sample_dev_wf].
  - intros r s' (dev' & Hd & Hr & _ & _ & Hu). by exists dev'.
Defined.

(** One frame is waiting, then the poll says that there is no more. *)
Definition sample_poll : list sysres := [SysRes 1 0 [0]; SysRes 60 0 (replicate 60 0); SysRes 0 0 []].

Lemma ether_isr_terminates_witness :
  wp (ether_tap_isr 4 ETHER_TAP_IRQ 1%nat) (sample_answers sample_poll sample_state)
    (fun r _ => r = Some 0 \/ r = Some (-1)).
Proof.
  eapply wp_mono.
  - apply (ether_isr_terminates 4 ETHER_TAP_IRQ 1%nat (sample_answers sample_poll sample_state)
      (sample_dev sample_mac) (EtherPriv "tap0" 3 ETHER_TAP_IRQ)); try reflexivity.
    + change (Forall sys_sane sample_poll). unfold sample_poll, sys_sane.
      rewrite !Forall_cons. split_and!; [right; simpl; lia|right; simpl; lia|left; simpl; lia|by apply Forall_nil].
    + simpl. lia.
  - by intros r s' [? _].
Defined.

Lemma network_device_output_safe_witness :
  wp (network_device_output 1%nat ETHER_TYPE_IP [1; 2; 3] 3 ETHER_ADDR_BROADCAST) sample_state (fun r s' =>
    transmitted 3 (ETHER_ADDR_BROADCAST ++ sample_mac ++ [8; 0] ++ [1; 2; 3] ++ replicate 43 0) sample_state r s').
Proof.
  eapply wp_mono.
  - apply (network_device_output_safe 1%nat ETHER_TYPE_IP [1; 2; 3] 3 ETHER_ADDR_BROADCAST sample_state
      (sample_dev sample_mac) (EtherPriv "tap0" 3 ETHER_TAP_IRQ));
      [reflexivity|by apply sample_dev_wf|done|reflexivity|simpl; lia|unfold in_u16, ETHER_TYPE_IP; lia|lia|simpl; lia].
  - intros r s' [_ T]. exact T.
Defined.

Lemma ether_wire_roundtrip_witness :
  exists frame,
    ether_transmit_helper 1%nat ETHER_TYPE_IP [1; 2; 3] 3 sample_mac (fun _ _ n => ret n) sample_state = Ret 0 sample_state /\
    ether_poll_helper 1%nat (fun _ _ => ret (Z.of_nat (length frame), frame)) sample_state
    = network_input_handler ETHER_TYPE_IP ([1; 2; 3] ++ replicate 43 0) 46 1%nat sample_state.
Proof.
  destruct (ether_wire_roundtrip sample_state sample_state sample_state 1%nat 1%nat (sample_dev sample_mac) (sample_dev sample_mac)
    ETHER_TYPE_IP [1; 2; 3] 3 sample_mac) as (frame & Ht & _ & Hp);
    first [by apply sample_dev_wf | reflexivity | by apply (bool_decide_unpack _) | idtac].
  exists frame. split; [rewrite Ht; unfold bind; simpl; by rewrite Z.eqb_refl|]. by rewrite Hp.
Defined.

End DriverWitnesses.
