(* ===== verification/Arp.v ===== *)
(** * Address resolution (src/lib/arp.c, arp.h)

    The cache of [ARP_CACHE_SIZE] entries and its operations, the messages, and
    the handlers [arp_input], [arp_resolve] and [arp_timer]. *)

From stdpp Require Import base numbers list option gmap strings.
From Stdlib Require Import ZArith Lia.
From S2P Require Import Prelude Util CLib Queue State Net Ether Drivers.
Open Scope Z_scope.
Open Scope cmonad_scope.

Definition ARP_HRD_ETHER : Z := 0x0001.
Definition ARP_PRO_IP : Z := ETHER_TYPE_IP.
Definition ARP_OP_REQUEST : Z := 0x0001.
Definition ARP_OP_REPLY : Z := 0x0002.
Definition ARP_CACHE_TIMEOUT : Z := 30.
Definition IP_ADDRESS_LENGTH : nat := 4.
Definition ARP_RESOLVE_ERROR : Z := -1.
Definition ARP_RESOLVE_INCOMPLETE : Z := 0.
Definition ARP_RESOLVE_FOUND : Z := 1.

(** [sizeof(struct arp_ether)] *)
Definition arp_ether_size : nat := 28.

(** ** The cache *)

Definition is_free (e : arp_cache) : bool := bool_decide (ac_state e = ARP_CACHE_STATE_FREE).

(** The loop of [arp_cache_alloc] from entry [i] on: the first free entry, or the
    one with the oldest time. *)
Fixpoint arp_cache_alloc_loop (entries : list arp_cache) (i : nat) (oldest : option (nat * arp_cache)) :
    option nat :=
  match entries with
  | [] => match oldest with Some (j, _) => Some j | None => None end
  | e :: rest =>
      if is_free e then Some i
      else
        let oldest :=
          match oldest with
          | None => Some (i, e)
          | Some (j, o) => if timercmp_gt (ac_timestamp o) (ac_timestamp e) then Some (i, e) else oldest
          end in
        arp_cache_alloc_loop rest (S i) oldest
  end.

Definition arp_cache_alloc (caches : list arp_cache) : option nat := arp_cache_alloc_loop caches 0 None.

Fixpoint arp_cache_select_loop (entries : list arp_cache) (i : nat) (pa : Z) : option nat :=
  match entries with
  | [] => None
  | e :: rest => if negb (is_free e) && (ac_pa e =? pa) then Some i else arp_cache_select_loop rest (S i) pa
  end.

Definition arp_cache_select (caches : list arp_cache) (pa : Z) : option nat :=
  arp_cache_select_loop caches 0 pa.

Definition set_cache (i : nat) (f : arp_cache -> arp_cache) : C unit := modify (set_arp (alter f i)).

Definition arp_cache_update (pa : Z) (ha : list Z) : C (option nat) :=
  let! caches := gets st_arp in
  match arp_cache_select caches pa with
  | None => ret None
  | Some i =>
      let! h := opt OutOfBounds (rdn ha 0 ETHER_ADDR_LEN) in
      set_cache i (fun e => ArpCache ARP_CACHE_STATE_RESOLVED (ac_pa e) h (ac_timestamp e));;
      let! now := gettimeofday in
      set_cache i (fun e => ArpCache (ac_state e) (ac_pa e) (ac_ha e) now);;
      ret (Some i)
  end.

Definition arp_cache_insert (pa : Z) (ha : list Z) : C (option nat) :=
  let! caches := gets st_arp in
  match arp_cache_alloc caches with
  | None => ret None
  | Some i =>
      let! h := opt OutOfBounds (rdn ha 0 ETHER_ADDR_LEN) in
      set_cache i (fun e => ArpCache ARP_CACHE_STATE_RESOLVED pa h (ac_timestamp e));;
      let! now := gettimeofday in
      set_cache i (fun e => ArpCache (ac_state e) (ac_pa e) (ac_ha e) now);;
      ret (Some i)
  end.

Definition arp_cache_delete (e : arp_cache) : arp_cache :=
  ArpCache ARP_CACHE_STATE_FREE 0 (replicate ETHER_ADDR_LEN 0) (Timeval 0 0).

(** ** Messages *)

Section Arp.
Context {Mc : Machine}.

Definition arp_opcode_ntoa (opcode : Z) : string :=
  if ntoh16 opcode =? ARP_OP_REQUEST then "Request"
  else if ntoh16 opcode =? ARP_OP_REPLY then "Reply"
  else "Unknown".

(** The bytes of a [struct arp_ether] filled in as [arp_request] and [arp_reply] do. *)
Definition arp_message (op : Z) (sha : list Z) (spa : Z) (tha : list Z) (tpa : Z) : list Z :=
  store16 (hton16 ARP_HRD_ETHER) ++ store16 (hton16 ARP_PRO_IP) ++
  [Z.of_nat ETHER_ADDR_LEN; Z.of_nat IP_ADDRESS_LENGTH] ++ store16 (hton16 op) ++
  sha ++ store32 spa ++ tha ++ store32 tpa.

Definition arp_request (iface : iface_id) (tpa : Z) : C Z :=
  let! f := get_iface iface in
  let! d := iface_dev iface in
  let! dev := get_dev d in
  let! sha := opt OutOfBounds (rdn (dev_address dev) 0 ETHER_ADDR_LEN) in
  let request := arp_message ARP_OP_REQUEST sha (if_unicast f) (replicate ETHER_ADDR_LEN 0) tpa in
  network_device_output d ETHER_TYPE_ARP request (Z.of_nat arp_ether_size) (dev_broadcast dev).

Definition arp_reply (iface : iface_id) (tha : list Z) (tpa : Z) (dst : list Z) : C Z :=
  let! f := get_iface iface in
  let! d := iface_dev iface in
  let! dev := get_dev d in
  let! sha := opt OutOfBounds (rdn (dev_address dev) 0 ETHER_ADDR_LEN) in
  let! tha := opt OutOfBounds (rdn tha 0 ETHER_ADDR_LEN) in
  let reply := arp_message ARP_OP_REPLY sha (if_unicast f) tha tpa in
  network_device_output d ETHER_TYPE_ARP reply (Z.of_nat arp_ether_size) dst.

(** ** Handlers *)

(** The two critical sections of [arp_input], between which another thread can run. *)
Definition arp_input_update (spa : Z) (sha : list Z) : C bool :=
  mutex_lock arp_mutex;;
  let! updated := arp_cache_update spa sha in
  mutex_unlock arp_mutex;;
  ret (bool_decide (is_Some updated)).

Definition arp_input_insert (spa : Z) (sha : list Z) : C unit :=
  mutex_lock arp_mutex;;
  arp_cache_insert spa sha;;
  mutex_unlock arp_mutex.

(** The part of [arp_input] after the checks of the header. *)
Definition arp_input_merge (data : list Z) (d : dev_id) : C unit :=
  let sha := drop 8 data in
  let! spa := opt OutOfBounds (rd32 data 14) in
  let! tpa := opt OutOfBounds (rd32 data 24) in
  let! merge := arp_input_update spa sha in
  let! iface := network_device_get_interface d NETWORK_INTERFACE_FAMILY_IP in
  match iface with
  | None => ret tt
  | Some i =>
      let! f := get_iface i in
      if if_unicast f =? tpa then
        (if (merge : bool) then ret tt else arp_input_insert spa sha);;
        let! op := opt OutOfBounds (rd16 data 6) in
        if ntoh16 op =? ARP_OP_REQUEST then arp_reply i sha spa sha;; ret tt else ret tt
      else ret tt
  end.

Definition arp_input (data : list Z) (len : Z) (d : dev_id) : C unit :=
  if len <? Z.of_nat arp_ether_size then ret tt
  else
    let! hrd := opt OutOfBounds (rd16 data 0) in
    let! hln := opt OutOfBounds (rd8 data 4) in
    if negb (ntoh16 hrd =? ARP_HRD_ETHER) || negb (hln =? Z.of_nat ETHER_ADDR_LEN) then ret tt
    else
      let! pro := opt OutOfBounds (rd16 data 2) in
      let! pln := opt OutOfBounds (rd8 data 5) in
      if negb (ntoh16 pro =? ARP_PRO_IP) || negb (pln =? Z.of_nat IP_ADDRESS_LENGTH) then ret tt
      else arp_input_merge data d.

(** [arp_resolve(iface, pa, ha)]: the result and the buffer [ha] afterwards. *)
Definition arp_resolve (iface : iface_id) (pa : Z) (ha : list Z) : C (Z * list Z) :=
  let! f := get_iface iface in
  let! d := iface_dev iface in
  let! dev := get_dev d in
  if negb (dev_type dev =? NETWORK_DEVICE_TYPE_ETHERNET) then ret (ARP_RESOLVE_ERROR, ha)
  else if negb (if_family f =? NETWORK_INTERFACE_FAMILY_IP) then ret (ARP_RESOLVE_ERROR, ha)
  else
    mutex_lock arp_mutex;;
    let! caches := gets st_arp in
    match arp_cache_select caches pa with
    | None =>
        match arp_cache_alloc caches with
        | None => mutex_unlock arp_mutex;; ret (ARP_RESOLVE_ERROR, ha)
        | Some i =>
            set_cache i (fun e => ArpCache ARP_CACHE_STATE_INCOMPLETE pa (ac_ha e) (ac_timestamp e));;
            let! now := gettimeofday in
            set_cache i (fun e => ArpCache (ac_state e) (ac_pa e) (ac_ha e) now);;
            arp_request iface pa;;
            mutex_unlock arp_mutex;;
            ret (ARP_RESOLVE_INCOMPLETE, ha)
        end
    | Some i =>
        let! e := opt NullDeref (caches !! i) in
        if bool_decide (ac_state e = ARP_CACHE_STATE_INCOMPLETE) then
          arp_request iface pa;;
          mutex_unlock arp_mutex;;
          ret (ARP_RESOLVE_INCOMPLETE, ha)
        else
          let! h := opt OutOfBounds (rdn (ac_ha e) 0 ETHER_ADDR_LEN) in
          mutex_unlock arp_mutex;;
          ret (ARP_RESOLVE_FOUND, h ++ drop ETHER_ADDR_LEN ha)
    end.

End Arp.

(** What the timer does to one entry at time [now]. *)
Definition arp_timer_entry (now : timeval) (e : arp_cache) : arp_cache :=
  if negb (is_free e) && negb (bool_decide (ac_state e = ARP_CACHE_STATE_STATIC)) then
    if tv_sec (timersub now (ac_timestamp e)) >? ARP_CACHE_TIMEOUT then arp_cache_delete e else e
  else e.

Definition arp_timer : C unit :=
  mutex_lock arp_mutex;;
  let! now := gettimeofday in
  modify (set_arp (map (arp_timer_entry now)));;
  mutex_unlock arp_mutex.

Definition arp_init : C Z :=
  let! r := network_protocol_register "ARP" NETWORK_PROTOCOL_TYPE_ARP fn_arp_input in
  if r =? -1 then ret (-1)
  else
    let! r := network_timer_register "ARP Timer" (Timeval 1 0) fn_arp_timer in
    if r =? -1 then ret (-1) else ret 0.

(** ** Lemmas: the cache as a table *)

(** The cache is a table of at most one entry per protocol address. *)
Definition cache_unique (caches : list arp_cache) : Prop :=
  forall i j e e', caches !! i = Some e -> caches !! j = Some e' ->
    is_free e = false -> is_free e' = false -> ac_pa e = ac_pa e' -> i = j.

Definition cache_wf (caches : list arp_cache) : Prop :=
  length caches = ARP_CACHE_SIZE /\ Forall (fun e => length (ac_ha e) = 6%nat) caches /\ cache_unique caches.

(** What the cache knows about an address. *)
Definition cache_lookup (caches : list arp_cache) (pa : Z) : option arp_cache :=
  match arp_cache_select caches pa with Some i => caches !! i | None => None end.

Lemma select_loop_Some l k pa i :
  arp_cache_select_loop l k pa = Some i ->
  exists j e, i = (k + j)%nat /\ l !! j = Some e /\ is_free e = false /\ ac_pa e = pa.
Proof.
  revert k. induction l as [|e l IH]; intros k; simpl; [done|].
  destruct (negb (is_free e) && (ac_pa e =? pa)) eqn:E.
  - intros [= <-]. apply andb_prop in E as [E1 E2]. exists 0%nat, e. split_and!; [lia|done| |lia].
    by destruct (is_free e).
  - intros (j & e' & -> & Hj & ?)%IH. exists (S j), e'. split_and!; [lia|done|tauto..].
Qed.

Lemma select_loop_None l k pa :
  arp_cache_select_loop l k pa = None ->
  forall j e, l !! j = Some e -> is_free e = false -> ac_pa e <> pa.
Proof.
  revert k. induction l as [|e l IH]; intros k; simpl; [done|].
  destruct (negb (is_free e) && (ac_pa e =? pa)) eqn:E; [done|].
  intros H [|j] e'; simpl; [|by eapply IH].
  intros [= <-] Hf Hp. rewrite Hf in E. simpl in E. lia.
Qed.

Lemma select_Some l pa i :
  arp_cache_select l pa = Some i -> exists e, l !! i = Some e /\ is_free e = false /\ ac_pa e = pa.
Proof. intros (j & e & -> & ?)%select_loop_Some. eauto. Qed.

Lemma select_None l pa j e :
  arp_cache_select l pa = None -> l !! j = Some e -> is_free e = false -> ac_pa e <> pa.
Proof. intros H. by eapply select_loop_None. Qed.

(** In a table with unique addresses, the lookup finds exactly the entries in use. *)
Lemma cache_lookup_spec l pa e :
  cache_unique l ->
  cache_lookup l pa = Some e <-> exists i, l !! i = Some e /\ is_free e = false /\ ac_pa e = pa.
Proof.
  intros U. unfold cache_lookup. destruct (arp_cache_select l pa) as [k|] eqn:E.
  - apply select_Some in E as (e' & Hk & Hf & Hp). split; [intros; simplify_eq; eauto|].
    intros (i & Hi & Hf' & Hp'). rewrite Hk. f_equal.
    assert (k = i) by (eapply U; eauto; congruence). congruence.
  - split; [done|]. intros (i & Hi & Hf & Hp). by destruct (select_None _ _ _ _ E Hi Hf).
Qed.

Lemma cache_lookup_None l pa :
  cache_lookup l pa = None <-> arp_cache_select l pa = None.
Proof.
  unfold cache_lookup. destruct (arp_cache_select l pa) eqn:E; [|done].
  apply select_Some in E as (e & -> & _). done.
Qed.

Lemma alloc_loop_spec l k oldest :
  (l <> [] \/ oldest <> None) ->
  exists i, arp_cache_alloc_loop l k oldest = Some i /\
  ((exists j e, i = (k + j)%nat /\ l !! j = Some e /\ is_free e = true) \/
   (Forall (fun e => is_free e = false) l /\
    exists e, ((exists j, i = (k + j)%nat /\ l !! j = Some e) \/ oldest = Some (i, e)) /\
      (Forall (fun e => timeval_ok (ac_timestamp e)) l ->
       (forall j o, oldest = Some (j, o) -> timeval_ok (ac_timestamp o)) ->
       Forall (fun e' => usecs (ac_timestamp e) <= usecs (ac_timestamp e')) l /\
       forall j o, oldest = Some (j, o) -> usecs (ac_timestamp e) <= usecs (ac_timestamp o)))).
Proof.
  revert k oldest. induction l as [|e l IH]; intros k oldest Hne; simpl.
  - destruct oldest as [[j o]|]; [|naive_solver]. exists j. split; [done|]. right. split; [done|].
    exists o. split; [by right|]. intros _ _. split; [done|]. intros ? ? [= -> ->]. done.
  - destruct (is_free e) eqn:Ef.
    { exists k. split; [done|]. left. exists 0%nat, e. split_and!; [lia|done..]. }
    set (old' := match oldest with None => _ | Some _ => _ end).
    assert (exists j o, old' = Some (j, o) /\ (Some (j, o) = oldest \/ (j, o) = (k, e))) as (j & o & E & Hsrc).
    { unfold old'. destruct oldest as [[j o]|]; [|eauto]. destruct (timercmp_gt _ _); eauto. }
    destruct (IH (S k) old') as (i & -> & C); [right; congruence|]. exists i. split; [done|].
    destruct C as [(j' & e' & -> & Hj & Hf)|(Hnf & e' & Hsel & Hmin)].
    + left. exists (S j'), e'. split_and!; [lia|done..].
    + right. split; [by constructor|]. exists e'. split.
      * destruct Hsel as [(j' & -> & Hj)|Ho].
        -- left. exists (S j'). split; [lia|done].
        -- rewrite E in Ho. injection Ho as -> ->. destruct Hsrc as [H|[= -> ->]]; [by right|].
           left. exists 0%nat. split; [lia|done].
      * intros [Hte Htl]%Forall_cons Hto. destruct Hmin as [Hm1 Hm2]; [done| |].
        { intros ? ? H. rewrite E in H. injection H as <- <-.
          destruct Hsrc as [H|[= -> ->]]; [by eapply Hto|done]. }
        specialize (Hm2 _ _ E).
        unfold old' in E. destruct oldest as [[j0 o0]|].
        -- specialize (Hto _ _ eq_refl). rewrite timercmp_gt_usecs in E by done.
           destruct (Z.gtb_spec (usecs (ac_timestamp o0)) (usecs (ac_timestamp e))); simplify_eq.
           ++ split; [by constructor; [lia|]|]. intros ? ? [= -> ->]. lia.
           ++ split; [constructor; [lia|done]|]. intros ? ? [= -> ->]. lia.
        -- simplify_eq. split; [by constructor; [lia|]|]. done.
Qed.

(** [arp_cache_alloc] on the cache: a free entry if there is one, else the entry
    with the least time. *)
Lemma alloc_spec l :
  l <> [] ->
  exists i e, arp_cache_alloc l = Some i /\ l !! i = Some e /\
  (is_free e = true \/
   (Forall (fun e => is_free e = false) l /\
    (Forall (fun e => timeval_ok (ac_timestamp e)) l ->
     Forall (fun e' => usecs (ac_timestamp e) <= usecs (ac_timestamp e')) l))).
Proof.
  intros Hne. destruct (alloc_loop_spec l 0 None) as (i & E & C); [by left|].
  destruct C as [(j & e & -> & Hj & Hf)|(Hnf & e & [(j & -> & Hj)|?] & Hmin)]; [..|done].
  - exists j, e. eauto.
  - exists j, e. split_and!; try done. right. split; [done|]. intros Ht. by apply Hmin.
Qed.

(** Replacing the entry at [i] by [e'] in use for [pa], when no other entry is. *)
Lemma cache_put l i e e' :
  cache_wf l -> l !! i = Some e -> is_free e' = false -> length (ac_ha e') = 6%nat ->
  (forall j x, l !! j = Some x -> is_free x = false -> ac_pa x = ac_pa e' -> j = i) ->
  cache_wf (alter (fun _ => e') i l) /\
  cache_lookup (alter (fun _ => e') i l) (ac_pa e') = Some e' /\
  forall pa, pa <> ac_pa e' -> (is_free e = true \/ ac_pa e <> pa) ->
    cache_lookup (alter (fun _ => e') i l) pa = cache_lookup l pa.
Proof.
  intros (L & Hh & U) Hi Hf Hha Hother.
  assert (cache_unique (alter (fun _ => e') i l)) as U'.
  { intros a b x y Ha Hb. rewrite list_lookup_alter in Ha, Hb.
    destruct (decide (i = a)) as [<-|], (decide (i = b)) as [<-|].
    - done.
    - apply fmap_Some in Ha as (? & ? & ->). intros Fx Fy Ep. symmetry. by eapply Hother.
    - apply fmap_Some in Hb as (? & ? & ->). intros Fx Fy Ep. by eapply Hother.
    - by eapply U. }
  split; [|split].
  - split_and!; [by rewrite length_alter| |done]. apply Forall_alter; [done|]. by intros.
  - apply cache_lookup_spec; [done|]. exists i. rewrite list_lookup_alter_eq, Hi. done.
  - intros pa Hpa Hold. apply option_eq. intros x. rewrite !cache_lookup_spec by done.
    split; intros (j & Hj & Fx & Px); exists j; split_and!; try done.
    + rewrite list_lookup_alter in Hj. case_decide; [|done]. subst.
      apply fmap_Some in Hj as (? & ? & ->). congruence.
    + rewrite list_lookup_alter_ne; [done|]. intros ->. rewrite Hi in Hj. injection Hj as ->.
      destruct Hold; congruence.
Qed.

Lemma alter_alter_const (l : list arp_cache) (i : nat) (f g : arp_cache -> arp_cache) e :
  l !! i = Some e -> alter g i (alter f i l) = alter (fun _ => g (f e)) i l.
Proof.
  intros Hi. apply list_eq. intros j. destruct (decide (i = j)) as [<-|Hne].
  - by rewrite !list_lookup_alter_eq, Hi.
  - by rewrite !list_lookup_alter_ne.
Qed.

Lemma cache_wf_nonempty l : cache_wf l -> l <> [].
Proof. intros (L & _) ->. done. Qed.

Lemma cache_wf_ha (l : list arp_cache) i e : cache_wf l -> l !! i = Some e -> length (ac_ha e) = 6%nat.
Proof. intros (_ & H & _) E. by eapply Forall_lookup_1 in H. Qed.

(** ** Symbolic execution of the cache operations *)

(** [s'] is [s] with the cache [caches] and, at most, later clock readings. *)
Definition arp_only (s : stack) (caches : list arp_cache) (s' : stack) : Prop :=
  exists w, s' = set_arp (fun _ => caches) (set_world (fun _ => w) s) /\
    w_alloc w = w_alloc (st_world s) /\ w_sys w = w_sys (st_world s) /\
    w_trace w = w_trace (st_world s) /\ w_pending w = w_pending (st_world s).

(** The current reading of the clock. *)
Definition clock_now (s : stack) : timeval := default (Timeval 0 0) (head (w_clock (st_world s))).

Lemma arp_cache_update_wp pa ha s (Q : option nat -> stack -> Prop) :
  cache_wf (st_arp s) -> (6 <= length ha)%nat ->
  (cache_lookup (st_arp s) pa = None -> Q None s) ->
  (forall i caches s', is_Some (cache_lookup (st_arp s) pa) -> arp_only s caches s' -> cache_wf caches ->
     cache_lookup caches pa = Some (ArpCache ARP_CACHE_STATE_RESOLVED pa (take 6 ha) (clock_now s)) ->
     (forall pa', pa' <> pa -> cache_lookup caches pa' = cache_lookup (st_arp s) pa') -> Q (Some i) s') ->
  wp (arp_cache_update pa ha) s Q.
Proof.
  intros W Hha HN HS. unfold arp_cache_update. wp_steps.
  destruct (arp_cache_select (st_arp s) pa) as [i|] eqn:E.
  2:{ apply wp_ret, HN. by apply cache_lookup_None. }
  pose proof (select_Some _ _ _ E) as (e & Hi & Hf & Hp).
  rewrite rdn_in, drop_0 by (unfold ETHER_ADDR_LEN; lia). change ETHER_ADDR_LEN with 6%nat.
  wp_steps. unfold set_cache. wp_steps. apply gettimeofday_wp. intros now w -> Hw1 Hw2 Hw3 Hw4. wp_steps.
  set (e' := ArpCache ARP_CACHE_STATE_RESOLVED pa (take 6 ha) (clock_now s)).
  destruct (cache_put (st_arp s) i e e') as (W' & Lk & Ot); try done.
  { simpl. rewrite length_take. lia. }
  { intros j x Hj Fx Px. destruct W as (_ & _ & U). eapply U; eauto. by rewrite Px. }
  apply (HS i (alter (fun _ => e') i (st_arp s))); try done.
  - unfold cache_lookup. rewrite E. by rewrite Hi.
  - exists w. split; [|done]. simpl. unfold set_arp. simpl. f_equal.
    rewrite (alter_alter_const _ _ _ _ e Hi). unfold e', clock_now. by rewrite Hp.
  - intros pa' Hne. apply Ot; [done|]. right. congruence.
Qed.

(** Of the addresses other than [new], [l'] knows what [l] knows, or the cache was
    full and the one that is gone had the least time. *)
Definition evicts_oldest (l l' : list arp_cache) (new : Z) : Prop :=
  forall pa e, pa <> new -> cache_lookup l pa = Some e ->
    cache_lookup l' pa = Some e \/
    (cache_lookup l' pa = None /\ Forall (fun e => is_free e = false) l /\
     (Forall (fun e => timeval_ok (ac_timestamp e)) l ->
      Forall (fun e' => usecs (ac_timestamp e) <= usecs (ac_timestamp e')) l)).

(** Writing [e'] for a new address into the entry that [arp_cache_alloc] chose. *)
Lemma cache_alloc_put l e' :
  cache_wf l -> cache_lookup l (ac_pa e') = None -> is_free e' = false -> length (ac_ha e') = 6%nat ->
  exists i, arp_cache_alloc l = Some i /\ (i < length l)%nat /\
    cache_wf (alter (fun _ => e') i l) /\
    cache_lookup (alter (fun _ => e') i l) (ac_pa e') = Some e' /\
    (Exists (fun e => is_free e = true) l ->
     forall pa, pa <> ac_pa e' -> cache_lookup (alter (fun _ => e') i l) pa = cache_lookup l pa) /\
    evicts_oldest l (alter (fun _ => e') i l) (ac_pa e').
Proof.
  intros W Hn Hf Hh. apply cache_lookup_None in Hn.
  destruct (alloc_spec l (cache_wf_nonempty l W)) as (i & e & Ha & Hi & Hc).
  destruct (cache_put l i e e') as (W' & Lk & Ot); try done.
  { intros j x Hj Fx Px. by destruct (select_None _ _ _ _ Hn Hj Fx). }
  exists i. split_and!; try done; [by eapply lookup_lt_Some|..].
  - intros Hex pa Hne. apply Ot; [done|]. destruct Hc as [Hfree|[Hall _]]; [by left|].
    apply Exists_exists in Hex as (x & Hx & Fx). rewrite Forall_forall in Hall. by rewrite Hall in Fx.
  - intros pa x Hne Hx. destruct (decide (is_free e = true \/ ac_pa e <> pa)) as [Hold|Hold].
    { left. by rewrite Ot. }
    apply Decidable.not_or in Hold as [Hnf Hpa]. destruct (decide (ac_pa e = pa)) as [Epa|]; [|done].
    destruct Hc as [Hfree|[Hall Hmin]]; [done|]. right. destruct W as (_ & _ & U). destruct W' as (_ & _ & U').
    assert (x = e) as ->.
    { apply cache_lookup_spec in Hx as (j & Hj & Fx & Px); [|done].
      assert (j = i) as -> by (eapply U; eauto; [by destruct (is_free e)|congruence]). congruence. }
    split; [|done]. apply eq_None_not_Some. intros [y Ey].
    apply cache_lookup_spec in Ey as (j & Hj & Fy & Py); [|done].
    rewrite list_lookup_alter in Hj. case_decide as Eij.
    + apply fmap_Some in Hj as (? & ? & ->). congruence.
    + destruct Eij. eapply U; eauto; [by destruct (is_free e)|congruence].
Qed.

Lemma arp_cache_insert_wp pa ha s (Q : option nat -> stack -> Prop) :
  cache_wf (st_arp s) -> (6 <= length ha)%nat -> cache_lookup (st_arp s) pa = None ->
  (forall i caches s', arp_only s caches s' -> cache_wf caches ->
     cache_lookup caches pa = Some (ArpCache ARP_CACHE_STATE_RESOLVED pa (take 6 ha) (clock_now s)) ->
     (Exists (fun e => is_free e = true) (st_arp s) ->
      forall pa', pa' <> pa -> cache_lookup caches pa' = cache_lookup (st_arp s) pa') ->
     evicts_oldest (st_arp s) caches pa -> Q (Some i) s') ->
  wp (arp_cache_insert pa ha) s Q.
Proof.
  intros W Hha Hn HS. unfold arp_cache_insert. wp_steps.
  set (e' := ArpCache ARP_CACHE_STATE_RESOLVED pa (take 6 ha) (clock_now s)).
  destruct (cache_alloc_put (st_arp s) e') as (i & Ha & Hi & W' & Lk & Ot & Ev); try done.
  { simpl. rewrite length_take. lia. }
  rewrite Ha. apply lookup_lt_is_Some_2 in Hi as [e Hi].
  rewrite rdn_in, drop_0 by (unfold ETHER_ADDR_LEN; lia). change ETHER_ADDR_LEN with 6%nat.
  wp_steps. unfold set_cache. wp_steps. apply gettimeofday_wp. intros now w -> Hw1 Hw2 Hw3 Hw4. wp_steps.
  apply (HS i (alter (fun _ => e') i (st_arp s))); try done.
  exists w. split; [|done]. simpl. unfold set_arp. simpl. f_equal.
  by rewrite (alter_alter_const _ _ _ _ e Hi).
Qed.

(** ** Well-formed interfaces *)

(** An interface attached to a well-formed device. *)
Definition iface_ok (s : stack) (i : iface_id) : Prop :=
  exists f d dev, n_ifs (st_net s) !! i = Some f /\ if_dev f = Some d /\
    n_devs (st_net s) !! d = Some dev /\ dev_wf dev.

(** Every device is well formed and its interfaces point back to it. *)
Definition net_wf (n : net_state) : Prop :=
  map_Forall (fun d dev => dev_wf dev /\
    Forall (fun i => exists f, n_ifs n !! i = Some f /\ if_dev f = Some d) (dev_interfaces dev)) (n_devs n).

Lemma driver_frame_inv s s' :
  driver_frame s' = driver_frame s ->
  st_arp s' = st_arp s /\ st_ip s' = st_ip s /\ st_udp s' = st_udp s /\ st_sock s' = st_sock s /\
  st_intr s' = st_intr s /\ st_held s' = st_held s /\ n_ifs (st_net s') = n_ifs (st_net s) /\
  n_devices (st_net s') = n_devices (st_net s).
Proof. unfold driver_frame. intros E. injection E as. split_and!; done. Qed.

Lemma get_iface_ok i s f : n_ifs (st_net s) !! i = Some f -> get_iface i s = Ret f s.
Proof. intros E. unfold get_iface, bind, gets, opt. by rewrite E. Qed.

Lemma iface_dev_ok i s f d :
  n_ifs (st_net s) !! i = Some f -> if_dev f = Some d -> iface_dev i s = Ret d s.
Proof. intros E Ed. unfold iface_dev. erewrite bind_ret by by apply get_iface_ok. by rewrite Ed. Qed.

(** Looking up an interface of a device only reads, and finds one of its own. *)
Lemma get_interface_wp d fam s dev (Q : option iface_id -> stack -> Prop) :
  net_wf (st_net s) -> n_devs (st_net s) !! d = Some dev ->
  (forall r, match r with
             | Some i => exists f, n_ifs (st_net s) !! i = Some f /\ if_dev f = Some d /\ if_family f = fam
             | None => True
             end -> network_device_get_interface d fam s = Ret r s -> Q r s) ->
  wp (network_device_get_interface d fam) s Q.
Proof.
  intros N Hd HQ. destruct (N d dev Hd) as [_ Hi].
  assert (exists r, network_device_get_interface d fam s = Ret r s /\
    match r with
    | Some i => exists f, n_ifs (st_net s) !! i = Some f /\ if_dev f = Some d /\ if_family f = fam
    | None => True
    end) as (r & E & Hr).
  { unfold network_device_get_interface. erewrite bind_ret by by apply get_dev_ok.
    induction Hi as [|i l (f & Hf & Hfd) Hi IH]; [by exists None|]. simpl.
    erewrite bind_ret by by apply get_iface_ok. destruct (Z.eqb_spec (if_family f) fam); [|done].
    exists (Some i). eauto. }
  eapply wp_of_run; [done|]. by apply HQ.
Qed.

Section ArpWp.
Context {Mc : Machine}.

Lemma length_arp_message op sha spa tha tpa :
  length sha = 6%nat -> length tha = 6%nat -> length (arp_message op sha spa tha tpa) = 28%nat.
Proof.
  intros H1 H2. unfold arp_message. rewrite !length_app, !length_store16, !length_store32, H1, H2. done.
Qed.

(** Sending a request or a reply on a well-formed interface never faults and
    leaves the modules alone. *)
Lemma arp_request_wp i pa s (Q : Z -> stack -> Prop) :
  iface_ok s i ->
  (forall r s', driver_frame s' = driver_frame s -> n_devs (st_net s') = n_devs (st_net s) -> Q r s') ->
  wp (arp_request i pa) s Q.
Proof.
  intros (f & d & dev & Hf & Hfd & Hd & Hwf) H. pose proof Hwf as (Ha & Hb & _).
  unfold arp_request. apply wp_bind. eapply wp_of_run; [by apply get_iface_ok|].
  apply wp_bind. eapply wp_of_run; [by eapply iface_dev_ok|].
  apply wp_bind. eapply wp_of_run; [by apply get_dev_ok|].
  rewrite rdn_in by (unfold ETHER_ADDR_LEN; lia). wp_steps.
  eapply wp_mono; [apply (network_device_output_wp d _ _ _ _ s dev); try done|].
  - rewrite Hb. lia.
  - rewrite length_arp_message; [done|rewrite length_take, length_drop, Ha; done|done].
  - intros r s' (_ & F & N). by apply H.
Qed.

Lemma arp_reply_wp i tha pa dst s (Q : Z -> stack -> Prop) :
  iface_ok s i -> (6 <= length tha)%nat -> (6 <= length dst)%nat ->
  (forall r s', driver_frame s' = driver_frame s -> n_devs (st_net s') = n_devs (st_net s) -> Q r s') ->
  wp (arp_reply i tha pa dst) s Q.
Proof.
  intros (f & d & dev & Hf & Hfd & Hd & Hwf) Ht Hds H. pose proof Hwf as (Ha & Hb & _).
  unfold arp_reply. apply wp_bind. eapply wp_of_run; [by apply get_iface_ok|].
  apply wp_bind. eapply wp_of_run; [by eapply iface_dev_ok|].
  apply wp_bind. eapply wp_of_run; [by apply get_dev_ok|].
  rewrite !rdn_in by (unfold ETHER_ADDR_LEN; lia). wp_steps.
  eapply wp_mono; [apply (network_device_output_wp d _ _ _ _ s dev); try done|].
  - rewrite length_arp_message; [done|rewrite length_take, length_drop; unfold ETHER_ADDR_LEN; lia..].
  - intros r s' (_ & F & N). by apply H.
Qed.

(** Leaving the critical section of the cache. *)
Lemma arp_only_unlock s caches s' :
  arp_mutex ∉ st_held s -> arp_only (set_held (cons arp_mutex) s) caches s' ->
  arp_mutex ∈ st_held s' /\ arp_only s caches (set_held (filter (fun k => k <> arp_mutex)) s').
Proof.
  intros Hm (w & -> & Hw). split; [simpl; by left|]. exists w. split; [|done].
  unfold set_held, set_arp, set_world. cbn [st_net st_arp st_ip st_udp st_sock st_intr st_held st_world].
  by rewrite unlock_held.
Qed.

Lemma lock_unlock_id m s :
  m ∉ st_held s -> set_held (filter (fun k => k <> m)) (set_held (cons m) s) = s.
Proof.
  intros Hm. destruct s as [n a i u k r h w]. unfold set_held. cbn [st_net st_arp st_ip st_udp st_sock st_intr st_held st_world] in *.
  by rewrite unlock_held.
Qed.

(** The cache after [spa] was learned to be at [sha]. *)
Definition learned (s : stack) (spa : Z) (sha : list Z) (caches : list arp_cache) : Prop :=
  cache_wf caches /\
  cache_lookup caches spa = Some (ArpCache ARP_CACHE_STATE_RESOLVED spa (take 6 sha) (clock_now s)) /\
  (is_Some (cache_lookup (st_arp s) spa) \/ Exists (fun e => is_free e = true) (st_arp s) ->
   forall pa, pa <> spa -> cache_lookup caches pa = cache_lookup (st_arp s) pa).

Lemma arp_input_update_wp spa sha s (Q : bool -> stack -> Prop) :
  arp_mutex ∉ st_held s -> cache_wf (st_arp s) -> (6 <= length sha)%nat ->
  (cache_lookup (st_arp s) spa = None -> Q false s) ->
  (forall caches s', is_Some (cache_lookup (st_arp s) spa) -> arp_only s caches s' ->
     learned s spa sha caches -> Q true s') ->
  wp (arp_input_update spa sha) s Q.
Proof.
  intros Hm W Hl HN HS. unfold arp_input_update. apply wp_bind, mutex_lock_wp; [done|].
  apply wp_bind, arp_cache_update_wp; [done|done|..].
  - intros E. apply wp_bind, mutex_unlock_wp; [simpl; by left|]. apply wp_ret.
    rewrite lock_unlock_id by done. by apply HN.
  - intros i caches s' E O W' Lk Ot. destruct (arp_only_unlock _ _ _ Hm O) as [Hh O'].
    apply wp_bind, mutex_unlock_wp; [done|]. apply wp_ret. rewrite bool_decide_true by eauto.
    apply (HS caches); done.
Qed.

Lemma arp_input_insert_wp spa sha s (Q : unit -> stack -> Prop) :
  arp_mutex ∉ st_held s -> cache_wf (st_arp s) -> (6 <= length sha)%nat ->
  cache_lookup (st_arp s) spa = None ->
  (forall caches s', arp_only s caches s' -> learned s spa sha caches -> Q tt s') ->
  wp (arp_input_insert spa sha) s Q.
Proof.
  intros Hm W Hl HN HS. unfold arp_input_insert. apply wp_bind, mutex_lock_wp; [done|].
  apply wp_bind, arp_cache_insert_wp; [done..|]. intros i caches s' O W' Lk Ot _.
  destruct (arp_only_unlock _ _ _ Hm O) as [Hh O']. apply mutex_unlock_wp; [done|].
  apply (HS caches); [done|]. split_and!; try done. intros [[? E]|Ex]; [|by apply Ot].
  cbn [st_arp set_held] in E. congruence.
Qed.

(** What sequences of cache updates leave alone. *)
Lemma arp_only_frame s caches s' :
  arp_only s caches s' ->
  st_arp s' = caches /\ st_net s' = st_net s /\ st_held s' = st_held s /\ st_ip s' = st_ip s /\
  st_udp s' = st_udp s /\ st_sock s' = st_sock s /\
  w_trace (st_world s') = w_trace (st_world s) /\ w_sys (st_world s') = w_sys (st_world s) /\
  w_alloc (st_world s') = w_alloc (st_world s).
Proof. intros (w & -> & ? & ? & ? & ?). by split_and!. Qed.

(** The fields of a message. *)
Lemma arp_message_fields op sha spa tha tpa (pad : list Z) :
  length sha = 6%nat -> length tha = 6%nat ->
  let data := arp_message op sha spa tha tpa ++ pad in
  rd16 data 0 = Some (hton16 ARP_HRD_ETHER) /\ rd16 data 2 = Some (hton16 ARP_PRO_IP) /\
  rd8 data 4 = Some 6 /\ rd8 data 5 = Some 4 /\ rd16 data 6 = Some (hton16 op) /\
  rd32 data 14 = Some spa /\ rd32 data 24 = Some tpa /\ take 6 (drop 8 data) = sha /\
  (28 <= length data)%nat.
Proof.
  intros H1 H2 data. unfold data, arp_message.
  destruct (store16_load16 (hton16 ARP_HRD_ETHER)) as (a0 & a1 & -> & Ea).
  destruct (store16_load16 (hton16 ARP_PRO_IP)) as (b0 & b1 & -> & Eb).
  destruct (store16_load16 (hton16 op)) as (c0 & c1 & -> & Ec).
  destruct (store32_load32 spa) as (d0 & d1 & d2 & d3 & -> & Ed).
  destruct (store32_load32 tpa) as (e0 & e1 & e2 & e3 & -> & Ee).
  do 6 (destruct sha as [|? sha]; [discriminate H1|]). destruct sha; [|discriminate H1].
  do 6 (destruct tha as [|? tha]; [discriminate H2|]). destruct tha; [|discriminate H2].
  cbn. rewrite Ea, Eb, Ec, Ed, Ee. split_and!; try done. lia.
Qed.

(** The lookup of an interface depends on the devices and interfaces only. *)
Lemma get_interface_ext d fam s s' r :
  n_devs (st_net s') = n_devs (st_net s) -> n_ifs (st_net s') = n_ifs (st_net s) ->
  network_device_get_interface d fam s = Ret r s -> network_device_get_interface d fam s' = Ret r s'.
Proof.
  intros Ed Ei. unfold network_device_get_interface, get_dev, bind, gets, opt. rewrite Ed.
  destruct (n_devs (st_net s) !! d) as [dev|]; [|done]. simpl.
  induction (dev_interfaces dev) as [|i l IH]; simpl; [by intros [= <-]|].
  unfold get_iface, bind, gets, opt. rewrite Ei. destruct (n_ifs (st_net s) !! i) as [f|]; [|done]. simpl.
  destruct (if_family f =? fam); [by intros [= <-]|done].
Qed.

(** Whether the interface [oi] has the address [pa]. *)
Definition has_address (s : stack) (oi : option iface_id) (pa : Z) : bool :=
  match oi with
  | Some i => match n_ifs (st_net s) !! i with Some f => if_unicast f =? pa | None => false end
  | None => false
  end.

(** A message merges into the cache of a known sender, inserts an unknown sender
    that asks for our address, and gets a reply if it is a request for it. *)
Lemma arp_input_merge_wp data d s dev oi spa tpa op (Q : unit -> stack -> Prop) :
  net_wf (st_net s) -> n_devs (st_net s) !! d = Some dev -> cache_wf (st_arp s) ->
  arp_mutex ∉ st_held s -> (28 <= length data)%nat ->
  rd32 data 14 = Some spa -> rd32 data 24 = Some tpa -> rd16 data 6 = Some op ->
  network_device_get_interface d NETWORK_INTERFACE_FAMILY_IP s = Ret oi s ->
  (forall caches s1, arp_only s caches s1 ->
     (if bool_decide (is_Some (cache_lookup (st_arp s) spa)) || has_address s oi tpa
      then learned s spa (drop 8 data) caches else caches = st_arp s) ->
     match oi with
     | Some i => if has_address s oi tpa && (ntoh16 op =? ARP_OP_REQUEST)
                 then wp (arp_reply i (drop 8 data) spa (drop 8 data)) s1 (fun _ s2 => Q tt s2)
                 else Q tt s1
     | None => Q tt s1
     end) ->
  wp (arp_input_merge data d) s Q.
Proof.
  intros N Hd W Hm Hl Hs Ht Hop Hi H. unfold arp_input_merge. wp_steps.
  assert (6 <= length (drop 8 data))%nat by (rewrite length_drop; lia).
  destruct (wp_run _ _ _ (get_interface_wp d NETWORK_INTERFACE_FAMILY_IP s dev
    (fun r s' => match r with Some i => exists f, n_ifs (st_net s) !! i = Some f /\
       if_dev f = Some d | None => True end) N Hd ltac:(intros [] Hr _; naive_solver)))
    as (oi' & s0 & E & Hoi). rewrite Hi in E. injection E as <- <-.
  assert (arp_only s (st_arp s) s) as O0 by (exists (st_world s); destruct s; done).
  apply arp_input_update_wp; [done..| |].
  - intros E. wp_steps. eapply wp_of_run; [done|]. rewrite bool_decide_false in H by (rewrite E; by intros [? ?]).
    cbn [orb] in H. destruct oi as [i|]; [|by wp_steps; apply (H (st_arp s) s O0)].
    destruct Hoi as (f & Hf & _). wp_steps. eapply wp_of_run; [by apply get_iface_ok|].
    unfold has_address in H. rewrite Hf in H. destruct (if_unicast f =? tpa); [|wp_steps; by apply (H (st_arp s) s O0)].
    apply wp_bind, arp_input_insert_wp; [done..|]. intros caches s1 O L. specialize (H caches s1 O L).
    cbn [andb] in H. wp_steps. destruct (ntoh16 op =? ARP_OP_REQUEST); [|by wp_steps]. apply wp_bind.
    eapply wp_mono; [exact H|]. intros. by wp_steps.
  - intros caches s1 E O L. rewrite bool_decide_true in H by done. cbn [orb] in H. specialize (H caches s1 O L).
    destruct (arp_only_frame _ _ _ O) as (_ & Hn & _). wp_steps.
    eapply wp_of_run; [eapply get_interface_ext; [..|exact Hi]; by rewrite Hn|].
    destruct oi as [i|]; [|by wp_steps].
    destruct Hoi as (f & Hf & _). wp_steps. eapply wp_of_run; [apply get_iface_ok; by rewrite Hn|].
    unfold has_address in H. rewrite Hf in H. destruct (if_unicast f =? tpa); [|by wp_steps].
    cbn [andb] in H. wp_steps. destruct (ntoh16 op =? ARP_OP_REQUEST); [|by wp_steps]. apply wp_bind.
    eapply wp_mono; [exact H|]. intros. by wp_steps.
Qed.

(** The cache after a request for [pa] was started. *)
Definition requested (s : stack) (pa : Z) (caches : list arp_cache) : Prop :=
  match cache_lookup (st_arp s) pa with
  | Some e => ac_state e = ARP_CACHE_STATE_INCOMPLETE /\ caches = st_arp s
  | None =>
      cache_wf caches /\
      (exists ha, cache_lookup caches pa = Some (ArpCache ARP_CACHE_STATE_INCOMPLETE pa ha (clock_now s))) /\
      (Exists (fun e => is_free e = true) (st_arp s) ->
       forall pa', pa' <> pa -> cache_lookup caches pa' = cache_lookup (st_arp s) pa')
  end.

Lemma requested_wf s pa caches : cache_wf (st_arp s) -> requested s pa caches -> cache_wf caches.
Proof. intros W. unfold requested. destruct (cache_lookup _ _); [by intros [_ ->]|by intros [? _]]. Qed.

Lemma arp_resolve_wp i pa ha s f d dev (Q : Z * list Z -> stack -> Prop) :
  n_ifs (st_net s) !! i = Some f -> if_dev f = Some d -> n_devs (st_net s) !! d = Some dev ->
  dev_type dev = NETWORK_DEVICE_TYPE_ETHERNET -> if_family f = NETWORK_INTERFACE_FAMILY_IP ->
  cache_wf (st_arp s) -> arp_mutex ∉ st_held s ->
  (forall e, cache_lookup (st_arp s) pa = Some e -> ac_state e <> ARP_CACHE_STATE_INCOMPLETE ->
     Q (ARP_RESOLVE_FOUND, ac_ha e ++ drop 6 ha) s) ->
  (forall caches s1, arp_only s caches s1 -> requested s pa caches ->
     wp (arp_request i pa) (set_held (cons arp_mutex) s1) (fun _ s2 =>
       arp_mutex ∈ st_held s2 /\ Q (ARP_RESOLVE_INCOMPLETE, ha) (set_held (filter (fun k => k <> arp_mutex)) s2))) ->
  wp (arp_resolve i pa ha) s Q.
Proof.
  intros Hf Hfd Hd Hty Hfam W Hm HF HI. unfold arp_resolve.
  apply wp_bind. eapply wp_of_run; [by apply get_iface_ok|].
  apply wp_bind. eapply wp_of_run; [by eapply iface_dev_ok|].
  apply wp_bind. eapply wp_of_run; [by apply get_dev_ok|].
  rewrite Hty, Hfam, !Z.eqb_refl. cbn [negb]. apply wp_bind, mutex_lock_wp; [done|]. wp_steps.
  cbn [st_arp set_held]. unfold requested in HI.
  destruct (arp_cache_select (st_arp s) pa) as [k|] eqn:E.
  - pose proof (select_Some _ _ _ E) as (e & Hk & _ & _).
    assert (cache_lookup (st_arp s) pa = Some e) as Lk by (unfold cache_lookup; by rewrite E).
    rewrite Lk in *. wp_steps. case_bool_decide as Est.
    + apply wp_bind. eapply wp_mono; [apply (HI (st_arp s) s); [|done]|].
      { exists (st_world s). by destruct s. }
      intros _ s2 [Hh HQ]. apply wp_bind, mutex_unlock_wp; [done|]. by apply wp_ret.
    + pose proof (cache_wf_ha _ _ _ W Hk) as L6.
      rewrite rdn_in, drop_0, take_ge by (change ETHER_ADDR_LEN with 6%nat; lia). wp_steps.
      apply mutex_unlock_wp; [simpl; by left|]. wp_steps. rewrite lock_unlock_id by done. by apply HF.
  - assert (cache_lookup (st_arp s) pa = None) as Lk by by apply cache_lookup_None.
    rewrite Lk in *.
    destruct (alloc_spec (st_arp s) (cache_wf_nonempty _ W)) as (k & e & Ha & Hk & _). rewrite Ha.
    unfold set_cache. wp_steps. apply gettimeofday_wp. intros now w -> Hw1 Hw2 Hw3 Hw4. wp_steps.
    set (e' := ArpCache ARP_CACHE_STATE_INCOMPLETE pa (ac_ha e) (clock_now s)).
    destruct (cache_alloc_put (st_arp s) e') as (k' & Ha' & _ & W' & Lk' & Ot & _); [done..|exact (cache_wf_ha _ _ _ W Hk)|].
    rewrite Ha in Ha'. injection Ha' as <-.
    set (s1 := set_arp (fun _ => alter (fun _ => e') k (st_arp s)) (set_world (fun _ => w) s)).
    assert (set_arp (alter (fun e => ArpCache (ac_state e) (ac_pa e) (ac_ha e)
              (default (Timeval 0 0) (head (w_clock (st_world s))))) k)
             (set_world (fun _ => w) (set_arp (alter (fun e => ArpCache ARP_CACHE_STATE_INCOMPLETE pa (ac_ha e)
              (ac_timestamp e)) k) (set_held (cons arp_mutex) s))) = set_held (cons arp_mutex) s1) as Es.
    { unfold set_arp, set_held, set_world, s1. simpl. f_equal. by rewrite (alter_alter_const _ _ _ _ e Hk). }
    simpl in *. rewrite Es. eapply wp_mono; [apply (HI (alter (fun _ => e') k (st_arp s)) s1)|].
    + exists w. done.
    + split_and!; eauto.
    + intros _ s2 [Hh HQ]. apply wp_bind, mutex_unlock_wp; [done|]. by apply wp_ret.
Qed.

End ArpWp.

(** The state a handler of the module needs: well-formed devices and cache, and
    the module's mutex free. *)
Definition arp_ready (s : stack) : Prop :=
  net_wf (st_net s) /\ cache_wf (st_arp s) /\ arp_mutex ∉ st_held s.

Lemma net_wf_ext n n' :
  n_devs n' = n_devs n -> n_ifs n' = n_ifs n -> net_wf n -> net_wf n'.
Proof. unfold net_wf. intros -> ->. done. Qed.

Lemma iface_ok_ext s s' i : st_net s' = st_net s -> iface_ok s i -> iface_ok s' i.
Proof. unfold iface_ok. by intros ->. Qed.

Lemma arp_ready_after s caches s1 s2 :
  arp_ready s -> arp_only s caches s1 -> cache_wf caches ->
  driver_frame s2 = driver_frame s1 -> n_devs (st_net s2) = n_devs (st_net s1) ->
  arp_ready s2 /\ st_held s2 = st_held s.
Proof.
  intros (N & W & Hm) (w & -> & _) W' F Dv. apply driver_frame_inv in F as (Fa & _ & _ & _ & _ & Fh & Fi & _).
  simpl in *. split; [|done]. split_and!; [|by rewrite Fa|by rewrite Fh].
  by eapply net_wf_ext.
Qed.

Section ArpSafety.
Context {Mc : Machine}.

Lemma interface_found d fam s dev :
  net_wf (st_net s) -> n_devs (st_net s) !! d = Some dev ->
  exists oi, network_device_get_interface d fam s = Ret oi s /\
    match oi with
    | Some i => iface_ok s i /\ exists f, n_ifs (st_net s) !! i = Some f /\ if_dev f = Some d /\ if_family f = fam
    | None => True
    end.
Proof.
  intros N Hd. destruct (N d dev Hd) as [Wd _].
  destruct (wp_run _ _ _ (get_interface_wp d fam s dev (fun r s' => s' = s /\
    match r with
    | Some i => exists f, n_ifs (st_net s) !! i = Some f /\ if_dev f = Some d /\ if_family f = fam
    | None => True
    end) N Hd (fun r H _ => conj eq_refl H))) as (oi & s' & E & -> & H).
  exists oi. split; [done|]. destruct oi as [i|]; [|done]. destruct H as (f & Hf & Hfd & Hfam).
  split; [|eauto]. exists f, d, dev. done.
Qed.

(** What the handlers of the module may change of a state: the cache, within its
    invariant, and what a transmission changes. *)
Definition arp_step (s s' : stack) : Prop :=
  arp_ready s' /\ st_held s' = st_held s /\
  driver_frame (set_arp (fun _ => st_arp s) s') = driver_frame s /\ n_devs (st_net s') = n_devs (st_net s).

Lemma arp_step_refl s : arp_ready s -> arp_step s s.
Proof. intros H. unfold arp_step. destruct s. by split_and!. Qed.

Lemma arp_input_safe data len d s dev :
  arp_ready s -> n_devs (st_net s) !! d = Some dev -> 0 <= len <= Z.of_nat (length data) ->
  wp (arp_input data len d) s (fun _ s' => arp_step s s').
Proof.
  intros R Hd Hlen. pose proof R as (N & W & Hm). unfold arp_input.
  destruct (Z.ltb_spec len (Z.of_nat arp_ether_size)) as [|Hge]; [by apply wp_ret, arp_step_refl|].
  unfold arp_ether_size in Hge.
  destruct (rd16_in data 0) as [hrd ->]; [lia|]. destruct (rd8_in data 4) as [hln ->]; [lia|]. wp_steps.
  case_match; [by apply wp_ret, arp_step_refl|].
  destruct (rd16_in data 2) as [pro ->]; [lia|]. destruct (rd8_in data 5) as [pln ->]; [lia|]. wp_steps.
  case_match; [by apply wp_ret, arp_step_refl|].
  destruct (rd32_in data 14) as [spa Hs]; [lia|]. destruct (rd32_in data 24) as [tpa Ht]; [lia|].
  destruct (rd16_in data 6) as [op Hop]; [lia|].
  destruct (interface_found d NETWORK_INTERFACE_FAMILY_IP s dev N Hd) as (oi & Hoi & Hok).
  eapply arp_input_merge_wp; try done; [lia|]. intros caches s1 O L.
  assert (cache_wf caches) as W' by (case_match; [apply L|by subst]).
  pose proof (arp_only_frame _ _ _ O) as (Ea & En & Eh & _).
  assert (driver_frame (set_arp (fun _ => st_arp s) s1) = driver_frame s) as F1
    by (destruct O as (w & -> & _); by destruct s).
  assert (forall s2, driver_frame s2 = driver_frame s1 -> n_devs (st_net s2) = n_devs (st_net s1) ->
    arp_step s s2) as Fin.
  { intros s2 F Dv. destruct (arp_ready_after s caches s1 s2) as [R2 H2]; try done. split_and!; try done.
    - rewrite <- F1. unfold driver_frame in *. simpl. injection F as. congruence.
    - by rewrite Dv, En. }
  destruct oi as [i|]; [|by apply Fin].
  destruct (has_address s (Some i) tpa && (ntoh16 op =? ARP_OP_REQUEST)); [|by apply Fin].
  destruct Hok as [Hok _].
  apply arp_reply_wp; [by eapply iface_ok_ext|rewrite length_drop; lia..|].
  intros r s2 F Dv. by apply Fin.
Qed.

Lemma arp_resolve_safe i pa ha s :
  arp_ready s -> iface_ok s i ->
  wp (arp_resolve i pa ha) s (fun r s' => arp_step s s' /\
    (r.1 = ARP_RESOLVE_FOUND \/ r.1 = ARP_RESOLVE_INCOMPLETE \/ r.1 = ARP_RESOLVE_ERROR) /\
    ((6 <= length ha)%nat -> length r.2 = length ha)).
Proof.
  intros R Hok. pose proof R as (N & W & Hm). pose proof Hok as (f & d & dev & Hf & Hfd & Hd & Hwf).
  destruct (decide (dev_type dev = NETWORK_DEVICE_TYPE_ETHERNET)) as [Hty|Hty].
  2:{ unfold arp_resolve. apply wp_bind. eapply wp_of_run; [by apply get_iface_ok|].
      apply wp_bind. eapply wp_of_run; [by eapply iface_dev_ok|].
      apply wp_bind. eapply wp_of_run; [by apply get_dev_ok|].
      replace (dev_type dev =? NETWORK_DEVICE_TYPE_ETHERNET) with false by lia.
      apply wp_ret. split; [by apply arp_step_refl|]. auto. }
  destruct (decide (if_family f = NETWORK_INTERFACE_FAMILY_IP)) as [Hfam|Hfam].
  2:{ unfold arp_resolve. apply wp_bind. eapply wp_of_run; [by apply get_iface_ok|].
      apply wp_bind. eapply wp_of_run; [by eapply iface_dev_ok|].
      apply wp_bind. eapply wp_of_run; [by apply get_dev_ok|].
      rewrite Hty, Z.eqb_refl. cbn [negb].
      replace (if_family f =? NETWORK_INTERFACE_FAMILY_IP) with false by lia.
      apply wp_ret. split; [by apply arp_step_refl|]. auto. }
  eapply arp_resolve_wp; try done.
  - intros e E _. split; [by apply arp_step_refl|]. split; [auto|]. intros Hl. simpl.
    rewrite length_app, length_drop. apply cache_lookup_spec in E as (k & Hk & _); [|apply W].
    rewrite (cache_wf_ha _ _ _ W Hk). lia.
  - intros caches s1 O Rq. pose proof (arp_only_frame _ _ _ O) as (Ea & En & Eh & _).
    pose proof (requested_wf _ _ _ W Rq) as W'.
    apply arp_request_wp; [by eapply iface_ok_ext|]. intros r s2 F Dv.
    pose proof (driver_frame_inv _ _ F) as (Fa & _ & _ & _ & _ & Fh & Fi & _). simpl in *.
    split; [rewrite Fh; by left|]. split; [|split; [auto|done]].
    assert (filter (fun k => k <> arp_mutex) (st_held s2) = st_held s) as Hh
      by (rewrite Fh, Eh; by apply unlock_held).
    split_and!; simpl.
    + split_and!; simpl; [eapply net_wf_ext; [..|exact N]; congruence|by rewrite Fa, Ea|by rewrite Hh].
    + done.
    + destruct O as (w & -> & _). unfold driver_frame in *. simpl in *. injection F as. congruence.
    + congruence.
Qed.

Lemma cache_timer_wf now l : cache_wf l -> cache_wf (map (arp_timer_entry now) l).
Proof.
  intros (L & H6 & U). split_and!.
  - by rewrite length_map.
  - apply Forall_map. eapply Forall_impl; [exact H6|]. intros e He. unfold arp_timer_entry.
    repeat case_match; done.
  - assert (forall k x, map (arp_timer_entry now) l !! k = Some x -> is_free x = false -> l !! k = Some x) as K.
    { intros k x Hk Hx. change (map ?g ?m) with (fmap (M := list) g m) in Hk. rewrite list_lookup_fmap in Hk. destruct (l !! k) as [e|]; [|done].
      simpl in Hk. injection Hk as <-. unfold arp_timer_entry in *. repeat case_match; done. }
    intros i j e e' Hi Hj Fe Fe'. apply (U i j e e'); auto.
Qed.

Lemma arp_timer_run s :
  arp_mutex ∉ st_held s ->
  wp arp_timer s (fun _ s' => arp_only s (map (arp_timer_entry (clock_now s)) (st_arp s)) s').
Proof.
  intros Hm. unfold arp_timer. apply wp_bind, mutex_lock_wp; [done|].
  apply wp_bind, gettimeofday_wp. intros now w -> H1 H2 H3 H4. wp_steps.
  apply mutex_unlock_wp; [simpl; by left|].
  eapply (arp_only_unlock s); [done|]. exists w. done.
Qed.

End ArpSafety.

(** ** Properties *)

Section ArpProperties.
Context {Mc : Machine}.

(** C14. The handlers of arp.c keep the cache a table: from a state with
    well-formed devices, a cache that is a table (32 entries, at most one in use
    per protocol address) and the module's mutex free, [arp_input] on any buffer
    that holds its [len] bytes, [arp_resolve] on any attached interface and
    [arp_timer] return without a fault or a deadlock, in such a state again, with
    every mutex released and nothing of the other modules changed. *)
Theorem arp_handlers_safe (s : stack) (R : arp_ready s) :
  (forall data len d dev, n_devs (st_net s) !! d = Some dev -> 0 <= len <= Z.of_nat (length data) ->
     wp (arp_input data len d) s (fun _ s' => arp_step s s')) /\
  (forall i pa ha, iface_ok s i -> wp (arp_resolve i pa ha) s (fun _ s' => arp_step s s')) /\
  wp arp_timer s (fun _ s' => arp_step s s').
Proof.
  split_and!.
  - intros data len d dev Hd Hl. by eapply arp_input_safe.
  - intros i pa ha Hi. eapply wp_mono; [by apply arp_resolve_safe|]. by intros r s' [? _].
  - pose proof R as (N & W & Hm). eapply wp_mono; [by apply arp_timer_run|]. intros u s' O.
    pose proof (arp_only_frame _ _ _ O) as (Ea & En & Eh & _).
    split_and!; [split_and!|done|..]; rewrite ?Ea, ?En, ?Eh; try done.
    + by apply cache_timer_wf.
    + destruct O as (w & -> & _). by destruct s.
Qed.

(** An attached interface whose Ethernet device can transmit. *)
Definition ether_iface (s : stack) (i : iface_id) (f : ip_interface) (d : dev_id) (dev : network_device)
    (p : ether_priv) : Prop :=
  n_ifs (st_net s) !! i = Some f /\ if_dev f = Some d /\ if_family f = NETWORK_INTERFACE_FAMILY_IP /\
  n_devs (st_net s) !! d = Some dev /\ dev_wf dev /\ dev_ops dev <> Some loopback_ops /\
  dev_type dev = NETWORK_DEVICE_TYPE_ETHERNET /\ dev_priv dev = Some p /\
  NETWORK_DEVICE_IS_UP dev = true /\ 28 <= dev_mtu dev.

Lemma ether_iface_ext s s' i f d dev p :
  n_devs (st_net s') = n_devs (st_net s) -> n_ifs (st_net s') = n_ifs (st_net s) ->
  ether_iface s i f d dev p -> ether_iface s' i f d dev p.
Proof. unfold ether_iface. by intros -> ->. Qed.

(** The messages such an interface sends. *)
Definition request_frame (f : ip_interface) (dev : network_device) (tpa : Z) : list Z :=
  ether_frame (take 6 (dev_broadcast dev)) (take 6 (dev_address dev)) ETHER_TYPE_ARP
    (arp_message ARP_OP_REQUEST (take 6 (dev_address dev)) (if_unicast f) (replicate 6 0) tpa).

Definition reply_frame (f : ip_interface) (dev : network_device) (tha : list Z) (tpa : Z) : list Z :=
  ether_frame tha (take 6 (dev_address dev)) ETHER_TYPE_ARP
    (arp_message ARP_OP_REPLY (take 6 (dev_address dev)) (if_unicast f) tha tpa).

Lemma arp_request_sends i f d dev p pa s :
  ether_iface s i f d dev p ->
  wp (arp_request i pa) s (transmitted (ep_fd p) (request_frame f dev pa) s).
Proof.
  intros (Hf & Hfd & Hfam & Hd & Hwf & Ho & Hty & Hp & Hup & Hm). pose proof Hwf as (Ha & Hb & _).
  assert (length (arp_message ARP_OP_REQUEST (take 6 (dev_address dev)) (if_unicast f) (replicate 6 0) pa) = 28%nat) as L
    by (apply length_arp_message; [rewrite length_take, Ha|]; done).
  unfold arp_request. apply wp_bind. eapply wp_of_run; [by apply get_iface_ok|].
  apply wp_bind. eapply wp_of_run; [by eapply iface_dev_ok|].
  apply wp_bind. eapply wp_of_run; [by apply get_dev_ok|].
  rewrite rdn_in, drop_0 by (unfold ETHER_ADDR_LEN; lia).
  change ETHER_ADDR_LEN with 6%nat. wp_steps.
  eapply wp_mono; [apply (network_device_output_ether d _ _ _ _ s dev p); try done|].
  - rewrite Hb. lia.
  - change (Z.to_nat (Z.of_nat arp_ether_size)) with 28%nat. by rewrite L.
  - intros r s' T. rewrite (take_ge (arp_message _ _ _ _ _)) in T by (change (Z.to_nat (Z.of_nat arp_ether_size)) with 28%nat; by rewrite L).
    exact T.
Qed.

Lemma arp_reply_sends i f d dev p tha pa s :
  ether_iface s i f d dev p -> (6 <= length tha)%nat ->
  wp (arp_reply i tha pa tha) s (transmitted (ep_fd p) (reply_frame f dev (take 6 tha) pa) s).
Proof.
  intros (Hf & Hfd & Hfam & Hd & Hwf & Ho & Hty & Hp & Hup & Hm) Ht. pose proof Hwf as (Ha & Hb & _).
  assert (length (arp_message ARP_OP_REPLY (take 6 (dev_address dev)) (if_unicast f) (take 6 tha) pa) = 28%nat) as L
    by (apply length_arp_message; rewrite length_take; lia).
  unfold arp_reply. apply wp_bind. eapply wp_of_run; [by apply get_iface_ok|].
  apply wp_bind. eapply wp_of_run; [by eapply iface_dev_ok|].
  apply wp_bind. eapply wp_of_run; [by apply get_dev_ok|].
  rewrite !rdn_in, !drop_0 by (unfold ETHER_ADDR_LEN; lia).
  change ETHER_ADDR_LEN with 6%nat. wp_steps.
  eapply wp_mono; [apply (network_device_output_ether d _ _ _ _ s dev p); try done|].
  - change (Z.to_nat (Z.of_nat arp_ether_size)) with 28%nat. by rewrite L.
  - intros r s' T. rewrite (take_ge (arp_message _ _ _ _ _)) in T
      by (change (Z.to_nat (Z.of_nat arp_ether_size)) with 28%nat; by rewrite L).
    exact T.
Qed.

(** [arp_input] on a message, on an interface that can answer. *)
Lemma arp_input_message_wp op sha spa tha tpa (pad : list Z) len d s i f dev p (Q : unit -> stack -> Prop) :
  arp_ready s -> ether_iface s i f d dev p ->
  network_device_get_interface d NETWORK_INTERFACE_FAMILY_IP s = Ret (Some i) s ->
  length sha = 6%nat -> length tha = 6%nat -> in_u16 op -> 28 <= len ->
  (forall caches s1, arp_only s caches s1 ->
     (if bool_decide (is_Some (cache_lookup (st_arp s) spa)) || (if_unicast f =? tpa)
      then learned s spa sha caches else caches = st_arp s) ->
     if (if_unicast f =? tpa) && (op =? ARP_OP_REQUEST)
     then forall r s2, transmitted (ep_fd p) (reply_frame f dev sha spa) s1 r s2 -> Q tt s2
     else Q tt s1) ->
  wp (arp_input (arp_message op sha spa tha tpa ++ pad) len d) s Q.
Proof.
  intros (N & W & Hm) EI Hgi Hsha Htha Hop Hlen H.
  destruct (arp_message_fields op sha spa tha tpa pad Hsha Htha) as (F1 & F2 & F3 & F4 & F5 & F6 & F7 & F8 & F9).
  set (data := arp_message op sha spa tha tpa ++ pad) in *.
  unfold arp_input. destruct (Z.ltb_spec len (Z.of_nat arp_ether_size)) as [Hlt|_]; [unfold arp_ether_size in Hlt; lia|].
  wp_steps. rewrite ntoh16_hton16, Z.eqb_refl by (unfold in_u16, ARP_HRD_ETHER; lia).
  change (6 =? Z.of_nat ETHER_ADDR_LEN) with true. cbn [negb orb]. wp_steps.
  rewrite ntoh16_hton16, Z.eqb_refl by (unfold in_u16, ARP_PRO_IP, ETHER_TYPE_IP; lia).
  change (4 =? Z.of_nat IP_ADDRESS_LENGTH) with true. cbn [negb orb].
  pose proof EI as (Hf & Hfd & _ & Hd & _).
  eapply arp_input_merge_wp; try done. intros caches s1 O L.
  assert (has_address s (Some i) tpa = (if_unicast f =? tpa)) as Eh by (unfold has_address; by rewrite Hf).
  rewrite Eh in *. rewrite ntoh16_hton16 by done. specialize (H caches s1 O).
  assert (learned s spa (drop 8 data) caches -> learned s spa sha caches) as Conv.
  { unfold learned. by rewrite F8, (take_ge sha) by lia. }
  assert (if bool_decide (is_Some (cache_lookup (st_arp s) spa)) || (if_unicast f =? tpa)
          then learned s spa sha caches else caches = st_arp s) as L' by (destruct (_ || _); auto).
  specialize (H L'). destruct ((if_unicast f =? tpa) && (op =? ARP_OP_REQUEST)); [|done].
  pose proof (arp_only_frame _ _ _ O) as (_ & En & _).
  eapply wp_mono; [apply (arp_reply_sends i f d dev p); [eapply ether_iface_ext; [..|exact EI]; by rewrite En|rewrite length_drop; lia]|].
  rewrite F8. intros r s2 T. by eapply H.
Qed.

(** C30. What [arp_input] does with a message, from any state with a free mutex:
    it records the sender's address when the sender is already known or asks for
    the interface's own address, and changes no other entry unless the cache was
    full; a sender of a message for another host is not entered.  It answers a
    request for the interface's address with exactly one reply, sent to the
    requester, that carries the interface's own addresses, and sends nothing
    otherwise. *)
Theorem arp_input_learns (op : Z) (sha : list Z) (spa : Z) (tha : list Z) (tpa : Z) (pad : list Z) (len : Z)
    (d : dev_id) (s : stack) (i : iface_id) (f : ip_interface) (dev : network_device) (p : ether_priv)
    (R : arp_ready s) (EI : ether_iface s i f d dev p)
    (Hgi : network_device_get_interface d NETWORK_INTERFACE_FAMILY_IP s = Ret (Some i) s)
    (Hsha : length sha = 6%nat) (Htha : length tha = 6%nat) (Hop : in_u16 op) (Hlen : 28 <= len) :
  wp (arp_input (arp_message op sha spa tha tpa ++ pad) len d) s (fun _ s' =>
    (if bool_decide (is_Some (cache_lookup (st_arp s) spa)) || (if_unicast f =? tpa)
     then learned s spa sha (st_arp s') else st_arp s' = st_arp s) /\
    if (if_unicast f =? tpa) && (op =? ARP_OP_REQUEST)
    then exists n, w_trace (st_world s')
                   = w_trace (st_world s) ++ [(SysWrite (ep_fd p) (reply_frame f dev sha spa), n)]
    else w_trace (st_world s') = w_trace (st_world s)).
Proof.
  eapply arp_input_message_wp; try done. intros caches s1 O L.
  pose proof (arp_only_frame _ _ _ O) as (Ea & _ & _ & _ & _ & _ & Et & _).
  destruct ((if_unicast f =? tpa) && (op =? ARP_OP_REQUEST)).
  - intros r s2 (w & n & -> & Hw & _). simpl. rewrite Ea. split; [done|]. exists n. by rewrite Hw, Et.
  - by rewrite Ea.
Qed.

(** [arp_resolve] of a known address, and of one it has to ask for. *)
Lemma arp_resolve_hit i pa ha s f d dev p e :
  arp_ready s -> ether_iface s i f d dev p ->
  cache_lookup (st_arp s) pa = Some e -> ac_state e <> ARP_CACHE_STATE_INCOMPLETE ->
  wp (arp_resolve i pa ha) s (fun r s' => r = (ARP_RESOLVE_FOUND, ac_ha e ++ drop 6 ha) /\ s' = s).
Proof.
  intros (N & W & Hm) (Hf & Hfd & Hfam & Hd & _ & _ & Hty & _) E Hs.
  eapply arp_resolve_wp; try done.
  - intros e' E' _. rewrite E in E'. by injection E' as <-.
  - intros caches s1 _ Rq. unfold requested in Rq. rewrite E in Rq. by destruct Rq.
Qed.

Lemma arp_resolve_asks i pa ha s f d dev p :
  arp_ready s -> ether_iface s i f d dev p ->
  (forall e, cache_lookup (st_arp s) pa = Some e -> ac_state e = ARP_CACHE_STATE_INCOMPLETE) ->
  wp (arp_resolve i pa ha) s (fun r s' =>
    r = (ARP_RESOLVE_INCOMPLETE, ha) /\ requested s pa (st_arp s') /\ st_held s' = st_held s /\
    exists n, w_trace (st_world s')
              = w_trace (st_world s) ++ [(SysWrite (ep_fd p) (request_frame f dev pa), n)]).
Proof.
  intros (N & W & Hm) EI Hinc. pose proof EI as (Hf & Hfd & Hfam & Hd & _ & _ & Hty & _).
  eapply arp_resolve_wp; try done.
  - intros e E Hs. by apply Hinc in E.
  - intros caches s1 O Rq. pose proof (arp_only_frame _ _ _ O) as (Ea & En & Eh & _ & _ & _ & Et & _).
    eapply wp_mono; [apply (arp_request_sends i f d dev p); eapply ether_iface_ext; [..|exact EI]; simpl; by rewrite En|].
    intros r s2 (w & n & -> & Hw & _). simpl. split; [by left|]. simpl in Hw.
    split_and!; [done|by rewrite Ea|by rewrite Eh, unlock_held|]. exists n. by rewrite Hw, Et.
Qed.

(** C29. [arp_resolve] answers from the cache or asks the network: an address in
    state RESOLVED or STATIC is returned with nothing changed; otherwise the
    result is INCOMPLETE, one request for the address is broadcast, and the cache
    has an INCOMPLETE entry for it (the one it had, or a new one which replaces a
    free entry, if there is one). *)
Theorem arp_resolve_spec (i : iface_id) (pa : Z) (ha : list Z) (s : stack) (f : ip_interface) (d : dev_id)
    (dev : network_device) (p : ether_priv) (R : arp_ready s) (EI : ether_iface s i f d dev p) :
  wp (arp_resolve i pa ha) s (fun r s' =>
    match cache_lookup (st_arp s) pa with
    | Some (ArpCache (ARP_CACHE_STATE_RESOLVED | ARP_CACHE_STATE_STATIC) _ addr _) =>
        r = (ARP_RESOLVE_FOUND, addr ++ drop 6 ha) /\ s' = s
    | _ =>
        r = (ARP_RESOLVE_INCOMPLETE, ha) /\ requested s pa (st_arp s') /\ st_held s' = st_held s /\
        exists n, w_trace (st_world s')
                  = w_trace (st_world s) ++ [(SysWrite (ep_fd p) (request_frame f dev pa), n)]
    end).
Proof.
  pose proof R as (N & W & Hm).
  destruct (cache_lookup (st_arp s) pa) as [e|] eqn:E.
  - pose proof E as (k & _ & Hfree & _)%cache_lookup_spec; [|apply W].
    destruct e as [[] pa' addr ts]; [done|..].
    + eapply arp_resolve_asks; try done. intros e'. rewrite E. by intros [= <-].
    + by eapply (arp_resolve_hit i pa ha s f d dev p _ R EI E).
    + by eapply (arp_resolve_hit i pa ha s f d dev p _ R EI E).
  - eapply arp_resolve_asks; try done. intros e'. by rewrite E.
Qed.

(** A message as the Ethernet layer delivers it, padded to the minimum payload. *)
Definition delivered (m : list Z) : list Z := m ++ replicate (46 - length m) 0.

(** C13. Two hosts resolve each other's addresses: when host A asks for the
    address of host B's interface and has no entry for it, the request A
    broadcasts, handed to B's [arp_input], makes B transmit a reply to A's hardware
    address; the reply, handed to A's [arp_input], completes A's cache, so that
    A's next [arp_resolve] for the address succeeds at once with B's hardware
    address. *)
Theorem arp_exchange_resolves
    (sA : stack) (iA : iface_id) (fA : ip_interface) (dA : dev_id) (devA : network_device) (pA : ether_priv)
    (sB : stack) (iB : iface_id) (fB : ip_interface) (dB : dev_id) (devB : network_device) (pB : ether_priv)
    (ha : list Z)
    (RA : arp_ready sA) (EA : ether_iface sA iA fA dA devA pA)
    (GA : network_device_get_interface dA NETWORK_INTERFACE_FAMILY_IP sA = Ret (Some iA) sA)
    (RB : arp_ready sB) (EB : ether_iface sB iB fB dB devB pB)
    (GB : network_device_get_interface dB NETWORK_INTERFACE_FAMILY_IP sB = Ret (Some iB) sB)
    (Hnew : cache_lookup (st_arp sA) (if_unicast fB) = None) :
  let macA := take 6 (dev_address devA) in
  let macB := take 6 (dev_address devB) in
  let request := arp_message ARP_OP_REQUEST macA (if_unicast fA) (replicate 6 0) (if_unicast fB) in
  let reply := arp_message ARP_OP_REPLY macB (if_unicast fB) macA (if_unicast fA) in
  wp (arp_resolve iA (if_unicast fB) ha) sA (fun r sA1 =>
    r = (ARP_RESOLVE_INCOMPLETE, ha) /\
    (exists n, w_trace (st_world sA1) = w_trace (st_world sA) ++
      [(SysWrite (ep_fd pA) (ether_frame (take 6 (dev_broadcast devA)) macA ETHER_TYPE_ARP request), n)]) /\
    wp (arp_input (delivered request) 46 dB) sB (fun _ sB1 =>
      (exists n, w_trace (st_world sB1) = w_trace (st_world sB) ++
        [(SysWrite (ep_fd pB) (ether_frame macA macB ETHER_TYPE_ARP reply), n)]) /\
      wp (arp_input (delivered reply) 46 dA) sA1 (fun _ sA2 =>
        wp (arp_resolve iA (if_unicast fB) ha) sA2 (fun r sA3 =>
          r = (ARP_RESOLVE_FOUND, macB ++ drop 6 ha) /\ sA3 = sA2)))).
Proof.
  intros macA macB request reply.
  pose proof EA as (HfA & _ & _ & HdA & (LA & _) & _). pose proof EB as (_ & _ & _ & _ & (LB & _) & _).
  assert (length macA = 6%nat) as L1 by (unfold macA; rewrite length_take; lia).
  assert (length macB = 6%nat) as L2 by (unfold macB; rewrite length_take; lia).
  eapply wp_mono; [apply wp_and; [apply (arp_resolve_asks iA (if_unicast fB) ha sA fA dA devA pA)
    |apply arp_resolve_safe]; try done|].
  { intros e. by rewrite Hnew. }
  { exists fA, dA, devA. split_and!; apply EA. }
  intros r sA1 [(-> & Rq & _ & Htr) [(R1 & _ & F1 & D1) _]]. split; [done|]. split; [exact Htr|].
  eapply arp_input_message_wp; try done. intros caches sB0 O _. rewrite Z.eqb_refl.
  pose proof (arp_only_frame _ _ _ O) as (_ & _ & _ & _ & _ & _ & Et & _).
  intros r sB1 (w & n & -> & Hw & _). split; [exists n; simpl; by rewrite Hw, Et|].
  pose proof (driver_frame_inv _ _ F1) as (_ & _ & _ & _ & _ & _ & I1 & _). simpl in I1.
  assert (ether_iface sA1 iA fA dA devA pA) as EA1 by by eapply ether_iface_ext.
  assert (is_Some (cache_lookup (st_arp sA1) (if_unicast fB))) as Hk.
  { unfold requested in Rq. rewrite Hnew in Rq. destruct Rq as (_ & (h & ->) & _). eauto. }
  pose proof (arp_input_safe (delivered reply) 46 dA sA1 devA R1) as Safe.
  eapply wp_mono; [apply wp_and; [apply Safe|eapply arp_input_message_wp]|]; clear Safe.
  { by rewrite D1. }
  { unfold delivered. rewrite length_app, length_replicate. lia. }
  all: try done.
  { by eapply get_interface_ext. }
  { intros caches' sA2 O' L. rewrite bool_decide_true in L by done. cbn [orb] in L.
    replace (ARP_OP_REPLY =? ARP_OP_REQUEST) with false by done. rewrite andb_false_r.
    instantiate (1 := fun _ sA2 => cache_lookup (st_arp sA2) (if_unicast fB)
      = Some (ArpCache ARP_CACHE_STATE_RESOLVED (if_unicast fB) (take 6 macB) (clock_now sA1))).
    simpl. pose proof (arp_only_frame _ _ _ O') as (-> & _). apply L. }
  intros u sA2 [(R2 & _ & F2 & D2) Lk]. simpl in Lk.
  pose proof (driver_frame_inv _ _ F2) as (_ & _ & _ & _ & _ & _ & I2 & _). simpl in I2.
  eapply wp_mono; [eapply (arp_resolve_hit iA (if_unicast fB) ha sA2 fA dA devA pA _ R2); [|exact Lk|done]|].
  { by eapply ether_iface_ext. }
  simpl. rewrite (take_ge macB) by lia. done.
Qed.

(** C31. Entry of a new address evicts at most the oldest one: [arp_cache_insert]
    always finds a place; the new address is then RESOLVED to the given hardware
    address at the current time, and an address the cache knew is still known
    unless all 32 entries were in use and its entry had the least time of all. *)
Theorem arp_cache_insert_evicts (pa : Z) (ha : list Z) (s : stack)
    (W : cache_wf (st_arp s)) (Hha : (6 <= length ha)%nat) (Hnew : cache_lookup (st_arp s) pa = None) :
  wp (arp_cache_insert pa ha) s (fun r s' =>
    is_Some r /\ cache_wf (st_arp s') /\
    cache_lookup (st_arp s') pa = Some (ArpCache ARP_CACHE_STATE_RESOLVED pa (take 6 ha) (clock_now s)) /\
    evicts_oldest (st_arp s) (st_arp s') pa).
Proof.
  apply arp_cache_insert_wp; [done..|]. intros i caches s' O W' Lk _ Ev.
  pose proof (arp_only_frame _ _ _ O) as (-> & _). split_and!; eauto.
Qed.

(** C32. The timer forgets exactly the stale addresses: after [arp_timer] at time
    [now], an address is known just when it was known before and its entry is
    STATIC or less than 31 seconds old; entries it keeps are unchanged. *)
Theorem arp_timer_expires (s : stack) (R : arp_ready s)
    (Hnow : timeval_ok (clock_now s)) (Hts : Forall (fun e => timeval_ok (ac_timestamp e)) (st_arp s)) :
  wp arp_timer s (fun _ s' => forall pa e,
    cache_lookup (st_arp s') pa = Some e <->
    cache_lookup (st_arp s) pa = Some e /\
    (ac_state e = ARP_CACHE_STATE_STATIC \/
     usecs (clock_now s) - usecs (ac_timestamp e) < (ARP_CACHE_TIMEOUT + 1) * 1000000)).
Proof.
  destruct R as (N & W & Hm). eapply wp_mono; [by apply arp_timer_run|]. intros u s' O pa e.
  pose proof (arp_only_frame _ _ _ O) as (-> & _).
  rewrite !cache_lookup_spec by (try apply cache_timer_wf; apply W).
  change (map ?g ?l) with (g <$> l).
  set (keep := fun x => ac_state x = ARP_CACHE_STATE_STATIC \/
    usecs (clock_now s) - usecs (ac_timestamp x) < (ARP_CACHE_TIMEOUT + 1) * 1000000).
  assert (forall i x, st_arp s !! i = Some x -> is_free x = false ->
    (keep x /\ arp_timer_entry (clock_now s) x = x) \/
    (~ keep x /\ is_free (arp_timer_entry (clock_now s) x) = true)) as K.
  { intros i x Hx Hf. eapply Forall_lookup_1 in Hts; [|exact Hx].
    unfold arp_timer_entry, keep. rewrite Hf. cbn [negb andb].
    destruct (timersub_usecs (clock_now s) (ac_timestamp x) Hnow Hts) as [Hok E].
    unfold ARP_CACHE_TIMEOUT, usecs, timeval_ok in *. case_bool_decide as St; cbn [negb]; [by left; auto|].
    destruct (Z.gtb_spec (tv_sec (timersub (clock_now s) (ac_timestamp x))) 30).
    - right. split; [intros [?|?]; [done|lia]|done].
    - left. split; [right; lia|done]. }
  split.
  - intros (i & Hi & Hf & Hp). rewrite list_lookup_fmap in Hi. destruct (st_arp s !! i) as [x|] eqn:Hx; [|done].
    simpl in Hi. injection Hi as <-. destruct (is_free x) eqn:Fx.
    { unfold arp_timer_entry in Hf. rewrite Fx in Hf. simpl in Hf. congruence. }
    destruct (K i x Hx Fx) as [[Hk E]|[_ E]]; [|congruence]. rewrite E in *. eauto.
  - intros [(i & Hi & Hf & Hp) Hk]. exists i. destruct (K i e Hi Hf) as [[_ E]|[? _]]; [|done].
    rewrite list_lookup_fmap, Hi. simpl. by rewrite E.
Qed.

End ArpProperties.

(** ** Concrete hosts *)

(** Hosts A and B on one network, with addresses 10.0.0.1 and 10.0.0.2 (as a
    little-endian machine reads them). *)
Definition host_A : stack := sample_host [2; 0; 0; 0; 0; 1] 0x0100000a 0x00ffffff 0xff00000a.
Definition host_B : stack := sample_host [2; 0; 0; 0; 0; 2] 0x0200000a 0x00ffffff 0xff00000a.
Definition iface_A : ip_interface := sample_iface 0x0100000a 0x00ffffff 0xff00000a.
Definition iface_B : ip_interface := sample_iface 0x0200000a 0x00ffffff 0xff00000a.
Definition dev_A : network_device := sample_dev [2; 0; 0; 0; 0; 1].
Definition dev_B : network_device := sample_dev [2; 0; 0; 0; 0; 2].
Definition priv_AB : ether_priv := EtherPriv "tap0" 3 ETHER_TAP_IRQ.

Lemma cache_boot_wf : cache_wf (replicate ARP_CACHE_SIZE arp_cache_zero).
Proof.
  split_and!; [done|by apply Forall_replicate|].
  intros i j e e' [-> _]%lookup_replicate_1. done.
Qed.

Lemma sample_ready mac addr mask bcast : length mac = 6%nat -> arp_ready (sample_host mac addr mask bcast).
Proof.
  intros H. split_and!.
  - intros d dev Hd. simpl in Hd. apply lookup_singleton_Some in Hd as [<- <-].
    split; [by apply sample_dev_wf|]. apply Forall_singleton. by eexists.
  - apply cache_boot_wf.
  - simpl. set_solver.
Qed.

Lemma sample_ether_iface mac addr mask bcast :
  length mac = 6%nat ->
  ether_iface (sample_host mac addr mask bcast) 1%nat (sample_iface addr mask bcast) 1%nat (sample_dev mac) priv_AB.
Proof. intros H. unfold ether_iface. split_and!; try done. by apply sample_dev_wf. Qed.

Section ArpWitnesses.
#[local] Existing Instance little_endian_machine.

Lemma arp_handlers_safe_witness : wp arp_timer host_A (fun _ s' => arp_step host_A s').
Proof. apply (arp_handlers_safe host_A). by apply sample_ready. Defined.

Lemma arp_input_learns_witness :
  wp (arp_input (arp_message ARP_OP_REQUEST [2; 0; 0; 0; 0; 2] 0x0200000a (replicate 6 0) 0x0100000a ++ replicate 18 0)
        46 1%nat) host_A (fun _ s' =>
    cache_lookup (st_arp s') 0x0200000a
    = Some (ArpCache ARP_CACHE_STATE_RESOLVED 0x0200000a [2; 0; 0; 0; 0; 2] (Timeval 0 0)) /\
    exists n, w_trace (st_world s') = [(SysWrite 3 (reply_frame iface_A dev_A [2; 0; 0; 0; 0; 2] 0x0200000a), n)]).
Proof.
  eapply wp_mono.
  - apply (arp_input_learns ARP_OP_REQUEST [2; 0; 0; 0; 0; 2] 0x0200000a (replicate 6 0) 0x0100000a
      (replicate 18 0) 46 1%nat host_A 1%nat iface_A dev_A priv_AB);
      [by apply sample_ready|by apply sample_ether_iface|reflexivity|reflexivity|reflexivity
      |unfold in_u16, ARP_OP_REQUEST; lia|lia].
  - intros u s' [(_ & L & _) T]. split; [exact L|exact T].
Defined.

Lemma arp_resolve_spec_witness :
  wp (arp_resolve 1%nat 0x0200000a (replicate 16 0)) host_A (fun r s' =>
    r = (ARP_RESOLVE_INCOMPLETE, replicate 16 0) /\ requested host_A 0x0200000a (st_arp s')).
Proof.
  eapply wp_mono.
  - apply (arp_resolve_spec 1%nat 0x0200000a (replicate 16 0) host_A iface_A 1%nat dev_A priv_AB);
      [by apply sample_ready|by apply sample_ether_iface].
  - intros r s' H. by destruct H as (? & ? & _).
Defined.

Lemma arp_exchange_resolves_witness :
  wp (arp_resolve 1%nat 0x0200000a (replicate 16 0)) host_A (fun r _ =>
    r = (ARP_RESOLVE_INCOMPLETE, replicate 16 0)).
Proof.
  eapply wp_mono.
  - apply (arp_exchange_resolves host_A 1%nat iface_A 1%nat dev_A priv_AB host_B 1%nat iface_B 1%nat dev_B priv_AB
      (replicate 16 0)); solve [by apply sample_ready | by apply sample_ether_iface | reflexivity].
  - by intros r s' [? _].
Defined.

Lemma arp_cache_insert_evicts_witness :
  wp (arp_cache_insert 0x0200000a [2; 0; 0; 0; 0; 2]) host_A (fun r s' => is_Some r /\ cache_wf (st_arp s')).
Proof.
  eapply wp_mono.
  - apply (arp_cache_insert_evicts 0x0200000a [2; 0; 0; 0; 0; 2] host_A);
      [apply cache_boot_wf|simpl; lia|reflexivity].
  - by intros r s' (? & ? & _).
Defined.

(** A cache with one entry of time 0, 40 seconds later. *)
Definition host_stale : stack :=
  set_arp (insert 0%nat (ArpCache ARP_CACHE_STATE_RESOLVED 0x0200000a [2; 0; 0; 0; 0; 2] (Timeval 0 0)))
    (set_world (fun _ => world_quiet (Timeval 40 0)) host_A).

Lemma arp_timer_expires_witness :
  wp arp_timer host_stale (fun _ s' => cache_lookup (st_arp s') 0x0200000a = None).
Proof.
  eapply wp_mono.
  - apply (arp_timer_expires host_stale).
    + split_and!; [apply (sample_ready [2; 0; 0; 0; 0; 1] 0x0100000a 0x00ffffff 0xff00000a); done| |simpl; set_solver].
      split_and!; [done|by apply Forall_insert; [apply cache_boot_wf|]|].
      intros i j e e' Hi Hj Fe Fe' _. simpl in Hi, Hj.
      destruct i as [|i], j as [|j]; try done; exfalso; [clear Hi|clear Hj..];
      first [apply (list_elem_of_lookup_2 (tail (st_arp host_stale)) j) in Hj; clear -Hj Fe';
               apply (Forall_forall (fun e => is_free e = true)) in Hj; [congruence|by repeat constructor]
            |apply (list_elem_of_lookup_2 (tail (st_arp host_stale)) i) in Hi; clear -Hi Fe;
               apply (Forall_forall (fun e => is_free e = true)) in Hi; [congruence|by repeat constructor]].
    + unfold timeval_ok. simpl. lia.
    + unfold timeval_ok. repeat constructor; simpl; lia.
  - intros u s' H. apply eq_None_not_Some. intros [e He]. apply H in He as [He Hk].
    vm_compute in He. injection He as <-. vm_compute in Hk. destruct Hk as [?|?]; done.
Defined.

(** The two critical sections of [arp_input] are not one: when another thread's
    [arp_resolve] for the same address runs between them, the cache ends up with
    two entries for the address, and the first, INCOMPLETE one hides the address
    that was learned. *)
Lemma arp_input_interleaved_duplicates :
  exists s1 s2 s3 u,
    arp_ready host_A /\
    arp_input_update 0x0200000a [2; 0; 0; 0; 0; 2] host_A = Ret false s1 /\
    arp_resolve 1%nat 0x0200000a (replicate 16 0) s1 = Ret (ARP_RESOLVE_INCOMPLETE, replicate 16 0) s2 /\
    arp_input_insert 0x0200000a [2; 0; 0; 0; 0; 2] s2 = Ret u s3 /\
    ~ cache_unique (st_arp s3) /\
    ac_state <$> cache_lookup (st_arp s3) 0x0200000a = Some ARP_CACHE_STATE_INCOMPLETE.
Proof.
  do 4 eexists. split; [by apply sample_ready|].
  split; [vm_compute; reflexivity|]. split; [vm_compute; reflexivity|]. split; [vm_compute; reflexivity|].
  split; [|vm_compute; reflexivity].
  intros U. specialize (U 0%nat 1%nat _ _ eq_refl eq_refl eq_refl eq_refl eq_refl). done.
Qed.

End ArpWitnesses.
