(* ===== verification/Ip.v ===== *)
(** * The Internet protocol (src/lib/ip.c, ip2.h)

    Addresses and endpoints as text, the routing table, interfaces, and the input
    and output of datagrams.  The protocols above IP enter through the class
    [IpDispatch] (the [handler] pointers of [struct ip_protocol]).  [ip_dump]
    here is the reads it makes of the packet; its text is in Log.v. *)

From stdpp Require Import base numbers list option gmap strings.
From Stdlib Require Import ZArith Lia Ascii.
From S2P Require Import Prelude Util CLib Queue State Net Ether Drivers Arp.
Open Scope Z_scope.
Open Scope cmonad_scope.

Definition IPV4 : Z := 4.
Definition MIN_IP_HEADER_SIZE : Z := 20.
Definition MAX_IP_PACKET_SIZE : Z := 65535.
Definition MAX_IP_PAYLOAD_SIZE : Z := MAX_IP_PACKET_SIZE - MIN_IP_HEADER_SIZE.
Definition MAX_IP_ADDRESS_STRING_LENGTH : nat := 16.
Definition MAX_IP_ENDPOINT_STRING_LENGTH : nat := MAX_IP_ADDRESS_STRING_LENGTH + 6.
Definition ICMP_PROTOCOL : Z := 0x01.
Definition TCP_PROTOCOL : Z := 0x06.
Definition UDP_PROTOCOL : Z := 0x11.
Definition IP_ADDR_ANY : Z := 0x00000000.
Definition IP_ADDR_BROADCAST : Z := 0xffffffff.

Section Ip.
Context {Mc : Machine}.

(** ** Text *)

(** The loop of [ip_string_to_address] from [idx] on, with [k] rounds to go: the
    result and the four bytes at [n]. *)
Fixpoint ip_pton_loop (idx k : nat) (sp : string) (n : list Z) : Z * list Z :=
  match k with
  | O => (0, n)
  | S k =>
      match strtol 10 sp with
      | (_, None) => (-1, n)
      | (v, Some ep) =>
          if (v <? 0) || (v >? 255) then (-1, n)
          else if (bool_decide (idx = 3%nat) && negb (char_at_head ep =? 0))
                  || (negb (bool_decide (idx = 3%nat)) && negb (char_at_head ep =? 46))
          then (-1, n)
          else ip_pton_loop (S idx) k (string_tail ep) (<[idx := u8 v]> n)
      end
  end.

(** The value of a [uint32_t] object with these bytes. *)
Definition load32_bytes (n : list Z) : Z :=
  match n with
  | [b0; b1; b2; b3] => load32 b0 b1 b2 b3
  | _ => 0
  end.

(** [ip_string_to_address(p, &n)]: the result and [n] afterwards. *)
Definition ip_string_to_address (p : string) (n : Z) : Z * Z :=
  let '(r, b) := ip_pton_loop 0 4 p (store32 n) in (r, load32_bytes b).

(** [ip_address_to_string(n, p, size)]: the text written to [p]. *)
Definition ip_address_to_string (n : Z) (size : nat) : string :=
  match store32 n with
  | [a; b; c; d] => snprintf size (fmt_d a ++ "." ++ fmt_d b ++ "." ++ fmt_d c ++ "." ++ fmt_d d)%string
  | _ => ""%string
  end.

(** [ip_string_to_endpoint(p, n)]: the result and [*n] afterwards.  The text before
    the last colon is copied into a zeroed array of 16 bytes without a check of its
    length; [None] when it does not fit there with its NUL. *)
Definition ip_string_to_endpoint (p : string) (n : endpoint) : option (Z * endpoint) :=
  match strrchr ":"%char p with
  | None => Some (-1, n)
  | Some (addr, port) =>
      if decide (MAX_IP_ADDRESS_STRING_LENGTH <= String.length addr)%nat then None
      else
        let '(r, a) := ip_string_to_address addr (ep_address n) in
        if r =? -1 then Some (-1, Endpoint a (ep_port n))
        else
          let '(v, _) := strtol 10 port in
          if (v <=? 0) || (v >? 65535) then Some (-1, Endpoint a (ep_port n))
          else Some (0, Endpoint a (hton16 v))
  end.

Definition ip_endpoint_to_string (n : endpoint) (size : nat) : string :=
  let text := ip_address_to_string (ep_address n) size in
  let offset := String.length text in
  (text ++ snprintf (size - offset) (":" ++ fmt_d (ntoh16 (ep_port n))))%string.

(** ** Routes *)

Definition ip_route_add (network netmask nexthop : Z) (iface : iface_id) : C (option ip_route) :=
  let! ok := memory_alloc in
  if negb ok then ret None
  else
    let route := IpRoute network netmask nexthop iface in
    modify (set_ip (fun p => IpState (ip_ifaces p) (ip_protocols p) (route :: ip_routes p) (ip_id p)));;
    let! d := iface_dev iface in     (* the log line reads the device's name *)
    get_dev d;;
    ret (Some route).

Fixpoint ip_route_loop (entries : list ip_route) (dst : Z) (candidate : option ip_route) : option ip_route :=
  match entries with
  | [] => candidate
  | route :: rest =>
      let candidate :=
        if Z.land dst (rt_netmask route) =? rt_network route then
          match candidate with
          | None => Some route
          | Some c => if ntoh32 (rt_netmask c) <? ntoh32 (rt_netmask route) then Some route else candidate
          end
        else candidate in
      ip_route_loop rest dst candidate
  end.

Definition ip_route_lookup (routes : list ip_route) (dst : Z) : option ip_route := ip_route_loop routes dst None.

(** [gw] is uninitialised before the call. *)
Definition ip_set_default_gateway (iface : iface_id) (gateway : string) : C Z :=
  let '(r, gw) := ip_string_to_address gateway 0 in
  if r =? -1 then ret (-1)
  else
    let! route := ip_route_add IP_ADDR_ANY IP_ADDR_ANY gw iface in
    match route with None => ret (-1) | Some _ => ret 0 end.

Definition ip_get_interface (dst : Z) : C (option iface_id) :=
  let! p := gets st_ip in
  ret (match ip_route_lookup (ip_routes p) dst with Some route => Some (rt_iface route) | None => None end).

(** ** Interfaces *)

Definition ip_allocate_interface (unicast netmask : string) : C (option iface_id) :=
  let! ok := memory_alloc in
  if negb ok then ret None
  else
    let '(r, u) := ip_string_to_address unicast 0 in
    if r =? -1 then ret None
    else
      let '(r, m) := ip_string_to_address netmask 0 in
      if r =? -1 then ret None
      else
        let! n := gets st_net in
        let id := fresh_id (n_ifs n) in
        let broadcast := Z.lor (Z.land u m) (u32 (Z.lnot m)) in
        modify (set_net (set_ifs (insert id (IpInterface None NETWORK_INTERFACE_FAMILY_IP u m broadcast))));;
        ret (Some id).

Definition ip_register_interface (d : dev_id) (iface : iface_id) : C Z :=
  let! r := network_device_add_interface d iface in
  if r =? -1 then ret (-1)
  else
    let! f := get_iface iface in
    let! route := ip_route_add (Z.land (if_unicast f) (if_netmask f)) (if_netmask f) IP_ADDR_ANY iface in
    match route with
    | None => ret (-1)
    | Some _ =>
        modify (set_ip (fun p => IpState (iface :: ip_ifaces p) (ip_protocols p) (ip_routes p) (ip_id p)));;
        ret 0
    end.

Fixpoint ip_select_loop (entries : list iface_id) (addr : Z) : C (option iface_id) :=
  match entries with
  | [] => ret None
  | entry :: rest =>
      let! f := get_iface entry in
      if if_unicast f =? addr then ret (Some entry) else ip_select_loop rest addr
  end.

Definition ip_select_interface (addr : Z) : C (option iface_id) :=
  let! p := gets st_ip in ip_select_loop (ip_ifaces p) addr.

(** ** Protocols above *)

Definition ip_register_protocol (name : string) (ty : Z) (handler : ip_handler) : C Z :=
  let! p := gets st_ip in
  match list_find (fun e => ipp_type e = ty) (ip_protocols p) with
  | Some _ => ret (-1)
  | None =>
      let! ok := memory_alloc in
      if negb ok then ret (-1)
      else
        let entry := IpProtocol (strncpy 15 name) ty handler in
        modify (set_ip (fun p => IpState (ip_ifaces p) (entry :: ip_protocols p) (ip_routes p) (ip_id p)));;
        ret 0
  end.

Definition ip_get_protocol_name (p : ip_state) (ty : Z) : string :=
  match list_find (fun e => ipp_type e = ty) (ip_protocols p) with
  | Some (_, e) => ipp_name e
  | None => "UNKNOWN"
  end.

(** What the handlers of the protocols do with a payload. *)
Class IpDispatch := call_ip_handler :
  ip_handler -> list Z -> Z -> Z -> Z -> iface_id -> C unit.

(** ** Input *)

(** [ip_dump]: the reads it makes of the packet. *)
Definition ip_dump (data : list Z) : C unit :=
  let! vhl := opt OutOfBounds (rd8 data 0) in
  let hlen := u8 (Z.shiftl (Z.land vhl 0x0f) 2) in
  opt OutOfBounds (rdn data 0 12);;
  let! sum := opt OutOfBounds (rd16 data 10) in
  opt OutOfBounds (cksum16 data hlen (- sum));;
  opt OutOfBounds (rd32 data 12);;
  opt OutOfBounds (rd32 data 16);;
  ret tt.

Definition ip_input `{IpDispatch} (data : list Z) (len : Z) (d : dev_id) : C unit :=
  if len <? MIN_IP_HEADER_SIZE then ret tt
  else
    let! iface := network_device_get_interface d NETWORK_INTERFACE_FAMILY_IP in
    match iface with
    | None => ret tt
    | Some i =>
        let! vhl := opt OutOfBounds (rd8 data 0) in
        if negb (Z.shiftr vhl 4 =? IPV4) then ret tt
        else
          let hlen := u16 (Z.shiftl (Z.land vhl 0x0f) 2) in
          if hlen >? len then ret tt
          else
            let! t := opt OutOfBounds (rd16 data 2) in
            let total := ntoh16 t in
            if total >? len then ret tt
            else
              let! sum := opt OutOfBounds (cksum16 data hlen 0) in
              if negb (sum =? 0) then ret tt
              else
                let! o := opt OutOfBounds (rd16 data 6) in
                let offset := ntoh16 o in
                let! dst := opt OutOfBounds (rd32 data 16) in
                let! f := get_iface i in
                if truthy (Z.land offset 0x2000) || truthy (Z.land offset 0x1fff)
                   || (negb (dst =? if_unicast f) && negb (dst =? if_broadcast f) && negb (dst =? IP_ADDR_BROADCAST))
                then ret tt
                else
                  ip_dump data;;
                  let! proto := opt OutOfBounds (rd8 data 9) in
                  let! src := opt OutOfBounds (rd32 data 12) in
                  let! p := gets st_ip in
                  match list_find (fun e => ipp_type e = proto) (ip_protocols p) with
                  | None => ret tt
                  | Some (_, e) =>
                      call_ip_handler (ipp_handler e) (drop (Z.to_nat hlen) data) (u64 (total - hlen)) src dst i
                  end
    end.

(** ** Output *)

Definition ip_output_device (iface : iface_id) (data : list Z) (len : Z) (dst : Z) : C Z :=
  let hwaddr := replicate NETWORK_DEVICE_ADDR_LEN 0 in
  let! f := get_iface iface in
  let! d := iface_dev iface in
  let! dev := get_dev d in
  if truthy (Z.land (dev_flags dev) NETWORK_DEVICE_FLAG_NEED_ARP) then
    if (dst =? if_broadcast f) || (dst =? IP_ADDR_BROADCAST) then
      let n := Z.to_nat (dev_address_len dev) in
      let! b := opt OutOfBounds (rdn (dev_broadcast dev) 0 n) in
      network_device_output d NETWORK_PROTOCOL_TYPE_IP data len (b ++ drop n hwaddr)
    else
      let! (r, hwaddr) := arp_resolve iface dst hwaddr in
      if negb (r =? ARP_RESOLVE_FOUND) then ret r
      else network_device_output d NETWORK_PROTOCOL_TYPE_IP data len hwaddr
  else network_device_output d NETWORK_PROTOCOL_TYPE_IP data len hwaddr.

(** The header with checksum field [sum]. *)
Definition ip_header (total id offset protocol sum src dst : Z) : list Z :=
  [Z.lor (Z.shiftl IPV4 4) (Z.shiftr MIN_IP_HEADER_SIZE 2); 0] ++ store16 (hton16 total) ++
  store16 (hton16 id) ++ store16 (hton16 offset) ++ [0xff; protocol] ++ store16 sum ++
  store32 src ++ store32 dst.

Definition ip_output_core (iface : iface_id) (protocol : Z) (data : list Z) (len src dst nexthop id offset : Z) : C Z :=
  let hlen := MIN_IP_HEADER_SIZE in
  let total := u16 (hlen + len) in
  let! sum := opt OutOfBounds (cksum16 (ip_header total id offset protocol 0 src dst) hlen 0) in
  if hlen + len >? MAX_IP_PACKET_SIZE then throw OutOfBounds   (* memcpy past the end of buf *)
  else
    let! payload := opt OutOfBounds (rdn data 0 (Z.to_nat len)) in
    let buf := ip_header total id offset protocol sum src dst ++ payload in
    let! d := iface_dev iface in
    get_dev d;;
    ip_dump buf;;
    ip_output_device iface buf total nexthop.

Definition ip_generate_id : C Z :=
  mutex_lock ip_id_mutex;;
  let! p := gets st_ip in
  modify (set_ip (fun p => IpState (ip_ifaces p) (ip_protocols p) (ip_routes p) (u16 (ip_id p + 1))));;
  mutex_unlock ip_id_mutex;;
  ret (ip_id p).

Definition ip_send_packet (protocol : Z) (data : list Z) (len : Z) (src dst : Z) : C Z :=
  if (src =? IP_ADDR_ANY) && (dst =? IP_ADDR_BROADCAST) then ret (-1)
  else
    let! p := gets st_ip in
    match ip_route_lookup (ip_routes p) dst with
    | None => ret (-1)
    | Some route =>
        let iface := rt_iface route in
        let! f := get_iface iface in
        if negb (src =? IP_ADDR_ANY) && negb (src =? if_unicast f) then ret (-1)
        else
          let nexthop := if negb (rt_nexthop route =? IP_ADDR_ANY) then rt_nexthop route else dst in
          let! d := iface_dev iface in
          let! dev := get_dev d in
          if dev_mtu dev <? u64 (MIN_IP_HEADER_SIZE + len) then ret (-1)
          else
            let! id := ip_generate_id in
            let! r := ip_output_core iface protocol data len (if_unicast f) dst nexthop id 0 in
            if r =? -1 then ret (-1) else ret len
    end.

Definition ip_initialize : C Z :=
  let! r := network_protocol_register "IP" NETWORK_PROTOCOL_TYPE_IP fn_ip_input in
  if r =? -1 then ret (-1) else ret 0.

End Ip.

(** ** Lemmas: text *)

Lemma strrchr_append c s t :
  strrchr c t = None -> strrchr c (s ++ String c t) = Some (s, t).
Proof.
  intros H. induction s as [|d s IH]; simpl.
  - rewrite H. by rewrite Ascii.eqb_refl.
  - by rewrite IH.
Qed.

Lemma strrchr_digits c f n acc :
  (forall d, 0 <= d < 10 -> digit_char d <> c) -> 0 <= n ->
  strrchr c acc = None -> strrchr c (dec_digits f n acc) = None.
Proof.
  intros Hc. revert n acc. induction f as [|f IH]; intros n acc Hn Ha; [done|]. cbn [dec_digits].
  assert (strrchr c (String (digit_char (n mod 10)) acc) = None) as Hs.
  { simpl. rewrite Ha. destruct (Ascii.eqb_spec c (digit_char (n mod 10))) as [E|]; [|done].
    destruct (Hc (n mod 10)); [Z.div_mod_to_equations; lia|done]. }
  destruct (n <? 10); [done|]. apply IH; [Z.div_mod_to_equations; lia|done].
Qed.

Lemma digit_not_colon d : 0 <= d < 10 -> digit_char d <> ":"%char.
Proof.
  intros H E. apply (f_equal code) in E. rewrite code_digit_char in E by lia.
  replace (d <? 10) with true in E by lia. change (code ":"%char) with 58 in E. lia.
Qed.

Lemma length_fmt_d_byte n : in_u8 n -> (String.length (fmt_d n) <= 3)%nat.
Proof.
  unfold in_u8. intros H. unfold fmt_d.
  etrans; [apply (length_dec_digits 20 n "" 2)|done]; [change (10 ^ Z.of_nat 3) with 1000|]; lia.
Qed.

Lemma length_fmt_d_u16 n : in_u16 n -> (String.length (fmt_d n) <= 5)%nat.
Proof.
  unfold in_u16. intros H. unfold fmt_d.
  etrans; [apply (length_dec_digits 20 n "" 4)|done]; [change (10 ^ Z.of_nat 5) with 100000|]; lia.
Qed.

Lemma ip_pton_step idx k v rest n :
  in_u8 v -> (idx < 3)%nat ->
  ip_pton_loop idx (S k) (fmt_d v ++ "." ++ rest) n = ip_pton_loop (S idx) k rest (<[idx := v]> n).
Proof.
  intros Hv Hi. pose proof Hv as Hv'. unfold in_u8 in Hv'.
  cbn [ip_pton_loop]. rewrite strtol_fmt_d by (done || unfold LONG_MAX; lia).
  replace ((v <? 0) || (v >? 255)) with false by lia.
  rewrite bool_decide_false by lia. change (char_at_head ("." ++ rest)%string =? 46) with true.
  cbn [negb andb orb]. by rewrite u8_small.
Qed.

Lemma ip_pton_last v n : in_u8 v -> ip_pton_loop 3 1 (fmt_d v) n = (0, <[3%nat := v]> n).
Proof.
  intros Hv. pose proof Hv as Hv'. unfold in_u8 in Hv'.
  cbn [ip_pton_loop]. replace (fmt_d v) with (fmt_d v ++ "")%string
    by (unfold fmt_d; by rewrite dec_digits_append).
  rewrite strtol_fmt_d by (done || unfold LONG_MAX; lia).
  replace ((v <? 0) || (v >? 255)) with false by lia. simpl. by rewrite u8_small.
Qed.

Section IpText.
Context {Mc : Machine}.

Lemma store32_parts n :
  in_u32 n -> exists a b c d, store32 n = [a; b; c; d] /\ load32 a b c d = n /\
    in_u8 a /\ in_u8 b /\ in_u8 c /\ in_u8 d.
Proof.
  intros H. pose proof (store32_bytes n H) as B. destruct (store32_load32 n) as (a & b & c & d & E & L).
  exists a, b, c, d. rewrite E in B. repeat (apply bytes_cons in B as [? B]). done.
Qed.

(** The text of an address, when it fits. *)
Lemma ip_address_text n size :
  in_u32 n -> (16 <= size)%nat ->
  (String.length (ip_address_to_string n size) <= 15)%nat /\
  forall m, ip_string_to_address (ip_address_to_string n size) m = (0, n).
Proof.
  intros Hn Hs. unfold ip_address_to_string. destruct (store32_parts n Hn) as (a & b & c & d & -> & L & Ha & Hb & Hc & Hd).
  pose proof (length_fmt_d_byte a Ha). pose proof (length_fmt_d_byte b Hb).
  pose proof (length_fmt_d_byte c Hc). pose proof (length_fmt_d_byte d Hd).
  rewrite snprintf_fits by (rewrite !length_append; simpl; lia).
  split; [rewrite !length_append; simpl; lia|].
  intros m. unfold ip_string_to_address. rewrite !ip_pton_step by (done || lia). rewrite ip_pton_last by done.
  destruct (store32_load32 m) as (m0 & m1 & m2 & m3 & -> & _). simpl. by rewrite L.
Qed.

(** C39. Addresses survive printing and parsing: every IPv4 address printed into
    a buffer of 16 bytes fits with its NUL and is read back as the same address;
    every endpoint printed into 22 bytes fits with its NUL, and its text is read
    without a write outside the buffers, as the same endpoint when the port is not 0;
    port 0 is refused with -1, after the address has been stored. *)
Theorem ip_text_roundtrip (n : endpoint) (m : Z) (e : endpoint)
    (Ha : in_u32 (ep_address n)) (Hp : in_u16 (ep_port n)) :
  ip_string_to_address (ip_address_to_string (ep_address n) MAX_IP_ADDRESS_STRING_LENGTH) m = (0, ep_address n) /\
  (String.length (ip_endpoint_to_string n MAX_IP_ENDPOINT_STRING_LENGTH) < MAX_IP_ENDPOINT_STRING_LENGTH)%nat /\
  ip_string_to_endpoint (ip_endpoint_to_string n MAX_IP_ENDPOINT_STRING_LENGTH) e
  = Some (if ep_port n =? 0 then (-1, Endpoint (ep_address n) (ep_port e)) else (0, n)).
Proof.
  destruct (ip_address_text (ep_address n) MAX_IP_ADDRESS_STRING_LENGTH Ha) as [_ R]; [unfold MAX_IP_ADDRESS_STRING_LENGTH; lia|].
  split; [apply R|]. clear R.
  destruct (ip_address_text (ep_address n) MAX_IP_ENDPOINT_STRING_LENGTH Ha) as [L R];
    [unfold MAX_IP_ENDPOINT_STRING_LENGTH, MAX_IP_ADDRESS_STRING_LENGTH; lia|].
  unfold ip_endpoint_to_string. set (text := ip_address_to_string _ _) in *.
  assert (in_u16 (ntoh16 (ep_port n))) as Hq by by apply ntoh16_range.
  pose proof (length_fmt_d_u16 _ Hq) as L5.
  assert (String.length (":" ++ fmt_d (ntoh16 (ep_port n))) <= 6)%nat as L6
    by (rewrite length_append; change (String.length ":") with 1%nat; lia).
  rewrite snprintf_fits by (unfold MAX_IP_ENDPOINT_STRING_LENGTH, MAX_IP_ADDRESS_STRING_LENGTH; lia).
  split; [rewrite length_append; unfold MAX_IP_ENDPOINT_STRING_LENGTH, MAX_IP_ADDRESS_STRING_LENGTH; lia|].
  unfold ip_string_to_endpoint. change (":" ++ ?t)%string with (String ":"%char t).
  unfold in_u16 in Hq.
  rewrite strrchr_append by (apply strrchr_digits; [apply digit_not_colon|lia|done]).
  rewrite decide_False by (unfold MAX_IP_ADDRESS_STRING_LENGTH; lia). rewrite R. cbn [Z.eqb].
  replace (fmt_d (ntoh16 (ep_port n))) with (fmt_d (ntoh16 (ep_port n)) ++ "")%string
    by (unfold fmt_d; by rewrite dec_digits_append).
  rewrite strtol_fmt_d by (done || unfold LONG_MAX; lia).
  destruct (Z.eqb_spec (ep_port n) 0) as [E0|E0].
  { by rewrite E0, ntoh16_0. }
  assert (ntoh16 (ep_port n) <> 0) as N0
    by (intros E; apply E0; by rewrite <- (hton16_ntoh16 (ep_port n)), E, hton16_0 by done).
  replace ((ntoh16 (ep_port n) <=? 0) || (ntoh16 (ep_port n) >? 65535)) with false by lia.
  rewrite hton16_ntoh16 by done. by destruct n.
Qed.

(** Text of 16 characters or more before the last colon overruns the array. *)
Lemma ip_string_to_endpoint_overrun addr port e :
  strrchr ":"%char port = None -> (16 <= String.length addr)%nat ->
  ip_string_to_endpoint (addr ++ String ":"%char port) e = None.
Proof.
  intros H L. unfold ip_string_to_endpoint. rewrite strrchr_append by done.
  by rewrite decide_True by (unfold MAX_IP_ADDRESS_STRING_LENGTH; lia).
Qed.

End IpText.

(** ** Routes *)

Section IpRoutes.
Context {Mc : Machine}.

Definition route_matches (dst : Z) (r : ip_route) : Prop := Z.land dst (rt_netmask r) = rt_network r.

(** [r] is the best of [routes] for [dst]: it matches, no match has a larger mask,
    and no match with as large a mask comes before it. *)
Definition best_route (routes : list ip_route) (dst : Z) (r : ip_route) : Prop :=
  exists l1 l2, routes = l1 ++ r :: l2 /\ route_matches dst r /\
    Forall (fun x => route_matches dst x -> ntoh32 (rt_netmask x) < ntoh32 (rt_netmask r)) l1 /\
    Forall (fun x => route_matches dst x -> ntoh32 (rt_netmask x) <= ntoh32 (rt_netmask r)) l2.

Lemma route_loop_spec pre l dst c :
  match c with
  | None => Forall (fun x => ~ route_matches dst x) pre
  | Some r => best_route pre dst r
  end ->
  match ip_route_loop l dst c with
  | None => Forall (fun x => ~ route_matches dst x) (pre ++ l)
  | Some r => best_route (pre ++ l) dst r
  end.
Proof.
  revert pre c. induction l as [|x l IH]; intros pre c Hc; simpl; [by rewrite app_nil_r|].
  replace (pre ++ x :: l) with ((pre ++ [x]) ++ l) by (by rewrite <- app_assoc).
  apply IH. destruct (Z.eqb_spec (Z.land dst (rt_netmask x)) (rt_network x)) as [Hm|Hm].
  - destruct c as [r|].
    + destruct Hc as (l1 & l2 & -> & Hr & H1 & H2).
      destruct (Z.ltb_spec (ntoh32 (rt_netmask r)) (ntoh32 (rt_netmask x))).
      * exists (l1 ++ r :: l2), []. split_and!; [done|done| |done].
        apply Forall_app. split; [|apply Forall_cons; split]; [| |].
        -- eapply Forall_impl; [exact H1|]. intros y Hy My. specialize (Hy My). lia.
        -- intros _. lia.
        -- eapply Forall_impl; [exact H2|]. intros y Hy My. specialize (Hy My). lia.
      * exists l1, (l2 ++ [x]). rewrite <- app_assoc. split_and!; try done.
        apply Forall_app. split; [done|]. apply Forall_singleton. intros _. lia.
    + exists pre, []. split_and!; try done. eapply Forall_impl; [exact Hc|]. intros y Hy My. by destruct Hy.
  - destruct c as [r|].
    + destruct Hc as (l1 & l2 & -> & Hr & H1 & H2).
      exists l1, (l2 ++ [x]). rewrite <- app_assoc. split_and!; try done.
      apply Forall_app. split; [done|]. by apply Forall_singleton.
    + apply Forall_app. split; [done|]. by apply Forall_singleton.
Qed.

Lemma route_lookup_spec routes dst :
  match ip_route_lookup routes dst with
  | None => Forall (fun x => ~ route_matches dst x) routes
  | Some r => best_route routes dst r
  end.
Proof. apply (route_loop_spec [] routes dst None). by apply Forall_nil. Qed.

(** The network mask of a prefix of [k] bits, as it is in memory. *)
Definition prefix_mask (k : Z) : Z := hton32 (2 ^ 32 - 2 ^ (32 - k)).

Lemma prefix_mask_le j k :
  0 <= j <= 32 -> 0 <= k <= 32 -> ntoh32 (prefix_mask j) <= ntoh32 (prefix_mask k) -> j <= k.
Proof.
  intros Hj Hk H. unfold prefix_mask in H.
  assert (forall i, 0 <= i <= 32 -> 1 <= 2 ^ (32 - i) <= 2 ^ 32) as R.
  { intros i Hi. split; [|apply Z.pow_le_mono_r; lia].
    change 1 with (2 ^ 0). apply Z.pow_le_mono_r; lia. }
  pose proof (R j Hj). pose proof (R k Hk).
  rewrite !ntoh32_hton32 in H by (unfold in_u32; lia).
  destruct (Z.le_gt_cases j k) as [|Hgt]; [done|].
  assert (2 ^ (32 - j) < 2 ^ (32 - k)) by (apply Z.pow_lt_mono_r; lia). lia.
Qed.

(** C23. Routing is by longest prefix: [ip_route_lookup] fails exactly when no
    route matches the destination; otherwise it returns a route of the table that
    matches, and, when every mask is the mask of a prefix, no matching route has a
    longer prefix; among equally long ones it takes the one added last. *)
Theorem ip_route_lookup_longest (routes : list ip_route) (dst : Z) (plen : ip_route -> Z)
    (Hm : Forall (fun r => 0 <= plen r <= 32 /\ rt_netmask r = prefix_mask (plen r)) routes) :
  match ip_route_lookup routes dst with
  | None => forall r, r ∈ routes -> ~ route_matches dst r
  | Some r => exists l1 l2, routes = l1 ++ r :: l2 /\ route_matches dst r /\
      (forall x, x ∈ routes -> route_matches dst x -> plen x <= plen r) /\
      (forall x, x ∈ l1 -> route_matches dst x -> plen x < plen r)
  end.
Proof.
  pose proof (route_lookup_spec routes dst) as H. rewrite Forall_forall in Hm.
  destruct (ip_route_lookup routes dst) as [r|]; [|by rewrite Forall_forall in H].
  destruct H as (l1 & l2 & E & Hr & H1 & H2). exists l1, l2. rewrite Forall_forall in H1, H2.
  assert (r ∈ routes) as Hin by (rewrite E; set_solver).
  destruct (Hm r Hin) as [Rr Er].
  assert (forall x, x ∈ routes -> ntoh32 (rt_netmask x) <= ntoh32 (rt_netmask r) -> plen x <= plen r) as K.
  { intros x Hx Hle. destruct (Hm x Hx) as [Rx Ex]. rewrite Ex, Er in Hle. by apply prefix_mask_le. }
  split_and!; [done|done| |].
  - intros x Hx Mx. apply K; [done|]. rewrite E in Hx. apply elem_of_app in Hx as [Hx|Hx].
    + specialize (H1 x Hx Mx). lia.
    + apply elem_of_cons in Hx as [->|Hx]; [lia|]. by apply H2.
  - intros x Hx Mx. specialize (H1 x Hx Mx).
    assert (x ∈ routes) as Hx' by (rewrite E; set_solver). destruct (Hm x Hx') as [Rx Ex].
    assert (plen x <= plen r) by (apply K; [done|lia]).
    destruct (Z.eq_dec (plen x) (plen r)) as [Epl|]; [|lia].
    rewrite Ex, Er, Epl in H1. lia.
Qed.

End IpRoutes.

(** ** Lemmas: datagrams *)

Section IpPackets.
Context {Mc : Machine}.

Lemma length_ip_header total id offset protocol sum src dst :
  length (ip_header total id offset protocol sum src dst) = 20%nat.
Proof. unfold ip_header. by rewrite !length_app, !length_store16, !length_store32. Qed.

(** The fields as they are read back, whatever follows the header. *)
Lemma ip_header_fields total id offset protocol sum src dst (rest : list Z) :
  let data := ip_header total id offset protocol sum src dst ++ rest in
  rd8 data 0 = Some 0x45 /\ rd16 data 2 = Some (hton16 total) /\ rd16 data 6 = Some (hton16 offset) /\
  rd8 data 9 = Some protocol /\ rd16 data 10 = Some sum /\ rd32 data 12 = Some src /\
  rd32 data 16 = Some dst /\ drop 20 data = rest.
Proof.
  intros data. unfold data, ip_header.
  destruct (store16_load16 (hton16 total)) as (a0 & a1 & -> & Ea).
  destruct (store16_load16 (hton16 id)) as (b0 & b1 & -> & Eb).
  destruct (store16_load16 (hton16 offset)) as (c0 & c1 & -> & Ec).
  destruct (store16_load16 sum) as (d0 & d1 & -> & Ed).
  destruct (store32_load32 src) as (e0 & e1 & e2 & e3 & -> & Ee).
  destruct (store32_load32 dst) as (f0 & f1 & f2 & f3 & -> & Ef).
  cbn. rewrite Ea, Ec, Ed, Ee, Ef. by split_and!.
Qed.

Lemma ip_header_bytes total id offset protocol sum src dst :
  in_u16 total -> in_u16 id -> in_u16 offset -> in_u8 protocol -> in_u16 sum -> in_u32 src -> in_u32 dst ->
  bytes (ip_header total id offset protocol sum src dst).
Proof.
  intros. unfold ip_header. rewrite !bytes_app. split_and!;
    try (apply store16_bytes; by try apply hton16_range); try by apply store32_bytes.
  - apply bytesb_spec. reflexivity.
  - apply bytes_cons. split; [unfold in_u8; lia|]. apply bytes_cons. auto with word.
Qed.

(** The checksum [ip_output_core] stores makes the header verify. *)
Lemma ip_header_sum total id offset protocol src dst c :
  in_u16 total -> in_u16 id -> in_u16 offset -> in_u8 protocol -> in_u32 src -> in_u32 dst ->
  cksum16 (ip_header total id offset protocol 0 src dst) 20 0 = Some c ->
  in_u16 c /\
  forall rest, bytes rest -> cksum16 (ip_header total id offset protocol c src dst ++ rest) 20 0 = Some 0.
Proof.
  intros Ht Hi Ho Hp Hs Hd Hc.
  set (pre := [Z.lor (Z.shiftl IPV4 4) (Z.shiftr MIN_IP_HEADER_SIZE 2); 0] ++ store16 (hton16 total) ++
    store16 (hton16 id) ++ store16 (hton16 offset) ++ [0xff; protocol]).
  set (post := store32 src ++ store32 dst).
  assert (forall v, ip_header total id offset protocol v src dst = pre ++ store16 v ++ post) as E.
  { intros v. unfold ip_header, pre, post. by rewrite <- !app_assoc. }
  assert (in_u16 0) as U0 by (unfold in_u16; lia).
  pose proof (ip_header_bytes total id offset protocol 0 src dst Ht Hi Ho Hp U0 Hs Hd) as B.
  rewrite E, !bytes_app in B. destruct B as (Bpre & _ & Bpost).
  assert (length pre = 10%nat) as Lp by (unfold pre; by rewrite !length_app, !length_store16).
  assert (forall v, Z.of_nat (length (pre ++ store16 v ++ post)) = 20) as L
    by (intros v; by rewrite <- E, length_ip_header).
  destruct (cksum16_fill pre post 0 c) as [Rc Hz]; try done; [by rewrite Lp|rewrite L; lia|by rewrite L, <- E|].
  split; [done|]. intros rest Hr. rewrite L, <- E in Hz.
  pose proof (ip_header_bytes total id offset protocol c src dst Ht Hi Ho Hp Rc Hs Hd) as Bh.
  assert (forall v l, length l = 20%nat -> take (Z.to_nat 20) (l ++ v : list Z) = l) as T
    by (intros v l Hl; rewrite take_app_length'; [done|by rewrite Hl]).
  rewrite cksum16_run in Hz by (done || lia || (rewrite length_ip_header; lia)).
  rewrite cksum16_run by (by apply bytes_app || lia || (rewrite length_app, length_ip_header; lia)).
  rewrite T by apply length_ip_header.
  rewrite take_ge in Hz by (by rewrite length_ip_header). done.
Qed.

Lemma ip_dump_ok data s :
  (20 <= length data)%nat ->
  (forall v, rd8 data 0 = Some v -> u8 (Z.shiftl (Z.land v 15) 2) <= Z.of_nat (length data)) ->
  ip_dump data s = Ret tt s.
Proof.
  intros Hl Hh. unfold ip_dump. destruct (rd8_in data 0) as [v Ev]; [lia|]. rewrite Ev.
  erewrite bind_ret by reflexivity. specialize (Hh v Ev).
  rewrite rdn_in by lia. erewrite bind_ret by reflexivity.
  destruct (rd16_in data 10) as [x ->]; [lia|]. erewrite bind_ret by reflexivity.
  destruct (cksum16_in data (u8 (Z.shiftl (Z.land v 15) 2)) (- x)) as [c ->].
  { rewrite u16_small; [done|]. pose proof (u8_range (Z.shiftl (Z.land v 15) 2)) as R.
    unfold in_u8 in R. unfold in_u16. lia. }
  destruct (rd32_in data 12) as [y ->]; [lia|]. destruct (rd32_in data 16) as [z ->]; [lia|]. done.
Qed.

(** [ip_output_core] hands a datagram with a valid checksum to the device. *)
Lemma ip_output_core_run iface protocol data len src dst nexthop id s f d dev :
  n_ifs (st_net s) !! iface = Some f -> if_dev f = Some d -> n_devs (st_net s) !! d = Some dev ->
  0 <= len <= 65515 -> len <= Z.of_nat (length data) ->
  exists c,
    cksum16 (ip_header (20 + len) id 0 protocol 0 src dst) 20 0 = Some c /\
    ip_output_core iface protocol data len src dst nexthop id 0 s
    = ip_output_device iface (ip_header (20 + len) id 0 protocol c src dst ++ take (Z.to_nat len) data)
        (20 + len) nexthop s.
Proof.
  intros Hf Hfd Hd Hlen Hdata. unfold ip_output_core. change MIN_IP_HEADER_SIZE with 20.
  rewrite u16_small by (unfold in_u16; lia).
  destruct (cksum16_in (ip_header (20 + len) id 0 protocol 0 src dst) 20 0) as [c Hc].
  { by rewrite length_ip_header. }
  exists c. split; [done|]. rewrite Hc. cbn [opt]. erewrite bind_ret by reflexivity.
  replace (20 + len >? MAX_IP_PACKET_SIZE) with false by (unfold MAX_IP_PACKET_SIZE; lia).
  rewrite rdn_in, drop_0 by lia. cbn [opt]. erewrite bind_ret by reflexivity.
  erewrite bind_ret by by eapply iface_dev_ok. erewrite bind_ret by by apply get_dev_ok.
  erewrite bind_ret; [done|]. apply ip_dump_ok.
  - rewrite length_app, length_ip_header. lia.
  - intros v Hv. pose proof (ip_header_fields (20 + len) id 0 protocol c src dst (take (Z.to_nat len) data)) as (F & _).
    rewrite Hv in F. injection F as ->. rewrite length_app, length_ip_header. vm_compute (u8 _). lia.
Qed.

End IpPackets.

(** ** Properties: input *)

Section IpInput.
Context {Mc : Machine} {H : IpDispatch}.

(** The destinations an interface takes packets for. *)
Definition for_iface (f : ip_interface) (dst : Z) : bool :=
  (dst =? if_unicast f) || (dst =? if_broadcast f) || (dst =? IP_ADDR_BROADCAST).

(** The handler of a protocol number. *)
Definition handler_of (s : stack) (proto : Z) : option ip_handler :=
  match list_find (fun e => ipp_type e = proto) (ip_protocols (st_ip s)) with
  | Some (_, e) => Some (ipp_handler e)
  | None => None
  end.

(** What is done with a payload for protocol [proto]. *)
Definition ip_deliver (s : stack) (proto : Z) (data : list Z) (len src dst : Z) (i : iface_id) : outcome stack unit :=
  match handler_of s proto with
  | Some h => call_ip_handler h data len src dst i s
  | None => Ret tt s
  end.

Lemma ip_input_datagram id protocol c src dst (payload pad : list Z) d s i f :
  0 <= Z.of_nat (length payload) <= 65515 ->
  cksum16 (ip_header (20 + Z.of_nat (length payload)) id 0 protocol c src dst ++ payload ++ pad) 20 0 = Some 0 ->
  network_device_get_interface d NETWORK_INTERFACE_FAMILY_IP s = Ret (Some i) s ->
  n_ifs (st_net s) !! i = Some f -> for_iface f dst = true ->
  ip_input (ip_header (20 + Z.of_nat (length payload)) id 0 protocol c src dst ++ payload ++ pad)
    (20 + Z.of_nat (length (payload ++ pad))) d s
  = ip_deliver s protocol (payload ++ pad) (Z.of_nat (length payload)) src dst i.
Proof.
  intros Hlen Hc Hg Hf Hdst.
  destruct (ip_header_fields (20 + Z.of_nat (length payload)) id 0 protocol c src dst (payload ++ pad))
    as (F0 & F2 & F6 & F9 & F10 & F12 & F16 & Fd).
  set (data := ip_header _ _ _ _ _ _ _ ++ payload ++ pad) in *.
  assert (length data = 20 + length (payload ++ pad))%nat as L by (unfold data; by rewrite length_app, length_ip_header).
  clearbody data. pose proof (Nat2Z.is_nonneg (length (payload ++ pad))).
  unfold ip_input. change MIN_IP_HEADER_SIZE with 20.
  replace (20 + Z.of_nat (length (payload ++ pad)) <? 20) with false by lia.
  erewrite bind_ret by exact Hg. rewrite F0. cbn [opt]. erewrite bind_ret by reflexivity.
  change (Z.shiftr 69 4 =? IPV4) with true. cbn [negb].
  change (u16 (Z.shiftl (Z.land 69 15) 2)) with 20.
  replace (20 >? 20 + Z.of_nat (length (payload ++ pad))) with false by lia.
  rewrite F2. cbn [opt]. erewrite bind_ret by reflexivity.
  rewrite ntoh16_hton16 by (unfold in_u16; lia).
  replace (20 + Z.of_nat (length payload) >? 20 + Z.of_nat (length (payload ++ pad))) with false
    by (rewrite length_app; symmetry; rewrite Z.gtb_ltb; apply Z.ltb_ge; lia).
  rewrite Hc. cbn [opt]. erewrite bind_ret by reflexivity. rewrite Z.eqb_refl. cbn [negb].
  rewrite F6. cbn [opt]. erewrite bind_ret by reflexivity. rewrite F16. cbn [opt]. erewrite bind_ret by reflexivity.
  erewrite bind_ret by by apply get_iface_ok.
  rewrite ntoh16_hton16 by (unfold in_u16; lia). change (truthy (Z.land 0 _)) with false. cbn [orb].
  unfold for_iface in Hdst. rewrite <- !negb_orb, Hdst. cbn [negb].
  erewrite bind_ret.
  2:{ apply ip_dump_ok; [lia|]. intros v Hv. rewrite F0 in Hv. injection Hv as <-.
      change (u8 (Z.shiftl (Z.land 69 15) 2)) with 20. lia. }
  rewrite F9. cbn [opt]. erewrite bind_ret by reflexivity. rewrite F12. cbn [opt]. erewrite bind_ret by reflexivity.
  erewrite bind_ret by reflexivity. unfold ip_deliver, handler_of.
  destruct (list_find _ _) as [[k e]|]; [|done].
  change (Z.to_nat 20) with 20%nat. rewrite Fd. f_equal.
  rewrite Z.add_simpl_l. by rewrite u64_small by lia.
Qed.

(** C10. What IP sends, IP receives: [ip_output_core] hands its device one buffer,
    a datagram of 20 + [len] bytes; and on any host where that buffer arrives, with
    whatever padding the link added, on a device whose interface takes the
    destination address, [ip_input] accepts it and gives the handler of the same
    protocol the very payload, its length, and the source and destination
    addresses it was sent with. *)
Theorem ip_output_input_roundtrip (iface : iface_id) (protocol : Z) (data : list Z) (len src dst nexthop id : Z)
    (s : stack) (f : ip_interface) (d : dev_id) (dev : network_device)
    (Hf : n_ifs (st_net s) !! iface = Some f) (Hfd : if_dev f = Some d) (Hd : n_devs (st_net s) !! d = Some dev)
    (Hlen : 0 <= len <= 65515) (Hdata : len <= Z.of_nat (length data)) (Hb : bytes data)
    (Hp : in_u8 protocol) (Hs : in_u32 src) (Hdst : in_u32 dst) (Hid : in_u16 id) :
  exists buf,
    Z.of_nat (length buf) = 20 + len /\
    ip_output_core iface protocol data len src dst nexthop id 0 s
    = ip_output_device iface buf (20 + len) nexthop s /\
    forall (s' : stack) (d' : dev_id) (i' : iface_id) (f' : ip_interface) (pad : list Z),
      bytes pad -> network_device_get_interface d' NETWORK_INTERFACE_FAMILY_IP s' = Ret (Some i') s' ->
      n_ifs (st_net s') !! i' = Some f' -> for_iface f' dst = true ->
      ip_input (buf ++ pad) (Z.of_nat (length (buf ++ pad))) d' s'
      = ip_deliver s' protocol (take (Z.to_nat len) data ++ pad) len src dst i'.
Proof.
  destruct (ip_output_core_run iface protocol data len src dst nexthop id s f d dev) as (c & Hc & ->); try done.
  exists (ip_header (20 + len) id 0 protocol c src dst ++ take (Z.to_nat len) data).
  assert (Z.of_nat (length (take (Z.to_nat len) data)) = len) as L by (rewrite length_take; lia).
  split; [rewrite length_app, length_ip_header; lia|]. split; [done|].
  intros s' d' i' f' pad Hpad Hg Hf' Hfor.
  destruct (ip_header_sum (20 + len) id 0 protocol src dst c) as [_ Hsum]; try done; try (unfold in_u16; lia).
  rewrite <- app_assoc.
  replace (Z.of_nat (length (ip_header (20 + len) id 0 protocol c src dst ++ take (Z.to_nat len) data ++ pad)))
    with (20 + Z.of_nat (length (take (Z.to_nat len) data ++ pad))) by (rewrite (length_app (ip_header _ _ _ _ _ _ _)), length_ip_header; lia).
  rewrite <- L at 1 5. apply ip_input_datagram with (f := f'); rewrite ?L; try done.
  apply Hsum. apply bytes_app. split; [by apply bytes_take|done].
Qed.

(** The branches of [ip_input]: it drops the packet, or delivers part of it. *)
Lemma ip_input_cases data len d s dev :
  net_wf (st_net s) -> n_devs (st_net s) !! d = Some dev -> 0 <= len <= Z.of_nat (length data) ->
  ip_input data len d s = Ret tt s \/
  exists vhl tot off proto src dst i f,
    rd8 data 0 = Some vhl /\ rd16 data 2 = Some tot /\ rd16 data 6 = Some off /\
    rd8 data 9 = Some proto /\ rd32 data 12 = Some src /\ rd32 data 16 = Some dst /\
    n_ifs (st_net s) !! i = Some f /\ if_dev f = Some d /\
    let hlen := 4 * (vhl mod 16) in
    let total := ntoh16 tot in
    vhl / 16 = 4 /\ hlen <= len /\ total <= len /\ cksum16 data hlen 0 = Some 0 /\
    Z.land (ntoh16 off) 0x3fff = 0 /\ for_iface f dst = true /\
    ip_input data len d s = ip_deliver s proto (drop (Z.to_nat hlen) data) (u64 (total - hlen)) src dst i.
Proof.
  intros N Hd Hlen. unfold ip_input. change MIN_IP_HEADER_SIZE with 20.
  destruct (Z.ltb_spec len 20); [by left|].
  destruct (interface_found d NETWORK_INTERFACE_FAMILY_IP s dev N Hd) as (oi & Hoi & Hok).
  erewrite bind_ret by exact Hoi. destruct oi as [i|]; [|by left].
  destruct Hok as [_ (f & Hf & Hfd & _)].
  destruct (rd8_in data 0) as [vhl Ev]; [lia|]. rewrite Ev. cbn [opt]. erewrite bind_ret by reflexivity.
  assert (Z.shiftl (Z.land vhl 15) 2 = 4 * (vhl mod 16)) as Eh.
  { change 15 with (Z.ones 4). rewrite Z.land_ones, Z.shiftl_mul_pow2 by lia. change (2 ^ 4) with 16. lia. }
  assert (0 <= 4 * (vhl mod 16) <= 60) as Rh by (Z.div_mod_to_equations; lia).
  rewrite Eh. rewrite (u16_small (4 * (vhl mod 16))) by (unfold in_u16; lia).
  rewrite Z.shiftr_div_pow2 by lia. change (2 ^ 4) with 16.
  destruct (Z.eqb_spec (vhl / 16) IPV4) as [E4|]; cbn [negb]; [|by left].
  destruct (4 * (vhl mod 16) >? len) eqn:E1; [by left|].
  destruct (rd16_in data 2) as [tot Et]; [lia|]. rewrite Et. cbn [opt]. erewrite bind_ret by reflexivity.
  destruct (ntoh16 tot >? len) eqn:E2; [by left|].
  destruct (cksum16_in data (4 * (vhl mod 16)) 0) as [c Ec]; [rewrite u16_small by (unfold in_u16; lia); lia|].
  rewrite Ec. cbn [opt]. erewrite bind_ret by reflexivity.
  destruct (Z.eqb_spec c 0) as [->|]; cbn [negb]; [|by left].
  destruct (rd16_in data 6) as [off Eo]; [lia|]. rewrite Eo. cbn [opt]. erewrite bind_ret by reflexivity.
  destruct (rd32_in data 16) as [dst Edst]; [lia|]. rewrite Edst. cbn [opt]. erewrite bind_ret by reflexivity.
  erewrite bind_ret by by apply get_iface_ok.
  destruct (truthy (Z.land (ntoh16 off) 8192) || truthy (Z.land (ntoh16 off) 8191)) eqn:Efrag; cbn [orb]; [by left|].
  destruct (for_iface f dst) eqn:Efor; unfold for_iface in Efor; rewrite <- !negb_orb, Efor; cbn [negb]; [|by left].
  assert (ip_dump data s = Ret tt s) as Hdump.
  { apply ip_dump_ok; [lia|]. intros v Hv. rewrite Ev in Hv. injection Hv as <-. rewrite Eh.
    rewrite u8_small by (unfold in_u8; lia). lia. }
  erewrite bind_ret by exact Hdump.
  destruct (rd8_in data 9) as [proto Ep]; [lia|]. rewrite Ep. cbn [opt]. erewrite bind_ret by reflexivity.
  destruct (rd32_in data 12) as [src Es]; [lia|]. rewrite Es. cbn [opt]. erewrite bind_ret by reflexivity.
  erewrite bind_ret by reflexivity. right.
  exists vhl, tot, off, proto, src, dst, i, f. split_and!; try done; try lia.
  - apply orb_false_iff in Efrag as [Ea Eb]. unfold truthy in *.
    change 16383 with (Z.lor 8192 8191). rewrite Z.land_lor_distr_r.
    replace (Z.land (ntoh16 off) 8192) with 0 by lia. replace (Z.land (ntoh16 off) 8191) with 0 by lia. done.
  - unfold ip_deliver, handler_of. by destruct (list_find _ _) as [[k e]|].
Qed.

(** C11. [ip_input] is a filter: on any [len] bytes from a device of a well-formed
    state it either changes nothing or hands a part of the buffer to the handler of
    the packet's protocol, with the state unchanged so far; it does the latter only
    for an IPv4 packet whose header verifies, that is not a fragment and is
    addressed to the interface; and when the packet's total length covers its
    header, the length the handler is given is within the buffer it is given. *)
Theorem ip_input_filters (data : list Z) (len : Z) (d : dev_id) (s : stack) (dev : network_device)
    (N : net_wf (st_net s)) (Hd : n_devs (st_net s) !! d = Some dev) (Hb : bytes data)
    (Hlen : 0 <= len <= Z.of_nat (length data)) :
  ip_input data len d s = Ret tt s \/
  exists vhl tot off proto src dst i f,
    rd8 data 0 = Some vhl /\ rd16 data 2 = Some tot /\ rd16 data 6 = Some off /\
    rd8 data 9 = Some proto /\ rd32 data 12 = Some src /\ rd32 data 16 = Some dst /\
    n_ifs (st_net s) !! i = Some f /\ if_dev f = Some d /\
    let hlen := 4 * (vhl mod 16) in
    let total := ntoh16 tot in
    vhl / 16 = 4 /\ hlen <= len /\ total <= len /\ cksum16 data hlen 0 = Some 0 /\
    Z.land (ntoh16 off) 0x3fff = 0 /\ for_iface f dst = true /\
    (hlen <= total -> u64 (total - hlen) = total - hlen /\
       total - hlen <= Z.of_nat (length (drop (Z.to_nat hlen) data))) /\
    ip_input data len d s = ip_deliver s proto (drop (Z.to_nat hlen) data) (u64 (total - hlen)) src dst i.
Proof.
  destruct (ip_input_cases data len d s dev N Hd Hlen)
    as [E|(vhl & tot & off & proto & src & dst & i & f & Ev & Et & Eo & Ep & Es & Ed & Hf & Hfd & E4 & Eh & Etot & Ec & Efr & Efor & E)];
    [by left|].
  right. exists vhl, tot, off, proto, src, dst, i, f. cbn zeta. split_and!; try done.
  intros Hle. pose proof (rd16_bytes _ _ _ Hb Et) as Rt. apply ntoh16_range in Rt. unfold in_u16 in Rt.
  rewrite u64_small by (Z.div_mod_to_equations; lia). rewrite length_drop. split; [done|].
  assert (0 <= 4 * (vhl mod 16)) by (Z.div_mod_to_equations; lia). lia.
Qed.

End IpInput.

(** ** Lemmas: output *)

(** Dimensions of a device that its types and set-up guarantee. *)
Definition dev_dims (dev : network_device) : Prop :=
  in_u16 (dev_mtu dev) /\ 0 <= dev_address_len dev <= 16.

(** The state IP output needs: ARP's, every route through an attached interface,
    and the mutex of the identification counter free. *)
Definition ip_ready (s : stack) : Prop :=
  arp_ready s /\ ip_id_mutex ∉ st_held s /\
  Forall (fun r => iface_ok s (rt_iface r)) (ip_routes (st_ip s)) /\
  map_Forall (fun _ => dev_dims) (n_devs (st_net s)).

(** What IP output leaves alone: everything but the cache, the counter, the queues
    of the protocols and the environment. *)
Definition upper_frame (s : stack) :=
  (st_udp s, st_sock s, st_intr s, st_held s, n_devs (st_net s), n_ifs (st_net s), n_index (st_net s),
   n_devices (st_net s), n_timers (st_net s), n_events (st_net s),
   (fun p => (np_name p, np_type p, np_handler p)) <$> n_protocols (st_net s),
   ip_ifaces (st_ip s), ip_protocols (st_ip s), ip_routes (st_ip s)).

Definition ip_step (s s' : stack) : Prop := ip_ready s' /\ upper_frame s' = upper_frame s.

Lemma ip_step_refl s : ip_ready s -> ip_step s s.
Proof. done. Qed.

Lemma ip_step_trans s s' s'' : ip_step s s' -> ip_step s' s'' -> ip_step s s''.
Proof. intros [_ E] [R E']. split; [done|congruence]. Qed.

(** A step that keeps the cache a table keeps the rest of [ip_ready]. *)
Lemma ip_step_intro s s' :
  ip_ready s -> arp_ready s' -> upper_frame s' = upper_frame s -> ip_step s s'.
Proof.
  intros (_ & Hm & Hr & Hd) Ra E. split; [|done].
  unfold upper_frame in E. injection E as E1 E2 E3 E4 E5 E6 E7 E8 E9 E10 E11 E12 E13 E14.
  split_and!; [done|by rewrite E4| |by rewrite E5]. rewrite E14.
  eapply Forall_impl; [exact Hr|]. intros r. unfold iface_ok. by rewrite E5, E6.
Qed.

Lemma arp_step_upper s s' : arp_step s s' -> upper_frame s' = upper_frame s.
Proof.
  intros (_ & Hh & F & Hd). unfold upper_frame, driver_frame in *. simpl in F. injection F as. congruence.
Qed.

Lemma output_upper s s' :
  driver_frame s' = driver_frame s -> n_devs (st_net s') = n_devs (st_net s) -> upper_frame s' = upper_frame s.
Proof. intros F Hd. unfold upper_frame, driver_frame in *. injection F as. congruence. Qed.

Lemma arp_ready_output s s' :
  arp_ready s -> driver_frame s' = driver_frame s -> n_devs (st_net s') = n_devs (st_net s) -> arp_ready s'.
Proof.
  intros (N & W & Hm) F Hd. pose proof (driver_frame_inv _ _ F) as (Fa & _ & _ & _ & _ & Fh & Fi & _).
  split_and!; [by eapply net_wf_ext|by rewrite Fa|by rewrite Fh].
Qed.

Section IpOutput.
Context {Mc : Machine}.

Lemma route_iface_ok s dst r :
  ip_ready s -> ip_route_lookup (ip_routes (st_ip s)) dst = Some r -> iface_ok s (rt_iface r).
Proof.
  intros (_ & _ & Hroutes & _) E. pose proof (route_lookup_spec (ip_routes (st_ip s)) dst) as Hr.
  rewrite E in Hr. destruct Hr as (l1 & l2 & El & _). rewrite Forall_forall in Hroutes.
  apply Hroutes. rewrite El. set_solver.
Qed.

Lemma ip_output_device_wp i buf len dst s :
  ip_ready s -> iface_ok s i -> 0 <= len <= Z.of_nat (length buf) ->
  wp (ip_output_device i buf len dst) s (fun r s' => ip_step s s').
Proof.
  intros R (f & d & dev & Hf & Hfd & Hd & Hwf) Hlen. pose proof R as (Ra & _ & _ & Hdim).
  specialize (Hdim d dev Hd). destruct Hdim as [_ Hal]. pose proof Hwf as (_ & Hb & _).
  assert (forall s1 dst, ip_step s s1 -> (6 <= length dst)%nat ->
    wp (network_device_output d NETWORK_PROTOCOL_TYPE_IP buf len dst) s1 (fun r s' => ip_step s s')) as Out.
  { intros s1 dst' S1 Hdst. pose proof S1 as [R1 E1].
    assert (n_devs (st_net s1) = n_devs (st_net s)) as Ed by (unfold upper_frame in E1; injection E1 as; done).
    eapply wp_mono; [apply (network_device_output_wp d _ buf len dst' s1 dev); try done; try lia|].
    - by rewrite Ed.
    - intros r s' (_ & F & Dv). eapply ip_step_trans; [exact S1|].
      apply ip_step_intro; [done| |by apply output_upper]. by apply (arp_ready_output s1); [apply R1|..]. }
  unfold ip_output_device. apply wp_bind. eapply wp_of_run; [by apply get_iface_ok|].
  apply wp_bind. eapply wp_of_run; [by eapply iface_dev_ok|].
  apply wp_bind. eapply wp_of_run; [by apply get_dev_ok|].
  destruct (truthy _); [|by apply Out; [apply ip_step_refl|simpl; lia]].
  destruct (_ || _).
  - rewrite rdn_in by lia. wp_steps. apply Out; [by apply ip_step_refl|].
    rewrite drop_0, length_app, length_take, length_drop, length_replicate, Hb. unfold NETWORK_DEVICE_ADDR_LEN. lia.
  - apply wp_bind. eapply wp_mono; [apply arp_resolve_safe; [done|by exists f, d, dev]|].
    intros [r hw] s' (S & _ & Hl). simpl in Hl.
    assert (ip_step s s') as S' by (apply ip_step_intro; [done|apply S|by apply arp_step_upper]).
    destruct (negb _); [by apply wp_ret|]. apply Out; [done|]. rewrite Hl; simpl; lia.
Qed.

(** The identification counter: the old value, and one more modulo 2^16. *)
Lemma ip_generate_id_run s :
  ip_id_mutex ∉ st_held s ->
  ip_generate_id s = Ret (ip_id (st_ip s))
    (set_ip (fun p => IpState (ip_ifaces p) (ip_protocols p) (ip_routes p) (u16 (ip_id p + 1))) s).
Proof.
  intros Hm. unfold ip_generate_id. erewrite bind_ret by by apply mutex_lock_run.
  erewrite bind_ret by reflexivity. erewrite bind_ret by reflexivity.
  erewrite bind_ret by (apply mutex_unlock_run; simpl; by left).
  unfold ret. f_equal. unfold set_held, set_ip. simpl. by rewrite unlock_held.
Qed.

(** Sending on a ready state never faults. *)
Lemma ip_send_packet_safe protocol data len src dst s :
  ip_ready s -> 0 <= len <= Z.of_nat (length data) -> len < 2 ^ 63 ->
  wp (ip_send_packet protocol data len src dst) s (fun r s' => (r = -1 \/ r = len) /\ ip_step s s').
Proof.
  intros R Hlen H63. pose proof R as (Ra & Hm & Hroutes & Hdim). unfold ip_send_packet.
  destruct (_ && _); [apply wp_ret; auto using ip_step_refl|]. wp_steps.
  destruct (ip_route_lookup _ _) as [route|] eqn:Er; [|apply wp_ret; auto using ip_step_refl].
  pose proof (route_iface_ok s dst route R Er) as Hok.
  pose proof Hok as (f & d & dev & Hf & Hfd & Hd & Hwf).
  apply wp_bind. eapply wp_of_run; [by apply get_iface_ok|].
  destruct (_ && _); [apply wp_ret; auto using ip_step_refl|].
  apply wp_bind. eapply wp_of_run; [by eapply iface_dev_ok|].
  apply wp_bind. eapply wp_of_run; [by apply get_dev_ok|].
  destruct (Z.ltb_spec (dev_mtu dev) (u64 (MIN_IP_HEADER_SIZE + len))) as [|Hmtu]; [apply wp_ret; auto using ip_step_refl|].
  unfold MIN_IP_HEADER_SIZE in Hmtu. rewrite u64_small in Hmtu by lia.
  destruct (Hdim d dev Hd) as [Hu16 _]. unfold in_u16 in Hu16.
  apply wp_bind. eapply wp_of_run; [by apply ip_generate_id_run|].
  set (s1 := set_ip _ s).
  assert (ip_step s s1) as S1 by (by apply ip_step_intro).
  destruct (ip_output_core_run (rt_iface route) protocol data len (if_unicast f) dst
    (if negb (rt_nexthop route =? IP_ADDR_ANY) then rt_nexthop route else dst) (ip_id (st_ip s)) s1 f d dev)
    as (c & _ & E); try done; try lia.
  assert (wp (ip_output_core (rt_iface route) protocol data len (if_unicast f) dst
    (if negb (rt_nexthop route =? IP_ADDR_ANY) then rt_nexthop route else dst) (ip_id (st_ip s)) 0) s1
    (fun r s' => ip_step s1 s')) as W.
  { unfold wp. rewrite E. apply ip_output_device_wp; [apply S1|by apply Hok|].
    rewrite length_app, length_ip_header, length_take. lia. }
  apply wp_bind. eapply wp_mono; [exact W|]. intros r s' S'.
  destruct (r =? -1); apply wp_ret; split; auto; by eapply ip_step_trans.
Qed.

End IpOutput.

(** ** Properties: output *)

Section IpSend.
Context {Mc : Machine}.

(** The datagram sent for a payload, with checksum field [c]. *)
Definition ip_datagram (id protocol c src dst : Z) (payload : list Z) : list Z :=
  ip_header (20 + Z.of_nat (length payload)) id 0 protocol c src dst ++ payload.

(** A datagram for a next hop that is not a broadcast address, on a device that
    needs ARP. *)
Lemma ip_output_device_ether i f d dev p buf len nh s :
  ip_ready s -> ether_iface s i f d dev p ->
  truthy (Z.land (dev_flags dev) NETWORK_DEVICE_FLAG_NEED_ARP) = true ->
  nh <> if_broadcast f -> nh <> IP_ADDR_BROADCAST ->
  0 <= len <= dev_mtu dev -> Z.of_nat (length buf) = len ->
  wp (ip_output_device i buf len nh) s (fun r s' =>
    ip_id (st_ip s') = ip_id (st_ip s) /\
    match cache_lookup (st_arp s) nh with
    | Some (ArpCache (ARP_CACHE_STATE_RESOLVED | ARP_CACHE_STATE_STATIC) _ hw _) =>
        let frame := ether_frame hw (take 6 (dev_address dev)) ETHER_TYPE_IP buf in
        exists n, w_trace (st_world s') = w_trace (st_world s) ++ [(SysWrite (ep_fd p) frame, n)] /\
          r = if n =? Z.of_nat (length frame) then 0 else -1
    | _ =>
        r = 0 /\
        exists n, w_trace (st_world s')
                  = w_trace (st_world s) ++ [(SysWrite (ep_fd p) (request_frame f dev nh), n)]
    end).
Proof.
  intros R EI Hfl Hb1 Hb2 Hlen Hbuf. pose proof R as (Ra & _). pose proof Ra as (N & W & Hm).
  pose proof EI as (Hf & Hfd & Hfam & Hd & Hwf & Ho & Hty & Hp & Hup & _).
  unfold ip_output_device. apply wp_bind. eapply wp_of_run; [by apply get_iface_ok|].
  apply wp_bind. eapply wp_of_run; [by eapply iface_dev_ok|].
  apply wp_bind. eapply wp_of_run; [by apply get_dev_ok|].
  rewrite Hfl. replace ((nh =? if_broadcast f) || (nh =? IP_ADDR_BROADCAST)) with false by lia.
  apply wp_bind. set (ha := replicate NETWORK_DEVICE_ADDR_LEN 0).
  assert (forall e, cache_lookup (st_arp s) nh = Some e -> ac_state e <> ARP_CACHE_STATE_INCOMPLETE ->
    wp (arp_resolve i nh ha) s (fun x s' => wp (let '(r, hwaddr) := x in
        if negb (r =? ARP_RESOLVE_FOUND) then ret r
        else network_device_output d NETWORK_PROTOCOL_TYPE_IP buf len hwaddr) s' (fun r s' =>
      ip_id (st_ip s') = ip_id (st_ip s) /\
      let frame := ether_frame (ac_ha e) (take 6 (dev_address dev)) ETHER_TYPE_IP buf in
      exists n, w_trace (st_world s') = w_trace (st_world s) ++ [(SysWrite (ep_fd p) frame, n)] /\
          r = if n =? Z.of_nat (length frame) then 0 else -1))) as Hit.
  { intros e E Hs. eapply wp_mono; [by eapply arp_resolve_hit|]. intros x s' [-> ->].
    replace (negb (ARP_RESOLVE_FOUND =? ARP_RESOLVE_FOUND)) with false by done.
    apply cache_lookup_spec in E as (k & Hk & _); [|apply W]. pose proof (cache_wf_ha _ _ _ W Hk) as L6.
    eapply wp_mono; [apply (network_device_output_ether d _ buf len _ s dev p); try done; try lia|].
    - rewrite length_app. lia.
    - intros r s' (w & n & -> & Ht & _ & _ & _ & _ & _ & Hr).
      rewrite (take_ge buf) in Ht, Hr by lia. rewrite take_app_length' in Ht, Hr by lia.
      split; [done|]. exists n. done. }
  assert ((forall e, cache_lookup (st_arp s) nh = Some e -> ac_state e = ARP_CACHE_STATE_INCOMPLETE) ->
    wp (arp_resolve i nh ha) s (fun x s' => wp (let '(r, hwaddr) := x in
        if negb (r =? ARP_RESOLVE_FOUND) then ret r
        else network_device_output d NETWORK_PROTOCOL_TYPE_IP buf len hwaddr) s' (fun r s' =>
      ip_id (st_ip s') = ip_id (st_ip s) /\ r = 0 /\
        exists n, w_trace (st_world s')
                  = w_trace (st_world s) ++ [(SysWrite (ep_fd p) (request_frame f dev nh), n)]))) as Miss.
  { intros Hi. eapply wp_mono; [apply wp_and; [by eapply arp_resolve_asks|by apply arp_resolve_safe; [done|exists f, d, dev]]|].
    intros x s' [(-> & _ & _ & Ht) [(_ & _ & F & _) _]]. apply wp_ret. split; [|done].
    pose proof (driver_frame_inv _ _ F) as (_ & Ei & _). simpl in Ei. by rewrite Ei. }
  destruct (cache_lookup (st_arp s) nh) as [e|] eqn:E; [|by apply Miss].
  pose proof E as (k & _ & Hfree & _)%cache_lookup_spec; [|apply W].
  destruct e as [[] pa hw ts]; [done|..].
  - apply Miss. by intros e [= <-].
  - by eapply (Hit _ eq_refl).
  - by eapply (Hit _ eq_refl).
Qed.

(** The hardware address a datagram for next hop [nh] is sent to: the device's
    broadcast address for a broadcast of the interface, else what the cache knows. *)
Definition hop_hwaddr (s : stack) (f : ip_interface) (dev : network_device) (nh : Z) : option (list Z) :=
  if (nh =? if_broadcast f) || (nh =? IP_ADDR_BROADCAST) then Some (take 6 (dev_broadcast dev))
  else
    match cache_lookup (st_arp s) nh with
    | Some (ArpCache (ARP_CACHE_STATE_RESOLVED | ARP_CACHE_STATE_STATIC) _ hw _) => Some hw
    | _ => None
    end.

(** Any next hop, a broadcast included. *)
Lemma ip_output_device_hop i f d dev p buf len nh s :
  ip_ready s -> ether_iface s i f d dev p ->
  truthy (Z.land (dev_flags dev) NETWORK_DEVICE_FLAG_NEED_ARP) = true -> 6 <= dev_address_len dev ->
  0 <= len <= dev_mtu dev -> Z.of_nat (length buf) = len ->
  wp (ip_output_device i buf len nh) s (fun r s' =>
    ip_id (st_ip s') = ip_id (st_ip s) /\
    match hop_hwaddr s f dev nh with
    | Some hw =>
        let frame := ether_frame hw (take 6 (dev_address dev)) ETHER_TYPE_IP buf in
        exists n, w_trace (st_world s') = w_trace (st_world s) ++ [(SysWrite (ep_fd p) frame, n)] /\
          r = if n =? Z.of_nat (length frame) then 0 else -1
    | None =>
        r = 0 /\
        exists n, w_trace (st_world s')
                  = w_trace (st_world s) ++ [(SysWrite (ep_fd p) (request_frame f dev nh), n)]
    end).
Proof.
  intros R EI Hfl Hal Hlen Hbuf. unfold hop_hwaddr.
  destruct ((nh =? if_broadcast f) || (nh =? IP_ADDR_BROADCAST)) eqn:Eb.
  - pose proof EI as (Hf & Hfd & Hfam & Hd & Hwf & Ho & Hty & Hp & Hup & _).
    pose proof R as (_ & _ & _ & Hdim). destruct (Hdim d dev Hd) as [_ Hal'].
    pose proof Hwf as (_ & Hb & _).
    unfold ip_output_device. apply wp_bind. eapply wp_of_run; [by apply get_iface_ok|].
    apply wp_bind. eapply wp_of_run; [by eapply iface_dev_ok|].
    apply wp_bind. eapply wp_of_run; [by apply get_dev_ok|]. rewrite Hfl, Eb.
    rewrite rdn_in by lia. rewrite drop_0. wp_steps.
    eapply wp_mono; [apply (network_device_output_ether d _ buf len _ s dev p); try done; try lia|].
    + rewrite length_app, length_take. lia.
    + intros r s' (w & n & -> & Ht & _ & _ & _ & _ & _ & Hr).
      rewrite (take_ge buf) in Ht, Hr by lia.
      rewrite take_app_le, take_take, Nat.min_l in Ht, Hr by (rewrite ?length_take; lia).
      split; [done|]. by exists n.
  - apply orb_false_iff in Eb as [Eb1%Z.eqb_neq Eb2%Z.eqb_neq].
    eapply wp_mono; [by eapply ip_output_device_ether|].
    intros r s' [Hid Hm]. split; [done|].
    by destruct (cache_lookup (st_arp s) nh) as [[[] pa hw ts]|].
Qed.

(** C22. [ip_send_packet] over Ethernet: for a destination with a route whose
    interface may send it (the packet fits the MTU, the source is the interface's
    address or left open), the next hop is the route's gateway, or the destination
    itself; if it is a broadcast address, or its hardware address is known, exactly
    one frame is written, to the device's broadcast address or to the known one, with
    a datagram that carries the payload, the interface's address as source and a new
    identification, and the result is [len] just when the whole frame went out; if the
    hardware address is not known, the result is [len] although only an ARP request
    for the next hop is sent and the datagram is dropped. *)
Theorem ip_send_packet_ether (protocol : Z) (data : list Z) (len src dst : Z) (s : stack) (route : ip_route)
    (f : ip_interface) (d : dev_id) (dev : network_device) (p : ether_priv)
    (R : ip_ready s) (Hroute : ip_route_lookup (ip_routes (st_ip s)) dst = Some route)
    (EI : ether_iface s (rt_iface route) f d dev p)
    (Hfl : truthy (Z.land (dev_flags dev) NETWORK_DEVICE_FLAG_NEED_ARP) = true)
    (Hal : dev_address_len dev = Z.of_nat ETHER_ADDR_LEN)
    (Hsrc : src = if_unicast f \/ src = IP_ADDR_ANY /\ dst <> IP_ADDR_BROADCAST) (Hu : if_unicast f <> IP_ADDR_ANY)
    (Hlen : 0 <= len <= dev_mtu dev - 20) (Hdata : Z.of_nat (length data) = len) :
  let nexthop := if rt_nexthop route =? IP_ADDR_ANY then dst else rt_nexthop route in
  wp (ip_send_packet protocol data len src dst) s (fun r s' =>
    ip_id (st_ip s') = u16 (ip_id (st_ip s) + 1) /\
    match hop_hwaddr s f dev nexthop with
    | Some hw =>
        exists c n, cksum16 (ip_header (20 + len) (ip_id (st_ip s)) 0 protocol 0 (if_unicast f) dst) 20 0 = Some c /\
          let frame := ether_frame hw (take 6 (dev_address dev)) ETHER_TYPE_IP
                         (ip_datagram (ip_id (st_ip s)) protocol c (if_unicast f) dst data) in
          w_trace (st_world s') = w_trace (st_world s) ++ [(SysWrite (ep_fd p) frame, n)] /\
          r = if n =? Z.of_nat (length frame) then len else -1
    | None =>
        r = len /\
        exists n, w_trace (st_world s')
                  = w_trace (st_world s) ++ [(SysWrite (ep_fd p) (request_frame f dev nexthop), n)]
    end).
Proof.
  intros nexthop. pose proof R as (Ra & Hm & _ & Hdim). pose proof EI as (Hf & Hfd & _ & Hd & _).
  destruct (Hdim d dev Hd) as [Hu16 _]. unfold in_u16 in Hu16. unfold ip_send_packet.
  replace ((src =? IP_ADDR_ANY) && (dst =? IP_ADDR_BROADCAST)) with false by lia. wp_steps. rewrite Hroute.
  apply wp_bind. eapply wp_of_run; [by apply get_iface_ok|].
  replace (negb (src =? IP_ADDR_ANY) && negb (src =? if_unicast f)) with false by lia.
  apply wp_bind. eapply wp_of_run; [by eapply iface_dev_ok|].
  apply wp_bind. eapply wp_of_run; [by apply get_dev_ok|].
  unfold MIN_IP_HEADER_SIZE. rewrite u64_small by lia. replace (dev_mtu dev <? 20 + len) with false by lia.
  apply wp_bind. eapply wp_of_run; [by apply ip_generate_id_run|]. set (s1 := set_ip _ s).
  assert ((if negb (rt_nexthop route =? IP_ADDR_ANY) then rt_nexthop route else dst) = nexthop) as ->
    by (unfold nexthop; by destruct (rt_nexthop route =? IP_ADDR_ANY)).
  destruct (ip_output_core_run (rt_iface route) protocol data len (if_unicast f) dst nexthop (ip_id (st_ip s))
    s1 f d dev) as (c & Hc & E); try done; try lia.
  rewrite take_ge in E by lia. apply wp_bind. unfold wp at 1. rewrite E.
  assert (ip_step s s1) as [R1 _] by (by apply ip_step_intro).
  pose proof (ip_output_device_hop (rt_iface route) f d dev p
    (ip_header (20 + len) (ip_id (st_ip s)) 0 protocol c (if_unicast f) dst ++ data) (20 + len) nexthop s1 R1 EI Hfl
    ltac:(unfold ETHER_ADDR_LEN in Hal; lia) ltac:(lia)) as Dv.
  rewrite length_app, length_ip_header in Dv. specialize (Dv ltac:(lia)).
  change (match ?m ?s with Ret a s' => wp (@?k a) s' ?Q | Fault _ => False end)
    with (wp m s (fun a s' => wp (k a) s' Q)).
  eapply wp_mono; [exact Dv|]. clear Dv. intros r s' [Hid Hm'].
  change (hop_hwaddr s1 f dev nexthop) with (hop_hwaddr s f dev nexthop) in Hm'.
  assert (ip_id (st_ip s') = u16 (ip_id (st_ip s) + 1)) as Hid' by done. unfold ip_datagram. rewrite Hdata.
  destruct (hop_hwaddr s f dev nexthop) as [hw|].
  - destruct Hm' as (n & Ht & Hn).
    destruct (r =? -1) eqn:Er; apply wp_ret; (split; [done|]); exists c, n; (split_and!; [done|done|]);
      destruct (n =? _) eqn:En; lia.
  - destruct Hm' as [-> Ht]. apply wp_ret. by split.
Qed.

(** [k] calls in a row. *)
Fixpoint generate_ids (k : nat) : C (list Z) :=
  match k with
  | O => ret []
  | S k => let! x := ip_generate_id in let! l := generate_ids k in ret (x :: l)
  end.

(** Identifications do not repeat early: [k] calls of [ip_generate_id] in a
    row return the counter's value and its successors modulo 2^16, release the
    mutex each time, and any 65536 of them are pairwise distinct. *)
Theorem ip_generate_id_distinct (k : nat) (s : stack)
    (Hm : ip_id_mutex ∉ st_held s) (Hid : in_u16 (ip_id (st_ip s))) (Hk : Z.of_nat k <= 65536) :
  wp (generate_ids k) s (fun ids s' =>
    ids = (fun j => (ip_id (st_ip s) + Z.of_nat j) mod 65536) <$> seq 0 k /\ NoDup ids /\
    st_held s' = st_held s).
Proof.
  assert (forall k s, ip_id_mutex ∉ st_held s -> in_u16 (ip_id (st_ip s)) ->
    wp (generate_ids k) s (fun ids s' => ids = (fun j => (ip_id (st_ip s) + Z.of_nat j) mod 65536) <$> seq 0 k /\
      st_held s' = st_held s)) as W.
  { clear. induction k as [|k IH]; intros s Hm Hid; [by apply wp_ret|]. cbn [generate_ids].
    apply wp_bind. eapply wp_of_run; [by apply ip_generate_id_run|]. apply wp_bind.
    eapply wp_mono; [apply IH; [done|apply u16_range]|]. intros ids s' [-> Hh]. apply wp_ret. split; [|done].
    cbn [seq fmap list_fmap]. unfold in_u16 in Hid. f_equal.
    - rewrite Z.mod_small; lia.
    - rewrite <- seq_shift. rewrite <- (list_fmap_compose S). apply list_fmap_ext. intros _ j _. simpl.
      unfold u16. rewrite Z.add_mod_idemp_l by lia. f_equal. lia. }
  eapply wp_mono; [by apply W|]. intros ids s' [-> Hh]. split_and!; [done| |done].
  apply NoDup_fmap_2_strong; [|apply NoDup_seq].
  intros x y Hx Hy E. apply elem_of_seq in Hx, Hy.
  assert ((ip_id (st_ip s) + Z.of_nat x) mod 65536 = (ip_id (st_ip s) + Z.of_nat y) mod 65536) as E' by done.
  Z.div_mod_to_equations. lia.
Qed.

End IpSend.

(** ** Properties: interfaces *)

Section IpInterfaces.
Context {Mc : Machine}.

Lemma ip_route_add_wp network netmask nexthop i s f d dev (Q : option ip_route -> stack -> Prop) :
  n_ifs (st_net s) !! i = Some f -> if_dev f = Some d -> n_devs (st_net s) !! d = Some dev ->
  (forall s', st_net s' = st_net s -> st_ip s' = st_ip s -> w_alloc (st_world s) <> [] -> Q None s') ->
  (forall s', st_net s' = st_net s ->
     st_ip s' = IpState (ip_ifaces (st_ip s)) (ip_protocols (st_ip s))
                  (IpRoute network netmask nexthop i :: ip_routes (st_ip s)) (ip_id (st_ip s)) ->
     Q (Some (IpRoute network netmask nexthop i)) s') ->
  wp (ip_route_add network netmask nexthop i) s Q.
Proof.
  intros Hf Hfd Hd HN HS. unfold ip_route_add. apply wp_bind, memory_alloc_wp. intros b w Hw _ _.
  destruct b; cbn [negb]; [|apply wp_ret, HN; try done; by intros [? _]%Hw].
  wp_steps. eapply wp_of_run; [by eapply iface_dev_ok|]. apply wp_bind. eapply wp_of_run; [by apply get_dev_ok|].
  by apply wp_ret, HS.
Qed.

Lemma add_interface_wp d i s f dev :
  net_wf (st_net s) -> n_devs (st_net s) !! d = Some dev -> n_ifs (st_net s) !! i = Some f -> if_dev f = None ->
  let f' := IpInterface (Some d) (if_family f) (if_unicast f) (if_netmask f) (if_broadcast f) in
  wp (network_device_add_interface d i) s (fun r s' =>
    r = -1 /\ s' = s /\ (exists j, network_device_get_interface d (if_family f) s = Ret (Some j) s) \/
    r = 0 /\ net_wf (st_net s') /\ st_ip s' = st_ip s /\ st_world s' = st_world s /\
    n_ifs (st_net s') !! i = Some f' /\
    n_devs (st_net s') !! d = Some (with_interfaces (i :: dev_interfaces dev) dev) /\
    network_device_get_interface d (if_family f) s' = Ret (Some i) s' /\
    s' = set_net (set_devs (insert d (with_interfaces (i :: dev_interfaces dev) dev))) (set_net (set_ifs (insert i f')) s)).
Proof.
  intros N Hd Hi Hnone f'. unfold network_device_add_interface.
  apply wp_bind. eapply wp_of_run; [by apply get_dev_ok|].
  apply wp_bind. eapply wp_of_run; [by apply get_iface_ok|].
  destruct (interface_found d (if_family f) s dev N Hd) as (oi & Hoi & _).
  pose proof Hoi as Hoi'. unfold network_device_get_interface in Hoi'.
  erewrite bind_ret in Hoi' by by apply get_dev_ok.
  apply wp_bind. eapply wp_of_run; [exact Hoi'|]. destruct oi as [j|]; [apply wp_ret; left; eauto|].
  wp_steps. eapply wp_of_run; [apply set_dev_ok; exact Hd|]. apply wp_ret. right.
  assert (forall d' dev', n_devs (st_net s) !! d' = Some dev' -> i ∉ dev_interfaces dev') as Hfresh.
  { intros d' dev' Hd' Hin. destruct (N d' dev' Hd') as [_ Hall]. rewrite Forall_forall in Hall.
    destruct (Hall i Hin) as (g & Hg & Hgd). congruence. }
  split_and!; try done.
  - intros d' dev' Hd'. simpl in Hd'. apply lookup_insert_Some in Hd' as [[<- <-]|[Hne Hd']].
    + destruct (N d dev Hd) as [Wd Hall]. split; [exact Wd|]. simpl. apply Forall_cons. split.
      * exists f'. by rewrite lookup_insert_eq.
      * rewrite Forall_forall in *. intros j Hj. destruct (Hall j Hj) as (g & Hg & Hgd). exists g.
        rewrite lookup_insert_ne; [done|]. intros <-. by apply (Hfresh d dev).
    + destruct (N d' dev' Hd') as [Wd Hall]. split; [exact Wd|]. rewrite Forall_forall in *.
      intros j Hj. destruct (Hall j Hj) as (g & Hg & Hgd). exists g. simpl.
      rewrite lookup_insert_ne; [done|]. intros <-. by apply (Hfresh d' dev').
  - simpl. by rewrite lookup_insert_eq.
  - simpl. by rewrite lookup_insert_eq.
  - unfold network_device_get_interface. erewrite bind_ret.
    2:{ apply get_dev_ok. simpl. by rewrite lookup_insert_eq. }
    simpl. erewrite bind_ret.
    2:{ apply get_iface_ok. simpl. by rewrite lookup_insert_eq. }
    simpl. by rewrite Z.eqb_refl.
Qed.

(** Registering an interface: [ip_register_interface] of a fresh interface on
    a well-formed device either refuses, when the device already has an interface
    of the family, and changes nothing, or runs out of memory for the route, or
    succeeds; then the device answers lookups with this interface, the interface is
    listed, and the route to its network is in the table, so that every destination
    in its network is routed, by a route at least as specific.  The devices and
    interfaces stay well formed in every case. *)
Theorem ip_register_interface_spec (d : dev_id) (i : iface_id) (s : stack) (f : ip_interface) (dev : network_device)
    (N : net_wf (st_net s)) (Hd : n_devs (st_net s) !! d = Some dev)
    (Hi : n_ifs (st_net s) !! i = Some f) (Hnone : if_dev f = None) :
  wp (ip_register_interface d i) s (fun r s' =>
    net_wf (st_net s') /\
    (r = -1 /\ s' = s /\ (exists j, network_device_get_interface d (if_family f) s = Ret (Some j) s) \/
     r = -1 /\ st_ip s' = st_ip s /\ w_alloc (st_world s) <> [] \/
     r = 0 /\ network_device_get_interface d (if_family f) s' = Ret (Some i) s' /\
       ip_ifaces (st_ip s') = i :: ip_ifaces (st_ip s) /\
       forall dst, Z.land dst (if_netmask f) = Z.land (if_unicast f) (if_netmask f) ->
         exists route, ip_route_lookup (ip_routes (st_ip s')) dst = Some route /\
           ntoh32 (if_netmask f) <= ntoh32 (rt_netmask route))).
Proof.
  unfold ip_register_interface. apply wp_bind. eapply wp_mono; [by apply (add_interface_wp d i s f dev)|].
  intros r s1 [(-> & -> & Hex)|(-> & N1 & Eip & Ew & Hi1 & Hd1 & Hg1 & _)].
  { apply wp_ret. auto. }
  apply wp_bind. eapply wp_of_run; [by apply get_iface_ok|]. apply wp_bind.
  eapply ip_route_add_wp; [exact Hi1|done|exact Hd1|..].
  - intros s2 En Ep Hal. apply wp_ret. rewrite En. split; [done|]. right; left. split_and!; [done|congruence|congruence].
  - intros s2 En Ep. wp_steps. cbn [st_net set_ip]. rewrite En. split; [done|]. right; right. simpl. rewrite Ep. simpl.
    split_and!; [done| |by rewrite Eip|].
    + eapply get_interface_ext; [..|exact Hg1]; simpl; by rewrite En.
    + intros dst Hdst. set (new := IpRoute _ _ _ _).
      pose proof (route_lookup_spec (new :: ip_routes (st_ip s1)) dst) as Hl.
      destruct (ip_route_lookup _ _) as [route|].
      * exists route. split; [done|]. destruct Hl as (l1 & l2 & E & _ & H1 & H2).
        assert (route_matches dst new) as Mn by exact Hdst.
        destruct l1 as [|x l1]; simpl in E; injection E as E1 E2.
        -- subst route. simpl. lia.
        -- subst x. apply Forall_cons in H1 as [H1 _]. specialize (H1 Mn). simpl in H1. lia.
      * apply Forall_cons in Hl as [[] _]. exact Hdst.
Qed.

End IpInterfaces.

(** ** Concrete hosts *)

(** The hosts of the ARP examples, with IP configured. *)
Definition with_ip (s : stack) : stack :=
  set_ip (fun p => IpState [1%nat]
      [IpProtocol "UDP" UDP_PROTOCOL fn_udp_input; IpProtocol "ICMP" ICMP_PROTOCOL fn_icmp_input]
      [IpRoute 0x0000000a 0x00ffffff IP_ADDR_ANY 1%nat] (ip_id p)) s.

Definition ip_host_A : stack := with_ip host_A.
Definition ip_host_B : stack := with_ip host_B.

Lemma with_ip_ready mac addr mask bcast :
  length mac = 6%nat -> ip_ready (with_ip (sample_host mac addr mask bcast)).
Proof.
  intros Hl. split_and!.
  - exact (sample_ready mac addr mask bcast Hl).
  - simpl. set_solver.
  - apply Forall_singleton. exists (sample_iface addr mask bcast), 1%nat, (sample_dev mac).
    split_and!; try done. by apply sample_dev_wf.
  - intros d dev Hd. simpl in Hd. apply lookup_singleton_Some in Hd as [<- <-].
    unfold dev_dims, in_u16. simpl. lia.
Qed.

Section IpWitnesses.
#[local] Existing Instance little_endian_machine.

Lemma ip_text_roundtrip_witness :
  ip_string_to_endpoint (ip_endpoint_to_string (Endpoint 0x0100000a 0x0700) 22) (Endpoint 0 0)
  = Some (0, Endpoint 0x0100000a 0x0700).
Proof.
  apply (ip_text_roundtrip (Endpoint 0x0100000a 0x0700) 0 (Endpoint 0 0));
    [unfold in_u32; simpl; lia|unfold in_u16; simpl; lia].
Defined.

(** The network of an interface, and a default route. *)
Definition sample_routes : list ip_route :=
  [IpRoute 0x0000000a (prefix_mask 24) 0 1%nat; IpRoute 0 (prefix_mask 0) 0xfe00000a 1%nat].

Lemma ip_route_lookup_longest_witness :
  match ip_route_lookup sample_routes 0x0500000a with
  | None => False
  | Some r => route_matches 0x0500000a r
  end.
Proof.
  pose proof (ip_route_lookup_longest sample_routes 0x0500000a
    (fun r => if rt_network r =? 0 then 0 else 24)) as W.
  assert (ip_route_lookup sample_routes 0x0500000a = Some (IpRoute 0x0000000a (prefix_mask 24) 0 1%nat)) as E
    by reflexivity.
  rewrite E in *. destruct W as (l1 & l2 & _ & Hm & _); [|exact Hm].
  unfold sample_routes. rewrite !Forall_cons. simpl. split_and!; try done; lia.
Defined.

Lemma ip_output_input_roundtrip_witness :
  exists buf, Z.of_nat (length buf) = 23 /\
    ip_output_core 1%nat UDP_PROTOCOL [1; 2; 3] 3 0x0100000a 0x0200000a 0x0200000a 128 0 ip_host_A
    = ip_output_device 1%nat buf 23 0x0200000a ip_host_A.
Proof.
  destruct (ip_output_input_roundtrip (H := fun _ _ _ _ _ _ => ret tt)
    1%nat UDP_PROTOCOL [1; 2; 3] 3 0x0100000a 0x0200000a 0x0200000a 128 ip_host_A iface_A 1%nat dev_A)
    as (buf & Hl & E & _);
    [reflexivity|reflexivity|reflexivity|lia|simpl; lia|apply bytesb_spec; reflexivity
    |unfold in_u8, UDP_PROTOCOL; lia|unfold in_u32; lia|unfold in_u32; lia|unfold in_u16; lia|].
  exists buf. split; [exact Hl|exact E].
Defined.

Lemma ip_input_filters_witness :
  ip_input (H := fun _ _ _ _ _ _ => throw NullDeref) (replicate 20 0) 20 1%nat ip_host_A = Ret tt ip_host_A.
Proof.
  destruct (ip_input_filters (H := fun _ _ _ _ _ _ => throw NullDeref) (replicate 20 0) 20 1%nat ip_host_A dev_A)
    as [E|(vhl & tot & off & proto & src & dst & i & f & Hv & _ & _ & _ & _ & _ & _ & _ & E4 & _)].
  - exact (proj1 (sample_ready [2; 0; 0; 0; 0; 1] 0x0100000a 0x00ffffff 0xff00000a eq_refl)).
  - reflexivity.
  - apply bytes_zeros.
  - simpl. lia.
  - exact E.
  - exfalso. simpl in Hv. injection Hv as <-. discriminate E4.
Defined.

(** Nothing is known of the next hop: a request goes out. *)
Lemma ip_send_packet_ether_witness :
  wp (ip_send_packet UDP_PROTOCOL [1; 2; 3] 3 IP_ADDR_ANY 0x0200000a) ip_host_A (fun r s' =>
    r = 3 /\ ip_id (st_ip s') = 129 /\
    exists n, w_trace (st_world s') = [(SysWrite 3 (request_frame iface_A dev_A 0x0200000a), n)]).
Proof.
  eapply wp_mono.
  - apply (ip_send_packet_ether UDP_PROTOCOL [1; 2; 3] 3 IP_ADDR_ANY 0x0200000a ip_host_A
      (IpRoute 0x0000000a 0x00ffffff IP_ADDR_ANY 1%nat) iface_A 1%nat dev_A priv_AB);
      solve [by apply with_ip_ready | exact (sample_ether_iface [2; 0; 0; 0; 0; 1] 0x0100000a 0x00ffffff 0xff00000a eq_refl)
            | reflexivity | done | right; done | simpl; lia].
  - intros r s' (Hid & Hr & Ht). split_and!; [exact Hr|exact Hid|exact Ht].
Defined.

Lemma ip_generate_id_distinct_witness :
  wp (generate_ids 3) ip_host_A (fun ids _ => ids = [128; 129; 130]).
Proof.
  eapply wp_mono.
  - apply (ip_generate_id_distinct 3 ip_host_A); [simpl; set_solver|unfold in_u16; simpl; lia|lia].
  - intros ids s' [-> _]. reflexivity.
Defined.

(** A second device, without an interface, gets one. *)
Definition sample_new_iface : stack :=
  set_net (set_ifs (insert 2%nat (IpInterface None NETWORK_INTERFACE_FAMILY_IP 0x0100010a 0x00ffffff 0xff00010a)))
    (set_net (set_devs (insert 2%nat (with_interfaces [] (sample_dev [2; 0; 0; 0; 0; 3])))) ip_host_A).

Lemma ip_register_interface_spec_witness :
  wp (ip_register_interface 2%nat 2%nat) sample_new_iface (fun r s' =>
    r = 0 -> network_device_get_interface 2%nat NETWORK_INTERFACE_FAMILY_IP s' = Ret (Some 2%nat) s').
Proof.
  eapply wp_mono.
  - apply (ip_register_interface_spec 2%nat 2%nat sample_new_iface
      (IpInterface None NETWORK_INTERFACE_FAMILY_IP 0x0100010a 0x00ffffff 0xff00010a)
      (with_interfaces [] (sample_dev [2; 0; 0; 0; 0; 3]))); try reflexivity.
    intros d dev Hd. simpl in Hd. apply lookup_insert_Some in Hd as [[<- <-]|[Hne Hd]].
    + split; [exact (sample_dev_wf [2; 0; 0; 0; 0; 3] eq_refl)|]. by apply Forall_nil.
    + apply lookup_singleton_Some in Hd as [<- <-]. split; [exact (sample_dev_wf [2; 0; 0; 0; 0; 1] eq_refl)|].
      apply Forall_singleton. by eexists.
  - intros r s' [_ [(-> & _)|[(-> & _)|(_ & Hg & _)]]] Hr; [discriminate Hr|discriminate Hr|exact Hg].
Defined.

End IpWitnesses.
