(* ===== verification/Icmp.v ===== *)
(** * ICMP (src/lib/icmp.c, icmp.h)

    The messages, [icmp_input], which answers echo requests, and [icmp_output].
    [icmp_dump] here is the reads it makes of the message; its text is in Log.v. *)

From stdpp Require Import base numbers list option gmap strings.
From Stdlib Require Import ZArith Lia.
From S2P Require Import Prelude Util CLib Queue State Net Ether Drivers Arp Ip.
Open Scope Z_scope.
Open Scope cmonad_scope.

Definition ICMP_HDR_SIZE : Z := 8.
Definition ICMP_BUFSIZ : Z := MAX_IP_PAYLOAD_SIZE.
Definition ICMP_TYPE_ECHOREPLY : Z := 0.
Definition ICMP_TYPE_DEST_UNREACH : Z := 3.
Definition ICMP_TYPE_SOURCE_QUENCH : Z := 4.
Definition ICMP_TYPE_REDIRECT : Z := 5.
Definition ICMP_TYPE_ECHO : Z := 8.
Definition ICMP_TYPE_TIME_EXCEEDED : Z := 11.
Definition ICMP_TYPE_PARAM_PROBLEM : Z := 12.
Definition ICMP_TYPE_TIMESTAMP : Z := 13.
Definition ICMP_TYPE_TIMESTAMPREPLY : Z := 14.
Definition ICMP_TYPE_INFO_REQUEST : Z := 15.
Definition ICMP_TYPE_INFO_REPLY : Z := 16.

Definition icmp_type_ntoa (ty : Z) : string :=
  if ty =? ICMP_TYPE_ECHOREPLY then "EchoReply"
  else if ty =? ICMP_TYPE_DEST_UNREACH then "DestinationUnreachable"
  else if ty =? ICMP_TYPE_SOURCE_QUENCH then "SourceQuench"
  else if ty =? ICMP_TYPE_REDIRECT then "Redirect"
  else if ty =? ICMP_TYPE_ECHO then "Echo"
  else if ty =? ICMP_TYPE_TIME_EXCEEDED then "TimeExceeded"
  else if ty =? ICMP_TYPE_PARAM_PROBLEM then "ParameterProblem"
  else if ty =? ICMP_TYPE_TIMESTAMP then "Timestamp"
  else if ty =? ICMP_TYPE_TIMESTAMPREPLY then "TimestampReply"
  else if ty =? ICMP_TYPE_INFO_REQUEST then "InformationRequest"
  else if ty =? ICMP_TYPE_INFO_REPLY then "InformationReply"
  else "Unknown".

Section Icmp.
Context {Mc : Machine}.

(** [icmp_dump]: the reads it makes of the message. *)
Definition icmp_dump (data : list Z) (len : Z) : C unit :=
  opt OutOfBounds (rdn data 0 2);;
  let! sum := opt OutOfBounds (rd16 data 2) in
  opt OutOfBounds (cksum16 data len (- sum));;
  opt OutOfBounds (rdn data 4 4);;
  ret tt.

(** A message with checksum field [sum]. *)
Definition icmp_message (ty code sum values : Z) (data : list Z) : list Z :=
  [ty; code] ++ store16 sum ++ store32 values ++ data.

Definition icmp_output (ty code values : Z) (data : list Z) (len src dst : Z) : C Z :=
  if ICMP_HDR_SIZE + len >? ICMP_BUFSIZ then throw OutOfBounds   (* memcpy past the end of buf *)
  else
    let! payload := opt OutOfBounds (rdn data 0 (Z.to_nat len)) in
    let msg_len := ICMP_HDR_SIZE + len in
    let! sum := opt OutOfBounds (cksum16 (icmp_message ty code 0 values payload) msg_len 0) in
    let msg := icmp_message ty code sum values payload in
    icmp_dump msg msg_len;;
    ip_send_packet ICMP_PROTOCOL msg msg_len src dst.

Definition icmp_input (data : list Z) (len src dst : Z) (iface : iface_id) : C unit :=
  if len <? ICMP_HDR_SIZE then ret tt
  else
    let! sum := opt OutOfBounds (cksum16 data len 0) in
    if negb (sum =? 0) then
      (* the error message reads the checksum and computes it again *)
      let! hsum := opt OutOfBounds (rd16 data 2) in
      opt OutOfBounds (cksum16 data len (- hsum));;
      ret tt
    else
      let! f := get_iface iface in
      icmp_dump data len;;
      let! ty := opt OutOfBounds (rd8 data 0) in
      if ty =? ICMP_TYPE_ECHO then
        let dst := if negb (dst =? if_unicast f) then if_unicast f else dst in
        let! code := opt OutOfBounds (rd8 data 1) in
        let! values := opt OutOfBounds (rd32 data 4) in
        icmp_output ICMP_TYPE_ECHOREPLY code values (drop 8 data) (len - ICMP_HDR_SIZE) dst src;;
        ret tt
      else ret tt.

Definition icmp_init : C Z :=
  let! r := ip_register_protocol "ICMP" ICMP_PROTOCOL fn_icmp_input in
  if r =? -1 then ret (-1) else ret 0.

End Icmp.

(** ** Lemmas *)

Section IcmpFacts.
Context {Mc : Machine}.

Lemma length_icmp_message ty code sum values data :
  length (icmp_message ty code sum values data) = (8 + length data)%nat.
Proof. unfold icmp_message. by rewrite !length_app, length_store16, length_store32. Qed.

Lemma icmp_message_fields ty code sum values data (pad : list Z) :
  let msg := icmp_message ty code sum values data ++ pad in
  rd8 msg 0 = Some ty /\ rd8 msg 1 = Some code /\ rd16 msg 2 = Some sum /\ rd32 msg 4 = Some values /\
  drop 8 msg = data ++ pad.
Proof.
  intros msg. unfold msg, icmp_message.
  destruct (store16_load16 sum) as (a0 & a1 & -> & Ea).
  destruct (store32_load32 values) as (b0 & b1 & b2 & b3 & -> & Eb).
  cbn. rewrite Ea, Eb. by split_and!.
Qed.

(** The checksum stored in a message makes it verify. *)
Lemma icmp_message_sum ty code values data c :
  in_u8 ty -> in_u8 code -> in_u32 values -> bytes data -> Z.of_nat (length data) <= 65507 ->
  cksum16 (icmp_message ty code 0 values data) (8 + Z.of_nat (length data)) 0 = Some c ->
  in_u16 c /\ cksum16 (icmp_message ty code c values data) (8 + Z.of_nat (length data)) 0 = Some 0.
Proof.
  intros Ht Hc Hv Hb Hl Hs. unfold icmp_message in *.
  assert (forall v, Z.of_nat (length ([ty; code] ++ store16 v ++ store32 values ++ data)) = 8 + Z.of_nat (length data)) as L.
  { intros v. rewrite !length_app, length_store16, length_store32. simpl length. lia. }
  destruct (cksum16_fill [ty; code] (store32 values ++ data) 0 c) as [Rc Hz].
  - apply bytes_cons. split; [done|]. apply bytes_cons. auto with word.
  - apply bytes_app. split; [by apply store32_bytes|done].
  - done.
  - rewrite L. lia.
  - lia.
  - rewrite L. exact Hs.
  - rewrite L in Hz. done.
Qed.

Lemma icmp_dump_ok data len s :
  8 <= len <= Z.of_nat (length data) -> len < 65536 -> icmp_dump data len s = Ret tt s.
Proof.
  intros H H16. unfold icmp_dump. rewrite (rdn_in data 0), (rdn_in data 4) by lia.
  destruct (rd16_in data 2) as [x ->]; [lia|]. cbn [opt].
  do 2 erewrite bind_ret by reflexivity.
  destruct (cksum16_in data len (- x)) as [c ->]; [rewrite u16_small by (unfold in_u16; lia); lia|]. done.
Qed.

(** [icmp_output] sends one message with a valid checksum. *)
Lemma icmp_output_run ty code values data len src dst s :
  0 <= len <= Z.of_nat (length data) -> len <= 65507 ->
  exists c, cksum16 (icmp_message ty code 0 values (take (Z.to_nat len) data)) (8 + len) 0 = Some c /\
    icmp_output ty code values data len src dst s
    = ip_send_packet ICMP_PROTOCOL (icmp_message ty code c values (take (Z.to_nat len) data)) (8 + len) src dst s.
Proof.
  intros Hlen Hmax. unfold icmp_output, ICMP_HDR_SIZE.
  replace (8 + len >? ICMP_BUFSIZ) with false
    by (unfold ICMP_BUFSIZ, MAX_IP_PAYLOAD_SIZE, MAX_IP_PACKET_SIZE, MIN_IP_HEADER_SIZE; lia).
  rewrite rdn_in, drop_0 by lia. cbn [opt]. erewrite bind_ret by reflexivity.
  assert (length (take (Z.to_nat len) data) = Z.to_nat len) as L by (rewrite length_take; lia).
  destruct (cksum16_in (icmp_message ty code 0 values (take (Z.to_nat len) data)) (8 + len) 0) as [c Hc].
  { rewrite length_icmp_message, L, u16_small by (unfold in_u16; lia). lia. }
  exists c. split; [done|]. rewrite Hc. cbn [opt]. erewrite bind_ret by reflexivity.
  erewrite bind_ret; [done|]. apply icmp_dump_ok; [rewrite length_icmp_message, L; lia|lia].
Qed.

(** Whatever the message, [icmp_input] returns in a ready state. *)
Lemma icmp_input_ready (data : list Z) (len src dst : Z) (i : iface_id) (s : stack) :
  ip_ready s -> is_Some (n_ifs (st_net s) !! i) -> 0 <= len <= Z.of_nat (length data) -> len <= 65515 ->
  wp (icmp_input data len src dst i) s (fun _ s' => ip_step s s').
Proof.
  intros R Hi Hlen Hmax.
  unfold icmp_input, ICMP_HDR_SIZE. destruct (Z.ltb_spec len 8); [by apply wp_ret, ip_step_refl|].
  destruct (cksum16_in data len 0) as [c ->]; [rewrite u16_small by (unfold in_u16; lia); lia|]. wp_steps.
  destruct (negb (c =? 0)).
  - destruct (rd16_in data 2) as [x ->]; [lia|]. wp_steps.
    destruct (cksum16_in data len (- x)) as [c' ->]; [rewrite u16_small by (unfold in_u16; lia); lia|].
    wp_steps. by apply ip_step_refl.
  - destruct Hi as [f Hf]. apply wp_bind. eapply wp_of_run; [by apply get_iface_ok|].
    apply wp_bind. eapply wp_of_run; [by apply icmp_dump_ok; lia|].
    destruct (rd8_in data 0) as [ty ->]; [lia|]. wp_steps.
    destruct (ty =? ICMP_TYPE_ECHO); [|by apply wp_ret, ip_step_refl].
    destruct (rd8_in data 1) as [code ->]; [lia|]. destruct (rd32_in data 4) as [values ->]; [lia|]. wp_steps.
    set (dst' := if negb _ then _ else _).
    destruct (icmp_output_run ICMP_TYPE_ECHOREPLY code values (drop 8 data) (len - 8) dst' src s) as (c' & _ & E);
      [rewrite length_drop; lia|lia|].
    unfold wp. rewrite E.
    pose proof (ip_send_packet_safe ICMP_PROTOCOL
      (icmp_message ICMP_TYPE_ECHOREPLY code c' values (take (Z.to_nat (len - 8)) (drop 8 data)))
      (8 + (len - 8)) dst' src s R) as W. unfold wp in W.
    rewrite length_icmp_message, length_take, length_drop in W. specialize (W ltac:(lia) ltac:(lia)).
    destruct (ip_send_packet _ _ _ _ _ s); [|done]. by destruct W.
Qed.

(** ** Properties *)

(** C15. Echo requests are answered: [icmp_input] on an echo request with a valid
    checksum sends, to its sender and from the interface's own address, whatever
    address it was sent to, exactly one echo reply with the same code, identifier,
    sequence number and data and with a valid checksum; and does nothing else. *)
Theorem icmp_echo_reply (code c values : Z) (payload pad : list Z) (src dst : Z) (i : iface_id) (s : stack)
    (f : ip_interface)
    (Hf : n_ifs (st_net s) !! i = Some f)
    (Hcode : in_u8 code) (Hv : in_u32 values) (Hb : bytes payload)
    (Hlen : Z.of_nat (length payload) <= 65507)
    (Hsum : cksum16 (icmp_message ICMP_TYPE_ECHO code c values payload ++ pad)
              (8 + Z.of_nat (length payload)) 0 = Some 0) :
  exists c', let reply := icmp_message ICMP_TYPE_ECHOREPLY code c' values payload in
    cksum16 reply (8 + Z.of_nat (length payload)) 0 = Some 0 /\
    icmp_input (icmp_message ICMP_TYPE_ECHO code c values payload ++ pad) (8 + Z.of_nat (length payload)) src dst i s
    = bind (ip_send_packet ICMP_PROTOCOL reply (8 + Z.of_nat (length payload)) (if_unicast f) src)
        (fun _ => ret tt) s.
Proof.
  destruct (icmp_message_fields ICMP_TYPE_ECHO code c values payload pad) as (F0 & F1 & F2 & F4 & Fd).
  set (msg := icmp_message ICMP_TYPE_ECHO code c values payload ++ pad) in *.
  assert (length msg = (8 + length payload + length pad)%nat) as L
    by (unfold msg; by rewrite length_app, length_icmp_message).
  clearbody msg. pose proof (Nat2Z.is_nonneg (length payload)).
  destruct (icmp_output_run ICMP_TYPE_ECHOREPLY code values (payload ++ pad) (Z.of_nat (length payload))
    (if_unicast f) src s) as (c' & Hc' & E); [rewrite length_app; lia|done|].
  rewrite Nat2Z.id, take_app_length in Hc', E.
  exists c'. split; [by apply icmp_message_sum in Hc'; [apply Hc'|unfold in_u8, ICMP_TYPE_ECHOREPLY; lia|..]|].
  unfold icmp_input, ICMP_HDR_SIZE.
  replace (8 + Z.of_nat (length payload) <? 8) with false by lia.
  rewrite Hsum. cbn [opt]. erewrite bind_ret by reflexivity. rewrite Z.eqb_refl. cbn [negb].
  erewrite bind_ret by by apply get_iface_ok.
  erewrite bind_ret by (apply icmp_dump_ok; lia).
  rewrite F0, F1, F4. cbn [opt]. erewrite bind_ret by reflexivity. rewrite Z.eqb_refl.
  do 2 erewrite bind_ret by reflexivity. rewrite Fd, Z.add_simpl_l.
  assert ((if negb (dst =? if_unicast f) then if_unicast f else dst) = if_unicast f) as ->
    by (destruct (Z.eqb_spec dst (if_unicast f)); done).
  unfold bind. by rewrite E.
Qed.

(** [icmp_input] is memory safe on what IP gives it: for any message of at
    most the largest IP payload whose [len] bytes are in the buffer, from a state
    in which IP can send, it returns without a fault in such a state, with the
    modules above and the configuration unchanged. *)
Theorem icmp_input_safe (data : list Z) (len src dst : Z) (i : iface_id) (s : stack)
    (R : ip_ready s) (Hi : is_Some (n_ifs (st_net s) !! i))
    (Hlen : 0 <= len <= Z.of_nat (length data)) (Hmax : len <= 65515) :
  wp (icmp_input data len src dst i) s (fun _ s' => ip_step s s').
Proof. by apply icmp_input_ready. Qed.

End IcmpFacts.

(** ** Concrete messages *)

Section IcmpWitnesses.
#[local] Existing Instance little_endian_machine.

(** An echo request with one byte of data, [0x61], and the checksum 0xffff - 8 - 0x61. *)
Definition sample_echo : list Z := icmp_message ICMP_TYPE_ECHO 0 0xff96 0 [0x61].

Lemma icmp_echo_reply_witness :
  exists c', icmp_input sample_echo 9 0x0200000a 0x0100000a 1%nat ip_host_A
    = bind (ip_send_packet ICMP_PROTOCOL (icmp_message ICMP_TYPE_ECHOREPLY 0 c' 0 [0x61]) 9 0x0100000a 0x0200000a)
        (fun _ => ret tt) ip_host_A.
Proof.
  destruct (icmp_echo_reply 0 0xff96 0 [0x61] [] 0x0200000a 0x0100000a 1%nat ip_host_A iface_A) as (c' & _ & E);
    [reflexivity|unfold in_u8; lia|unfold in_u32; lia|apply bytesb_spec; reflexivity|simpl; lia|reflexivity|].
  exists c'. exact E.
Defined.

Lemma icmp_input_safe_witness :
  wp (icmp_input sample_echo 9 0x0200000a 0x0100000a 1%nat) ip_host_A (fun _ s' => ip_step ip_host_A s').
Proof.
  apply (icmp_input_safe sample_echo 9 0x0200000a 0x0100000a 1%nat ip_host_A);
    [by apply with_ip_ready|by eexists|simpl; lia|lia].
Defined.

(** A packet whose header length exceeds its total length passes the checks of
    [ip_input]; the difference, converted to [size_t], becomes the length given to
    the protocol, and [icmp_input] reads outside the packet. *)
Definition short_total_packet : list Z :=
  [0x4f; 0; 0; 20; 0; 0; 0; 0; 0xff; ICMP_PROTOCOL; 0x9d; 0xe6; 10; 0; 0; 2; 10; 0; 0; 1] ++ replicate 40 0.

Lemma ip_input_short_total_overreads :
  (forall h : IpDispatch, ip_input short_total_packet 60 1%nat ip_host_A
     = call_ip_handler fn_icmp_input [] (2 ^ 64 - 40) 0x0200000a 0x0100000a 1%nat ip_host_A) /\
  icmp_input [] (2 ^ 64 - 40) 0x0200000a 0x0100000a 1%nat ip_host_A = Fault OutOfBounds.
Proof. split; [intros h|]; vm_compute; reflexivity. Qed.

End IcmpWitnesses.
