(* ===== verification/Udp.v ===== *)
(** * UDP (src/lib/udp.c, udp.h)

    The table of [UDP_PCB_SIZE] protocol control blocks, input and output of
    datagrams, and the user commands.  [udp_recvfrom] can block: it is a first part,
    which returns or sleeps, and [udp_recvfrom_resume], the rest of its loop from the
    return of the wait on. *)

From stdpp Require Import base numbers list option gmap strings.
From Stdlib Require Import ZArith Lia.
From S2P Require Import Prelude Util CLib Queue State Sync Net Ether Drivers Arp Ip.
Open Scope Z_scope.
Open Scope cmonad_scope.

Definition UDP_SOURCE_PORT_MIN : Z := 49152.
Definition UDP_SOURCE_PORT_MAX : Z := 65535.
Definition UDP_HDR_SIZE : Z := 8.

(** ** Protocol control blocks *)

Definition with_state (st : pcb_state) (p : udp_pcb) : udp_pcb := UdpPcb st (pcb_local p) (pcb_queue p) (pcb_ctx p).
Definition with_local (l : endpoint) (p : udp_pcb) : udp_pcb := UdpPcb (pcb_st p) l (pcb_queue p) (pcb_ctx p).
Definition with_recvq (q : list udp_queue_entry) (p : udp_pcb) : udp_pcb := UdpPcb (pcb_st p) (pcb_local p) q (pcb_ctx p).
Definition with_ctx (f : sched_ctx -> sched_ctx) (p : udp_pcb) : udp_pcb :=
  UdpPcb (pcb_st p) (pcb_local p) (pcb_queue p) (f (pcb_ctx p)).

Definition get_pcb (k : nat) : C udp_pcb := let! pcbs := gets st_udp in opt NullDeref (pcbs !! k).
Definition set_pcb (k : nat) (f : udp_pcb -> udp_pcb) : C unit := modify (set_udp (alter f k)).

(** [&pcb->ctx] *)
#[refine] Definition pcb_ctx_ref (k : nat) : ctx_ref := {|
  ctx_view s := pcb_ctx <$> st_udp s !! k;
  ctx_put f := set_udp (alter (with_ctx f) k);
|}.
Proof.
  - intros f s. simpl. rewrite list_lookup_alter_eq. by destruct (st_udp s !! k).
  - done.
  - done.
  - done.
Defined.

Definition udp_pcb_alloc : C (option nat) :=
  let! pcbs := gets st_udp in
  match list_find (fun p => pcb_st p = UDP_PCB_STATE_FREE) pcbs with
  | None => ret None
  | Some (k, _) =>
      set_pcb k (with_state UDP_PCB_STATE_OPEN);;
      sched_ctx_init (pcb_ctx_ref k);;
      ret (Some k)
  end.

(** [while ((entry = queue_pop(&pcb->queue)) != NULL) memory_free(entry);], with as
    much fuel as there are entries. *)
Definition udp_queue_flush (k : nat) : C unit :=
  let! p := get_pcb k in
  match queue_drain (length (pcb_queue p)) (pcb_queue p) with
  | Some (_, q) => set_pcb k (with_recvq q)
  | None => ret tt
  end.

Definition udp_pcb_release (k : nat) : C unit :=
  set_pcb k (with_state UDP_PCB_STATE_CLOSING);;
  let! r := sched_ctx_destroy in
  if r =? -1 then
    sched_wakeup (pcb_ctx_ref k);;
    ret tt
  else
    set_pcb k (with_state UDP_PCB_STATE_FREE);;
    set_pcb k (with_local (Endpoint IP_ADDR_ANY 0));;
    udp_queue_flush k.

Definition pcb_matches (addr port : Z) (p : udp_pcb) : Prop :=
  pcb_st p = UDP_PCB_STATE_OPEN /\
  (ep_address (pcb_local p) = IP_ADDR_ANY \/ ep_address (pcb_local p) = addr) /\ ep_port (pcb_local p) = port.

#[export] Instance pcb_matches_dec addr port p : Decision (pcb_matches addr port p).
Proof. unfold pcb_matches. apply _. Defined.

Definition udp_pcb_select (pcbs : list udp_pcb) (addr port : Z) : option nat :=
  match list_find (pcb_matches addr port) pcbs with
  | Some (k, _) => Some k
  | None => None
  end.

Definition udp_pcb_get (pcbs : list udp_pcb) (id : Z) : option nat :=
  if (id <? 0) || (id >=? Z.of_nat UDP_PCB_SIZE) then None
  else
    match pcbs !! Z.to_nat id with
    | Some p => if bool_decide (pcb_st p = UDP_PCB_STATE_OPEN) then Some (Z.to_nat id) else None
    | None => None
    end.

Definition udp_pcb_id (k : nat) : Z := Z.of_nat k.

(** ** Datagrams *)

Section Udp.
Context {Mc : Machine}.

Definition pseudo_hdr (src dst len : Z) : list Z :=
  store32 src ++ store32 dst ++ [0; UDP_PROTOCOL] ++ store16 (hton16 len).

Definition udp_hdr (src dst len sum : Z) : list Z :=
  store16 src ++ store16 dst ++ store16 (hton16 len) ++ store16 sum.

(** [psum = ~cksum16(&pseudo, sizeof(pseudo), 0)], a [uint16_t]. *)
Definition pseudo_sum (src dst len : Z) : option Z :=
  match cksum16 (pseudo_hdr src dst len) 12 0 with
  | Some c => Some (u16 (Z.lnot c))
  | None => None
  end.

(** The part of [udp_input] inside the critical section, from the selection of the
    control block on. *)
Definition udp_input_deliver (data : list Z) (len src dst : Z) : C unit :=
  let! pcbs := gets st_udp in
  let! dport := opt OutOfBounds (rd16 data 2) in
  match udp_pcb_select pcbs dst dport with
  | None => ret tt
  | Some k =>
      let! ok := memory_alloc in
      if negb ok then ret tt
      else
        let! sport := opt OutOfBounds (rd16 data 0) in
        let elen := u16 (len - UDP_HDR_SIZE) in
        let! payload := opt OutOfBounds (rdn data 8 (Z.to_nat elen)) in
        let entry := UdpQueueEntry (Endpoint src sport) elen payload in
        let! p := get_pcb k in
        let! pushed := queue_push_c (pcb_queue p) entry in
        match pushed with
        | None => ret tt
        | Some q => set_pcb k (with_recvq q);; sched_wakeup (pcb_ctx_ref k);; ret tt
        end
  end.

Definition udp_input (data : list Z) (len src dst : Z) (iface : iface_id) : C unit :=
  if len <? UDP_HDR_SIZE then ret tt
  else
    let! hlen := opt OutOfBounds (rd16 data 4) in
    if negb (len =? ntoh16 hlen) then ret tt
    else
      let! psum := opt OutOfBounds (pseudo_sum src dst (u16 len)) in
      let! sum := opt OutOfBounds (cksum16 data len psum) in
      if negb (sum =? 0) then
        let! hsum := opt OutOfBounds (rd16 data 6) in
        opt OutOfBounds (cksum16 data len (- hsum + psum));;
        ret tt
      else
        opt OutOfBounds (rdn data 0 8);;      (* the log lines *)
        mutex_lock udp_mutex;;
        udp_input_deliver data len src dst;;
        mutex_unlock udp_mutex.

Definition udp_output (src dst : endpoint) (data : list Z) (len : Z) : C Z :=
  if len >? MAX_IP_PAYLOAD_SIZE - UDP_HDR_SIZE then ret (-1)
  else
    let total := u16 (UDP_HDR_SIZE + len) in
    let! payload := opt OutOfBounds (rdn data 0 (Z.to_nat len)) in
    let! psum := opt OutOfBounds (pseudo_sum (ep_address src) (ep_address dst) total) in
    let! sum := opt OutOfBounds (cksum16 (udp_hdr (ep_port src) (ep_port dst) total 0 ++ payload) total psum) in
    let buf := udp_hdr (ep_port src) (ep_port dst) total sum ++ payload in
    let! r := ip_send_packet UDP_PROTOCOL buf total (ep_address src) (ep_address dst) in
    if r =? -1 then ret (-1) else ret len.

(** [event_handler]: the loop over the table. *)
Fixpoint udp_interrupt_loop (k n : nat) : C unit :=
  match n with
  | O => ret tt
  | S n =>
      let! p := get_pcb k in
      (if bool_decide (pcb_st p = UDP_PCB_STATE_OPEN) then sched_interrupt (pcb_ctx_ref k);; ret tt else ret tt);;
      udp_interrupt_loop (S k) n
  end.

Definition event_handler : C unit :=
  mutex_lock udp_mutex;;
  udp_interrupt_loop 0 UDP_PCB_SIZE;;
  mutex_unlock udp_mutex.

Definition udp_init : C Z :=
  let! r := ip_register_protocol "UDP" UDP_PROTOCOL fn_udp_input in
  if r =? -1 then ret (-1)
  else network_event_subscribe fn_udp_event_handler;; ret 0.

(** ** User commands *)

Definition udp_open : C Z :=
  mutex_lock udp_mutex;;
  let! k := udp_pcb_alloc in
  mutex_unlock udp_mutex;;
  match k with
  | None => ret (-1)
  | Some k => ret (udp_pcb_id k)
  end.

Definition udp_close (id : Z) : C Z :=
  mutex_lock udp_mutex;;
  let! pcbs := gets st_udp in
  match udp_pcb_get pcbs id with
  | None => mutex_unlock udp_mutex;; ret (-1)
  | Some k => udp_pcb_release k;; mutex_unlock udp_mutex;; ret 0
  end.

Definition udp_bind (id : Z) (local : endpoint) : C Z :=
  mutex_lock udp_mutex;;
  let! pcbs := gets st_udp in
  match udp_pcb_get pcbs id with
  | None => mutex_unlock udp_mutex;; ret (-1)
  | Some k =>
      match udp_pcb_select pcbs (ep_address local) (ep_port local) with
      | Some _ => mutex_unlock udp_mutex;; ret (-1)
      | None => set_pcb k (with_local local);; mutex_unlock udp_mutex;; ret 0
      end
  end.

(** The search for a free port from [p] on, [n] ports to go. *)
Fixpoint udp_port_loop (pcbs : list udp_pcb) (addr p : Z) (n : nat) : option Z :=
  match n with
  | O => None
  | S n =>
      match udp_pcb_select pcbs addr (hton16 p) with
      | None => Some p
      | Some _ => udp_port_loop pcbs addr (p + 1) n
      end
  end.

(** The critical section of [udp_sendto]: the local endpoint to send from. *)
Definition udp_sendto_local (id : Z) (foreign : endpoint) : C (option endpoint) :=
  let! pcbs := gets st_udp in
  match udp_pcb_get pcbs id with
  | None => ret None
  | Some k =>
      let! pcb := get_pcb k in
      let! addr :=
        (if ep_address (pcb_local pcb) =? IP_ADDR_ANY then
           let! iface := ip_get_interface (ep_address foreign) in
           match iface with
           | None => ret None
           | Some i => let! f := get_iface i in ret (Some (if_unicast f))
           end
         else ret (Some (ep_address (pcb_local pcb)))) in
      match addr with
      | None => ret None
      | Some addr =>
          (if ep_port (pcb_local pcb) =? 0 then
             match udp_port_loop pcbs addr UDP_SOURCE_PORT_MIN
                     (Z.to_nat (UDP_SOURCE_PORT_MAX - UDP_SOURCE_PORT_MIN + 1)) with
             | Some p => set_pcb k (with_local (Endpoint (ep_address (pcb_local pcb)) (hton16 p)))
             | None => ret tt
             end
           else ret tt);;
          let! pcb := get_pcb k in
          if ep_port (pcb_local pcb) =? 0 then ret None
          else ret (Some (Endpoint addr (ep_port (pcb_local pcb))))
      end
  end.

Definition udp_sendto (id : Z) (data : list Z) (len : Z) (foreign : endpoint) : C Z :=
  mutex_lock udp_mutex;;
  let! local := udp_sendto_local id foreign in
  mutex_unlock udp_mutex;;
  match local with
  | None => ret (-1)
  | Some local => udp_output local foreign data len
  end.

(** What [udp_recvfrom] comes to: a return with its value, the foreign endpoint if
    it was set, and the buffer; or the thread sleeps on control block [k]. *)
Inductive recv_outcome :=
| RecvReturn (r : Z) (foreign : option endpoint) (buf : list Z)
| RecvSleep (k : nat).

(** From the test of the loop on, with the mutex held. *)
Definition udp_recv_loop (k : nat) (size : Z) (buf : list Z) : C recv_outcome :=
  let! pcb := get_pcb k in
  match fifo_pop (pcb_queue pcb) with
  | (Some entry, q) =>
      set_pcb k (with_recvq q);;
      mutex_unlock udp_mutex;;
      let len := Z.min size (uqe_len entry) in
      let! data := opt OutOfBounds (rdn (uqe_data entry) 0 (Z.to_nat len)) in
      if Z.of_nat (length buf) <? len then throw OutOfBounds
      else ret (RecvReturn len (Some (uqe_foreign entry)) (data ++ drop (Z.to_nat len) buf))
  | (None, _) =>
      let! asleep := sched_sleep_enter (pcb_ctx_ref k) udp_mutex in
      if (asleep : bool) then ret (RecvSleep k)
      else
        mutex_unlock udp_mutex;;
        modify (set_world (set_errno EINTR));;
        ret (RecvReturn (-1) None buf)
  end.

Definition udp_recvfrom (id : Z) (size : Z) (buf : list Z) : C recv_outcome :=
  mutex_lock udp_mutex;;
  let! pcbs := gets st_udp in
  match udp_pcb_get pcbs id with
  | None => mutex_unlock udp_mutex;; ret (RecvReturn (-1) None buf)
  | Some k => udp_recv_loop k size buf
  end.

(** The thread woke up. *)
Definition udp_recvfrom_resume (k : nat) (size : Z) (buf : list Z) : C recv_outcome :=
  let! r := sched_sleep_leave (pcb_ctx_ref k) udp_mutex 0 in
  if r =? -1 then
    mutex_unlock udp_mutex;;
    modify (set_world (set_errno EINTR));;
    ret (RecvReturn (-1) None buf)
  else
    let! pcb := get_pcb k in
    if bool_decide (pcb_st pcb = UDP_PCB_STATE_CLOSING) then
      udp_pcb_release k;;
      mutex_unlock udp_mutex;;
      ret (RecvReturn (-1) None buf)
    else udp_recv_loop k size buf.

End Udp.

(** ** The invariant of the table *)

Definition entry_ok (e : udp_queue_entry) : Prop :=
  uqe_len e = Z.of_nat (length (uqe_data e)) /\ uqe_len e <= 65527.

Definition pcb_ok (p : udp_pcb) : Prop :=
  Forall entry_ok (pcb_queue p) /\
  (pcb_st p = UDP_PCB_STATE_FREE -> pcb_local p = Endpoint IP_ADDR_ANY 0 /\ pcb_queue p = []).

(** No two open control blocks are bound to the same endpoint. *)
Definition endpoints_unique (pcbs : list udp_pcb) : Prop :=
  forall i j p q, pcbs !! i = Some p -> pcbs !! j = Some q ->
    pcb_st p = UDP_PCB_STATE_OPEN -> pcb_st q = UDP_PCB_STATE_OPEN ->
    ep_port (pcb_local p) <> 0 -> pcb_local p = pcb_local q -> i = j.

Definition pcbs_wf (pcbs : list udp_pcb) : Prop :=
  length pcbs = UDP_PCB_SIZE /\ (forall k p, pcbs !! k = Some p -> pcb_ok p) /\ endpoints_unique pcbs.

(** An open control block is found by its number. *)
Lemma pcb_get_open pcbs k p :
  length pcbs = UDP_PCB_SIZE -> pcbs !! k = Some p -> pcb_st p = UDP_PCB_STATE_OPEN ->
  udp_pcb_get pcbs (Z.of_nat k) = Some k.
Proof.
  intros L Hk Ho. apply lookup_lt_Some in Hk as Hlt. rewrite L in Hlt. unfold UDP_PCB_SIZE in Hlt.
  unfold udp_pcb_get. change (Z.of_nat UDP_PCB_SIZE) with 16.
  destruct (_ || _) eqn:E; [lia|]. rewrite Nat2Z.id, Hk. by rewrite bool_decide_true.
Qed.

(** The state the module's functions need. *)
Definition udp_ready (s : stack) : Prop :=
  ip_ready s /\ udp_mutex ∉ st_held s /\ pcbs_wf (st_udp s).

Lemma pcbs_wf_alter pcbs k p f :
  pcbs_wf pcbs -> pcbs !! k = Some p -> pcb_ok (f p) ->
  (forall j q, j <> k -> pcbs !! j = Some q -> pcb_st q = UDP_PCB_STATE_OPEN ->
     pcb_st (f p) = UDP_PCB_STATE_OPEN -> ep_port (pcb_local (f p)) <> 0 -> pcb_local (f p) <> pcb_local q) ->
  pcbs_wf (alter f k pcbs).
Proof.
  intros (L & Ok & U) Hk Hok Hnew. split_and!; [by rewrite length_alter|..].
  - intros j q Hj. rewrite list_lookup_alter in Hj. case_decide; [|by eapply Ok]. subst.
    rewrite Hk in Hj. simpl in Hj. by injection Hj as <-.
  - intros i j x y Hi Hj Ox Oy Hp E. rewrite list_lookup_alter in Hi, Hj.
    destruct (decide (k = i)) as [<-|], (decide (k = j)) as [<-|]; try done.
    + rewrite Hk in Hi. simpl in Hi. injection Hi as <-. exfalso. eapply (Hnew j y); eauto.
    + rewrite Hk in Hj. simpl in Hj. injection Hj as <-. exfalso. eapply (Hnew i x); eauto; congruence.
    + by eapply U.
Qed.

(** A change that neither rebinds nor opens a control block. *)
Lemma pcbs_wf_same pcbs k p f :
  pcbs_wf pcbs -> pcbs !! k = Some p -> pcb_ok (f p) -> pcb_local (f p) = pcb_local p ->
  (pcb_st (f p) = UDP_PCB_STATE_OPEN -> pcb_st p = UDP_PCB_STATE_OPEN) -> pcbs_wf (alter f k pcbs).
Proof.
  intros W Hk Hok El Eo. eapply pcbs_wf_alter; try done. intros j q Hne Hj Oq Of Hp E.
  destruct W as (_ & _ & U). apply Hne. rewrite El in *. symmetry. eapply U; eauto.
Qed.

Lemma alter_alter_pcb (pcbs : list udp_pcb) k f g p :
  pcbs !! k = Some p -> alter g k (alter f k pcbs) = alter (fun _ => g (f p)) k pcbs.
Proof.
  intros Hk. apply list_eq. intros j. destruct (decide (k = j)) as [<-|Hne].
  - by rewrite !list_lookup_alter_eq, Hk.
  - by rewrite !list_lookup_alter_ne.
Qed.

Lemma alter_pcb_ext (pcbs : list udp_pcb) k f g p :
  pcbs !! k = Some p -> f p = g p -> alter f k pcbs = alter g k pcbs.
Proof.
  intros Hk E. apply list_eq. intros j. destruct (decide (k = j)) as [<-|Hne].
  - rewrite !list_lookup_alter_eq, Hk. simpl. by rewrite E.
  - by rewrite !list_lookup_alter_ne.
Qed.

Lemma udp_pcb_get_Some pcbs id k :
  udp_pcb_get pcbs id = Some k ->
  exists p, pcbs !! k = Some p /\ pcb_st p = UDP_PCB_STATE_OPEN /\ id = Z.of_nat k /\ (k < UDP_PCB_SIZE)%nat.
Proof.
  unfold udp_pcb_get. destruct (_ || _) eqn:E; [done|]. destruct (pcbs !! Z.to_nat id) as [p|] eqn:Ep; [|done].
  case_bool_decide; [|done]. intros [= <-]. exists p. change (Z.of_nat UDP_PCB_SIZE) with 16 in E.
  split_and!; [done|done|lia|]. change UDP_PCB_SIZE with 16%nat. lia.
Qed.

Lemma udp_pcb_select_Some pcbs addr port k :
  udp_pcb_select pcbs addr port = Some k ->
  exists p, pcbs !! k = Some p /\ pcb_matches addr port p /\
    forall j q, (j < k)%nat -> pcbs !! j = Some q -> ~ pcb_matches addr port q.
Proof.
  unfold udp_pcb_select. destruct (list_find _ _) as [[j p]|] eqn:E; [|done]. intros [= <-].
  apply list_find_Some in E as (? & ? & Hf). exists p. split_and!; try done. intros i q Hi Hq. by eapply Hf.
Qed.

Lemma udp_pcb_select_None pcbs addr port k p :
  udp_pcb_select pcbs addr port = None -> pcbs !! k = Some p -> ~ pcb_matches addr port p.
Proof.
  unfold udp_pcb_select. destruct (list_find _ _) as [[j q]|] eqn:E; [done|]. intros _ Hk.
  apply list_find_None in E. by eapply Forall_lookup_1 in E.
Qed.

Lemma get_pcb_run k s p : st_udp s !! k = Some p -> get_pcb k s = Ret p s.
Proof. intros E. unfold get_pcb, bind, gets, opt. by rewrite E. Qed.

(** A step that changes the table and the environment only. *)
Definition udp_only (s : stack) (pcbs : list udp_pcb) (s' : stack) : Prop :=
  exists w, s' = set_udp (fun _ => pcbs) (set_world (fun _ => w) s).

Lemma ip_ready_udp_only s pcbs s' : udp_only s pcbs s' -> ip_ready s -> ip_ready s'.
Proof. intros (w & ->) R. exact R. Qed.

Lemma udp_only_unlock s pcbs s' :
  udp_mutex ∉ st_held s -> udp_only (set_held (cons udp_mutex) s) pcbs s' ->
  udp_mutex ∈ st_held s' /\ udp_only s pcbs (set_held (filter (fun k => k <> udp_mutex)) s').
Proof.
  intros Hm (w & ->). split; [simpl; by left|]. exists w.
  unfold set_held, set_udp, set_world. cbn [st_net st_arp st_ip st_udp st_sock st_intr st_held st_world].
  by rewrite unlock_held.
Qed.

Lemma udp_only_ready s pcbs s' : udp_ready s -> udp_only s pcbs s' -> pcbs_wf pcbs -> udp_ready s' /\ st_held s' = st_held s.
Proof. intros (R & Hm & _) O W. pose proof (ip_ready_udp_only _ _ _ O R). destruct O as (w & ->). done. Qed.

Lemma udp_only_refl s : udp_only s (st_udp s) s.
Proof. exists (st_world s). by destruct s. Qed.

(** ** Opening, closing, binding *)

(** The state after [k] was opened. *)
Definition opened (k : nat) (pcbs : list udp_pcb) : list udp_pcb :=
  alter (fun p => UdpPcb UDP_PCB_STATE_OPEN (pcb_local p) (pcb_queue p) (SchedCtx 0 0 0)) k pcbs.

Lemma udp_open_wp s (Q : Z -> stack -> Prop) :
  udp_ready s ->
  (Forall (fun p => pcb_st p <> UDP_PCB_STATE_FREE) (st_udp s) -> Q (-1) s) ->
  (forall k s', (exists p, st_udp s !! k = Some p /\ pcb_st p = UDP_PCB_STATE_FREE) ->
     udp_only s (opened k (st_udp s)) s' -> pcbs_wf (opened k (st_udp s)) -> Q (Z.of_nat k) s') ->
  wp udp_open s Q.
Proof.
  intros (R & Hm & W) HN HS. unfold udp_open. apply wp_bind, mutex_lock_wp; [done|].
  unfold udp_pcb_alloc. wp_steps. cbn [st_udp set_held].
  destruct (list_find _ _) as [[k p]|] eqn:E.
  - apply list_find_Some in E as (Hk & Hf & _). unfold set_pcb, sched_ctx_init, ctx_set. wp_steps.
    apply mutex_unlock_wp; [simpl; by left|]. wp_steps. apply (HS k); [eauto|..].
    + apply udp_only_unlock; [done|]. exists (st_world s).
      simpl. unfold set_udp, set_held, set_world. simpl. f_equal. rewrite (alter_alter_pcb _ _ _ _ _ Hk).
      by apply (alter_pcb_ext _ _ _ _ p).
    + pose proof W as (_ & Ok & _). destruct (Ok k p Hk) as [He Hfree]. destruct (Hfree Hf) as [El Eq].
      eapply pcbs_wf_alter; [done|exact Hk|..].
      * split; simpl; [done|done].
      * intros j q _ _ _ _ Hp. simpl in Hp. rewrite El in Hp. done.
  - apply list_find_None in E. wp_steps. apply mutex_unlock_wp; [simpl; by left|]. wp_steps.
    rewrite lock_unlock_id by done. by apply HN.
Qed.

(** Running a body that changes only the table inside the critical section. *)
Lemma udp_locked_wp {A B} (body : C A) (k : A -> C B) s (Q : B -> stack -> Prop) :
  udp_mutex ∉ st_held s ->
  wp body (set_held (cons udp_mutex) s) (fun a s1 => exists pcbs,
    udp_only (set_held (cons udp_mutex) s) pcbs s1 /\
    forall s', udp_only s pcbs s' -> wp (k a) s' Q) ->
  wp (mutex_lock udp_mutex;; let! a := body in mutex_unlock udp_mutex;; k a) s Q.
Proof.
  intros Hm W. apply wp_bind, mutex_lock_wp; [done|]. apply wp_bind. eapply wp_mono; [exact W|].
  intros a s1 (pcbs & O & HQ). destruct (udp_only_unlock _ _ _ Hm O) as [Hh O'].
  apply wp_bind, mutex_unlock_wp; [done|]. by apply HQ.
Qed.

(** The table after [k] was released. *)
Definition closed (k : nat) (pcbs : list udp_pcb) : list udp_pcb :=
  alter (fun p => UdpPcb UDP_PCB_STATE_FREE (Endpoint IP_ADDR_ANY 0) [] (pcb_ctx p)) k pcbs.

Definition closing (k : nat) (pcbs : list udp_pcb) : list udp_pcb :=
  alter (fun p => UdpPcb UDP_PCB_STATE_CLOSING (pcb_local p) (pcb_queue p)
                    (SchedCtx 0 (sc_interrupted (pcb_ctx p)) (sc_wc (pcb_ctx p)))) k pcbs.

Lemma udp_pcb_release_wp k s p (Q : unit -> stack -> Prop) :
  st_udp s !! k = Some p ->
  (forall s', udp_only s (closed k (st_udp s)) s' -> Q tt s') ->
  (forall s', udp_only s (closing k (st_udp s)) s' ->
     (exists a rest, w_sys (st_world s) = a :: rest /\ r_ret a = -1) -> Q tt s') ->
  wp (udp_pcb_release k) s Q.
Proof.
  intros Hk HC HB. unfold udp_pcb_release, set_pcb, sched_ctx_destroy. wp_steps.
  apply syscall_wp. intros r w _ _ _ _ _ Hr. wp_steps.
  destruct (r_ret r =? -1) eqn:E.
  - unfold sched_wakeup, ctx_set. wp_steps. apply HB.
    + exists w. simpl. unfold set_udp, set_world. simpl. f_equal.
      rewrite (alter_alter_pcb _ _ _ _ _ Hk). by apply (alter_pcb_ext _ _ _ _ p).
    + simpl in Hr. destruct (w_sys (st_world s)) as [|a rest]; [subst r; simpl in E; lia|].
      exists a, rest. subst r. split; [done|lia].
  - unfold udp_queue_flush. wp_steps.
    match goal with |- wp (get_pcb k) ?s1 _ => set (s1' := s1) end.
    assert (st_udp s1' = alter (fun _ => UdpPcb UDP_PCB_STATE_FREE (Endpoint IP_ADDR_ANY 0) (pcb_queue p) (pcb_ctx p)) k (st_udp s)) as E1.
    { unfold s1'. simpl. rewrite (alter_alter_pcb _ _ _ _ _ Hk).
      rewrite (alter_alter_pcb (st_udp s) k (fun _ => with_state UDP_PCB_STATE_FREE (with_state UDP_PCB_STATE_CLOSING p)) _ p Hk). done. }
    eapply wp_of_run.
    { apply get_pcb_run. rewrite E1, list_lookup_alter_eq, Hk. done. }
    cbn [pcb_queue]. destruct (queue_drain_spec (pcb_queue p) (pcb_queue p) (length (pcb_queue p))) as (q & -> & Hq); [done|lia|].
    simpl in Hq. wp_steps. apply HC. exists w. unfold s1'. unfold set_udp, set_world. cbn. f_equal.
    rewrite (alter_alter_pcb _ _ _ _ _ Hk).
    rewrite (alter_alter_pcb _ _ (fun _ => with_state UDP_PCB_STATE_FREE (with_state UDP_PCB_STATE_CLOSING p)) _ _ Hk).
    rewrite (alter_alter_pcb _ _ (fun _ => with_local _ _) _ _ Hk). apply (alter_pcb_ext _ _ _ _ p); [done|].
    unfold with_recvq. simpl. by rewrite <- Hq.
Qed.

Lemma closed_wf k pcbs p : pcbs_wf pcbs -> pcbs !! k = Some p -> pcbs_wf (closed k pcbs).
Proof.
  intros W Hk. eapply pcbs_wf_alter; [done|exact Hk|..].
  - split; simpl; [by apply Forall_nil|done].
  - intros j q _ _ _ Ho. discriminate Ho.
Qed.

Lemma closing_wf k pcbs p : pcbs_wf pcbs -> pcbs !! k = Some p -> pcbs_wf (closing k pcbs).
Proof.
  intros W Hk. pose proof W as (_ & Ok & _). destruct (Ok k p Hk) as [He _].
  eapply pcbs_wf_same; [done|exact Hk|..]; simpl; [|done|done]. split; simpl; [done|done].
Qed.

Lemma udp_close_wp id s (Q : Z -> stack -> Prop) :
  udp_ready s ->
  (udp_pcb_get (st_udp s) id = None -> Q (-1) s) ->
  (forall k s' pcbs, udp_pcb_get (st_udp s) id = Some k -> udp_only s pcbs s' -> pcbs_wf pcbs ->
     pcbs = closed k (st_udp s) \/
     pcbs = closing k (st_udp s) /\ (exists a rest, w_sys (st_world s) = a :: rest /\ r_ret a = -1) -> Q 0 s') ->
  wp (udp_close id) s Q.
Proof.
  intros (R & Hm & W) HN HS. unfold udp_close. apply wp_bind, mutex_lock_wp; [done|]. wp_steps. cbn [st_udp set_held].
  destruct (udp_pcb_get (st_udp s) id) as [k|] eqn:E.
  - pose proof (udp_pcb_get_Some _ _ _ E) as (p & Hk & _). apply wp_bind. eapply (udp_pcb_release_wp _ _ p); [done|..].
    + intros s' O. destruct (udp_only_unlock _ _ _ Hm O) as [Hh O'].
      apply wp_bind, mutex_unlock_wp; [done|]. apply wp_ret. eapply HS; [done|exact O'|by eapply closed_wf|by left].
    + intros s' O Hans. destruct (udp_only_unlock _ _ _ Hm O) as [Hh O'].
      apply wp_bind, mutex_unlock_wp; [done|]. apply wp_ret. eapply HS; [done|exact O'|by eapply closing_wf|by right].
  - apply wp_bind, mutex_unlock_wp; [simpl; by left|]. apply wp_ret. rewrite lock_unlock_id by done. by apply HN.
Qed.

(** The table after [k] was bound. *)
Definition bound (k : nat) (local : endpoint) (pcbs : list udp_pcb) : list udp_pcb := alter (with_local local) k pcbs.

(** Binding to an endpoint that no open control block answers for. *)
Lemma bound_wf k local pcbs p addr :
  pcbs_wf pcbs -> pcbs !! k = Some p -> pcb_st p = UDP_PCB_STATE_OPEN ->
  udp_pcb_select pcbs addr (ep_port local) = None ->
  ep_address local = addr \/ ep_address local = IP_ADDR_ANY -> pcbs_wf (bound k local pcbs).
Proof.
  intros W Hk Ho Hsel Ha. pose proof W as (_ & Ok & _). destruct (Ok k p Hk) as [He _].
  eapply pcbs_wf_alter; [done|exact Hk|..].
  - split; simpl; [done|]. rewrite Ho. done.
  - intros j q _ Hj Oq _ _ E. simpl in E. eapply udp_pcb_select_None; [exact Hsel|exact Hj|].
    split_and!; [done| |by rewrite <- E]. rewrite <- E. destruct Ha; auto.
Qed.

Lemma udp_bind_wp id local s (Q : Z -> stack -> Prop) :
  udp_ready s ->
  (udp_pcb_get (st_udp s) id = None \/ is_Some (udp_pcb_select (st_udp s) (ep_address local) (ep_port local)) ->
     Q (-1) s) ->
  (forall k s', udp_pcb_get (st_udp s) id = Some k ->
     udp_pcb_select (st_udp s) (ep_address local) (ep_port local) = None ->
     udp_only s (bound k local (st_udp s)) s' -> pcbs_wf (bound k local (st_udp s)) -> Q 0 s') ->
  wp (udp_bind id local) s Q.
Proof.
  intros (R & Hm & W) HN HS. unfold udp_bind. apply wp_bind, mutex_lock_wp; [done|]. wp_steps. cbn [st_udp set_held].
  destruct (udp_pcb_get (st_udp s) id) as [k|] eqn:E.
  - destruct (udp_pcb_select _ _ _) as [j|] eqn:Es.
    + apply wp_bind, mutex_unlock_wp; [simpl; by left|]. apply wp_ret. rewrite lock_unlock_id by done. apply HN. eauto.
    + pose proof (udp_pcb_get_Some _ _ _ E) as (p & Hk & Ho & _). unfold set_pcb. wp_steps.
      apply mutex_unlock_wp; [simpl; by left|]. wp_steps. apply (HS k); [done|done|..].
      * apply udp_only_unlock; [done|]. exists (st_world s). done.
      * eapply bound_wf; eauto.
  - apply wp_bind, mutex_unlock_wp; [simpl; by left|]. apply wp_ret. rewrite lock_unlock_id by done. auto.
Qed.

(** ** Events *)

Definition interrupted (p : udp_pcb) : udp_pcb :=
  if bool_decide (pcb_st p = UDP_PCB_STATE_OPEN) then with_ctx (fun x => SchedCtx 0 1 (sc_wc x)) p else p.

Lemma udp_interrupt_loop_wp n k s (Q : unit -> stack -> Prop) :
  (k + n = length (st_udp s))%nat ->
  (forall s', udp_only s (take k (st_udp s) ++ map interrupted (drop k (st_udp s))) s' -> Q tt s') ->
  wp (udp_interrupt_loop k n) s Q.
Proof.
  revert k s. induction n as [|n IH]; intros k s Hn HQ; cbn [udp_interrupt_loop].
  - apply wp_ret, HQ. exists (st_world s). rewrite drop_ge, app_nil_r, take_ge by lia. by destruct s.
  - destruct (lookup_lt_is_Some_2 (st_udp s) k) as [p Hk]; [lia|].
    assert (take k (st_udp s) ++ map interrupted (drop k (st_udp s))
            = take (S k) (alter interrupted k (st_udp s)) ++ map interrupted (drop (S k) (alter interrupted k (st_udp s)))) as E.
    { rewrite drop_alter_lt by lia. rewrite (drop_S (st_udp s) p k Hk). cbn [map].
      rewrite (take_S_r _ _ (interrupted p)) by (by rewrite list_lookup_alter_eq, Hk).
      rewrite take_alter_ge by lia. by rewrite <- app_assoc. }
    apply wp_bind. eapply wp_of_run; [by apply get_pcb_run|]. apply wp_bind.
    assert (forall s1, s1 = set_udp (alter interrupted k) s -> wp (udp_interrupt_loop (S k) n) s1 Q) as Next.
    { intros s1 ->. apply IH; [simpl; rewrite length_alter; lia|]. intros s' (w & ->). apply HQ. exists w. simpl. by rewrite E. }
    case_bool_decide as Ho.
    + unfold sched_interrupt, ctx_set. wp_steps. apply Next. simpl. unfold set_udp. f_equal.
      apply (alter_pcb_ext _ _ _ _ p); [done|]. unfold interrupted. by rewrite bool_decide_true.
    + apply wp_ret, Next. unfold set_udp. destruct s as [? ? ? u ? ? ? ?]. simpl in *. f_equal.
      apply list_eq. intros j. destruct (decide (k = j)) as [<-|].
      * rewrite list_lookup_alter_eq, Hk. simpl. unfold interrupted. by rewrite bool_decide_false.
      * by rewrite list_lookup_alter_ne.
Qed.

Lemma interrupted_ok p : pcb_ok p -> pcb_ok (interrupted p).
Proof. unfold pcb_ok, interrupted. case_bool_decide; done. Qed.

Lemma interrupted_wf pcbs : pcbs_wf pcbs -> pcbs_wf (map interrupted pcbs).
Proof.
  intros (L & Ok & U).
  assert (forall p, pcb_st (interrupted p) = pcb_st p /\ pcb_local (interrupted p) = pcb_local p) as K
    by (intros p; unfold interrupted; case_bool_decide; done).
  assert (forall j q, map interrupted pcbs !! j = Some q -> exists p, pcbs !! j = Some p /\ q = interrupted p) as LK.
  { intros j q Hj. change (map interrupted pcbs) with (interrupted <$> pcbs) in Hj.
    rewrite list_lookup_fmap in Hj. destruct (pcbs !! j); [|done]. injection Hj as <-. eauto. }
  split_and!; [by rewrite length_map|..].
  - intros k q (p & Hk & ->)%LK. by eapply interrupted_ok, Ok.
  - intros i j x y (p & Hi & ->)%LK (q & Hj & ->)%LK.
    destruct (K p) as [-> ->], (K q) as [-> ->]. by eapply U.
Qed.

Lemma event_handler_wp s (Q : unit -> stack -> Prop) :
  udp_ready s -> (forall s', udp_only s (map interrupted (st_udp s)) s' -> Q tt s') -> wp event_handler s Q.
Proof.
  intros (R & Hm & (L & _)) HQ. unfold event_handler. apply wp_bind, mutex_lock_wp; [done|].
  apply wp_bind, udp_interrupt_loop_wp; [simpl; by rewrite L|]. intros s' O. simpl in O.
  destruct (udp_only_unlock _ _ _ Hm O) as [Hh O']. apply mutex_unlock_wp; [done|]. by apply HQ.
Qed.

(** ** Input *)

Definition wake (x : sched_ctx) : sched_ctx := SchedCtx 0 (sc_interrupted x) (sc_wc x).

(** The table after entry [e] was queued at [k] and its sleepers were woken. *)
Definition received (k : nat) (e : udp_queue_entry) (pcbs : list udp_pcb) : list udp_pcb :=
  alter (fun p => UdpPcb (pcb_st p) (pcb_local p) (pcb_queue p ++ [e]) (wake (pcb_ctx p))) k pcbs.

Lemma received_wf k e pcbs p :
  pcbs_wf pcbs -> pcbs !! k = Some p -> pcb_st p = UDP_PCB_STATE_OPEN -> entry_ok e -> pcbs_wf (received k e pcbs).
Proof.
  intros W Hk Ho He. pose proof W as (_ & Ok & _). destruct (Ok k p Hk) as [Hq _].
  eapply pcbs_wf_same; [done|exact Hk|..]; simpl; [|done|done].
  split; simpl; [apply Forall_app; split; [done|by apply Forall_singleton]|]. rewrite Ho. done.
Qed.

Section UdpInput.
Context {Mc : Machine}.

Lemma udp_input_deliver_wp data len src dst s sport dport (Q : unit -> stack -> Prop) :
  8 <= len <= Z.of_nat (length data) -> len <= 65535 ->
  rd16 data 0 = Some sport -> rd16 data 2 = Some dport ->
  (udp_pcb_select (st_udp s) dst dport = None -> Q tt s) ->
  (forall s', w_alloc (st_world s) <> [] -> udp_only s (st_udp s) s' -> Q tt s') ->
  (forall k s', udp_pcb_select (st_udp s) dst dport = Some k ->
     udp_only s (received k (UdpQueueEntry (Endpoint src sport) (len - 8)
                   (take (Z.to_nat (len - 8)) (drop 8 data))) (st_udp s)) s' -> Q tt s') ->
  wp (udp_input_deliver data len src dst) s Q.
Proof.
  intros Hlen H16 Hs Hd HN HA HS. unfold udp_input_deliver. wp_steps.
  destruct (udp_pcb_select (st_udp s) dst dport) as [k|] eqn:E; [|by apply wp_ret, HN].
  pose proof (udp_pcb_select_Some _ _ _ _ E) as (p & Hk & _).
  apply wp_bind, memory_alloc_wp. intros b w Hw _ _. destruct b; cbn [negb].
  2:{ apply wp_ret, HA; [by intros []%Hw|]. exists w. by destruct s. }
  wp_steps. unfold UDP_HDR_SIZE. rewrite u16_small by (unfold in_u16; lia).
  rewrite rdn_in by lia. wp_steps. eapply wp_of_run; [by apply get_pcb_run|].
  apply wp_bind. unfold queue_push_c. apply wp_bind, memory_alloc_wp. intros b w' Hw' _ _. destruct b.
  - unfold set_pcb, sched_wakeup, ctx_set. wp_steps. apply (HS k); [done|]. exists w'. simpl.
    unfold set_udp, set_world. simpl. f_equal. rewrite (alter_alter_pcb _ _ _ _ _ Hk).
    by apply (alter_pcb_ext _ _ _ _ p).
  - wp_steps. apply HA; [|exists w'; by destruct s]. intros E0. destruct (Hw E0) as [_ ->]. by destruct (Hw' E0).
Qed.

(** The checksum test of [udp_input]. *)
Definition udp_verifies (data : list Z) (len src dst : Z) : Prop :=
  exists psum, pseudo_sum src dst (u16 len) = Some psum /\ cksum16 data len psum = Some 0.

Lemma length_pseudo_hdr src dst len : length (pseudo_hdr src dst len) = 12%nat.
Proof. unfold pseudo_hdr. by rewrite !length_app, !length_store32, length_store16. Qed.

Lemma pseudo_sum_in src dst len : exists psum, pseudo_sum src dst len = Some psum.
Proof.
  unfold pseudo_sum. destruct (cksum16_in (pseudo_hdr src dst len) 12 0) as [c ->]; [by rewrite length_pseudo_hdr|]. eauto.
Qed.

Lemma udp_input_wp data len src dst i s (Q : unit -> stack -> Prop) :
  udp_ready s -> 0 <= len <= Z.of_nat (length data) -> len <= 65535 ->
  ((forall dport, 8 <= len -> rd16 data 2 = Some dport -> ntoh16 <$> rd16 data 4 = Some len ->
      udp_verifies data len src dst -> udp_pcb_select (st_udp s) dst dport = None) -> Q tt s) ->
  (forall sport dport, 8 <= len -> rd16 data 0 = Some sport -> rd16 data 2 = Some dport ->
     ntoh16 <$> rd16 data 4 = Some len -> udp_verifies data len src dst ->
     (forall s', w_alloc (st_world s) <> [] -> udp_only s (st_udp s) s' -> Q tt s') /\
     (forall k s', udp_pcb_select (st_udp s) dst dport = Some k ->
        let e := UdpQueueEntry (Endpoint src sport) (len - 8) (take (Z.to_nat (len - 8)) (drop 8 data)) in
        udp_only s (received k e (st_udp s)) s' -> pcbs_wf (received k e (st_udp s)) -> Q tt s')) ->
  wp (udp_input data len src dst i) s Q.
Proof.
  intros (R & Hm & W) Hlen H16 HN HS. unfold udp_input, UDP_HDR_SIZE.
  destruct (Z.ltb_spec len 8); [apply wp_ret, HN; lia|].
  destruct (rd16_in data 4) as [hl E4]; [lia|]. rewrite E4 in *. wp_steps.
  destruct (Z.eqb_spec len (ntoh16 hl)) as [El|El]; cbn [negb].
  2:{ apply wp_ret, HN. intros dport _ _ E. injection E as E. congruence. }
  destruct (pseudo_sum_in src dst (u16 len)) as [psum Eps]. rewrite Eps. wp_steps.
  destruct (cksum16_in data len psum) as [c Ec]; [rewrite u16_small by (unfold in_u16; lia); lia|]. rewrite Ec. wp_steps.
  destruct (Z.eqb_spec c 0) as [->|Hc]; cbn [negb].
  2:{ destruct (rd16_in data 6) as [x ->]; [lia|]. wp_steps.
      destruct (cksum16_in data len (- x + psum)) as [c' ->]; [rewrite u16_small by (unfold in_u16; lia); lia|].
      wp_steps. apply HN. intros dport _ _ _ (ps & E1 & E2). congruence. }
  rewrite rdn_in by lia. wp_steps.
  destruct (rd16_in data 0) as [sport E0]; [lia|]. destruct (rd16_in data 2) as [dport E2]; [lia|].
  destruct (HS sport dport) as [HA HK]; try done; [simpl; by rewrite El|by exists psum|].
  apply mutex_lock_wp; [done|]. apply wp_bind.
  eapply udp_input_deliver_wp; [lia|done|done|done|..].
  - intros Hn. apply mutex_unlock_wp; [simpl; by left|]. rewrite lock_unlock_id by done.
    apply HN. intros dport' _ E2'. rewrite E2 in E2'. by injection E2' as <-.
  - intros s' Ha O. destruct (udp_only_unlock _ _ _ Hm O) as [Hh O']. apply mutex_unlock_wp; [done|]. by apply HA.
  - intros k s' Hsel O. destruct (udp_only_unlock _ _ _ Hm O) as [Hh O']. apply mutex_unlock_wp; [done|].
    eapply HK; [exact Hsel|exact O'|].
    pose proof (udp_pcb_select_Some _ _ _ _ Hsel) as (p & Hk & (Ho & _) & _). eapply received_wf; eauto.
    split; simpl; [rewrite length_take, length_drop; lia|lia].
Qed.

End UdpInput.

(** ** Receiving *)

(** The bytes and the length [udp_recvfrom] gives for entry [e]. *)
Definition recv_entry (size : Z) (buf : list Z) (e : udp_queue_entry) : recv_outcome :=
  let len := Z.min size (uqe_len e) in
  RecvReturn len (Some (uqe_foreign e)) (take (Z.to_nat len) (uqe_data e) ++ drop (Z.to_nat len) buf).

Definition asleep (x : sched_ctx) : sched_ctx := SchedCtx (sc_cond x + 1) (sc_interrupted x) (sc_wc x + 1).

Lemma udp_recv_loop_wp k size buf s p (Q : recv_outcome -> stack -> Prop) :
  udp_mutex ∉ st_held s -> st_udp s !! k = Some p -> pcb_ok p -> 0 <= size <= Z.of_nat (length buf) ->
  (forall e q s', pcb_queue p = e :: q -> udp_only s (alter (with_recvq q) k (st_udp s)) s' ->
     Q (recv_entry size buf e) s') ->
  (forall s', pcb_queue p = [] -> sc_interrupted (pcb_ctx p) <> 0 -> udp_only s (st_udp s) s' ->
     w_errno (st_world s') = EINTR -> Q (RecvReturn (-1) None buf) s') ->
  (forall s', pcb_queue p = [] -> sc_interrupted (pcb_ctx p) = 0 ->
     udp_only s (alter (with_ctx asleep) k (st_udp s)) s' -> Q (RecvSleep k) s') ->
  wp (udp_recv_loop k size buf) (set_held (cons udp_mutex) s) Q.
Proof.
  intros Hm Hk [He _] Hsize HE HI HB. unfold udp_recv_loop.
  apply wp_bind. eapply wp_of_run; [by apply get_pcb_run|].
  destruct (pcb_queue p) as [|e q] eqn:Eq; cbn [fifo_pop list_fifo].
  - apply wp_bind. unfold wp at 1.
    rewrite (sleep_enter_run (pcb_ctx_ref k) udp_mutex _ (pcb_ctx p)) by (simpl; solve [by rewrite Hk|by left]).
    unfold truthy. destruct (Z.eqb_spec (sc_interrupted (pcb_ctx p)) 0) as [E0|E0]; cbn [negb].
    + apply wp_ret, HB; [done|done|]. apply udp_only_unlock; [done|]. by exists (st_world s).
    + apply wp_bind, mutex_unlock_wp; [simpl; by left|]. wp_steps. apply HI; [done|done| |done].
      match goal with |- udp_only _ _ ?s' => set (s1 := s') end.
      exists (st_world s1). unfold s1. unfold set_udp, set_world, set_held. cbn.
      f_equal. by apply unlock_held.
  - apply Forall_cons in He as [[El _] _]. unfold set_pcb. wp_steps. apply mutex_unlock_wp; [simpl; by left|].
    rewrite rdn_in, drop_0 by lia. wp_steps.
    destruct (Z.ltb_spec (Z.of_nat (length buf)) (Z.min size (uqe_len e))); [lia|]. apply wp_ret.
    apply (HE e q); [done|]. apply udp_only_unlock; [done|]. by exists (st_world s).
Qed.

Lemma alter_ctx_wf f k pcbs p :
  pcbs_wf pcbs -> pcbs !! k = Some p -> pcbs_wf (alter (with_ctx f) k pcbs).
Proof.
  intros W Hk. pose proof W as (_ & Ok & _). eapply pcbs_wf_same; [done|exact Hk|..]; simpl; [|done|done].
  exact (Ok k p Hk).
Qed.

Lemma alter_recvq_wf q k pcbs p e :
  pcbs_wf pcbs -> pcbs !! k = Some p -> pcb_queue p = e :: q -> pcbs_wf (alter (with_recvq q) k pcbs).
Proof.
  intros W Hk Eq. pose proof W as (_ & Ok & _). destruct (Ok k p Hk) as [He Hf].
  eapply pcbs_wf_same; [done|exact Hk|..]; simpl; [|done|done]. rewrite Eq in *. apply Forall_cons in He as [_ He].
  split; simpl; [done|]. intros H. by destruct (Hf H) as [_ ?].
Qed.

(** What [udp_recvfrom] does on every branch. *)
Lemma udp_recvfrom_wp id size buf s (Q : recv_outcome -> stack -> Prop) :
  udp_ready s -> 0 <= size <= Z.of_nat (length buf) ->
  (udp_pcb_get (st_udp s) id = None -> Q (RecvReturn (-1) None buf) s) ->
  (forall k p, udp_pcb_get (st_udp s) id = Some k -> st_udp s !! k = Some p ->
     (forall e q s', pcb_queue p = e :: q -> udp_only s (alter (with_recvq q) k (st_udp s)) s' ->
        Q (recv_entry size buf e) s') /\
     (forall s', pcb_queue p = [] -> sc_interrupted (pcb_ctx p) <> 0 -> udp_only s (st_udp s) s' ->
        w_errno (st_world s') = EINTR -> Q (RecvReturn (-1) None buf) s') /\
     (forall s', pcb_queue p = [] -> sc_interrupted (pcb_ctx p) = 0 ->
        udp_only s (alter (with_ctx asleep) k (st_udp s)) s' -> Q (RecvSleep k) s')) ->
  wp (udp_recvfrom id size buf) s Q.
Proof.
  intros (R & Hm & W) Hsize HN HS. unfold udp_recvfrom. apply wp_bind, mutex_lock_wp; [done|]. wp_steps.
  cbn [st_udp set_held]. destruct (udp_pcb_get (st_udp s) id) as [k|] eqn:E.
  - pose proof (udp_pcb_get_Some _ _ _ E) as (p & Hk & _). destruct (HS k p) as (H1 & H2 & H3); [done|done|].
    pose proof W as (_ & Ok & _). eapply udp_recv_loop_wp; eauto.
  - apply wp_bind, mutex_unlock_wp; [simpl; by left|]. apply wp_ret. rewrite lock_unlock_id by done. by apply HN.
Qed.

(** The context after a woken thread left. *)
Definition left_ctx (x : sched_ctx) : sched_ctx :=
  SchedCtx (sc_cond x)
    (if truthy (sc_interrupted x) && (sc_wc x - 1 =? 0) then 0 else sc_interrupted x) (sc_wc x - 1).

Lemma sleep_leave_wp k s p (Q : Z -> stack -> Prop) :
  udp_mutex ∉ st_held s -> st_udp s !! k = Some p ->
  (forall s1, udp_only s (alter (with_ctx left_ctx) k (st_udp s)) s1 ->
     Q (if truthy (sc_interrupted (pcb_ctx p)) then -1 else 0) (set_held (cons udp_mutex) s1)) ->
  wp (sched_sleep_leave (pcb_ctx_ref k) udp_mutex 0) s Q.
Proof.
  intros Hm Hk HQ. unfold sched_sleep_leave. apply wp_bind, mutex_lock_wp; [done|].
  unfold ctx_set. wp_steps. eapply wp_of_run.
  { apply ctx_get_run. simpl. rewrite list_lookup_alter_eq, Hk. simpl. done. }
  cbn [sc_interrupted sc_wc pcb_ctx with_ctx].
  destruct (truthy (sc_interrupted (pcb_ctx p))) eqn:Ei.
  - apply wp_bind. unfold truthy at 1. rewrite negb_involutive.
    destruct (sc_wc (pcb_ctx p) - 1 =? 0) eqn:Ew; wp_steps.
    + match goal with |- Q _ ?s' => set (s1 := s') end.
      replace s1 with (set_held (cons udp_mutex) (set_udp (fun _ => alter (with_ctx left_ctx) k (st_udp s))
        (set_world (fun _ => st_world s1) s))).
      { apply HQ. by eexists. }
      unfold s1. simpl. unfold set_held, set_udp, set_world. simpl. f_equal.
      rewrite (alter_alter_pcb _ _ _ _ _ Hk). apply (alter_pcb_ext _ _ _ _ p); [done|].
      unfold with_ctx, left_ctx. simpl. by rewrite Ei, Ew.
    + match goal with |- Q _ ?s' => set (s1 := s') end.
      replace s1 with (set_held (cons udp_mutex) (set_udp (fun _ => alter (with_ctx left_ctx) k (st_udp s))
        (set_world (fun _ => st_world s1) s))).
      { apply HQ. by eexists. }
      unfold s1. simpl. unfold set_held, set_udp, set_world. simpl. f_equal.
      apply (alter_pcb_ext _ _ _ _ p); [done|]. unfold with_ctx, left_ctx. simpl. by rewrite Ei, Ew.
  - wp_steps.
    match goal with |- Q _ ?s' => set (s1 := s') end.
    replace s1 with (set_held (cons udp_mutex) (set_udp (fun _ => alter (with_ctx left_ctx) k (st_udp s))
      (set_world (fun _ => st_world s1) s))).
    { apply HQ. by eexists. }
    unfold s1. simpl. unfold set_held, set_udp, set_world. simpl. f_equal.
    apply (alter_pcb_ext _ _ _ _ p); [done|]. unfold with_ctx, left_ctx. simpl. by rewrite Ei.
Qed.

Lemma udp_only_trans s pcbs s1 pcbs' s2 : udp_only s pcbs s1 -> udp_only s1 pcbs' s2 -> udp_only s pcbs' s2.
Proof. intros (w & ->) (w' & ->). exists w'. done. Qed.

Lemma udp_resume_wp k size buf s p (Q : recv_outcome -> stack -> Prop) :
  udp_ready s -> st_udp s !! k = Some p -> 0 <= size <= Z.of_nat (length buf) ->
  let pcbs1 := alter (with_ctx left_ctx) k (st_udp s) in
  (forall s', sc_interrupted (pcb_ctx p) <> 0 -> udp_only s pcbs1 s' -> w_errno (st_world s') = EINTR ->
     Q (RecvReturn (-1) None buf) s') ->
  (forall s' pcbs, sc_interrupted (pcb_ctx p) = 0 -> pcb_st p = UDP_PCB_STATE_CLOSING -> udp_only s pcbs s' ->
     pcbs = closed k pcbs1 \/ pcbs = closing k pcbs1 -> Q (RecvReturn (-1) None buf) s') ->
  (sc_interrupted (pcb_ctx p) = 0 -> pcb_st p <> UDP_PCB_STATE_CLOSING ->
     (forall e q s', pcb_queue p = e :: q -> udp_only s (alter (with_recvq q) k pcbs1) s' ->
        Q (recv_entry size buf e) s') /\
     (forall s', pcb_queue p = [] -> udp_only s (alter (with_ctx asleep) k pcbs1) s' -> Q (RecvSleep k) s')) ->
  wp (udp_recvfrom_resume k size buf) s Q.
Proof.
  intros (R & Hm & W) Hk Hsize pcbs1 HI HC HR. unfold udp_recvfrom_resume.
  apply wp_bind. eapply sleep_leave_wp; [done|exact Hk|]. fold pcbs1. intros s1 O1.
  assert (st_held s1 = st_held s) as Hh by (by destruct O1 as (w & ->)).
  assert (st_udp s1 = pcbs1) as Eu by (by destruct O1 as (w & ->)).
  assert (st_udp s1 !! k = Some (with_ctx left_ctx p)) as Hk1 by (rewrite Eu; unfold pcbs1; by rewrite list_lookup_alter_eq, Hk).
  unfold truthy. destruct (Z.eqb_spec (sc_interrupted (pcb_ctx p)) 0) as [E0|E0]; cbn [negb].
  - replace (0 =? -1) with false by done. apply wp_bind. eapply wp_of_run; [by apply get_pcb_run|]. cbn [pcb_st with_ctx].
    case_bool_decide as Hst.
    + apply wp_bind. eapply (udp_pcb_release_wp _ _ (with_ctx left_ctx p)); [exact Hk1|..].
      * intros s2 O2. destruct (udp_only_unlock s1 (closed k (st_udp s1)) s2) as [Hh2 O2']; [by rewrite Hh|done|].
        apply wp_bind, mutex_unlock_wp; [done|]. apply wp_ret. eapply HC; [done|done|by eapply udp_only_trans|].
        left. by rewrite Eu.
      * intros s2 O2 _. destruct (udp_only_unlock s1 (closing k (st_udp s1)) s2) as [Hh2 O2']; [by rewrite Hh|done|].
        apply wp_bind, mutex_unlock_wp; [done|]. apply wp_ret. eapply HC; [done|done|by eapply udp_only_trans|].
        right. by rewrite Eu.
    + destruct (HR E0 Hst) as [HE HB]. pose proof W as (_ & Ok & _).
      assert (sc_interrupted (left_ctx (pcb_ctx p)) = 0) as El by (unfold left_ctx, truthy; simpl; by rewrite E0).
      eapply (udp_recv_loop_wp _ _ _ s1 (with_ctx left_ctx p)); [by rewrite Hh|done|exact (Ok k p Hk)|done|..].
      * intros e q s2 Eq O2. apply (HE e q); [done|]. rewrite Eu in O2. by eapply udp_only_trans.
      * intros s2 _ Hi. done.
      * intros s2 Eq _ O2. apply HB; [done|]. rewrite Eu in O2. by eapply udp_only_trans.
  - replace (-1 =? -1) with true by done. apply wp_bind, mutex_unlock_wp; [simpl; by left|]. wp_steps.
    apply HI; [done| |done].
    match goal with |- udp_only _ _ ?s' => set (s2 := s') end. exists (st_world s2).
    destruct O1 as (w & ->). unfold s2, set_udp, set_world, set_held. cbn. f_equal. by apply unlock_held.
Qed.

(** ** Sending *)

Section UdpSend.
Context {Mc : Machine}.

Lemma length_udp_hdr src dst len sum : length (udp_hdr src dst len sum) = 8%nat.
Proof. unfold udp_hdr. by rewrite !length_app, !length_store16. Qed.

Lemma udp_hdr_fields src dst len sum (rest : list Z) :
  let data := udp_hdr src dst len sum ++ rest in
  rd16 data 0 = Some src /\ rd16 data 2 = Some dst /\ rd16 data 4 = Some (hton16 len) /\ drop 8 data = rest.
Proof.
  intros data. unfold data, udp_hdr.
  destruct (store16_load16 src) as (a0 & a1 & -> & Ea). destruct (store16_load16 dst) as (b0 & b1 & -> & Eb).
  destruct (store16_load16 (hton16 len)) as (c0 & c1 & -> & Ec). destruct (store16_load16 sum) as (d0 & d1 & -> & Ed).
  cbn. by rewrite Ea, Eb, Ec.
Qed.

Lemma udp_hdr_bytes src dst len sum :
  in_u16 src -> in_u16 dst -> in_u16 len -> in_u16 sum -> bytes (udp_hdr src dst len sum).
Proof.
  intros. unfold udp_hdr. rewrite !bytes_app. split_and!; apply store16_bytes; by try apply hton16_range.
Qed.

Lemma pseudo_sum_range src dst len psum : pseudo_sum src dst len = Some psum -> in_u16 psum.
Proof. unfold pseudo_sum. destruct (cksum16 _ _ _); [|done]. intros [= <-]. apply u16_range. Qed.

(** [udp_output] makes one datagram, whose checksum verifies, with whatever padding. *)
Lemma udp_output_run src dst data len s :
  0 <= len <= Z.of_nat (length data) -> len <= 65507 ->
  exists sum, let buf := udp_hdr (ep_port src) (ep_port dst) (8 + len) sum ++ take (Z.to_nat len) data in
    udp_output src dst data len s
    = bind (ip_send_packet UDP_PROTOCOL buf (8 + len) (ep_address src) (ep_address dst))
        (fun r => if r =? -1 then ret (-1) else ret len) s /\
    (in_u16 (ep_port src) -> in_u16 (ep_port dst) -> bytes data ->
     bytes buf /\ forall pad, bytes pad -> udp_verifies (buf ++ pad) (8 + len) (ep_address src) (ep_address dst)).
Proof.
  intros Hlen Hmax. unfold udp_output. change (MAX_IP_PAYLOAD_SIZE - UDP_HDR_SIZE) with 65507.
  replace (len >? 65507) with false by lia. unfold UDP_HDR_SIZE. rewrite (u16_small (8 + len)) by (unfold in_u16; lia).
  rewrite rdn_in, drop_0 by lia. cbn [opt]. erewrite bind_ret by reflexivity.
  destruct (pseudo_sum_in (ep_address src) (ep_address dst) (8 + len)) as [psum Ep]. rewrite Ep.
  cbn [opt]. erewrite bind_ret by reflexivity. set (payload := take (Z.to_nat len) data).
  assert (length payload = Z.to_nat len) as Lp by (unfold payload; rewrite length_take; lia).
  assert (forall v, Z.of_nat (length (udp_hdr (ep_port src) (ep_port dst) (8 + len) v ++ payload)) = 8 + len) as L
    by (intros v; rewrite length_app, length_udp_hdr, Lp; lia).
  destruct (cksum16_in (udp_hdr (ep_port src) (ep_port dst) (8 + len) 0 ++ payload) (8 + len) psum) as [sum Es].
  { rewrite L, u16_small by (unfold in_u16; lia). lia. }
  rewrite Es. cbn [opt]. erewrite bind_ret by reflexivity. exists sum. split; [done|].
  intros Hps Hpd Hb.
  pose proof (pseudo_sum_range _ _ _ _ Ep) as Rp. unfold in_u16 in Rp.
  set (pre := store16 (ep_port src) ++ store16 (ep_port dst) ++ store16 (hton16 (8 + len))).
  assert (forall v, udp_hdr (ep_port src) (ep_port dst) (8 + len) v ++ payload = pre ++ store16 v ++ payload) as E
    by (intros v; unfold udp_hdr, pre; by rewrite <- !app_assoc).
  assert (bytes payload) as Bp by by apply bytes_take.
  assert (in_u16 (8 + len)) as U8 by (unfold in_u16; lia).
  assert (in_u16 0) as U0 by (unfold in_u16; lia).
  assert (bytes pre) as Bpre.
  { pose proof (udp_hdr_bytes (ep_port src) (ep_port dst) (8 + len) 0 Hps Hpd U8 U0) as B.
    unfold udp_hdr in B. rewrite !bytes_app in B. unfold pre. rewrite !bytes_app. tauto. }
  destruct (cksum16_fill pre payload psum sum) as [Rs Hz]; try done.
  - unfold pre. by rewrite !length_app, !length_store16.
  - rewrite <- E, L. lia.
  - lia.
  - rewrite <- E, L. exact Es.
  - rewrite <- E, L in Hz.
    pose proof (udp_hdr_bytes (ep_port src) (ep_port dst) (8 + len) sum Hps Hpd U8 Rs) as Bh.
    assert (bytes (udp_hdr (ep_port src) (ep_port dst) (8 + len) sum ++ payload)) as Bd by (by apply bytes_app).
    split; [done|]. intros pad Hpad. exists psum. rewrite u16_small by (unfold in_u16; lia). split; [done|].
    pose proof (L sum) as Ls. rewrite length_app in Ls.
    rewrite cksum16_run in Hz by (done || lia || (rewrite L; lia)).
    rewrite cksum16_run by ((by apply bytes_app) || lia || (rewrite !length_app; lia)).
    rewrite take_ge in Hz by (pose proof (L sum); lia).
    rewrite take_app_length' by (pose proof (L sum); lia). done.
Qed.

End UdpSend.

Section UdpPorts.
Context {Mc : Machine}.

Lemma port_loop_Some pcbs addr p n q :
  udp_port_loop pcbs addr p n = Some q ->
  p <= q < p + Z.of_nat n /\ udp_pcb_select pcbs addr (hton16 q) = None.
Proof.
  revert p. induction n as [|n IH]; intros p; cbn [udp_port_loop]; [done|].
  destruct (udp_pcb_select pcbs addr (hton16 p)) eqn:E.
  - intros [? ?]%IH. split; [lia|done].
  - intros [= <-]. split; [lia|done].
Qed.

Lemma port_loop_None pcbs addr p n i :
  udp_port_loop pcbs addr p n = None -> (i < n)%nat -> is_Some (udp_pcb_select pcbs addr (hton16 (p + Z.of_nat i))).
Proof.
  revert p i. induction n as [|n IH]; intros p i; cbn [udp_port_loop]; [lia|].
  destruct (udp_pcb_select pcbs addr (hton16 p)) as [k|] eqn:E; [|done]. intros Hl Hi. destruct i as [|i].
  - rewrite Z.add_0_r, E. eauto.
  - replace (p + Z.of_nat (S i)) with (p + 1 + Z.of_nat i) by lia. apply IH; [done|lia].
Qed.

(** With more ports than control blocks, one is free. *)
Lemma port_loop_total pcbs addr p n :
  (length pcbs < n)%nat -> 0 <= p -> p + Z.of_nat n <= 65536 -> exists q, udp_port_loop pcbs addr p n = Some q.
Proof.
  intros Hl Hp Hn. destruct (udp_port_loop pcbs addr p n) as [q|] eqn:E; [eauto|]. exfalso.
  set (ports := (fun i => hton16 (p + Z.of_nat i)) <$> seq 0 n).
  assert (NoDup ports) as Hnd.
  { apply NoDup_fmap_2_strong; [|apply NoDup_seq]. intros x y Hx Hy Exy.
    apply elem_of_seq in Hx, Hy. apply hton16_inj in Exy; [lia|unfold in_u16; lia..]. }
  assert (forall x, x ∈ ports -> x ∈ ((fun c => ep_port (pcb_local c)) <$> pcbs)) as Hin.
  { intros x Hx. apply list_elem_of_fmap in Hx as (i & -> & Hi). apply elem_of_seq in Hi.
    destruct (port_loop_None pcbs addr p n i E) as [k Hk]; [lia|].
    apply udp_pcb_select_Some in Hk as (c & Hc & (_ & _ & Ep) & _).
    apply list_elem_of_fmap. exists c. split; [done|]. by eapply list_elem_of_lookup_2. }
  pose proof (submseteq_length _ _ (NoDup_submseteq _ _ Hnd Hin)) as L.
  unfold ports in L. rewrite !length_fmap, length_seq in L. lia.
Qed.

Lemma hton16_nonzero q : in_u16 q -> q <> 0 -> hton16 q <> 0.
Proof.
  intros Hq Hne E. apply Hne. apply hton16_inj; [done|unfold in_u16; lia|]. rewrite E.
  assert (load16 0 0 = 0) as E0 by (unfold load16; by destruct machine_order).
  symmetry. pose proof (load16_ntoh16 0 0) as K. rewrite E0 in K. exact (K ltac:(unfold in_u8; lia) ltac:(unfold in_u8; lia)).
Qed.

(** The local endpoint [udp_sendto] sends from: the address the control block is
    bound to, or that of the interface which leads to the destination; the bound
    port, or a new one. *)
Definition local_address (s : stack) (p : udp_pcb) (foreign : endpoint) (addr : Z) : Prop :=
  if ep_address (pcb_local p) =? IP_ADDR_ANY then
    exists r f, ip_route_lookup (ip_routes (st_ip s)) (ep_address foreign) = Some r /\
      n_ifs (st_net s) !! rt_iface r = Some f /\ addr = if_unicast f
  else addr = ep_address (pcb_local p).

Definition new_port (pcbs : list udp_pcb) (addr port : Z) : Prop :=
  exists q, UDP_SOURCE_PORT_MIN <= q <= UDP_SOURCE_PORT_MAX /\ port = hton16 q /\
    udp_pcb_select pcbs addr port = None.

Lemma udp_sendto_local_wp id foreign s (Q : option endpoint -> stack -> Prop) :
  ip_ready s -> pcbs_wf (st_udp s) ->
  (udp_pcb_get (st_udp s) id = None \/ ip_route_lookup (ip_routes (st_ip s)) (ep_address foreign) = None -> Q None s) ->
  (forall k p addr, udp_pcb_get (st_udp s) id = Some k -> st_udp s !! k = Some p -> local_address s p foreign addr ->
     (ep_port (pcb_local p) <> 0 -> Q (Some (Endpoint addr (ep_port (pcb_local p)))) s) /\
     (forall port, ep_port (pcb_local p) = 0 -> new_port (st_udp s) addr port ->
        let pcbs := bound k (Endpoint (ep_address (pcb_local p)) port) (st_udp s) in
        pcbs_wf pcbs -> Q (Some (Endpoint addr port)) (set_udp (fun _ => pcbs) s))) ->
  wp (udp_sendto_local id foreign) s Q.
Proof.
  intros R W HN HS. unfold udp_sendto_local. wp_steps.
  destruct (udp_pcb_get (st_udp s) id) as [k|] eqn:E; [|apply wp_ret; auto].
  pose proof (udp_pcb_get_Some _ _ _ E) as (p & Hk & Ho & _).
  apply wp_bind. eapply wp_of_run; [by apply get_pcb_run|]. apply wp_bind.
  assert (forall addr, local_address s p foreign addr -> wp (
          (if ep_port (pcb_local p) =? 0 then
             match udp_port_loop (st_udp s) addr UDP_SOURCE_PORT_MIN
                     (Z.to_nat (UDP_SOURCE_PORT_MAX - UDP_SOURCE_PORT_MIN + 1)) with
             | Some q => set_pcb k (with_local (Endpoint (ep_address (pcb_local p)) (hton16 q)))
             | None => ret tt
             end
           else ret tt);;
          let! pcb := get_pcb k in
          if ep_port (pcb_local pcb) =? 0 then ret None
          else ret (Some (Endpoint addr (ep_port (pcb_local pcb))))) s Q) as Rest.
  { intros addr Ha. destruct (HS k p addr eq_refl Hk Ha) as [H1 H2].
    destruct (Z.eqb_spec (ep_port (pcb_local p)) 0) as [E0|E0].
    - assert (Z.of_nat (Z.to_nat (UDP_SOURCE_PORT_MAX - UDP_SOURCE_PORT_MIN + 1)) = 16384) as En
        by (by rewrite Z2Nat.id).
      set (n := Z.to_nat _) in *. clearbody n.
      destruct (port_loop_total (st_udp s) addr UDP_SOURCE_PORT_MIN n) as [q Eq].
      { destruct W as (-> & _). change UDP_PCB_SIZE with 16%nat. lia. }
      { done. }
      { rewrite En. done. }
      rewrite Eq. apply port_loop_Some in Eq as [Rq Sq]. rewrite En in Rq.
      unfold UDP_SOURCE_PORT_MIN in Rq. unfold set_pcb. wp_steps.
      eapply wp_of_run; [apply get_pcb_run; simpl; rewrite list_lookup_alter_eq, Hk; reflexivity|].
      cbn [pcb_local with_local ep_port].
      destruct (Z.eqb_spec (hton16 q) 0) as [Ez|_]; [by apply hton16_nonzero in Ez; [..|lia]; unfold in_u16; lia|].
      apply wp_ret. apply (H2 (hton16 q)); [done|..].
      + exists q. unfold UDP_SOURCE_PORT_MIN, UDP_SOURCE_PORT_MAX. split_and!; [lia|lia|done|done].
      + eapply (bound_wf _ _ _ p addr); [done|exact Hk|done|done|].
        simpl. unfold local_address in Ha. destruct (Z.eqb_spec (ep_address (pcb_local p)) IP_ADDR_ANY); [by right|by left].
    - wp_steps. eapply wp_of_run; [by apply get_pcb_run|].
      destruct (Z.eqb_spec (ep_port (pcb_local p)) 0); [done|]. by apply wp_ret, H1. }
  unfold local_address in Rest. destruct (Z.eqb_spec (ep_address (pcb_local p)) IP_ADDR_ANY) as [Ea|Ea].
  - unfold ip_get_interface. apply wp_bind, wp_bind, wp_gets, wp_ret.
    destruct (ip_route_lookup _ _) as [r|] eqn:Er; [|apply wp_ret, wp_ret; auto].
    destruct (route_iface_ok s (ep_address foreign) r R Er) as (f & _ & _ & Hf & _).
    apply wp_bind. eapply wp_of_run; [by apply get_iface_ok|]. apply wp_ret, Rest. eauto.
  - by apply wp_ret, Rest.
Qed.

End UdpPorts.

(** ** Properties *)

Section UdpProperties.
Context {Mc : Machine}.

Lemma udp_step_ready s s' : udp_ready s -> ip_step s s' -> udp_ready s' /\ st_held s' = st_held s.
Proof.
  intros (R & Hm & W) [R' E]. unfold upper_frame in E. injection E as Eu _ _ Eh.
  split; [|done]. split_and!; [done|by rewrite Eh|by rewrite Eu].
Qed.

Lemma udp_output_step src dst data len s :
  udp_ready s -> 0 <= len <= Z.of_nat (length data) ->
  wp (udp_output src dst data len) s (fun _ s' => ip_step s s').
Proof.
  intros R Hlen. destruct (Z.le_gt_cases len 65507) as [Hmax|Hbig].
  - destruct (udp_output_run src dst data len s Hlen Hmax) as (sum & E & _). unfold wp. rewrite E.
    set (buf := udp_hdr _ _ _ _ ++ _).
    pose proof (ip_send_packet_safe UDP_PROTOCOL buf (8 + len) (ep_address src) (ep_address dst) s (proj1 R)) as W.
    unfold buf in W. rewrite length_app, length_udp_hdr, length_take in W. specialize (W ltac:(lia) ltac:(lia)).
    fold buf in W. change (wp (bind (ip_send_packet UDP_PROTOCOL buf (8 + len) (ep_address src) (ep_address dst))
      (fun r => if r =? -1 then ret (-1) else ret len)) s (fun _ s' => ip_step s s')).
    apply wp_bind. eapply wp_mono; [exact W|]. intros r s' [_ S].
    destruct (r =? -1); by apply wp_ret.
  - unfold udp_output. change (MAX_IP_PAYLOAD_SIZE - UDP_HDR_SIZE) with 65507.
    replace (len >? 65507) with true by lia. apply wp_ret, ip_step_refl, R.
Qed.

Lemma udp_output_safe src dst data len s :
  udp_ready s -> 0 <= len <= Z.of_nat (length data) ->
  wp (udp_output src dst data len) s (fun _ s' => udp_ready s' /\ st_held s' = st_held s).
Proof.
  intros R Hlen. eapply wp_mono; [by apply udp_output_step|]. intros r s' S. by eapply udp_step_ready.
Qed.

(** The critical section of [udp_sendto], whatever follows it. *)
Lemma udp_section_wp {A} id foreign (k : option endpoint -> C A) s (Q : A -> stack -> Prop) :
  udp_ready s ->
  (udp_pcb_get (st_udp s) id = None \/ ip_route_lookup (ip_routes (st_ip s)) (ep_address foreign) = None -> wp (k None) s Q) ->
  (forall i p addr, udp_pcb_get (st_udp s) id = Some i -> st_udp s !! i = Some p -> local_address s p foreign addr ->
     (ep_port (pcb_local p) <> 0 -> wp (k (Some (Endpoint addr (ep_port (pcb_local p))))) s Q) /\
     (forall port, ep_port (pcb_local p) = 0 -> new_port (st_udp s) addr port ->
        let pcbs := bound i (Endpoint (ep_address (pcb_local p)) port) (st_udp s) in
        pcbs_wf pcbs -> wp (k (Some (Endpoint addr port))) (set_udp (fun _ => pcbs) s) Q)) ->
  wp (mutex_lock udp_mutex;; let! local := udp_sendto_local id foreign in mutex_unlock udp_mutex;; k local) s Q.
Proof.
  intros (R & Hm & W) HN HS. apply wp_bind, mutex_lock_wp; [done|].
  apply wp_bind, udp_sendto_local_wp.
  { destruct R as ((N & C & Ha) & Hi & Hr & Hd). split_and!; [split_and!| |done|done]; try done; by apply not_elem_of_cons. }
  { done. }
  - intros H. apply wp_bind, mutex_unlock_wp; [simpl; by left|]. rewrite lock_unlock_id by done. by apply HN.
  - intros i p addr E Hk Ha. destruct (HS i p addr E Hk Ha) as [H1 H2]. split.
    + intros Hp. apply wp_bind, mutex_unlock_wp; [simpl; by left|]. rewrite lock_unlock_id by done. by apply H1.
    + intros port Hp Hn pcbs Wf. apply wp_bind, mutex_unlock_wp; [simpl; by left|].
      specialize (H2 port Hp Hn Wf). fold pcbs in H2.
      replace (set_held (filter (fun k => k <> udp_mutex)) (set_udp (fun _ => pcbs) (set_held (cons udp_mutex) s)))
        with (set_udp (fun _ => pcbs) s); [done|].
      unfold set_held, set_udp. cbn. f_equal. symmetry. by apply unlock_held.
Qed.

Lemma udp_sendto_wp id data len foreign s (Q : Z -> stack -> Prop) :
  udp_ready s ->
  (udp_pcb_get (st_udp s) id = None \/ ip_route_lookup (ip_routes (st_ip s)) (ep_address foreign) = None ->
     Q (-1) s) ->
  (forall k p addr, udp_pcb_get (st_udp s) id = Some k -> st_udp s !! k = Some p -> local_address s p foreign addr ->
     (ep_port (pcb_local p) <> 0 ->
        wp (udp_output (Endpoint addr (ep_port (pcb_local p))) foreign data len) s Q) /\
     (forall port, ep_port (pcb_local p) = 0 -> new_port (st_udp s) addr port ->
        let pcbs := bound k (Endpoint (ep_address (pcb_local p)) port) (st_udp s) in
        pcbs_wf pcbs -> wp (udp_output (Endpoint addr port) foreign data len) (set_udp (fun _ => pcbs) s) Q)) ->
  wp (udp_sendto id data len foreign) s Q.
Proof. intros R HN HS. apply udp_section_wp; [done|intros H; by apply wp_ret, HN|exact HS]. Qed.

(** The functions of udp.c keep the table well formed: from a state with a
    well-formed table (16 control blocks, no two open ones bound to the same
    endpoint, free ones unbound and empty, queue entries true to their lengths) in
    which IP can send and the mutex is free, every user command, the input handler
    on any buffer that holds its [len] bytes, the event handler and a thread that
    wakes up in [udp_recvfrom] return, or sleep, without a fault or a deadlock, in
    such a state again and with the mutex released. *)
Theorem udp_commands_safe (s : stack) (R : udp_ready s) :
  let safe := fun {A} (m : C A) => wp m s (fun _ s' => udp_ready s' /\ st_held s' = st_held s) in
  safe udp_open /\ safe event_handler /\
  (forall id, safe (udp_close id)) /\
  (forall id local, safe (udp_bind id local)) /\
  (forall id data len foreign, 0 <= len <= Z.of_nat (length data) -> safe (udp_sendto id data len foreign)) /\
  (forall data len src dst i, 0 <= len <= Z.of_nat (length data) -> len <= 65535 -> safe (udp_input data len src dst i)) /\
  (forall id size buf, 0 <= size <= Z.of_nat (length buf) -> safe (udp_recvfrom id size buf)) /\
  (forall k size buf, (k < UDP_PCB_SIZE)%nat -> 0 <= size <= Z.of_nat (length buf) -> safe (udp_recvfrom_resume k size buf)).
Proof.
  intros safe. pose proof R as (Rip & Hm & W). pose proof W as (L & Ok & _).
  assert (forall s' pcbs, udp_only s pcbs s' -> pcbs_wf pcbs -> udp_ready s' /\ st_held s' = st_held s) as Fin
    by (intros; by eapply udp_only_ready).
  assert (forall s', udp_only s (st_udp s) s' -> udp_ready s' /\ st_held s' = st_held s) as Fin0
    by (intros; by eapply Fin).
  split_and!; unfold safe.
  - apply udp_open_wp; [done|done|]. intros k s' _ O Wf. by eapply Fin.
  - apply event_handler_wp; [done|]. intros s' O. eapply Fin; [exact O|by apply interrupted_wf].
  - intros id. apply udp_close_wp; [done|done|]. intros k s' pcbs _ O Wf _. by eapply Fin.
  - intros id local. apply udp_bind_wp; [done|done|]. intros k s' _ _ O Wf. by eapply Fin.
  - intros id data len foreign Hlen. apply udp_sendto_wp; [done|done|]. intros k p addr _ Hk Ha. split.
    + intros _. by apply udp_output_safe.
    + intros port _ _ pcbs Wf.
      exact (udp_output_safe (Endpoint addr port) foreign data len (set_udp (fun _ => pcbs) s)
        (conj Rip (conj Hm Wf)) Hlen).
  - intros data len src dst i Hlen H16. apply udp_input_wp; try done.
    intros sport dport _ _ _ _ _. split; [intros s' _ O; by apply Fin0|]. intros k s' _ e O Wf. by eapply Fin.
  - intros id size buf Hsize. apply udp_recvfrom_wp; [done|done|done|]. intros k p E Hk. split_and!.
    + intros e q s' Eq O. eapply Fin; [exact O|by eapply alter_recvq_wf].
    + intros s' _ _ O _. by apply Fin0.
    + intros s' _ _ O. eapply Fin; [exact O|by eapply alter_ctx_wf].
  - intros k size buf Hlt Hsize. destruct (lookup_lt_is_Some_2 (st_udp s) k) as [p Hk]; [by rewrite L|].
    assert (pcbs_wf (alter (with_ctx left_ctx) k (st_udp s))) as W1 by by eapply alter_ctx_wf.
    assert (alter (with_ctx left_ctx) k (st_udp s) !! k = Some (with_ctx left_ctx p)) as Hk1
      by (by rewrite list_lookup_alter_eq, Hk).
    eapply udp_resume_wp; [done|exact Hk|done|..].
    + intros s' _ O _. by eapply Fin.
    + intros s' pcbs _ _ O [->| ->]; (eapply Fin; [exact O|]); [by eapply closed_wf|by eapply closing_wf].
    + intros _ _. split.
      * intros e q s' Eq O. eapply Fin; [exact O|]. eapply alter_recvq_wf; [done|exact Hk1|exact Eq].
      * intros s' _ O. eapply Fin; [exact O|by eapply alter_ctx_wf].
Qed.

(** A datagram of [udp_output], and what [udp_input] does with it. *)
Lemma udp_datagram_delivered (src dst : endpoint) (data : list Z) (len : Z) (s : stack)
    (Hlen : 0 <= len <= 65507) (Hdata : len <= Z.of_nat (length data)) (Hb : bytes data)
    (Hs : in_u16 (ep_port src)) (Hd : in_u16 (ep_port dst)) :
  exists buf, Z.of_nat (length buf) = 8 + len /\ bytes buf /\
    udp_output src dst data len s
    = bind (ip_send_packet UDP_PROTOCOL buf (8 + len) (ep_address src) (ep_address dst))
        (fun r => if r =? -1 then ret (-1) else ret len) s /\
    forall s' pad i, udp_ready s' -> bytes pad -> w_alloc (st_world s') = [] ->
      wp (udp_input (buf ++ pad) (8 + len) (ep_address src) (ep_address dst) i) s' (fun _ s'' =>
        match udp_pcb_select (st_udp s') (ep_address dst) (ep_port dst) with
        | Some k => udp_only s' (received k (UdpQueueEntry src len (take (Z.to_nat len) data)) (st_udp s')) s''
        | None => s'' = s'
        end).
Proof.
  destruct (udp_output_run src dst data len s) as (sum & E & V); [lia|lia|].
  set (buf := udp_hdr (ep_port src) (ep_port dst) (8 + len) sum ++ take (Z.to_nat len) data) in *.
  assert (Z.of_nat (length buf) = 8 + len) as L
    by (unfold buf; rewrite length_app, length_udp_hdr, length_take; lia).
  destruct (V Hs Hd Hb) as [Bb V']. exists buf. split_and!; [done|done|done|]. intros s' pad i R Hpad Ha.
  destruct (udp_hdr_fields (ep_port src) (ep_port dst) (8 + len) sum (take (Z.to_nat len) data ++ pad))
    as (F0 & F2 & F4 & Fd). rewrite app_assoc in F0, F2, F4, Fd. fold buf in F0, F2, F4, Fd.
  assert (ntoh16 <$> rd16 (buf ++ pad) 4 = Some (8 + len)) as E4
    by (rewrite F4; simpl; by rewrite ntoh16_hton16 by (unfold in_u16; lia)).
  apply udp_input_wp; [done|rewrite length_app; lia|lia|..].
  - intros Hn. rewrite (Hn (ep_port dst)); [done|lia|done|done|by apply V'].
  - intros sport dport _ E0 E2 _ _. rewrite F0 in E0. injection E0 as <-. rewrite F2 in E2. injection E2 as <-.
    split; [intros s'' Hne; by destruct Hne|]. intros k s'' Hsel e O _. rewrite Hsel.
    replace e with (UdpQueueEntry src len (take (Z.to_nat len) data)) in O; [done|].
    unfold e. rewrite Fd. replace (8 + len - 8) with len by lia.
    rewrite take_app_length' by (rewrite length_take; lia). by destruct src.
Qed.

(** C9. What UDP sends, UDP receives: [udp_output] hands IP one datagram of 8 +
    [len] bytes; on any host where that datagram arrives, with whatever padding,
    from and to the same addresses, [udp_input] appends exactly one entry with the
    payload and the sender's endpoint to the queue of the first open control block
    bound to the destination, and wakes its sleepers; with no such control block it
    changes nothing. *)
Theorem udp_output_input_roundtrip (src dst : endpoint) (data : list Z) (len : Z) (s : stack)
    (Hlen : 0 <= len <= 65507) (Hdata : len <= Z.of_nat (length data)) (Hb : bytes data)
    (Hs : in_u16 (ep_port src)) (Hd : in_u16 (ep_port dst)) :
  exists buf, Z.of_nat (length buf) = 8 + len /\
    udp_output src dst data len s
    = bind (ip_send_packet UDP_PROTOCOL buf (8 + len) (ep_address src) (ep_address dst))
        (fun r => if r =? -1 then ret (-1) else ret len) s /\
    forall s' pad i, udp_ready s' -> bytes pad -> w_alloc (st_world s') = [] ->
      wp (udp_input (buf ++ pad) (8 + len) (ep_address src) (ep_address dst) i) s' (fun _ s'' =>
        match udp_pcb_select (st_udp s') (ep_address dst) (ep_port dst) with
        | Some k => udp_only s' (received k (UdpQueueEntry src len (take (Z.to_nat len) data)) (st_udp s')) s''
        | None => s'' = s'
        end).
Proof.
  destruct (udp_datagram_delivered src dst data len s) as (buf & Hl & _ & E & D); try done. by exists buf.
Qed.

(** A receiver that blocks, the datagram that wakes it, and its return: the table
    afterwards is as before, up to the context of the control block. *)
Lemma blocked_receiver_wp (id size : Z) (buf : list Z) (s : stack) (k : nat) (p : udp_pcb)
    (data : list Z) (len src dst sport dport : Z) (i : iface_id) :
  udp_ready s -> 0 <= size <= Z.of_nat (length buf) ->
  udp_pcb_get (st_udp s) id = Some k -> st_udp s !! k = Some p ->
  pcb_queue p = [] -> sc_interrupted (pcb_ctx p) = 0 ->
  8 <= len <= Z.of_nat (length data) -> len <= 65535 ->
  rd16 data 0 = Some sport -> rd16 data 2 = Some dport ->
  ntoh16 <$> rd16 data 4 = Some len -> udp_verifies data len src dst ->
  udp_pcb_select (st_udp s) dst dport = Some k ->
  wp (udp_recvfrom id size buf) s (fun r s1 => r = RecvSleep k /\
    (w_alloc (st_world s1) = [] ->
     wp (udp_input data len src dst i) s1 (fun _ s2 =>
       sc_cond <$> (pcb_ctx <$> st_udp s2 !! k) = Some 0 /\
       wp (udp_recvfrom_resume k size buf) s2 (fun r s3 =>
         r = recv_entry size buf (UdpQueueEntry (Endpoint src sport) (len - 8)
               (take (Z.to_nat (len - 8)) (drop 8 data))) /\
         exists pcbs p', udp_only s pcbs s3 /\ pcbs_wf pcbs /\ pcbs !! k = Some p' /\
           pcb_st p' = UDP_PCB_STATE_OPEN /\ pcb_local p' = pcb_local p /\
           (forall j, j <> k -> pcbs !! j = st_udp s !! j))))).
Proof.
  intros R Hsize Hget Hk Hempty Hint Hlen H16 Hs0 Hd2 H4 Hv Hsel.
  pose proof (udp_pcb_select_Some _ _ _ _ Hsel) as (p' & Hk' & Hm & _). rewrite Hk in Hk'. injection Hk' as <-.
  pose proof R as (_ & _ & W).
  apply udp_recvfrom_wp; [done|done|by rewrite Hget|]. intros k' p' E Hp'. rewrite Hget in E. injection E as <-.
  rewrite Hk in Hp'. injection Hp' as <-.
  split_and!; [by rewrite Hempty|by rewrite Hint|]. intros s1 _ _ O1. split; [done|]. intros Ha1.
  assert (pcbs_wf (alter (with_ctx asleep) k (st_udp s))) as W1 by by eapply alter_ctx_wf.
  destruct (udp_only_ready _ _ _ R O1 W1) as [R1 _].
  assert (st_udp s1 = alter (with_ctx asleep) k (st_udp s)) as Eu1 by (by destruct O1 as (w & ->)).
  assert (udp_pcb_select (st_udp s1) dst dport = Some k) as Hsel1.
  { rewrite Eu1. unfold udp_pcb_select in *.
    destruct (list_find (pcb_matches dst dport) (st_udp s)) as [[j q]|] eqn:El; [|done]. injection Hsel as ->.
    apply list_find_Some in El as (Hq & Mq & Hbefore).
    erewrite (proj2 (list_find_Some (pcb_matches dst dport) (alter (with_ctx asleep) k (st_udp s)) k (with_ctx asleep q))); [done|].
    split_and!; [by rewrite list_lookup_alter_eq, Hq|done|]. intros j y Hj Hjk.
    rewrite list_lookup_alter_ne in Hj by lia. by eapply Hbefore. }
  apply udp_input_wp; [done|lia|done|..].
  - intros Hn. rewrite (Hn dport) in Hsel1; [done|lia|done|done|done].
  - intros sp dp _ E0 E2 _ _. rewrite Hs0 in E0. injection E0 as <-. rewrite Hd2 in E2. injection E2 as <-.
    split; [by intros s2 []|]. intros k2 s2 Es e O2 W2. rewrite Hsel1 in Es. injection Es as <-.
    assert (st_udp s2 !! k = Some (UdpPcb (pcb_st p) (pcb_local p) [e] (wake (asleep (pcb_ctx p))))) as Hk2.
    { destruct O2 as (w & ->). simpl. unfold received. rewrite Eu1, list_lookup_alter_eq, list_lookup_alter_eq, Hk.
      simpl. by rewrite Hempty. }
    rewrite Hk2. split; [done|]. destruct (udp_only_ready _ _ _ R1 O2 W2) as [R2 _].
    eapply udp_resume_wp; [done|exact Hk2|done|..]; simpl.
    + intros s3 Hi. done.
    + intros s3 pcbs _ Hc. destruct Hm as (Ho & _). congruence.
    + intros _ _. split; [|done]. intros e' q s3 [= <- <-] O3. split; [done|].
      set (p2 := UdpPcb _ _ _ _) in Hk2. set (pcbs1 := alter (with_ctx left_ctx) k (st_udp s2)) in O3.
      assert (pcbs1 !! k = Some (with_ctx left_ctx p2)) as Hk1 by (unfold pcbs1; by rewrite list_lookup_alter_eq, Hk2).
      eexists _, (with_recvq [] (with_ctx left_ctx p2)). split_and!.
      * eapply udp_only_trans; [|exact O3]. eapply udp_only_trans; [exact O1|exact O2].
      * eapply alter_recvq_wf; [|exact Hk1|done]. eapply alter_ctx_wf; [apply R2|exact Hk2].
      * by rewrite list_lookup_alter_eq, Hk1.
      * simpl. by destruct Hm.
      * done.
      * intros j Hj. unfold pcbs1. destruct O2 as (w & ->). simpl. unfold received. rewrite Eu1.
        by rewrite !list_lookup_alter_ne.
Qed.

(** C12. A blocked receiver gets its datagram: when [udp_recvfrom] finds nothing on
    an open control block and sleeps, and a datagram for the control block's
    endpoint then comes in, the receiver is woken (nobody is left blocked), and when
    it runs [udp_recvfrom] returns that datagram, truncated to the buffer, with its
    sender's endpoint, unless an allocation for the entry failed. *)
Theorem udp_blocked_receiver_gets_datagram (id size : Z) (buf : list Z) (s : stack) (k : nat) (p : udp_pcb)
    (data : list Z) (len src dst sport dport : Z) (i : iface_id)
    (R : udp_ready s) (Hsize : 0 <= size <= Z.of_nat (length buf))
    (Hget : udp_pcb_get (st_udp s) id = Some k) (Hk : st_udp s !! k = Some p)
    (Hempty : pcb_queue p = []) (Hint : sc_interrupted (pcb_ctx p) = 0)
    (Hlen : 8 <= len <= Z.of_nat (length data)) (H16 : len <= 65535)
    (Hs0 : rd16 data 0 = Some sport) (Hd2 : rd16 data 2 = Some dport)
    (H4 : ntoh16 <$> rd16 data 4 = Some len) (Hv : udp_verifies data len src dst)
    (Hsel : udp_pcb_select (st_udp s) dst dport = Some k) :
  wp (udp_recvfrom id size buf) s (fun r s1 => r = RecvSleep k /\
    (w_alloc (st_world s1) = [] ->
     wp (udp_input data len src dst i) s1 (fun _ s2 =>
       sc_cond <$> (pcb_ctx <$> st_udp s2 !! k) = Some 0 /\
       wp (udp_recvfrom_resume k size buf) s2 (fun r _ =>
         r = recv_entry size buf (UdpQueueEntry (Endpoint src sport) (len - 8)
               (take (Z.to_nat (len - 8)) (drop 8 data))))))).
Proof.
  eapply wp_mono; [by eapply blocked_receiver_wp|]. intros r s1 [-> H1]. split; [done|]. intros Ha.
  eapply wp_mono; [by apply H1|]. intros u s2 [Hc H2]. split; [done|].
  eapply wp_mono; [exact H2|]. by intros r s3 [-> _].
Qed.

(** C26. Bound endpoints are exclusive: [udp_bind] succeeds exactly when the
    control block is open and no open control block has the port with the same
    address or with no address; failure changes nothing; and after success no
    control block can be bound to the same endpoint. *)
Theorem udp_bind_exclusive (id : Z) (local : endpoint) (s : stack) (R : udp_ready s) :
  wp (udp_bind id local) s (fun r s' =>
    (r = 0 <-> is_Some (udp_pcb_get (st_udp s) id) /\
       forall k p, st_udp s !! k = Some p -> ~ pcb_matches (ep_address local) (ep_port local) p) /\
    (r <> 0 -> r = -1 /\ s' = s) /\
    (r = 0 -> (exists k p, udp_pcb_get (st_udp s') id = Some k /\ st_udp s' !! k = Some p /\ pcb_local p = local) /\
       forall id', wp (udp_bind id' local) s' (fun r' s'' => r' = -1 /\ s'' = s'))).
Proof.
  apply udp_bind_wp; [done|..].
  - intros Hfail. split_and!; [|done|done]. split; [done|]. intros [[k Hk] Hno].
    destruct Hfail as [Hn|[j Hj]]; [congruence|].
    apply udp_pcb_select_Some in Hj as (q & Hq & Mq & _). by destruct (Hno j q).
  - intros k s' Hget Hsel O Wf. destruct (udp_only_ready _ _ _ R O Wf) as [R' _].
    assert (st_udp s' = bound k local (st_udp s)) as Eu by (by destruct O as (w & ->)).
    pose proof (udp_pcb_get_Some _ _ _ Hget) as (p & Hk & Ho & Hid & Hlt).
    assert (st_udp s' !! k = Some (with_local local p)) as Hk'
      by (rewrite Eu; unfold bound; by rewrite list_lookup_alter_eq, Hk).
    split_and!; [|done|].
    + split; [|done]. intros _. split; [eauto|]. intros j q Hq. by eapply udp_pcb_select_None.
    + intros _. split.
      * exists k, (with_local local p). split_and!; [|done|done]. unfold udp_pcb_get in *.
        destruct (_ || _); [done|]. rewrite Hid, Nat2Z.id, Hk'. by rewrite bool_decide_true.
      * intros id'. apply udp_bind_wp; [done|done|]. intros j s'' _ Hs _ _. exfalso.
        eapply udp_pcb_select_None; [exact Hs|exact Hk'|]. split_and!; [done|by right|done].
Qed.

(** C27. A sender always has a port: when the control block is open and there is a
    route (or a bound address), [udp_sendto] sends exactly the datagram that
    [udp_output] makes from the control block's endpoint, the address being the
    bound one or that of the interface towards the destination; an unbound port is
    first replaced by one in 49152..65535 that no open control block answers for at
    that address, and this search cannot fail. *)
Theorem udp_sendto_port (id : Z) (data : list Z) (len : Z) (foreign : endpoint) (s : stack) (k : nat) (p : udp_pcb)
    (R : udp_ready s) (Hget : udp_pcb_get (st_udp s) id = Some k) (Hk : st_udp s !! k = Some p)
    (Hroute : is_Some (ip_route_lookup (ip_routes (st_ip s)) (ep_address foreign)))
    (Hlen : 0 <= len <= Z.of_nat (length data)) :
  wp (udp_sendto id data len foreign) s (fun r t => exists addr port s1,
    local_address s p foreign addr /\
    (ep_port (pcb_local p) <> 0 /\ port = ep_port (pcb_local p) /\ s1 = s \/
     ep_port (pcb_local p) = 0 /\ new_port (st_udp s) addr port /\
     s1 = set_udp (fun _ => bound k (Endpoint (ep_address (pcb_local p)) port) (st_udp s)) s) /\
    udp_output (Endpoint addr port) foreign data len s1 = Ret r t).
Proof.
  assert (forall ep s1, udp_ready s1 ->
    wp (udp_output ep foreign data len) s1 (fun r t => udp_output ep foreign data len s1 = Ret r t)) as Run.
  { intros ep s1 R1. destruct (wp_run _ _ _ (udp_output_safe ep foreign data len s1 R1 Hlen)) as (r & t & E & _).
    by eapply wp_of_run. }
  pose proof R as (Rip & Hm & W). apply udp_sendto_wp; [done|..].
  - intros [H|H]; [congruence|]. rewrite H in Hroute. by destruct Hroute.
  - intros k' p' addr E Hp' Ha. rewrite Hget in E. injection E as <-. rewrite Hk in Hp'. injection Hp' as <-. split.
    + intros Hp. eapply wp_mono; [by apply Run|]. intros r t Hr. exists addr, (ep_port (pcb_local p)), s. auto 10.
    + intros port Hp Hn pcbs Wf. eapply wp_mono; [by apply Run|]. intros r t Hr. exists addr, port, (set_udp (fun _ => pcbs) s).
      auto 10.
Qed.

(** Opening and closing: [udp_open] returns the identifier of a control block
    that was free, now open, unbound and with nothing queued, and fails only when
    none is free; [udp_close] of an open control block discards its queue and its
    binding and makes the identifier invalid (so that every command on it fails),
    and of anything else fails and changes nothing. *)
Theorem udp_open_close (s : stack) (R : udp_ready s) :
  wp udp_open s (fun r s' =>
    (r = -1 /\ s' = s /\ Forall (fun p => pcb_st p <> UDP_PCB_STATE_FREE) (st_udp s)) \/
    (exists k p, r = Z.of_nat k /\ st_udp s !! k = Some p /\ pcb_st p = UDP_PCB_STATE_FREE /\
       udp_pcb_get (st_udp s') r = Some k /\
       st_udp s' !! k = Some (UdpPcb UDP_PCB_STATE_OPEN (Endpoint IP_ADDR_ANY 0) [] (SchedCtx 0 0 0)) /\
       forall j, j <> k -> st_udp s' !! j = st_udp s !! j)) /\
  forall id, wp (udp_close id) s (fun r s' =>
    (udp_pcb_get (st_udp s) id = None /\ r = -1 /\ s' = s) \/
    (exists k, udp_pcb_get (st_udp s) id = Some k /\ r = 0 /\ udp_pcb_get (st_udp s') id = None /\
       (forall j, j <> k -> st_udp s' !! j = st_udp s !! j) /\
       (w_sys (st_world s) = [] -> exists x, st_udp s' !! k
          = Some (UdpPcb UDP_PCB_STATE_FREE (Endpoint IP_ADDR_ANY 0) [] x)))).
Proof.
  pose proof R as (_ & _ & (L & Ok & _)). split.
  - apply udp_open_wp; [done|by left|]. intros k s' (p & Hk & Hf) O _. right. exists k, p.
    assert (st_udp s' = opened k (st_udp s)) as -> by (by destruct O as (w & ->)).
    destruct (Ok k p Hk) as [_ Hfree]. destruct (Hfree Hf) as [El Eq].
    assert (opened k (st_udp s) !! k = Some (UdpPcb UDP_PCB_STATE_OPEN (Endpoint IP_ADDR_ANY 0) [] (SchedCtx 0 0 0))) as Hk'
      by (unfold opened; rewrite list_lookup_alter_eq, Hk; simpl; by rewrite El, Eq).
    split_and!; try done.
    + unfold udp_pcb_get. apply lookup_lt_Some in Hk. rewrite L in Hk. change UDP_PCB_SIZE with 16%nat in *.
      change (Z.of_nat 16) with 16.
      replace ((Z.of_nat k <? 0) || (Z.of_nat k >=? 16)) with false by lia. by rewrite Nat2Z.id, Hk'.
    + intros j Hj. unfold opened. by rewrite list_lookup_alter_ne.
  - intros id. apply udp_close_wp; [done|by left|]. intros k s' pcbs Hget O _ Hp. right. exists k.
    assert (st_udp s' = pcbs) as -> by (by destruct O as (w & ->)).
    pose proof (udp_pcb_get_Some _ _ _ Hget) as (p & Hk & Ho & -> & Hlt).
    assert (forall st l q x, (st <> UDP_PCB_STATE_OPEN) -> pcbs !! k = Some (UdpPcb st l q x) ->
      udp_pcb_get pcbs (Z.of_nat k) = None) as Hnone.
    { intros st l q x Hst E. unfold udp_pcb_get. destruct (_ || _); [done|]. rewrite Nat2Z.id, E. simpl.
      by rewrite bool_decide_false. }
    destruct Hp as [->|[-> (a & rest & Ea & _)]].
    + assert (closed k (st_udp s) !! k = Some (UdpPcb UDP_PCB_STATE_FREE (Endpoint IP_ADDR_ANY 0) [] (pcb_ctx p))) as Hk'
        by (unfold closed; by rewrite list_lookup_alter_eq, Hk).
      assert (udp_pcb_get (closed k (st_udp s)) (Z.of_nat k) = None) by (eapply Hnone; [|exact Hk']; done).
      split_and!; try done; [|by eauto].
      intros j Hj. unfold closed. by rewrite list_lookup_alter_ne.
    + split_and!; try done.
      * eapply Hnone; [|unfold closing; by rewrite list_lookup_alter_eq, Hk]. done.
      * intros j Hj. unfold closing. by rewrite list_lookup_alter_ne.
      * by rewrite Ea.
Qed.

(** Threads that were blocked on control block [k] leave one after the other: the
    size and buffer of each call, and its outcome with the [errno] it leaves. *)
Fixpoint leave_all (k : nat) (waiters : list (Z * list Z)) : C (list (recv_outcome * Z)) :=
  match waiters with
  | [] => ret []
  | (size, buf) :: waiters =>
      let! o := udp_recvfrom_resume k size buf in
      let! w := gets st_world in
      let! l := leave_all k waiters in
      ret ((o, w_errno w) :: l)
  end.

(** The context once [n] threads left an interrupted one: the last takes the
    interrupt with it. *)
Definition drained_ctx (n : nat) (wc : Z) : sched_ctx :=
  SchedCtx 0 (if decide (n <> 0%nat /\ Z.of_nat n = wc) then 0 else 1) (wc - Z.of_nat n).

Lemma leave_all_wp k waiters : forall s p,
  udp_ready s -> st_udp s !! k = Some p -> sc_cond (pcb_ctx p) = 0 ->
  Forall (fun w => 0 <= w.1 <= Z.of_nat (length w.2)) waiters -> Z.of_nat (length waiters) <= sc_wc (pcb_ctx p) ->
  sc_interrupted (pcb_ctx p) = 1 ->
  wp (leave_all k waiters) s (fun rs s' =>
    rs = map (fun w => (RecvReturn (-1) None w.2, EINTR)) waiters /\ udp_ready s' /\
    st_udp s' !! k = Some (with_ctx (fun _ => drained_ctx (length waiters) (sc_wc (pcb_ctx p))) p)).
Proof.
  induction waiters as [|[size buf] ws IH]; intros s p R Hk Hc Hw Hn Hi.
  - apply wp_ret. split_and!; [done|done|]. rewrite Hk. destruct p as [st l q [c i wc]]. simpl in *. subst.
    unfold with_ctx, drained_ctx. f_equal. cbn [pcb_st pcb_local pcb_queue]. f_equal. f_equal; simpl; lia.
  - apply Forall_cons in Hw as [Hs Hw]. cbn [leave_all]. apply wp_bind.
    eapply udp_resume_wp; [done|exact Hk|exact Hs|..]; [|by rewrite Hi|by rewrite Hi]. intros s1 _ O He.
    pose proof R as (_ & _ & W). destruct (udp_only_ready _ _ _ R O (alter_ctx_wf _ _ _ _ W Hk)) as [R1 _].
    assert (st_udp s1 !! k = Some (with_ctx left_ctx p)) as Hk1
      by (destruct O as (w & ->); simpl; by rewrite list_lookup_alter_eq, Hk).
    apply wp_bind, wp_gets, wp_bind. cbn [length] in Hn. destruct ws as [|w ws].
    + apply wp_ret, wp_ret. simpl. rewrite He. split_and!; [done|done|]. rewrite Hk1. f_equal.
      unfold with_ctx, left_ctx, drained_ctx. rewrite Hc, Hi. cbn [truthy andb]. f_equal. f_equal.
      destruct (Z.eqb_spec (sc_wc (pcb_ctx p) - 1) 0); [rewrite decide_True by lia|rewrite decide_False by lia]; done.
    + eapply wp_mono; [apply (IH s1 (with_ctx left_ctx p)); try done|].
      * cbn [length pcb_ctx with_ctx left_ctx sc_wc] in *. lia.
      * cbn [length pcb_ctx with_ctx left_ctx sc_interrupted] in *. rewrite Hi.
        replace (sc_wc (pcb_ctx p) - 1 =? 0) with false by lia. done.
      * intros rs s2 (-> & R2 & Hk2). apply wp_ret. rewrite He. split_and!; [done|done|]. rewrite Hk2. f_equal.
        unfold with_ctx, drained_ctx, left_ctx. cbn. f_equal. f_equal; [|lia].
        repeat case_decide; lia.
Qed.

(** C28. An event interrupts receivers: after [event_handler], no thread is blocked
    on an open control block, and every thread that was, however many of them leave
    and in whatever order, leaves [udp_recvfrom] with -1 and EINTR; queued datagrams
    are kept.  The interrupt stays until the last of them has left: as long as there
    is one to leave, or when there was none at all, a new call that finds the queue
    empty returns -1 with EINTR too. *)
Theorem udp_event_interrupts (s : stack) (R : udp_ready s) (id : Z) (k : nat) (p : udp_pcb)
    (waiters : list (Z * list Z))
    (Hget : udp_pcb_get (st_udp s) id = Some k) (Hk : st_udp s !! k = Some p)
    (Hw : Forall (fun w => 0 <= w.1 <= Z.of_nat (length w.2)) waiters)
    (Hn : Z.of_nat (length waiters) <= sc_wc (pcb_ctx p)) :
  wp event_handler s (fun _ s1 =>
    (exists p1, st_udp s1 !! k = Some p1 /\ sc_cond (pcb_ctx p1) = 0) /\
    wp (leave_all k waiters) s1 (fun rs s2 =>
      rs = map (fun w => (RecvReturn (-1) None w.2, EINTR)) waiters /\
      st_udp s2 !! k = Some (with_ctx (fun _ => drained_ctx (length waiters) (sc_wc (pcb_ctx p))) p) /\
      forall size buf, 0 <= size <= Z.of_nat (length buf) -> pcb_queue p = [] ->
        waiters = [] \/ Z.of_nat (length waiters) < sc_wc (pcb_ctx p) ->
        wp (udp_recvfrom id size buf) s2 (fun r s3 =>
          r = RecvReturn (-1) None buf /\ w_errno (st_world s3) = EINTR))).
Proof.
  pose proof (udp_pcb_get_Some _ _ _ Hget) as (p0 & Hk0 & Ho & Hid & Hlt). rewrite Hk in Hk0. injection Hk0 as <-.
  apply event_handler_wp; [done|]. intros s' O. pose proof R as (_ & _ & W).
  destruct (udp_only_ready _ _ _ R O (interrupted_wf _ W)) as [R' _].
  assert (st_udp s' = map interrupted (st_udp s)) as Eu by (by destruct O as (w & ->)).
  set (p' := with_ctx (fun x => SchedCtx 0 1 (sc_wc x)) p).
  assert (st_udp s' !! k = Some p') as Hk'.
  { rewrite Eu. change (map interrupted (st_udp s)) with (interrupted <$> st_udp s). rewrite list_lookup_fmap, Hk. simpl.
    unfold interrupted. by rewrite bool_decide_true. }
  split; [by exists p'|]. eapply wp_mono; [by apply (leave_all_wp k waiters s' p')|].
  intros rs s2 (-> & R2 & Hk2). split_and!; [done|exact Hk2|]. intros size buf Hsize Hempty Hleft.
  assert (udp_pcb_get (st_udp s2) id = Some k) as Hget2
    by (rewrite Hid; eapply pcb_get_open; [apply R2|exact Hk2|done]).
  apply udp_recvfrom_wp; [done|done|by rewrite Hget2|]. intros k2 p2 E Hp2. rewrite Hget2 in E. injection E as <-.
  rewrite Hk2 in Hp2. injection Hp2 as <-. simpl. split_and!; [by rewrite Hempty|done|].
  intros s3 _ Hz. rewrite decide_False in Hz; [done|]. destruct Hleft as [->|]; simpl; [naive_solver|lia].
Qed.

End UdpProperties.

(** ** Concrete hosts *)

(** Host A of the IP examples, with control block 0 open and bound to port 7. *)
Definition echo_pcb : udp_pcb := UdpPcb UDP_PCB_STATE_OPEN (Endpoint IP_ADDR_ANY 0x0700) [] (SchedCtx 0 0 0).
Definition udp_host : stack := set_udp (insert 0%nat echo_pcb) ip_host_A.

Lemma sample_udp_ready mac addr mask bcast :
  length mac = 6%nat -> udp_ready (set_udp (insert 0%nat echo_pcb) (with_ip (sample_host mac addr mask bcast))).
Proof.
  intros Hl. set (s := set_udp _ _).
  assert (forall k p, st_udp s !! k = Some p -> p = echo_pcb /\ k = 0%nat \/ p = udp_pcb_zero) as K.
  { intros k p Hk. change (st_udp s) with (echo_pcb :: replicate 15 udp_pcb_zero) in Hk.
    destruct k as [|k]; [left; by injection Hk as <-|]. right. by apply lookup_replicate_1 in Hk as [-> _]. }
  split_and!; [by apply with_ip_ready|simpl; set_solver|]. split_and!.
  - done.
  - intros k p [[-> _]| ->]%K; split; simpl; try done; by apply Forall_nil.
  - intros i j p q [[-> ->]| ->]%K [[-> ->]| ->]%K; done.
Qed.

Lemma udp_host_ready : udp_ready udp_host.
Proof. by apply sample_udp_ready. Qed.

Section UdpWitnesses.
#[local] Existing Instance little_endian_machine.

Lemma sched_no_sleep_through_interrupt_witness :
  exists x, ctx_view (pcb_ctx_ref 0) (ctx_put (pcb_ctx_ref 0) (fun _ => SchedCtx 0 0 0) udp_host) = Some x /\
    sc_wc x = sc_cond x.
Proof.
  destruct (sched_no_sleep_through_interrupt (pcb_ctx_ref 0) udp_mutex
    (ctx_put (pcb_ctx_ref 0) (fun _ => SchedCtx 0 0 0) udp_host) 0) as (x & Hx & Hw & _).
  - apply (run_init _ _ udp_host); [reflexivity|by eexists].
  - exists x. split; [exact Hx|lia].
Defined.

Lemma udp_commands_safe_witness :
  wp udp_open udp_host (fun _ s' => udp_ready s' /\ st_held s' = st_held udp_host).
Proof. exact (proj1 (udp_commands_safe udp_host udp_host_ready)). Defined.

Lemma udp_output_input_roundtrip_witness :
  exists buf, Z.of_nat (length buf) = 9 /\
    udp_output (Endpoint 0x0100000a 0x0700) (Endpoint 0x0200000a 0x3930) [0x61] 1 udp_host
    = bind (ip_send_packet UDP_PROTOCOL buf 9 0x0100000a 0x0200000a)
        (fun r => if r =? -1 then ret (-1) else ret 1) udp_host.
Proof.
  destruct (udp_output_input_roundtrip (Endpoint 0x0100000a 0x0700) (Endpoint 0x0200000a 0x3930) [0x61] 1 udp_host)
    as (buf & L & E & _);
    [lia|simpl; lia|apply bytesb_spec; reflexivity|unfold in_u16; simpl; lia|unfold in_u16; simpl; lia|].
  exists buf. split; [exact L|exact E].
Defined.

(** A datagram from 10.0.0.2:12345 to 10.0.0.1:7. *)
Definition sample_sum : Z :=
  default 0 (cksum16 (udp_hdr 0x3930 0x0700 9 0 ++ [0x61]) 9 (default 0 (pseudo_sum 0x0200000a 0x0100000a 9))).
Definition sample_datagram : list Z := udp_hdr 0x3930 0x0700 9 sample_sum ++ [0x61].

Lemma udp_blocked_receiver_gets_datagram_witness :
  wp (udp_recvfrom 0 16 (replicate 16 0)) udp_host (fun r s1 => r = RecvSleep 0).
Proof.
  eapply wp_mono.
  - apply (udp_blocked_receiver_gets_datagram 0 16 (replicate 16 0) udp_host 0 echo_pcb
      sample_datagram 9 0x0200000a 0x0100000a 0x3930 0x0700 1%nat);
      [apply udp_host_ready|simpl; lia|reflexivity|reflexivity|reflexivity|reflexivity
      |vm_compute; split; discriminate|lia|vm_compute; reflexivity|vm_compute; reflexivity|vm_compute; reflexivity
      | |vm_compute; reflexivity].
    exists (default 0 (pseudo_sum 0x0200000a 0x0100000a 9)). split; vm_compute; reflexivity.
  - by intros r s1 [? _].
Defined.

Lemma udp_bind_exclusive_witness :
  wp (udp_bind 0 (Endpoint 0x0100000a 0x0700)) udp_host (fun r s' => r = -1 /\ s' = udp_host).
Proof.
  eapply wp_mono; [apply (udp_bind_exclusive 0 (Endpoint 0x0100000a 0x0700) udp_host udp_host_ready)|].
  intros r s' (Hiff & Hfail & _). apply Hfail. intros ->. destruct Hiff as [Hiff _]. destruct (Hiff eq_refl) as [_ Hno].
  apply (Hno 0%nat echo_pcb); [reflexivity|]. split_and!; [reflexivity|by left|reflexivity].
Defined.

Lemma udp_sendto_port_witness :
  wp (udp_sendto 0 [0x61] 1 (Endpoint 0x0200000a 0x3930)) udp_host (fun r t => exists addr port s1,
    udp_output (Endpoint addr port) (Endpoint 0x0200000a 0x3930) [0x61] 1 s1 = Ret r t).
Proof.
  eapply wp_mono.
  - apply (udp_sendto_port 0 [0x61] 1 (Endpoint 0x0200000a 0x3930) udp_host 0 echo_pcb);
      [apply udp_host_ready|reflexivity|reflexivity|by eexists|simpl; lia].
  - intros r t (addr & port & s1 & _ & _ & E). exists addr, port, s1. exact E.
Defined.

Lemma udp_open_close_witness :
  wp (udp_close 0) udp_host (fun r s' => r = 0 /\ udp_pcb_get (st_udp s') 0 = None).
Proof.
  eapply wp_mono; [apply (proj2 (udp_open_close udp_host udp_host_ready) 0)|].
  intros r s' [(Hn & _)|(k & _ & -> & Hn & _)]; [discriminate Hn|]. split; [reflexivity|exact Hn].
Defined.

(** Two threads sleep on port 7. *)
Definition crowded_host : stack := set_udp (alter (with_ctx (fun _ => SchedCtx 2 0 2)) 0%nat) udp_host.

Lemma crowded_host_ready : udp_ready crowded_host.
Proof.
  apply (udp_only_ready udp_host (st_udp crowded_host)); [apply udp_host_ready|by exists (st_world udp_host)|].
  eapply alter_ctx_wf; [apply udp_host_ready|reflexivity].
Qed.

Lemma udp_event_interrupts_witness :
  wp event_handler crowded_host (fun _ s1 =>
    wp (leave_all 0 [(4, [1; 2; 3; 4]); (2, [5; 6])]) s1 (fun rs s2 =>
      rs = [(RecvReturn (-1) None [1; 2; 3; 4], EINTR); (RecvReturn (-1) None [5; 6], EINTR)] /\
      exists p, st_udp s2 !! 0%nat = Some p /\ pcb_ctx p = SchedCtx 0 0 0)).
Proof.
  eapply wp_mono.
  - apply (udp_event_interrupts crowded_host crowded_host_ready 0 0
      (with_ctx (fun _ => SchedCtx 2 0 2) echo_pcb) [(4, [1; 2; 3; 4]); (2, [5; 6])]);
      [reflexivity|reflexivity|by repeat constructor; simpl|simpl; lia].
  - intros u s1 [_ H]. eapply wp_mono; [exact H|]. intros rs s2 (-> & Hk & _). split; [reflexivity|].
    eexists. split; [exact Hk|reflexivity].
Defined.

End UdpWitnesses.
