(* ===== verification/Service.v ===== *)
(** * The datagram service: a contract and its refinement by udp.c

    What udp.c promises to its clients, without its table: an open descriptor has a
    mailbox, that is a local endpoint and an inbox in order of arrival.  [spec_step] says
    what each call may do to the mailboxes and answer; the functions of Udp.v refine it,
    and the contract implies delivery in order and at most once. *)

From stdpp Require Import base numbers list option gmap strings.
From Stdlib Require Import ZArith Lia.
From S2P Require Import Prelude Util CLib Queue State Sync Net Ether Drivers Arp Ip Udp.
Open Scope Z_scope.
Open Scope cmonad_scope.

(** ** The contract *)

Definition datagram : Type := endpoint * list Z.

Record mailbox := Mailbox { mb_local : endpoint; mb_inbox : list datagram }.

(** The mailboxes by descriptor. *)
Abbreviation service := (gmap nat mailbox).

(** A mailbox receives for an endpoint: bound to its port at its address or at any. *)
Definition answers (mb : mailbox) (ep : endpoint) : Prop :=
  (ep_address (mb_local mb) = IP_ADDR_ANY \/ ep_address (mb_local mb) = ep_address ep) /\
  ep_port (mb_local mb) = ep_port ep.

Definition claimed (m : service) (ep : endpoint) : Prop := exists k mb, m !! k = Some mb /\ answers mb ep.

(** The descriptor a caller passes. *)
Definition descr (m : service) (id : Z) (k : nat) (mb : mailbox) : Prop := id = Z.of_nat k /\ m !! k = Some mb.
Definition no_descr (m : service) (id : Z) : Prop := forall k mb, ~ descr m id k mb.

(** The return of a receiver that takes datagram [d]. *)
Definition handed (size : Z) (buf : list Z) (d : datagram) : recv_outcome :=
  let len := Z.min size (Z.of_nat (length d.2)) in
  RecvReturn len (Some d.1) (take (Z.to_nat len) d.2 ++ drop (Z.to_nat len) buf).

(** A call and its answer, or the input of a datagram: its bytes, with the length and
    the addresses IP gives. *)
Inductive event :=
| EOpen (r : Z)
| EClose (id r : Z)
| EBind (id : Z) (local : endpoint) (r : Z)
| ESend (id : Z) (foreign : endpoint) (r : Z)
| ERecv (id : Z) (size : Z) (buf : list Z) (o : recv_outcome)
| EResume (k : nat) (size : Z) (buf : list Z) (o : recv_outcome)
| EInput (data : list Z) (len src dst : Z)
| EInterrupt.

Section Service.
Context {Mc : Machine}.

(** A well-formed datagram for endpoint [to]. *)
Definition carries (data : list Z) (len src dst : Z) (to : endpoint) (d : datagram) : Prop :=
  exists sport, 8 <= len /\ rd16 data 0 = Some sport /\ rd16 data 2 = Some (ep_port to) /\ ep_address to = dst /\
    ntoh16 <$> rd16 data 4 = Some len /\ udp_verifies data len src dst /\
    d = (Endpoint src sport, take (Z.to_nat (len - 8)) (drop 8 data)).

(** [short]: memory may run out.  Without that, a datagram is lost only when nobody
    receives for its destination.  A thread whose descriptor was closed while it slept
    leaves, or stays asleep ([spec_resume_gone]). *)
Inductive spec_step (short : bool) (m : service) : event -> service -> Prop :=
| spec_open k : m !! k = None -> spec_step short m (EOpen (Z.of_nat k)) (<[k := Mailbox (Endpoint IP_ADDR_ANY 0) []]> m)
| spec_open_none : spec_step short m (EOpen (-1)) m
| spec_close id k mb : descr m id k mb -> spec_step short m (EClose id 0) (delete k m)
| spec_close_bad id : no_descr m id -> spec_step short m (EClose id (-1)) m
| spec_bind id k mb local :
    descr m id k mb -> ~ claimed m local -> spec_step short m (EBind id local 0) (<[k := Mailbox local (mb_inbox mb)]> m)
| spec_bind_bad id local : no_descr m id \/ claimed m local -> spec_step short m (EBind id local (-1)) m
| spec_send id foreign r : spec_step short m (ESend id foreign r) m
| spec_send_port id k mb foreign addr p r :
    descr m id k mb -> ep_port (mb_local mb) = 0 -> UDP_SOURCE_PORT_MIN <= p <= UDP_SOURCE_PORT_MAX ->
    ~ claimed m (Endpoint addr (hton16 p)) ->
    spec_step short m (ESend id foreign r) (<[k := Mailbox (Endpoint (ep_address (mb_local mb)) (hton16 p)) (mb_inbox mb)]> m)
| spec_recv id k mb size buf d inbox :
    descr m id k mb -> mb_inbox mb = d :: inbox ->
    spec_step short m (ERecv id size buf (handed size buf d)) (<[k := Mailbox (mb_local mb) inbox]> m)
| spec_recv_wait id k mb size buf o :
    descr m id k mb -> mb_inbox mb = [] -> o = RecvSleep k \/ o = RecvReturn (-1) None buf -> spec_step short m (ERecv id size buf o) m
| spec_recv_bad id size buf : no_descr m id -> spec_step short m (ERecv id size buf (RecvReturn (-1) None buf)) m
| spec_resume k mb size buf d inbox :
    m !! k = Some mb -> mb_inbox mb = d :: inbox ->
    spec_step short m (EResume k size buf (handed size buf d)) (<[k := Mailbox (mb_local mb) inbox]> m)
| spec_resume_wait k mb size buf : m !! k = Some mb -> mb_inbox mb = [] -> spec_step short m (EResume k size buf (RecvSleep k)) m
| spec_resume_gone k size buf : m !! k = None -> spec_step short m (EResume k size buf (RecvSleep k)) m
| spec_resume_end k size buf : spec_step short m (EResume k size buf (RecvReturn (-1) None buf)) m
| spec_input data len src dst to d k mb :
    carries data len src dst to d -> m !! k = Some mb -> answers mb to ->
    (forall j mb', (j < k)%nat -> m !! j = Some mb' -> ~ answers mb' to) ->
    spec_step short m (EInput data len src dst) (<[k := Mailbox (mb_local mb) (mb_inbox mb ++ [d])]> m)
| spec_input_drop data len src dst :
    short = true \/ (forall to d, carries data len src dst to d -> ~ claimed m to) -> spec_step short m (EInput data len src dst) m
| spec_interrupt : spec_step short m EInterrupt m.

Inductive spec_run : service -> list event -> service -> Prop :=
| spec_done m : spec_run m [] m
| spec_more m e m1 es m2 : spec_step true m e m1 -> spec_run m1 es m2 -> spec_run m (e :: es) m2.

(** ** The calls of udp.c *)

Inductive udp_op :=
| UOpen
| UClose (id : Z)
| UBind (id : Z) (local : endpoint)
| USend (id : Z) (data : list Z) (len : Z) (foreign : endpoint)
| URecv (id : Z) (size : Z) (buf : list Z)
| UResume (k : nat) (size : Z) (buf : list Z)
| UInput (data : list Z) (len src dst : Z) (iface : iface_id)
| UEvent.

Definition udp_exec (op : udp_op) : C event :=
  match op with
  | UOpen => let! r := udp_open in ret (EOpen r)
  | UClose id => let! r := udp_close id in ret (EClose id r)
  | UBind id local => let! r := udp_bind id local in ret (EBind id local r)
  | USend id data len foreign => let! r := udp_sendto id data len foreign in ret (ESend id foreign r)
  | URecv id size buf => let! o := udp_recvfrom id size buf in ret (ERecv id size buf o)
  | UResume k size buf => let! o := udp_recvfrom_resume k size buf in ret (EResume k size buf o)
  | UInput data len src dst iface => udp_input data len src dst iface;; ret (EInput data len src dst)
  | UEvent => event_handler;; ret EInterrupt
  end.

Fixpoint udp_run (ops : list udp_op) : C (list event) :=
  match ops with
  | [] => ret []
  | op :: ops => let! e := udp_exec op in let! es := udp_run ops in ret (e :: es)
  end.

(** Buffers as long as their callers say; a thread sleeps on a control block. *)
Definition udp_op_ok (op : udp_op) : Prop :=
  match op with
  | USend _ data len _ => 0 <= len <= Z.of_nat (length data)
  | URecv _ size buf => 0 <= size <= Z.of_nat (length buf)
  | UResume k size buf => (k < UDP_PCB_SIZE)%nat /\ 0 <= size <= Z.of_nat (length buf)
  | UInput data len _ _ _ => 0 <= len <= Z.of_nat (length data) /\ len <= 65535
  | _ => True
  end.

(** ** Abstraction *)

Definition box (p : udp_pcb) : mailbox := Mailbox (pcb_local p) ((fun e => (uqe_foreign e, uqe_data e)) <$> pcb_queue p).

Definition open_box (p : udp_pcb) : option mailbox :=
  if bool_decide (pcb_st p = UDP_PCB_STATE_OPEN) then Some (box p) else None.

(** The table implements the mailboxes. *)
Definition abstracts (pcbs : list udp_pcb) (m : service) : Prop := forall k, m !! k = pcbs !! k ≫= open_box.

(** ** Lemmas *)

Lemma open_box_Some p mb : open_box p = Some mb -> pcb_st p = UDP_PCB_STATE_OPEN /\ mb = box p.
Proof. unfold open_box. case_bool_decide; [|done]. by intros [= <-]. Qed.

Lemma open_box_open p : pcb_st p = UDP_PCB_STATE_OPEN -> open_box p = Some (box p).
Proof. intros H. unfold open_box. by rewrite bool_decide_true. Qed.

Lemma open_box_not p : pcb_st p <> UDP_PCB_STATE_OPEN -> open_box p = None.
Proof. intros H. unfold open_box. by rewrite bool_decide_false. Qed.

Lemma abstracts_lookup pcbs m k mb :
  abstracts pcbs m -> m !! k = Some mb <-> exists p, pcbs !! k = Some p /\ pcb_st p = UDP_PCB_STATE_OPEN /\ mb = box p.
Proof.
  intros A. rewrite A, bind_Some. split.
  - intros (p & Hp & [? ?]%open_box_Some). eauto.
  - intros (p & Hp & Ho & ->). exists p. by rewrite open_box_open.
Qed.

Lemma abstracts_open pcbs m k p : abstracts pcbs m -> pcbs !! k = Some p -> pcb_st p = UDP_PCB_STATE_OPEN -> m !! k = Some (box p).
Proof. intros A Hp Ho. apply (abstracts_lookup _ _ _ _ A). eauto. Qed.

(** A change of one control block. *)
Lemma abstracts_alter pcbs m k p f :
  abstracts pcbs m -> pcbs !! k = Some p ->
  abstracts (alter f k pcbs) (partial_alter (fun _ => open_box (f p)) k m).
Proof.
  intros A Hp j. destruct (decide (j = k)) as [->|Hne].
  - by rewrite lookup_partial_alter_eq, list_lookup_alter_eq, Hp.
  - by rewrite lookup_partial_alter_ne, list_lookup_alter_ne, A by done.
Qed.

Lemma abstracts_same pcbs m k p f :
  abstracts pcbs m -> pcbs !! k = Some p -> open_box (f p) = open_box p -> abstracts (alter f k pcbs) m.
Proof.
  intros A Hp E j. destruct (decide (j = k)) as [->|Hne].
  - rewrite list_lookup_alter_eq, A, Hp. simpl. by rewrite E.
  - by rewrite list_lookup_alter_ne, A by done.
Qed.

Lemma abstracts_insert pcbs m k p f mb :
  abstracts pcbs m -> pcbs !! k = Some p -> pcb_st (f p) = UDP_PCB_STATE_OPEN -> box (f p) = mb ->
  abstracts (alter f k pcbs) (<[k := mb]> m).
Proof.
  intros A Hp Ho <-. pose proof (abstracts_alter _ _ _ _ f A Hp) as H. by rewrite open_box_open in H by done.
Qed.

Lemma abstracts_delete pcbs m k p f :
  abstracts pcbs m -> pcbs !! k = Some p -> pcb_st (f p) <> UDP_PCB_STATE_OPEN -> abstracts (alter f k pcbs) (delete k m).
Proof.
  intros A Hp Ho. pose proof (abstracts_alter _ _ _ _ f A Hp) as H. by rewrite open_box_not in H by done.
Qed.

Lemma abstracts_get pcbs m id k :
  abstracts pcbs m -> udp_pcb_get pcbs id = Some k -> exists p, pcbs !! k = Some p /\ pcb_st p = UDP_PCB_STATE_OPEN /\ descr m id k (box p).
Proof. intros A (p & Hp & Ho & -> & _)%udp_pcb_get_Some. exists p. split; [done|]. split; [done|]. split; [done|by eapply abstracts_open]. Qed.

Lemma abstracts_get_None pcbs m id :
  abstracts pcbs m -> length pcbs = UDP_PCB_SIZE -> udp_pcb_get pcbs id = None -> no_descr m id.
Proof.
  intros A L E k mb [-> Hk]. apply (abstracts_lookup _ _ _ _ A) in Hk as (p & Hp & Ho & _).
  by rewrite (pcb_get_open _ _ p) in E.
Qed.

Lemma abstracts_select pcbs m ep k :
  abstracts pcbs m -> udp_pcb_select pcbs (ep_address ep) (ep_port ep) = Some k ->
  exists p, pcbs !! k = Some p /\ pcb_st p = UDP_PCB_STATE_OPEN /\ answers (box p) ep /\
    forall j mb, (j < k)%nat -> m !! j = Some mb -> ~ answers mb ep.
Proof.
  intros A (p & Hp & (Ho & Ha & Hport) & Hmin)%udp_pcb_select_Some. exists p. split; [done|]. split; [done|]. split; [done|].
  intros j mb Hj Hmb [Ha' Hp']. apply (abstracts_lookup _ _ _ _ A) in Hmb as (q & Hq & Hqo & ->).
  eapply Hmin; [exact Hj|exact Hq|done].
Qed.

Lemma abstracts_select_None pcbs m ep :
  abstracts pcbs m -> udp_pcb_select pcbs (ep_address ep) (ep_port ep) = None <-> ~ claimed m ep.
Proof.
  intros A. split.
  - intros E (k & mb & Hk & Ha & Hport). apply (abstracts_lookup _ _ _ _ A) in Hk as (p & Hp & Ho & ->).
    eapply udp_pcb_select_None; [exact E|exact Hp|]. done.
  - intros Hn. destruct (udp_pcb_select _ _ _) as [k|] eqn:E; [|done]. exfalso. apply Hn.
    destruct (abstracts_select _ _ _ _ A E) as (p & Hp & Ho & Ha & _). exists k, (box p). split; [by eapply abstracts_open|done].
Qed.

(** ** Refinement *)

(** Whether an allocation may fail in a state. *)
Definition memory_short (s : stack) : bool := negb (bool_decide (w_alloc (st_world s) = [])).

(** What a call has to come to. *)
Definition simulates (s : stack) (m : service) (e : event) (s' : stack) : Prop :=
  udp_ready s' /\ exists m', abstracts (st_udp s') m' /\ spec_step (memory_short s) m e m'.

(** A call that changed the table only. *)
Lemma simulates_only s m pcbs s' e m' :
  udp_ready s -> udp_only s pcbs s' -> pcbs_wf pcbs -> abstracts pcbs m' -> spec_step (memory_short s) m e m' -> simulates s m e s'.
Proof.
  intros R O W A Sp. split; [by eapply udp_only_ready|]. exists m'. split; [|done]. by destruct O as (w & ->).
Qed.

Lemma simulates_same s m e : udp_ready s -> abstracts (st_udp s) m -> spec_step (memory_short s) m e m -> simulates s m e s.
Proof. intros R A Sp. split; [done|]. by exists m. Qed.

Section Calls.
Context (s : stack) (m : service) (R : udp_ready s) (A : abstracts (st_udp s) m).

Lemma open_simulates : wp (udp_exec UOpen) s (fun e s' => simulates s m e s').
Proof.
  apply wp_bind, udp_open_wp; [done|..].
  - intros _. apply wp_ret, simulates_same; [done|done|constructor].
  - intros k s' (p & Hp & Hf) O W. apply wp_ret. eapply simulates_only; [done|exact O|done|..].
    + eapply abstracts_insert; [exact A|exact Hp|done|]. pose proof R as (_ & _ & _ & Ok & _).
      destruct (Ok k p Hp) as [_ Hz]. destruct (Hz Hf) as [El Eq]. unfold box. simpl. by rewrite El, Eq.
    + apply spec_open. rewrite A, Hp. simpl. apply open_box_not. by rewrite Hf.
Qed.

Lemma close_simulates id : wp (udp_exec (UClose id)) s (fun e s' => simulates s m e s').
Proof.
  pose proof R as (_ & _ & L & _). apply wp_bind, udp_close_wp; [done|..].
  - intros E. apply wp_ret, simulates_same; [done|done|]. apply spec_close_bad. by eapply abstracts_get_None.
  - intros k s' pcbs E O W Hpcbs. apply wp_ret. destruct (abstracts_get _ _ _ _ A E) as (p & Hp & Ho & D).
    eapply simulates_only; [done|exact O|done| |by eapply spec_close].
    destruct Hpcbs as [->|[-> _]]; eapply abstracts_delete; done.
Qed.

Lemma bind_simulates id local : wp (udp_exec (UBind id local)) s (fun e s' => simulates s m e s').
Proof.
  pose proof R as (_ & _ & L & _). apply wp_bind, udp_bind_wp; [done|..].
  - intros E. apply wp_ret, simulates_same; [done|done|]. apply spec_bind_bad.
    destruct E as [E|[k E]]; [left; by eapply abstracts_get_None|right].
    destruct (abstracts_select _ _ _ _ A E) as (p & Hp & Ho & Ha & _). exists k, (box p). split; [by eapply abstracts_open|done].
  - intros k s' E Es O W. apply wp_ret. destruct (abstracts_get _ _ _ _ A E) as (p & Hp & Ho & D).
    eapply simulates_only; [done|exact O|done|by eapply abstracts_insert|].
    eapply (spec_bind _ _ _ _ (box p)); [done|]. by apply (abstracts_select_None _ _ _ A).
Qed.

Lemma recv_simulates id size buf :
  0 <= size <= Z.of_nat (length buf) -> wp (udp_exec (URecv id size buf)) s (fun e s' => simulates s m e s').
Proof.
  intros Hs. pose proof R as (_ & _ & W). pose proof W as (L & Ok & _). apply wp_bind, udp_recvfrom_wp; [done|done|..].
  - intros E. apply wp_ret, simulates_same; [done|done|]. apply spec_recv_bad. by eapply abstracts_get_None.
  - intros k p E Hp. destruct (abstracts_get _ _ _ _ A E) as (p' & Hp' & Ho & D). simplify_eq.
    destruct (Ok k p Hp) as [He _]. split; [|split].
    + intros d q s' Eq O. apply wp_ret. eapply simulates_only; [done|exact O|by eapply alter_recvq_wf| |].
      * eapply abstracts_insert; [exact A|exact Hp|done|reflexivity].
      * rewrite Eq in He. apply Forall_cons in He as [[El _] _].
        assert (recv_entry size buf d = handed size buf (uqe_foreign d, uqe_data d)) as -> by (unfold recv_entry, handed; simpl; by rewrite El).
        eapply (spec_recv _ _ _ _ (box p)); [done|]. simpl. by rewrite Eq.
    + intros s' Eq _ O _. apply wp_ret. eapply simulates_only; [done|exact O|done|exact A|].
      eapply spec_recv_wait; [exact D|simpl; by rewrite Eq|by right].
    + intros s' Eq _ O. apply wp_ret. eapply simulates_only; [done|exact O|by eapply alter_ctx_wf|by eapply abstracts_same|].
      eapply spec_recv_wait; [exact D|simpl; by rewrite Eq|by left].
Qed.

Lemma event_simulates : wp (udp_exec UEvent) s (fun e s' => simulates s m e s').
Proof.
  pose proof R as (_ & _ & W). apply wp_bind, event_handler_wp; [done|]. intros s' O. apply wp_ret.
  eapply simulates_only; [done|exact O|by apply interrupted_wf| |constructor].
  intros k. rewrite list_lookup_fmap, A. destruct (st_udp s !! k) as [p|]; [|done]. simpl.
  unfold open_box, interrupted. case_bool_decide as E; [by rewrite bool_decide_true|by rewrite bool_decide_false].
Qed.

Lemma resume_simulates k size buf :
  (k < UDP_PCB_SIZE)%nat -> 0 <= size <= Z.of_nat (length buf) ->
  wp (udp_exec (UResume k size buf)) s (fun e s' => simulates s m e s').
Proof.
  intros Hk Hs. pose proof R as (_ & _ & W). pose proof W as (L & Ok & _).
  destruct (lookup_lt_is_Some_2 (st_udp s) k) as [p Hp]; [by rewrite L|]. destruct (Ok k p Hp) as [He Hfree].
  assert (pcbs_wf (alter (with_ctx left_ctx) k (st_udp s))) as W1 by (by eapply alter_ctx_wf).
  assert (abstracts (alter (with_ctx left_ctx) k (st_udp s)) m) as A1 by (by eapply abstracts_same).
  assert (alter (with_ctx left_ctx) k (st_udp s) !! k = Some (with_ctx left_ctx p)) as Hp1 by (by rewrite list_lookup_alter_eq, Hp).
  apply wp_bind, (udp_resume_wp _ _ _ _ p); [done|done|done|..].
  - intros s' _ O _. apply wp_ret. eapply simulates_only; [done|exact O|done|exact A1|constructor].
  - intros s' pcbs _ Hc O Hpcbs. apply wp_ret.
    assert (m !! k = None) as Hm by (rewrite A, Hp; apply open_box_not; by rewrite Hc).
    assert (pcbs_wf pcbs /\ abstracts pcbs (delete k m)) as [W2 A2].
    { destruct Hpcbs as [->| ->]; (split; [first [by eapply closed_wf|by eapply closing_wf]|by eapply abstracts_delete]). }
    rewrite delete_id in A2 by done. eapply simulates_only; [done|exact O|done|exact A2|constructor].
  - intros _ Hc. destruct (decide (pcb_st p = UDP_PCB_STATE_OPEN)) as [Ho|Hno].
    + pose proof (abstracts_open _ _ _ _ A Hp Ho) as Hm. split.
      * intros d q s' Eq O. apply wp_ret. eapply simulates_only; [done|exact O|by eapply alter_recvq_wf| |].
        -- eapply abstracts_insert; [exact A1|exact Hp1|done|reflexivity].
        -- rewrite Eq in He. apply Forall_cons in He as [[El _] _].
           assert (recv_entry size buf d = handed size buf (uqe_foreign d, uqe_data d)) as -> by (unfold recv_entry, handed; simpl; by rewrite El).
           eapply (spec_resume _ _ _ (box p)); [done|]. simpl. by rewrite Eq.
      * intros s' Eq O. apply wp_ret. eapply simulates_only; [done|exact O|by eapply alter_ctx_wf|by eapply abstracts_same|].
        eapply spec_resume_wait; [exact Hm|]. simpl. by rewrite Eq.
    + assert (pcb_st p = UDP_PCB_STATE_FREE) as Hf by (by destruct (pcb_st p)). destruct (Hfree Hf) as [_ Hq]. split.
      * intros d q s' Eq. congruence.
      * intros s' Eq O. apply wp_ret. eapply simulates_only; [done|exact O|by eapply alter_ctx_wf|by eapply abstracts_same|].
        apply spec_resume_gone. rewrite A, Hp. by apply open_box_not.
Qed.

Lemma input_simulates data len src dst i :
  0 <= len <= Z.of_nat (length data) -> len <= 65535 ->
  wp (udp_exec (UInput data len src dst i)) s (fun e s' => simulates s m e s').
Proof.
  intros Hl Hmax. pose proof R as (_ & _ & W). apply wp_bind, udp_input_wp; [done|done|done|..].
  - intros Hnone. apply wp_ret, simulates_same; [done|done|]. apply spec_input_drop. right.
    intros to d (sport & H8 & _ & Hd & <- & H4 & Hv & _). apply (abstracts_select_None _ _ _ A). by apply Hnone.
  - intros sport dport H8 Hsp Hdp H4 Hv. split.
    + intros s' Ha O. apply wp_ret. eapply simulates_only; [done|exact O|done|exact A|]. apply spec_input_drop. left.
      unfold memory_short. by rewrite bool_decide_false.
    + intros k s' E e O W'. apply wp_ret.
      destruct (abstracts_select _ _ (Endpoint dst dport) _ A E) as (p & Hp & Ho & Ha & Hmin).
      eapply simulates_only; [done|exact O|done|..].
      * eapply abstracts_insert; [exact A|exact Hp|done|reflexivity].
      * unfold box. simpl. rewrite fmap_app. eapply (spec_input _ _ _ _ _ _ (Endpoint dst dport) _ _ (box p)); [|by eapply abstracts_open|done|done].
        exists sport. done.
Qed.

Lemma send_simulates id data len foreign :
  0 <= len <= Z.of_nat (length data) -> wp (udp_exec (USend id data len foreign)) s (fun e s' => simulates s m e s').
Proof.
  intros Hl. apply wp_bind. assert (forall s1 src, udp_ready s1 -> (forall r s', udp_ready s' -> st_udp s' = st_udp s1 -> simulates s m (ESend id foreign r) s') ->
    wp (udp_output src foreign data len) s1 (fun r s' => wp (ret (ESend id foreign r)) s' (fun e s' => simulates s m e s'))) as Out.
  { intros s1 src R1 H. eapply wp_mono; [by apply udp_output_step|]. intros r s' S. apply wp_ret.
    destruct (udp_step_ready _ _ R1 S) as [R' _]. apply H; [done|]. destruct S as [_ F]. unfold upper_frame in F. by injection F. }
  apply udp_sendto_wp; [done|intros _; apply wp_ret, simulates_same; [done|done|constructor]|].
  intros k p addr E Hp _. destruct (abstracts_get _ _ _ _ A E) as (p' & Hp' & Ho & D). simplify_eq. split.
  - intros _. apply Out; [done|]. intros r s' R' Eu. split; [done|]. exists m. rewrite Eu. split; [done|constructor].
  - intros port H0 (q & Hq & -> & Hsel) pcbs W'. apply Out; [by apply (udp_only_ready s pcbs); [done|exists (st_world s); destruct s|done]|].
    intros r s' R' Eu. split; [done|]. simpl in Eu. rewrite Eu. eexists. split; [by eapply abstracts_insert|].
    eapply (spec_send_port _ _ _ _ (box p) _ addr); [done|done|done|]. by apply (abstracts_select_None _ _ _ A).
Qed.

End Calls.

Lemma exec_simulates op s m :
  udp_ready s -> abstracts (st_udp s) m -> udp_op_ok op -> wp (udp_exec op) s (fun e s' => simulates s m e s').
Proof.
  intros R A Ok. destruct op; cbn [udp_op_ok] in Ok.
  - by apply open_simulates.
  - by apply close_simulates.
  - by apply bind_simulates.
  - by apply send_simulates.
  - by apply recv_simulates.
  - destruct Ok. by apply resume_simulates.
  - destruct Ok. by apply input_simulates.
  - by apply event_simulates.
Qed.

Lemma spec_step_short b m e m' : spec_step b m e m' -> spec_step true m e m'.
Proof. destruct 1; eauto using spec_step. Qed.

Lemma run_simulates ops s m :
  udp_ready s -> abstracts (st_udp s) m -> Forall udp_op_ok ops ->
  wp (udp_run ops) s (fun es s' => udp_ready s' /\ exists m', abstracts (st_udp s') m' /\ spec_run m es m').
Proof.
  intros R A Ok. revert s m R A. induction Ok as [|op ops Hop _ IH]; intros s m R A; cbn [udp_run].
  { apply wp_ret. split; [done|]. exists m. split; [done|constructor]. }
  apply wp_bind. eapply wp_mono; [by apply exec_simulates|]. intros e s1 (R1 & m1 & A1 & S1).
  apply wp_bind. eapply wp_mono; [by apply IH|]. intros es s2 (R2 & m2 & A2 & S2). apply wp_ret.
  split; [done|]. exists m2. split; [done|]. econstructor; [by eapply spec_step_short|done].
Qed.

(** ** Order of delivery *)

(** The datagram of an input, and what a receiver on descriptor [k] returned with. *)
Definition input_of (e : event) : option datagram :=
  match e with
  | EInput data len src _ =>
      match rd16 data 0 with
      | Some sport => Some (Endpoint src sport, take (Z.to_nat (len - 8)) (drop 8 data))
      | None => None
      end
  | _ => None
  end.

Definition returned (k : nat) (e : event) : option (Z * list Z * recv_outcome) :=
  match e with
  | ERecv id size buf (RecvReturn r (Some f) b) =>
      if id =? Z.of_nat k then Some (size, buf, RecvReturn r (Some f) b) else None
  | EResume j size buf (RecvReturn r (Some f) b) =>
      if bool_decide (j = k) then Some (size, buf, RecvReturn r (Some f) b) else None
  | _ => None
  end.

(** Mailbox [k] from one state to another: [arrived] came in and [taken] was handed out. *)
Definition in_order (k : nat) (es : list event) (inbox inbox' : list datagram) : Prop :=
  exists arrived taken,
    inbox ++ arrived = taken ++ inbox' /\
    arrived `sublist_of` omap input_of es /\
    Forall2 (fun r d => r.2 = handed r.1.1 r.1.2 d) (omap (returned k) es) taken.

Lemma spec_step_order b m e m' k mb :
  spec_step b m e m' -> m !! k = Some mb -> (forall r, e <> EClose (Z.of_nat k) r) ->
  exists mb', m' !! k = Some mb' /\ in_order k [e] (mb_inbox mb) (mb_inbox mb').
Proof.
  intros St Hk Hc.
  assert (forall mb', returned k e = None -> mb_inbox mb' = mb_inbox mb -> in_order k [e] (mb_inbox mb) (mb_inbox mb')) as Idle.
  { intros mb' Hr ->. exists [], []. rewrite app_nil_r. split; [done|]. split; [apply sublist_nil_l|]. simpl. by rewrite Hr. }
  assert (forall mb' d, returned k e = None -> input_of e = Some d -> mb_inbox mb' = mb_inbox mb ++ [d] ->
    in_order k [e] (mb_inbox mb) (mb_inbox mb')) as Arrives.
  { intros mb' d Hr Hi ->. exists [d], []. split; [done|]. simpl. rewrite Hr, Hi. by split. }
  assert (forall mb' d inbox size buf, returned k e = Some (size, buf, handed size buf d) -> mb_inbox mb = d :: inbox ->
    mb_inbox mb' = inbox -> in_order k [e] (mb_inbox mb) (mb_inbox mb')) as Taken.
  { intros mb' d inbox size buf Hr -> ->. exists [], [d]. rewrite app_nil_r. split; [done|]. split; [apply sublist_nil_l|].
    simpl. rewrite Hr. by constructor. }
  assert (forall j x, (j = k -> in_order k [e] (mb_inbox mb) (mb_inbox x)) -> (j <> k -> returned k e = None) ->
    exists mb', <[j := x]> m !! k = Some mb' /\ in_order k [e] (mb_inbox mb) (mb_inbox mb')) as Ins.
  { intros j x Hs Ho. destruct (decide (j = k)) as [->|Hne].
    - exists x. rewrite lookup_insert_eq. auto.
    - exists mb. rewrite lookup_insert_ne by done. auto. }
  destruct St as [j Hj| |id j x [-> Hx]| |id j x local [-> Hx]| | |id j x foreign addr p r [-> Hx]|id j x size buf d inbox [-> Hx] Hd
    |id j x size buf o [-> Hx] Hd Ho|id size buf Hb|j x size buf d inbox Hx Hd| | | |data len src dst to d j x Hcar Hx| | ];
    try (exists mb; split; [done|]; by apply Idle).
  - apply Ins; [intros ->; congruence|done].
  - destruct (decide (j = k)) as [->|Hne]; [by destruct (Hc 0)|]. exists mb. rewrite lookup_delete_ne by done. split; [done|]. by apply Idle.
  - apply Ins; [intros ->; simplify_eq; by apply Idle|done].
  - apply Ins; [intros ->; simplify_eq; by apply Idle|done].
  - apply Ins; [intros ->; simplify_eq; eapply Taken; [|done|done]; simpl; by rewrite Z.eqb_refl|].
    intros Hne. simpl. by destruct (Z.eqb_spec (Z.of_nat j) (Z.of_nat k)); [lia|].
  - exists mb. split; [done|]. apply Idle; [|done]. by destruct Ho as [->| ->].
  - apply Ins; [intros ->; simplify_eq; eapply Taken; [|done|done]; simpl; by rewrite bool_decide_true|].
    intros Hne. simpl. by rewrite bool_decide_false.
  - apply Ins; [|done]. intros ->. simplify_eq. eapply Arrives; [done| |done].
    destruct Hcar as (sport & _ & E & _ & _ & _ & _ & ->). simpl. by rewrite E.
Qed.

Lemma in_order_app k es1 es2 i i1 i2 : in_order k es1 i i1 -> in_order k es2 i1 i2 -> in_order k (es1 ++ es2) i i2.
Proof.
  intros (a1 & t1 & E1 & S1 & F1) (a2 & t2 & E2 & S2 & F2). exists (a1 ++ a2), (t1 ++ t2). rewrite !omap_app. split_and!.
  - by rewrite app_assoc, E1, <- !app_assoc, E2.
  - by apply sublist_app.
  - by apply Forall2_app.
Qed.

Lemma spec_run_app m es m1 es' m2 : spec_run m es m1 -> spec_run m1 es' m2 -> spec_run m (es ++ es') m2.
Proof. induction 1 as [|m e m' es m'' St _ IH]; [done|]. intros Rn. simpl. econstructor; [exact St|auto]. Qed.

Lemma spec_run_one b m e m' : spec_step b m e m' -> spec_run m [e] m'.
Proof. intros St. econstructor; [by eapply spec_step_short|constructor]. Qed.

Lemma spec_run_order m es m' k mb :
  spec_run m es m' -> m !! k = Some mb -> (forall r, EClose (Z.of_nat k) r ∉ es) ->
  exists mb', m' !! k = Some mb' /\ in_order k es (mb_inbox mb) (mb_inbox mb').
Proof.
  intros Rn. revert mb. induction Rn as [m|m e m1 es m2 St _ IH]; intros mb Hk Hc.
  { exists mb. split; [done|]. exists [], []. rewrite app_nil_r. split_and!; [done|apply sublist_nil_l|constructor]. }
  destruct (spec_step_order _ _ _ _ _ _ St Hk) as (mb1 & Hk1 & O1); [intros r ->; apply (Hc r); by left|].
  destruct (IH mb1 Hk1) as (mb2 & Hk2 & O2); [intros r Hr; apply (Hc r); by right|].
  exists mb2. split; [done|]. exact (in_order_app k [e] es _ _ _ O1 O2).
Qed.

(** The mailboxes of a table. *)
Definition mailboxes (pcbs : list udp_pcb) : service := map_imap (fun _ p => open_box p) (map_seq 0 pcbs).

Lemma mailboxes_abstracts pcbs : abstracts pcbs (mailboxes pcbs).
Proof.
  intros k. unfold mailboxes. rewrite map_lookup_imap, lookup_map_seq_0. done.
Qed.

Lemma abstracts_mailboxes pcbs m : abstracts pcbs m -> m = mailboxes pcbs.
Proof. intros A. apply map_eq. intros k. by rewrite A, (mailboxes_abstracts pcbs). Qed.

Lemma exec_refines op s :
  udp_ready s -> udp_op_ok op -> wp (udp_exec op) s (fun e s' =>
    udp_ready s' /\ spec_step (memory_short s) (mailboxes (st_udp s)) e (mailboxes (st_udp s'))).
Proof.
  intros R Ok. eapply wp_mono; [apply exec_simulates; [done|apply mailboxes_abstracts|done]|].
  by intros e s' (R' & m' & ->%abstracts_mailboxes & St).
Qed.

(** C2. The functions of udp.c refine the datagram service: every call, on the state
    of a well-formed table, ends without a fault in a state with such a table, with an
    answer and an effect on the mailboxes that the contract allows, and a datagram
    for a mailbox is lost only when memory is short; a sequence of calls and inputs
    is a run of the service. *)
Theorem udp_refines_service (s : stack) (R : udp_ready s) :
  (forall op, udp_op_ok op -> wp (udp_exec op) s (fun e s' =>
     udp_ready s' /\ spec_step (memory_short s) (mailboxes (st_udp s)) e (mailboxes (st_udp s')))) /\
  (forall ops, Forall udp_op_ok ops -> wp (udp_run ops) s (fun es s' =>
     udp_ready s' /\ spec_run (mailboxes (st_udp s)) es (mailboxes (st_udp s')))).
Proof.
  split; [intros op Ok; by apply exec_refines|].
  intros ops Ok. eapply wp_mono; [apply run_simulates; [done|apply mailboxes_abstracts|done]|].
  by intros es s' (R' & m' & ->%abstracts_mailboxes & St).
Qed.

(** Delivery is in order and at most once: over any sequence of calls and inputs
    in which an open descriptor is not closed, what was in its queue and what arrived
    (some of the datagrams that came in, each at most once and in their order) is what
    its receivers were handed, in order and each to one of them, followed by what is
    in the queue at the end. *)
Theorem udp_delivers_in_order (s : stack) (R : udp_ready s) (ops : list udp_op) (Ok : Forall udp_op_ok ops) (k : nat) (p : udp_pcb)
    (Hk : st_udp s !! k = Some p) (Ho : pcb_st p = UDP_PCB_STATE_OPEN) :
  wp (udp_run ops) s (fun es s' => (forall r, EClose (Z.of_nat k) r ∉ es) ->
    exists p', st_udp s' !! k = Some p' /\ pcb_st p' = UDP_PCB_STATE_OPEN /\
      in_order k es (mb_inbox (box p)) (mb_inbox (box p'))).
Proof.
  pose proof (mailboxes_abstracts (st_udp s)) as A. eapply wp_mono; [by apply run_simulates|].
  intros es s' (R' & m' & A' & Rn) Hc. destruct (spec_run_order _ _ _ k (box p) Rn) as (mb & Hm & O); [by eapply abstracts_open|done|].
  apply (abstracts_lookup _ _ _ _ A') in Hm as (p' & Hp' & Ho' & ->). eauto.
Qed.

End Service.

(** ** A concrete run *)

Section ServiceWitness.
#[local] Existing Instance little_endian_machine.

(** A datagram comes in for the open descriptor 0 and is received. *)
Definition sample_ops : list udp_op :=
  [UInput sample_datagram 9 0x0200000a 0x0100000a 1%nat; URecv 0 4 [0; 0; 0; 0]; UOpen].

Lemma sample_ops_ok : Forall udp_op_ok sample_ops.
Proof. repeat constructor; simpl; lia. Qed.

Lemma udp_refines_service_witness :
  wp (udp_run sample_ops) udp_host (fun es s' => udp_ready s' /\ spec_run (mailboxes (st_udp udp_host)) es (mailboxes (st_udp s'))).
Proof. apply (udp_refines_service udp_host udp_host_ready). apply sample_ops_ok. Defined.

Lemma udp_delivers_in_order_witness :
  wp (udp_run sample_ops) udp_host (fun es s' => (forall r, EClose 0 r ∉ es) ->
    exists p', st_udp s' !! 0%nat = Some p' /\ pcb_st p' = UDP_PCB_STATE_OPEN /\ in_order 0 es [] (mb_inbox (box p'))).
Proof. apply (udp_delivers_in_order udp_host udp_host_ready sample_ops sample_ops_ok 0%nat echo_pcb); reflexivity. Defined.

(** The receiver is handed the datagram's byte. *)
Example sample_run_receives :
  match udp_run sample_ops udp_host with
  | Ret [_; ERecv _ _ _ o; EOpen 1] _ => o = RecvReturn 1 (Some (Endpoint 0x0200000a 0x3930)) [0x61; 0; 0; 0]
  | _ => False
  end.
Proof. vm_compute. reflexivity. Qed.

End ServiceWitness.
