(* ===== verification/Sock.v ===== *)
(** * Sockets (src/lib/sock.c, sock.h)

    The table of [MAX_SOCKS] sockets on top of the UDP user commands.  Like
    [udp_recvfrom], [sock_recvfrom] either returns or leaves the thread asleep. *)

From stdpp Require Import base numbers list option gmap strings.
From Stdlib Require Import ZArith Lia.
From S2P Require Import Prelude Util CLib Queue State Sync Net Ether Drivers Arp Ip Udp.
Open Scope Z_scope.
Open Scope cmonad_scope.

Definition AF_INET : Z := 2.
Definition SOCK_STREAM : Z := 1.
Definition SOCK_DGRAM : Z := 2.
Definition IPPROTO_UDP : Z := 0.

(** [struct sockaddr_in], of 8 bytes. *)
Record sockaddr_in := SockaddrIn { sin_family : Z; sin_port : Z; sin_addr : Z }.
Definition sockaddr_in_size : Z := 8.

Section Sock.
Context {Mc : Machine}.

(** [sockaddr_pton(p, n, size)]: the result and [*n] afterwards; the endpoint that
    [ip_string_to_endpoint] fills in is uninitialised before. *)
Definition sockaddr_pton (p : string) (n : sockaddr_in) (size : Z) : option (Z * sockaddr_in) :=
  match ip_string_to_endpoint p (Endpoint 0 0) with
  | None => None
  | Some (r, ep) =>
      if (r =? 0) && (size >=? sockaddr_in_size)
      then Some (0, SockaddrIn AF_INET (ep_port ep) (ep_address ep))
      else Some (-1, n)
  end.

Definition sockaddr_ntop (n : sockaddr_in) (size : nat) : option string :=
  if (sin_family n =? AF_INET) && bool_decide (MAX_IP_ENDPOINT_STRING_LENGTH <= size)%nat
  then Some (ip_endpoint_to_string (Endpoint (sin_addr n) (sin_port n)) size)
  else None.

(** ** The table *)

Definition set_sk (k : nat) (f : sock -> sock) : C unit := modify (set_sock (alter f k)).

Definition sock_alloc : C (option nat) :=
  let! socks := gets st_sock in
  match list_find (fun s => sk_used s = 0) socks with
  | None => ret None
  | Some (k, _) =>
      set_sk k (fun s => Sock 1 (sk_family s) (sk_type s) (sk_desc s));;
      ret (Some k)
  end.

Definition sock_free (k : nat) : C Z := set_sk k (fun _ => sock_zero);; ret 0.

Definition sock_get (id : Z) : option nat :=
  if (id <? 0) || (id >=? Z.of_nat MAX_SOCKS) then None else Some (Z.to_nat id).

Definition get_sk (k : nat) : C sock := let! socks := gets st_sock in opt NullDeref (socks !! k).

(** ** The calls *)

Definition sock_open (domain type protocol : Z) : C Z :=
  if negb (domain =? AF_INET) || (negb (type =? SOCK_STREAM) && negb (type =? SOCK_DGRAM))
     || negb (protocol =? 0) then ret (-1)
  else
    let! k := sock_alloc in
    match k with
    | None => ret (-1)
    | Some k =>
        set_sk k (fun s => Sock (sk_used s) domain type (sk_desc s));;
        (if type =? SOCK_DGRAM then
           let! desc := udp_open in
           set_sk k (fun s => Sock (sk_used s) (sk_family s) (sk_type s) desc)
         else ret tt);;
        let! s := get_sk k in
        if sk_desc s =? -1 then ret (-1) else ret (Z.of_nat k)
    end.

Definition sock_close (id : Z) : C Z :=
  match sock_get id with
  | None => ret (-1)
  | Some k =>
      let! s := get_sk k in
      if sk_type s =? SOCK_DGRAM then udp_close (sk_desc s);; sock_free k else ret (-1)
  end.

Inductive sock_outcome :=
| SockReturn (r : Z) (addr : sockaddr_in) (buf : list Z)
| SockSleep (k : nat).

(** From the return of [udp_recvfrom] on; [sin_family] is not set. *)
Definition sock_recv_finish (addr : sockaddr_in) (o : recv_outcome) : sock_outcome :=
  match o with
  | RecvSleep k => SockSleep k
  | RecvReturn r foreign buf =>
      let r := s32 r in
      match foreign with
      | Some ep =>
          if negb (r =? -1) then SockReturn r (SockaddrIn (sin_family addr) (ep_port ep) (ep_address ep)) buf
          else SockReturn r addr buf
      | None => SockReturn r addr buf
      end
  end.

Definition sock_recvfrom (id : Z) (buf : list Z) (n : Z) (addr : sockaddr_in) : C sock_outcome :=
  match sock_get id with
  | None => ret (SockReturn (-1) addr buf)
  | Some k =>
      let! s := get_sk k in
      if negb (sk_type s =? SOCK_DGRAM) || negb (sk_family s =? AF_INET) then ret (SockReturn (-1) addr buf)
      else
        let! o := udp_recvfrom (sk_desc s) n buf in
        ret (sock_recv_finish addr o)
  end.

Definition sock_recvfrom_resume (k : nat) (buf : list Z) (n : Z) (addr : sockaddr_in) : C sock_outcome :=
  let! o := udp_recvfrom_resume k n buf in ret (sock_recv_finish addr o).

Definition sock_sendto (id : Z) (buf : list Z) (n : Z) (addr : sockaddr_in) : C Z :=
  match sock_get id with
  | None => ret (-1)
  | Some k =>
      let! s := get_sk k in
      if negb (sk_type s =? SOCK_DGRAM) || negb (sk_family s =? AF_INET) then ret (-1)
      else udp_sendto (sk_desc s) buf n (Endpoint (sin_addr addr) (sin_port addr))
  end.

Definition sock_bind (id : Z) (addr : sockaddr_in) : C Z :=
  match sock_get id with
  | None => ret (-1)
  | Some k =>
      let! s := get_sk k in
      if negb (sk_type s =? SOCK_DGRAM) || negb (sk_family s =? AF_INET) then ret (-1)
      else udp_bind (sk_desc s) (Endpoint (sin_addr addr) (sin_port addr))
  end.

End Sock.

(** ** The invariant *)

Definition is_open (pcbs : list udp_pcb) (k : nat) : Prop :=
  exists p, pcbs !! k = Some p /\ pcb_st p = UDP_PCB_STATE_OPEN.

(** A datagram socket in use has a control block of its own, open, or none (when
    [udp_open] had failed); sockets not in use are zero. *)
Definition socks_wf (socks : list sock) (pcbs : list udp_pcb) : Prop :=
  length socks = MAX_SOCKS /\
  (forall i x, socks !! i = Some x -> sk_used x = 0 -> x = sock_zero) /\
  (forall i x, socks !! i = Some x -> sk_type x = SOCK_DGRAM ->
     sk_desc x = -1 \/ exists k, sk_desc x = Z.of_nat k /\ is_open pcbs k) /\
  (forall i j x y, socks !! i = Some x -> socks !! j = Some y ->
     sk_type x = SOCK_DGRAM -> sk_type y = SOCK_DGRAM -> sk_desc x = sk_desc y -> sk_desc x <> -1 -> i = j).

Definition sock_ready (s : stack) : Prop := udp_ready s /\ socks_wf (st_sock s) (st_udp s).

(** Growing the set of open control blocks keeps the sockets. *)
Lemma socks_wf_mono socks pcbs pcbs' :
  (forall k, is_open pcbs k -> is_open pcbs' k) -> socks_wf socks pcbs -> socks_wf socks pcbs'.
Proof.
  intros Ho (L & Z0 & D & U). split_and!; [done|done| |done].
  intros i x Hi Ht. destruct (D i x Hi Ht) as [?|(k & ? & ?)]; eauto.
Qed.

Lemma get_sk_run k s x : st_sock s !! k = Some x -> get_sk k s = Ret x s.
Proof. intros E. unfold get_sk, bind, gets, opt. by rewrite E. Qed.

Lemma sock_get_Some id k : sock_get id = Some k -> id = Z.of_nat k /\ (k < MAX_SOCKS)%nat.
Proof.
  unfold sock_get. change (Z.of_nat MAX_SOCKS) with 128. destruct (_ || _) eqn:E; [done|]. intros [= <-].
  change MAX_SOCKS with 128%nat. lia.
Qed.

Lemma alter_open pcbs k f j :
  (forall p, pcb_st p = UDP_PCB_STATE_OPEN -> pcb_st (f p) = UDP_PCB_STATE_OPEN) ->
  is_open pcbs j -> is_open (alter f k pcbs) j.
Proof.
  intros Hf (p & Hj & Ho). destruct (decide (k = j)) as [<-|Hne].
  - exists (f p). rewrite list_lookup_alter_eq, Hj. auto.
  - exists p. by rewrite list_lookup_alter_ne.
Qed.

Lemma udp_only_sock s pcbs s' : udp_only s pcbs s' -> st_sock s' = st_sock s /\ st_udp s' = pcbs.
Proof. intros (w & ->). done. Qed.

(** Replacing the socket at [k] keeps the table, when the new one is in use or zero
    and has a control block of its own, if it is a datagram socket. *)
Lemma socks_wf_put socks pcbs k x x' :
  socks_wf socks pcbs -> socks !! k = Some x -> (sk_used x' = 0 -> x' = sock_zero) ->
  (sk_type x' = SOCK_DGRAM -> sk_desc x' = -1 \/
     (exists j, sk_desc x' = Z.of_nat j /\ is_open pcbs j) /\
     forall i y, i <> k -> socks !! i = Some y -> sk_type y = SOCK_DGRAM -> sk_desc y <> sk_desc x') ->
  socks_wf (alter (fun _ => x') k socks) pcbs.
Proof.
  intros (L & Z0 & D & U) Hk Hz Hd.
  assert (forall i y, alter (fun _ => x') k socks !! i = Some y -> i = k /\ y = x' \/ i <> k /\ socks !! i = Some y) as K.
  { intros i y Hi. rewrite list_lookup_alter in Hi. case_decide as E; [|right; split; [congruence|done]].
    subst i. rewrite Hk in Hi. injection Hi as <-. by left. }
  split_and!.
  - by rewrite length_alter.
  - intros i y [[-> ->]|[_ Hy]]%K; [done|]. by eapply Z0.
  - intros i y [[-> ->]|[_ Hy]]%K Ht; [|by eapply D]. destruct (Hd Ht) as [?|[? _]]; auto.
  - intros i j y z [[-> ->]|[Hne Hy]]%K [[-> ->]|[Hne' Hz']]%K Hty Htz E Hm; [done|..].
    + exfalso. destruct (Hd Hty) as [?|[_ Hu]]; [done|]. by eapply (Hu j z).
    + exfalso. rewrite E in Hm. destruct (Hd Htz) as [?|[_ Hu]]; [done|]. by eapply (Hu i y).
    + by eapply U.
Qed.

Lemma alter_alter_sock (socks : list sock) k f g x :
  socks !! k = Some x -> alter g k (alter f k socks) = alter (fun _ => g (f x)) k socks.
Proof.
  intros Hk. apply list_eq. intros j. destruct (decide (k = j)) as [<-|Hne].
  - by rewrite !list_lookup_alter_eq, Hk.
  - by rewrite !list_lookup_alter_ne.
Qed.

Lemma udp_ready_sock f s : udp_ready s -> udp_ready (set_sock f s).
Proof. done. Qed.

(** The control block of a socket just opened. *)
Definition fresh_pcb : udp_pcb := UdpPcb UDP_PCB_STATE_OPEN (Endpoint IP_ADDR_ANY 0) [] (SchedCtx 0 0 0).

Lemma opened_fresh k pcbs p :
  pcbs_wf pcbs -> pcbs !! k = Some p -> pcb_st p = UDP_PCB_STATE_FREE -> opened k pcbs !! k = Some fresh_pcb.
Proof.
  intros (_ & Ok & _) Hk Hf. destruct (Ok k p Hk) as [_ Hfree]. destruct (Hfree Hf) as [El Eq].
  unfold opened. rewrite list_lookup_alter_eq, Hk. simpl. by rewrite El, Eq.
Qed.

Section SockCalls.
Context {Mc : Machine}.

(** What a call of [sock_open] leaves: nothing changed; a slot in use without a
    control block; or a new socket. *)
Definition sock_opened (type : Z) (s : stack) (r : Z) (s' : stack) : Prop :=
  r = -1 /\ s' = s \/
  exists k x, st_sock s !! k = Some sock_zero /\ st_sock s' = alter (fun _ => x) k (st_sock s) /\
    sk_used x = 1 /\ sk_family x = AF_INET /\ sk_type x = type /\
    (r = -1 /\ type = SOCK_DGRAM /\ sk_desc x = -1 /\ st_udp s' = st_udp s \/
     r = Z.of_nat k /\ (type = SOCK_DGRAM -> exists j, sk_desc x = Z.of_nat j /\
       ~ is_open (st_udp s) j /\ st_udp s' !! j = Some fresh_pcb)).

Lemma sock_open_wp domain type protocol s :
  sock_ready s -> wp (sock_open domain type protocol) s (fun r s' => sock_ready s' /\ sock_opened type s r s').
Proof.
  intros (R & W). pose proof W as (L & Z0 & D & U). unfold sock_open.
  destruct (_ || _ || _) eqn:G; [apply wp_ret; split; [done|by left]|].
  assert (domain = AF_INET /\ (type = SOCK_STREAM \/ type = SOCK_DGRAM)) as [-> Hty] by lia.
  unfold sock_alloc. wp_steps. destruct (list_find _ _) as [[k x]|] eqn:E; [|wp_steps; split; [done|by left]].
  apply list_find_Some in E as (Hk & Hu & _). pose proof (Z0 k x Hk Hu) as ->.
  unfold set_sk. wp_steps.
  set (x1 := Sock 1 AF_INET type 0).
  assert (set_sock (alter (fun s => Sock (sk_used s) AF_INET type (sk_desc s)) k)
      (set_sock (alter (fun s => Sock 1 (sk_family s) (sk_type s) (sk_desc s)) k) s)
    = set_sock (fun _ => alter (fun _ => x1) k (st_sock s)) s) as ->.
  { unfold set_sock. simpl. f_equal. by rewrite (alter_alter_sock _ _ _ _ _ Hk). }
  set (s1 := set_sock (fun _ => alter (fun _ => x1) k (st_sock s)) s).
  assert (st_sock s1 !! k = Some x1) as Hk1 by (unfold s1; simpl; by rewrite list_lookup_alter_eq, Hk).
  assert (udp_ready s1) as R1 by exact R.
  (* the slot with descriptor [dsc] over the table of [s'] *)
  assert (forall dsc s', udp_ready s' -> st_sock s' = st_sock s1 ->
    let s2 := set_sock (alter (fun s => Sock (sk_used s) (sk_family s) (sk_type s) dsc) k) s' in
    udp_ready s2 /\ st_udp s2 = st_udp s' /\ st_sock s2 = alter (fun _ => Sock 1 AF_INET type dsc) k (st_sock s)) as Put.
  { intros dsc s' R' Es s2. split_and!; [done|done|]. unfold s2, s1 in *. simpl in *. rewrite Es.
    by rewrite (alter_alter_sock _ _ _ _ _ Hk). }
  destruct (Z.eqb_spec type SOCK_DGRAM) as [Hd|Hd].
  - apply wp_bind, udp_open_wp; [done|..].
    + intros _. wp_steps. destruct (Put (-1) s1 R1 eq_refl) as (R2 & Eu & Es). set (s2 := set_sock _ s1) in *.
      eapply wp_of_run; [apply get_sk_run; by rewrite Es, list_lookup_alter_eq, Hk|]. apply wp_ret. split.
      * split; [done|]. rewrite Es, Eu. eapply socks_wf_put; [exact W|exact Hk|done|]. by left.
      * right. exists k, (Sock 1 AF_INET type (-1)). split_and!; try done. left. done.
    + intros j s' (p & Hj & Hfree) O Wp. wp_steps.
      destruct (udp_only_ready _ _ _ R1 O Wp) as [R' _]. destruct (udp_only_sock _ _ _ O) as [Es1 Eu1].
      destruct (Put (Z.of_nat j) s' R' Es1) as (R2 & Eu & Es). set (s2 := set_sock _ s') in *.
      assert (opened j (st_udp s) !! j = Some fresh_pcb) as Hfresh by (eapply opened_fresh; [apply R|exact Hj|exact Hfree]).
      assert (~ is_open (st_udp s) j) as Hno by (intros (q & Hq & Ho); simpl in Hj; congruence).
      eapply wp_of_run; [apply get_sk_run; by rewrite Es, list_lookup_alter_eq, Hk|]. cbn [sk_desc].
      destruct (Z.eqb_spec (Z.of_nat j) (-1)); [lia|]. apply wp_ret. split.
      * split; [done|]. rewrite Es, Eu, Eu1. eapply socks_wf_put.
        -- eapply socks_wf_mono; [|exact W]. intros i. by apply alter_open.
        -- exact Hk.
        -- done.
        -- intros _. right. split; [exists j; split; [done|by exists fresh_pcb]|].
           intros i y Hne Hy Hty' Ey. destruct (D i y Hy Hty') as [Em|(m & Em & Om)]; [simpl in Ey; lia|].
           simpl in Ey. assert (m = j) as -> by lia. done.
      * right. exists k, (Sock 1 AF_INET type (Z.of_nat j)). split_and!; try done. right. split; [done|].
        intros _. exists j. split_and!; [done|done|]. rewrite Eu, Eu1. exact Hfresh.
  - wp_steps. eapply wp_of_run; [by apply get_sk_run|]. cbn [sk_desc x1]. apply wp_ret. split.
    + split; [done|]. eapply socks_wf_put; [exact W|exact Hk|done|]. done.
    + right. exists k, x1. split_and!; try done. right. done.
Qed.

Lemma sock_close_wp id s :
  sock_ready s -> wp (sock_close id) s (fun r s' => sock_ready s' /\
    (r = -1 /\ s' = s \/ exists k, id = Z.of_nat k /\ r = 0 /\ st_sock s' = alter (fun _ => sock_zero) k (st_sock s))).
Proof.
  intros (R & W). pose proof W as (L & Z0 & D & U). unfold sock_close.
  destruct (sock_get id) as [k|] eqn:E; [|apply wp_ret; split; [done|by left]].
  apply sock_get_Some in E as [-> Hlt]. destruct (lookup_lt_is_Some_2 (st_sock s) k) as [x Hk]; [by rewrite L|].
  apply wp_bind. eapply wp_of_run; [by apply get_sk_run|].
  destruct (Z.eqb_spec (sk_type x) SOCK_DGRAM) as [Ht|Ht]; [|apply wp_ret; split; [done|by left]].
  unfold sock_free, set_sk.
  assert (forall s1 pcbs, udp_ready s1 -> st_udp s1 = pcbs -> st_sock s1 = st_sock s ->
    (forall j, is_open (st_udp s) j -> sk_desc x <> Z.of_nat j -> is_open pcbs j) ->
    wp (modify (set_sock (alter (fun _ => sock_zero) k));; ret 0) s1 (fun r s' => sock_ready s' /\
      (r = -1 /\ s' = s \/ exists k', Z.of_nat k = Z.of_nat k' /\ r = 0 /\ st_sock s' = alter (fun _ => sock_zero) k' (st_sock s)))) as Fin.
  { intros s1 pcbs R1 Eu Es Ho. wp_steps. split; [|right; exists k; simpl; by rewrite Es].
    split; [done|]. simpl. rewrite Es, Eu.
    (* the other datagram sockets keep their control blocks *)
    split_and!.
    - by rewrite length_alter.
    - intros i y Hi. rewrite list_lookup_alter in Hi. case_decide; [|by eapply Z0].
      apply fmap_Some in Hi as (? & _ & ->). done.
    - intros i y Hi Hty. rewrite list_lookup_alter in Hi. case_decide.
      { apply fmap_Some in Hi as (? & _ & ->). discriminate Hty. }
      destruct (D i y Hi Hty) as [?|(j & Ej & Oj)]; [by left|]. right. exists j. split; [done|].
      apply Ho; [done|]. intros Ex. assert (k = i) by (eapply U; eauto; lia). done.
    - intros i j y z Hi Hj Hty Htz. rewrite list_lookup_alter in Hi, Hj.
      do 2 case_decide; try (apply fmap_Some in Hi as (? & _ & ->); discriminate Hty);
        try (apply fmap_Some in Hj as (? & _ & ->); discriminate Htz). by eapply U. }
  apply wp_bind, udp_close_wp; [done|..].
  - intros _. by eapply Fin.
  - intros j s1 pcbs Hget O Wp Hp. destruct (udp_only_ready _ _ _ R O Wp) as [R1 _].
    destruct (udp_only_sock _ _ _ O) as [Es Eu]. apply (Fin s1 pcbs); [done|done|done|].
    intros m (q & Hq & Ho) Hne. pose proof (udp_pcb_get_Some _ _ _ Hget) as (_ & _ & _ & Ej & _).
    exists q. split; [|done]. destruct Hp as [->|[-> _]]; unfold closed, closing; rewrite list_lookup_alter_ne; auto; lia.
Qed.

(** A call that closes no control block keeps the table of sockets. *)
Lemma sock_ready_keep s s' :
  sock_ready s -> udp_ready s' -> st_sock s' = st_sock s ->
  (forall j, is_open (st_udp s) j -> is_open (st_udp s') j) -> sock_ready s'.
Proof. intros [_ W] R' Es Ho. split; [done|]. rewrite Es. by eapply socks_wf_mono. Qed.

Lemma upper_frame_udp_sock s s' : upper_frame s' = upper_frame s -> st_udp s' = st_udp s /\ st_sock s' = st_sock s.
Proof. intros E. unfold upper_frame in E. injection E as. done. Qed.

Lemma udp_output_sock src dst data len s s0 :
  sock_ready s0 -> udp_ready s -> st_sock s = st_sock s0 ->
  (forall j, is_open (st_udp s0) j -> is_open (st_udp s) j) -> 0 <= len <= Z.of_nat (length data) ->
  wp (udp_output src dst data len) s (fun _ s' => sock_ready s').
Proof.
  intros R0 R Es Ho Hlen. eapply wp_mono; [by apply udp_output_step|]. intros r s' S.
  destruct (udp_step_ready _ _ R S) as [R' _]. destruct S as [_ F]. apply upper_frame_udp_sock in F as [Eu Es'].
  eapply sock_ready_keep; [exact R0|exact R'|congruence|by rewrite Eu].
Qed.

(** The guard the calls on a socket share: a result without effect, or the call on
    the descriptor of a socket of the table. *)
Lemma sock_guard_wp {A} id (dflt : A) (k : sock -> C A) s (Q : A -> stack -> Prop) :
  sock_ready s -> Q dflt s -> (forall x, wp (k x) s Q) ->
  wp (match sock_get id with
      | None => ret dflt
      | Some i =>
          let! x := get_sk i in
          if negb (sk_type x =? SOCK_DGRAM) || negb (sk_family x =? AF_INET) then ret dflt else k x
      end) s Q.
Proof.
  intros [_ W] HN HS. destruct (sock_get id) as [i|] eqn:E; [|by apply wp_ret].
  apply sock_get_Some in E as [_ Hlt]. destruct W as (L & _).
  destruct (lookup_lt_is_Some_2 (st_sock s) i) as [x Hk]; [by rewrite L|].
  apply wp_bind. eapply wp_of_run; [by apply get_sk_run|]. destruct (_ || _); [by apply wp_ret|done].
Qed.

(** A change of the table of control blocks that closes none. *)
Lemma sock_ready_udp_only s pcbs s' :
  sock_ready s -> udp_only s pcbs s' -> pcbs_wf pcbs -> (forall j, is_open (st_udp s) j -> is_open pcbs j) -> sock_ready s'.
Proof.
  intros R O Wp Ho. destruct (udp_only_ready _ _ _ (proj1 R) O Wp) as [R' _]. destruct (udp_only_sock _ _ _ O) as [Es Eu].
  eapply sock_ready_keep; [done|done|done|by rewrite Eu].
Qed.

Lemma sock_bind_ready id addr s : sock_ready s -> wp (sock_bind id addr) s (fun _ s' => sock_ready s').
Proof.
  intros R. apply sock_guard_wp; [done|done|]. intros x. apply udp_bind_wp; [apply R|done|].
  intros k s' _ _ O Wp. eapply sock_ready_udp_only; [done|exact O|done|]. intros j. by apply alter_open.
Qed.

Lemma sock_sendto_ready id buf n addr s :
  sock_ready s -> 0 <= n <= Z.of_nat (length buf) -> wp (sock_sendto id buf n addr) s (fun _ s' => sock_ready s').
Proof.
  intros R Hn. pose proof R as [Ru _]. apply sock_guard_wp; [done|done|]. intros x. apply udp_sendto_wp; [done|done|].
  intros k p addr' _ _ _. split.
  - intros _. by apply (udp_output_sock _ _ _ _ s s).
  - intros port _ _ pcbs Wp. apply (udp_output_sock _ _ _ _ (set_udp (fun _ => pcbs) s) s); [done| |done| |done].
    + destruct Ru as (Rip & Hm & _). exact (conj Rip (conj Hm Wp)).
    + intros j. by apply alter_open.
Qed.

Lemma sock_recvfrom_ready id buf n addr s :
  sock_ready s -> 0 <= n <= Z.of_nat (length buf) -> wp (sock_recvfrom id buf n addr) s (fun _ s' => sock_ready s').
Proof.
  intros R Hn. pose proof R as [Ru _]. apply sock_guard_wp; [done|done|]. intros x. apply wp_bind.
  apply udp_recvfrom_wp; [done|done|by intros; apply wp_ret|]. intros k p _ Hk. pose proof Ru as (_ & _ & Wp).
  split_and!.
  - intros e q s' Eq O. apply wp_ret. eapply sock_ready_udp_only; [done|exact O|by eapply alter_recvq_wf|]. intros j. by apply alter_open.
  - intros s' _ _ O _. apply wp_ret. by eapply sock_ready_udp_only.
  - intros s' _ _ O. apply wp_ret. eapply sock_ready_udp_only; [done|exact O|by eapply alter_ctx_wf|]. intros j. by apply alter_open.
Qed.

(** The call of a thread that runs again. *)
Lemma sock_resume_ready k buf n addr s :
  sock_ready s -> is_Some (st_udp s !! k) -> 0 <= n <= Z.of_nat (length buf) ->
  wp (sock_recvfrom_resume k buf n addr) s (fun _ s' => sock_ready s').
Proof.
  intros R [p Hk] Hn. pose proof R as [Ru _]. pose proof Ru as (_ & _ & Wp). unfold sock_recvfrom_resume. apply wp_bind.
  pose proof (alter_ctx_wf left_ctx _ _ _ Wp Hk) as W1.
  assert (alter (with_ctx left_ctx) k (st_udp s) !! k = Some (with_ctx left_ctx p)) as Hk1
    by by rewrite list_lookup_alter_eq, Hk.
  eapply udp_resume_wp; [done|exact Hk|done|..].
  - intros s' _ O _. apply wp_ret. eapply sock_ready_udp_only; [done|exact O|done|]. intros j. by apply alter_open.
  - intros s' pcbs _ Hc O Hp. apply wp_ret. eapply sock_ready_udp_only; [done|exact O|..].
    + destruct Hp as [-> | ->]; [by eapply closed_wf|by eapply closing_wf].
    + intros j (q & Hq & Ho). assert (j <> k) as Hne by (intros ->; rewrite Hk in Hq; injection Hq as <-; congruence).
      exists q. split; [|done]. destruct Hp as [-> | ->]; unfold closed, closing; by rewrite !list_lookup_alter_ne.
  - intros _ _. split.
    + intros e q s' Eq O. apply wp_ret. eapply sock_ready_udp_only; [done|exact O|by eapply alter_recvq_wf|].
      intros j Hj. apply alter_open; [done|]. by apply alter_open.
    + intros s' _ O. apply wp_ret. eapply sock_ready_udp_only; [done|exact O|by eapply alter_ctx_wf|].
      intros j Hj. apply alter_open; [done|]. by apply alter_open.
Qed.

(** C25. Sockets do not share control blocks: from a state in which every datagram
    socket in use has an open control block of its own (or none, after a failed
    open), every socket call keeps this.  [sock_open] fails with nothing changed, or
    takes an unused slot and, for a datagram socket, a control block that no other
    socket has, unbound and with nothing queued (a slot is lost when no control
    block is free); [sock_close] of a datagram socket frees its slot. *)
Theorem sock_calls_isolated (s : stack) (R : sock_ready s) :
  (forall domain type protocol, wp (sock_open domain type protocol) s (fun r s' =>
     sock_ready s' /\ sock_opened type s r s')) /\
  (forall id, wp (sock_close id) s (fun r s' => sock_ready s' /\
     (r = -1 /\ s' = s \/ exists k, id = Z.of_nat k /\ r = 0 /\ st_sock s' = alter (fun _ => sock_zero) k (st_sock s)))) /\
  (forall id addr, wp (sock_bind id addr) s (fun _ s' => sock_ready s')) /\
  (forall id buf n addr, 0 <= n <= Z.of_nat (length buf) -> wp (sock_sendto id buf n addr) s (fun _ s' => sock_ready s')) /\
  (forall id buf n addr, 0 <= n <= Z.of_nat (length buf) -> wp (sock_recvfrom id buf n addr) s (fun _ s' => sock_ready s')).
Proof.
  split_and!.
  - intros. by apply sock_open_wp.
  - intros. by apply sock_close_wp.
  - intros. by apply sock_bind_ready.
  - intros. by apply sock_sendto_ready.
  - intros. by apply sock_recvfrom_ready.
Qed.

(** A socket whose [udp_open] failed stays allocated: the call returns -1, so that
    the caller has no identifier to close it by. *)
Lemma sock_open_leaks_slot s k :
  sock_ready s -> list_find (fun x => sk_used x = 0) (st_sock s) = Some (k, sock_zero) ->
  Forall (fun p => pcb_st p <> UDP_PCB_STATE_FREE) (st_udp s) ->
  wp (sock_open AF_INET SOCK_DGRAM IPPROTO_UDP) s (fun r s' =>
    r = -1 /\ st_sock s' !! k = Some (Sock 1 AF_INET SOCK_DGRAM (-1))).
Proof.
  intros R Hfind Hfull. pose proof Hfind as (Hk & _ & _)%list_find_Some.
  unfold sock_open, sock_alloc. cbn [negb orb andb Z.eqb]. change (negb (AF_INET =? AF_INET) || _ || _) with false.
  cbv iota. wp_steps. rewrite Hfind. unfold set_sk. wp_steps. change (SOCK_DGRAM =? SOCK_DGRAM) with true. cbv iota.
  apply wp_bind, udp_open_wp; [exact (proj1 R)|..].
  - intros _. wp_steps. eapply wp_of_run.
    { apply get_sk_run. simpl. rewrite !list_lookup_alter_eq, Hk. reflexivity. }
    apply wp_ret. simpl. by rewrite !list_lookup_alter_eq, Hk.
  - intros j s' (p & Hj & Hf) _ _. exfalso. simpl in Hj. eapply Forall_lookup_1 in Hfull; [|exact Hj]. done.
Qed.

End SockCalls.

(** ** A concrete host *)

Lemma boot_socks_wf pcbs : socks_wf (replicate MAX_SOCKS sock_zero) pcbs.
Proof.
  assert (forall i x, replicate MAX_SOCKS sock_zero !! i = Some x -> x = sock_zero) as K
    by (intros i x Hi; by apply lookup_replicate_1 in Hi as [-> _]).
  split_and!; [done|by intros i x ->%K|by intros i x ->%K|by intros i j x y ->%K].
Qed.

Lemma sock_calls_isolated_witness :
  wp (sock_open AF_INET SOCK_DGRAM IPPROTO_UDP) udp_host (fun _ s' => sock_ready s').
Proof.
  eapply wp_mono.
  - apply (sock_calls_isolated (Mc := little_endian_machine) udp_host). split; [apply udp_host_ready|apply boot_socks_wf].
  - by intros r s' [? _].
Defined.
