(* ===== verification/Log.v ===== *)
(** * Log text (src/lib/util.c: lprintf, hexdump; the dump functions)

    What the stack prints, as text: the functions are total but for reads outside
    the packet, which are [None].  Locking of the stream and the stream itself are
    not modelled; the time of day in a log line is an argument. *)

From stdpp Require Import base numbers list option strings.
From Stdlib Require Import ZArith Lia.
From S2P Require Import Prelude Util CLib Queue State Sync Net Ether Drivers Arp Ip Icmp Udp.
Open Scope Z_scope.

Definition newline : string := String (Ascii.ascii_of_nat 10) "".

(** ** Log lines *)

Definition escape (code : string) : string := String (Ascii.ascii_of_nat 27) code.

Definition ANSI_COLOR_RESET : string := escape "[0m".
Definition ANSI_COLOR_RED : string := escape "[31m".
Definition ANSI_COLOR_YELLOW : string := escape "[33m".
Definition ANSI_COLOR_BLUE : string := escape "[34m".
Definition ANSI_COLOR_CYAN : string := escape "[36m".
Definition ANSI_COLOR_BOLD : string := escape "[1m".
Definition ANSI_COLOR_GREEN : string := escape "[32m".

Definition level_color (level : Z) : string :=
  if level =? 68 then ANSI_COLOR_CYAN else if level =? 73 then ANSI_COLOR_BLUE
  else if level =? 87 then ANSI_COLOR_YELLOW else if level =? 69 then ANSI_COLOR_RED else ANSI_COLOR_RESET.

Definition level_desc (level : Z) : string :=
  if level =? 68 then "DEBUG" else if level =? 73 then "INFO"
  else if level =? 87 then "WARNING" else if level =? 69 then "ERROR" else "UNKNOWN".

(** [timestamp] is the time of day as [strftime] gives it, [message] the formatted
    message: the text, and the number of characters the function returns. *)
Definition lprintf (timestamp : string) (level : Z) (message : string) : string * Z :=
  let head := (level_color level +:+ "[" +:+ level_desc level +:+ "] " +:+ timestamp +:+ ":" +:+ ANSI_COLOR_RESET +:+ " ")%string in
  let n := Z.of_nat (String.length head) in
  let n := n + Z.of_nat (String.length message) in
  let n := n + Z.of_nat (String.length newline) in
  ((head +:+ message +:+ newline)%string, n).

(** A call of [errorf] or [infof] inside an operation: the stream the line goes to is
    not part of the state, and the callers ignore the result. *)
Definition log_line (level : Z) (message : string) : C unit := ret tt.

(** ** Hexadecimal dumps *)

(** [%x] of a non-negative number below 2^64. *)
Fixpoint hex_digits (fuel : nat) (n : Z) (acc : string) : string :=
  match fuel with
  | O => acc
  | S fuel =>
      let acc := String (digit_char (n mod 16)) acc in
      if n <? 16 then acc else hex_digits fuel (n / 16) acc
  end.

Definition fmt_x (n : Z) : string := hex_digits 16 n "".

(** [%04x] of a non-negative number that may have more digits. *)
Definition fmt_x4 (n : Z) : string := if n <? 65536 then fmt_04x n else fmt_x n.

Definition isascii (c : Z) : bool := (0 <=? c) && (c <? 128).
Definition isprint (c : Z) : bool := (32 <=? c) && (c <? 127).

Definition hexdump_rule : string :=
  "+------+-------------------------------------------------+------------------+" +:+ newline.

(** One cell of either column at position [i]. *)
Definition hex_cell (data : list Z) (size i : Z) : option string :=
  if i <? size then
    match data !! Z.to_nat i with
    | Some b => Some (fmt_02x (Z.land 0xff b) +:+ " ")
    | None => None
    end
  else Some "   ".

Definition char_cell (data : list Z) (size i : Z) : option string :=
  if i <? size then
    match data !! Z.to_nat i with
    | Some b => Some (if isascii b && isprint b then String (Ascii.ascii_of_nat (Z.to_nat b)) "" else ".")
    | None => None
    end
  else Some " ".

(** The loop over a line's cells, [k] to go from position [i] on. *)
Fixpoint dump_cells (cell : Z -> option string) (i : Z) (k : nat) : option string :=
  match k with
  | O => Some ""
  | S k =>
      match cell i, dump_cells cell (i + 1) k with
      | Some a, Some b => Some (a +:+ b)
      | _, _ => None
      end
  end.

Definition hexdump_line (data : list Z) (size offset : Z) : option string :=
  match dump_cells (hex_cell data size) offset 16, dump_cells (char_cell data size) offset 16 with
  | Some hex, Some chars => Some ("| " +:+ fmt_x4 offset +:+ " | " +:+ hex +:+ "| " +:+ chars +:+ " |" +:+ newline)%string
  | _, _ => None
  end.

Fixpoint hexdump_lines (data : list Z) (size offset : Z) (k : nat) : option string :=
  match k with
  | O => Some ""
  | S k =>
      match hexdump_line data size offset, hexdump_lines data size (offset + 16) k with
      | Some a, Some b => Some (a +:+ b)
      | _, _ => None
      end
  end.

(** [for (offset = 0; offset < (int)size; offset += 16)] makes one round per line. *)
Definition hexdump (data : list Z) (size : Z) : option string :=
  let n := s32 size in
  match hexdump_lines data n 0 (Z.to_nat ((n + 15) / 16)) with
  | Some lines => Some (hexdump_rule +:+ lines +:+ hexdump_rule)%string
  | None => None
  end.

(** ** Lemmas: text *)

Lemma string_app_assoc (a b c : string) : ((a +:+ b) +:+ c = a +:+ (b +:+ c))%string.
Proof. induction a as [|x a IH]; [done|]. exact (f_equal (String x) IH). Qed.

Lemma string_app_nil (a : string) : (a +:+ "" = a)%string.
Proof. induction a as [|x a IH]; [done|]. exact (f_equal (String x) IH). Qed.

Lemma string_length_app (a b : string) : String.length (a +:+ b) = (String.length a + String.length b)%nat.
Proof. induction a as [|x a IH]; [done|]. exact (f_equal S IH). Qed.

(** What is left of a string after [n] characters. *)
Fixpoint string_drop (n : nat) (s : string) : string :=
  match n, s with
  | S n, String _ r => string_drop n r
  | _, _ => s
  end.

Lemma string_drop_app n a b : String.length a = n -> string_drop n (a +:+ b) = b.
Proof. intros <-. induction a as [|x a IH]; [by destruct b|exact IH]. Qed.

Lemma substring_app n a b : String.length a = n -> String.substring 0 n (a +:+ b) = a.
Proof. intros <-. induction a as [|x a IH]; [by destruct b|]. exact (f_equal (String x) IH). Qed.

Lemma substring_drop n k s : String.substring n k s = String.substring 0 k (string_drop n s).
Proof. revert s. induction n as [|n IH]; intros [|c s]; [done|done|by destruct k|apply IH]. Qed.

(** ** Reading a dump back *)

(** The hexadecimal column of a line: two digits and a space per byte, up to the
    first blank cell. *)
Fixpoint read_cells (k : nat) (s : string) : list Z :=
  match k with
  | O => []
  | S k =>
      match strtol 16 (String.substring 0 2 s) with
      | (v, Some _) => v :: read_cells k (string_drop 3 s)
      | (_, None) => []
      end
  end.

Definition line_width : nat := 78.

Fixpoint read_lines (k : nat) (s : string) : list Z :=
  match k with
  | O => []
  | S k => read_cells 16 (String.substring 9 48 s) ++ read_lines k (string_drop line_width s)
  end.

Definition undump (text : string) : list Z :=
  read_lines (String.length text / line_width - 2) (string_drop line_width text).

Section HexdumpFacts.

Lemma cells_in cell n i k :
  (forall j, i <= j < i + Z.of_nat k -> exists c, cell j = Some c /\ String.length c = n) ->
  exists t, dump_cells cell i k = Some t /\ String.length t = (n * k)%nat.
Proof.
  revert i. induction k as [|k IH]; intros i H; [exists ""; simpl; split; [done|lia]|]. cbn [dump_cells].
  destruct (H i) as (c & -> & Hc); [lia|]. destruct (IH (i + 1)) as (t & -> & Ht); [intros j Hj; apply H; lia|].
  exists (c +:+ t)%string. split; [done|]. rewrite string_length_app. lia.
Qed.

Lemma hex_cell_in data size i :
  0 <= i -> size <= Z.of_nat (length data) -> exists c, hex_cell data size i = Some c /\ String.length c = 3%nat.
Proof.
  intros Hi Hs. unfold hex_cell. destruct (Z.ltb_spec i size); [|by eexists].
  destruct (lookup_lt_is_Some_2 data (Z.to_nat i)) as [b ->]; [lia|]. by eexists.
Qed.

Lemma char_cell_in data size i :
  0 <= i -> size <= Z.of_nat (length data) -> exists c, char_cell data size i = Some c /\ String.length c = 1%nat.
Proof.
  intros Hi Hs. unfold char_cell. destruct (Z.ltb_spec i size); [|by eexists].
  destruct (lookup_lt_is_Some_2 data (Z.to_nat i)) as [b ->]; [lia|]. eexists. split; [done|]. by case_match.
Qed.

(** Inside the buffer a dump is always made. *)
Lemma hexdump_line_in data size offset :
  0 <= offset -> size <= Z.of_nat (length data) -> is_Some (hexdump_line data size offset).
Proof.
  intros Ho Hs. unfold hexdump_line.
  destruct (cells_in (hex_cell data size) 3 offset 16) as (h & -> & _); [intros; apply hex_cell_in; lia|].
  destruct (cells_in (char_cell data size) 1 offset 16) as (c & -> & _); [intros; apply char_cell_in; lia|]. by eexists.
Qed.

Lemma hexdump_lines_in data size offset k :
  0 <= offset -> size <= Z.of_nat (length data) -> is_Some (hexdump_lines data size offset k).
Proof.
  revert offset. induction k as [|k IH]; intros offset Ho Hs; [by eexists|]. cbn [hexdump_lines].
  destruct (hexdump_line_in data size offset Ho Hs) as [a ->]. destruct (IH (offset + 16)) as [b ->]; [lia|done|]. by eexists.
Qed.

Lemma hexdump_in data size : 0 <= size < 2 ^ 31 -> size <= Z.of_nat (length data) -> is_Some (hexdump data size).
Proof.
  intros Hs Hl. unfold hexdump. rewrite s32_small by lia.
  destruct (hexdump_lines_in data size 0 (Z.to_nat ((size + 15) / 16))) as [t ->]; [lia|lia|]. by eexists.
Qed.

(** The bytes of a line are read back from its hexadecimal column. *)
Lemma read_cells_dump data i k t :
  bytes data -> dump_cells (hex_cell data (Z.of_nat (length data))) (Z.of_nat i) k = Some t -> read_cells k t = take k (drop i data).
Proof.
  intros Hb. revert i t. induction k as [|k IH]; intros i t E; [done|]. cbn [dump_cells] in E.
  destruct (hex_cell _ _ _) as [c|] eqn:Ec; [|done]. destruct (dump_cells _ _ k) as [r|] eqn:Er; [|done]. injection E as <-.
  unfold hex_cell in Ec. destruct (Z.ltb_spec (Z.of_nat i) (Z.of_nat (length data))) as [Hlt|Hge].
  - rewrite Nat2Z.id in Ec. destruct (data !! i) as [b|] eqn:Eb; [|done]. injection Ec as <-.
    pose proof (Forall_lookup_1 _ _ _ _ Hb Eb) as Rb. unfold in_u8 in Rb.
    assert (Z.land 255 b = b) as Eand by (rewrite Z.land_comm; change 255 with (Z.ones 8); rewrite Z.land_ones by lia; by apply Z.mod_small).
    rewrite Eand. cbn [read_cells]. rewrite string_app_assoc.
    assert (String.substring 0 2 (fmt_02x b +:+ " " +:+ r) = fmt_02x b) as ->
      by (by apply substring_app).
    assert (string_drop 3 (fmt_02x b +:+ " " +:+ r) = r) as -> by done.
    pose proof (strtol_fmt_02x b "" ltac:(lia) eq_refl) as Est. rewrite string_app_nil in Est. rewrite Est.
    rewrite (drop_S _ _ _ Eb). cbn [take]. f_equal. apply (IH (S i)). rewrite <- Er. f_equal. lia.
  - injection Ec as <-. rewrite drop_ge by lia. by rewrite take_nil.
Qed.

Lemma length_fmt_x4 n : n < 65536 -> String.length (fmt_x4 n) = 4%nat.
Proof. intros H. unfold fmt_x4. by destruct (Z.ltb_spec n 65536); [|lia]. Qed.

Lemma hexdump_line_read data i t r :
  bytes data -> Z.of_nat i < 65536 -> hexdump_line data (Z.of_nat (length data)) (Z.of_nat i) = Some t ->
  String.length t = line_width /\ read_cells 16 (String.substring 9 48 (t +:+ r)) = take 16 (drop i data).
Proof.
  intros Hb Hi E. unfold hexdump_line in E. set (n := Z.of_nat (length data)) in *.
  destruct (cells_in (hex_cell data n) 3 (Z.of_nat i) 16) as (h & Eh & Lh); [intros; apply hex_cell_in; lia|].
  destruct (cells_in (char_cell data n) 1 (Z.of_nat i) 16) as (c & Ec & Lc); [intros; apply char_cell_in; lia|].
  rewrite Eh, Ec in E. injection E as <-. pose proof (length_fmt_x4 _ Hi) as Lx. split.
  { rewrite !string_length_app, Lx, Lh, Lc. done. }
  set (f := fmt_x4 _) in *. rewrite substring_drop.
  assert (("| " +:+ f +:+ " | " +:+ h +:+ "| " +:+ c +:+ " |" +:+ newline) +:+ r
          = ("| " +:+ f +:+ " | ") +:+ (h +:+ (("| " +:+ c +:+ " |" +:+ newline) +:+ r)))%string as ->
    by (by rewrite !string_app_assoc).
  rewrite (string_drop_app 9) by (by rewrite !string_length_app, Lx). rewrite substring_app by done.
  exact (read_cells_dump data i 16 h Hb Eh).
Qed.

Lemma hexdump_lines_read data i k t r :
  bytes data -> Z.of_nat i + 16 * Z.of_nat k < 65536 + 16 ->
  hexdump_lines data (Z.of_nat (length data)) (Z.of_nat i) k = Some t ->
  String.length t = (line_width * k)%nat /\ read_lines k (t +:+ r) = take (16 * k) (drop i data).
Proof.
  intros Hb. revert i t. induction k as [|k IH]; intros i t Hi E.
  { injection E as <-. rewrite Nat.mul_0_r. split; [done|]. by rewrite Nat.mul_0_r. }
  cbn [hexdump_lines] in E. destruct (hexdump_line _ _ _) as [a|] eqn:Ea; [|done].
  destruct (hexdump_lines _ _ _ k) as [b|] eqn:Eb; [|done]. injection E as <-.
  replace (Z.of_nat i + 16) with (Z.of_nat (i + 16)) in Eb by lia.
  destruct (IH (i + 16)%nat b ltac:(lia) Eb) as [Lb Rb].
  destruct (hexdump_line_read data i a (b +:+ r) Hb ltac:(lia) Ea) as [La Ra].
  split; [rewrite string_length_app; lia|]. cbn [read_lines]. rewrite string_app_assoc, Ra, string_drop_app, Rb by done.
  replace (16 * S k)%nat with (16 + 16 * k)%nat by lia. by rewrite <- take_take_drop, drop_drop.
Qed.

End HexdumpFacts.

(** ** Packet dumps

    The dump functions of the modules: the text, or [None] for a read past the end of
    the packet.  The sources are built without [HEXDUMP], so that no hexadecimal dump
    follows it. *)

(** [%u] of an [int], [%08x] of a 32-bit value. *)
Definition fmt_u (n : Z) : string := fmt_d (u32 n).
Definition fmt_08x (n : Z) : string := (fmt_04x (n / 65536) +:+ fmt_04x (n mod 65536))%string.

Section Dumps.
Context {Mc : Machine}.

Definition ether_dump (frame : list Z) : option string :=
  dst ← rdn frame 0 ETHER_ADDR_LEN;
  src ← rdn frame 6 ETHER_ADDR_LEN;
  ty ← rd16 frame 12;
  a ← ether_addr_ntop src ETHER_ADDR_STR_LEN;
  b ← ether_addr_ntop dst ETHER_ADDR_STR_LEN;
  Some ("        src: " +:+ a +:+ newline +:+
        "        dst: " +:+ b +:+ newline +:+
        "       type: 0x" +:+ fmt_04x (ntoh16 ty) +:+ " (" +:+ ether_type_ntoa ty +:+ ")" +:+ newline)%string.

Definition arp_dump (data : list Z) : option string :=
  hrd ← rd16 data 0;
  pro ← rd16 data 2;
  hln ← rd8 data 4;
  pln ← rd8 data 5;
  op ← rd16 data 6;
  sha ← rdn data 8 ETHER_ADDR_LEN;
  spa ← rd32 data 14;
  tha ← rdn data 18 ETHER_ADDR_LEN;
  tpa ← rd32 data 24;
  a ← ether_addr_ntop sha 128;
  b ← ether_addr_ntop tha 128;
  Some ("        hrd: 0x" +:+ fmt_04x (ntoh16 hrd) +:+ newline +:+
        "        pro: 0x" +:+ fmt_04x (ntoh16 pro) +:+ newline +:+
        "        hln: " +:+ fmt_d hln +:+ newline +:+
        "        pln: " +:+ fmt_d pln +:+ newline +:+
        "         op: 0x" +:+ fmt_04x (ntoh16 op) +:+ " (" +:+ arp_opcode_ntoa op +:+ ")" +:+ newline +:+
        "        sha: " +:+ a +:+ newline +:+
        "        spa: " +:+ ip_address_to_string spa 128 +:+ newline +:+
        "        tha: " +:+ b +:+ newline +:+
        "        tpa: " +:+ ip_address_to_string tpa 128 +:+ newline)%string.

Definition udp_dump (data : list Z) : option string :=
  src ← rd16 data 0;
  dst ← rd16 data 2;
  len ← rd16 data 4;
  sum ← rd16 data 6;
  Some ("        src: " +:+ fmt_d (ntoh16 src) +:+ newline +:+
        "        dst: " +:+ fmt_d (ntoh16 dst) +:+ newline +:+
        "        len: " +:+ fmt_d (ntoh16 len) +:+ newline +:+
        "        sum: 0x" +:+ fmt_04x (ntoh16 sum) +:+ newline)%string.

(** The text of [ip_dump], whose effect on the stack is its reads alone. *)
Definition ip_dump_text (p : ip_state) (data : list Z) : option string :=
  vhl ← rd8 data 0;
  let v := Z.shiftr (Z.land vhl 0xf0) 4 in
  let hl := Z.land vhl 0x0f in
  let hlen := u8 (Z.shiftl hl 2) in
  tos ← rd8 data 1;
  t ← rd16 data 2;
  let total := ntoh16 t in
  id ← rd16 data 4;
  o ← rd16 data 6;
  let offset := ntoh16 o in
  ttl ← rd8 data 8;
  protocol ← rd8 data 9;
  sum ← rd16 data 10;
  calculated ← cksum16 data hlen (- sum);
  src ← rd32 data 12;
  dst ← rd32 data 16;
  Some ("vhl: 0x" +:+ fmt_02x vhl +:+ " [v: " +:+ fmt_d v +:+ ", hl: " +:+ fmt_d hl +:+ " (" +:+ fmt_d hlen +:+ ")]" +:+ newline +:+
        "tos: 0x" +:+ fmt_02x tos +:+ newline +:+
        "total: " +:+ fmt_d total +:+ " (payload: " +:+ fmt_u (total - hlen) +:+ ")" +:+ newline +:+
        "id: " +:+ fmt_d (ntoh16 id) +:+ newline +:+
        "offset: 0x" +:+ fmt_04x offset +:+ " [flags=" +:+ fmt_x (Z.shiftr (Z.land offset 0xe000) 13) +:+
          ", offset=" +:+ fmt_d (Z.land offset 0x1fff) +:+ "]" +:+ newline +:+
        "ttl: " +:+ fmt_d ttl +:+ newline +:+
        "protocol: " +:+ fmt_d protocol +:+ " (" +:+ ip_get_protocol_name p protocol +:+ ")" +:+ newline +:+
        "sum: 0x" +:+ fmt_04x (ntoh16 sum) +:+ " (0x" +:+ fmt_04x (ntoh16 calculated) +:+ ")" +:+ newline +:+
        "src: " +:+ ip_address_to_string src MAX_IP_ADDRESS_STRING_LENGTH +:+ newline +:+
        "dst: " +:+ ip_address_to_string dst MAX_IP_ADDRESS_STRING_LENGTH +:+ newline)%string.

(** The three parts of the text of [icmp_dump]: type and code, the two checksums, and
    the values the type gives. *)
Definition icmp_dump_type (ty code : Z) : string :=
  let type_color := if ty =? ICMP_TYPE_ECHO then ANSI_COLOR_YELLOW else ANSI_COLOR_GREEN in
  (ANSI_COLOR_BOLD +:+ "       Type: " +:+ ANSI_COLOR_RESET +:+ type_color +:+ icmp_type_ntoa ty +:+ " (" +:+ fmt_d ty +:+ ")" +:+ newline +:+
   ANSI_COLOR_BOLD +:+ "       Code: " +:+ ANSI_COLOR_RESET +:+ fmt_d code +:+ newline)%string.

Definition icmp_dump_sum (checksum calculated_checksum : Z) : string :=
  let checksum_color := if checksum =? calculated_checksum then ANSI_COLOR_GREEN else ANSI_COLOR_RED in
  (ANSI_COLOR_BOLD +:+ "        Sum: " +:+ ANSI_COLOR_RESET +:+ "0x" +:+ fmt_04x checksum +:+
   " (" +:+ checksum_color +:+ "0x" +:+ fmt_04x calculated_checksum +:+ ANSI_COLOR_RESET +:+ ")" +:+ newline)%string.

Definition icmp_dump_values (data : list Z) (ty : Z) : option string :=
  if (ty =? ICMP_TYPE_ECHOREPLY) || (ty =? ICMP_TYPE_ECHO) then
    id ← rd16 data 4;
    seq ← rd16 data 6;
    Some (ANSI_COLOR_BOLD +:+ "         ID: " +:+ ANSI_COLOR_RESET +:+ fmt_d (ntoh16 id) +:+ newline +:+
          ANSI_COLOR_BOLD +:+ "        Seq: " +:+ ANSI_COLOR_RESET +:+ fmt_d (ntoh16 seq) +:+ newline)%string
  else
    values ← rd32 data 4;
    Some (ANSI_COLOR_BOLD +:+ "     Values: " +:+ ANSI_COLOR_RESET +:+ "0x" +:+ fmt_08x (ntoh32 values) +:+ newline)%string.

Definition icmp_dump_text (data : list Z) (len : Z) : option string :=
  ty ← rd8 data 0;
  code ← rd8 data 1;
  sum ← rd16 data 2;
  calculated ← cksum16 data len (- sum);
  values ← icmp_dump_values data ty;
  Some (icmp_dump_type ty code +:+ icmp_dump_sum (ntoh16 sum) (ntoh16 calculated) +:+ values)%string.

(** *** When a dump is made *)

Lemma rd8_some data off : is_Some (rd8 data off) <-> (off < length data)%nat.
Proof. apply lookup_lt_is_Some. Qed.

Lemma rd16_some data off : is_Some (rd16 data off) <-> (off + 2 <= length data)%nat.
Proof.
  split; [|intros H; destruct (rd16_in data off H) as [v ->]; by eexists]. unfold rd16. pose proof (length_drop data off) as L.
  destruct (drop off data) as [|b0 [|b1 r]]; simpl in L; [by intros [? ?]..|lia].
Qed.

Lemma rd32_some data off : is_Some (rd32 data off) <-> (off + 4 <= length data)%nat.
Proof.
  split; [|intros H; destruct (rd32_in data off H) as [v ->]; by eexists]. unfold rd32. pose proof (length_drop data off) as L.
  destruct (drop off data) as [|b0 [|b1 [|b2 [|b3 r]]]]; simpl in L; [by intros [? ?]..|lia].
Qed.

Lemma rdn_some data off n : is_Some (rdn data off n) <-> (off + n <= length data)%nat.
Proof. unfold rdn. case_decide; split; [done|by eexists|by intros [? ?]|lia]. Qed.

(** A sequence of reads is defined when each of them is. *)
Lemma read_then {A B} (e : option A) (k : A -> option B) (P Q : Prop) :
  (is_Some e <-> P) -> (forall a, e = Some a -> is_Some (k a) <-> Q) -> is_Some (e ≫= k) <-> P /\ Q.
Proof.
  intros He Hk. destruct e as [a|]; simpl.
  - rewrite (Hk a eq_refl). split; [|tauto]. split; [|done]. apply He. by eexists.
  - split; [by intros [? ?]|]. intros [HP _]. apply He in HP as [? ?]. done.
Qed.

Lemma ntop_some data off l n : rdn data off ETHER_ADDR_LEN = Some l -> is_Some (ether_addr_ntop l n) <-> True.
Proof.
  unfold rdn, ETHER_ADDR_LEN. case_decide; [|done]. intros [= <-]. split; [done|]. intros _.
  assert (length (take 6 (drop off data)) = 6)%nat as L by (rewrite length_take, length_drop; lia).
  destruct (take 6 _) as [|a [|b [|c [|d [|e [|f r]]]]]]; first [done|by eexists].
Qed.

(** Turns the definedness of a dump into the conjunction of its reads. *)
Create HintDb dump.
#[local] Hint Resolve rd8_some rd16_some rd32_some rdn_some ntop_some : dump.

Ltac dump_reads :=
  lazymatch goal with
  | |- is_Some (Some _) <-> _ => split; [intros _; exact I|intros _; eexists; reflexivity]
  | |- is_Some (_ ≫= _) <-> _ => eapply read_then; [solve [eauto with nocore dump]|intros; dump_reads]
  end.

Lemma icmp_values_some data ty : is_Some (icmp_dump_values data ty) <-> (8 <= length data)%nat.
Proof. unfold icmp_dump_values. destruct (_ || _); (etrans; [dump_reads|lia]). Qed.

Lemma ether_dump_some frame : is_Some (ether_dump frame) <-> (14 <= length frame)%nat.
Proof. etrans; [unfold ether_dump; dump_reads|unfold ETHER_ADDR_LEN; lia]. Qed.

Lemma arp_dump_some data : is_Some (arp_dump data) <-> (28 <= length data)%nat.
Proof. etrans; [unfold arp_dump; dump_reads|unfold ETHER_ADDR_LEN; lia]. Qed.

Lemma udp_dump_some data : is_Some (udp_dump data) <-> (8 <= length data)%nat.
Proof. etrans; [unfold udp_dump; dump_reads|lia]. Qed.

(** A read of a buffer in the stack's monad. *)
Lemma opt_bind {A B} (e : option A) (k : A -> C B) s :
  (let! a := opt OutOfBounds e in k a)%cmonad s = match e with Some a => k a s | None => Fault OutOfBounds end.
Proof. by destruct e. Qed.

Ltac run_reads := repeat (rewrite opt_bind; try match goal with H : ?e = Some _ |- context [match ?e with _ => _ end] => rewrite H end).

(** The dumps that the stack's state passing runs for their reads print exactly when
    those reads stay inside the packet. *)
Lemma ip_dump_some p data s : is_Some (ip_dump_text p data) <-> ip_dump data s = Ret tt s.
Proof.
  unfold ip_dump_text, ip_dump. split.
  - intros [t Ht]. repeat (apply bind_Some in Ht as (? & ? & Ht)).
    assert (10 + 2 <= length data)%nat by (apply rd16_some; by eexists).
    rewrite rdn_in by lia. by run_reads.
  - intros H. destruct (rd8 data 0) as [vhl|]; [|done]. rewrite ?opt_bind in H.
    pose proof (rdn_some data 0 12) as H12. destruct (rdn data 0 12); [|done]. rewrite ?opt_bind in H.
    assert (12 <= length data)%nat by (apply H12; by eexists).
    destruct (rd16 data 10) as [sum|]; [|done]. rewrite ?opt_bind in H.
    cbn [mbind option_bind]. destruct (cksum16 _ _ _); [|done]. rewrite ?opt_bind in H.
    destruct (rd32 data 12); [|done]. rewrite ?opt_bind in H. destruct (rd32 data 16); [|done].
    destruct (rd8_in data 1) as [? ->]; [lia|]. destruct (rd8_in data 8) as [? ->]; [lia|]. destruct (rd8_in data 9) as [? ->]; [lia|].
    destruct (rd16_in data 2) as [? ->]; [lia|]. destruct (rd16_in data 4) as [? ->]; [lia|]. destruct (rd16_in data 6) as [? ->]; [lia|].
    by eexists.
Qed.

Lemma icmp_dump_some data len s : is_Some (icmp_dump_text data len) <-> icmp_dump data len s = Ret tt s.
Proof.
  unfold icmp_dump_text, icmp_dump. split.
  - intros [t Ht]. repeat (apply bind_Some in Ht as (? & ? & Ht)).
    assert (8 <= length data)%nat by (eapply icmp_values_some; by eexists).
    rewrite !rdn_in by lia. by run_reads.
  - intros H. rewrite ?opt_bind in H. destruct (rdn data 0 2); [|done]. rewrite ?opt_bind in H.
    destruct (rd16 data 2) as [sum|]; [|done]. rewrite ?opt_bind in H.
    destruct (cksum16 _ _ _) as [c|] eqn:Ec; [|done]. rewrite ?opt_bind in H.
    pose proof (rdn_some data 4 4) as H8. destruct (rdn data 4 4); [|done].
    assert (8 <= length data)%nat by (apply H8; by eexists).
    destruct (rd8_in data 0) as [ty ->]; [lia|]. destruct (rd8_in data 1) as [? ->]; [lia|].
    cbn [mbind option_bind]. rewrite Ec. cbn [mbind option_bind].
    destruct (proj2 (icmp_values_some data ty)) as [v ->]; [lia|]. by eexists.
Qed.

(** The line of the two checksums of a message that carries its own checksum. *)
Definition icmp_sum_good (c : Z) : string :=
  (ANSI_COLOR_BOLD +:+ "        Sum: " +:+ ANSI_COLOR_RESET +:+ "0x" +:+ fmt_04x c +:+
   " (" +:+ ANSI_COLOR_GREEN +:+ "0x" +:+ fmt_04x c +:+ ANSI_COLOR_RESET +:+ ")" +:+ newline)%string.

(** The packet dumps print exactly when what they read lies inside the packet: a
    frame of at least 14 bytes, an ARP message of at least 28, a datagram of at least
    8; and the text of an IP or ICMP dump exists exactly when the reads that the
    stack makes for it while it sends or receives succeed. *)
Theorem packet_dumps_defined (p : ip_state) (data : list Z) (len : Z) (s : stack) :
  (is_Some (ether_dump data) <-> (14 <= length data)%nat) /\
  (is_Some (arp_dump data) <-> (28 <= length data)%nat) /\
  (is_Some (udp_dump data) <-> (8 <= length data)%nat) /\
  (is_Some (ip_dump_text p data) <-> ip_dump data s = Ret tt s) /\
  (is_Some (icmp_dump_text data len) <-> icmp_dump data len s = Ret tt s).
Proof.
  split; [apply ether_dump_some|]. split; [apply arp_dump_some|]. split; [apply udp_dump_some|].
  split; [apply ip_dump_some|apply icmp_dump_some].
Qed.

(** The dump of a message that [icmp_output] sends recomputes the stored checksum,
    with [cksum16(data, len, -sum)] and the sum's wrap at 32 bits, to the same value
    and prints it in green. *)
Theorem icmp_dump_checksum (ty code values : Z) (data : list Z) (c : Z) :
  Z.of_nat (length data) <= 65507 ->
  cksum16 (icmp_message ty code 0 values data) (8 + Z.of_nat (length data)) 0 = Some c ->
  exists rest, icmp_dump_text (icmp_message ty code c values data) (8 + Z.of_nat (length data))
    = Some (icmp_dump_type ty code +:+ icmp_sum_good (ntoh16 c) +:+ rest)%string.
Proof.
  intros Hl Hc. set (msg := icmp_message ty code c values data) in *.
  pose proof (icmp_message_fields ty code c values data []) as (F0 & F1 & F2 & _). rewrite app_nil_r in *. fold msg in F0, F1, F2.
  assert (cksum16 msg (8 + Z.of_nat (length data)) (- c) = Some c) as E.
  { pose proof (cksum16_recompute [ty; code] c (store32 values ++ data) [] eq_refl) as R. rewrite !app_nil_r in R.
    simpl length in R. rewrite length_app, length_store32 in R.
    replace (Z.of_nat (2 + 2 + (4 + length data))) with (8 + Z.of_nat (length data)) in R by lia.
    etrans; [apply R; lia|exact Hc]. }
  destruct (proj2 (icmp_values_some msg ty)) as [v Ev]; [unfold msg; rewrite length_icmp_message; lia|].
  exists v. unfold icmp_dump_text. rewrite F0, F1, F2. cbn [mbind option_bind]. rewrite E. cbn [mbind option_bind].
  rewrite Ev. cbn [mbind option_bind]. unfold icmp_dump_sum. by rewrite Z.eqb_refl.
Qed.

End Dumps.

(** C37. A hexadecimal dump of a buffer of at most 65536 bytes is always produced,
    has one line of 78 characters per sixteen bytes between its two rules, and the
    buffer can be read back from its hexadecimal column. *)
Theorem hexdump_roundtrip (data : list Z) :
  bytes data -> Z.of_nat (length data) <= 65536 ->
  exists text, hexdump data (Z.of_nat (length data)) = Some text /\ undump text = data /\
    Z.of_nat (String.length text) = 78 * (2 + (Z.of_nat (length data) + 15) / 16).
Proof.
  intros Hb Hl. remember (Z.of_nat (length data)) as n eqn:En. assert (0 <= n) as Hn0 by lia. set (k := Z.to_nat ((n + 15) / 16)).
  assert (16 * Z.of_nat k < 65536 + 16 /\ n <= 16 * Z.of_nat k /\ Z.of_nat k = (n + 15) / 16) as (Hk & Hn & Ek)
    by (unfold k; rewrite Z2Nat.id by (apply Z.div_pos; lia); pose proof (Z.div_mod (n + 15) 16 ltac:(lia));
        pose proof (Z.mod_pos_bound (n + 15) 16 ltac:(lia)); lia).
  unfold hexdump. rewrite s32_small by lia. fold k.
  destruct (hexdump_lines_in data n 0 k) as [t E]; [lia|lia|]. rewrite E. eexists. split; [done|].
  destruct (hexdump_lines_read data 0 k t hexdump_rule Hb ltac:(lia) ltac:(by rewrite <- En)) as [Lt Rt].
  assert (String.length (hexdump_rule +:+ t +:+ hexdump_rule) = line_width * (2 + k))%nat as L
    by (rewrite !string_length_app, Lt; change (String.length hexdump_rule) with line_width; lia).
  split; [|rewrite L; unfold line_width; lia].
  unfold undump. rewrite L, Nat.mul_comm, Nat.div_mul by done. replace (2 + k - 2)%nat with k by lia.
  rewrite string_drop_app, Rt, drop_0 by done. apply take_ge. lia.
Qed.

Lemma hexdump_roundtrip_witness :
  bytes [72; 0; 255] /\ exists text, hexdump [72; 0; 255] 3 = Some text /\ undump text = [72; 0; 255].
Proof.
  assert (bytes [72; 0; 255]) as Hb by (repeat constructor; lia). split; [done|].
  destruct (hexdump_roundtrip [72; 0; 255] Hb ltac:(simpl; lia)) as (t & E & U & _). by exists t.
Defined.

Lemma icmp_dump_checksum_witness :
  let _ := little_endian_machine in
  exists rest, icmp_dump_text (icmp_message ICMP_TYPE_ECHO 0 0xff96 0 [0x61]) 9
    = Some (icmp_dump_type ICMP_TYPE_ECHO 0 +:+ icmp_sum_good (ntoh16 0xff96) +:+ rest)%string.
Proof. intros m. apply (icmp_dump_checksum ICMP_TYPE_ECHO 0 0 [0x61] 0xff96); [simpl; lia|vm_compute; reflexivity]. Defined.
