(* ===== verification/Stack.v ===== *)
(** * The stack as a whole (src/lib/net.c, handler/interrupt.c)

    The functions behind the function pointers (the instances of [Dispatch] and
    [IpDispatch]), initialisation, start and shutdown, and the rounds of the thread
    that takes the signals.  What they establish and keep is in Softirq.v and
    Boot.v. *)

From stdpp Require Import base numbers list option gmap strings.
From Stdlib Require Import ZArith Lia.
From S2P Require Import Prelude Util CLib Queue State Sync Net Ether Drivers Arp Ip Icmp Udp Sock.
Open Scope Z_scope.
Open Scope cmonad_scope.

Section Stack.
Context {Mc : Machine}.

(** ** Function pointers *)

#[export] Instance stack_ip_dispatch : IpDispatch := fun h data len src dst iface =>
  match h with
  | fn_icmp_input => icmp_input data len src dst iface
  | fn_udp_input => udp_input data len src dst iface
  end.

#[export] Instance stack_dispatch : Dispatch := {|
  call_protocol h data len d :=
    match h with
    | fn_arp_input => arp_input data len d
    | fn_ip_input => ip_input data len d
    end;
  call_timer t := match t with fn_arp_timer => arp_timer end;
  call_event e := match e with fn_udp_event_handler => event_handler end;
|}.

Definition call_irq (fuel : nat) (e : irq_entry) : C (option Z) :=
  match irq_handler e with
  | fn_ether_tap_isr => ether_tap_isr fuel (irq_num e) (irq_dev e)
  | fn_ether_pcap_isr => ether_pcap_isr fuel (irq_num e) (irq_dev e)
  end.

(** ** Initialisation, start, shutdown *)

Definition network_init : C Z :=
  let! r := intr_init in
  if r =? -1 then ret (-1)
  else
    let! r := arp_init in
    if r =? -1 then ret (-1)
    else
      let! r := ip_initialize in
      if r =? -1 then ret (-1)
      else
        let! r := icmp_init in
        if r =? -1 then ret (-1)
        else
          let! r := udp_init in
          if r =? -1 then ret (-1) else ret 0.

Fixpoint open_all (devs : list dev_id) : C unit :=
  match devs with
  | [] => ret tt
  | d :: rest => network_device_open d;; open_all rest
  end.

Fixpoint close_all (devs : list dev_id) : C unit :=
  match devs with
  | [] => ret tt
  | d :: rest => network_device_close d;; close_all rest
  end.

Definition network_run : C Z :=
  let! r := intr_run in
  if r =? -1 then ret (-1)
  else
    let! n := gets st_net in
    open_all (n_devices n);; ret 0.

Definition network_shutdown : C unit :=
  let! n := gets st_net in close_all (n_devices n).

(** ** The interrupt thread *)

(** The loop over [irq_vec] for signal [sig]; [false] when the fuel of a service
    routine runs out. *)
Fixpoint irq_loop (fuel : nat) (sig : Z) (entries : list irq_entry) : C bool :=
  match entries with
  | [] => ret true
  | e :: rest =>
      if irq_num e =? sig then
        let! r := call_irq fuel e in
        match r with
        | Some _ => irq_loop fuel sig rest
        | None => ret false
        end
      else irq_loop fuel sig rest
  end.

(** The [switch] of [intr_thread] on the signal [sigwait] returned. *)
Definition intr_dispatch (fuel : nat) (sig : Z) : C bool :=
  if sig =? SIGUSR1 then network_protocol_handler fuel
  else if sig =? SIGUSR2 then network_event_handler;; ret true
  else if sig =? SIGALRM then network_timer_handler;; ret true
  else let! i := gets st_intr in irq_loop fuel sig (irq_vec i).

(** [intr_thread]: the timer, then the loop.  [waits] is what the next calls of
    [sigwait] give, an error number (0 for success) and the signal; the thread ends when
    the timer cannot be set up or [sigwait] fails, and waits on otherwise. *)
Inductive intr_outcome := IntrReturn | IntrWaiting | IntrNoFuel.

Fixpoint intr_loop (fuel : nat) (waits : list (Z * Z)) : C intr_outcome :=
  match waits with
  | [] => ret IntrWaiting
  | (err, sig) :: waits =>
      if truthy err then ret IntrReturn
      else
        let! ok := intr_dispatch fuel sig in
        if (ok : bool) then intr_loop fuel waits else ret IntrNoFuel
  end.

Definition intr_thread (fuel : nat) (waits : list (Z * Z)) : C intr_outcome :=
  let! r := intr_timer_setup in
  if r =? -1 then ret IntrReturn else intr_loop fuel waits.

(** One round of its loop: [sigwait] takes some pending signal of the mask. *)
Inductive intr_thread_step : stack -> stack -> Prop :=
| intr_round s s' fuel sig :
    sig ∈ w_pending (st_world s) -> sig ∈ intr_sigmask (st_intr s) ->
    intr_dispatch fuel sig
      (set_world (fun w => set_pending (filter (fun x => x <> sig) (w_pending w)) w) s) = Ret true s' ->
    intr_thread_step s s'.

End Stack.
