(* ===== verification/Softirq.v ===== *)
(** * The soft interrupt (network_protocol_handler in src/lib/net.c)

    The handlers of queued packets queue packets themselves, on the loopback
    device: an ARP request and an ICMP echo request are answered into the queue
    that is being emptied.  This file bounds what they queue, and shows from it that
    [network_protocol_handler] ends, with every queue empty, and does not fault. *)

From stdpp Require Import base numbers list option gmap strings.
From Stdlib Require Import ZArith Lia.
From S2P Require Import Prelude Util CLib Queue State Sync Net Ether Drivers Arp Ip Icmp Udp Sock Stack.
Open Scope Z_scope.
Open Scope cmonad_scope.

(** ** What a computation queues *)

(** A packet at the end of the queue of its type, if that is registered. *)
Definition enqueue (ty : Z) (e : network_protocol_queue_entry) (ps : list network_protocol) : list network_protocol :=
  match list_find (fun p => np_type p = ty) ps with
  | Some (i, p) => alter (with_queue (np_queue p ++ [e])) i ps
  | None => ps
  end.

(** From [s] to [s'] the devices stay, and at most one packet was queued, one for
    which [P] holds. *)
Definition queues (P : Z -> network_protocol_queue_entry -> Prop) (s s' : stack) : Prop :=
  n_devs (st_net s') = n_devs (st_net s) /\
  (n_protocols (st_net s') = n_protocols (st_net s) \/
   exists ty e, n_protocols (st_net s') = enqueue ty e (n_protocols (st_net s)) /\ P ty e).

(** No packet was queued. *)
Definition queues_nothing (s s' : stack) : Prop :=
  n_devs (st_net s') = n_devs (st_net s) /\ n_protocols (st_net s') = n_protocols (st_net s).

Lemma queues_nothing_refl s : queues_nothing s s.
Proof. done. Qed.

Lemma queues_nothing_trans s s1 s2 : queues_nothing s s1 -> queues_nothing s1 s2 -> queues_nothing s s2.
Proof. intros [A B] [A' B']. split; congruence. Qed.

Lemma queues_intro P s s' : queues_nothing s s' -> queues P s s'.
Proof. intros [A B]. split; auto. Qed.

Lemma queues_trans P s s1 s2 : queues_nothing s s1 -> queues P s1 s2 -> queues P s s2.
Proof. intros [A B] [A' B']. split; [congruence|]. by rewrite <- B. Qed.

Lemma queues_trans_r P s s1 s2 : queues P s s1 -> queues_nothing s1 s2 -> queues P s s2.
Proof. intros [A B] [A' B']. split; [congruence|]. by rewrite B'. Qed.

Lemma queues_mono (P Q : Z -> network_protocol_queue_entry -> Prop) s s' :
  (forall ty e, P ty e -> Q ty e) -> queues P s s' -> queues Q s s'.
Proof. intros H [A [B|(ty & e & B & C)]]; split; auto. right. eauto. Qed.

(** A computation that leaves the whole of net.c's state alone queues nothing. *)
Lemma pw_net {A} (m : C A) s : Preserves st_net m -> pw m s (fun _ s' => queues_nothing s s').
Proof. intros H. eapply pw_mono; [by apply (pw_preserves st_net)|]. intros a s' E. by split; rewrite E. Qed.

(** Sequencing after such a computation. *)
Lemma pw_net_bind {A B} (m : C A) (k : A -> C B) s (R : stack -> stack -> Prop) :
  (forall s1 s2, queues_nothing s s1 -> R s1 s2 -> R s s2) ->
  Preserves st_net m -> (forall a s1, queues_nothing s s1 -> pw (k a) s1 (fun _ s2 => R s1 s2)) ->
  pw (bind m k) s (fun _ s2 => R s s2).
Proof.
  intros T Hm Hk. apply pw_bind. eapply pw_mono; [by apply pw_net|]. intros a s1 N. simpl.
  eapply pw_mono; [by apply Hk|]. intros b s2. by apply T.
Qed.

(** What the modules below the queues need, as a function of the state. *)
Lemma udp_ready_ext s s' :
  udp_ready s -> st_udp s' = st_udp s -> st_held s' = st_held s -> st_arp s' = st_arp s ->
  ip_routes (st_ip s') = ip_routes (st_ip s) -> n_devs (st_net s') = n_devs (st_net s) ->
  n_ifs (st_net s') = n_ifs (st_net s) -> udp_ready s'.
Proof.
  intros (((N & W & Ha) & Hid & Hr & Hdim) & Hu & Wp) E1 E2 E3 E4 E5 E6.
  split_and!; [split_and!; [split_and!|..]|..]; rewrite ?E1, ?E2, ?E3, ?E4, ?E5; try done.
  - by eapply net_wf_ext.
  - eapply Forall_impl; [exact Hr|]. intros r (f & d & dev & ? & ? & ? & ?). exists f, d, dev. by rewrite E6, E5.
Qed.

Section NetFrames.
Context {Mc : Machine}.

#[export] Instance mutex_lock_net m : Preserves st_net (mutex_lock m).
Proof. unfold mutex_lock. solve_preserves. Qed.

#[export] Instance mutex_unlock_net m : Preserves st_net (mutex_unlock m).
Proof. unfold mutex_unlock. solve_preserves. Qed.

#[export] Instance memory_alloc_net : Preserves st_net memory_alloc.
Proof. by apply memory_alloc_frame. Qed.

#[export] Instance gettimeofday_net : Preserves st_net gettimeofday.
Proof. by apply gettimeofday_frame. Qed.

#[export] Instance get_iface_net i : Preserves st_net (get_iface i).
Proof. unfold get_iface. solve_preserves. Qed.

#[export] Instance iface_dev_net i : Preserves st_net (iface_dev i).
Proof. unfold iface_dev. solve_preserves. Qed.

#[export] Instance get_dev_net d : Preserves st_net (get_dev d).
Proof. unfold get_dev. solve_preserves. Qed.

#[export] Instance find_interface_net l family : Preserves st_net (find_interface l family).
Proof. induction l; simpl; solve_preserves. Qed.

#[export] Instance get_interface_net d family : Preserves st_net (network_device_get_interface d family).
Proof. unfold network_device_get_interface. solve_preserves. Qed.

#[export] Instance set_cache_net i f : Preserves st_net (set_cache i f).
Proof. unfold set_cache. solve_preserves. Qed.

#[export] Instance arp_cache_update_net pa ha : Preserves st_net (arp_cache_update pa ha).
Proof. unfold arp_cache_update. solve_preserves. Qed.

#[export] Instance arp_cache_insert_net pa ha : Preserves st_net (arp_cache_insert pa ha).
Proof. unfold arp_cache_insert. solve_preserves. Qed.

#[export] Instance arp_input_update_net spa sha : Preserves st_net (arp_input_update spa sha).
Proof. unfold arp_input_update. solve_preserves. Qed.

#[export] Instance arp_input_insert_net spa sha : Preserves st_net (arp_input_insert spa sha).
Proof. unfold arp_input_insert. solve_preserves. Qed.

#[export] Instance ip_generate_id_net : Preserves st_net ip_generate_id.
Proof. unfold ip_generate_id. solve_preserves. Qed.

#[export] Instance ip_dump_net data : Preserves st_net (ip_dump data).
Proof. unfold ip_dump. solve_preserves. Qed.

End NetFrames.

(** ** Output *)

Section QueueEffects.
Context {Mc : Machine}.

(** Output queues at most the packet itself, on a loopback device. *)
Definition looped (d : dev_id) (ty : Z) (data : list Z) (len : Z) (n : net_state) (ty' : Z) (e : network_protocol_queue_entry) : Prop :=
  ty' = ty /\ nqe_dev e = d /\ nqe_len e = len /\ rdn data 0 (Z.to_nat len) = Some (nqe_data e) /\
  exists dev, n_devs n !! d = Some dev /\ dev_ops dev = Some loopback_ops.

Lemma input_queues ty data len d s :
  pw (network_input_handler ty data len d) s (fun _ s' => queues (fun ty' e =>
    ty' = ty /\ nqe_dev e = d /\ nqe_len e = len /\ rdn data 0 (Z.to_nat len) = Some (nqe_data e)) s s').
Proof.
  unfold network_input_handler. pw_steps.
  destruct (list_find (fun p => np_type p = ty) (n_protocols (st_net s))) as [[i proto]|] eqn:E;
    [|by apply pw_ret, queues_intro].
  apply pw_net_bind; [by intros; eapply queues_trans|apply _|]. intros ok s1 N1.
  destruct ok; cbn [negb]; [|by apply pw_ret, queues_intro].
  apply pw_bind, pw_opt. intros payload Ep.
  apply pw_bind. unfold queue_push_c. apply pw_bind. eapply pw_mono; [apply pw_net, _|].
  intros ok s2 N2. simpl. destruct ok; pw_steps; [|by apply queues_intro].
  destruct N1 as [D1 P1], N2 as [D2 P2].
  assert (forall s3, n_devs (st_net s3) = n_devs (st_net s2) ->
    n_protocols (st_net s3) = alter (with_queue (fifo_push (np_queue proto) (NetQueueEntry d len payload))) i (n_protocols (st_net s2)) ->
    queues (fun ty' e => ty' = ty /\ nqe_dev e = d /\ nqe_len e = len /\ rdn data 0 (Z.to_nat len) = Some (nqe_data e)) s1 s3) as K.
  { intros s3 D3 P3. split; [congruence|]. right. exists ty, (NetQueueEntry d len payload). split; [|done].
    rewrite P3, P2. unfold enqueue. by rewrite P1, E. }
  unfold set_queue, raise_softirq, raise_signal. pw_steps. by apply K.
Qed.

Lemma output_queues d ty data len dst s :
  pw (network_device_output d ty data len dst) s (fun _ s' => queues (looped d ty data len (st_net s)) s s').
Proof.
  unfold network_device_output, get_dev. pw_steps.
  destruct (negb _); [by apply pw_ret, queues_intro|]. destruct (len >? _); [by apply pw_ret, queues_intro|].
  apply pw_bind, pw_opt. intros o Eo. apply pw_bind, pw_opt. intros transmit Et. apply pw_bind.
  destruct o; injection Et as <-.
  - unfold loopback_transmit. apply pw_bind. eapply pw_mono; [apply input_queues|]. intros r s' Q.
    assert (queues (looped d ty data len (st_net s)) s s') as Q'
      by (eapply queues_mono; [|exact Q]; unfold looped; naive_solver).
    clear Q.
    pw_steps. case_match; by apply pw_ret.
  - eapply pw_mono; [apply (pw_preserves st_net), ether_write_frame; done|]. intros r s' E'.
    case_match; apply pw_ret, queues_intro; by split; rewrite E'.
  - eapply pw_mono; [apply (pw_preserves st_net), ether_write_frame; done|]. intros r s' E'.
    case_match; apply pw_ret, queues_intro; by split; rewrite E'.
Qed.

End QueueEffects.

(** ** Queued packets *)

Section QueuedPackets.
Context {Mc : Machine}.

(** A packet whose handler may answer: an ARP request, or a datagram whose payload
    begins as an ICMP echo request does. *)
Definition noisy (ty : Z) (data : list Z) : bool :=
  if ty =? NETWORK_PROTOCOL_TYPE_ARP then
    match rd16 data 6 with Some op => ntoh16 op =? ARP_OP_REQUEST | None => false end
  else
    match rd8 data 0 with
    | Some vhl =>
        match rd8 data (Z.to_nat (4 * (vhl mod 16))) with Some t => t =? ICMP_TYPE_ECHO | None => false end
    | None => false
    end.

(** A datagram whose length fields are as [ip_input] takes them for granted. *)
Definition ip_sane (data : list Z) : Prop :=
  forall vhl tot, rd8 data 0 = Some vhl -> rd16 data 2 = Some tot ->
    20 <= 4 * (vhl mod 16) <= ntoh16 tot /\ ntoh16 tot <= 65535.

(** A packet in the queue of type [ty]: of a device there is, true to its length,
    and sane if it is a datagram. *)
Definition queued_ok (n : net_state) (ty : Z) (e : network_protocol_queue_entry) : Prop :=
  is_Some (n_devs n !! nqe_dev e) /\ nqe_len e = Z.of_nat (length (nqe_data e)) /\
  (ty = NETWORK_PROTOCOL_TYPE_IP -> ip_sane (nqe_data e)).

(** A packet of type [ty] that gets no answer. *)
Definition quiet (ty : Z) (n : net_state) (ty' : Z) (e : network_protocol_queue_entry) : Prop :=
  ty' = ty /\ queued_ok n ty e /\ noisy ty (nqe_data e) = false.

(** Links that need ARP are not loopback devices. *)
Definition arp_links (n : net_state) : Prop :=
  map_Forall (fun _ dev => truthy (Z.land (dev_flags dev) NETWORK_DEVICE_FLAG_NEED_ARP) = true ->
    dev_ops dev <> Some loopback_ops) (n_devs n).

Lemma looped_whole d ty data n ty' e :
  looped d ty data (Z.of_nat (length data)) n ty' e ->
  ty' = ty /\ is_Some (n_devs n !! nqe_dev e) /\ nqe_len e = Z.of_nat (length (nqe_data e)) /\ nqe_data e = data.
Proof.
  intros (-> & -> & -> & E & dev & Hd & _). rewrite Nat2Z.id, rdn_in in E by lia.
  rewrite drop_0, take_ge in E by done. injection E as <-. split_and!; [done|by eexists|done|done].
Qed.

Lemma arp_message_queues d op sha spa tha tpa dst s :
  length sha = 6%nat -> length tha = 6%nat -> in_u16 op -> op <> ARP_OP_REQUEST ->
  pw (network_device_output d ETHER_TYPE_ARP (arp_message op sha spa tha tpa) (Z.of_nat arp_ether_size) dst) s
    (fun _ s' => queues (quiet NETWORK_PROTOCOL_TYPE_ARP (st_net s)) s s').
Proof.
  intros H1 H2 Hr Hop.
  replace (Z.of_nat arp_ether_size) with (Z.of_nat (length (arp_message op sha spa tha tpa)))
    by (by rewrite length_arp_message).
  eapply pw_mono; [apply output_queues|]. intros r s' Q. eapply queues_mono; [|exact Q].
  intros ty e (-> & Hd & Hl & E)%looped_whole. split; [done|]. split; [split_and!; done|].
  destruct (arp_message_fields op sha spa tha tpa [] H1 H2) as (_ & _ & _ & _ & F & _). rewrite app_nil_r in F.
  unfold noisy. simpl. rewrite E, F. rewrite ntoh16_hton16 by done. lia.
Qed.

Lemma arp_reply_queues i tha pa dst s :
  pw (arp_reply i tha pa dst) s (fun _ s' => queues (quiet NETWORK_PROTOCOL_TYPE_ARP (st_net s)) s s').
Proof.
  unfold arp_reply, iface_dev, get_iface, get_dev. pw_steps.
  apply arp_message_queues; [by eapply rdn_length|by eapply rdn_length|unfold in_u16, ARP_OP_REPLY; lia|done].
Qed.

(** What the handler of a packet may queue: at most one packet, one of its own type
    that gets no answer, and none at all if it is not noisy. *)
Definition answers (ty : Z) (data : list Z) (s s' : stack) : Prop :=
  queues_nothing s s' \/ (noisy ty data = true /\ queues (quiet ty (st_net s)) s s').

Lemma quiet_ext ty n n' ty' e : n_devs n' = n_devs n -> quiet ty n ty' e -> quiet ty n' ty' e.
Proof. unfold quiet, queued_ok. by intros ->. Qed.

Lemma quiet_trans ty s s1 s2 :
  queues_nothing s s1 -> queues (quiet ty (st_net s1)) s1 s2 -> queues (quiet ty (st_net s)) s s2.
Proof.
  intros N Q. eapply queues_trans; [exact N|]. eapply queues_mono; [|exact Q].
  intros ty' e. apply quiet_ext. by destruct N.
Qed.

Lemma answers_trans ty data s s1 s2 : queues_nothing s s1 -> answers ty data s1 s2 -> answers ty data s s2.
Proof.
  intros N [N'|[H Q]]; [left; by eapply queues_nothing_trans|]. right. split; [done|]. by eapply quiet_trans.
Qed.

Lemma answers_nothing ty data s : answers ty data s s.
Proof. by left. Qed.

(** Sequencing of the reads of a buffer. *)
Lemma pw_opt_bind {A B} e (o : option A) (k : A -> C B) s (Q : B -> stack -> Prop) :
  (forall a, o = Some a -> pw (k a) s Q) -> pw (bind (opt e o) k) s Q.
Proof. intros H. by apply pw_bind, pw_opt. Qed.

Lemma arp_input_queues data len d s :
  pw (arp_input data len d) s (fun _ s' => answers NETWORK_PROTOCOL_TYPE_ARP data s s').
Proof.
  unfold arp_input. case_match; [by apply pw_ret, answers_nothing|].
  do 2 (apply pw_opt_bind; intros). case_match; [by apply pw_ret, answers_nothing|].
  do 2 (apply pw_opt_bind; intros). case_match; [by apply pw_ret, answers_nothing|].
  unfold arp_input_merge. do 2 (apply pw_opt_bind; intros).
  apply pw_net_bind; [by intros; eapply answers_trans|apply _|]. intros merge s1 _.
  apply pw_net_bind; [by intros; eapply answers_trans|apply _|]. intros [i|] s2 _; [|by apply pw_ret, answers_nothing].
  apply pw_net_bind; [by intros; eapply answers_trans|apply _|]. intros f s3 _.
  case_match; [|by apply pw_ret, answers_nothing].
  apply pw_net_bind; [by intros; eapply answers_trans|destruct merge; apply _|]. intros _ s4 _.
  apply pw_opt_bind. intros op Eop. destruct (ntoh16 op =? ARP_OP_REQUEST) eqn:Er; [|by apply pw_ret, answers_nothing].
  apply pw_bind. eapply pw_mono; [apply arp_reply_queues|]. intros r s5 Q. apply pw_ret. right. split; [|done].
  unfold noisy. simpl. by rewrite Eop.
Qed.

End QueuedPackets.

(** ** Datagrams *)

Section IpQueues.
Context {Mc : Machine}.

(** Sequencing after a computation that leaves net.c's state alone. *)
Lemma pw_same_bind {A B} (m : C A) (k : A -> C B) s (Q : B -> stack -> Prop) :
  Preserves st_net m -> (forall a s1, st_net s1 = st_net s -> pw (k a) s1 Q) -> pw (bind m k) s Q.
Proof. intros Hm Hk. apply pw_bind. eapply pw_mono; [by apply (pw_preserves st_net)|]. exact Hk. Qed.

(** Output on a device that is no loopback device queues nothing. *)
Lemma output_silent d dev ty data len dst s :
  n_devs (st_net s) !! d = Some dev -> dev_ops dev <> Some loopback_ops ->
  pw (network_device_output d ty data len dst) s (fun _ s' => queues_nothing s s').
Proof.
  intros Hd Ho. eapply pw_mono; [apply output_queues|]. intros r s' [Dv [Pr|(ty' & e & _ & L)]]; [done|].
  destruct L as (_ & _ & _ & _ & dev' & Hd' & Ho'). congruence.
Qed.

Lemma arp_request_silent i pa s f d dev :
  n_ifs (st_net s) !! i = Some f -> if_dev f = Some d -> n_devs (st_net s) !! d = Some dev ->
  dev_ops dev <> Some loopback_ops ->
  pw (arp_request i pa) s (fun _ s' => queues_nothing s s').
Proof.
  intros Hf Hfd Hd Ho. unfold arp_request, iface_dev, get_iface, get_dev.
  pw_steps. simplify_eq. by eapply output_silent.
Qed.

Lemma arp_resolve_silent i pa ha s f d dev :
  n_ifs (st_net s) !! i = Some f -> if_dev f = Some d -> n_devs (st_net s) !! d = Some dev ->
  dev_ops dev <> Some loopback_ops ->
  pw (arp_resolve i pa ha) s (fun _ s' => queues_nothing s s').
Proof.
  intros Hf Hfd Hd Ho.
  assert (forall s1 {A} (k : C A), st_net s1 = st_net s -> Preserves st_net k ->
    pw (bind (arp_request i pa) (fun _ => k)) s1 (fun _ s' => queues_nothing s s')) as Req.
  { intros s1 A k E Hk. apply pw_bind. eapply pw_mono; [eapply arp_request_silent; by rewrite ?E|].
    intros r s2 N. eapply pw_mono; [by apply pw_net|]. intros a s3 N'. eapply queues_nothing_trans; [|exact N'].
    destruct N as [N1 N2]. split; congruence. }
  assert (forall s1 {A} (k : C A), st_net s1 = st_net s -> Preserves st_net k ->
    pw k s1 (fun _ s' => queues_nothing s s')) as Fin.
  { intros s1 A k E Hk. eapply pw_mono; [by apply pw_net|]. intros a s2 [N1 N2]. split; congruence. }
  unfold arp_resolve.
  apply pw_same_bind; [apply _|]. intros f' s1 E1. apply pw_same_bind; [apply _|]. intros d' s2 E2.
  apply pw_same_bind; [apply _|]. intros dev' s3 E3.
  assert (st_net s3 = st_net s) as E by congruence.
  destruct (negb _); [by apply Fin; [|apply _]|]. destruct (negb _); [by apply Fin; [|apply _]|].
  apply pw_same_bind; [apply _|]. intros _ s4 E4. apply pw_bind, pw_gets.
  assert (st_net s4 = st_net s) as E' by congruence.
  destruct (arp_cache_select _ _) as [k|].
  - apply pw_opt_bind. intros e _. case_match; [apply Req; [done|solve_preserves]|].
    apply pw_opt_bind. intros h _. apply Fin; [done|solve_preserves].
  - destruct (arp_cache_alloc _) as [k|]; [|apply Fin; [done|solve_preserves]].
    apply pw_same_bind; [apply _|]. intros _ s5 E5. apply pw_same_bind; [apply _|]. intros now s6 E6.
    apply pw_same_bind; [apply _|]. intros _ s7 E7. apply Req; [congruence|solve_preserves].
Qed.

(** A packet of type IP that is [buf], in the queue. *)
Definition datagram_queued (P : list Z -> Prop) (n : net_state) (ty : Z) (e : network_protocol_queue_entry) : Prop :=
  ty = NETWORK_PROTOCOL_TYPE_IP /\ queued_ok n ty e /\ P (nqe_data e).

Lemma datagram_queued_trans P s s1 s2 :
  queues_nothing s s1 -> queues (datagram_queued P (st_net s1)) s1 s2 -> queues (datagram_queued P (st_net s)) s s2.
Proof.
  intros N Q. eapply queues_trans; [exact N|]. eapply queues_mono; [|exact Q].
  intros ty e. unfold datagram_queued, queued_ok. destruct N as [-> _]. done.
Qed.

(** IP output queues at most the datagram, on a loopback device. *)
Lemma ip_output_device_queues i buf dst s :
  arp_links (st_net s) -> ip_sane buf ->
  pw (ip_output_device i buf (Z.of_nat (length buf)) dst) s
    (fun _ s' => queues (datagram_queued (eq buf) (st_net s)) s s').
Proof.
  intros Links Sane. unfold ip_output_device, iface_dev, get_iface, get_dev. pw_steps.
  rename a into f, a0 into f0, a1 into d, a2 into dev. rewrite E in E0. injection E0 as <-.
  destruct (truthy _) eqn:Hneed.
  - pose proof (Links d dev E2 Hneed) as Ho. case_match.
    + pw_steps. eapply pw_mono; [by eapply output_silent|]. intros r s'. apply queues_intro.
    + apply pw_bind. eapply pw_mono; [by eapply arp_resolve_silent|]. intros [r hw] s1 N1.
      case_match; [by apply pw_ret, queues_intro|].
      eapply pw_mono; [eapply output_silent; [by rewrite (proj1 N1)|done]|]. intros r' s2 N2.
      apply queues_intro. by eapply queues_nothing_trans.
  - eapply pw_mono; [apply output_queues|]. intros r s' Q. eapply queues_mono; [|exact Q].
    intros ty e (-> & Hd & Hl & Ee)%looped_whole. split; [done|]. rewrite Ee. split; [|done].
    split_and!; [done|congruence|by rewrite Ee].
Qed.

(** A datagram made by [ip_output_core] is sane, and noisy only if its payload is. *)
Lemma ip_header_quiet id protocol sum src dst (payload : list Z) :
  Z.of_nat (length payload) <= 65515 ->
  let buf := ip_header (20 + Z.of_nat (length payload)) id 0 protocol sum src dst ++ payload in
  ip_sane buf /\ (rd8 payload 0 <> Some ICMP_TYPE_ECHO -> noisy NETWORK_PROTOCOL_TYPE_IP buf = false).
Proof.
  intros Hl buf.
  destruct (ip_header_fields (20 + Z.of_nat (length payload)) id 0 protocol sum src dst payload) as (F0 & F2 & _).
  fold buf in F0, F2. split.
  - intros vhl tot Ev Et. rewrite F0 in Ev. rewrite F2 in Et. injection Ev as <-. injection Et as <-.
    rewrite ntoh16_hton16 by (unfold in_u16; lia). change (4 * (0x45 mod 16)) with 20. lia.
  - intros Hp. unfold noisy. change (NETWORK_PROTOCOL_TYPE_IP =? NETWORK_PROTOCOL_TYPE_ARP) with false. cbn iota.
    rewrite F0. change (Z.to_nat (4 * (0x45 mod 16))) with 20%nat.
    assert (rd8 buf 20 = rd8 payload 0) as ->
      by (unfold rd8, buf; rewrite lookup_app_r by (by rewrite length_ip_header); by rewrite length_ip_header).
    destruct (rd8 payload 0) as [t|]; [|done]. destruct (Z.eqb_spec t ICMP_TYPE_ECHO); congruence.
Qed.

Lemma ip_send_packet_queues protocol msg src dst s :
  arp_links (st_net s) ->
  pw (ip_send_packet protocol msg (Z.of_nat (length msg)) src dst) s
    (fun _ s' => queues (datagram_queued (fun buf =>
       rd8 msg 0 <> Some ICMP_TYPE_ECHO -> noisy NETWORK_PROTOCOL_TYPE_IP buf = false) (st_net s)) s s').
Proof.
  intros Links. set (P := fun buf => _ -> _). unfold ip_send_packet. case_match; [by apply pw_ret, queues_intro|].
  apply pw_bind, pw_gets. destruct (ip_route_lookup _ _) as [route|]; [|by apply pw_ret, queues_intro].
  apply pw_same_bind; [apply _|]. intros f s1 E1.
  assert (forall s2 A (a : A), st_net s2 = st_net s -> pw (ret a) s2
    (fun _ s' => queues (datagram_queued P (st_net s)) s s')) as Fin.
  { intros s2 A a E. apply pw_ret, queues_intro. by split; rewrite E. }
  case_match; [by apply Fin|].
  apply pw_same_bind; [apply _|]. intros d s2 E2. apply pw_same_bind; [apply _|]. intros dev s3 E3.
  case_match; [apply Fin; congruence|]. apply pw_same_bind; [apply _|]. intros id s4 E4.
  assert (st_net s4 = st_net s) as E by congruence. clear s1 E1 s2 E2 s3 E3 E4.
  apply pw_bind. unfold ip_output_core. change MIN_IP_HEADER_SIZE with 20.
  apply pw_opt_bind. intros sum _. case_match; [apply pw_throw|].
  assert (20 + Z.of_nat (length msg) <= 65535) as Hl by (unfold MAX_IP_PACKET_SIZE in *; lia).
  apply pw_opt_bind. intros payload Ep. rewrite Nat2Z.id, rdn_in, drop_0, take_ge in Ep by (rewrite ?drop_0; lia). injection Ep as <-.
  apply pw_same_bind; [apply _|]. intros d' s1 E1. apply pw_same_bind; [apply _|]. intros dev' s2 E2.
  apply pw_same_bind; [apply _|]. intros _ s3 E3.
  rewrite u16_small by (unfold in_u16; lia).
  destruct (ip_header_quiet id protocol sum (if_unicast f) dst msg ltac:(lia)) as [Sane Quiet].
  set (buf := ip_header _ _ _ _ _ _ _ ++ msg) in *.
  replace (20 + Z.of_nat (length msg)) with (Z.of_nat (length buf))
    by (unfold buf; rewrite length_app, length_ip_header; lia).
  assert (st_net s3 = st_net s) as E' by congruence.
  eapply pw_mono; [apply ip_output_device_queues; [by rewrite E'|done]|].
  intros r s5 Q. assert (queues (datagram_queued P (st_net s3)) s3 s5) as Q'
    by (eapply queues_mono; [|exact Q]; intros ty e (-> & Hok & Eb); split; [done|]; split; [done|]; unfold P; by rewrite <- Eb).
  case_match; apply pw_ret; (eapply datagram_queued_trans; [|exact Q']; by split; rewrite E').
Qed.

Lemma icmp_input_queues data len src dst i s :
  arp_links (st_net s) ->
  pw (icmp_input data len src dst i) s (fun _ s' => queues_nothing s s' \/
    (rd8 data 0 = Some ICMP_TYPE_ECHO /\ queues (quiet NETWORK_PROTOCOL_TYPE_IP (st_net s)) s s')).
Proof.
  intros Links. unfold icmp_input, ICMP_HDR_SIZE.
  assert (forall s1, st_net s1 = st_net s -> queues_nothing s s1) as Fin by (intros s1 E; by split; rewrite E).
  destruct (Z.ltb_spec len 8); [by apply pw_ret; left; apply Fin|].
  apply pw_opt_bind. intros sum _. case_match.
  { apply pw_opt_bind. intros hsum _. apply pw_opt_bind. intros _ _. by apply pw_ret; left; apply Fin. }
  apply pw_same_bind; [apply _|]. intros f s1 E1.
  apply pw_same_bind; [unfold icmp_dump; solve_preserves|]. intros _ s2 E2.
  apply pw_opt_bind. intros ty Et. destruct (Z.eqb_spec ty ICMP_TYPE_ECHO) as [->|];
    [|apply pw_ret; left; apply Fin; congruence].
  apply pw_opt_bind. intros code _. apply pw_opt_bind. intros values _.
  set (dst' := if negb _ then _ else _). clearbody dst'.
  apply pw_bind. unfold icmp_output, ICMP_HDR_SIZE. case_match; [apply pw_throw|].
  apply pw_opt_bind. intros payload Ep. apply pw_opt_bind. intros c _.
  apply pw_same_bind; [unfold icmp_dump; solve_preserves|]. intros _ s3 E3.
  replace (8 + (len - 8)) with (Z.of_nat (length (icmp_message ICMP_TYPE_ECHOREPLY code c values payload)))
    by (rewrite length_icmp_message, (rdn_length _ _ _ _ Ep); lia).
  assert (st_net s3 = st_net s) as E by congruence.
  eapply pw_mono; [apply ip_send_packet_queues; by rewrite E|].
  intros r s4 Q. apply pw_ret. right. split; [done|]. eapply quiet_trans; [by apply Fin|].
  eapply queues_mono; [|exact Q]. intros ty e (-> & Hok & Hq). split_and!; [done|done|]. by apply Hq.
Qed.

#[export] Instance udp_input_net data len src dst i : Preserves st_net (udp_input data len src dst i).
Proof.
  unfold udp_input, udp_input_deliver, get_pcb, set_pcb, queue_push_c, sched_wakeup, ctx_set.
  solve_preserves.
Qed.

Lemma ip_input_queues data len d s :
  net_wf (st_net s) -> is_Some (n_devs (st_net s) !! d) -> 0 <= len <= Z.of_nat (length data) -> arp_links (st_net s) ->
  pw (ip_input data len d) s (fun _ s' => answers NETWORK_PROTOCOL_TYPE_IP data s s').
Proof.
  intros N [dev Hd] Hlen Links.
  destruct (ip_input_cases data len d s dev N Hd Hlen)
    as [E|(vhl & tot & off & proto & src & dst & i & f & Ev & _ & _ & _ & _ & _ & _ & _ & _ & _ & _ & _ & _ & _ & E)];
    unfold pw; rewrite E; [by left|].
  unfold ip_deliver. destruct (handler_of s proto) as [h|]; [|by left]. clear E.
  destruct h; simpl.
  - eapply (pw_mono _ s); [by apply icmp_input_queues|]. intros a s' [Nn|[H8 Q]]; [by left|]. right. split; [|done].
    unfold noisy. change (NETWORK_PROTOCOL_TYPE_IP =? NETWORK_PROTOCOL_TYPE_ARP) with false. cbn iota.
    unfold rd8 in *. rewrite lookup_drop, Nat.add_0_r in H8. by rewrite Ev, H8.
  - eapply (pw_mono _ s); [apply pw_net, _|]. intros a s' Nn. by left.
Qed.

End IpQueues.

(** ** Emptying the queues *)

Section Softirq.
Context {Mc : Machine}.

(** The handlers that [arp_init] and [ip_initialize] register. *)
Definition handles (ty : Z) (h : protocol_handler) : Prop :=
  (ty = NETWORK_PROTOCOL_TYPE_IP /\ h = fn_ip_input) \/ (ty = NETWORK_PROTOCOL_TYPE_ARP /\ h = fn_arp_input).

Definition proto_ok (n : net_state) (p : network_protocol) : Prop :=
  handles (np_type p) (np_handler p) /\ Forall (queued_ok n (np_type p)) (np_queue p).

(** The state of a running stack: every module ready, the protocols registered as
    the initialisation does, and the queues well formed.  [queued_ok] assumes that the
    datagrams that wait for [ip_input] are sane ([ip_sane]): [network_input_handler]
    queues what comes in unchecked, so this is an assumption on what the devices read
    ([queues_sane] below states it alone). *)
Definition stack_ready (s : stack) : Prop :=
  udp_ready s /\ arp_links (st_net s) /\ protocols_unique (st_net s) /\
  Forall (proto_ok (st_net s)) (n_protocols (st_net s)).

(** The same in two parts: what the code itself establishes, *)
Definition stack_wf (s : stack) : Prop :=
  udp_ready s /\ arp_links (st_net s) /\ protocols_unique (st_net s) /\
  Forall (fun p => handles (np_type p) (np_handler p) /\
    Forall (fun e => is_Some (n_devs (st_net s) !! nqe_dev e) /\ nqe_len e = Z.of_nat (length (nqe_data e))) (np_queue p))
    (n_protocols (st_net s)).

(** and the assumption on the queued datagrams. *)
Definition queues_sane (s : stack) : Prop :=
  Forall (fun p => np_type p = NETWORK_PROTOCOL_TYPE_IP -> Forall (fun e => ip_sane (nqe_data e)) (np_queue p))
    (n_protocols (st_net s)).

Lemma stack_ready_parts s : stack_ready s <-> stack_wf s /\ queues_sane s.
Proof.
  unfold stack_ready, stack_wf, queues_sane, proto_ok, queued_ok. rewrite !Forall_lookup. setoid_rewrite Forall_lookup.
  split; [intros (R & L & U & Ok)|intros [(R & L & U & Ok) Sane]].
  - split; [split_and!; try done|]; intros i p Hi; [|intros Ht j e Hj]; destruct (Ok i p Hi) as [Hh Hq]; [|naive_solver].
    split; [done|]. intros j e Hj. destruct (Hq j e Hj) as (? & ? & ?). done.
  - split_and!; try done. intros i p Hi. destruct (Ok i p Hi) as [Hh Hq]. split; [done|]. intros j e Hj.
    destruct (Hq j e Hj) as [??]. split_and!; [done|done|]. intros Ht. by eapply Sane.
Qed.

Lemma ip_input_ready data d s :
  udp_ready s -> is_Some (n_devs (st_net s) !! d) -> ip_sane data ->
  wp (ip_input data (Z.of_nat (length data)) d) s (fun _ s' => udp_ready s').
Proof.
  intros R [dev Hd] Sane. pose proof R as (Ri & _). pose proof Ri as ((N & _) & _).
  destruct (ip_input_cases data (Z.of_nat (length data)) d s dev N Hd ltac:(lia))
    as [E|(vhl & tot & off & proto & src & dst & i & f & Ev & Et & _ & _ & _ & _ & Hf & _ & _ & Hh & Htot & _ & _ & _ & E)];
    unfold wp; rewrite E; [done|].
  destruct (Sane vhl tot Ev Et) as [Hs Hmax]. rewrite u64_small by lia. clear E.
  unfold ip_deliver. destruct (handler_of s proto) as [h|]; [|done].
  assert (0 <= ntoh16 tot - 4 * (vhl mod 16) <= Z.of_nat (length (drop (Z.to_nat (4 * (vhl mod 16))) data))) as Hlen
    by (rewrite length_drop; lia).
  destruct h; simpl.
  - eapply (wp_mono _ s); [apply icmp_input_ready; [done|by eexists|done|lia]|].
    intros u s' S. by eapply udp_step_ready.
  - eapply (udp_input_wp _ _ _ _ _ s); [done|done|lia|done|]. intros sport dport _ _ _ _ _. split.
    + intros s' _ O. eapply udp_only_ready; [done|exact O|apply R].
    + intros k s' _ e O W. by eapply udp_only_ready.
Qed.

(** The handler of a queued packet returns in a ready state, and queues what
    [answers] allows. *)
Lemma handler_step ty h e s :
  udp_ready s -> arp_links (st_net s) -> handles ty h -> queued_ok (st_net s) ty e ->
  wp (call_protocol h (nqe_data e) (nqe_len e) (nqe_dev e)) s (fun _ s' => udp_ready s' /\ answers ty (nqe_data e) s s').
Proof.
  intros R Links Hh (Hd & Hl & Sane). pose proof R as (Ri & _). rewrite Hl.
  destruct Hh as [[-> ->]|[-> ->]]; simpl; apply wp_pw.
  - apply ip_input_ready; [done|done|by apply Sane].
  - apply ip_input_queues; [apply Ri|done|lia|done].
  - destruct Hd as [dev Hd]. eapply wp_mono; [eapply arp_input_safe; [apply Ri|done|lia]|].
    intros u s' S. eapply udp_step_ready; [done|]. apply ip_step_intro; [done|apply S|by apply arp_step_upper].
  - apply arp_input_queues.
Qed.

(** How many packets the processing of a packet accounts for. *)
Definition weight (ty : Z) (e : network_protocol_queue_entry) : nat := if noisy ty (nqe_data e) then 2 else 1.

Definition queue_weight (p : network_protocol) : nat := sum_list_with (weight (np_type p)) (np_queue p).

Lemma queue_weight_le p : (queue_weight p <= 2 * length (np_queue p))%nat.
Proof.
  unfold queue_weight. induction (np_queue p) as [|e q IH]; simpl; [lia|].
  assert (weight (np_type p) e <= 2)%nat by (unfold weight; case_match; lia). lia.
Qed.

Lemma find_unique n i p :
  protocols_unique n -> n_protocols n !! i = Some p ->
  list_find (fun q => np_type q = np_type p) (n_protocols n) = Some (i, p).
Proof.
  intros U Hi. apply list_find_Some. split_and!; [done|done|]. intros j q Hj Hlt E.
  assert (i = j); [|lia]. eapply (NoDup_lookup _ _ _ (np_type p) U).
  - by rewrite list_lookup_fmap, Hi.
  - by rewrite list_lookup_fmap, Hj, <- E.
Qed.

Lemma with_queue_same p q : np_queue p = q -> with_queue q p = p.
Proof. intros <-. by destruct p. Qed.

Lemma alter_queue_same (ps : list network_protocol) i p q :
  ps !! i = Some p -> np_queue p = q -> alter (with_queue q) i ps = ps.
Proof.
  intros Hi Hq. revert i Hi. induction ps as [|p' ps IH]; intros [|i] Hi; [done..| |].
  - cbn. injection Hi as ->. f_equal. by apply with_queue_same.
  - cbn. f_equal. by apply IH.
Qed.

Lemma alter_with_queue (ps : list network_protocol) (i : nat) q q' :
  alter (with_queue q) i (alter (with_queue q') i ps) = alter (with_queue q) i ps.
Proof. revert i. induction ps as [|p ps IH]; intros [|i]; [done..|]. cbn. f_equal. apply IH. Qed.

(** Replacing the queue at one position by a well-formed one. *)
Lemma stack_ready_queue s s' i p q :
  udp_ready s' -> stack_ready s -> n_devs (st_net s') = n_devs (st_net s) ->
  n_protocols (st_net s) !! i = Some p -> Forall (queued_ok (st_net s) (np_type p)) q ->
  n_protocols (st_net s') = alter (with_queue q) i (n_protocols (st_net s)) -> stack_ready s'.
Proof.
  intros R (_ & Links & U & Ok) Dv Hi Hq E.
  assert (forall ty e, queued_ok (st_net s) ty e -> queued_ok (st_net s') ty e) as Q
    by (unfold queued_ok; by rewrite Dv).
  split_and!; [done|unfold arp_links; by rewrite Dv|unfold protocols_unique; by rewrite E, with_queue_types|].
  rewrite E. apply Forall_lookup. intros j x Hj. rewrite Forall_lookup in Ok.
  destruct (decide (i = j)) as [<-|Hne].
  - rewrite list_lookup_alter_eq, Hi in Hj. injection Hj as <-. destruct (Ok i p Hi) as [Hh _].
    split; [exact Hh|]. eapply Forall_impl; [exact Hq|]. apply Q.
  - rewrite list_lookup_alter_ne in Hj by done. destruct (Ok j x Hj) as [Hh Hx].
    split; [exact Hh|]. eapply Forall_impl; [exact Hx|]. apply Q.
Qed.

(** After the handler of the first packet, the rest of the queue has grown by at
    most what the packet accounts for. *)
Lemma answers_weight s s1 s2 i p e q :
  stack_ready s -> n_protocols (st_net s) !! i = Some p -> np_queue p = e :: q ->
  st_net s1 = set_protocols (alter (with_queue q) i) (st_net s) ->
  answers (np_type p) (nqe_data e) s1 s2 ->
  n_devs (st_net s2) = n_devs (st_net s) /\
  exists q', n_protocols (st_net s2) = alter (with_queue q') i (n_protocols (st_net s)) /\
    Forall (queued_ok (st_net s) (np_type p)) q' /\
    (S (sum_list_with (weight (np_type p)) q') <= queue_weight p)%nat.
Proof.
  intros (_ & _ & U & Ok) Hi Hq E A. rewrite Forall_lookup in Ok. destruct (Ok i p Hi) as [_ Hok].
  rewrite Hq in Hok. apply Forall_cons in Hok as [_ Hok].
  assert (queue_weight p = weight (np_type p) e + sum_list_with (weight (np_type p)) q)%nat as Wp
    by (unfold queue_weight; by rewrite Hq).
  assert (1 <= weight (np_type p) e)%nat by (unfold weight; case_match; lia).
  assert (n_devs (st_net s1) = n_devs (st_net s)) as D1 by (by rewrite E).
  assert (n_protocols (st_net s1) = alter (with_queue q) i (n_protocols (st_net s))) as P1 by (by rewrite E).
  assert (n_protocols (st_net s2) = n_protocols (st_net s1) -> exists q',
    n_protocols (st_net s2) = alter (with_queue q') i (n_protocols (st_net s)) /\
    Forall (queued_ok (st_net s) (np_type p)) q' /\ (S (sum_list_with (weight (np_type p)) q') <= queue_weight p)%nat) as None'.
  { intros E2. exists q. split_and!; [by rewrite E2|done|lia]. }
  destruct A as [[D2 P2]|[Hn [D2 [P2|(ty & e' & P2 & -> & Hok' & Hquiet)]]]];
    (split; [congruence|]); [by apply None'..|].
  exists (q ++ [e']). split_and!.
  - rewrite P2, P1. unfold enqueue. erewrite find_type_alter_same by (by apply find_unique).
    simpl. by rewrite alter_with_queue.
  - apply Forall_app. split; [done|]. apply Forall_singleton. unfold queued_ok in *. by rewrite D1 in Hok'.
  - rewrite sum_list_with_app. simpl. rewrite Wp. unfold weight at 2 3. rewrite Hn, Hquiet. lia.
Qed.

(** What is left of the queue after the handler of its first packet: the rest, and
    at most one answer. *)
Lemma answers_tail s s1 s2 i p e q :
  stack_ready s -> n_protocols (st_net s) !! i = Some p -> np_queue p = e :: q ->
  st_net s1 = set_protocols (alter (with_queue q) i) (st_net s) ->
  answers (np_type p) (nqe_data e) s1 s2 ->
  exists answer, (length answer <= 1)%nat /\
    n_protocols (st_net s2) = alter (with_queue (q ++ answer)) i (n_protocols (st_net s)).
Proof.
  intros (_ & _ & U & _) Hi Hq E A.
  assert (n_protocols (st_net s1) = alter (with_queue q) i (n_protocols (st_net s))) as P1 by (by rewrite E).
  destruct A as [[_ P2]|[_ [_ [P2|(ty & e' & P2 & -> & _)]]]];
    [exists []; rewrite app_nil_r; split; [simpl; lia|congruence]..|].
  exists [e']. split; [done|]. rewrite P2, P1. unfold enqueue. erewrite find_type_alter_same by (by apply find_unique).
  simpl. by rewrite alter_with_queue.
Qed.

(** The inner loop of [network_protocol_handler] empties the queue. *)
Lemma protocol_drain_empties fuel i s p :
  stack_ready s -> n_protocols (st_net s) !! i = Some p -> (queue_weight p <= fuel)%nat ->
  wp (protocol_drain fuel i) s (fun b s' => b = true /\ stack_ready s' /\
    n_devs (st_net s') = n_devs (st_net s) /\
    n_protocols (st_net s') = alter (with_queue []) i (n_protocols (st_net s))).
Proof.
  revert s p. induction fuel as [|fuel IH]; intros s p R Hi Hw;
    unfold protocol_drain; fold protocol_drain; apply wp_bind, wp_gets, wp_bind; rewrite Hi;
    (eapply wp_opt; [reflexivity|]); destruct (np_queue p) as [|e q] eqn:Hq; cbn [fifo_pop list_fifo].
  1, 3: apply wp_ret; split_and!; try done; symmetry; by eapply alter_queue_same.
  { unfold queue_weight in Hw. rewrite Hq in Hw. simpl in Hw.
    assert (1 <= weight (np_type p) e)%nat by (unfold weight; case_match; lia). lia. }
  unfold set_queue. apply wp_bind, wp_modify, wp_bind. set (s1 := set_net _ s).
  pose proof R as (Ru & Links & U & Ok). pose proof Ok as Ok'. rewrite Forall_lookup in Ok'.
  destruct (Ok' i p Hi) as [Hh Hqs]. rewrite Hq in Hqs. apply Forall_cons in Hqs as [He _].
  eapply wp_mono; [apply (handler_step (np_type p) _ e s1); [exact Ru|exact Links|done|exact He]|].
  intros u s2 [R2 A]. destruct (answers_weight s s1 s2 i p e q) as (D2 & q' & P2 & Hq' & Hw'); try done.
  assert (stack_ready s2) as R2' by (by eapply stack_ready_queue).
  eapply wp_mono; [apply (IH s2 (with_queue q' p) R2')|].
  - rewrite P2, list_lookup_alter_eq, Hi. done.
  - unfold queue_weight at 1. simpl. lia.
  - intros b s3 (-> & R3 & D3 & P3). split_and!; [done|done|congruence|].
    rewrite P3, P2. apply alter_with_queue.
Qed.

Lemma protocol_drain_all_empties fuel k i s :
  stack_ready s -> (i + k = length (n_protocols (st_net s)))%nat ->
  (forall j p, (i <= j)%nat -> n_protocols (st_net s) !! j = Some p -> (2 * length (np_queue p) <= fuel)%nat) ->
  wp (protocol_drain_all fuel i k) s (fun b s' => b = true /\ stack_ready s' /\
    n_devs (st_net s') = n_devs (st_net s) /\
    n_protocols (st_net s') = take i (n_protocols (st_net s)) ++ map (with_queue []) (drop i (n_protocols (st_net s)))).
Proof.
  revert i s. induction k as [|k IH]; intros i s R Hk Hf; simpl.
  { apply wp_ret. split_and!; [done|done|done|]. rewrite take_ge, drop_ge by lia. by rewrite app_nil_r. }
  destruct (lookup_lt_is_Some_2 (n_protocols (st_net s)) i) as [p Hi]; [lia|].
  apply wp_bind. eapply wp_mono; [apply (protocol_drain_empties fuel i s p); [done|done|]|].
  { pose proof (queue_weight_le p). pose proof (Hf i p ltac:(lia) Hi). lia. }
  intros b s1 (-> & R1 & D1 & P1). cbn iota.
  eapply wp_mono; [apply IH; [done|by rewrite P1, length_alter; lia|]|].
  { intros j q Hj Hl. rewrite P1, list_lookup_alter_ne in Hl by lia. apply (Hf j q); [lia|done]. }
  intros b s2 (-> & R2 & D2 & P2). split_and!; [done|done|congruence|].
  rewrite P2, P1, (take_S_r _ i (with_queue [] p)) by (by rewrite list_lookup_alter_eq, Hi).
  rewrite take_alter_ge, drop_alter_lt by lia. rewrite (drop_S _ _ _ Hi). simpl. by rewrite <- app_assoc.
Qed.

(** C8. The soft interrupt ends: from a well-formed stack (every module in its
    invariant, the protocols registered as by the initialisation, no loopback device
    that needs ARP, queued packets true to their lengths) on whose IP queue every
    datagram has sane length fields (a header of at least 20 bytes, not longer than
    the total length: [ip_input] does not test it and over-reads otherwise,
    [ip_input_short_total_overreads]), with fuel for twice the longest queue,
    [network_protocol_handler] returns without a fault or a deadlock although handlers
    queue packets on the queue being emptied; then every queue is empty, the
    registrations are as before, and the stack is well formed. *)
Theorem network_protocol_handler_empties (fuel : nat) (s : stack) (R : stack_wf s) (Sane : queues_sane s)
    (Hfuel : Forall (fun p => (2 * length (np_queue p) <= fuel)%nat) (n_protocols (st_net s))) :
  wp (network_protocol_handler fuel) s (fun b s' => b = true /\ stack_wf s' /\
    n_devs (st_net s') = n_devs (st_net s) /\
    n_protocols (st_net s') = map (with_queue []) (n_protocols (st_net s))).
Proof.
  unfold network_protocol_handler. apply wp_bind, wp_gets. rewrite Forall_lookup in Hfuel.
  eapply wp_mono; [apply protocol_drain_all_empties; [by apply stack_ready_parts|done|]|]; [by intros j p _; apply Hfuel|].
  intros b s' (-> & [W' _]%stack_ready_parts & D & P). done.
Qed.

End Softirq.

(** ** A concrete queue *)

Section SoftirqWitnesses.
#[local] Existing Instance little_endian_machine.

(** The UDP host after an ARP request for it and a datagram to it came in. *)
Definition sample_request : list Z :=
  arp_message ARP_OP_REQUEST [2; 0; 0; 0; 0; 2] 0x0200000a (replicate 6 0) 0x0100000a.

Definition busy_host : stack :=
  enqueued NETWORK_PROTOCOL_TYPE_ARP (NetQueueEntry 1%nat 28 sample_request)
    (enqueued NETWORK_PROTOCOL_TYPE_IP (NetQueueEntry 1%nat 29
       (ip_datagram 7 UDP_PROTOCOL 0 0x0200000a 0x0100000a sample_datagram)) udp_host).

Lemma busy_host_ready : stack_ready busy_host.
Proof.
  assert (is_Some (n_devs (st_net busy_host) !! 1%nat)) as Hd by (by eexists).
  split_and!.
  - exact udp_host_ready.
  - intros d dev Hdev. change (n_devs (st_net busy_host)) with ({[1%nat := dev_A]} : gmap nat network_device) in Hdev.
    apply lookup_singleton_Some in Hdev as [<- <-]. done.
  - apply (bool_decide_unpack _). vm_compute. done.
  - apply Forall_cons. split; [|apply Forall_cons; split; [|by apply Forall_nil]].
    + split; [by left|]. apply Forall_singleton. split_and!; [done|done|]. intros _ vhl tot Ev Et.
      vm_compute in Ev. vm_compute in Et. injection Ev as <-. injection Et as <-. vm_compute. done.
    + split; [by right|]. apply Forall_singleton. by split_and!.
Qed.

Lemma network_protocol_handler_empties_witness :
  wp (network_protocol_handler 2) busy_host (fun b s' => b = true /\ stack_wf s' /\
    map np_queue (n_protocols (st_net s')) = [[]; []]).
Proof.
  destruct (proj1 (stack_ready_parts _) busy_host_ready) as [W Sane].
  eapply wp_mono; [apply (network_protocol_handler_empties 2 busy_host W Sane)|].
  - repeat constructor.
  - intros b s' (-> & R & _ & E). split_and!; [done|done|]. by rewrite E.
Defined.

End SoftirqWitnesses.
