(* ===== verification/Boot.v ===== *)
(** * From program start to a running stack

    Initialisation, registration of devices and interfaces, start and shutdown, in
    any environment: the invariant of the stack ([stack_ready]) holds at program
    start, the functions of start and stop keep it, and none of them faults. *)

From stdpp Require Import base numbers list option gmap strings.
From Stdlib Require Import ZArith Lia.
From S2P Require Import Prelude Util CLib Queue State Sync Net Ether Drivers Arp Ip Icmp Udp Sock Stack Softirq.
Open Scope Z_scope.
Open Scope cmonad_scope.

(** ** Changes of devices *)

(** What opening, closing and transmitting leave of a device. *)
Record dev_keeps (dev dev' : network_device) : Prop := {
  keeps_interfaces : dev_interfaces dev' = dev_interfaces dev;
  keeps_mtu : dev_mtu dev' = dev_mtu dev;
  keeps_address_len : dev_address_len dev' = dev_address_len dev;
  keeps_broadcast : dev_broadcast dev' = dev_broadcast dev;
  keeps_ops : dev_ops dev' = dev_ops dev;
  keeps_address : length (dev_address dev) = 16%nat -> length (dev_address dev') = 16%nat;
  keeps_arp : Z.land (dev_flags dev') NETWORK_DEVICE_FLAG_NEED_ARP = Z.land (dev_flags dev) NETWORK_DEVICE_FLAG_NEED_ARP;
  keeps_flags : in_u16 (dev_flags dev) -> in_u16 (dev_flags dev');
  keeps_priv : is_Some (dev_priv dev) -> is_Some (dev_priv dev');
}.

#[export] Instance dev_keeps_preorder : PreOrder dev_keeps.
Proof.
  split; [by constructor|]. intros d1 d2 d3 [] []. constructor; solve [congruence | auto].
Qed.

(** The rest of the state the invariant is about. *)
Definition ready_view (s : stack) :=
  (st_arp s, st_udp s, st_sock s, st_held s, ip_routes (st_ip s), n_ifs (st_net s), n_devices (st_net s), n_protocols (st_net s)).

(** Devices change as [dev_keeps] allows, the rest of the view not at all. *)
Definition devs_evolve (s s' : stack) : Prop :=
  ready_view s' = ready_view s /\
  (forall d, option_Forall2 dev_keeps (n_devs (st_net s) !! d) (n_devs (st_net s') !! d)).

#[export] Instance devs_evolve_preorder : PreOrder devs_evolve.
Proof.
  split.
  - intros s. split; [done|]. intros d. destruct (n_devs (st_net s) !! d); constructor. reflexivity.
  - intros s1 s2 s3 [V1 D1] [V2 D2]. split; [congruence|]. intros d. specialize (D1 d). specialize (D2 d).
    inversion D1 as [x y Hxy Ex Ey|Ex Ey]; rewrite <- Ey in D2; inversion D2; constructor. by etransitivity.
Qed.

Lemma devs_evolve_same s s' :
  ready_view s' = ready_view s -> n_devs (st_net s') = n_devs (st_net s) -> devs_evolve s s'.
Proof.
  intros V E. split; [done|]. intros d. rewrite E. destruct (n_devs (st_net s) !! d); constructor. reflexivity.
Qed.

Lemma devs_evolve_lookup s s' d dev :
  devs_evolve s s' -> n_devs (st_net s) !! d = Some dev ->
  exists dev', n_devs (st_net s') !! d = Some dev' /\ dev_keeps dev dev'.
Proof. intros [_ D] Hd. specialize (D d). rewrite Hd in D. inversion D. eauto. Qed.

Lemma devs_evolve_lookup_inv s s' d dev' :
  devs_evolve s s' -> n_devs (st_net s') !! d = Some dev' ->
  exists dev, n_devs (st_net s) !! d = Some dev /\ dev_keeps dev dev'.
Proof. intros [_ D] Hd. specialize (D d). rewrite Hd in D. inversion D. eauto. Qed.

Lemma dev_keeps_wf dev dev' : dev_keeps dev dev' -> dev_wf dev -> dev_wf dev'.
Proof.
  intros [] (Ha & Hb & Hf & Ho). unfold dev_wf. rewrite keeps_broadcast0, keeps_ops0, keeps_mtu0.
  split_and!; auto. destruct (dev_ops dev) as [[]|]; try done; destruct Ho; auto.
Qed.

(** The invariant is kept. *)
Lemma stack_ready_evolve `{Machine} s s' : devs_evolve s s' -> stack_ready s -> stack_ready s'.
Proof.
  intros E ((((N & W & Ha) & Hid & Hr & Hdim) & Hu & Wp) & Links & U & Ok).
  pose proof E as [V _]. unfold ready_view in V. injection V as V1 V2 V3 V4 V5 V6 V7 V8.
  assert (forall i, iface_ok s i -> iface_ok s' i) as Hif.
  { intros i (f & d & dev & Hf & Hfd & Hd & Hwf). destruct (devs_evolve_lookup _ _ _ _ E Hd) as (dev' & Hd' & K).
    exists f, d, dev'. rewrite V6. split_and!; try done. by eapply dev_keeps_wf. }
  assert (forall ty e, queued_ok (st_net s) ty e -> queued_ok (st_net s') ty e) as Q.
  { intros ty e ([dev Hd] & ? & ?). destruct (devs_evolve_lookup _ _ _ _ E Hd) as (dev' & Hd' & _).
    split_and!; [by eexists|done|done]. }
  split_and!; [split_and!; [split_and!; [split_and!|..]|..]|..].
  - intros d dev' Hd'. destruct (devs_evolve_lookup_inv _ _ _ _ E Hd') as (dev & Hd & K).
    destruct (N d dev Hd) as [Wd Hi]. split; [by eapply dev_keeps_wf|]. by rewrite (keeps_interfaces _ _ K), V6.
  - by rewrite V1.
  - by rewrite V4.
  - by rewrite V4.
  - rewrite V5. eapply Forall_impl; [exact Hr|]. intros r. apply Hif.
  - intros d dev' Hd'. destruct (devs_evolve_lookup_inv _ _ _ _ E Hd') as (dev & Hd & K).
    destruct (Hdim d dev Hd). unfold dev_dims. by rewrite (keeps_mtu _ _ K), (keeps_address_len _ _ K).
  - by rewrite V4.
  - by rewrite V2.
  - intros d dev' Hd'. destruct (devs_evolve_lookup_inv _ _ _ _ E Hd') as (dev & Hd & K).
    rewrite (keeps_arp _ _ K), (keeps_ops _ _ K). by apply (Links d dev).
  - unfold protocols_unique. by rewrite V8.
  - rewrite V8. eapply Forall_impl; [exact Ok|]. intros p [Hh Hq]. split; [done|].
    eapply Forall_impl; [exact Hq|]. apply Q.
Qed.

(** ** Opening and closing devices *)

Section DeviceChanges.

Lemma evolves_net_same {A} (m : C A) :
  Preserves ready_view m -> Preserves (fun s => n_devs (st_net s)) m -> Evolves devs_evolve m.
Proof. intros Hv Hd s a s' E. apply devs_evolve_same; [by eapply Hv|]. exact (Hd _ _ _ E). Qed.

#[export] Instance evolves_syscall c dflt : Evolves devs_evolve (syscall_do c dflt).
Proof. apply evolves_net_same; by apply syscall_frame. Qed.

Lemma evolves_set_dev d g : (forall dev, dev_keeps dev (g dev)) -> Evolves devs_evolve (set_dev d g).
Proof.
  intros Hg s a s'. unfold set_dev, get_dev, gets, modify, bind. simpl.
  destruct (n_devs (st_net s) !! d) as [dev|] eqn:E; [|done]. intros [= _ <-]. split; [done|].
  intros d'. simpl. destruct (decide (d = d')) as [<-|Hne].
  - rewrite lookup_insert_eq, E. by constructor.
  - rewrite lookup_insert_ne by done. destruct (n_devs (st_net s) !! d'); constructor. reflexivity.
Qed.

#[export] Instance evolves_get_dev d : Evolves devs_evolve (get_dev d).
Proof. unfold get_dev. solve_evolves. Qed.

#[export] Instance evolves_dev_private d : Evolves devs_evolve (dev_private d).
Proof. unfold dev_private. solve_evolves. Qed.

#[export] Instance evolves_set_fd d fd : Evolves devs_evolve (set_fd d fd).
Proof.
  unfold set_fd. apply evolves_bind; [apply _..|]. intros p. apply evolves_set_dev. intros dev.
  by constructor.
Qed.

#[export] Instance evolves_sys_close fd : Evolves devs_evolve (sys_close fd).
Proof. unfold sys_close. solve_evolves. Qed.

Lemma evolves_setup_calls fd calls :
  Forall (fun c => Evolves devs_evolve c) calls -> Evolves devs_evolve (setup_calls fd calls).
Proof. induction 1; simpl; solve_evolves. Qed.

(** [sys_hwaddr] answers with six bytes. *)
Lemma evolves_hwaddr {A} fd (k : Z * list Z -> C A) :
  (forall r hw, length hw = 6%nat -> Evolves devs_evolve (k (r, hw))) -> Evolves devs_evolve (bind (sys_hwaddr fd) k).
Proof.
  intros Hk s b s'' (a & s' & E & E')%bind_inv. unfold sys_hwaddr in E.
  apply bind_inv in E as (r & s1 & E1 & [= <- <-]).
  transitivity s1; [by eapply evolves_syscall|]. eapply Hk; [|exact E'].
  rewrite length_take, length_app. change (length ETHER_ADDR_ANY) with 6%nat. unfold ETHER_ADDR_LEN. lia.
Qed.

Lemma evolves_sys :
  (forall fd r, Evolves devs_evolve (sys_ioctl fd r)) /\ (forall fd r, Evolves devs_evolve (sys_fcntl fd r)) /\
  (forall fd, Evolves devs_evolve (sys_bind fd)) /\ Evolves devs_evolve sys_open /\ Evolves devs_evolve sys_socket.
Proof. split_and!; intros; unfold sys_ioctl, sys_fcntl, sys_bind, sys_open, sys_socket; solve_evolves. Qed.

Context {Mc : Machine}.

Lemma evolves_addr d : Evolves devs_evolve (ether_tap_addr d) /\ Evolves devs_evolve (ether_pcap_addr d).
Proof.
  destruct evolves_sys as (_ & _ & _ & _ & Hsock).
  split; unfold ether_tap_addr, ether_pcap_addr; (apply evolves_bind; [apply _|done|]); intros soc;
    (destruct (soc =? -1); [apply _|]); apply evolves_hwaddr; intros r hw Hl; cbn beta iota;
    (destruct (r =? -1); [solve_evolves|]); (apply evolves_bind; [apply _| |intros ?; solve_evolves]);
    apply evolves_set_dev; intros dev; constructor; try done;
    simpl; intros Ha; by rewrite length_app, length_drop, Hl, Ha.
Qed.

Lemma evolves_setup_address d fd addr : Evolves devs_evolve (addr d) -> Evolves devs_evolve (setup_address d fd addr).
Proof. intros H. unfold setup_address. solve_evolves. Qed.

Lemma evolves_ether_open d : Evolves devs_evolve (ether_tap_open d) /\ Evolves devs_evolve (ether_pcap_open d).
Proof.
  destruct evolves_sys as (Hi & Hf & Hb & Ho & Hs). destruct (evolves_addr d) as [Ht Hp].
  split; unfold ether_tap_open, ether_pcap_open; solve_evolves; try (by apply evolves_setup_address);
    apply evolves_setup_calls; repeat (apply Forall_cons; split; [auto|]); by apply Forall_nil.
Qed.

Lemma evolves_ether_close d : Evolves devs_evolve (ether_tap_close d) /\ Evolves devs_evolve (ether_pcap_close d).
Proof. split; unfold ether_tap_close, ether_pcap_close; solve_evolves. Qed.

(** Setting and clearing UP keeps the other flags. *)
Lemma flags_arp f g :
  Z.land g NETWORK_DEVICE_FLAG_NEED_ARP = Z.land f NETWORK_DEVICE_FLAG_NEED_ARP ->
  Z.land (u16 g) NETWORK_DEVICE_FLAG_NEED_ARP = Z.land f NETWORK_DEVICE_FLAG_NEED_ARP.
Proof.
  intros <-. unfold u16. change (2 ^ 16) with (2 ^ 16). rewrite <- Z.land_ones by lia.
  by rewrite <- Z.land_assoc.
Qed.

Lemma keeps_with_flags dev g :
  Z.land g NETWORK_DEVICE_FLAG_NEED_ARP = Z.land (dev_flags dev) NETWORK_DEVICE_FLAG_NEED_ARP ->
  dev_keeps dev (with_flags (u16 g) dev).
Proof. intros H. constructor; try done; [by apply flags_arp|]. intros _. apply u16_range. Qed.

#[export] Instance evolves_device_open d : Evolves devs_evolve (network_device_open d).
Proof.
  unfold network_device_open. do 2 (apply evolves_bind; [apply _..|]; intros ?; try (case_match; [apply _|])).
  apply evolves_bind; [apply _| |].
  - destruct (evolves_ether_open d). destruct a0; cbn [drv_open stack_drivers stack_open]; solve_evolves; done.
  - intros b. destruct b; [apply _|]. apply evolves_bind; [apply _| |apply _].
    apply evolves_set_dev. intros dev. apply keeps_with_flags. rewrite Z.land_lor_distr_l.
  change (Z.land NETWORK_DEVICE_FLAG_UP _) with 0. by rewrite Z.lor_0_r.
Qed.

#[export] Instance evolves_device_close d : Evolves devs_evolve (network_device_close d).
Proof.
  unfold network_device_close. do 2 (apply evolves_bind; [apply _..|]; intros ?; try (case_match; [apply _|])).
  apply evolves_bind; [apply _| |].
  - destruct (evolves_ether_close d). destruct a0; cbn [drv_close stack_drivers stack_close]; solve_evolves; done.
  - intros b. destruct b; [apply _|]. apply evolves_bind; [apply _| |apply _].
    apply evolves_set_dev. intros dev. apply keeps_with_flags. by rewrite <- Z.land_assoc.
Qed.

(** Neither faults on a well-formed device. *)
Lemma device_open_wp d s dev :
  n_devs (st_net s) !! d = Some dev -> dev_wf dev ->
  wp (network_device_open d) s (fun _ s' => devs_evolve s s') /\
  wp (network_device_close d) s (fun _ s' => devs_evolve s s').
Proof.
  intros Hd Hwf. pose proof Hwf as (_ & _ & _ & Ho). destruct (dev_ops dev) as [o|] eqn:Eo; [|done]. clear Ho.
  split; (eapply wp_mono; [apply (wp_evolves devs_evolve _ _ (fun _ _ => True)); [apply _|]|by intros r s' [_ E]]);
    unfold network_device_open, network_device_close; apply wp_bind;
    (eapply wp_of_run; [by apply get_dev_ok|]); (case_match; [by apply wp_ret|]); rewrite Eo;
    apply wp_bind, wp_ret, wp_bind; [apply (driver_call_wp o true d s dev)|apply (driver_call_wp o false d s dev)]; try done;
    intros b s' (dev' & Hd' & _); (destruct b; [by apply wp_ret|]); apply wp_bind;
    (eapply wp_of_run; [by apply set_dev_ok|]); by apply wp_ret.
Qed.

(** The devices of the list exist. *)
Definition devices_exist (s : stack) : Prop :=
  Forall (fun d => is_Some (n_devs (st_net s) !! d)) (n_devices (st_net s)).

Lemma open_all_wp l s :
  stack_ready s -> Forall (fun d => is_Some (n_devs (st_net s) !! d)) l ->
  wp (open_all l) s (fun _ s' => devs_evolve s s') /\ wp (close_all l) s (fun _ s' => devs_evolve s s').
Proof.
  intros R Hl. revert s R Hl. induction l as [|d l IH]; intros s R Hl; [by split; apply wp_ret|].
  apply Forall_cons in Hl as [[dev Hd] Hl]. pose proof R as ((((N & _) & _) & _) & _). destruct (N d dev Hd) as [Hwf _].
  destruct (device_open_wp d s dev Hd Hwf) as [Wo Wc].
  assert (forall s1, devs_evolve s s1 -> Forall (fun d => is_Some (n_devs (st_net s1) !! d)) l) as Hl1.
  { intros s1 E. eapply Forall_impl; [exact Hl|]. intros d' [dev' Hd'].
    destruct (devs_evolve_lookup _ _ _ _ E Hd') as (? & -> & _). by eexists. }
  split; simpl; apply wp_bind; (eapply wp_mono; [eassumption|]); intros r s1 E1;
    destruct (IH s1 (stack_ready_evolve _ _ E1 R) (Hl1 s1 E1)) as [Io Ic];
    (eapply wp_mono; [eassumption|]); intros u s2 E2; by transitivity s1.
Qed.

Lemma network_run_wp s :
  stack_ready s -> devices_exist s -> wp network_run s (fun r s' => (r = 0 \/ r = -1) /\ devs_evolve s s').
Proof.
  intros R Hd. unfold network_run, intr_run. apply wp_bind, wp_bind, syscall_wp. intros r w _ _ _ _ _ _.
  assert (forall w, devs_evolve s (set_world (fun _ => w) s)) as Ew by (intros; by apply devs_evolve_same).
  destruct (truthy (r_ret r)); [apply wp_ret, wp_ret; auto|].
  apply wp_bind, syscall_wp. intros r' w' _ _ _ _ _ _.
  destruct (truthy (r_ret r')); [apply wp_ret, wp_ret; split; [by right|by apply devs_evolve_same]|].
  apply wp_ret. cbn [Z.eqb]. change (0 =? -1) with false. cbv iota. apply wp_bind, wp_gets, wp_bind.
  set (s1 := set_world _ _). assert (devs_evolve s s1) as E1 by (by apply devs_evolve_same).
  destruct (open_all_wp (n_devices (st_net s1)) s1) as [W _]; [by eapply stack_ready_evolve|exact Hd|].
  eapply wp_mono; [exact W|]. intros u s2 E2. apply wp_ret. split; [by left|]. by transitivity s1.
Qed.

Lemma network_shutdown_wp s :
  stack_ready s -> devices_exist s -> wp network_shutdown s (fun _ s' => devs_evolve s s').
Proof. intros R Hd. unfold network_shutdown. apply wp_bind, wp_gets. by apply open_all_wp. Qed.

End DeviceChanges.

(** ** Registration of protocols and initialisation *)

Section Initialisation.
Context {Mc : Machine}.

(** A step of the initialisation: the invariant holds, and devices, interfaces,
    control blocks and sockets are as before. *)
Definition boots (s s' : stack) : Prop :=
  stack_ready s' /\ n_devs (st_net s') = n_devs (st_net s) /\ n_ifs (st_net s') = n_ifs (st_net s) /\
  n_devices (st_net s') = n_devices (st_net s) /\ st_udp s' = st_udp s /\ st_sock s' = st_sock s.

Lemma boots_refl s : stack_ready s -> boots s s.
Proof. done. Qed.

Lemma boots_trans s s1 s2 : boots s s1 -> boots s1 s2 -> boots s s2.
Proof. intros (_ & A1 & A2 & A3 & A4 & A5) (R & B1 & B2 & B3 & B4 & B5). split_and!; [done|congruence..]. Qed.

(** A change outside the view of the invariant. *)
Lemma boots_same s s' :
  stack_ready s -> ready_view s' = ready_view s -> n_devs (st_net s') = n_devs (st_net s) -> boots s s'.
Proof.
  intros R V Dv. split; [by eapply stack_ready_evolve; [apply devs_evolve_same|]|].
  unfold ready_view in V. injection V as V1 V2 V3 V4 V5 V6 V7 V8. done.
Qed.

Definition init_ok (m : C Z) : Prop :=
  forall s, stack_ready s -> wp m s (fun r s' => (r = 0 \/ r = -1) /\ boots s s').

(** One call of a chain [if (f() == -1) return -1]. *)
Lemma init_ok_chain (m k : C Z) :
  init_ok m -> init_ok k -> init_ok (let! r := m in if r =? -1 then ret (-1) else k).
Proof.
  intros Hm Hk s R. apply wp_bind. eapply wp_mono; [by apply Hm|]. intros r s1 [Hr B].
  destruct (r =? -1); [apply wp_ret; auto|]. eapply wp_mono; [apply Hk, B|].
  intros r' s2 [Hr' B']. split; [done|]. by eapply boots_trans.
Qed.

Lemma init_ok_ret : init_ok (ret 0).
Proof. intros s R. apply wp_ret. split; [by left|by apply boots_refl]. Qed.

Lemma protocol_register_ok name ty h : handles ty h -> init_ok (network_protocol_register name ty h).
Proof.
  intros Hh s R. unfold network_protocol_register. wp_steps.
  destruct (list_find _ _) as [[i p]|] eqn:E; [apply wp_ret; split; [by right|by apply boots_refl]|].
  apply wp_bind, memory_alloc_wp. intros b w _ _ _. destruct b; cbn [negb].
  2:{ apply wp_ret. split; [by right|]. by apply boots_same. }
  wp_steps. split; [by left|]. split_and!; try done.
  destruct R as (Ru & Links & U & Ok). split_and!; [exact Ru|exact Links| |].
  - apply NoDup_cons. split; [by apply find_type_None|exact U].
  - apply Forall_cons. split; [|exact Ok]. split; [exact Hh|by apply Forall_nil].
Qed.

Lemma timer_register_ok name interval h : init_ok (network_timer_register name interval h).
Proof.
  intros s R. unfold network_timer_register. apply wp_bind, memory_alloc_wp. intros b w _ _ _.
  destruct b; cbn [negb]; [|apply wp_ret; split; [by right|by apply boots_same]].
  apply wp_bind, gettimeofday_wp. intros now w' _ _ _ _ _. wp_steps. split; [by left|by apply boots_same].
Qed.

Lemma event_subscribe_ok h : init_ok (network_event_subscribe h).
Proof.
  intros s R. unfold network_event_subscribe. apply wp_bind, memory_alloc_wp. intros b w _ _ _.
  destruct b; cbn [negb]; wp_steps; split; auto; by apply boots_same.
Qed.

Lemma ip_register_ok name ty h : init_ok (ip_register_protocol name ty h).
Proof.
  intros s R. unfold ip_register_protocol. wp_steps.
  destruct (list_find _ _); [apply wp_ret; split; [by right|by apply boots_refl]|].
  apply wp_bind, memory_alloc_wp. intros b w _ _ _.
  destruct b; cbn [negb]; wp_steps; split; auto; by apply boots_same.
Qed.

Lemma network_init_ok : init_ok network_init.
Proof.
  unfold network_init.
  apply init_ok_chain; [intros s R; unfold intr_init; wp_steps; split; [by left|by apply boots_same]|].
  apply init_ok_chain.
  { apply init_ok_chain; [apply protocol_register_ok; by right|].
    apply init_ok_chain; [apply timer_register_ok|apply init_ok_ret]. }
  apply init_ok_chain.
  { apply init_ok_chain; [apply protocol_register_ok; by left|apply init_ok_ret]. }
  apply init_ok_chain.
  { apply init_ok_chain; [apply ip_register_ok|apply init_ok_ret]. }
  apply init_ok_chain; [|apply init_ok_ret].
  apply init_ok_chain; [apply ip_register_ok|].
  intros s R. apply wp_bind. eapply wp_mono; [by apply event_subscribe_ok|]. intros r s' [_ B]. apply wp_ret. auto.
Qed.

(** The state at program start. *)
Lemma stack_boot_ready w : stack_ready (stack_boot w).
Proof.
  assert (forall k p, replicate UDP_PCB_SIZE udp_pcb_zero !! k = Some p -> p = udp_pcb_zero) as K
    by (intros k p Hk; by apply lookup_replicate_1 in Hk as [-> _]).
  split_and!; [split_and!; [split_and!; [split_and!|..]|..]|..].
  - intros d dev Hd. change (n_devs (st_net (stack_boot w))) with (∅ : gmap dev_id network_device) in Hd. by rewrite lookup_empty in Hd.
  - apply cache_boot_wf.
  - by apply not_elem_of_nil.
  - by apply not_elem_of_nil.
  - by apply Forall_nil.
  - intros d dev Hd. change (n_devs (st_net (stack_boot w))) with (∅ : gmap dev_id network_device) in Hd. by rewrite lookup_empty in Hd.
  - by apply not_elem_of_nil.
  - split_and!; [done| |].
    + intros k p ->%K. split; [by apply Forall_nil|done].
    + by intros i j p q ->%K ->%K.
  - intros d dev Hd. change (n_devs (st_net (stack_boot w))) with (∅ : gmap dev_id network_device) in Hd. by rewrite lookup_empty in Hd.
  - by apply NoDup_nil_2.
  - by apply Forall_nil.
Qed.

End Initialisation.

(** ** Registration of devices and interfaces *)

Section Registration.
Context {Mc : Machine}.

(** The queues, routes and links only ask for devices to exist and to be well formed. *)
Lemma stack_ready_devs s s' d dev :
  stack_ready s -> ready_view (set_net (set_devices (fun _ => n_devices (st_net s))) s') = ready_view s ->
  n_devs (st_net s) !! d = None -> n_devs (st_net s') = <[d := dev]> (n_devs (st_net s)) ->
  dev_wf dev -> dev_dims dev -> dev_interfaces dev = [] ->
  (truthy (Z.land (dev_flags dev) NETWORK_DEVICE_FLAG_NEED_ARP) = true -> dev_ops dev <> Some loopback_ops) ->
  stack_ready s'.
Proof.
  intros ((((N & W & Ha) & Hid & Hr & Hdim) & Hu & Wp) & Links & U & Ok) V Hnone E Hwf Hdims Hifs Harp.
  unfold ready_view in V. injection V as V1 V2 V3 V4 V5 V6 V8.
  assert (forall j x, n_devs (st_net s) !! j = Some x -> n_devs (st_net s') !! j = Some x) as Old.
  { intros j x Hj. rewrite E, lookup_insert_ne; [done|]. intros <-. congruence. }
  assert (forall j x, n_devs (st_net s') !! j = Some x -> j = d /\ x = dev \/ n_devs (st_net s) !! j = Some x) as Inv.
  { intros j x Hj. rewrite E in Hj. apply lookup_insert_Some in Hj as [[<- <-]|[_ Hj]]; auto. }
  split_and!; [split_and!; [split_and!; [split_and!|..]|..]|..].
  - intros j x [[-> ->]|Hj]%Inv.
    + split; [done|]. rewrite Hifs. by apply Forall_nil.
    + rewrite V6. by apply (N j x).
  - by rewrite V1.
  - by rewrite V4.
  - by rewrite V4.
  - rewrite V5. eapply Forall_impl; [exact Hr|]. intros r (f & d' & x & Hf & Hfd & Hd & Hx).
    exists f, d', x. rewrite V6. split_and!; try done. by apply Old.
  - intros j x [[-> ->]|Hj]%Inv; [done|]. by apply (Hdim j x).
  - by rewrite V4.
  - by rewrite V2.
  - intros j x [[-> ->]|Hj]%Inv; [done|]. by apply (Links j x).
  - unfold protocols_unique. by rewrite V8.
  - rewrite V8. eapply Forall_impl; [exact Ok|]. intros p [Hh Hq]. split; [done|].
    eapply Forall_impl; [exact Hq|]. intros e ([x Hx] & ? & ?). split_and!; [|done|done]. eexists. by apply Old.
Qed.

(** A new interface that is not attached yet. *)
Lemma stack_ready_ifs s i f :
  stack_ready s -> n_ifs (st_net s) !! i = None -> stack_ready (set_net (set_ifs (insert i f)) s).
Proof.
  intros ((((N & W & Ha) & Hid & Hr & Hdim) & Hu & Wp) & Links & U & Ok) Hnone.
  split_and!; [split_and!; [split_and!; [split_and!|..]|..]|..]; try done.
  - intros d dev Hd. destruct (N d dev Hd) as [Hwf Hi]. split; [done|]. eapply Forall_impl; [exact Hi|].
    intros j (g & Hg & Hgd). exists g. simpl. rewrite lookup_insert_ne; [done|]. intros <-. congruence.
  - eapply Forall_impl; [exact Hr|]. intros r (g & d & dev & Hg & Hgd & Hd & Hwf). exists g, d, dev. simpl.
    rewrite lookup_insert_ne; [done|]. intros Er. rewrite <- Er in Hg. congruence.
Qed.

Lemma length_pton_loop index k p ep n : length (ether_pton_loop index k p ep n).2 = length n.
Proof.
  revert index p ep n. induction k as [|k IH]; intros index p ep n; simpl; [done|].
  destruct (strtol 16 p) as [v [e|]]; [|done]. case_match; [done|]. rewrite IH. apply length_insert.
Qed.

Lemma length_pton p n : length (ether_addr_pton p n).2 = length n.
Proof.
  destruct p as [p|]; [|done]. unfold ether_addr_pton. pose proof (length_pton_loop 0 ETHER_ADDR_LEN p p n) as L.
  destruct (ether_pton_loop 0 ETHER_ADDR_LEN p p n) as [[ended ep] n']. simpl in L. by case_match.
Qed.

(** What registering a device or an interface keeps of the rest. *)
Definition registers (s s' : stack) : Prop :=
  stack_ready s' /\ devices_exist s' /\ st_udp s' = st_udp s /\ st_sock s' = st_sock s.

(** A device that was allocated, set up and put on the list. *)
Lemma registers_new s s' d dev :
  stack_ready s -> devices_exist s -> ready_view (set_net (set_devices (fun _ => n_devices (st_net s))) s') = ready_view s ->
  n_devs (st_net s) !! d = None -> n_devs (st_net s') = <[d := dev]> (n_devs (st_net s)) ->
  n_devices (st_net s') = d :: n_devices (st_net s) -> dev_wf dev -> dev_dims dev -> dev_interfaces dev = [] ->
  (truthy (Z.land (dev_flags dev) NETWORK_DEVICE_FLAG_NEED_ARP) = true -> dev_ops dev <> Some loopback_ops) ->
  registers s s' /\ is_Some (n_devs (st_net s') !! d).
Proof.
  intros R Hex V Hnone E El Hwf Hdims Hifs Harp. assert (stack_ready s') as R' by (by eapply stack_ready_devs).
  split; [|rewrite E, lookup_insert_eq; by eexists]. pose proof V as V'. unfold ready_view in V'. injection V' as _ V2 V3 _ _ _ _.
  split_and!; [done| |done|done]. unfold devices_exist. rewrite E, El.
  apply Forall_cons. split; [rewrite lookup_insert_eq; by eexists|]. eapply Forall_impl; [exact Hex|].
  intros j Hj. simpl in Hj. destruct (decide (d = j)) as [<-|Hne]; [rewrite lookup_insert_eq; by eexists|].
  by rewrite lookup_insert_ne.
Qed.

Lemma loopback_init_ok s :
  stack_ready s -> devices_exist s ->
  wp loopback_init s (fun r s' =>
    match r with
    | Some d => registers s s' /\ is_Some (n_devs (st_net s') !! d)
    | None => True
    end).
Proof.
  intros R Hex. unfold loopback_init, network_device_allocate. apply wp_bind, wp_bind, memory_alloc_wp.
  intros b w _ _ _. destruct b; cbn [negb]; [|by apply wp_ret, wp_ret]. wp_steps.
  set (d := fresh_id _). pose proof (fresh_id_None (n_devs (st_net s)) : n_devs (st_net s) !! d = None) as Hd.
  unfold network_device_register. wp_steps. eapply wp_of_run; [apply set_dev_ok; simpl; by rewrite lookup_insert_eq|].
  wp_steps. change (0 =? -1) with false. cbv iota. apply wp_ret.
  eapply registers_new; [done|done|done|exact Hd|simpl; by rewrite !insert_insert_eq|done|..|done|done].
  - done.
  - split; simpl; [unfold in_u16, LOOPBACK_MTU|]; lia.
Qed.

Lemma ether_tap_init_ok name addr s :
  stack_ready s -> devices_exist s ->
  wp (ether_tap_init name addr) s (fun r s' =>
    match r with
    | Some d => registers s s' /\ is_Some (n_devs (st_net s') !! d)
    | None => True
    end).
Proof.
  intros R Hex. unfold ether_tap_init, network_device_allocate. apply wp_bind, wp_bind, memory_alloc_wp.
  intros b w _ _ _. destruct b; cbn [negb]; [|by apply wp_ret, wp_ret]. wp_steps.
  set (d := fresh_id _). set (dev0 := ether_setup_helper network_device_zero).
  pose proof (fresh_id_None (n_devs (st_net s)) : n_devs (st_net s) !! d = None) as Hd.
  set (s1 := set_net _ _).
  (* the device gets its address, its operations, its private data and its name *)
  assert (wp (init_address d addr) s1 (fun _ s2 => exists a, length a = 16%nat /\
    s2 = set_net (set_devs (insert d (with_address a dev0))) (set_world (fun _ => w) s))) as Waddr.
  { assert (n_devs (st_net s1) !! d = Some dev0) as H1 by (unfold s1; simpl; by rewrite lookup_insert_eq).
    assert (s1 = set_net (set_devs (insert d (with_address (dev_address dev0) dev0))) (set_world (fun _ => w) s)) as E1 by done.
    unfold init_address. destruct addr as [a|]; [|apply wp_ret; by exists (dev_address dev0)].
    apply wp_bind. eapply wp_of_run; [by apply get_dev_ok|].
    pose proof (length_pton (Some a) (dev_address dev0)) as L.
    destruct (ether_addr_pton (Some a) (dev_address dev0)) as [r bs]. apply wp_bind.
    eapply wp_of_run; [by apply set_dev_ok|]. apply wp_ret. exists bs. split; [exact L|].
    unfold s1, set_net, set_devs. simpl. by rewrite insert_insert_eq. }
  eapply wp_mono; [exact Waddr|]. intros ok s2 (a & La & ->).
  destruct ok; cbn [negb]; [|by apply wp_ret]. apply wp_bind.
  eapply wp_of_run; [apply set_dev_ok; simpl; by rewrite lookup_insert_eq|].
  unfold ether_attach. apply wp_bind, memory_alloc_wp. intros b w' _ _ _. destruct b; cbn [negb]; [|by apply wp_ret].
  apply wp_bind. eapply wp_of_run; [apply set_dev_ok; simpl; by rewrite lookup_insert_eq|].
  unfold network_device_register. apply wp_bind. wp_steps.
  eapply wp_of_run; [apply set_dev_ok; simpl; by rewrite lookup_insert_eq|]. wp_steps.
  change (0 =? -1) with false. cbv iota. apply wp_bind.
  eapply wp_of_run; [apply get_dev_ok; simpl; by rewrite lookup_insert_eq|].
  set (dev := with_index_name _ _ _). set (s3 := set_net (set_devices _) _).
  assert (n_devs (st_net s3) = <[d := dev]> (n_devs (st_net s))) as E3
    by (unfold s3; simpl; by rewrite !insert_insert_eq).
  assert (registers s s3 /\ is_Some (n_devs (st_net s3) !! d)) as [Rg Hsome] by (by eapply registers_new).
  (* the request for the interrupt line *)
  apply wp_bind. unfold intr_request_irq. wp_steps. destruct (existsb _ _); [by wp_steps|].
  apply wp_bind, memory_alloc_wp. intros b w'' _ _ _. destruct b; cbn [negb]; by wp_steps.
Qed.

Lemma ip_allocate_interface_ok unicast netmask s :
  stack_ready s -> devices_exist s ->
  wp (ip_allocate_interface unicast netmask) s (fun r s' => registers s s' /\ n_devs (st_net s') = n_devs (st_net s) /\
    match r with
    | Some i => exists f, n_ifs (st_net s') !! i = Some f /\ if_dev f = None
    | None => True
    end).
Proof.
  intros R Hex. unfold ip_allocate_interface. apply wp_bind, memory_alloc_wp. intros b w _ _ _.
  assert (registers s (set_world (fun _ => w) s)) as R1.
  { by split_and!. }
  destruct b; cbn [negb]; [|by apply wp_ret].
  destruct (ip_string_to_address unicast 0) as [r u]. destruct (r =? -1); [by apply wp_ret|].
  destruct (ip_string_to_address netmask 0) as [r' m]. destruct (r' =? -1); [by apply wp_ret|]. wp_steps.
  pose proof (fresh_id_None (n_ifs (st_net s))) as Hfresh. split; [|split; [done|]].
  - destruct R1 as (Rr & Hd & ?). split; [by apply stack_ready_ifs|done].
  - eexists. simpl. rewrite lookup_insert_eq. done.
Qed.

(** Another route through an attached interface. *)
Lemma stack_ready_route s s' r ifaces :
  stack_ready s -> iface_ok s (rt_iface r) -> st_net s' = st_net s -> st_arp s' = st_arp s -> st_udp s' = st_udp s ->
  st_held s' = st_held s ->
  st_ip s' = IpState ifaces (ip_protocols (st_ip s)) (r :: ip_routes (st_ip s)) (ip_id (st_ip s)) -> stack_ready s'.
Proof.
  intros ((((N & W & Ha) & Hid & Hr & Hdim) & Hu & Wp) & Links & U & Ok) Hok En Ea Eu Eh Ei.
  unfold stack_ready, udp_ready, ip_ready, arp_ready. rewrite En, Ea, Eu, Eh, Ei. split_and!; try done.
  simpl. unfold iface_ok in *. rewrite En. by apply Forall_cons.
Qed.

Lemma ip_route_add_ok network netmask nexthop i s :
  stack_ready s -> iface_ok s i ->
  wp (ip_route_add network netmask nexthop i) s (fun _ s' =>
    stack_ready s' /\ st_net s' = st_net s /\ st_udp s' = st_udp s /\ st_sock s' = st_sock s).
Proof.
  intros R Hok. pose proof Hok as (f & d & dev & Hf & Hfd & Hd & _).
  assert (Preserves (fun s => (st_arp s, st_udp s, st_sock s, st_held s)) (ip_route_add network netmask nexthop i)) as P.
  { unfold ip_route_add, iface_dev, get_iface, get_dev. solve_preserves. by apply memory_alloc_frame. }
  eapply wp_mono.
  - apply (wp_preserves _ _ _ (fun _ s' => st_net s' = st_net s /\ (st_ip s' = st_ip s \/
      st_ip s' = IpState (ip_ifaces (st_ip s)) (ip_protocols (st_ip s))
        (IpRoute network netmask nexthop i :: ip_routes (st_ip s)) (ip_id (st_ip s)))) P).
    eapply ip_route_add_wp; [exact Hf|done|exact Hd|auto|auto].
  - intros r s' [[En Ei] E]. injection E as Ea Eu Es Eh. split_and!; try done.
    destruct Ei as [Ei|Ei].
    + eapply stack_ready_evolve; [apply devs_evolve_same; [|by rewrite En]|exact R].
      unfold ready_view. by rewrite Ea, Eu, Es, Eh, Ei, En.
    + by eapply (stack_ready_route s s' (IpRoute network netmask nexthop i)).
Qed.

(** Attaching an interface to a device. *)
Lemma stack_ready_attach s d i f dev :
  stack_ready s -> net_wf (st_net (set_net (set_devs (insert d (with_interfaces (i :: dev_interfaces dev) dev)))
    (set_net (set_ifs (insert i (IpInterface (Some d) (if_family f) (if_unicast f) (if_netmask f) (if_broadcast f)))) s))) ->
  n_devs (st_net s) !! d = Some dev -> n_ifs (st_net s) !! i = Some f -> if_dev f = None ->
  stack_ready (set_net (set_devs (insert d (with_interfaces (i :: dev_interfaces dev) dev)))
    (set_net (set_ifs (insert i (IpInterface (Some d) (if_family f) (if_unicast f) (if_netmask f) (if_broadcast f)))) s)).
Proof.
  intros ((((N & W & Ha) & Hid & Hr & Hdim) & Hu & Wp) & Links & U & Ok) N' Hd Hi Hnone.
  set (dev' := with_interfaces _ dev) in *. set (s' := set_net (set_devs _) _) in *.
  assert (forall j x, n_devs (st_net s) !! j = Some x -> exists x', n_devs (st_net s') !! j = Some x' /\ (dev_wf x -> dev_wf x')) as Old.
  { intros j x Hj. unfold s'. simpl. destruct (decide (d = j)) as [<-|Hne].
    - rewrite lookup_insert_eq. exists dev'. split; [done|]. rewrite Hd in Hj. by injection Hj as <-.
    - rewrite lookup_insert_ne by done. eauto. }
  assert (forall j x, n_devs (st_net s') !! j = Some x -> exists x0, n_devs (st_net s) !! j = Some x0 /\
    dev_mtu x = dev_mtu x0 /\ dev_address_len x = dev_address_len x0 /\ dev_flags x = dev_flags x0 /\ dev_ops x = dev_ops x0) as Inv.
  { intros j x Hj. unfold s' in Hj. simpl in Hj. apply lookup_insert_Some in Hj as [[<- <-]|[_ Hj]]; [by exists dev|by exists x]. }
  split_and!; [split_and!; [split_and!; [split_and!|..]|..]|..]; try done.
  - eapply Forall_impl; [exact Hr|]. intros r (g & d' & x & Hg & Hgd & Hx & Hwf).
    destruct (Old d' x Hx) as (x' & Hx' & Hwf'). exists g, d', x'. split_and!; auto.
    unfold s'. simpl. rewrite lookup_insert_ne; [done|]. intros Er. rewrite <- Er in Hg. congruence.
  - intros j x (x0 & Hx0 & E1 & E2 & _)%Inv. unfold dev_dims. rewrite E1, E2. by apply (Hdim j x0).
  - intros j x (x0 & Hx0 & _ & _ & E3 & E4)%Inv. rewrite E3, E4. by apply (Links j x0).
  - eapply Forall_impl; [exact Ok|]. intros p [Hh Hq]. split; [done|].
    eapply Forall_impl; [exact Hq|]. intros e ([x Hx] & ? & ?). destruct (Old _ _ Hx) as (x' & Hx' & _).
    split_and!; [by eexists|done|done].
Qed.

Lemma ip_register_interface_ok d i s f :
  stack_ready s -> devices_exist s -> is_Some (n_devs (st_net s) !! d) ->
  n_ifs (st_net s) !! i = Some f -> if_dev f = None ->
  wp (ip_register_interface d i) s (fun r s' => (r = 0 \/ r = -1) /\ registers s s' /\ (r = 0 -> iface_ok s' i)).
Proof.
  intros R Hex [dev Hd] Hi Hnone. pose proof R as ((((N & _) & _) & _) & _).
  unfold ip_register_interface. apply wp_bind. eapply wp_mono; [by apply (add_interface_wp d i s f dev)|].
  intros r s1 [(-> & -> & _)|(-> & N1 & Eip & Ew & Hi1 & Hd1 & Hg1 & E1)].
  { apply wp_ret. split; [by right|]. split; [done|]. intros Hr. discriminate Hr. }
  assert (stack_ready s1) as R1 by (subst s1; by apply stack_ready_attach).
  assert (iface_ok s1 i) as Ok1.
  { eexists _, d, _. split; [exact Hi1|]. split; [done|]. split; [exact Hd1|]. by destruct (N d dev Hd). }
  assert (registers s s1) as Rg1.
  { split_and!; [done| |by subst s1|by subst s1]. unfold devices_exist. subst s1. simpl.
    eapply Forall_impl; [exact Hex|]. intros j Hj. simpl in Hj. destruct (decide (d = j)) as [<-|Hne].
    - rewrite lookup_insert_eq. by eexists.
    - by rewrite lookup_insert_ne. }
  apply wp_bind. eapply wp_of_run; [by apply get_iface_ok|]. apply wp_bind.
  eapply wp_mono; [by apply ip_route_add_ok|]. intros route s2 (R2 & En & Eu & Es).
  assert (forall s3, stack_ready s3 -> st_net s3 = st_net s2 -> st_udp s3 = st_udp s2 -> st_sock s3 = st_sock s2 -> registers s s3) as Fin.
  { intros s3 R3 E3 Eu3 Es3. destruct Rg1 as (_ & Hx & Hu1 & Hs1). split_and!; [done| |congruence|congruence].
    unfold devices_exist in *. by rewrite E3, En. }
  destruct route as [route|]; wp_steps.
  - split; [by left|]. split; [|intros _; eapply iface_ok_ext; [|exact Ok1]; exact En].
    by apply Fin.
  - split; [by right|]. split; [by apply Fin|]. intros Hr. discriminate Hr.
Qed.

Lemma ip_set_default_gateway_ok i gateway s :
  stack_ready s -> devices_exist s -> iface_ok s i ->
  wp (ip_set_default_gateway i gateway) s (fun r s' => (r = 0 \/ r = -1) /\ registers s s').
Proof.
  intros R Hex Hok. unfold ip_set_default_gateway. destruct (ip_string_to_address gateway 0) as [r gw].
  destruct (r =? -1); [apply wp_ret; split; [by right|by split_and!]|].
  apply wp_bind. eapply wp_mono; [by apply ip_route_add_ok|]. intros route s1 (R1 & En & Eu & Es).
  assert (registers s s1) by (split_and!; try done; unfold devices_exist; by rewrite En).
  destruct route; apply wp_ret; auto.
Qed.

End Registration.
