(* ===== verification/App.v ===== *)
(** * The UDP echo application (apps/udp_app.c, include/params.h)

    [setup] and [main]: the arguments, the start of the stack, the socket and the
    rounds of the echo loop.  The signal handler's flag [terminate] is the argument
    a round starts with; a round that blocks in [sock_recvfrom] is a value, and
    [echo_resume] continues it. *)

From stdpp Require Import base numbers list option gmap strings.
From Stdlib Require Import ZArith Lia.
From S2P Require Import Prelude Util CLib Queue State Sync Net Ether Drivers Arp Ip Icmp Udp Sock Log Stack Softirq Boot.
Open Scope Z_scope.
Open Scope cmonad_scope.

Definition ETHER_TAP_NAME : string := "tap0".
Definition ETHER_TAP_HW_ADDR : string := "00:00:5e:00:53:01".
Definition ETHER_TAP_IP_ADDR : string := "192.0.2.2".
Definition ETHER_TAP_NETMASK : string := "255.255.255.0".
Definition DEFAULT_GATEWAY : string := "192.0.2.1".
Definition SOCKADDR_STR_LEN : nat := MAX_IP_ENDPOINT_STRING_LENGTH.

Section App.
Context {Mc : Machine}.

(** [on_signal], besides setting [terminate]. *)
Definition on_signal : C unit := network_interrupt;; ret tt.

Definition setup : C Z :=
  let! r := network_init in
  if r =? -1 then ret (-1)
  else
    let! dev := ether_tap_init ETHER_TAP_NAME (Some ETHER_TAP_HW_ADDR) in
    match dev with
    | None => ret (-1)
    | Some d =>
        let! iface := ip_allocate_interface ETHER_TAP_IP_ADDR ETHER_TAP_NETMASK in
        match iface with
        | None => ret (-1)
        | Some i =>
            let! r := ip_register_interface d i in
            if r =? -1 then ret (-1)
            else
              let! r := ip_set_default_gateway i DEFAULT_GATEWAY in
              if r =? -1 then ret (-1)
              else
                let! r := network_run in
                if r =? -1 then ret (-1) else ret 0
        end
    end.

(** [optarg] of <unistd.h>: a null pointer in a program that never calls [getopt]. *)
Definition optarg : option string := None.

(** The arguments: the endpoint to bind, or the message with which [main] returns
    -1. *)
Definition app_port (arg : string) (local : sockaddr_in) : string + sockaddr_in :=
  let port := (strtol 10 arg).1 in
  if (port <? 0) || (port >? 65535) then inl ("invalid port, port=" +:+ fmt_s optarg)%string
  else inr (SockaddrIn (sin_family local) (hton16 port) (sin_addr local)).

Definition app_args (argv : list string) : string + sockaddr_in :=
  let local := SockaddrIn AF_INET 0 0 in
  match argv with
  | [_; addr; port] =>
      let '(r, a) := ip_string_to_address addr (sin_addr local) in
      if r =? -1 then inl ("ip_string_to_address() failure, addr=" +:+ fmt_s optarg)%string
      else app_port port (SockaddrIn (sin_family local) (sin_port local) a)
  | [_; port] => app_port port local
  | _ => inl ("Usage: " +:+ fmt_s (head argv) +:+ " [addr] port" +:+ newline)%string
  end.

(** [main] up to the loop: the socket, or the message with which it returns -1. *)
Definition app_start (argv : list string) : C (string + Z) :=
  match app_args argv with
  | inl message => ret (inl message)
  | inr local =>
      let! r := setup in
      if r =? -1 then ret (inl "setup() failure"%string)
      else
        let! soc := sock_open AF_INET SOCK_DGRAM IPPROTO_UDP in
        if soc =? -1 then ret (inl "sock_open() failure"%string)
        else
          let! r := sock_bind soc local in
          if r =? -1 then ret (inl "sock_bind() failure"%string) else ret (inr soc)
  end.

(** What a round comes to: another round with the buffer and the address as they
    are now, the end of the loop, or a blocked thread. *)
Inductive app_outcome :=
| AppNext (buf : list Z) (foreign : sockaddr_in)
| AppBreak
| AppSleep (k : nat).

(** From the return of [sock_recvfrom] on. *)
Definition echo_answer (soc : Z) (o : sock_outcome) : C app_outcome :=
  match o with
  | SockSleep k => ret (AppSleep k)
  | SockReturn r foreign buf =>
      if r =? -1 then
        let! w := gets st_world in
        if w_errno w =? EINTR then ret (AppNext buf foreign)
        else log_line 69 "sock_recvfrom() failure"%string;; ret AppBreak
      else
        log_line 73 (fmt_d r +:+ " bytes data form " +:+ fmt_s (sockaddr_ntop foreign SOCKADDR_STR_LEN))%string;;
        opt OutOfBounds (hexdump buf r);;
        let! r' := sock_sendto soc buf r foreign in
        if r' =? -1 then log_line 69 "sock_sendto() failure"%string;; ret AppBreak else ret (AppNext buf foreign)
  end.

(** A round of [while (!terminate)]; the buffer has 1024 bytes. *)
Definition echo_round (terminate : bool) (soc : Z) (buf : list Z) (foreign : sockaddr_in) : C app_outcome :=
  if terminate then ret AppBreak
  else
    let! o := sock_recvfrom soc buf 1024 foreign in
    echo_answer soc o.

Definition echo_resume (k : nat) (soc : Z) (buf : list Z) (foreign : sockaddr_in) : C app_outcome :=
  let! o := sock_recvfrom_resume k buf 1024 foreign in
  echo_answer soc o.

(** After the loop. *)
Definition app_finish (soc : Z) : C Z :=
  udp_close soc;; network_shutdown;; ret 0.

(** ** Properties *)

Lemma setup_ok s :
  stack_ready s -> devices_exist s -> wp setup s (fun r s' => (r = 0 \/ r = -1) /\ (r = 0 -> registers s s')).
Proof.
  intros R Hex. unfold setup.
  assert (forall s' : stack, (-1 = 0 \/ -1 = -1) /\ (-1 = 0 -> registers s s')) as Fail
    by (intros s'; split; [by right|intros Hr; discriminate Hr]).
  apply wp_bind. eapply wp_mono; [by apply network_init_ok|]. intros r s1 [_ (R1 & E1 & _ & E3 & E4 & E5)].
  destruct (r =? -1); [by apply wp_ret|].
  assert (registers s s1) as Rg1 by (split_and!; try done; unfold devices_exist; by rewrite E1, E3).
  assert (forall s0 s2 s3, registers s0 s2 -> registers s2 s3 -> registers s0 s3) as Trans.
  { intros s0 s2 s3 (_ & _ & A & B) (R3 & H3 & A' & B'). split_and!; [done|done|congruence|congruence]. }
  apply wp_bind. eapply wp_mono; [apply ether_tap_init_ok; apply Rg1|]. intros [d|] s2 H2; [|by apply wp_ret].
  destruct H2 as [Rg2 Hd]. apply wp_bind. eapply wp_mono; [apply ip_allocate_interface_ok; apply Rg2|].
  intros [i|] s3 (Rg3 & Edev & Hi); [|by apply wp_ret]. destruct Hi as (f & Hf & Hnone).
  apply wp_bind. eapply wp_mono; [eapply ip_register_interface_ok; [apply Rg3|apply Rg3|by rewrite Edev|done|done]|].
  intros r4 s4 (Hr4 & Rg4 & Hok). destruct Hr4 as [->| ->]; [|by apply wp_ret].
  change (0 =? -1) with false. cbv iota. apply wp_bind.
  eapply wp_mono; [apply ip_set_default_gateway_ok; [apply Rg4|apply Rg4|by apply Hok]|].
  intros r5 s5 (Hr5 & Rg5). destruct Hr5 as [->| ->]; [|by apply wp_ret].
  change (0 =? -1) with false. cbv iota. apply wp_bind.
  eapply wp_mono; [apply network_run_wp; apply Rg5|]. intros r6 s6 (Hr6 & E).
  destruct Hr6 as [->| ->]; [|by apply wp_ret]. change (0 =? -1) with false. cbv iota. apply wp_ret.
  split; [by left|]. intros _. eapply Trans; [exact Rg1|]. eapply Trans; [exact Rg2|]. eapply Trans; [exact Rg3|].
  eapply Trans; [exact Rg4|]. eapply Trans; [exact Rg5|].
  destruct Rg5 as (R5 & H5 & _ & _). pose proof E as [V _]. unfold ready_view in V. injection V as V1 V2 V3 V4 V5 V6 V7 V8.
  split_and!; [by eapply stack_ready_evolve| |done|done].
  unfold devices_exist in *. rewrite V7. eapply Forall_impl; [exact H5|]. intros j [x Hx].
  destruct (devs_evolve_lookup _ _ _ _ E Hx) as (x' & Hx' & _). by eexists.
Qed.

(** Socket [soc] is a datagram socket on the open control block [k], which is [p]. *)
Definition serves (s : stack) (soc : Z) (k : nat) (p : udp_pcb) : Prop :=
  exists j x, sock_get soc = Some j /\ st_sock s !! j = Some x /\ sk_type x = SOCK_DGRAM /\ sk_family x = AF_INET /\
    sk_desc x = Z.of_nat k /\ st_udp s !! k = Some p /\ pcb_st p = UDP_PCB_STATE_OPEN.

(** The calls of a serving socket are those on its control block. *)
Lemma serves_calls s soc k p :
  serves s soc k p ->
  (forall buf n a, sock_recvfrom soc buf n a s = bind (udp_recvfrom (Z.of_nat k) n buf) (fun o => ret (sock_recv_finish a o)) s) /\
  (forall buf n a, sock_sendto soc buf n a s = udp_sendto (Z.of_nat k) buf n (Endpoint (sin_addr a) (sin_port a)) s) /\
  (forall a, sock_bind soc a s = udp_bind (Z.of_nat k) (Endpoint (sin_addr a) (sin_port a)) s).
Proof.
  intros (j & x & Hj & Hx & Ht & Hf & Hd & _).
  split_and!; intros; unfold sock_recvfrom, sock_sendto, sock_bind; rewrite Hj;
    (erewrite bind_ret by by apply get_sk_run); by rewrite Ht, Hf, Hd.
Qed.

(** Opening and binding work on the sockets and the control blocks only. *)
Lemma sock_net :
  (forall a b c, Preserves st_net (sock_open a b c)) /\ (forall soc a, Preserves st_net (sock_bind soc a)).
Proof.
  split; intros; unfold sock_open, sock_bind, sock_alloc, set_sk, get_sk, udp_open, udp_bind, udp_pcb_alloc, set_pcb,
    sched_ctx_init, ctx_set; solve_preserves.
Qed.

Lemma stack_ready_udp s s' : stack_ready s -> udp_ready s' -> st_net s' = st_net s -> stack_ready s'.
Proof. intros (_ & Links & U & Ok) R E. unfold stack_ready. by rewrite E. Qed.

Lemma app_start_wp (argv : list string) (w : world) :
  wp (app_start argv) (stack_boot w) (fun r s =>
    match r with
    | inl message => forall text, app_args argv = inl text -> message = text /\ s = stack_boot w
    | inr soc => stack_ready s /\ devices_exist s /\ sock_ready s /\ exists local k p,
        app_args argv = inr local /\ serves s soc k p /\
        pcb_local p = Endpoint (sin_addr local) (sin_port local) /\ pcb_queue p = []
    end).
Proof.
  unfold app_start. destruct (app_args argv) as [message|local]; [apply wp_ret; by intros text [= ->]|].
  destruct sock_net as [Pn Pb].
  assert (devices_exist (stack_boot w)) as Hex by by apply Forall_nil.
  apply wp_bind. eapply wp_mono; [apply setup_ok; [apply stack_boot_ready|done]|]. intros r s1 [Hc Hr].
  destruct (Z.eqb_spec r (-1)) as [|Hne]; [by apply wp_ret|].
  destruct Hc as [->|]; [|done]. destruct (Hr eq_refl) as (R1 & X1 & Eu1 & Es1). pose proof R1 as (U1 & _).
  assert (sock_ready s1) as S1 by (split; [done|]; rewrite Es1; apply boot_socks_wf).
  apply wp_bind. eapply wp_mono; [apply wp_preserves with (f := st_net); [done|by apply sock_open_wp]|].
  intros soc s2 [[S2 O2] N2]. destruct (Z.eqb_spec soc (-1)) as [|Hs]; [by apply wp_ret|].
  destruct O2 as [[? _]|(j & x & Hj & Ej & Hu & Hf & Ht & Cases)]; [done|].
  destruct Cases as [[? _]|[-> Hd]]; [done|]. destruct (Hd eq_refl) as (k & Hd1 & Hnew & Hk).
  pose proof (stack_ready_udp _ _ R1 (proj1 S2) N2) as R2.
  assert (serves s2 (Z.of_nat j) k fresh_pcb) as Sv.
  { exists j, x. split_and!; try done.
    - apply lookup_lt_Some in Hj. rewrite (proj1 (proj2 S1)) in Hj. unfold sock_get.
      destruct (_ || _) eqn:E; [lia|]. by rewrite Nat2Z.id.
    - by rewrite Ej, list_lookup_alter_eq, Hj. }
  pose proof (serves_calls _ _ _ _ Sv) as (_ & _ & Eb).
  apply wp_bind. eapply wp_mono.
  { apply wp_preserves with (f := st_net); [done|]. unfold wp. rewrite Eb.
    apply (udp_bind_wp _ _ _ (fun r s3 => r = -1 \/ sock_ready s3 /\ serves s3 (Z.of_nat j) k
      (with_local (Endpoint (sin_addr local) (sin_port local)) fresh_pcb))); [apply S2|by left|].
    intros k' s3 Hget _ O Wf. right.
    rewrite (pcb_get_open _ _ _ (proj1 (proj2 (proj2 (proj1 S2)))) Hk) in Hget by done. injection Hget as <-.
    destruct (udp_only_ready _ _ _ (proj1 S2) O Wf) as [R3 _]. destruct (udp_only_sock _ _ _ O) as [Es3 Eu3]. split.
    - eapply sock_ready_keep; [exact S2|done|done|]. rewrite Eu3. intros i. by apply alter_open.
    - destruct Sv as (j' & x' & ? & ? & ? & ? & ? & ? & ?). exists j', x'. rewrite Es3, Eu3. split_and!; try done.
      unfold bound. by rewrite list_lookup_alter_eq, Hk. }
  intros r3 s3 [Hb N3]. destruct (Z.eqb_spec r3 (-1)) as [|Hr3]; [by apply wp_ret|].
  destruct Hb as [?|[S3 Sv3]]; [done|]. apply wp_ret.
  split; [eapply stack_ready_udp; [exact R2|apply S3|done]|].
  split; [unfold devices_exist; by rewrite N3, N2|]. split; [done|].
  eexists local, k, _. split_and!; [done|exact Sv3|done|done].
Qed.


(** The end of [main], with whatever control block [udp_close] finds. *)
Lemma app_finish_wp soc s :
  stack_ready s -> devices_exist s -> wp (app_finish soc) s (fun r s' => r = 0 /\ stack_ready s').
Proof.
  intros R Hd. assert (forall s1, stack_ready s1 -> st_net s1 = st_net s ->
    wp (network_shutdown;; ret 0) s1 (fun r s' => r = 0 /\ stack_ready s')) as Fin.
  { intros s1 R1 E. apply wp_bind. eapply wp_mono; [apply network_shutdown_wp; [done|]|].
    - unfold devices_exist. by rewrite E.
    - intros u s2 Ev. apply wp_ret. split; [done|]. exact (stack_ready_evolve _ _ Ev R1). }
  pose proof R as (U & _). unfold app_finish. apply wp_bind, udp_close_wp; [done|intros _; by apply (Fin s)|].
  intros k s1 pcbs _ O Wf _. destruct (udp_only_ready _ _ _ U O Wf) as [U1 _].
  assert (st_net s1 = st_net s) as E by (by destruct O as (w & ->)).
  apply (Fin s1); [|done]. by eapply stack_ready_udp.
Qed.

(** The table of control blocks changes, the socket serves on. *)
Lemma serves_udp_only s soc k p pcbs p' s' :
  serves s soc k p -> udp_only s pcbs s' -> pcbs !! k = Some p' -> pcb_st p' = UDP_PCB_STATE_OPEN -> serves s' soc k p'.
Proof.
  intros (j & x & ? & ? & ? & ? & ? & _) O Hk Ho. destruct (udp_only_sock _ _ _ O) as [Es Eu].
  exists j, x. by rewrite Es, Eu.
Qed.

Lemma local_address_udp_only s s' pcbs p p' foreign addr :
  udp_only s pcbs s' -> pcb_local p' = pcb_local p -> local_address s' p' foreign addr -> local_address s p foreign addr.
Proof. intros (w & ->) E. unfold local_address. by rewrite E. Qed.

(** What a round has done when it comes to [r]: [payload] went to [foreign] from
    the endpoint of the control block [p], by the call of [udp_output] whose result
    decides on the next round. *)
Definition echoed (s : stack) (p : udp_pcb) (fam : Z) (foreign : endpoint) (payload : list Z) (r : app_outcome) (s' : stack) : Prop :=
  exists addr buf t z,
    local_address s p foreign addr /\ st_net t = st_net s /\ st_ip t = st_ip s /\
    take (length payload) buf = payload /\ length buf = 1024%nat /\
    udp_output (Endpoint addr (ep_port (pcb_local p))) foreign buf (Z.of_nat (length payload)) t = Ret z s' /\
    r = (if z =? -1 then AppBreak else AppNext buf (SockaddrIn fam (ep_port foreign) (ep_address foreign))).

(** From the return of the receive call on. *)
Lemma echo_answer_wp s t soc k p p' pcbs fam foreign payload rest :
  sock_ready s -> serves s soc k p -> udp_only s pcbs t -> pcbs_wf pcbs -> pcbs !! k = Some p' ->
  pcb_st p' = UDP_PCB_STATE_OPEN -> pcb_local p' = pcb_local p -> ep_port (pcb_local p) <> 0 ->
  (forall j, j <> k -> pcbs !! j = st_udp s !! j) ->
  is_Some (ip_route_lookup (ip_routes (st_ip s)) (ep_address foreign)) ->
  length (payload ++ rest) = 1024%nat ->
  wp (echo_answer soc (SockReturn (Z.of_nat (length payload)) (SockaddrIn fam (ep_port foreign) (ep_address foreign)) (payload ++ rest)))
    t (fun r s' => echoed s p fam foreign payload r s' /\ sock_ready s').
Proof.
  intros S Sv O Wf Hk Ho Hl Hport Hopen [rt Hrt] Hlen. pose proof (serves_udp_only _ _ _ _ _ _ _ Sv O Hk Ho) as Svt.
  destruct (udp_only_ready _ _ _ (proj1 S) O Wf) as [Rt _]. destruct (udp_only_sock _ _ _ O) as [Es Eu].
  unfold echo_answer. destruct (Z.eqb_spec (Z.of_nat (length payload)) (-1)); [lia|]. apply wp_bind, wp_ret.
  destruct (hexdump_in (payload ++ rest) (Z.of_nat (length payload))) as [text ->];
    [rewrite length_app in Hlen; lia|rewrite length_app; lia|]. apply wp_bind, wp_ret. pose proof (serves_calls _ _ _ _ Svt) as (_ & Esend & _).
  assert (Endpoint (ep_address foreign) (ep_port foreign) = foreign) as Ef by by destruct foreign.
  apply wp_bind. unfold wp at 1. rewrite Esend. cbn [sin_addr sin_port]. rewrite Ef. apply udp_sendto_wp; [done|..].
  - intros [Hn|Hn]; exfalso.
    + rewrite Eu, (pcb_get_open _ _ p') in Hn; [done|apply Wf|done|done].
    + destruct O as (w & ->). simpl in Hn. congruence.
  - intros k' q addr Hget Hq Ha. rewrite Eu, (pcb_get_open _ _ p') in Hget; [|apply Wf|done|done]. injection Hget as <-.
    rewrite Eu, Hk in Hq. injection Hq as <-. rewrite Hl. split; [|intros; congruence]. intros _.
    assert (wp (udp_output (Endpoint addr (ep_port (pcb_local p))) foreign (payload ++ rest) (Z.of_nat (length payload))) t
      (fun _ s' => sock_ready s')) as W.
    { apply (udp_output_sock _ _ _ _ t s); [done|done|done| |rewrite length_app; lia]. rewrite Eu.
      intros j (q & Hq & Hqo). destruct (decide (j = k)) as [->|Hne]; [by exists p'|]. exists q. by rewrite Hopen. }
    unfold wp in W |- *. destruct (udp_output _ _ _ _ t) as [z s'|] eqn:E; [|done].
    destruct (z =? -1) eqn:Ez; (split; [|done]); exists addr, (payload ++ rest), t, z; rewrite Ez;
      (split_and!; [by eapply local_address_udp_only|by destruct O as (w & ->)|by destruct O as (w & ->)
        |by rewrite take_app_length|done|done|done]).
Qed.

(** What the receive call gives for a datagram with [n] bytes of data, of which the
    buffer takes 1024. *)
Lemma recv_finish_entry (foreign : sockaddr_in) (buf : list Z) (ep : endpoint) (d : list Z) :
  length buf = 1024%nat ->
  let payload := take 1024 d in
  sock_recv_finish foreign (recv_entry 1024 buf (UdpQueueEntry ep (Z.of_nat (length d)) d))
  = SockReturn (Z.of_nat (length payload)) (SockaddrIn (sin_family foreign) (ep_port ep) (ep_address ep))
      (payload ++ drop (length payload) buf) /\
  length (payload ++ drop (length payload) buf) = 1024%nat.
Proof.
  intros L payload. assert (Z.min 1024 (Z.of_nat (length d)) = Z.of_nat (length payload)) as E
    by (unfold payload; rewrite length_take; lia).
  assert (length payload <= 1024)%nat as Hle by (unfold payload; rewrite length_take; lia).
  split; [|rewrite length_app, length_drop; lia]. unfold recv_entry, sock_recv_finish. cbn [uqe_len uqe_data uqe_foreign].
  rewrite E, Nat2Z.id, s32_small by lia.
  destruct (Z.eqb_spec (Z.of_nat (length payload)) (-1)); [lia|]. simpl.
  assert (take (length payload) d = payload) as -> by (unfold payload; rewrite length_take; destruct (decide (1024 <= length d)%nat);
      [by rewrite Nat.min_l|rewrite Nat.min_r, !take_ge by lia; done]).
  done.
Qed.

(** C17. The echo server echoes: a round on a bound socket with nothing queued
    sleeps; a datagram for the socket, with a verifying checksum, then wakes it (if
    an allocation does not fail), and the round goes on to send the datagram's data,
    up to the 1024 bytes of the buffer, back to the endpoint it came from, from the
    endpoint the socket is bound to; another round follows unless the transmission
    failed, and the sockets stay isolated. *)
Theorem echo_server_echoes (s : stack) (soc : Z) (k : nat) (p : udp_pcb) (buf : list Z) (foreign : sockaddr_in)
    (data : list Z) (len src dst sport dport : Z) (i : iface_id)
    (S : sock_ready s) (Sv : serves s soc k p) (Hempty : pcb_queue p = []) (Hint : sc_interrupted (pcb_ctx p) = 0)
    (Hport : ep_port (pcb_local p) <> 0) (Hbuf : length buf = 1024%nat)
    (Hlen : 8 <= len <= Z.of_nat (length data)) (H16 : len <= 65535)
    (Hs0 : rd16 data 0 = Some sport) (Hd2 : rd16 data 2 = Some dport)
    (H4 : ntoh16 <$> rd16 data 4 = Some len) (Hv : udp_verifies data len src dst)
    (Hsel : udp_pcb_select (st_udp s) dst dport = Some k)
    (Hroute : is_Some (ip_route_lookup (ip_routes (st_ip s)) src)) :
  wp (echo_round false soc buf foreign) s (fun r s1 => r = AppSleep k /\
    (w_alloc (st_world s1) = [] ->
     wp (udp_input data len src dst i) s1 (fun _ s2 =>
       sc_cond <$> (pcb_ctx <$> st_udp s2 !! k) = Some 0 /\
       wp (echo_resume k soc buf foreign) s2 (fun r s3 =>
         echoed s p (sin_family foreign) (Endpoint src sport) (take 1024 (take (Z.to_nat (len - 8)) (drop 8 data))) r s3 /\
         sock_ready s3)))).
Proof.
  pose proof Sv as (j & x & _ & _ & _ & _ & _ & Hk & Ho). pose proof S as [U _].
  pose proof (serves_calls _ _ _ _ Sv) as (Erecv & _). unfold echo_round. apply wp_bind. unfold wp at 1. rewrite Erecv.
  apply wp_bind. eapply wp_mono.
  { eapply (blocked_receiver_wp (Z.of_nat k) 1024 buf s k p data len src dst sport dport i); try done; [by rewrite Hbuf|].
    apply (pcb_get_open _ _ p); [apply U|done|done]. }
  intros r s1 [-> H1]. apply wp_ret. cbn [sock_recv_finish]. apply wp_ret. split; [done|]. intros Ha.
  eapply wp_mono; [by apply H1|]. intros u s2 [Hc H2]. split; [done|].
  unfold echo_resume, sock_recvfrom_resume. apply wp_bind, wp_bind. eapply wp_mono; [exact H2|].
  intros r s3 (-> & pcbs & p' & O & Wf & Hk' & Ho' & Hl & Hothers). apply wp_ret.
  set (d := take (Z.to_nat (len - 8)) (drop 8 data)).
  assert (len - 8 = Z.of_nat (length d)) as -> by (unfold d; rewrite length_take, length_drop; lia).
  destruct (recv_finish_entry foreign buf (Endpoint src sport) d Hbuf) as [-> L].
  by eapply echo_answer_wp.
Qed.

End App.

(** ** A concrete server *)

#[local] Existing Instance little_endian_machine.

(** The host of the UDP examples, with a socket on its control block. *)
Definition echo_host : stack :=
  set_sock (alter (fun _ => Sock 1 AF_INET SOCK_DGRAM 0) 0%nat) udp_host.

Lemma echo_host_ready : sock_ready echo_host.
Proof.
  split; [exact udp_host_ready|]. eapply socks_wf_put; [apply boot_socks_wf|reflexivity|done|].
  intros _. right. split; [by exists 0%nat; split; [|exists echo_pcb]|].
  intros i y _ Hy. by apply lookup_replicate_1 in Hy as [-> _].
Qed.

Lemma echo_server_echoes_witness :
  wp (echo_round (Mc := little_endian_machine) false 0 (replicate 1024 0) (SockaddrIn AF_INET 0 0)) echo_host
    (fun r _ => r = AppSleep 0).
Proof.
  eapply wp_mono.
  - apply (echo_server_echoes (Mc := little_endian_machine) echo_host 0 0 echo_pcb (replicate 1024 0) (SockaddrIn AF_INET 0 0)
      sample_datagram 9 0x0200000a 0x0100000a 0x3930 0x0700 1%nat);
      [exact echo_host_ready| |reflexivity|reflexivity|discriminate|reflexivity|vm_compute; split; discriminate|lia
      |vm_compute; reflexivity|vm_compute; reflexivity|vm_compute; reflexivity| |vm_compute; reflexivity
      |vm_compute; by eexists].
    + exists 0%nat, (Sock 1 AF_INET SOCK_DGRAM 0). split_and!; reflexivity.
    + exists (default 0 (pseudo_sum 0x0200000a 0x0100000a 9)). split; vm_compute; reflexivity.
  - by intros r s1 [? _].
Defined.

(** With every call of the environment succeeding, [udp_app 7] gets to its loop. *)
Example app_start_succeeds :
  match app_start (Mc := little_endian_machine) ["udp_app"; "7"]%string (stack_boot (world_quiet (Timeval 0 0))) with
  | Ret r s => r = inr 0 /\ ip_route_lookup (ip_routes (st_ip s)) 0x01010101 <> None
  | Fault _ => False
  end.
Proof. vm_compute. split; [reflexivity|discriminate]. Qed.

(** [udp_app 0] does not: a fresh control block answers for port 0 of any address,
    so that no socket can be bound to it. *)
Example app_port_zero_refused :
  match app_start (Mc := little_endian_machine) ["udp_app"; "0"]%string (stack_boot (world_quiet (Timeval 0 0))) with
  | Ret r s => r = inl "sock_bind() failure"%string
  | Fault _ => False
  end.
Proof. vm_compute. reflexivity. Qed.

(** The messages for bad arguments print the null [optarg]; without a port there is
    no default, only the usage. *)
Example app_args_messages :
  app_args (Mc := little_endian_machine) ["udp_app"; "70000"]%string = inl "invalid port, port=(null)"%string /\
  app_args (Mc := little_endian_machine) ["udp_app"; "x"; "7"]%string
  = inl "ip_string_to_address() failure, addr=(null)"%string /\
  app_args (Mc := little_endian_machine) ["udp_app"]%string = inl ("Usage: udp_app [addr] port" +:+ newline)%string.
Proof. vm_compute. auto. Qed.
