(* ===== verification/TestApps.v ===== *)
(** * The test programs (apps/client.c, apps/server.c)

    Both open a socket of the stack with [sock_open] and then hand its number to the
    system's own socket calls, which are no part of the stack: those calls are a
    parameter, answered by the operating system from the calls made before, and a
    program is the calls it makes, its exit code and the stack it leaves.  Their
    output is not modelled but for the reads it makes.  [struct sockaddr_in] is the one
    of sock.h, 8 bytes: a system call that touches more of it is a fault. *)

From stdpp Require Import base numbers list option gmap strings.
From Stdlib Require Import ZArith Lia.
From S2P Require Import Prelude Util CLib Queue State Sync Net Ether Drivers Arp Ip Icmp Udp Sock Boot.
Open Scope Z_scope.
Open Scope cmonad_scope.

Definition SERVER_IP : string := "127.0.0.1".
Definition SERVER_PORT : Z := 4000.

(** A call of the system's socket interface, on a file descriptor. *)
Inductive oscall :=
| OsBind (fd : Z) (addr : sockaddr_in) (addrlen : Z)
| OsSendto (fd : Z) (data : list Z) (addr : sockaddr_in) (addrlen : Z)
| OsRecvfrom (fd : Z) (size : Z) (addrlen : Z)
| OsClose (fd : Z).

Definition oscall_fd (c : oscall) : Z :=
  match c with OsBind fd _ _ | OsSendto fd _ _ _ | OsRecvfrom fd _ _ | OsClose fd => fd end.

(** What the system answers after the calls made so far: a result; for [recvfrom] the
    bytes it writes to the buffer, and the address and its length afterwards.
    [inet_pton] gives a result and an address.  [inet_ntoa] is not declared in
    server.c, so its pointer comes back as an [int]: the text at what is left of it,
    [None] when that is no pointer to a string. *)
Class Os := {
  os_inet_pton : string -> Z * Z;
  os_inet_ntoa : Z -> option string;
  os_bind : list oscall -> Z;
  os_sendto : list oscall -> Z;
  os_recvfrom : list oscall -> Z * list Z * sockaddr_in * Z;
}.

(** The documented bound of [recvfrom]: at most the buffer's size is received. *)
Definition os_recv_bounded `{Os} (size : Z) : Prop :=
  forall h r d a n, os_recvfrom h = (r, d, a, n) -> r <> -1 -> r = Z.of_nat (length d) /\ r <= size.

Section TestApps.
Context {Mc : Machine} {Sys : Os}.

(** The text "Hello from client" in a zeroed array of 1024 bytes. *)
Definition client_text : list Z :=
  [72; 101; 108; 108; 111; 32; 102; 114; 111; 109; 32; 99; 108; 105; 101; 110; 116].
Definition client_buf : list Z := client_text ++ replicate 1007 0.

(** [strlen] and [%s] read up to the first NUL; [None] when the array has none. *)
Definition c_strlen (buf : list Z) : option Z :=
  match list_find (fun b => b = 0) buf with
  | Some (i, _) => Some (Z.of_nat i)
  | None => None
  end.

(** [main] of client.c: the exit code and the system calls in order. *)
Definition client_main : C (Z * list oscall) :=
  let addr := SockaddrIn AF_INET 0 0 in
  let buf := client_buf in
  let addrlen := sockaddr_in_size in
  let '(r, a) := os_inet_pton SERVER_IP in
  if r =? -1 then ret (1, [])
  else
    let addr := SockaddrIn (sin_family addr) (hton16 SERVER_PORT) a in
    let! soc := sock_open AF_INET SOCK_DGRAM IPPROTO_UDP in
    if soc =? -1 then ret (1, [])
    else
      let! n := opt OutOfBounds (c_strlen buf) in
      let! data := opt OutOfBounds (rdn buf 0 (Z.to_nat n)) in
      let h := [OsSendto soc data addr addrlen] in
      if os_sendto h =? -1 then ret (1, h ++ [OsClose soc])
      else
        let h := h ++ [OsRecvfrom soc (Z.of_nat (length buf)) addrlen] in
        let '(r, d, _, _) := os_recvfrom h in
        (if negb (r =? -1) then
           let buf := d ++ drop (length d) buf in
           opt OutOfBounds (c_strlen buf);; ret tt
         else ret tt);;
        ret (0, h ++ [OsClose soc]).

(** A round of server.c's loop, after the calls [h]. *)
Inductive server_outcome :=
| ServerNext (h : list oscall) (buf : list Z) (addr : sockaddr_in) (addrlen : Z)
| ServerExit (code : Z) (h : list oscall).

(** [recvfrom] writes as much of the sender's address as the length it is given
    allows, and stores the address's own length; [printf] follows the pointer of
    [inet_ntoa]; [sendto] reads as much of the address as its length says. *)
Definition server_round (soc : Z) (h : list oscall) (buf : list Z) (addrlen : Z) : C server_outcome :=
  let h := h ++ [OsRecvfrom soc (Z.of_nat (length buf)) addrlen] in
  let '(r, d, addr, addrlen') := os_recvfrom h in
  if r =? -1 then ret (ServerExit 1 (h ++ [OsClose soc]))
  else if Z.min addrlen addrlen' >? sockaddr_in_size then throw OutOfBounds
  else
    let addrlen := addrlen' in
    let buf := d ++ drop (length d) buf in
    opt OutOfBounds (os_inet_ntoa (sin_addr addr));;
    let! data := opt OutOfBounds (rdn buf 0 (Z.to_nat r)) in
    if addrlen >? sockaddr_in_size then throw OutOfBounds
    else
      let h := h ++ [OsSendto soc data addr addrlen] in
      if os_sendto h =? -1 then ret (ServerExit 1 (h ++ [OsClose soc]))
      else ret (ServerNext h buf addr addrlen).

(** [while (1)], for as many rounds as are looked at. *)
Fixpoint server_loop (rounds : nat) (soc : Z) (h : list oscall) (buf : list Z) (addr : sockaddr_in) (addrlen : Z) : C server_outcome :=
  match rounds with
  | O => ret (ServerNext h buf addr addrlen)
  | S rounds =>
      let! o := server_round soc h buf addrlen in
      match o with
      | ServerNext h buf addr addrlen => server_loop rounds soc h buf addr addrlen
      | ServerExit code h => ret (ServerExit code h)
      end
  end.

(** [main] of server.c; the 1024 bytes of [buf] are not initialised. *)
Definition server_main (rounds : nat) (buf : list Z) : C server_outcome :=
  let addr := SockaddrIn AF_INET (hton16 SERVER_PORT) 0 in
  let addrlen := sockaddr_in_size in
  let! soc := sock_open AF_INET SOCK_DGRAM IPPROTO_UDP in
  if soc =? -1 then ret (ServerExit (-1) [])
  else
    let h := [OsBind soc addr addrlen] in
    if os_bind h =? -1 then ret (ServerExit 1 (h ++ [OsClose soc]))
    else server_loop rounds soc h buf addr addrlen.

(** ** Properties *)

Lemma c_strlen_zero buf i : buf !! i = Some 0 -> is_Some (c_strlen buf).
Proof.
  intros H. unfold c_strlen. destruct (list_find _ buf) as [[j x]|] eqn:E; [by eexists|].
  apply list_find_None in E. pose proof (Forall_lookup_1 _ _ _ _ E H). done.
Qed.

(** A process starts with no device, no protocol and every slot free: [sock_open]
    gives it slot 0 and asks nothing of the environment. *)
Definition first_socket (w : world) : stack :=
  set_udp (insert 0%nat fresh_pcb) (set_sock (insert 0%nat (Sock 1 AF_INET SOCK_DGRAM 0)) (stack_boot w)).

Lemma sock_open_boot w : sock_open AF_INET SOCK_DGRAM IPPROTO_UDP (stack_boot w) = Ret 0 (first_socket w).
Proof. vm_compute. reflexivity. Qed.

(** The client, run in a fresh process with any system whose [recvfrom] delivers
    fewer than 1024 bytes, exits: every socket call it makes is one of the system, on
    file descriptor 0, the number [sock_open] gave it, and the stack has one more open
    socket and is otherwise as it was, its environment included. *)
Theorem client_main_bypasses_stack (w : world) (Hb : os_recv_bounded 1023) :
  exists code h s, client_main (stack_boot w) = Ret (code, h) s /\
    Forall (fun c => oscall_fd c = 0) h /\ (s = stack_boot w \/ s = first_socket w) /\ st_world s = w.
Proof.
  assert (st_world (stack_boot w) = w /\ st_world (first_socket w) = w) as [W0 W1] by done.
  cut (wp client_main (stack_boot w) (fun o s => Forall (fun c => oscall_fd c = 0) o.2 /\ (s = stack_boot w \/ s = first_socket w))).
  { intros (a & s & E & F & C)%wp_run. exists a.1, a.2, s. destruct a. split; [done|]. split; [done|]. split; [done|]. by destruct C as [->| ->]. }
  unfold client_main. destruct (os_inet_pton _) as [r a]. destruct (r =? -1); [apply wp_ret; split; [by constructor|by left]|].
  apply wp_bind. eapply wp_of_run; [apply sock_open_boot|]. change (0 =? -1) with false. cbv iota.
  change (c_strlen client_buf) with (Some 17). apply wp_bind, wp_ret. apply wp_bind. rewrite rdn_in by (vm_compute; lia). apply wp_ret.
  set (h := [OsSendto _ _ _ _]). assert (Forall (fun c => oscall_fd c = 0) h) as Hh by (by repeat constructor).
  destruct (_ =? -1); [apply wp_ret; split; [by repeat constructor|by right]|].
  destruct (os_recvfrom _) as [[[n d] a'] n'] eqn:E. apply wp_bind.
  assert (forall Q : unit -> stack -> Prop, Q tt (first_socket w) -> wp (if negb (n =? -1) then opt OutOfBounds (c_strlen (d ++ drop (length d) client_buf));; ret tt else ret tt) (first_socket w) Q) as Read.
  { intros Q HQ. destruct (Z.eqb_spec n (-1)) as [|Hn]; [by apply wp_ret|]. destruct (Hb _ _ _ _ _ E Hn) as [-> Hd]. cbn [negb].
    destruct (c_strlen_zero (d ++ drop (length d) client_buf) 1023) as [k ->]; [|by apply wp_bind, wp_ret, wp_ret].
    rewrite lookup_app_r, lookup_drop by lia. replace (length d + (1023 - length d))%nat with 1023%nat by lia. reflexivity. }
  apply Read. apply wp_ret. split; [by repeat constructor|by right].
Qed.

(** The server never answers: on a system whose [bind] and [recvfrom] work and report
    the length of an IPv4 socket address (16 bytes, more than the 8 of the program's
    own [struct sockaddr_in]), the first round ends in a fault, at the latest when
    [sendto] is made to read 16 bytes of the 8; and no round is ever completed. *)
Theorem server_main_overreads (rounds : nat) (buf : list Z) (w : world) (r : Z) (d : list Z) (a : sockaddr_in) (n : Z)
    (Hbind : os_bind [OsBind 0 (SockaddrIn AF_INET (hton16 SERVER_PORT) 0) sockaddr_in_size] <> -1)
    (Hrecv : os_recvfrom [OsBind 0 (SockaddrIn AF_INET (hton16 SERVER_PORT) 0) sockaddr_in_size;
               OsRecvfrom 0 (Z.of_nat (length buf)) sockaddr_in_size] = (r, d, a, n))
    (Hr : r <> -1) (Hn : sockaddr_in_size < n) :
  server_main (S rounds) buf (stack_boot w) = Fault OutOfBounds.
Proof.
  unfold server_main. erewrite bind_ret by apply sock_open_boot. change (0 =? -1) with false. cbv iota.
  replace (os_bind _ =? -1) with false by lia. cbn [server_loop]. apply bind_fault. unfold server_round.
  cbn [app]. rewrite Hrecv. replace (r =? -1) with false by lia.
  replace (Z.min sockaddr_in_size n >? sockaddr_in_size) with false by lia.
  destruct (os_inet_ntoa (sin_addr a)); [|done]. erewrite bind_ret by reflexivity.
  destruct (rdn _ 0 _); [|done]. erewrite bind_ret by reflexivity.
  by replace (n >? sockaddr_in_size) with true by lia.
Qed.

End TestApps.

(** ** Concrete systems *)

(** A system on which every call succeeds and [recvfrom] receives [d]. *)
Definition os_receiving (d : list Z) : Os := {|
  os_inet_pton _ := (1, 0x0100007f);
  os_inet_ntoa _ := Some "127.0.0.1"%string;
  os_bind _ := 0;
  os_sendto _ := 0;
  os_recvfrom _ := (Z.of_nat (length d), d, SockaddrIn AF_INET 0 0x0100007f, 16)
|}.

Lemma os_receiving_bounded d size : Z.of_nat (length d) <= size -> os_recv_bounded (H := os_receiving d) size.
Proof. intros H h r d' a n [= <- <- <- <-] _. by split. Qed.

Lemma client_main_bypasses_stack_witness :
  exists code h s, client_main (Mc := little_endian_machine) (Sys := os_receiving [72; 105]) (stack_boot (world_quiet (Timeval 0 0))) = Ret (code, h) s /\
    Forall (fun c => oscall_fd c = 0) h.
Proof.
  destruct (client_main_bypasses_stack (Mc := little_endian_machine) (Sys := os_receiving [72; 105]) (world_quiet (Timeval 0 0)))
    as (code & h & s & E & F & _); [apply os_receiving_bounded; simpl; lia|]. by exists code, h, s.
Defined.

Lemma server_main_overreads_witness :
  server_main (Mc := little_endian_machine) (Sys := os_receiving [72; 105]) 1 (replicate 1024 0) (stack_boot (world_quiet (Timeval 0 0)))
  = Fault OutOfBounds.
Proof.
  apply (server_main_overreads (Mc := little_endian_machine) (Sys := os_receiving [72; 105]) 0 (replicate 1024 0)
    (world_quiet (Timeval 0 0)) 2 [72; 105] (SockaddrIn AF_INET 0 0x0100007f) 16);
    [discriminate|reflexivity|discriminate|reflexivity].
Defined.

(** An answer that fills the buffer leaves the client's text without its NUL. *)
Lemma client_overreads :
  client_main (Mc := little_endian_machine) (Sys := os_receiving (replicate 1024 65)) (stack_boot (world_quiet (Timeval 0 0)))
  = Fault OutOfBounds.
Proof. vm_compute. reflexivity. Qed.
