(* ===== verification/System.v ===== *)
(** * The running system: threads, signals and calls interleaved

    After start-up two kinds of thread work on the stack: the interrupt thread,
    whose rounds take a pending signal each (handler/interrupt.c), and the threads of
    the application, which call the functions of sock.c.  This file follows their
    interleavings: [sys_op] is what a thread does between two points where another
    may take over, and [reachable] the states they lead to from program start. *)

From stdpp Require Import base numbers list option gmap strings.
From Stdlib Require Import ZArith Lia.
From S2P Require Import Prelude Util CLib Queue State Sync Net Ether Drivers Arp Ip Icmp Udp Sock Stack Softirq Boot App.
Open Scope Z_scope.
Open Scope cmonad_scope.

(** ** Queueing keeps the invariant *)

Section Queueing.
Context {Mc : Machine}.

(** The part of the invariant outside the protocol queues. *)
Lemma udp_ready_frame s s' :
  udp_ready s -> driver_frame s' = driver_frame s -> n_devs (st_net s') = n_devs (st_net s) -> udp_ready s'.
Proof.
  intros U F D. apply driver_frame_inv in F as (E1 & E2 & E3 & _ & _ & E6 & E7 & _).
  eapply udp_ready_ext; [exact U|done|done|done|by rewrite E2|done|done].
Qed.

Lemma stack_ready_queues s s' :
  stack_ready s -> udp_ready s' -> queues (queued_ok (st_net s)) s s' -> stack_ready s'.
Proof.
  intros R U' [D Hq]. pose proof R as (_ & Links & U & Ok).
  assert (n_protocols (st_net s') = n_protocols (st_net s) -> stack_ready s') as Same.
  { intros P. split_and!; [done|unfold arp_links; by rewrite D|unfold protocols_unique; by rewrite P|].
    rewrite P. eapply Forall_impl; [exact Ok|]. intros p [? Hp]. split; [done|].
    eapply Forall_impl; [exact Hp|]. intros x. unfold queued_ok. by rewrite D. }
  destruct Hq as [P|(ty & e & P & Hok)]; [by apply Same|].
  unfold enqueue in P. destruct (list_find _ _) as [[i p]|] eqn:E; [|by apply Same].
  apply find_type_Some in E as [Hi Ety]. eapply stack_ready_queue; [done|exact R|done|exact Hi| |exact P].
  rewrite Forall_lookup in Ok. destruct (Ok i p Hi) as [_ Hp].
  apply Forall_app. split; [done|]. apply Forall_singleton. by rewrite Ety.
Qed.

(** What a driver leaves of the state, and what it takes of the environment. *)
Definition input_view (s : stack) := (driver_frame s, n_devs (st_net s), w_sys (st_world s)).

Lemma input_view_inv s s' :
  input_view s' = input_view s ->
  driver_frame s' = driver_frame s /\ n_devs (st_net s') = n_devs (st_net s) /\ w_sys (st_world s') = w_sys (st_world s).
Proof.
  intros V. exact (conj (f_equal (fun v => v.1.1) V) (conj (f_equal (fun v => v.1.2) V) (f_equal snd V))).
Qed.

#[export] Instance network_input_view ty data len d : Preserves input_view (network_input_handler ty data len d).
Proof.
  intros s a s' E. unfold input_view.
  by rewrite (network_input_frame _ _ _ _ _ _ _ E), (network_input_devs _ _ _ _ _ _ _ E), (network_input_sys _ _ _ _ _ _ _ E).
Qed.

(** A packet that comes in. *)
Lemma network_input_ready ty data len d s :
  stack_ready s -> is_Some (n_devs (st_net s) !! d) -> 0 <= len <= Z.of_nat (length data) ->
  (ty = NETWORK_PROTOCOL_TYPE_IP -> ip_sane (take (Z.to_nat len) data)) ->
  wp (network_input_handler ty data len d) s (fun _ s' => stack_ready s' /\ input_view s' = input_view s).
Proof.
  intros R Hd Hlen Sane. eapply wp_mono.
  - apply (wp_preserves input_view); [apply _|]. apply wp_pw; [apply network_input_safe; lia|apply input_queues].
  - intros r s' [[_ Q] V]. split; [|done]. apply input_view_inv in V as (F & D & _).
    eapply stack_ready_queues; [exact R|eapply udp_ready_frame; [apply R|done|done]|].
    eapply queues_mono; [|exact Q]. intros ty' e (-> & Ed & El & Er).
    rewrite rdn_in, drop_0 in Er by lia. injection Er as Er. split_and!.
    + by rewrite Ed.
    + rewrite El, <- Er, length_take. lia.
    + by rewrite <- Er.
Qed.

(** ** Frames received *)

(** The assumption on what the kernel answers: it is true to its length, and if its
    data is a frame with a datagram, the datagram's length fields are sane ([ip_sane]).
    The second part is no guarantee of the kernel: ip.c does not compare the header
    length with 20 or with the total length, and over-reads a datagram that breaks it
    ([ip_input_short_total_overreads]); what is proved of runs is proved of those on
    which no such datagram arrives. *)
Definition answer_ok (r : sysres) : Prop :=
  sys_sane r /\
  forall t, rd16 (r_data r) 12 = Some t -> ntoh16 t = NETWORK_PROTOCOL_TYPE_IP ->
    ip_sane (take (Z.to_nat (r_ret r - 14)) (drop 14 (r_data r))).

Lemma answers_sane rs : Forall answer_ok rs -> Forall sys_sane rs.
Proof. intros H. eapply Forall_impl; [exact H|]. by intros r []. Qed.

(** What the service routine for a device keeps while it polls. *)
Record polling (s s' : stack) : Prop := {
  poll_ready : stack_ready s';
  poll_frame : driver_frame s' = driver_frame s;
  poll_devs : n_devs (st_net s') = n_devs (st_net s);
  poll_answers : Forall answer_ok (w_sys (st_world s'));
  poll_left : (length (w_sys (st_world s')) <= length (w_sys (st_world s)))%nat;
}.

Lemma stack_ready_world w s : stack_ready s -> stack_ready (set_world (fun _ => w) s).
Proof. done. Qed.

Lemma isr_ready (pcap : bool) fuel d fd s :
  stack_ready s -> (exists dev, n_devs (st_net s) !! d = Some dev /\ is_Some (dev_priv dev)) ->
  Forall answer_ok (w_sys (st_world s)) -> (length (w_sys (st_world s)) < fuel)%nat ->
  wp (isr_loop fuel d fd (if pcap then ether_pcap_read else ether_tap_read)) s
    (fun r s' => (r = Some 0 \/ r = Some (-1)) /\ polling s s').
Proof.
  intros R (dev & Hd & p & Hp) Ha Hf. apply (isr_loop_wp (polling s)); [..|by constructor|done].
  - intros s1 w [R1 F1 D1 A1 L1] Hw. constructor; [done..| |]; simpl; rewrite Hw; [by apply Forall_tail|].
    rewrite length_tl. lia.
  - intros s1 [R1 F1 D1 A1 L1]. rewrite <- D1 in Hd. pose proof R1 as ((((N & _) & _) & _) & _).
    destruct (N d dev Hd) as [(Hlen & _) _].
    eapply poll_helper_cases; [done|done|done|by apply answers_sane|..].
    + intros w Hw. split; [|done]. constructor; [done..| |]; simpl; rewrite Hw; [by apply Forall_tail|]. rewrite length_tl. lia.
    + intros w r t Hw Hr Hlr Ht. rewrite Forall_forall in A1. destruct (A1 r Hr) as [_ Sane].
      eapply wp_mono; [apply network_input_ready; [done|by eexists|rewrite length_drop; lia|by apply Sane]|].
      intros a s2 [R2 (F2 & D2 & W2)%input_view_inv]. simpl in W2. split; [|congruence].
      constructor; [done|by rewrite F2|by rewrite D2|..]; rewrite W2, Hw.
      * apply Forall_tail, Forall_forall. exact A1.
      * rewrite length_tl. lia.
Qed.

(** ** Datagrams sent *)

Lemma udp_output_ready src dst data len s :
  stack_ready s -> 0 <= len <= Z.of_nat (length data) ->
  wp (udp_output src dst data len) s (fun _ s' => stack_ready s' /\ upper_frame s' = upper_frame s).
Proof.
  intros R Hlen. pose proof R as (U & Links & _). eapply wp_mono.
  - apply wp_pw; [by apply udp_output_step|].
    assert (pw (udp_output src dst data len) s (fun _ s' => queues (queued_ok (st_net s)) s s')) as Q; [|exact Q].
    unfold udp_output. change (MAX_IP_PAYLOAD_SIZE - UDP_HDR_SIZE) with 65507.
    destruct (Z.gtb_spec len 65507) as [Hmax|Hmax]; [by apply pw_ret, queues_intro|].
    apply pw_opt_bind. intros payload Ep. apply rdn_length in Ep. apply pw_opt_bind. intros psum _.
    apply pw_opt_bind. intros sum _. unfold UDP_HDR_SIZE. rewrite u16_small by (unfold in_u16; lia).
    set (buf := udp_hdr _ _ _ _ ++ payload).
    assert (8 + len = Z.of_nat (length buf)) as ->
      by (unfold buf; rewrite length_app, length_udp_hdr; lia).
    apply pw_bind. eapply pw_mono; [by apply ip_send_packet_queues|]. intros r s' Q.
    assert (queues (queued_ok (st_net s)) s s') by (eapply queues_mono; [|exact Q]; by intros ty e (-> & ? & _)).
    case_match; by apply pw_ret.
  - intros r s' [S Q]. split; [|apply S]. eapply stack_ready_queues; [done| |done]. by eapply udp_step_ready.
Qed.

End Queueing.

(** ** What the interrupt thread leaves to the application *)

Section Upper.
Context {Mc : Machine}.

(** The state of the upper layers. *)
Definition apps (s : stack) := (st_udp s, st_sock s, st_intr s).

Lemma preserves_driver_apps {A} (m : C A) : Preserves driver_frame m -> Preserves apps m.
Proof.
  intros H s a s' E. apply H, driver_frame_inv in E as (_ & _ & E1 & E2 & E3 & _). unfold apps. congruence.
Qed.

#[export] Instance mutex_lock_apps m : Preserves apps (mutex_lock m).
Proof. unfold mutex_lock. solve_preserves. Qed.

#[export] Instance mutex_unlock_apps m : Preserves apps (mutex_unlock m).
Proof. unfold mutex_unlock. solve_preserves. Qed.

#[export] Instance gettimeofday_apps : Preserves apps gettimeofday.
Proof. by apply gettimeofday_frame. Qed.

#[export] Instance output_apps d ty data len dst : Preserves apps (network_device_output d ty data len dst).
Proof. apply preserves_driver_apps, _. Qed.

#[export] Instance get_dev_apps d : Preserves apps (get_dev d).
Proof. unfold get_dev. solve_preserves. Qed.

#[export] Instance get_iface_apps i : Preserves apps (get_iface i).
Proof. unfold get_iface. solve_preserves. Qed.

#[export] Instance get_interface_apps d family : Preserves apps (network_device_get_interface d family).
Proof.
  unfold network_device_get_interface. apply preserves_bind; [apply _|]. intros dev.
  induction (dev_interfaces dev); simpl; solve_preserves.
Qed.

#[export] Instance set_cache_apps i f : Preserves apps (set_cache i f).
Proof. unfold set_cache. solve_preserves. Qed.

#[export] Instance arp_input_apps data len d : Preserves apps (arp_input data len d).
Proof.
  unfold arp_input, arp_input_merge, arp_input_update, arp_input_insert, arp_cache_update, arp_cache_insert, arp_reply, iface_dev.
  solve_preserves.
Qed.

#[export] Instance arp_resolve_apps i pa ha : Preserves apps (arp_resolve i pa ha).
Proof. unfold arp_resolve, arp_request, iface_dev. solve_preserves. Qed.

#[export] Instance ip_send_packet_apps protocol data len src dst : Preserves apps (ip_send_packet protocol data len src dst).
Proof.
  unfold ip_send_packet, ip_output_core, ip_output_device, ip_dump, ip_generate_id, iface_dev. solve_preserves.
Qed.

#[export] Instance icmp_input_apps data len src dst i : Preserves apps (icmp_input data len src dst i).
Proof. unfold icmp_input, icmp_output, icmp_dump. solve_preserves. Qed.

#[export] Instance udp_output_apps src dst data len : Preserves apps (udp_output src dst data len).
Proof. unfold udp_output. solve_preserves. Qed.

(** Sockets and interrupt lines stay as they are, and no control block is closed. *)
Definition upper_keeps (s s' : stack) : Prop :=
  st_sock s' = st_sock s /\ st_intr s' = st_intr s /\ (forall j, is_open (st_udp s) j -> is_open (st_udp s') j).

#[export] Instance upper_keeps_preorder : PreOrder upper_keeps.
Proof.
  split; [done|]. intros s1 s2 s3 (A1 & B1 & C1) (A2 & B2 & C2). split_and!; [congruence|congruence|auto].
Qed.

Lemma upper_keeps_apps s s' : apps s' = apps s -> upper_keeps s s'.
Proof. unfold apps. intros [= E1 E2 E3]. unfold upper_keeps. by rewrite E1, E2, E3. Qed.

Lemma evolves_apps {A} (m : C A) : Preserves apps m -> Evolves upper_keeps m.
Proof. intros H s a s' E. by eapply upper_keeps_apps, H. Qed.

Lemma sock_ready_upper s s' : sock_ready s -> udp_ready s' -> upper_keeps s s' -> sock_ready s'.
Proof. intros S U (Es & _ & Ho). by eapply sock_ready_keep. Qed.

#[export] Instance set_pcb_upper k f :
  (forall p, pcb_st (f p) = pcb_st p) -> Evolves upper_keeps (set_pcb k f).
Proof.
  intros Hf. unfold set_pcb. apply evolves_modify. intros s. split_and!; [done|done|]. intros j. apply alter_open.
  intros p. by rewrite Hf.
Qed.

#[export] Instance wakeup_upper k : Evolves upper_keeps (sched_wakeup (pcb_ctx_ref k)).
Proof.
  unfold sched_wakeup, ctx_set, ctx_get. solve_evolves. apply evolves_modify. intros s. split_and!; [done|done|].
  intros j. by apply alter_open.
Qed.

#[export] Instance udp_input_upper data len src dst i : Evolves upper_keeps (udp_input data len src dst i).
Proof.
  assert (Evolves upper_keeps memory_alloc) by (by apply evolves_apps, memory_alloc_frame).
  assert (forall m, Evolves upper_keeps (mutex_lock m)) by (intros; apply evolves_apps, _).
  assert (forall m, Evolves upper_keeps (mutex_unlock m)) by (intros; apply evolves_apps, _).
  unfold udp_input, udp_input_deliver, get_pcb, queue_push_c. solve_evolves. by apply set_pcb_upper.
Qed.

#[export] Instance ip_input_upper data len d : Evolves upper_keeps (ip_input data len d).
Proof.
  assert (forall i, Evolves upper_keeps (get_iface i)) by (intros; apply evolves_apps, _).
  assert (forall d f, Evolves upper_keeps (network_device_get_interface d f)) by (intros; apply evolves_apps, _).
  assert (forall data, Evolves upper_keeps (ip_dump data)) by (intros; apply evolves_apps; unfold ip_dump; solve_preserves).
  unfold ip_input, call_ip_handler, stack_ip_dispatch. solve_evolves. by apply evolves_apps, _.
Qed.

#[export] Instance drain_upper fuel i : Evolves upper_keeps (protocol_drain fuel i).
Proof.
  revert i. induction fuel as [|fuel IH]; intros i; cbn [protocol_drain]; solve_evolves; unfold set_queue.
  - by apply evolves_apps, preserves_modify.
  - destruct (np_handler _); [by apply evolves_apps, _|apply _].
Qed.

#[export] Instance softirq_upper fuel : Evolves upper_keeps (network_protocol_handler fuel).
Proof.
  unfold network_protocol_handler. apply evolves_bind; [apply _..|]. intros n.
  generalize 0%nat. induction (length (n_protocols n)) as [|k IH]; intros i; simpl; solve_evolves.
Qed.

End Upper.

(** ** The rounds of the interrupt thread *)

Section Rounds.
Context {Mc : Machine}.

(** What a round does to the state. *)
Definition thread_step (s s' : stack) : Prop :=
  stack_ready s' /\ upper_keeps s s' /\ n_devs (st_net s') = n_devs (st_net s).

Lemma thread_step_refl s : stack_ready s -> thread_step s s.
Proof. intros R. by split. Qed.

Lemma thread_step_trans s s1 s2 : thread_step s s1 -> thread_step s1 s2 -> thread_step s s2.
Proof. intros (_ & K1 & D1) (R & K2 & D2). split; [done|]. split; [by transitivity s1|congruence]. Qed.

(** A change of the cache, the control blocks or the environment. *)
Lemma thread_step_net s s' :
  stack_ready s -> udp_ready s' -> st_net s' = st_net s -> upper_keeps s s' -> thread_step s s'.
Proof. intros R U E K. split; [by eapply stack_ready_udp|]. by rewrite E. Qed.

Lemma arp_timer_thread s :
  stack_ready s -> wp arp_timer s (fun _ s' => thread_step s s' /\ st_net s' = st_net s).
Proof.
  intros R. pose proof R as ((((N & W & Hm) & Hid & Hr & Hdim) & Hu & Wp) & _).
  eapply wp_mono; [by apply arp_timer_run|]. intros u s' O.
  assert (udp_ready s' /\ st_net s' = st_net s /\ upper_keeps s s') as (U & E & K).
  { destruct O as (w & -> & _). split; [|by split].
    split_and!; [split_and!; [split_and!|..]|..]; try done. by apply cache_timer_wf. }
  split; [by apply thread_step_net|done].
Qed.

Lemma timer_loop_thread k i s :
  stack_ready s -> (i + k = length (n_timers (st_net s)))%nat -> wp (timer_loop i k) s (fun _ s' => thread_step s s').
Proof.
  revert i s. induction k as [|k IH]; intros i s R Hk; cbn [timer_loop]; [by apply wp_ret, thread_step_refl|].
  destruct (lookup_lt_is_Some_2 (n_timers (st_net s)) i) as [t Ht]; [lia|].
  apply wp_bind, wp_gets, wp_bind. eapply wp_opt; [exact Ht|]. apply wp_bind, gettimeofday_wp. intros now w _ _ _ _ _.
  set (s1 := set_world (fun _ => w) s).
  assert (thread_step s s1) as T1 by (apply thread_step_net; [done|apply R|done|done]).
  apply wp_bind.
  assert (wp (if timer_due t now then call_timer (nt_handler t);;
      modify (set_net (set_timers (alter (with_last now) i))) else ret tt) s1
    (fun _ s' => thread_step s s' /\ length (n_timers (st_net s')) = length (n_timers (st_net s)))) as W.
  { destruct (timer_due t now); [|by apply wp_ret]. apply wp_bind. destruct (nt_handler t). cbn [call_timer stack_dispatch].
    eapply wp_mono; [apply arp_timer_thread, T1|]. intros u s2 [T2 E2]. apply wp_modify. split.
    - pose proof (thread_step_trans _ _ _ T1 T2) as (R2 & K2 & D2). by split.
    - simpl. by rewrite length_alter, E2. }
  eapply wp_mono; [exact W|]. intros u s2 [T2 L2]. eapply wp_mono; [apply IH; [apply T2|lia]|].
  intros u' s3 T3. by eapply thread_step_trans.
Qed.

Lemma network_timer_thread s : stack_ready s -> wp network_timer_handler s (fun _ s' => thread_step s s').
Proof.
  intros R. unfold network_timer_handler. wp_steps. eapply wp_mono; [by apply timer_loop_thread|].
  intros u s' T. by apply wp_ret.
Qed.

Lemma interrupted_open pcbs j : is_open pcbs j -> is_open (map interrupted pcbs) j.
Proof.
  intros (p & Hj & Ho). exists (interrupted p). rewrite list_lookup_fmap, Hj. split; [done|].
  unfold interrupted. by case_bool_decide.
Qed.

Lemma network_event_thread s : stack_ready s -> wp network_event_handler s (fun _ s' => thread_step s s').
Proof.
  intros R. unfold network_event_handler. wp_steps.
  assert (forall l s1, stack_ready s1 -> wp (event_loop l) s1 (fun _ s' => thread_step s1 s')) as L.
  { clear s R. induction l as [|e l IH]; intros s R; simpl; [by apply wp_ret, thread_step_refl|].
    apply wp_bind. pose proof R as (U & _). destruct (ne_handler e). cbn [call_event stack_dispatch].
    apply event_handler_wp; [done|]. intros s1 O.
    destruct (udp_only_ready _ _ _ U O) as [U1 _]; [by apply interrupted_wf, U|].
    assert (thread_step s s1) as T1.
    { apply thread_step_net; [done|done|by destruct O as (w & ->)|]. destruct O as (w & ->). split_and!; [done|done|].
      intros j. apply interrupted_open. }
    eapply wp_mono; [apply IH, T1|]. intros u s2 T2. by eapply thread_step_trans. }
  eapply wp_mono; [by apply L|]. intros u s' T. by apply wp_ret.
Qed.

(** Every interrupt line belongs to an Ethernet device. *)
Definition irqs_ok (s : stack) : Prop :=
  Forall (fun e => exists dev, n_devs (st_net s) !! irq_dev e = Some dev /\ is_Some (dev_priv dev)) (irq_vec (st_intr s)).

Lemma irqs_ok_step s s' : irqs_ok s -> st_intr s' = st_intr s -> n_devs (st_net s') = n_devs (st_net s) -> irqs_ok s'.
Proof. unfold irqs_ok. by intros H -> ->. Qed.

Lemma softirq_thread fuel s :
  stack_ready s -> Forall (fun p => (2 * length (np_queue p) <= fuel)%nat) (n_protocols (st_net s)) ->
  wp (network_protocol_handler fuel) s (fun b s' => b = true /\ thread_step s s').
Proof.
  intros R Hf. eapply wp_mono.
  - apply (wp_evolves upper_keeps); [apply _|]. unfold network_protocol_handler. apply wp_bind, wp_gets.
    apply protocol_drain_all_empties; [done|done|]. intros j p _ Hj. rewrite Forall_lookup in Hf. by eapply Hf.
  - by intros b s' [(-> & R' & D & _) K].
Qed.

Lemma irq_loop_thread fuel sig l s :
  stack_ready s -> Forall (fun e => exists dev, n_devs (st_net s) !! irq_dev e = Some dev /\ is_Some (dev_priv dev)) l ->
  Forall answer_ok (w_sys (st_world s)) -> (length (w_sys (st_world s)) < fuel)%nat ->
  wp (irq_loop fuel sig l) s (fun b s' => b = true /\ thread_step s s').
Proof.
  revert s. induction l as [|e l IH]; intros s R Hl Ha Hf; cbn [irq_loop]; [apply wp_ret; split; [done|by apply thread_step_refl]|].
  apply Forall_cons in Hl as [(dev & Hd & p & Hp) Hl]. destruct (irq_num e =? sig); [|by apply IH].
  apply wp_bind. eapply wp_mono.
  { assert (forall pcap : bool, wp (isr_loop fuel (irq_dev e) (ep_fd p) (if pcap then ether_pcap_read else ether_tap_read)) s
      (fun r s' => (r = Some 0 \/ r = Some (-1)) /\ polling s s')) as W by (intros; apply isr_ready; eauto).
    unfold call_irq, ether_tap_isr, ether_pcap_isr.
    destruct (irq_handler e); (apply wp_bind; eapply wp_of_run; [by eapply dev_private_ok|]); [apply (W false)|apply (W true)]. }
  intros r s1 [Hr [R1 F1 D1 A1 L1]].
  assert (thread_step s s1) as T1.
  { split; [done|]. split; [|done]. apply driver_frame_inv in F1 as (_ & _ & E3 & E4 & E5 & _).
    apply upper_keeps_apps. unfold apps. congruence. }
  assert (wp (irq_loop fuel sig l) s1 (fun b s' => b = true /\ thread_step s s')) as W.
  { eapply wp_mono; [apply IH; [done|by rewrite D1|done|lia]|]. intros b s2 [-> T2]. split; [done|]. by eapply thread_step_trans. }
  by destruct Hr as [->| ->].
Qed.

(** Fuel for a round: for the answers of the environment and twice the longest queue. *)
Definition enough_fuel (s : stack) : nat :=
  S (length (w_sys (st_world s)) + 2 * list_max (map (fun p => length (np_queue p)) (n_protocols (st_net s)))).

Lemma intr_dispatch_thread fuel sig s :
  stack_ready s -> irqs_ok s -> Forall answer_ok (w_sys (st_world s)) -> (enough_fuel s <= fuel)%nat ->
  wp (intr_dispatch fuel sig) s (fun b s' => b = true /\ thread_step s s').
Proof.
  intros R I Ha Hf. unfold enough_fuel in Hf. unfold intr_dispatch.
  destruct (sig =? SIGUSR1); [|destruct (sig =? SIGUSR2); [|destruct (sig =? SIGALRM)]].
  - apply softirq_thread; [done|]. apply Forall_forall. intros p Hp.
    pose proof (proj1 (list_max_le (map (fun p => length (np_queue p)) (n_protocols (st_net s))) _) (le_n _)) as M.
    rewrite Forall_map, Forall_forall in M. specialize (M p Hp). simpl in M. lia.
  - apply wp_bind. eapply wp_mono; [by apply network_event_thread|]. intros r s' T. by apply wp_ret.
  - apply wp_bind. eapply wp_mono; [by apply network_timer_thread|]. intros r s' T. by apply wp_ret.
  - apply wp_bind, wp_gets. apply irq_loop_thread; [done|exact I|done|lia].
Qed.

End Rounds.

(** ** Interrupt lines at start-up *)

Section Lines.
Context {Mc : Machine}.

Definition irqs_keep (s s' : stack) : Prop := irqs_ok s -> irqs_ok s'.

#[export] Instance irqs_keep_preorder : PreOrder irqs_keep.
Proof. split; [by intros s H|]. intros s1 s2 s3 H1 H2 H. auto. Qed.

Lemma evolves_irqs_same {A} (m : C A) :
  Preserves (fun s => (irq_vec (st_intr s), n_devs (st_net s))) m -> Evolves irqs_keep m.
Proof. intros P s a s' E. apply P in E as [= E1 E2]. unfold irqs_keep, irqs_ok. by rewrite E1, E2. Qed.

#[export] Instance irqs_alloc : Evolves irqs_keep memory_alloc.
Proof. by apply evolves_irqs_same, memory_alloc_frame. Qed.

#[export] Instance irqs_get_dev d : Evolves irqs_keep (get_dev d).
Proof. unfold get_dev. solve_evolves. Qed.

#[export] Instance irqs_get_iface i : Evolves irqs_keep (get_iface i).
Proof. unfold get_iface. solve_evolves. Qed.

Lemma irqs_modify g :
  (forall s, irq_vec (st_intr (g s)) = irq_vec (st_intr s)) -> (forall s, n_devs (st_net (g s)) = n_devs (st_net s)) ->
  Evolves irqs_keep (modify g).
Proof. intros H1 H2. apply evolves_irqs_same, preserves_modify. intros s. by rewrite H1, H2. Qed.

Lemma irqs_insert (s s' : stack) d dev :
  irq_vec (st_intr s') = irq_vec (st_intr s) -> n_devs (st_net s') = <[d := dev]> (n_devs (st_net s)) ->
  (forall old, n_devs (st_net s) !! d = Some old -> is_Some (dev_priv old) -> is_Some (dev_priv dev)) -> irqs_keep s s'.
Proof.
  intros E1 E2 Hp H. unfold irqs_ok in *. rewrite E1, E2. eapply Forall_impl; [exact H|]. intros e (x & Hx & Hpx).
  destruct (decide (d = irq_dev e)) as [Ed|Hne]; [|exists x; by rewrite lookup_insert_ne].
  rewrite <- Ed in *. exists dev. rewrite lookup_insert_eq. split; [done|exact (Hp x Hx Hpx)].
Qed.

Lemma irqs_set_dev d g : (forall dev, is_Some (dev_priv dev) -> is_Some (dev_priv (g dev))) -> Evolves irqs_keep (set_dev d g).
Proof.
  intros Hg s a s'. unfold set_dev, get_dev, gets, modify, bind. simpl.
  destruct (n_devs (st_net s) !! d) as [dev|] eqn:E; [|done]. intros [= _ <-].
  eapply irqs_insert; [done|done|]. intros old Hold Hp. apply Hg. congruence.
Qed.

#[export] Instance irqs_network_init : Evolves irqs_keep network_init.
Proof.
  unfold network_init, intr_init, arp_init, ip_initialize, icmp_init, udp_init, network_protocol_register,
    network_timer_register, ip_register_protocol, network_event_subscribe.
  assert (Evolves irqs_keep gettimeofday) by (by apply evolves_irqs_same, gettimeofday_frame).
  solve_evolves; by apply irqs_modify.
Qed.

Lemma irqs_ip_setup :
  (forall u m, Evolves irqs_keep (ip_allocate_interface u m)) /\ (forall d i, Evolves irqs_keep (ip_register_interface d i)) /\
  (forall i gw, Evolves irqs_keep (ip_set_default_gateway i gw)).
Proof.
  assert (forall l family, Evolves irqs_keep (find_interface l family))
    by (intros l family; induction l; simpl; solve_evolves).
  split_and!; intros; unfold ip_allocate_interface, ip_register_interface, ip_set_default_gateway,
    network_device_add_interface, ip_route_add, iface_dev; solve_evolves;
    first [by apply irqs_modify|by apply irqs_set_dev].
Qed.

(** A device that has its private data. *)
Definition has_priv (d : dev_id) (s : stack) : Prop :=
  exists dev, n_devs (st_net s) !! d = Some dev /\ is_Some (dev_priv dev).

(** The line is requested for the device just set up. *)
Lemma irqs_request irq h flags name d s :
  has_priv d s -> pw (intr_request_irq irq h flags name d) s (fun _ s' => irqs_keep s s').
Proof.
  intros Hd. unfold intr_request_irq. pw_steps. case_match; [by apply pw_ret|].
  apply pw_bind. eapply pw_mono.
  { apply (pw_preserves (fun s => (irq_vec (st_intr s), n_devs (st_net s)))). by apply memory_alloc_frame. }
  intros b s1 [= E1 E2]. destruct b; cbn [negb].
  - pw_steps. intros Hok. apply Forall_cons. simpl. rewrite E2. split; [exact Hd|]. by rewrite E1.
  - apply pw_ret. intros Hok. unfold irqs_ok. by rewrite E1, E2.
Qed.

Lemma irqs_attach d name irq isr : Evolves irqs_keep (ether_attach d name irq isr).
Proof.
  unfold ether_attach. apply evolves_bind; [apply _..|]. intros b. destruct (negb b); [apply _|].
  intros s a s' E. revert E. set (m := bind _ _).
    enough (pw m s (fun _ s' => irqs_keep s s')) as W by (unfold pw in W; intros E; by rewrite E in W).
  unfold m, network_device_register, set_dev, get_dev. pw_steps. simpl in *. rewrite lookup_insert_eq in E0. injection E0 as <-.
  set (t := set_net (set_devices _) _).
  assert (irqs_keep s t /\ has_priv d t) as [Ks Hp].
  { split; [|eexists; split; [simpl; by rewrite lookup_insert_eq|by eexists]].
    eapply irqs_insert; [done|simpl; by rewrite insert_insert_eq|]. intros old _ _. by eexists. }
  clearbody t. pw_steps. eapply pw_mono; [by apply irqs_request|]. intros r s1 K1. apply pw_ret. by transitivity t.
Qed.

#[export] Instance irqs_tap_init name addr : Evolves irqs_keep (ether_tap_init name addr).
Proof.
  unfold ether_tap_init. apply evolves_bind; [apply _| |].
  { unfold network_device_allocate. intros s a s' E. revert E. set (m := bind _ _).
    enough (pw m s (fun _ s' => irqs_keep s s')) as W by (unfold pw in W; intros E; by rewrite E in W).
    unfold m. apply pw_bind. eapply pw_mono.
    { apply (pw_preserves (fun s => (irq_vec (st_intr s), n_devs (st_net s)))). by apply memory_alloc_frame. }
    intros b s1 [= E1 E2]. assert (irqs_keep s s1) by (unfold irqs_keep, irqs_ok; by rewrite E1, E2).
    destruct b; cbn [negb]; [|by apply pw_ret]. pw_steps. transitivity s1; [done|].
    eapply irqs_insert; [done|done|]. intros old Hold. by rewrite fresh_id_None in Hold. }
  intros [d|]; [|apply _]. apply evolves_bind; [apply _| |].
  { unfold init_address. solve_evolves. by apply irqs_set_dev. }
  intros b. destruct (negb b); [apply _|]. apply evolves_bind; [apply _|by apply irqs_set_dev|].
  intros _. apply irqs_attach.
Qed.

#[export] Instance open_intr d : Preserves st_intr (network_device_open d).
Proof.
  assert (forall g, Preserves st_intr (set_dev d g)) by (intros g; by apply set_dev_frame).
  unfold network_device_open. apply preserves_bind; [unfold get_dev; solve_preserves|]. intros dev.
  destruct (NETWORK_DEVICE_IS_UP dev); [apply _|]. apply preserves_bind; [apply _|]. intros o.
  apply preserves_bind; [|intros b; solve_preserves]. destruct (drv_open o) as [f|] eqn:Eo; [|apply _].
  apply preserves_bind; [|apply _]. intros s a s' E.
  by apply (drv_open_frame _ _ _ Eo), driver_frame_inv in E as (_ & _ & _ & _ & E & _).
Qed.

#[export] Instance irqs_run : Evolves irqs_keep network_run.
Proof.
  assert (forall c d, Preserves st_intr (syscall_do c d)) by (intros; by apply syscall_frame).
  assert (Evolves devs_evolve network_run /\ Preserves st_intr network_run) as [Dv P].
  { split; unfold network_run, intr_run; [solve_evolves|solve_preserves].
    - induction (n_devices _); simpl; solve_evolves.
    - induction (n_devices _); simpl; solve_preserves. }
  intros s a s' E Hok. pose proof (P _ _ _ E) as Ei. apply Dv in E as [V D]. unfold irqs_ok in *. rewrite Ei.
  eapply Forall_impl; [exact Hok|]. intros e (dev & Hd & Hp). destruct (devs_evolve_lookup _ _ _ _ (conj V D) Hd) as (dev' & Hd' & K).
  exists dev'. split; [done|]. by apply (keeps_priv _ _ K).
Qed.

Lemma app_start_irqs argv w : pw (app_start argv) (stack_boot w) (fun _ s => irqs_ok s).
Proof.
  destruct irqs_ip_setup as (Ha & Hr & Hg). destruct sock_net as [Pn Pb].
  assert (forall A (m : C A), Preserves st_net m -> Preserves st_intr m -> Evolves irqs_keep m) as Same.
  { intros A m Hn Hi. apply evolves_irqs_same. intros s a s' E. by rewrite (Hn _ _ _ E), (Hi _ _ _ E). }
  assert (forall a b c, Evolves irqs_keep (sock_open a b c)).
  { intros. apply Same; [done|]. unfold sock_open, sock_alloc, set_sk, get_sk, udp_open, udp_pcb_alloc, set_pcb,
      sched_ctx_init, ctx_set, mutex_lock, mutex_unlock. solve_preserves. }
  assert (forall soc a, Evolves irqs_keep (sock_bind soc a)).
  { intros. apply Same; [done|]. unfold sock_bind, get_sk, udp_bind, set_pcb, mutex_lock, mutex_unlock. solve_preserves. }
  assert (Evolves irqs_keep (app_start argv)) as Ev by (unfold app_start, setup; solve_evolves).
  eapply pw_mono; [apply (pw_evolves irqs_keep), Ev|]. intros r s K. apply K. by apply Forall_nil.
Qed.

End Lines.

(** ** Fuel

    A round that ends does the same with more fuel. *)

Section Fuel.
Context {Mc : Machine}.

Lemma drain_fuel fuel fuel' i s s' :
  protocol_drain fuel i s = Ret true s' -> (fuel <= fuel')%nat -> protocol_drain fuel' i s = Ret true s'.
Proof.
  revert fuel' s. induction fuel as [|fuel IH]; intros fuel' s E Hle.
  - cbn [protocol_drain] in E. apply bind_inv in E as (n & s1 & E1 & E). apply bind_inv in E as (p & s2 & E2 & E).
    destruct fuel'; cbn [protocol_drain]; rewrite (bind_ret _ _ _ _ _ E1), (bind_ret _ _ _ _ _ E2);
      by destruct (fifo_pop _) as [[e|] q].
  - destruct fuel' as [|fuel']; [lia|]. cbn [protocol_drain] in *.
    apply bind_inv in E as (n & s1 & E1 & E). apply bind_inv in E as (p & s2 & E2 & E).
    rewrite (bind_ret _ _ _ _ _ E1), (bind_ret _ _ _ _ _ E2). destruct (fifo_pop _) as [[e|] q]; [|done].
    apply bind_inv in E as (u & s3 & E3 & E). apply bind_inv in E as (u' & s4 & E4 & E).
    rewrite (bind_ret _ _ _ _ _ E3), (bind_ret _ _ _ _ _ E4). apply IH; [done|lia].
Qed.

Lemma drain_all_fuel fuel fuel' k i s s' :
  protocol_drain_all fuel i k s = Ret true s' -> (fuel <= fuel')%nat -> protocol_drain_all fuel' i k s = Ret true s'.
Proof.
  intros E Hle. revert i s E. induction k as [|k IH]; intros i s E; [done|]. cbn [protocol_drain_all] in *.
  apply bind_inv in E as (b & s1 & E1 & E). destruct b; [|done].
  rewrite (bind_ret _ _ _ _ _ (drain_fuel _ _ _ _ _ E1 Hle)). by apply IH.
Qed.

Lemma isr_fuel fuel fuel' d fd read s r s' :
  isr_loop fuel d fd read s = Ret (Some r) s' -> (fuel <= fuel')%nat -> isr_loop fuel' d fd read s = Ret (Some r) s'.
Proof.
  revert fuel' s. induction fuel as [|fuel IH]; intros fuel' s E Hle; [done|]. destruct fuel' as [|fuel']; [lia|].
  cbn [isr_loop] in *. apply bind_inv in E as (a & s1 & E1 & E). rewrite (bind_ret _ _ _ _ _ E1).
  repeat case_match; try done; [apply IH; [done|lia]|].
  apply bind_inv in E as (u & s2 & E2 & E). rewrite (bind_ret _ _ _ _ _ E2). apply IH; [done|lia].
Qed.

Lemma irq_loop_fuel fuel fuel' sig l s s' :
  irq_loop fuel sig l s = Ret true s' -> (fuel <= fuel')%nat -> irq_loop fuel' sig l s = Ret true s'.
Proof.
  intros E Hle. revert s E. induction l as [|e l IH]; intros s E; [done|]. cbn [irq_loop] in *.
  destruct (irq_num e =? sig); [|by apply IH]. apply bind_inv in E as (r & s1 & E1 & E). destruct r as [r|]; [|done].
  assert (call_irq fuel' e s = Ret (Some r) s1) as E1'.
  { unfold call_irq, ether_tap_isr, ether_pcap_isr in *. destruct (irq_handler e);
      apply bind_inv in E1 as (p & s2 & E2 & E1); rewrite (bind_ret _ _ _ _ _ E2); by eapply isr_fuel. }
  rewrite (bind_ret _ _ _ _ _ E1'). by apply IH.
Qed.

Lemma intr_dispatch_fuel fuel fuel' sig s s' :
  intr_dispatch fuel sig s = Ret true s' -> (fuel <= fuel')%nat -> intr_dispatch fuel' sig s = Ret true s'.
Proof.
  unfold intr_dispatch, network_protocol_handler. intros E Hle. case_match; [|repeat (case_match; [done|])];
    apply bind_inv in E as (n & s1 & E1 & E); rewrite (bind_ret _ _ _ _ _ E1);
    [by eapply drain_all_fuel|by eapply irq_loop_fuel].
Qed.

End Fuel.

(** ** Threads and their interleavings *)

Section System.
Context {Mc : Machine}.

(** What a thread does between two points where another may take over: a round of
    the interrupt thread for a signal that is pending; the calls of the application,
    of which [sock_recvfrom] may leave its thread asleep on control block [k];
    and the rest of that call once the thread runs again. *)
Inductive sys_op :=
| OpRound (sig : Z)
| OpInterrupt
| OpOpen (domain type protocol : Z)
| OpClose (id : Z)
| OpBind (id : Z) (addr : sockaddr_in)
| OpSend (id : Z) (buf : list Z) (n : Z) (addr : sockaddr_in)
| OpRecv (id : Z) (buf : list Z) (n : Z) (addr : sockaddr_in)
| OpResume (k : nat) (buf : list Z) (n : Z) (addr : sockaddr_in).

(** [false] only when the fuel of a round runs out. *)
Definition sys_exec (fuel : nat) (op : sys_op) : C bool :=
  match op with
  | OpRound sig =>
      modify (set_world (fun w => set_pending (filter (fun x => x <> sig) (w_pending w)) w));;
      intr_dispatch fuel sig
  | OpInterrupt => on_signal;; ret true
  | OpOpen domain type protocol => sock_open domain type protocol;; ret true
  | OpClose id => sock_close id;; ret true
  | OpBind id addr => sock_bind id addr;; ret true
  | OpSend id buf n addr => sock_sendto id buf n addr;; ret true
  | OpRecv id buf n addr => sock_recvfrom id buf n addr;; ret true
  | OpResume k buf n addr => sock_recvfrom_resume k buf n addr;; ret true
  end.

(** When a thread can do it: the signal is pending and waited for; a buffer is as
    long as the caller says; the thread sleeps on a control block there is. *)
Definition op_ok (s : stack) (op : sys_op) : Prop :=
  match op with
  | OpRound sig => sig ∈ w_pending (st_world s) /\ sig ∈ intr_sigmask (st_intr s)
  | OpSend _ buf n _ | OpRecv _ buf n _ => 0 <= n <= Z.of_nat (length buf)
  | OpResume k buf n _ => is_Some (st_udp s !! k) /\ 0 <= n <= Z.of_nat (length buf)
  | _ => True
  end.

(** The environment decides on allocations, the clock and the answers of the kernel
    to come, and raises signals. *)
Definition env_step (w w' : world) : Prop :=
  Forall answer_ok (w_sys w') /\ w_pending w ⊆ w_pending w' /\ w_trace w' = w_trace w.

Inductive sys_step (s s' : stack) : Prop :=
| sys_step_intro w op fuel :
    env_step (st_world s) w -> op_ok (set_world (fun _ => w) s) op ->
    sys_exec fuel op (set_world (fun _ => w) s) = Ret true s' -> sys_step s s'.

(** The states the application and the interrupt thread lead to, once [main] of the
    echo application has got to its loop. *)
Inductive reachable : stack -> Prop :=
| reach_start argv w soc s : app_start argv (stack_boot w) = Ret (inr soc) s -> reachable s
| reach_step s s' : reachable s -> sys_step s s' -> reachable s'.

(** The invariant of the system. *)
Definition sys_ok (s : stack) : Prop := stack_ready s /\ sock_ready s /\ irqs_ok s.

Lemma sys_ok_thread s s' : sys_ok s -> thread_step s s' -> sys_ok s'.
Proof.
  intros (R & S & I) (R' & K & D). split; [done|]. split; [eapply sock_ready_upper; [exact S|apply R'|done]|].
  eapply irqs_ok_step; [exact I|apply K|done].
Qed.

(** A call that works on the sockets and the control blocks only. *)
Lemma sys_ok_sock s s' : sys_ok s -> sock_ready s' -> st_net s' = st_net s -> st_intr s' = st_intr s -> sys_ok s'.
Proof.
  intros (R & _ & I) S' En Ei. split; [eapply stack_ready_udp; [exact R|apply S'|done]|]. split; [done|].
  eapply irqs_ok_step; [exact I|done|by rewrite En].
Qed.

(** The network and the interrupt lines. *)
Definition lower (s : stack) := (st_net s, st_intr s).

Lemma sys_ok_lower s {A} (m : C A) :
  sys_ok s -> Preserves lower m -> wp m s (fun _ s' => sock_ready s') ->
  wp (m;; ret true) s (fun b s' => b = true /\ sys_ok s').
Proof.
  intros Ok P W. apply wp_bind. eapply wp_mono; [by apply (wp_preserves lower)|].
  intros r s' [S' [= En Ei]]. apply wp_ret. split; [done|]. by eapply sys_ok_sock.
Qed.

Lemma socket_lower :
  (forall a b c, Preserves lower (sock_open a b c)) /\ (forall id, Preserves lower (sock_close id)) /\
  (forall id a, Preserves lower (sock_bind id a)) /\
  (forall id buf n a, Preserves lower (sock_recvfrom id buf n a)) /\
  (forall k buf n a, Preserves lower (sock_recvfrom_resume k buf n a)).
Proof.
  assert (forall c d, Preserves lower (syscall_do c d)) by (intros; by apply syscall_frame).
  assert (forall k, Preserves lower (udp_pcb_release k))
    by (intros; unfold udp_pcb_release, udp_queue_flush, sched_ctx_destroy, sched_wakeup, set_pcb, get_pcb, ctx_set; solve_preserves).
  assert (forall k, Preserves lower (sched_sleep_enter (pcb_ctx_ref k) udp_mutex))
    by (intros; unfold sched_sleep_enter, ctx_get, ctx_set, mutex_unlock; solve_preserves).
  assert (forall k, Preserves lower (sched_sleep_leave (pcb_ctx_ref k) udp_mutex 0))
    by (intros; unfold sched_sleep_leave, ctx_get, ctx_set, mutex_lock; solve_preserves).
  split_and!; intros; unfold sock_open, sock_close, sock_bind, sock_recvfrom, sock_recvfrom_resume, sock_alloc, sock_free,
    set_sk, get_sk, udp_open, udp_close, udp_bind, udp_recvfrom, udp_recvfrom_resume, udp_recv_loop, udp_pcb_alloc,
    sched_ctx_init, ctx_set, set_pcb, get_pcb, mutex_lock, mutex_unlock; solve_preserves.
Qed.

Lemma udp_output_sys src dst data len s :
  sys_ok s -> 0 <= len <= Z.of_nat (length data) -> wp (udp_output src dst data len) s (fun _ s' => sys_ok s').
Proof.
  intros (R & S & I) Hlen. eapply wp_mono; [by apply udp_output_ready|]. intros r s' [R' F]. split; [done|].
  pose proof (upper_frame_udp_sock _ _ F) as [Eu Es]. unfold upper_frame in F. injection F as _ _ Ei _ Ed _.
  split; [eapply sock_ready_keep; [exact S|apply R'|done|by rewrite Eu]|by eapply irqs_ok_step].
Qed.

Lemma sock_sendto_sys id buf n addr s :
  sys_ok s -> 0 <= n <= Z.of_nat (length buf) -> wp (sock_sendto id buf n addr) s (fun _ s' => sys_ok s').
Proof.
  intros Ok Hn. pose proof Ok as (R & S & I). pose proof S as [U _].
  apply sock_guard_wp; [done|done|]. intros x. apply udp_sendto_wp; [done|done|]. intros k p a _ _ _.
  split; [intros _; by apply udp_output_sys|]. intros port _ _ pcbs Wf. apply udp_output_sys; [|done].
  apply (sys_ok_sock s); [done| |done|done].
  apply (sock_ready_udp_only s pcbs); [done|by exists (st_world s); destruct s|done|]. intros j. by apply alter_open.
Qed.

Lemma sys_exec_fuel fuel fuel' op s s' :
  sys_exec fuel op s = Ret true s' -> (fuel <= fuel')%nat -> sys_exec fuel' op s = Ret true s'.
Proof.
  intros E Hle. destruct op; try done. cbn [sys_exec] in *. apply bind_inv in E as (u & s1 & E1 & E).
  rewrite (bind_ret _ _ _ _ _ E1). by eapply intr_dispatch_fuel.
Qed.

Lemma sys_exec_ok fuel op s :
  sys_ok s -> Forall answer_ok (w_sys (st_world s)) -> op_ok s op -> (enough_fuel s <= fuel)%nat ->
  wp (sys_exec fuel op) s (fun b s' => b = true /\ sys_ok s').
Proof.
  intros Ok Ha Hop Hf. pose proof Ok as (R & S & I).
  destruct socket_lower as (Lo & Lc & Lb & Lr & Lu). destruct op; cbn [sys_exec op_ok] in *.
  - apply wp_bind, wp_modify. eapply wp_mono; [by apply intr_dispatch_thread|]. intros b s' [-> T]. split; [done|].
    by apply (sys_ok_thread (set_world (fun w => set_pending (filter (fun x => x <> sig) (w_pending w)) w) s)).
  - unfold on_signal, network_interrupt, raise_signal. wp_steps. split; [done|]. exact Ok.
  - apply sys_ok_lower; [done|done|]. eapply wp_mono; [by apply sock_open_wp|]. by intros r s' [? _].
  - apply sys_ok_lower; [done|done|]. eapply wp_mono; [by apply sock_close_wp|]. by intros r s' [? _].
  - apply sys_ok_lower; [done|done|]. by apply sock_bind_ready.
  - apply wp_bind. eapply wp_mono; [by apply sock_sendto_sys|]. intros r s' Ok'. by apply wp_ret.
  - apply sys_ok_lower; [done|done|]. by apply sock_recvfrom_ready.
  - destruct Hop. apply sys_ok_lower; [done|done|]. by apply sock_resume_ready.
Qed.

Lemma sys_step_ok fuel op s s' :
  sys_ok s -> Forall answer_ok (w_sys (st_world s)) -> op_ok s op -> sys_exec fuel op s = Ret true s' -> sys_ok s'.
Proof.
  intros Ok Ha Hop E. assert (sys_exec (fuel + enough_fuel s) op s = Ret true s') as E' by (eapply sys_exec_fuel; [exact E|lia]).
  pose proof (sys_exec_ok (fuel + enough_fuel s) op s) as W. unfold wp in W. rewrite E' in W. by apply W; [..|lia].
Qed.

Lemma reachable_ok s : reachable s -> sys_ok s.
Proof.
  induction 1 as [argv w soc s E|s s' _ Ok [w op fuel (Ha & _) Hop E]].
  - pose proof (app_start_irqs argv w) as I. pose proof (app_start_wp argv w) as W. unfold pw in I. unfold wp in W.
    rewrite E in I, W. destruct W as (R & _ & S & _). done.
  - by eapply (sys_step_ok _ _ (set_world (fun _ => w) s)).
Qed.

(** C1. The running system is safe: from program start, through every start-up of
    the application that gets to its loop, and every interleaving of rounds of the
    interrupt thread with calls of the application's threads, in an environment
    that may fail any call and sends any frames, except IP datagrams whose header
    length is below 20 or exceeds their total length ([answer_ok]), the invariants
    hold (devices, routes, queues and cache well formed, sockets on control blocks of
    their own, no mutex left locked), and whatever happens next ends, without a fault,
    again in such a state. *)
Theorem system_safe (s : stack) (H : reachable s) :
  sys_ok s /\
  forall w op, env_step (st_world s) w -> op_ok (set_world (fun _ => w) s) op ->
    forall fuel, (enough_fuel (set_world (fun _ => w) s) <= fuel)%nat ->
    wp (sys_exec fuel op) (set_world (fun _ => w) s) (fun b s' => b = true /\ sys_ok s').
Proof.
  pose proof (reachable_ok s H) as Ok. split; [done|]. intros w op (Ha & _) Hop fuel Hf. by apply sys_exec_ok.
Qed.

End System.

(** ** A concrete run *)

Section SystemWitness.
#[local] Existing Instance little_endian_machine.

(** [udp_app 7] in its loop, every call of the environment having succeeded. *)
Definition running_server : stack :=
  match app_start ["udp_app"; "7"]%string (stack_boot (world_quiet (Timeval 0 0))) with
  | Ret _ s => s
  | Fault _ => stack_boot (world_quiet (Timeval 0 0))
  end.

Lemma running_server_reachable : reachable running_server.
Proof. apply (reach_start ["udp_app"; "7"]%string (world_quiet (Timeval 0 0)) 0). vm_compute. reflexivity. Qed.

(** The TAP device signals, and has an ARP request for the server. *)
Definition arp_frame : list Z :=
  replicate 6 255 ++ [2; 0; 0; 0; 0; 2] ++ [8; 6] ++
  arp_message ARP_OP_REQUEST [2; 0; 0; 0; 0; 2] 0x010200c0 (replicate 6 0) 0x020200c0 ++ replicate 18 0.

Definition frame_world : world :=
  World [] [Timeval 0 0] [SysRes 1 0 [0]; SysRes 60 0 arp_frame] (w_trace (st_world running_server)) [ETHER_TAP_IRQ] 0.

Lemma system_safe_witness :
  wp (sys_exec 10 (OpRound ETHER_TAP_IRQ)) (set_world (fun _ => frame_world) running_server)
    (fun b s' => b = true /\ sys_ok s').
Proof.
  apply (system_safe running_server running_server_reachable).
  - split; [|split; [set_solver|reflexivity]].
    apply Forall_cons. split; [|apply Forall_cons; split; [|by apply Forall_nil]].
    + split; [right; simpl; lia|]. intros t Ht. vm_compute in Ht. discriminate Ht.
    + split; [right; simpl; lia|]. intros t Ht. vm_compute in Ht. injection Ht as <-. intros Ht. vm_compute in Ht. discriminate Ht.
  - split; [by left|]. apply (bool_decide_unpack _). vm_compute. exact I.
  - vm_compute. lia.
Defined.

(** The thread that cannot set up its timer returns at once and takes no signal, with
    nothing to tell [intr_run], which has returned 0: [network_run] succeeds, and the
    frames that come in are never handled. *)
Theorem intr_thread_without_timer (fuel : nat) (waits : list (Z * Z)) (s : stack) (e : Z) (data : list Z) (rest : list sysres) :
  w_sys (st_world s) = SysRes (-1) e data :: rest ->
  wp (intr_thread fuel waits) s (fun r s' => r = IntrReturn /\ exists w, s' = set_world (fun _ => w) s).
Proof.
  intros Hs. unfold intr_thread, intr_timer_setup. apply wp_bind, wp_bind, syscall_wp. rewrite Hs. intros r w _ _ _ _ _ ->. simpl.
  do 2 apply wp_ret. split; [done|]. by exists w.
Qed.

(** With the timer, the signals are taken in order: first the TAP device, which has a
    frame, then the soft interrupt, which handles it. *)
Example intr_thread_rounds :
  (fun r => match r with
   | Ret o s => Some (o, map (fun p => length (np_queue p)) (n_protocols (st_net s)),
       list_find (fun e => ac_state e = ARP_CACHE_STATE_RESOLVED) (st_arp s) ≫= fun e => Some (ac_ha e.2))
   | Fault _ => None end)
    (intr_thread 5 [(0, ETHER_TAP_IRQ); (0, SIGUSR1)]
       (set_world (fun w => World [] [Timeval 0 0] [SysRes 0 0 []; SysRes 0 0 []; SysRes 1 0 [0]; SysRes 60 0 arp_frame; SysRes 0 0 []] [] [] 0) running_server))
  = Some (IntrWaiting, [0%nat; 0%nat], Some [2; 0; 0; 0; 0; 2]).
Proof. vm_compute. reflexivity. Qed.

End SystemWitness.
