(* ===== verification/Threads.v ===== *)
(** * Threads between critical sections

    System.v takes whole calls and whole rounds as steps.  Two of them are longer than
    one critical section: [sock_sendto] leaves the mutex of udp.c before the datagram
    goes down the stack, and [network_protocol_handler] calls a protocol's handler
    for one packet after the other.  Here a thread may be interrupted in both: any
    number of threads can be on their way from [udp_sendto] to [udp_output], with the
    control block they sent from closed or bound anew meanwhile, and calls come between
    the packets of a soft interrupt. *)

From stdpp Require Import base numbers list option gmap strings relations.
From Stdlib Require Import ZArith Lia.
From S2P Require Import Prelude Util CLib Queue State Sync Net Ether Drivers Arp Ip Icmp Udp Sock Stack Softirq Boot App System.
Open Scope Z_scope.
Open Scope cmonad_scope.

Section Threads.
Context {Mc : Machine}.

(** ** The parts *)

(** [udp_sendto] up to the end of its critical section: the local endpoint to send
    from, [None] where the call fails. *)
Definition udp_sendto_section (id : Z) (foreign : endpoint) : C (option endpoint) :=
  mutex_lock udp_mutex;;
  let! local := udp_sendto_local id foreign in
  mutex_unlock udp_mutex;;
  ret local.

(** [sock_sendto] up to there. *)
Definition sock_sendto_local (id : Z) (addr : sockaddr_in) : C (option endpoint) :=
  match sock_get id with
  | None => ret None
  | Some k =>
      let! s := get_sk k in
      if negb (sk_type s =? SOCK_DGRAM) || negb (sk_family s =? AF_INET) then ret None
      else udp_sendto_section (sk_desc s) (Endpoint (sin_addr addr) (sin_port addr))
  end.

(** The body of the inner loop of [network_protocol_handler]; [false] when the queue is
    empty. *)
Definition packet_step (i : nat) : C bool :=
  let! n := gets st_net in
  let! proto := opt NullDeref (n_protocols n !! i) in
  match fifo_pop (np_queue proto) with
  | (None, _) => ret false
  | (Some entry, q) =>
      set_queue i q;;
      call_protocol (np_handler proto) (nqe_data entry) (nqe_len entry) (nqe_dev entry);;
      ret true
  end.

(** ** Where the threads are *)

(** A thread with a datagram between the critical section and [udp_output]. *)
Record sending := Sending { sn_local : endpoint; sn_foreign : endpoint; sn_data : list Z; sn_len : Z }.

(** The protocol whose queue the interrupt thread is emptying, if it is, and the threads that send. *)
Record control := Control { ct_irq : option nat; ct_out : list sending }.

Inductive fine_op :=
| FineCall (op : sys_op)
| FineSoftirq
| FinePacket
| FineSend (id : Z) (buf : list Z) (n : Z) (addr : sockaddr_in)
| FineOutput (j : nat).

(** [None] only when the fuel of a round runs out. *)
Definition fine_exec (fuel : nat) (c : control) (op : fine_op) : C (option control) :=
  match op with
  | FineCall op => let! b := sys_exec fuel op in ret (if (b : bool) then Some c else None)
  | FineSoftirq =>
      modify (set_world (fun w => set_pending (filter (fun x => x <> SIGUSR1) (w_pending w)) w));;
      ret (Some (Control (Some 0%nat) (ct_out c)))
  | FinePacket =>
      match ct_irq c with
      | None => ret (Some c)
      | Some i =>
          let! n := gets st_net in
          if (i <? length (n_protocols n))%nat then
            let! more := packet_step i in
            ret (Some (Control (Some (if (more : bool) then i else S i)) (ct_out c)))
          else ret (Some (Control None (ct_out c)))
      end
  | FineSend id buf n addr =>
      let! local := sock_sendto_local id addr in
      ret (Some (match local with
                 | None => c
                 | Some l => Control (ct_irq c) (ct_out c ++ [Sending l (Endpoint (sin_addr addr) (sin_port addr)) buf n])
                 end))
  | FineOutput j =>
      match ct_out c !! j with
      | None => ret (Some c)
      | Some x => udp_output (sn_local x) (sn_foreign x) (sn_data x) (sn_len x);; ret (Some (Control (ct_irq c) (delete j (ct_out c))))
      end
  end.

(** Sends come in their two parts, and the interrupt thread starts a round when it is
    through with the one before. *)
Definition fine_ok (s : stack) (c : control) (op : fine_op) : Prop :=
  match op with
  | FineCall op => op_ok s op /\ Forall answer_ok (w_sys (st_world s)) /\
      match op with OpSend _ _ _ _ => False | OpRound sig => sig <> SIGUSR1 /\ ct_irq c = None | _ => True end
  | FineSoftirq => ct_irq c = None /\ SIGUSR1 ∈ w_pending (st_world s) /\ SIGUSR1 ∈ intr_sigmask (st_intr s)
  | FinePacket => is_Some (ct_irq c)
  | FineSend _ buf n _ => 0 <= n <= Z.of_nat (length buf)
  | FineOutput j => is_Some (ct_out c !! j)
  end.

Inductive fine_step : stack * control -> stack * control -> Prop :=
| fine_env s c w : env_step (st_world s) w -> fine_step (s, c) (set_world (fun _ => w) s, c)
| fine_do s c op fuel s' c' : fine_ok s c op -> fine_exec fuel c op s = Ret (Some c') s' -> fine_step (s, c) (s', c').

Inductive fine_reachable : stack * control -> Prop :=
| fine_start argv w soc s : app_start argv (stack_boot w) = Ret (inr soc) s -> fine_reachable (s, Control None [])
| fine_next x y : fine_reachable x -> fine_step x y -> fine_reachable y.

(** ** The parts make up the calls *)

Lemma bind_assoc_run {A B D} (m : C A) (f : A -> C B) (g : B -> C D) s : bind (bind m f) g s = bind m (fun a => bind (f a) g) s.
Proof. unfold bind. by destruct (m s). Qed.

Lemma bind_ext {A B} (m : C A) (f g : A -> C B) s : (forall a s', f a s' = g a s') -> bind m f s = bind m g s.
Proof. intros H. unfold bind. by destruct (m s). Qed.

Lemma sock_sendto_parts id buf n addr s :
  sock_sendto id buf n addr s
  = bind (sock_sendto_local id addr) (fun o => match o with
      | None => ret (-1)
      | Some l => udp_output l (Endpoint (sin_addr addr) (sin_port addr)) buf n
      end) s.
Proof.
  unfold sock_sendto, sock_sendto_local. destruct (sock_get id) as [k|]; [|done]. rewrite bind_assoc_run. apply bind_ext. intros x s1.
  destruct (_ || _); [done|]. unfold udp_sendto, udp_sendto_section. rewrite bind_assoc_run. apply bind_ext. intros u s2.
  rewrite bind_assoc_run. apply bind_ext. intros l s3. rewrite bind_assoc_run. by apply bind_ext.
Qed.

Lemma drain_parts fuel i s :
  protocol_drain (S fuel) i s = bind (packet_step i) (fun more => if (more : bool) then protocol_drain fuel i else ret true) s.
Proof.
  cbn [protocol_drain]. unfold packet_step. rewrite bind_assoc_run. apply bind_ext. intros n s1.
  rewrite bind_assoc_run. apply bind_ext. intros p s2. destruct (fifo_pop _) as [[e|] q]; [|done].
  rewrite bind_assoc_run. apply bind_ext. intros u s3. rewrite bind_assoc_run. by apply bind_ext.
Qed.

(** ** Each part is safe *)

#[local] Instance packet_upper i : Evolves upper_keeps (packet_step i).
Proof.
  unfold packet_step, set_queue. solve_evolves; [by apply evolves_apps, preserves_modify|].
  destruct (np_handler _); [by apply evolves_apps, _|apply _].
Qed.

Lemma packet_thread i p s :
  stack_ready s -> n_protocols (st_net s) !! i = Some p -> 
  wp (packet_step i) s (fun _ s' => thread_step s s' /\ length (n_protocols (st_net s')) = length (n_protocols (st_net s))).
Proof.
  intros R Hi. eapply wp_mono with (Q := fun b s' => (stack_ready s' /\ n_devs (st_net s') = n_devs (st_net s) /\
    length (n_protocols (st_net s')) = length (n_protocols (st_net s))) /\ upper_keeps s s'); [|by intros b s' [(? & ? & ?) ?]].
  apply (wp_evolves upper_keeps); [apply _|]. unfold packet_step. apply wp_bind, wp_gets, wp_bind. rewrite Hi.
  eapply wp_opt; [reflexivity|]. destruct (np_queue p) as [|e q] eqn:Hq; cbn [fifo_pop list_fifo]; [by apply wp_ret|].
  unfold set_queue. apply wp_bind, wp_modify, wp_bind. set (s1 := set_net _ s).
  pose proof R as (Ru & Links & _ & Ok). rewrite Forall_lookup in Ok.
  destruct (Ok i p Hi) as [Hh Hqs]. rewrite Hq in Hqs. apply Forall_cons in Hqs as [He _].
  eapply wp_mono; [apply (handler_step (np_type p) _ e s1); [exact Ru|exact Links|done|exact He]|].
  intros u s2 [R2 A]. destruct (answers_weight s s1 s2 i p e q) as (D2 & q' & P2 & Hq' & _); try done. apply wp_ret.
  split; [by eapply stack_ready_queue|]. split; [done|]. by rewrite P2, length_alter.
Qed.

Lemma sendto_local_ok id addr s : sys_ok s -> wp (sock_sendto_local id addr) s (fun _ s' => sys_ok s').
Proof.
  intros Ok. pose proof Ok as (R & S & I). pose proof S as [U _]. unfold sock_sendto_local.
  apply sock_guard_wp; [done|done|]. intros x. apply udp_section_wp; [done|intros _; by apply wp_ret|]. intros k p a _ _ _.
  split; [intros _; by apply wp_ret|]. intros port _ _ pcbs Wf. apply wp_ret. apply (sys_ok_sock s); [done| |done|done].
  apply (sock_ready_udp_only s pcbs); [done|by exists (st_world s); destruct s|done|]. intros j. by apply alter_open.
Qed.

(** The invariant: that of the system, and what the threads that send need. *)
Definition fine_inv (s : stack) (c : control) : Prop :=
  sys_ok s /\ Forall (fun x => 0 <= sn_len x <= Z.of_nat (length (sn_data x))) (ct_out c).

Lemma fine_exec_ok fuel c op s :
  fine_inv s c -> fine_ok s c op -> (enough_fuel s <= fuel)%nat ->
  wp (fine_exec fuel c op) s (fun o s' => exists c', o = Some c' /\ fine_inv s' c').
Proof.
  intros [Ok Fo] Hop Hf. destruct op as [op| | |id buf n addr|j]; cbn [fine_exec fine_ok] in *.
  - destruct Hop as (Hop & Ha & _). apply wp_bind. eapply wp_mono; [by apply sys_exec_ok|]. intros b s' [-> Ok'].
    apply wp_ret. by exists c.
  - apply wp_bind, wp_modify, wp_ret. eexists. split; [done|]. by split.
  - destruct (ct_irq c) as [i|]; [|by destruct Hop]. apply wp_bind, wp_gets. destruct (Nat.ltb_spec i (length (n_protocols (st_net s)))) as [Hi|].
    + apply lookup_lt_is_Some_2 in Hi as [p Hp]. apply wp_bind. eapply wp_mono; [eapply packet_thread; [apply Ok|exact Hp]|].
      intros b s' [T _]. apply wp_ret. eexists. split; [done|]. split; [by eapply sys_ok_thread|done].
    + apply wp_ret. eexists. split; [done|]. by split.
  - apply wp_bind. eapply wp_mono; [by apply sendto_local_ok|]. intros o s' Ok'. apply wp_ret. eexists. split; [done|].
    split; [done|]. destruct o; [|done]. simpl. apply Forall_app. split; [done|]. by apply Forall_singleton.
  - destruct Hop as [x Hx]. rewrite Hx. pose proof (Forall_lookup_1 _ _ _ _ Fo Hx) as Hl. apply wp_bind.
    eapply wp_mono; [by apply udp_output_sys|]. intros r s' Ok'. apply wp_ret. eexists. split; [done|]. split; [done|].
    simpl. by apply Forall_delete.
Qed.

Lemma fine_exec_fuel fuel fuel' c op s o s' :
  fine_exec fuel c op s = Ret (Some o) s' -> (fuel <= fuel')%nat -> fine_exec fuel' c op s = Ret (Some o) s'.
Proof.
  intros E Hle. destruct op as [op| | | |]; try done. cbn [fine_exec] in *. apply bind_inv in E as (b & s1 & E1 & E).
  destruct b; [|done]. by rewrite (bind_ret _ _ _ _ _ (sys_exec_fuel _ _ _ _ _ E1 Hle)).
Qed.

Lemma fine_exec_inv fuel c op s c' s' :
  fine_inv s c -> fine_ok s c op -> fine_exec fuel c op s = Ret (Some c') s' -> fine_inv s' c'.
Proof.
  intros Inv Hop E. apply (fine_exec_fuel _ (fuel + enough_fuel s)) in E; [|lia].
  pose proof (fine_exec_ok (fuel + enough_fuel s) c op s Inv Hop ltac:(lia)) as W. unfold wp in W. rewrite E in W.
  by destruct W as (c2 & [= <-] & ?).
Qed.

Lemma fine_reachable_inv x : fine_reachable x -> fine_inv x.1 x.2.
Proof.
  induction 1 as [argv w soc s E|x y _ IH St].
  - split; [|by apply Forall_nil]. apply reachable_ok. by eapply reach_start.
  - destruct St as [s c w _|s c op fuel s' c' Hop E]; [exact IH|]. by eapply fine_exec_inv.
Qed.

(** ** The steps of System.v in parts *)

Definition idle (outs : list sending) : control := Control None outs.

Lemma drain_ready fuel i p s s' :
  stack_ready s -> n_protocols (st_net s) !! i = Some p -> protocol_drain fuel i s = Ret true s' ->
  stack_ready s' /\ length (n_protocols (st_net s')) = length (n_protocols (st_net s)).
Proof.
  intros R Hi E. apply (drain_fuel _ (fuel + queue_weight p)) in E; [|lia].
  pose proof (protocol_drain_empties (fuel + queue_weight p) i s p R Hi ltac:(lia)) as W. unfold wp in W. rewrite E in W.
  destruct W as (_ & R' & _ & P'). split; [done|]. by rewrite P', length_alter.
Qed.

(** A part of a call, among those of [P]. *)
Inductive fine_act (P : fine_op -> Prop) : stack * control -> stack * control -> Prop :=
| fine_act_intro s c op fuel s' c' :
    P op -> fine_ok s c op -> fine_exec fuel c op s = Ret (Some c') s' -> fine_act P (s, c) (s', c').

Lemma fine_act_step P x y : fine_act P x y -> fine_step x y.
Proof. intros [s c op fuel s' c' _ Hop E]. by eapply fine_do. Qed.

Section Parts.
Context (P : fine_op -> Prop) (Psoftirq : P FineSoftirq) (Ppacket : P FinePacket) (Poutput : forall j, P (FineOutput j)).

(** The rounds of the inner loop. *)
Lemma packet_fine i s more s' outs :
  packet_step i s = Ret more s' ->
  fine_act P (s, Control (Some i) outs) (s', Control (Some (if (more : bool) then i else S i)) outs).
Proof using Ppacket.
  intros E. apply (fine_act_intro _ _ _ FinePacket 0); [done|by eexists|]. cbn [fine_exec ct_irq ct_out].
  assert (i < length (n_protocols (st_net s)))%nat as Hi.
  { apply lookup_lt_is_Some. unfold packet_step in E. apply bind_inv in E as (n & s1 & [= <- <-] & E).
    apply bind_inv in E as (p & s2 & E & _). unfold opt in E. destruct (n_protocols (st_net s) !! i); [by eexists|done]. }
  erewrite bind_ret by reflexivity. apply Nat.ltb_lt in Hi. rewrite Hi. by rewrite (bind_ret _ _ _ _ _ E).
Qed.

Lemma drain_fine fuel i s s' outs :
  protocol_drain fuel i s = Ret true s' -> rtc (fine_act P) (s, Control (Some i) outs) (s', Control (Some (S i)) outs).
Proof using Ppacket.
  revert s. induction fuel as [|fuel IH]; intros s E.
  - apply rtc_once, (packet_fine i s false). cbn [protocol_drain] in E. unfold packet_step.
    apply bind_inv in E as (n & s1 & E1 & E). apply bind_inv in E as (p & s2 & E2 & E).
    rewrite (bind_ret _ _ _ _ _ E1), (bind_ret _ _ _ _ _ E2). destruct (fifo_pop _) as [[e|] q]; [done|]. by injection E as <-.
  - rewrite drain_parts in E. apply bind_inv in E as (more & s1 & E1 & E). destruct more.
    + eapply rtc_l; [by apply (packet_fine i s true)|]. by apply IH.
    + injection E as <-. apply rtc_once. by apply (packet_fine i s false).
Qed.

Lemma drain_all_fine fuel k i s s' outs :
  stack_ready s -> (i + k = length (n_protocols (st_net s)))%nat -> protocol_drain_all fuel i k s = Ret true s' ->
  rtc (fine_act P) (s, Control (Some i) outs) (s', idle outs).
Proof using Ppacket.
  revert i s. induction k as [|k IH]; intros i s R Hk E.
  - injection E as <-. apply rtc_once, (fine_act_intro _ _ _ FinePacket 0); [done|by eexists|]. cbn [fine_exec ct_irq ct_out].
    erewrite bind_ret by reflexivity. replace (i <? length (n_protocols (st_net s)))%nat with false; [done|].
    symmetry. apply Nat.ltb_ge. lia.
  - cbn [protocol_drain_all] in E. apply bind_inv in E as (b & s1 & E1 & E). destruct b; [|done].
    destruct (lookup_lt_is_Some_2 (n_protocols (st_net s)) i) as [p Hp]; [lia|].
    destruct (drain_ready _ _ _ _ _ R Hp E1) as [R1 L1]. etrans; [by eapply drain_fine|]. apply IH; [done|lia|done].
Qed.

(** A round or a call is what its parts do when nothing comes between them. *)
Lemma sys_exec_fine fuel op s s' outs :
  sys_ok s -> Forall answer_ok (w_sys (st_world s)) -> op_ok s op -> sys_exec fuel op s = Ret true s' ->
  match op with OpSend id buf n addr => P (FineSend id buf n addr) | _ => P (FineCall op) end ->
  rtc (fine_act P) (s, idle outs) (s', idle outs).
Proof using Psoftirq Ppacket Poutput.
  intros Ok Ha Hop E HP.
  assert (P (FineCall op) -> match op with OpSend _ _ _ _ => False | OpRound sig => sig <> SIGUSR1 | _ => True end ->
    rtc (fine_act P) (s, idle outs) (s', idle outs)) as Whole.
  { intros HP' H. apply rtc_once, (fine_act_intro _ _ _ (FineCall op) fuel); [done|split_and!; [done|done|]; by destruct op|].
    cbn [fine_exec]. by rewrite (bind_ret _ _ _ _ _ E). }
  destruct op; try by apply Whole.
  - destruct (decide (sig = SIGUSR1)) as [->|]; [|by apply Whole]. clear Whole. destruct Hop as [Hp Hm].
    cbn [sys_exec] in E. apply bind_inv in E as (u & s1 & [= <- <-] & E). set (s1 := set_world _ s) in *.
    apply rtc_l with (s1, Control (Some 0%nat) outs); [by apply (fine_act_intro _ _ _ FineSoftirq 0)|].
    change (network_protocol_handler fuel s1 = Ret true s') in E. unfold network_protocol_handler in E.
    apply bind_inv in E as (n & s2 & [= <- <-] & E). eapply drain_all_fine; [apply Ok|done|exact E].
  - clear Whole. cbn [sys_exec] in E. apply bind_inv in E as (r & s1 & E1 & E). injection E as <-. rewrite sock_sendto_parts in E1.
    apply bind_inv in E1 as (o & s2 & E2 & E1). assert (fine_exec 0 (idle outs) (FineSend id buf n addr) s
      = Ret (Some match o with None => idle outs | Some l => Control None (outs ++ [Sending l (Endpoint (sin_addr addr) (sin_port addr)) buf n]) end) s2)
      as F by (cbn [fine_exec]; by rewrite (bind_ret _ _ _ _ _ E2)).
    eapply rtc_l; [by apply (fine_act_intro _ _ _ _ 0 _ _ HP (Hop : fine_ok s (idle outs) (FineSend id buf n addr)) F)|].
    destruct o as [l|]; [|by injection E1 as _ <-].
    assert ((outs ++ [Sending l (Endpoint (sin_addr addr) (sin_port addr)) buf n]) !! length outs
      = Some (Sending l (Endpoint (sin_addr addr) (sin_port addr)) buf n)) as Hj by (by rewrite lookup_app_r, Nat.sub_diag by lia).
    apply rtc_once, (fine_act_intro _ _ _ (FineOutput (length outs)) 0); [done|by eexists|]. cbn [fine_exec ct_out ct_irq]. rewrite Hj.
    cbn [sn_local sn_foreign sn_data sn_len].
    rewrite (bind_ret _ _ _ _ _ E1). unfold idle. do 3 f_equal. rewrite delete_middle. by rewrite app_nil_r.
Qed.

End Parts.

Lemma fine_reachable_rtc x y : fine_reachable x -> rtc fine_step x y -> fine_reachable y.
Proof. intros Hx P. revert Hx. induction P as [|x y z St _ IH]; [done|]. intros Hx. apply IH. by eapply fine_next. Qed.

(** So the finer steps lead everywhere the steps of System.v lead. *)
Lemma reachable_fine s : reachable s -> fine_reachable (s, idle []).
Proof.
  induction 1 as [argv w soc s E|s s' H IH [w op fuel Env Hop E]]; [by eapply fine_start|].
  eapply fine_reachable_rtc; [eapply fine_next; [exact IH|by apply fine_env]|].
  eapply rtc_subrel; [apply (fine_act_step (fun _ => True))|]. pose proof Env as (Ha & _).
  eapply sys_exec_fine; try done; [exact (reachable_ok s H)|by destruct op].
Qed.

(** ** Invariants of the packets are invariants of the soft interrupt *)

Lemma maintains_drain_all (J : stack -> Prop) fuel k i :
  (forall i, maintains J any (packet_step i)) -> maintains J any (protocol_drain_all fuel i k).
Proof.
  intros Hp. assert (forall fuel i, maintains J any (protocol_drain fuel i)) as Hd.
  { clear fuel i. induction fuel as [|fuel IH]; intros i s H.
    - cbn [protocol_drain]. apply pw_bind, pw_gets, pw_bind, pw_opt. intros p _. destruct (fifo_pop _) as [[e|] q]; by apply pw_ret.
    - unfold pw. rewrite drain_parts. change (pw (let! more := packet_step i in if (more : bool) then protocol_drain fuel i else ret true)
        s (fun a s' => J s' /\ any a)).
      apply pw_bind. eapply pw_mono; [by apply Hp|]. intros [] s' [H' _]; [by apply IH|by apply pw_ret]. }
  revert i. induction k as [|k IH]; intros i; cbn [protocol_drain_all]; [by apply maintains_ret|].
  eapply maintains_bind; [apply Hd|]. intros [] _; [apply IH|by apply maintains_ret].
Qed.

(** C3. The system is safe with threads interrupted between their critical sections.
    Let sends be cut after the critical section of [udp_sendto] and soft interrupts
    between two packets, and let any calls, rounds of other signals and parts of
    other sends come between (this covers every run in which calls and rounds are
    whole), in an environment that may fail any call and sends any frames, except IP
    datagrams whose header length is below 20 or exceeds their total length
    ([answer_ok]): in every state reached the invariants of the whole stack hold, and
    whatever part a thread does next ends, without a fault or a deadlock, again in such
    a state, also when the socket a thread is sending from was closed meanwhile. *)
Theorem threads_safe (s : stack) (c : control) (H : fine_reachable (s, c)) :
  sys_ok s /\
  forall op, fine_ok s c op -> forall fuel, (enough_fuel s <= fuel)%nat ->
    wp (fine_exec fuel c op) s (fun o s' => exists c', o = Some c' /\ sys_ok s').
Proof.
  pose proof (fine_reachable_inv _ H) as Inv. split; [apply Inv|]. intros op Hop fuel Hf.
  eapply wp_mono; [by apply fine_exec_ok|]. intros o s' (c' & -> & Ok & _). by exists c'.
Qed.

End Threads.

(** ** A concrete run

    A thread of [udp_app 7] sends; before the datagram goes out, another closes the socket. *)

Section ThreadsWitness.
#[local] Existing Instance little_endian_machine.

Definition fine_state (x : stack * control) (o : outcome stack (option control)) : stack * control :=
  match o with Ret (Some c) s => (s, c) | _ => x end.
Definition fine_done (o : outcome stack (option control)) : bool := match o with Ret (Some _) _ => true | _ => false end.
Definition fine_after (x : stack * control) (op : fine_op) : stack * control := fine_state x (fine_exec 1 x.2 op x.1).

Lemma fine_after_reachable x op :
  fine_reachable x -> fine_ok x.1 x.2 op -> fine_done (fine_exec 1 x.2 op x.1) = true -> fine_reachable (fine_after x op).
Proof.
  destruct x as [s c]. unfold fine_after. cbn [fst snd]. intros H Hop Hd. apply (fine_next (s, c)); [exact H|].
  destruct (fine_exec 1 c op s) as [[c'|] s'|] eqn:E; try discriminate Hd. exact (fine_do s c op 1 s' c' Hop E).
Qed.

Definition server_idle : stack * control := (running_server, idle []).
Definition begin_send : fine_op := FineSend 0 [1; 2; 3] 3 (SockaddrIn AF_INET 0x0700 0xff0200c0).
Definition send_closed : stack * control := fine_after (fine_after server_idle begin_send) (FineCall (OpClose 0)).

Lemma send_closed_reachable : fine_reachable send_closed.
Proof.
  apply fine_after_reachable; [apply fine_after_reachable|..].
  - apply reachable_fine, running_server_reachable.
  - unfold fine_ok, begin_send. simpl. lia.
  - vm_compute. reflexivity.
  - split; [exact I|]. split; [|exact I]. refine (eq_ind_r (Forall answer_ok) (List.Forall_nil _) _). vm_compute. reflexivity.
  - vm_compute. reflexivity.
Qed.

Lemma threads_safe_witness :
  map sn_local (ct_out send_closed.2) = [Endpoint 0x020200c0 0x0700] /\
  wp (fine_exec 100 send_closed.2 (FineOutput 0)) send_closed.1 (fun o s' => exists c', o = Some c' /\ sys_ok s').
Proof.
  split; [vm_compute; reflexivity|].
  destruct (threads_safe send_closed.1 send_closed.2
    (eq_ind _ fine_reachable send_closed_reachable _ (surjective_pairing send_closed))) as [_ W].
  refine (W (FineOutput 0) _ 100%nat _); [exists (Sending (Endpoint 0x020200c0 0x0700) (Endpoint 0xff0200c0 0x0700) [1; 2; 3] 3)|apply Nat.leb_le];
    vm_compute; reflexivity.
Defined.

End ThreadsWitness.
