(* ===== verification/Loop.v ===== *)
(** * A datagram through the loopback device, end to end

    From [udp_sendto] through UDP and IP output, the loopback device
    (device/loopback.c), the queue of the protocol and the soft interrupt, IP and UDP
    input, to the receiver's [udp_recvfrom], on one host. *)

From stdpp Require Import base numbers list option gmap strings.
From Stdlib Require Import ZArith Lia.
From S2P Require Import Prelude Util CLib Queue State Sync Net Ether Drivers Arp Ip Icmp Udp Sock Stack Softirq Boot.
Open Scope Z_scope.
Open Scope cmonad_scope.

(** ** One packet in the queues *)

Section OnePacket.
Context {Mc : Machine}.

Lemma drain_empty fuel i s p :
  n_protocols (st_net s) !! i = Some p -> np_queue p = [] -> protocol_drain fuel i s = Ret true s.
Proof.
  intros Hi Hq. destruct fuel; cbn [protocol_drain]; (erewrite bind_ret by reflexivity);
    rewrite Hi; cbn [opt]; (erewrite bind_ret by reflexivity); by rewrite Hq.
Qed.

(** Queues that are empty from position [i] on. *)
Lemma drain_all_empty fuel k i s :
  (i + k = length (n_protocols (st_net s)))%nat ->
  (forall j p, (i <= j)%nat -> n_protocols (st_net s) !! j = Some p -> np_queue p = []) ->
  protocol_drain_all fuel i k s = Ret true s.
Proof.
  revert i. induction k as [|k IH]; intros i Hk He; [done|]. cbn [protocol_drain_all].
  destruct (lookup_lt_is_Some_2 (n_protocols (st_net s)) i) as [p Hi]; [lia|].
  erewrite bind_ret by (eapply drain_empty; [exact Hi|by eapply He]). apply IH; [lia|]. intros j q Hj. apply He. lia.
Qed.

(** The packet at position [m] is the only one. *)
Definition only_packet (n : net_state) (m : nat) (p : network_protocol) (e : network_protocol_queue_entry) : Prop :=
  n_protocols n !! m = Some p /\ np_queue p = [e] /\
  forall j q, j <> m -> n_protocols n !! j = Some q -> np_queue q = [].

(** Its handler does all there is to do, when it queues nothing itself. *)
Lemma protocol_handler_single fuel s m p e (Q : bool -> stack -> Prop) :
  only_packet (st_net s) m p e ->
  let s1 := set_net (set_protocols (alter (with_queue []) m)) s in
  wp (call_protocol (np_handler p) (nqe_data e) (nqe_len e) (nqe_dev e)) s1 (fun _ s2 => st_net s2 = st_net s1 /\ Q true s2) ->
  wp (network_protocol_handler (S fuel)) s Q.
Proof.
  intros (Hm & Hq & He) s1 W. unfold network_protocol_handler. apply wp_bind, wp_gets.
  assert (forall k i, (i + k = length (n_protocols (st_net s)))%nat -> (i <= m)%nat -> wp (protocol_drain_all (S fuel) i k) s Q) as L.
  { induction k as [|k IH]; intros i Hk Hi; [apply lookup_lt_Some in Hm; lia|]. cbn [protocol_drain_all]. apply wp_bind.
    destruct (decide (i = m)) as [->|Hne].
    - cbn [protocol_drain]. apply wp_bind, wp_gets, wp_bind. eapply wp_opt; [exact Hm|]. rewrite Hq. cbn [fifo_pop list_fifo].
      unfold set_queue. apply wp_bind, wp_modify, wp_bind. eapply wp_mono; [exact W|]. intros u s2 [En HQ].
      assert (forall j q, n_protocols (st_net s2) !! j = Some q -> np_queue q = []) as E2.
      { intros j q Hj. rewrite En in Hj. simpl in Hj. destruct (decide (m = j)) as [<-|Hj'].
        - rewrite list_lookup_alter_eq, Hm in Hj. by injection Hj as <-.
        - rewrite list_lookup_alter_ne in Hj by done. by apply (He j). }
      assert (length (n_protocols (st_net s2)) = length (n_protocols (st_net s))) as El by (rewrite En; simpl; apply length_alter).
      destruct (lookup_lt_is_Some_2 (n_protocols (st_net s2)) m) as [p2 Hp2]; [rewrite El; by eapply lookup_lt_Some|].
      unfold wp. rewrite (drain_empty fuel m s2 p2) by eauto. rewrite drain_all_empty; [done|lia|by intros j q _; apply E2].
    - destruct (lookup_lt_is_Some_2 (n_protocols (st_net s)) i) as [q Hiq]; [lia|].
      eapply wp_of_run; [eapply drain_empty; [exact Hiq|by apply (He i)]|]. apply IH; lia. }
  apply L; [done|lia].
Qed.

End OnePacket.

(** ** A datagram in the queue of IP *)

(** Interface [i] (which is [f]) is the IP interface of device [d] of a host on which
    IP (at position [m] of the protocols) and UDP are registered. *)
Record ip_host `{Machine} (s : stack) (i : iface_id) (f : ip_interface) (d : dev_id)
    (m : nat) (ip : network_protocol) : Prop := {
  ih_iface : n_ifs (st_net s) !! i = Some f;
  ih_found : network_device_get_interface d NETWORK_INTERFACE_FAMILY_IP s = Ret (Some i) s;
  ih_ip : list_find (fun p => np_type p = NETWORK_PROTOCOL_TYPE_IP) (n_protocols (st_net s)) = Some (m, ip);
  ih_handler : np_handler ip = fn_ip_input;
  ih_udp : handler_of s UDP_PROTOCOL = Some fn_udp_input;
}.

(** Nothing waits in the queues of the protocols. *)
Definition queues_empty (s : stack) : Prop := Forall (fun p => np_queue p = []) (n_protocols (st_net s)).

(** Entry [e] has come to control block [k], of which [pcbs] was the table before;
    if it was waiting for one, [udp_recvfrom] hands it out. *)
Definition delivered `{Machine} (k : nat) (p : udp_pcb) (e : udp_queue_entry) (pcbs : list udp_pcb) (s : stack) : Prop :=
  st_udp s = received k e pcbs /\
  (pcb_queue p = [] -> forall size buf, 0 <= size <= Z.of_nat (length buf) ->
     wp (udp_recvfrom (Z.of_nat k) size buf) s (fun o _ => o = recv_entry size buf e)).

Section Delivery.
Context {Mc : Machine}.

(** Queued and taken again: only the environment has changed. *)
Lemma enqueued_taken ty e s m p :
  list_find (fun p => np_type p = ty) (n_protocols (st_net s)) = Some (m, p) -> np_queue p = [] ->
  set_net (set_protocols (alter (with_queue []) m)) (enqueued ty e s) = signalled SIGUSR1 s.
Proof.
  intros E Hq. unfold enqueued. rewrite E, Hq. apply find_type_Some in E as [Hm _].
  assert (alter (with_queue []) m (alter (with_queue ([] ++ [e])) m (n_protocols (st_net s))) = n_protocols (st_net s)) as Ep.
  { apply list_eq. intros j. destruct (decide (m = j)) as [<-|Hne]; [|by rewrite !list_lookup_alter_ne].
    rewrite !list_lookup_alter_eq, Hm. simpl. destruct p. simpl in Hq. by subst. }
  destruct s as [n]. unfold signalled, set_net, set_world, set_protocols in *. simpl in *. rewrite Ep. by destruct n.
Qed.

(** What is queued comes out at UDP, whatever pads the datagram. *)
Lemma softirq_udp_input fuel id c msg pad src dst s i f d m ip (Q : bool -> stack -> Prop) :
  ip_host s i f d m ip -> for_iface f dst = true -> queues_empty s -> Z.of_nat (length msg) <= 65515 ->
  cksum16 (ip_datagram id UDP_PROTOCOL c src dst msg ++ pad) 20 0 = Some 0 ->
  (forall w, w_alloc w = w_alloc (st_world s) ->
     wp (udp_input (msg ++ pad) (Z.of_nat (length msg)) src dst i) (set_world (fun _ => w) s) (fun _ s3 => st_net s3 = st_net s /\ Q true s3)) ->
  wp (network_protocol_handler (S fuel))
    (enqueued NETWORK_PROTOCOL_TYPE_IP
       (NetQueueEntry d (20 + Z.of_nat (length (msg ++ pad))) (ip_datagram id UDP_PROTOCOL c src dst msg ++ pad)) s) Q.
Proof.
  intros [Hf Hg Hip Hh Hu] Hdst Hq Hlen Hc W. unfold queues_empty in Hq. rewrite Forall_forall in Hq.
  pose proof (find_type_Some _ _ _ _ Hip) as [Hm _].
  assert (np_queue ip = []) as Hipq by (apply Hq; by eapply list_elem_of_lookup_2).
  set (e := NetQueueEntry d _ _). set (s1 := enqueued _ e s).
  assert (n_protocols (st_net s1) = alter (with_queue [e]) m (n_protocols (st_net s))) as Ep
    by (unfold s1, enqueued; by rewrite Hip, Hipq).
  apply (protocol_handler_single fuel s1 m (with_queue [e] ip) e).
  { split_and!; [by rewrite Ep, list_lookup_alter_eq, Hm|done|]. intros j q Hj Hjq.
    rewrite Ep, list_lookup_alter_ne in Hjq by done. apply Hq. by eapply list_elem_of_lookup_2. }
  cbv zeta. unfold s1. rewrite (enqueued_taken _ _ _ _ _ Hip Hipq). change (np_handler (with_queue [e] ip)) with (np_handler ip). rewrite Hh.
  set (s2 := signalled SIGUSR1 s).
  assert (wp (udp_input (msg ++ pad) (Z.of_nat (length msg)) src dst i) s2 (fun _ s3 => st_net s3 = st_net s2 /\ Q true s3)) as W2.
  { apply (W (st_world s2)). unfold s2, signalled. simpl. by case_decide. }
  cbn [call_protocol stack_dispatch nqe_data nqe_len nqe_dev e].
  pose proof (ip_input_datagram id UDP_PROTOCOL c src dst msg pad d s2 i f) as D.
  unfold ip_datagram in *. rewrite <- app_assoc in *. unfold wp. rewrite D; [|lia|exact Hc|..].
  - unfold ip_deliver. change (handler_of s2 UDP_PROTOCOL) with (handler_of s UDP_PROTOCOL). rewrite Hu. exact W2.
  - by eapply (get_interface_ext _ _ s).
  - done.
  - done.
Qed.

(** What [udp_recvfrom] returns once an entry was delivered to a control block with nothing else waiting. *)
Lemma delivered_intro k p e s1 s2 addr port :
  udp_ready s1 -> udp_only s1 (received k e (st_udp s1)) s2 -> entry_ok e ->
  udp_pcb_select (st_udp s1) addr port = Some k -> st_udp s1 !! k = Some p -> delivered k p e (st_udp s1) s2.
Proof.
  intros R O He Hsel Hk. assert (st_udp s2 = received k e (st_udp s1)) as E by (by destruct O as (w & ->)).
  split; [done|]. intros Hp size rbuf Hsize. pose proof (udp_pcb_select_Some _ _ _ _ Hsel) as (q & Hkq & [Hopen _] & _).
  rewrite Hk in Hkq. injection Hkq as <-.
  assert (pcbs_wf (received k e (st_udp s1))) as Wr by (eapply received_wf; [apply R|exact Hk|done|done]).
  assert (udp_ready s2) as R2 by (eapply udp_only_ready; [exact R|exact O|done]).
  assert (st_udp s2 !! k = Some (UdpPcb (pcb_st p) (pcb_local p) [e] (wake (pcb_ctx p)))) as Hk2
    by (rewrite E; unfold received; by rewrite list_lookup_alter_eq, Hk; simpl; rewrite Hp).
  assert (udp_pcb_get (st_udp s2) (Z.of_nat k) = Some k) as Hg.
  { rewrite E in *. eapply pcb_get_open; [apply Wr|exact Hk2|done]. }
  apply udp_recvfrom_wp; [done|done|by rewrite Hg|]. intros k' q Hg' Hq. rewrite Hg in Hg'. injection Hg' as <-.
  rewrite Hk2 in Hq. injection Hq as <-. split_and!; [|done|done].
  intros e' q' s4 Eq _. simpl in Eq. by injection Eq as <- <-.
Qed.

End Delivery.

(** ** The host *)

(** Interface [i] (which is [f]) of loopback device [d] (which is [dev]) of a host
    on which IP and UDP are registered: the device is up and takes datagrams of any
    length, [i] is its IP interface, and packets for its address go through it. *)
Record loopback_host `{Machine} (s : stack) (i : iface_id) (f : ip_interface) (d : dev_id) (dev : network_device)
    (m : nat) (ip : network_protocol) : Prop := {
  lb_iface : n_ifs (st_net s) !! i = Some f;
  lb_dev_id : if_dev f = Some d;
  lb_dev : n_devs (st_net s) !! d = Some dev;
  lb_ops : dev_ops dev = Some loopback_ops;
  lb_up : NETWORK_DEVICE_IS_UP dev = true;
  lb_mtu : dev_mtu dev = LOOPBACK_MTU;
  lb_arp : Z.land (dev_flags dev) NETWORK_DEVICE_FLAG_NEED_ARP = 0;
  lb_found : network_device_get_interface d NETWORK_INTERFACE_FAMILY_IP s = Ret (Some i) s;
  lb_addr : in_u32 (if_unicast f);
  lb_any : if_unicast f <> IP_ADDR_ANY;
  lb_unicast : if_unicast f <> IP_ADDR_BROADCAST;
  lb_route : rt_iface <$> ip_route_lookup (ip_routes (st_ip s)) (if_unicast f) = Some i;
  lb_id : in_u16 (ip_id (st_ip s));
  lb_ip : list_find (fun p => np_type p = NETWORK_PROTOCOL_TYPE_IP) (n_protocols (st_net s)) = Some (m, ip);
  lb_handler : np_handler ip = fn_ip_input;
  lb_udp : handler_of s UDP_PROTOCOL = Some fn_udp_input;
}.

Section Loopback.
Context {Mc : Machine} (s : stack) (i : iface_id) (f : ip_interface) (d : dev_id) (dev : network_device).
Context (m : nat) (ip : network_protocol) (L : loopback_host s i f d dev m ip).

(** The host after the identification was taken. *)
Definition next_id (s : stack) : stack :=
  set_ip (fun p => IpState (ip_ifaces p) (ip_protocols p) (ip_routes p) (u16 (ip_id p + 1))) s.

(** IP puts the datagram into the queue of its own type, checksum and all. *)
Lemma ip_send_loopback protocol msg src :
  ip_id_mutex ∉ st_held s -> w_alloc (st_world s) = [] -> in_u8 protocol -> bytes msg ->
  Z.of_nat (length msg) <= 65515 -> src = IP_ADDR_ANY \/ src = if_unicast f ->
  exists c, let buf := ip_datagram (ip_id (st_ip s)) protocol c (if_unicast f) (if_unicast f) msg in
    cksum16 buf 20 0 = Some 0 /\
    ip_send_packet protocol msg (Z.of_nat (length msg)) src (if_unicast f) s
    = Ret (Z.of_nat (length msg))
        (enqueued NETWORK_PROTOCOL_TYPE_IP (NetQueueEntry d (20 + Z.of_nat (length msg)) buf) (next_id s)).
Proof.
  intros Hm Ha Hp Hb Hlen Hsrc. destruct L. set (len := Z.of_nat (length msg)) in *.
  destruct (ip_output_core_run i protocol msg len (if_unicast f) (if_unicast f)
    (match ip_route_lookup (ip_routes (st_ip s)) (if_unicast f) with
     | Some r => if negb (rt_nexthop r =? IP_ADDR_ANY) then rt_nexthop r else if_unicast f
     | None => 0 end) (ip_id (st_ip s)) (next_id s) f d dev) as (c & Hc & Eout); try done; try lia.
  exists c. cbv zeta. rewrite take_ge in Eout by lia.
  destruct (ip_header_sum (20 + len) (ip_id (st_ip s)) 0 protocol (if_unicast f) (if_unicast f) c) as [_ Hsum];
    try done; try (unfold in_u16; lia).
  split; [by apply Hsum|].
  unfold ip_send_packet. replace (if_unicast f =? IP_ADDR_BROADCAST) with false by lia. rewrite andb_false_r.
  erewrite bind_ret by reflexivity.
  destruct (ip_route_lookup (ip_routes (st_ip s)) (if_unicast f)) as [r|] eqn:Er; [|done].
  simpl in lb_route0. injection lb_route0 as Ei. rewrite Ei. erewrite bind_ret by by apply get_iface_ok.
  replace (negb (src =? IP_ADDR_ANY) && negb (src =? if_unicast f)) with false
    by (destruct Hsrc as [-> | ->]; rewrite Z.eqb_refl; [done|by rewrite andb_false_r]).
  erewrite bind_ret by by eapply iface_dev_ok. erewrite bind_ret by by apply get_dev_ok.
  change MIN_IP_HEADER_SIZE with 20. rewrite u64_small, lb_mtu0 by lia.
  replace (LOOPBACK_MTU <? 20 + len) with false by (unfold LOOPBACK_MTU; lia).
  erewrite bind_ret by by apply ip_generate_id_run. fold (next_id s).
  erewrite bind_ret.
  2:{ rewrite Eout. unfold ip_output_device.
      erewrite bind_ret by by apply get_iface_ok. erewrite bind_ret by by eapply iface_dev_ok.
      erewrite bind_ret by by apply get_dev_ok. rewrite lb_arp0. change (truthy 0) with false. cbn iota.
      eapply (network_device_output_loopback d _ _ _ _ (next_id s) dev); try done.
      - rewrite lb_mtu0. unfold LOOPBACK_MTU. lia.
      - rewrite length_app, length_ip_header. lia. }
  change (0 =? -1) with false. cbn iota. unfold ret. f_equal. f_equal. f_equal.
  rewrite take_ge; [done|]. rewrite length_app, length_ip_header. lia.
Qed.

Lemma loopback_ip_host : ip_host (next_id s) i f d m ip.
Proof. destruct L. constructor; try done. by eapply (get_interface_ext _ _ s). Qed.

End Loopback.

Section LoopbackProperty.
Context {Mc : Machine}.

(** C20. A datagram goes round the loopback device: on a host whose queues are
    empty, [udp_sendto] to the address of the loopback interface, from a bound
    control block, returns the length sent and raises the soft interrupt; the
    interrupt's handler then leaves exactly one new entry, with the very bytes and
    the sender's endpoint, at the control block the destination port belongs to, and
    wakes its sleepers; and [udp_recvfrom] there returns it, truncated to the
    caller's buffer, if nothing else was waiting. *)
Theorem loopback_delivers (s : stack) (i : iface_id) (f : ip_interface) (d : dev_id) (dev : network_device)
    (m : nat) (ip : network_protocol) (id : Z) (data : list Z) (len port : Z) (k kr : nat) (p pr : udp_pcb) (fuel : nat)
    (L : loopback_host s i f d dev m ip) (R : udp_ready s) (Ha : w_alloc (st_world s) = [])
    (Hq : queues_empty s)
    (Hget : udp_pcb_get (st_udp s) id = Some k) (Hk : st_udp s !! k = Some p)
    (Hlocal : ep_address (pcb_local p) = IP_ADDR_ANY \/ ep_address (pcb_local p) = if_unicast f)
    (Hbound : ep_port (pcb_local p) <> 0) (Hsport : in_u16 (ep_port (pcb_local p))) (Hdport : in_u16 port)
    (Hsel : udp_pcb_select (st_udp s) (if_unicast f) port = Some kr) (Hkr : st_udp s !! kr = Some pr)
    (Hlen : 0 <= len <= Z.of_nat (length data)) (Hmax : len <= 65507) (Hb : bytes data) :
  let e := UdpQueueEntry (Endpoint (if_unicast f) (ep_port (pcb_local p))) len (take (Z.to_nat len) data) in
  wp (udp_sendto id data len (Endpoint (if_unicast f) port)) s (fun r s1 =>
    r = len /\ SIGUSR1 ∈ w_pending (st_world s1) /\
    wp (network_protocol_handler (S fuel)) s1 (fun b s2 =>
      b = true /\ delivered kr pr e (st_udp s) s2)).
Proof.
  intros e. pose proof L as []. pose proof R as (_ & _ & W).
  apply udp_sendto_wp; [done|..].
  { intros [Hn|Hn]; [congruence|]. simpl in Hn. by rewrite Hn in lb_route0. }
  intros k' p' addr Hg Hp' Hloc. rewrite Hget in Hg. injection Hg as <-. rewrite Hk in Hp'. injection Hp' as <-.
  split; [|done]. intros _.
  assert (addr = if_unicast f) as ->.
  { unfold local_address in Hloc. destruct (Z.eqb_spec (ep_address (pcb_local p)) IP_ADDR_ANY) as [|Hne].
    - destruct Hloc as (r & g & Hr & Hg & ->). simpl in Hr. rewrite Hr in lb_route0. injection lb_route0 as Ei.
      rewrite Ei, lb_iface0 in Hg. by injection Hg as <-.
    - rewrite Hloc. by destruct Hlocal. }
  destruct (udp_datagram_delivered (Endpoint (if_unicast f) (ep_port (pcb_local p))) (Endpoint (if_unicast f) port) data len s)
    as (msg & Lm & Bm & E & Dl); [lia|lia|done|done|done|]. unfold wp at 1. rewrite E. apply wp_bind.
  rewrite <- Lm. cbn [ep_address ep_port] in *.
  destruct (ip_send_loopback s i f d dev m ip L UDP_PROTOCOL msg (if_unicast f)) as (c & Hc & Es);
    [apply R|done|done|done|lia|by right|].
  eapply wp_of_run; [exact Es|]. destruct (Z.eqb_spec (Z.of_nat (length msg)) (-1)); [lia|]. apply wp_ret. split; [done|].
  split; [unfold enqueued; change (st_net (next_id s)) with (st_net s); rewrite lb_ip0; apply signalled_pending|].
  pose proof (softirq_udp_input fuel (ip_id (st_ip s)) c msg [] (if_unicast f) (if_unicast f) (next_id s) i f d m ip) as Sq.
  rewrite !app_nil_r in Sq. apply Sq; [by eapply loopback_ip_host|unfold for_iface; by rewrite Z.eqb_refl|done|lia|exact Hc|].
  intros w Hw. set (s2 := set_world (fun _ => w) (next_id s)).
  assert (udp_ready s2) as R2 by exact R.
  pose proof (Dl s2 [] i R2 ltac:(by apply Forall_nil) ltac:(simpl; by rewrite Hw)) as Wi. rewrite app_nil_r, <- Lm in Wi.
  change (st_udp s2) with (st_udp s) in Wi. rewrite Hsel in Wi.
  eapply wp_mono; [exact Wi|]. intros u s3 O. fold e in O. split; [by destruct O as (w' & ->)|]. split; [done|].
  apply (delivered_intro kr pr e s2 s3 (if_unicast f) port); [done|done| |exact Hsel|done]. split; simpl; [rewrite length_take; lia|lia].
Qed.

End LoopbackProperty.

(** ** A concrete host *)

Section LoopbackWitness.
#[local] Existing Instance little_endian_machine.

(** A program that starts the stack on the loopback device and opens two control
    blocks, for port 7 and for port 12345. *)
Definition loop_start : C bool :=
  let! r := network_init in
  let! dev := loopback_init in
  let! iface := ip_allocate_interface "127.0.0.1" "255.0.0.0" in
  match dev, iface with
  | Some d, Some i =>
      let! r' := ip_register_interface d i in
      if r' =? -1 then ret false
      else
        let! r'' := network_run in
        let! echo := udp_open in
        udp_bind echo (Endpoint IP_ADDR_ANY 0x0700);;
        let! client := udp_open in
        udp_bind client (Endpoint IP_ADDR_ANY 0x3930);;
        ret ((r =? 0) && (r'' =? 0))
  | _, _ => ret false
  end.

Lemma loop_start_ok w : wp loop_start (stack_boot w) (fun b s => b = true -> udp_ready s).
Proof.
  assert (stack_ready (stack_boot w)) as R0 by apply stack_boot_ready.
  assert (devices_exist (stack_boot w)) as X0 by by apply Forall_nil.
  unfold loop_start. apply wp_bind. eapply wp_mono; [by apply network_init_ok|]. intros r s1 [_ (R1 & E1 & _ & E3 & _)].
  assert (devices_exist s1) as X1 by (unfold devices_exist; by rewrite E1, E3).
  apply wp_bind. eapply wp_mono; [by apply loopback_init_ok|]. intros dev s2 H2.
  assert (forall s, wp (ip_allocate_interface "127.0.0.1" "255.0.0.0") s (fun _ _ => True)) as Al.
  { intros s. unfold ip_allocate_interface. apply wp_bind, memory_alloc_wp. intros b w' _ _ _.
    destruct b; cbn [negb]; [|by apply wp_ret]. vm_compute (ip_string_to_address _ _). cbn iota. wp_steps. done. }
  destruct dev as [d|].
  2:{ apply wp_bind. eapply wp_mono; [apply Al|]. intros iface s3 _. by destruct iface; apply wp_ret. }
  destruct H2 as [(R2 & X2 & _) Hd]. apply wp_bind. eapply wp_mono; [by apply ip_allocate_interface_ok|].
  intros [i|] s3 ((R3 & X3 & _) & Edev & Hi); [|by apply wp_ret]. destruct Hi as (f & Hf & Hnone).
  apply wp_bind. eapply wp_mono; [eapply ip_register_interface_ok; [done|done|by rewrite Edev|done|done]|].
  intros r4 s4 (_ & (R4 & X4 & _) & _). destruct (r4 =? -1); [by apply wp_ret|].
  apply wp_bind. eapply wp_mono; [by apply network_run_wp|]. intros r5 s5 [_ Ev].
  assert (udp_ready s5) as U5 by (eapply (stack_ready_evolve _ _ Ev R4)).
  assert (forall s id a b, udp_ready s -> wp (udp_bind id (Endpoint a b)) s (fun _ s' => udp_ready s')) as Bd.
  { intros s id a b U. apply udp_bind_wp; [done|done|]. intros k s' _ _ O Wf. by eapply udp_only_ready. }
  assert (forall s, udp_ready s -> wp udp_open s (fun _ s' => udp_ready s')) as Op.
  { intros s U. apply udp_open_wp; [done|done|]. intros k s' _ O Wf. by eapply udp_only_ready. }
  apply wp_bind. eapply wp_mono; [by apply Op|]. intros id s6 U6. apply wp_bind. eapply wp_mono; [by apply Bd|].
  intros u s7 U7. apply wp_bind. eapply wp_mono; [by apply Op|]. intros id' s8 U8. apply wp_bind.
  eapply wp_mono; [by apply Bd|]. intros u' s9 U9. by apply wp_ret.
Qed.

(** The state a computation ends in. *)
Definition final_state (m : C bool) (s : stack) : stack := match m s with Ret _ s' => s' | Fault _ => s end.

Lemma final_state_ok (m : C bool) s (P : stack -> Prop) :
  wp m s (fun b s' => b = true -> P s') -> match m s with Ret b _ => b | Fault _ => false end = true -> P (final_state m s).
Proof. unfold wp, final_state. destruct (m s); [auto|done]. Qed.

Definition loop_host : stack := final_state loop_start (stack_boot (world_quiet (Timeval 0 0))).

Lemma loop_host_ready : udp_ready loop_host.
Proof. unfold loop_host. apply (final_state_ok _ _ udp_ready); [apply loop_start_ok|vm_compute; reflexivity]. Qed.

Definition loop_iface : ip_interface :=
  IpInterface (Some 0%nat) NETWORK_INTERFACE_FAMILY_IP 0x0100007f 0x000000ff 0xffffff7f.

Definition loop_dev : network_device :=
  NetworkDevice [0%nat] 0 "net0" NETWORK_DEVICE_TYPE_LOOPBACK LOOPBACK_MTU 0x0011 0 0
    (replicate 16 0) (replicate 16 0) (Some loopback_ops) None.

Definition loop_pcb (port : Z) : udp_pcb := UdpPcb UDP_PCB_STATE_OPEN (Endpoint IP_ADDR_ANY port) [] (SchedCtx 0 0 0).

Lemma loop_host_loopback :
  loopback_host loop_host 0%nat loop_iface 0%nat loop_dev 0%nat (NetworkProtocol "IP" NETWORK_PROTOCOL_TYPE_IP [] fn_ip_input).
Proof.
  constructor; first [vm_compute; reflexivity|vm_compute; discriminate
    |vm_compute; split; [intros E; discriminate E|reflexivity]].
Qed.

(** The packet of the tests (params.h): an echo request from 127.0.0.1 to itself. *)
Definition test_data : list Z :=
  [0x45; 0x00; 0x00; 0x30;
   0x00; 0x80; 0x00; 0x00;
   0xff; 0x01; 0xbd; 0x4a;
   0x7f; 0x00; 0x00; 0x01;
   0x7f; 0x00; 0x00; 0x01;
   0x08; 0x00; 0x35; 0x64;
   0x00; 0x80; 0x00; 0x01;
   0x31; 0x32; 0x33; 0x34;
   0x35; 0x36; 0x37; 0x38;
   0x39; 0x30; 0x21; 0x40;
   0x23; 0x24; 0x25; 0x5e;
   0x26; 0x2a; 0x28; 0x29].

(** Both its checksums hold, and handed to the stack it is answered: the reply goes out
    on the loopback device, comes back in the same round, and is not answered again. *)
Example test_data_answered :
  cksum16 test_data 20 0 = Some 0 /\ cksum16 (drop 20 test_data) 28 0 = Some 0 /\
  match network_input_handler NETWORK_PROTOCOL_TYPE_IP test_data 48 0%nat loop_host with
  | Ret _ s =>
      match network_protocol_handler 1 s, network_protocol_handler 2 s with
      | Ret false s1, Ret true s2 =>
          map nqe_data (concat (map np_queue (n_protocols (st_net s1))))
            = [ip_datagram (ip_id (st_ip loop_host)) ICMP_PROTOCOL 0x4abd 0x0100007f 0x0100007f
                 ([0x00; 0x00; 0x3d; 0x64] ++ drop 24 test_data)] /\
          ip_id (st_ip s2) = ip_id (st_ip loop_host) + 1 /\ queues_empty s2
      | _, _ => False
      end
  | Fault _ => False
  end.
Proof. vm_compute. repeat split; repeat constructor. Qed.

Lemma loopback_delivers_witness :
  wp (udp_sendto 1 [1; 2; 3] 3 (Endpoint 0x0100007f 0x0700)) loop_host (fun r s1 =>
    r = 3 /\ wp (network_protocol_handler 1) s1 (fun b s2 => b = true /\
      wp (udp_recvfrom 0 8 (replicate 8 0)) s2 (fun o _ =>
        o = RecvReturn 3 (Some (Endpoint 0x0100007f 0x3930)) ([1; 2; 3] ++ replicate 5 0)))).
Proof.
  eapply wp_mono.
  - apply (loopback_delivers loop_host 0%nat loop_iface 0%nat loop_dev 0%nat _ 1 [1; 2; 3] 3 0x0700 1 0
      (loop_pcb 0x3930) (loop_pcb 0x0700) 0 loop_host_loopback loop_host_ready);
      [vm_compute; reflexivity| |vm_compute; reflexivity|vm_compute; reflexivity|by left|discriminate
      |unfold in_u16; simpl; lia|unfold in_u16; lia|vm_compute; reflexivity|vm_compute; reflexivity|simpl; lia|lia
      |apply bytesb_spec; reflexivity].
    apply (bool_decide_unpack _). vm_compute. exact I.
  - intros r s1 (-> & _ & W). split; [reflexivity|]. eapply wp_mono; [exact W|]. intros b s2 (-> & _ & Hrecv).
    split; [reflexivity|]. apply (Hrecv eq_refl). simpl. lia.
Defined.

End LoopbackWitness.
