(* ===== verification/Wire.v ===== *)
(** * A datagram over Ethernet, between two hosts

    From [udp_sendto] on one host through UDP, IP and ARP output and the driver, over
    the wire, to the interrupt routine of another host's driver, its queue, the soft
    interrupt, IP and UDP input and the receiver's [udp_recvfrom].  The kernels and
    the wire are the environment: what the model says of them is that the frame one
    host writes is what the other reads. *)

From stdpp Require Import base numbers list option gmap strings.
From Stdlib Require Import ZArith Lia.
From S2P Require Import Prelude Util CLib Queue State Sync Net Ether Drivers Arp Ip Icmp Udp Sock Log Stack Softirq Boot App System Loop.
Open Scope Z_scope.
Open Scope cmonad_scope.

(** ** A frame comes in *)

(** The kernel of the host has one frame for it. *)
Definition arriving (frame : list Z) (s : stack) : stack :=
  set_world (fun w => World (w_alloc w) (w_clock w) [SysRes 1 0 [0]; SysRes (Z.of_nat (length frame)) 0 frame]
    (w_trace w) (w_pending w) (w_errno w)) s.

(** Interrupt line [q] is the only one, of Ethernet device [d] (which is [dev]). *)
Record ether_station (s : stack) (d : dev_id) (dev : network_device) (q : irq_entry) : Prop := {
  es_dev : n_devs (st_net s) !! d = Some dev;
  es_address : length (dev_address dev) = 16%nat;
  es_priv : is_Some (dev_priv dev);
  es_vec : irq_vec (st_intr s) = [q];
  es_irq_dev : irq_dev q = d;
  es_irq : irq_num q = ETHER_TAP_IRQ \/ irq_num q = ETHER_PCAP_IRQ;
}.

(** The frame is for the station. *)
Definition for_station (dev : network_device) (dst : list Z) : bool :=
  bool_decide (take 6 (dev_address dev) = dst) || bool_decide (ETHER_ADDR_BROADCAST = dst).

(** A payload as the wire carries it. *)
Definition padded (payload : list Z) : list Z := payload ++ replicate (46 - length payload) 0.

Lemma length_padded payload : Z.of_nat (length (padded payload)) = Z.max 46 (Z.of_nat (length payload)).
Proof. unfold padded. rewrite length_app, length_replicate. lia. Qed.

Section Arrival.
Context {Mc : Machine}.

(** What the environment does after the packet was queued could as well have come before. *)
Lemma enqueued_world ty e s w :
  w_pending w = w_pending (st_world (enqueued ty e s)) ->
  set_world (fun _ => w) (enqueued ty e s)
  = enqueued ty e (set_world (fun _ => set_pending (w_pending (st_world s)) w) s).
Proof.
  unfold enqueued. simpl. destruct (list_find _ _) as [[i p]|]; unfold signalled, set_world; simpl; intros E; f_equal;
    [case_decide|]; destruct w; simpl in *; by subst.
Qed.

(** One frame through the interrupt routine. *)
Lemma isr_frame (pcap : bool) fuel d fd dst src ty payload s dev :
  n_devs (st_net s) !! d = Some dev -> length (dev_address dev) = 16%nat -> is_Some (dev_priv dev) ->
  length dst = 6%nat -> length src = 6%nat -> in_u16 ty -> w_alloc (st_world s) = [] ->
  wp (isr_loop (S (S fuel)) d fd (if pcap then ether_pcap_read else ether_tap_read))
    (arriving (ether_frame dst src ty payload) s) (fun r s' =>
    r = Some 0 /\ exists w, w_alloc w = [] /\ s' =
      (if for_station dev dst
       then enqueued ty (NetQueueEntry d (Z.of_nat (length (padded payload))) (padded payload)) (set_world (fun _ => w) s)
       else set_world (fun _ => w) s)).
Proof.
  intros Hd Ha [p Hp] Hdst Hsrc Hty Hal. set (frame := ether_frame dst src ty payload).
  assert (0 < Z.of_nat (length frame)) as Hpos.
  { unfold frame, ether_frame. rewrite !length_app, Hdst. lia. }
  cbn [isr_loop]. apply wp_bind, syscall_wp. intros r w1 _ Hs1 Ha1 _ _ ->. simpl in Hs1, Ha1. cbn.
  set (s1 := set_world (fun _ => w1) (arriving frame s)). apply wp_bind.
  destruct (syscall_do (SysRead (ep_fd p) ETHER_FRAME_SIZE_MAX) (SysRes 0 0 []) s1) as [r2 s2|] eqn:E2.
  2:{ exfalso. pose proof (syscall_wp (SysRead (ep_fd p) ETHER_FRAME_SIZE_MAX) (SysRes 0 0 []) s1 (fun _ _ => True)) as W.
      unfold wp in W. rewrite E2 in W. by apply W. }
  assert (r2 = SysRes (Z.of_nat (length frame)) 0 frame /\ exists w2, s2 = set_world (fun _ => w2) s /\ w_alloc w2 = [] /\ w_sys w2 = [])
    as (-> & w2 & -> & Ha2 & Hs2).
  { pose proof (syscall_wp (SysRead (ep_fd p) ETHER_FRAME_SIZE_MAX) (SysRes 0 0 []) s1
      (fun r s' => r = SysRes (Z.of_nat (length frame)) 0 frame /\ exists w, s' = set_world (fun _ => w) s /\ w_alloc w = [] /\ w_sys w = [])) as W.
    unfold wp in W. rewrite E2 in W. apply W. intros r w _ Hs Hal' _ _ ->. simpl in *. rewrite Hs1 in *. split; [done|].
    exists w. split_and!; [done|congruence|done]. }
  assert ((if pcap then ether_pcap_read else ether_tap_read) d ETHER_FRAME_SIZE_MAX s1
    = Ret (Z.of_nat (length frame), frame) (set_world (fun _ => w2) s)) as Er.
  { destruct pcap; unfold ether_pcap_read, ether_tap_read;
      (erewrite bind_ret by by apply (dev_private_ok d s1 dev p)); rewrite (bind_ret _ _ _ _ _ E2); simpl;
      by replace (Z.of_nat (length frame) <=? 0) with false by lia. }
  unfold wp at 1. rewrite (ether_poll_frame dst src ty payload d _ _ (set_world (fun _ => w2) s) dev Hd Ha Hdst Hsrc Hty Er).
  fold (for_station dev dst). fold (padded payload). rewrite <- length_padded. destruct (for_station dev dst).
  - rewrite network_input_ok by first [done|lia]. rewrite take_ge by lia. set (s3 := enqueued _ _ _).
    assert (w_sys (st_world s3) = [] /\ w_alloc (st_world s3) = []) as [Hs3 Ha3].
    { unfold s3, enqueued. destruct (list_find _ _) as [[j x]|]; [|done]. unfold signalled. simpl. by case_decide. }
    apply wp_bind, syscall_wp. rewrite Hs3, Ha3. intros r w _ _ Haw Hpw _ ->. cbn. apply wp_ret. split; [done|].
    eexists (set_pending _ w). split; [done|]. unfold s3 in *. by rewrite (enqueued_world _ _ _ _ Hpw).
  - apply wp_bind, syscall_wp. simpl. rewrite Hs2. intros r w _ _ Haw _ _ ->. cbn. apply wp_ret. split; [done|].
    exists w. split; [congruence|done].
Qed.

(** The round of the interrupt thread for the line. *)
Lemma irq_round_frame fuel q d dev dst src ty payload s :
  ether_station s d dev q -> length dst = 6%nat -> length src = 6%nat -> in_u16 ty -> w_alloc (st_world s) = [] ->
  wp (intr_dispatch (S (S fuel)) (irq_num q)) (arriving (ether_frame dst src ty payload) s) (fun b s' =>
    b = true /\ exists w, w_alloc w = [] /\ s' =
      (if for_station dev dst
       then enqueued ty (NetQueueEntry d (Z.of_nat (length (padded payload))) (padded payload)) (set_world (fun _ => w) s)
       else set_world (fun _ => w) s)).
Proof.
  intros [Hd Ha Hp Hv Hq Hn] Hdst Hsrc Hty Hal. unfold intr_dispatch.
  replace (irq_num q =? SIGUSR1) with false by (destruct Hn as [-> | ->]; done).
  replace (irq_num q =? SIGUSR2) with false by (destruct Hn as [-> | ->]; done).
  replace (irq_num q =? SIGALRM) with false by (destruct Hn as [-> | ->]; done).
  apply wp_bind, wp_gets. change (st_intr (arriving _ s)) with (st_intr s). rewrite Hv. cbn [irq_loop]. rewrite Z.eqb_refl.
  apply wp_bind. destruct Hp as [p Hp].
  assert (forall pcap : bool, wp (isr_loop (S (S fuel)) d (ep_fd p) (if pcap then ether_pcap_read else ether_tap_read))
    (arriving (ether_frame dst src ty payload) s) _) as W by (intros pcap; eapply (isr_frame pcap); eauto).
  unfold call_irq, ether_tap_isr, ether_pcap_isr. rewrite Hq.
  destruct (irq_handler q); (apply wp_bind; eapply wp_of_run; [by eapply (dev_private_ok d _ dev p)|]);
    (eapply wp_mono; [first [apply (W false)|apply (W true)]|]); intros r s' [-> Hs']; by apply wp_ret.
Qed.

End Arrival.

(** ** From one host to the other *)

(** The host [addr] is on the link of interface [f] of Ethernet device [d] (which is
    [dev], with private data [p]), and the cache has its hardware address [hw]. *)
Record on_link `{Machine} (s : stack) (addr : Z) (f : ip_interface) (d : dev_id) (dev : network_device) (p : ether_priv)
    (hw : list Z) : Prop := {
  ol_route : exists r, ip_route_lookup (ip_routes (st_ip s)) addr = Some r /\ rt_nexthop r = IP_ADDR_ANY /\
    ether_iface s (rt_iface r) f d dev p;
  ol_arp : truthy (Z.land (dev_flags dev) NETWORK_DEVICE_FLAG_NEED_ARP) = true;
  ol_cache : exists e, cache_lookup (st_arp s) addr = Some e /\ ac_ha e = hw /\
    (ac_state e = ARP_CACHE_STATE_RESOLVED \/ ac_state e = ARP_CACHE_STATE_STATIC);
  ol_addr : in_u32 addr /\ addr <> if_broadcast f /\ addr <> IP_ADDR_BROADCAST;
  ol_own : in_u32 (if_unicast f) /\ if_unicast f <> IP_ADDR_ANY;
  ol_id : in_u16 (ip_id (st_ip s));
}.

(** The address a datagram to it leaves from. *)
Lemma on_link_source `{Machine} s addr f d dev p hw q port a :
  on_link s addr f d dev p hw -> ep_address (pcb_local q) = IP_ADDR_ANY \/ ep_address (pcb_local q) = if_unicast f ->
  local_address s q (Endpoint addr port) a -> a = if_unicast f.
Proof.
  intros [(route & Hr & _ & EI) _ _ _ _ _] Hlocal Hloc. pose proof EI as (Hf & _). unfold local_address in Hloc.
  destruct (Z.eqb_spec (ep_address (pcb_local q)) IP_ADDR_ANY) as [|Hne].
  - destruct Hloc as (r & g & Er & Eg & ->). simpl in Er. rewrite Hr in Er. injection Er as <-. rewrite Hf in Eg. by injection Eg as <-.
  - rewrite Hloc. by destruct Hlocal.
Qed.

(** A frame for hardware address [hw] that carries [data] from [src] to [dst]. *)
Definition datagram_frame `{Machine} (hw : list Z) (src dst : endpoint) (data : list Z) (frame : list Z) : Prop :=
  exists hwsrc id c msg, frame = ether_frame hw hwsrc ETHER_TYPE_IP (ip_datagram id UDP_PROTOCOL c (ep_address src) (ep_address dst) msg) /\
    length hwsrc = 6%nat /\ Z.of_nat (length msg) = 8 + Z.of_nat (length data) /\ Z.of_nat (length data) <= 65507 /\ bytes msg /\
    (forall pad, bytes (msg ++ pad) -> cksum16 (ip_datagram id UDP_PROTOCOL c (ep_address src) (ep_address dst) msg ++ pad) 20 0 = Some 0) /\
    forall s pad i, udp_ready s -> bytes pad -> w_alloc (st_world s) = [] ->
      wp (udp_input (msg ++ pad) (Z.of_nat (length msg)) (ep_address src) (ep_address dst) i) s (fun _ s' =>
        match udp_pcb_select (st_udp s) (ep_address dst) (ep_port dst) with
        | Some k => udp_only s (received k (UdpQueueEntry src (Z.of_nat (length data)) data) (st_udp s)) s'
        | None => s' = s
        end).

Section Sending.
Context {Mc : Machine}.

(** One frame goes out, with the datagram and its checksum, and only the identification
    and the environment change. *)
Lemma ip_send_on_link protocol msg addr f d dev p hw s src :
  ip_ready s -> on_link s addr f d dev p hw -> in_u8 protocol ->
  Z.of_nat (length msg) <= dev_mtu dev - 20 -> src = IP_ADDR_ANY \/ src = if_unicast f ->
  wp (ip_send_packet protocol msg (Z.of_nat (length msg)) src addr) s (fun r s' => exists c n w,
    let buf := ip_datagram (ip_id (st_ip s)) protocol c (if_unicast f) addr msg in
    let frame := ether_frame hw (take 6 (dev_address dev)) ETHER_TYPE_IP buf in
    (forall pad, bytes (msg ++ pad) -> cksum16 (buf ++ pad) 20 0 = Some 0) /\
    s' = set_world (fun _ => w) (next_id s) /\ w_alloc w = w_alloc (st_world s) /\
    w_trace w = w_trace (st_world s) ++ [(SysWrite (ep_fd p) frame, n)] /\
    r = if n =? Z.of_nat (length frame) then Z.of_nat (length msg) else -1).
Proof.
  intros R [(route & Hr & Hn & EI) Hfl (e & He & Hhw & Hst) (Hua & Hb1 & Hb2) [Hu Hany] Hid] Hp Hlen Hsrc.
  pose proof R as (Ra & Hm & _ & Hdim). pose proof Ra as (_ & Wc & _).
  pose proof EI as (Hf & Hfd & _ & Hd & Hwf & Ho & _ & Hpr & Hup & _). pose proof (Hdim d dev Hd) as [U _]. unfold in_u16 in U.
  set (len := Z.of_nat (length msg)) in *.
  destruct (ip_output_core_run (rt_iface route) protocol msg len (if_unicast f) addr addr (ip_id (st_ip s)) (next_id s) f d dev)
    as (c & Hc & Eout); try done; try lia. rewrite take_ge in Eout by lia.
  set (buf := ip_datagram (ip_id (st_ip s)) protocol c (if_unicast f) addr msg).
  assert (Z.of_nat (length buf) = 20 + len) as Lb by (unfold buf, ip_datagram; rewrite length_app, length_ip_header; lia).
  unfold ip_send_packet. replace ((src =? IP_ADDR_ANY) && (addr =? IP_ADDR_BROADCAST)) with false by lia. wp_steps. rewrite Hr.
  apply wp_bind. eapply wp_of_run; [by apply get_iface_ok|].
  replace (negb (src =? IP_ADDR_ANY) && negb (src =? if_unicast f)) with false by lia.
  apply wp_bind. eapply wp_of_run; [by eapply iface_dev_ok|]. apply wp_bind. eapply wp_of_run; [by apply get_dev_ok|].
  change MIN_IP_HEADER_SIZE with 20. rewrite u64_small by lia. replace (dev_mtu dev <? 20 + len) with false by lia.
  apply wp_bind. eapply wp_of_run; [by apply ip_generate_id_run|]. fold (next_id s).
  rewrite Hn. cbn [negb Z.eqb]. change (if negb (IP_ADDR_ANY =? IP_ADDR_ANY) then IP_ADDR_ANY else addr) with addr.
  apply wp_bind. unfold wp at 1. rewrite Eout. fold (ip_datagram (ip_id (st_ip s)) protocol c (if_unicast f) addr msg). fold buf.
  change (match ?m ?s with Ret a s' => wp (@?k a) s' ?Q | Fault _ => False end) with (wp m s (fun a s' => wp (k a) s' Q)).
  unfold ip_output_device. apply wp_bind. eapply wp_of_run; [by apply get_iface_ok|].
  apply wp_bind. eapply wp_of_run; [by eapply iface_dev_ok|]. apply wp_bind. eapply wp_of_run; [by apply get_dev_ok|].
  rewrite Hfl. replace ((addr =? if_broadcast f) || (addr =? IP_ADDR_BROADCAST)) with false by lia. apply wp_bind.
  eapply wp_mono; [eapply (arp_resolve_hit _ _ _ (next_id s)); [exact Ra|exact EI|exact He|by destruct Hst as [-> | ->]]|].
  intros x s' [-> ->]. rewrite Z.eqb_refl. cbn [negb].
  apply cache_lookup_spec in He as (k & Hk & _); [|apply Wc].
  pose proof (cache_wf_ha _ _ _ Wc Hk) as L6. rewrite Hhw in *.
  eapply wp_mono; [apply (network_device_output_ether d _ buf (20 + len) _ (next_id s) dev p); try done; try lia; rewrite length_app; lia|].
  intros r s' (w & n & -> & Ht & Hal & _ & _ & _ & _ & Hrr).
  rewrite (take_ge buf) in Ht, Hrr by lia. rewrite take_app_length' in Ht, Hrr by lia.
  set (frame := ether_frame hw _ _ buf) in *.
  assert (wp (if r =? -1 then ret (-1) else ret len) (set_world (fun _ => w) (next_id s)) (fun r s' =>
    r = (if n =? Z.of_nat (length frame) then len else -1) /\ s' = set_world (fun _ => w) (next_id s))) as Wr.
  { subst r. destruct (n =? Z.of_nat (length frame)); by apply wp_ret. }
  eapply wp_mono; [exact Wr|]. intros r' s' [-> ->]. exists c, n, w. cbv zeta. split_and!; try done.
  intros pad Hpad. unfold buf, ip_datagram. rewrite <- app_assoc.
  apply (ip_header_sum (20 + len) (ip_id (st_ip s)) 0 protocol (if_unicast f) addr c); try done; unfold in_u16; lia.
Qed.

(** The same for a datagram of [udp_output]. *)
Lemma udp_output_on_link s addr f d dev p hw sport port data len :
  ip_ready s -> on_link s addr f d dev p hw -> in_u16 sport -> in_u16 port ->
  0 <= len <= Z.of_nat (length data) -> len <= dev_mtu dev - 28 -> bytes (take (Z.to_nat len) data) ->
  wp (udp_output (Endpoint (if_unicast f) sport) (Endpoint addr port) data len) s (fun r s' => exists frame n w,
    datagram_frame hw (Endpoint (if_unicast f) sport) (Endpoint addr port) (take (Z.to_nat len) data) frame /\
    s' = set_world (fun _ => w) (next_id s) /\ w_alloc w = w_alloc (st_world s) /\
    w_trace w = w_trace (st_world s) ++ [(SysWrite (ep_fd p) frame, n)] /\
    r = if n =? Z.of_nat (length frame) then len else -1).
Proof.
  intros R L Hs Hd Hlen Hmax Hb. pose proof L as [(route & _ & _ & EI) _ _ _ _ _]. pose proof EI as (_ & _ & _ & Hdev & Wd & _).
  assert (dev_mtu dev <= 65535) as Hmtu.
  { destruct R as (_ & _ & _ & Hdim). destruct (Hdim d dev Hdev) as [U _]. unfold in_u16 in U. lia. }
  set (data' := take (Z.to_nat len) data) in *.
  assert (Z.of_nat (length data') = len) as Ld by (unfold data'; rewrite length_take; lia).
  assert (forall src dst, udp_output src dst data len s = udp_output src dst data' len s) as Eq.
  { intros. unfold udp_output. rewrite !rdn_in, !drop_0 by lia. unfold data'. by rewrite take_take, Nat.min_id. }
  destruct (udp_datagram_delivered (Endpoint (if_unicast f) sport) (Endpoint addr port) data' len s)
    as (msg & Lm & Bm & E & Dl); [lia|lia|done|done|done|]. unfold wp at 1. rewrite Eq, E. apply wp_bind.
  rewrite <- Lm in *. cbn [ep_address ep_port] in *. rewrite (take_ge data') in Dl by lia.
  eapply wp_mono; [apply (ip_send_on_link UDP_PROTOCOL msg addr f d dev p hw); [done|done|done|lia|by right]|].
  intros r s' (c & n & w & Hc & -> & Hal & Ht & ->). set (buf := ip_datagram _ _ _ _ _ _) in *. set (frame := ether_frame _ _ _ buf) in *.
  eapply wp_mono with (Q := fun r s1 => r = (if n =? Z.of_nat (length frame) then len else -1) /\ s1 = set_world (fun _ => w) (next_id s)).
  { destruct (n =? Z.of_nat (length frame)); [destruct (Z.eqb_spec (Z.of_nat (length msg)) (-1)); [lia|]|]; by apply wp_ret. }
  intros r s' [-> ->]. exists frame, n, w. split_and!; try done.
  exists (take 6 (dev_address dev)), (ip_id (st_ip s)), c, msg. split_and!; try done; try lia.
  - destruct Wd as [Hl _]. rewrite length_take. lia.
  - intros s1 pad i R1 Bp Ha1. specialize (Dl s1 pad i R1 Bp Ha1). by rewrite Ld.
Qed.

(** [udp_sendto] from a bound control block. *)
Lemma udp_sendto_on_link s addr f d dev p hw port data len id k q :
  udp_ready s -> on_link s addr f d dev p hw -> in_u16 port ->
  udp_pcb_get (st_udp s) id = Some k -> st_udp s !! k = Some q ->
  ep_address (pcb_local q) = IP_ADDR_ANY \/ ep_address (pcb_local q) = if_unicast f ->
  ep_port (pcb_local q) <> 0 -> in_u16 (ep_port (pcb_local q)) ->
  0 <= len <= Z.of_nat (length data) -> len <= dev_mtu dev - 28 -> bytes (take (Z.to_nat len) data) ->
  wp (udp_sendto id data len (Endpoint addr port)) s (fun r s' => exists frame n w,
    datagram_frame hw (Endpoint (if_unicast f) (ep_port (pcb_local q))) (Endpoint addr port) (take (Z.to_nat len) data) frame /\
    s' = set_world (fun _ => w) (next_id s) /\ w_alloc w = w_alloc (st_world s) /\
    w_trace w = w_trace (st_world s) ++ [(SysWrite (ep_fd p) frame, n)] /\
    r = if n =? Z.of_nat (length frame) then len else -1).
Proof.
  intros R L Hd Hget Hk Hlocal Hbound Hs Hlen Hmax Hb. pose proof L as [(route & Hr & _ & EI) _ _ _ _ _]. pose proof EI as (Hf & _).
  apply udp_sendto_wp; [done|intros [E|E]; [by rewrite Hget in E|simpl in E; by rewrite Hr in E]|].
  intros k' q' a Hg Hq Hloc. rewrite Hget in Hg. injection Hg as <-. rewrite Hk in Hq. injection Hq as <-. split; [|done]. intros _.
  rewrite (on_link_source s addr f d dev p hw q port a L Hlocal Hloc). apply (udp_output_on_link s addr f d dev p hw); try done. apply R.
Qed.

End Sending.

(** ** Receiving *)

Section Receiving.
Context {Mc : Machine}.

(** The two rounds that take a datagram from the wire to the control block: only the
    table and the environment change. *)
Lemma frame_delivered fuel s i f d dev m ip q src dst data frame k :
  udp_ready s -> ip_host s i f d m ip -> ether_station s d dev q -> for_iface f (ep_address dst) = true ->
  w_alloc (st_world s) = [] -> queues_empty s -> udp_pcb_select (st_udp s) (ep_address dst) (ep_port dst) = Some k ->
  datagram_frame (take 6 (dev_address dev)) src dst data frame ->
  wp (intr_dispatch (S (S fuel)) (irq_num q)) (arriving frame s) (fun b s1 =>
    b = true /\ SIGUSR1 ∈ w_pending (st_world s1) /\
    wp (intr_dispatch (S fuel) SIGUSR1) s1 (fun b s2 =>
      b = true /\ udp_only s (received k (UdpQueueEntry src (Z.of_nat (length data)) data) (st_udp s)) s2)).
Proof.
  intros R H St Hfor Ha Hq Hsel (hwsrc & id & c & msg & -> & Lh & Lm & Lmax & Bm & Hc & Dl).
  pose proof St as [_ Hl _ _ _ _]. pose proof H as [_ _ Hip _ _]. set (buf := ip_datagram _ _ _ _ _ _) in *.
  assert (length (take 6 (dev_address dev)) = 6%nat) as L6 by (rewrite length_take; lia).
  eapply wp_mono; [by apply irq_round_frame|]. intros b s1 (-> & w & Hw & ->).
  unfold for_station. rewrite bool_decide_true by done. cbn [orb]. set (s0 := set_world (fun _ => w) s).
  change ETHER_TYPE_IP with NETWORK_PROTOCOL_TYPE_IP.
  split; [done|]. split; [unfold enqueued; change (st_net s0) with (st_net s); rewrite Hip; apply signalled_pending|].
  set (pad := replicate (46 - length buf) 0).
  assert (length buf = 20 + length msg)%nat as Lb by (unfold buf, ip_datagram; by rewrite length_app, length_ip_header).
  replace (Z.of_nat (length (padded buf))) with (20 + Z.of_nat (length (msg ++ pad)))
    by (unfold padded; fold pad; rewrite !length_app; lia).
  assert (bytes pad) as Bp by apply bytes_zeros.
  change (padded buf) with (buf ++ pad). change (intr_dispatch (S fuel) SIGUSR1) with (network_protocol_handler (S fuel)).
  apply (softirq_udp_input fuel id c msg pad (ep_address src) (ep_address dst) s0 i f d m ip);
    [|exact Hfor|exact Hq|lia|by apply Hc, bytes_app|].
  { destruct H. constructor; try done. by eapply (get_interface_ext _ _ s). }
  intros w' Hw'. eapply wp_mono; [apply (Dl (set_world (fun _ => w') s0) pad i); [exact R|exact Bp|simpl; by rewrite Hw']|].
  change (st_udp (set_world (fun _ => w') s0)) with (st_udp s). rewrite Hsel. intros u s3 (w3 & ->). split; [done|]. split; [done|].
  by exists w3.
Qed.

(** Another station's. *)
Lemma frame_ignored fuel s d dev q hw src dst data frame :
  ether_station s d dev q -> w_alloc (st_world s) = [] -> length hw = 6%nat ->
  take 6 (dev_address dev) <> hw -> hw <> ETHER_ADDR_BROADCAST -> datagram_frame hw src dst data frame ->
  wp (intr_dispatch (S (S fuel)) (irq_num q)) (arriving frame s) (fun b s' => b = true /\ exists w, s' = set_world (fun _ => w) s).
Proof.
  intros St Ha Lhw Hne Hnb (hwsrc & id & c & msg & -> & Lh & _).
  eapply wp_mono; [by apply irq_round_frame|]. intros b s1 (-> & w & _ & ->).
  unfold for_station. rewrite !bool_decide_false by congruence. cbn [orb]. split; [done|]. by exists w.
Qed.

End Receiving.

Section WireProperty.
Context {Mc : Machine}.

(** C6. A datagram crosses the wire.  On a host that has the destination on its link
    and its hardware address in its cache, [udp_sendto] from a bound control block
    writes exactly one frame and returns [len] if the kernel took it whole.  When
    that frame arrives at the host with the hardware address, the round of its
    interrupt thread for the device queues the packet and raises the soft interrupt,
    and the next round leaves exactly one new entry, with the very bytes and the
    sender's endpoint, at the control block the destination port belongs to, from
    where [udp_recvfrom] returns it, truncated to the caller's buffer, if nothing
    else was waiting.  At every other station of the wire the round for the device
    changes nothing but the record of system calls. *)
Theorem wire_delivers (sA sB : stack) (fA fB : ip_interface) (dA dB : dev_id) (devA devB : network_device) (pA : ether_priv)
    (iB : iface_id) (m : nat) (ip : network_protocol) (q : irq_entry)
    (id : Z) (data : list Z) (len addr port : Z) (k kr : nat) (p pr : udp_pcb) (fuel : nat)
    (RA : udp_ready sA) (LA : on_link sA addr fA dA devA pA (take 6 (dev_address devB)))
    (Hget : udp_pcb_get (st_udp sA) id = Some k) (Hk : st_udp sA !! k = Some p)
    (Hlocal : ep_address (pcb_local p) = IP_ADDR_ANY \/ ep_address (pcb_local p) = if_unicast fA)
    (Hbound : ep_port (pcb_local p) <> 0) (Hsport : in_u16 (ep_port (pcb_local p))) (Hdport : in_u16 port)
    (Hlen : 0 <= len <= Z.of_nat (length data)) (Hmax : len <= dev_mtu devA - 28) (Hb : bytes data)
    (RB : udp_ready sB) (HB : ip_host sB iB fB dB m ip) (SB : ether_station sB dB devB q)
    (Hfor : for_iface fB addr = true) (Ha : w_alloc (st_world sB) = []) (Hq : queues_empty sB)
    (Hsel : udp_pcb_select (st_udp sB) addr port = Some kr) (Hkr : st_udp sB !! kr = Some pr) :
  let e := UdpQueueEntry (Endpoint (if_unicast fA) (ep_port (pcb_local p))) len (take (Z.to_nat len) data) in
  wp (udp_sendto id data len (Endpoint addr port)) sA (fun r sA' => exists frame n,
    w_trace (st_world sA') = w_trace (st_world sA) ++ [(SysWrite (ep_fd pA) frame, n)] /\
    r = (if n =? Z.of_nat (length frame) then len else -1) /\
    wp (intr_dispatch (S (S fuel)) (irq_num q)) (arriving frame sB) (fun b sB1 =>
      b = true /\ SIGUSR1 ∈ w_pending (st_world sB1) /\
      wp (intr_dispatch (S fuel) SIGUSR1) sB1 (fun b sB2 => b = true /\ delivered kr pr e (st_udp sB) sB2)) /\
    (forall sC dC devC qC, ether_station sC dC devC qC -> w_alloc (st_world sC) = [] ->
       take 6 (dev_address devC) <> take 6 (dev_address devB) -> take 6 (dev_address devB) <> ETHER_ADDR_BROADCAST ->
       wp (intr_dispatch (S (S fuel)) (irq_num qC)) (arriving frame sC) (fun b sC' =>
         b = true /\ exists w, sC' = set_world (fun _ => w) sC))).
Proof.
  intros e. pose proof SB as [_ HlB _ _ _ _].
  assert (length (take 6 (dev_address devB)) = 6%nat) as L6 by (rewrite length_take; lia).
  assert (Z.of_nat (length (take (Z.to_nat len) data)) = len) as Ld by (rewrite length_take; lia).
  eapply wp_mono; [eapply (udp_sendto_on_link sA addr fA dA devA pA); try done; by apply bytes_take|].
  intros r sA' (frame & n & w & D & -> & _ & Ht & ->). exists frame, n. split_and!; [done|done|..].
  - eapply wp_mono; [by apply (frame_delivered fuel sB iB fB dB devB m ip q (Endpoint (if_unicast fA) (ep_port (pcb_local p))) (Endpoint addr port)
      (take (Z.to_nat len) data) frame kr)|]. intros b sB1 (-> & Hp & W). split; [done|]. split; [done|].
    eapply wp_mono; [exact W|]. intros b sB2 [-> O]. rewrite Ld in O. fold e in O. split; [done|].
    eapply delivered_intro; [done|done| |exact Hsel|done]. pose proof D as (_ & _ & _ & _ & _ & _ & _ & Lmax & _).
    split; simpl; lia.
  - intros sC dC devC qC SC HaC Hne Hnb. by eapply frame_ignored.
Qed.

(** ** There and back

    Hosts A and B on one wire, each with the other's hardware address in its cache. *)

(** A host at rest, ready for traffic with the host at [peer]. *)
Record wire_host (s : stack) (i : iface_id) (f : ip_interface) (d : dev_id) (dev : network_device) (p : ether_priv)
    (m : nat) (ip : network_protocol) (q : irq_entry) (peer : Z) (hw : list Z) : Prop := {
  wh_ready : udp_ready s;
  wh_host : ip_host s i f d m ip;
  wh_station : ether_station s d dev q;
  wh_link : on_link s peer f d dev p hw;
  wh_alloc : w_alloc (st_world s) = [];
  wh_queues : queues_empty s;
}.

(** Control block [k] (which is [p]) answers for its port at address [addr] and has
    nothing to hand out. *)
Definition listens (s : stack) (k : nat) (p : udp_pcb) (addr : Z) : Prop :=
  st_udp s !! k = Some p /\ pcb_queue p = [] /\ ep_port (pcb_local p) <> 0 /\ in_u16 (ep_port (pcb_local p)) /\
  (ep_address (pcb_local p) = IP_ADDR_ANY \/ ep_address (pcb_local p) = addr) /\
  udp_pcb_select (st_udp s) addr (ep_port (pcb_local p)) = Some k.

#[local] Instance recvfrom_trace id size buf : Preserves (fun s => w_trace (st_world s)) (udp_recvfrom id size buf).
Proof.
  unfold udp_recvfrom, udp_recv_loop, sched_sleep_enter, ctx_get, ctx_set, set_pcb, get_pcb, mutex_lock, mutex_unlock.
  solve_preserves.
Qed.

Lemma listens_get s k p addr : udp_ready s -> listens s k p addr -> udp_pcb_get (st_udp s) (Z.of_nat k) = Some k /\ pcb_st p = UDP_PCB_STATE_OPEN.
Proof.
  intros (_ & _ & L & _) (Hk & _ & _ & _ & _ & Hsel). pose proof (udp_pcb_select_Some _ _ _ _ Hsel) as (q & Hq & [Ho _] & _).
  rewrite Hk in Hq. injection Hq as <-. split; [by eapply pcb_get_open|done].
Qed.

Lemma on_link_ext `{Machine} s s' addr f d dev p hw :
  st_net s' = st_net s -> ip_routes (st_ip s') = ip_routes (st_ip s) -> st_arp s' = st_arp s -> in_u16 (ip_id (st_ip s')) ->
  on_link s addr f d dev p hw -> on_link s' addr f d dev p hw.
Proof. intros En Er Ea Hid []. constructor; rewrite ?Er, ?Ea; try done. unfold ether_iface. by rewrite En. Qed.

(** A round of the echo application with datagram [data] waiting sends it back. *)
Lemma echo_round_answers s soc k p e buf foreign addr f d dev pr hw :
  udp_ready s -> serves s soc k p -> pcb_queue p = [e] -> entry_ok e -> on_link s addr f d dev pr hw ->
  ep_address (uqe_foreign e) = addr -> in_u16 (ep_port (uqe_foreign e)) ->
  ep_address (pcb_local p) = IP_ADDR_ANY \/ ep_address (pcb_local p) = if_unicast f ->
  ep_port (pcb_local p) <> 0 -> in_u16 (ep_port (pcb_local p)) ->
  length buf = 1024%nat -> uqe_len e <= 1024 -> uqe_len e <= dev_mtu dev - 28 -> bytes (uqe_data e) ->
  wp (echo_round false soc buf foreign) s (fun o s' => exists frame n b,
    datagram_frame hw (Endpoint (if_unicast f) (ep_port (pcb_local p))) (uqe_foreign e) (uqe_data e) frame /\
    w_trace (st_world s') = w_trace (st_world s) ++ [(SysWrite (ep_fd pr) frame, n)] /\
    o = (if n =? Z.of_nat (length frame)
         then AppNext b (SockaddrIn (sin_family foreign) (ep_port (uqe_foreign e)) (ep_address (uqe_foreign e))) else AppBreak)).
Proof.
  intros R Sv Hq [El _] L Haddr Hport Hlocal Hbound Hs Hbuf H1024 Hmtu Hb. destruct e as [[fa fp] len dat]. simpl in *. subst fa len.
  pose proof Sv as (j & x & _ & _ & _ & _ & _ & Hk & Ho). pose proof R as (_ & _ & Wf).
  pose proof (serves_calls _ _ _ _ Sv) as (Erecv & _). unfold echo_round. apply wp_bind. unfold wp at 1. rewrite Erecv. apply wp_bind.
  eapply wp_mono; [apply (wp_preserves (fun s => w_trace (st_world s))); [apply _|];
    apply (udp_recvfrom_wp (Z.of_nat k) 1024 buf s (fun o t => o = recv_entry 1024 buf (UdpQueueEntry (Endpoint addr fp) (Z.of_nat (length dat)) dat)
      /\ udp_only s (alter (with_recvq []) k (st_udp s)) t)); [done|lia|..]|].
  { intros E. rewrite (pcb_get_open _ _ p) in E; [done|apply Wf|done|done]. }
  { intros k' p' E Hp'. rewrite (pcb_get_open _ _ p) in E; [|apply Wf|done|done]. injection E as <-. rewrite Hk in Hp'. injection Hp' as <-.
    rewrite Hq. split_and!; [|done|done]. intros e q t [= <- <-] O. done. }
  intros o t [[-> O] Etr]. apply wp_ret. destruct (recv_finish_entry foreign buf (Endpoint addr fp) dat Hbuf) as [-> Lr].
  assert (take 1024 dat = dat) as Etk by (apply take_ge; lia). rewrite Etk in *. cbn [ep_port ep_address] in *.
  set (p' := with_recvq [] p).
  assert (alter (with_recvq []) k (st_udp s) !! k = Some p') as Hk' by (by rewrite list_lookup_alter_eq, Hk).
  assert (pcbs_wf (alter (with_recvq []) k (st_udp s))) as Wf' by (eapply alter_recvq_wf; [done|exact Hk|by rewrite Hq]).
  pose proof (serves_udp_only _ _ _ _ _ p' _ Sv O Hk' Ho) as Svt. destruct (udp_only_ready _ _ _ R O Wf') as [Rt _].
  pose proof (serves_calls _ _ _ _ Svt) as (_ & Esend & _). destruct (udp_only_sock _ _ _ O) as [_ Eu].
  unfold echo_answer. destruct (Z.eqb_spec (Z.of_nat (length dat)) (-1)) as [|_]; [lia|].
  destruct (hexdump_in (dat ++ drop (length dat) buf) (Z.of_nat (length dat))) as [text ->]; [lia|rewrite length_app; lia|].
  apply wp_bind, wp_ret, wp_bind, wp_ret, wp_bind. unfold wp at 1. rewrite Esend. cbn [sin_addr sin_port].
  eapply wp_mono; [apply (udp_sendto_on_link t addr f d dev pr hw fp (dat ++ drop (length dat) buf) (Z.of_nat (length dat)) (Z.of_nat k) k p');
    try done; rewrite ?Eu; try done|].
  - destruct O as (w & ->). eapply on_link_ext; [..|exact L]; try done. apply L.
  - eapply pcb_get_open; [apply Wf'|exact Hk'|done].
  - rewrite length_app. lia.
  - rewrite Nat2Z.id. by rewrite take_app_length.
  - intros z s' (frame & n & w & D & -> & _ & Ht & ->). rewrite Nat2Z.id, take_app_length in D.
    assert (wp (if (if n =? Z.of_nat (length frame) then Z.of_nat (length dat) else -1) =? -1
      then log_line 69 "sock_sendto() failure"%string;; ret AppBreak
      else ret (AppNext (dat ++ drop (length dat) buf) (SockaddrIn (sin_family foreign) fp addr))) (set_world (fun _ => w) (next_id t))
      (fun o s' => s' = set_world (fun _ => w) (next_id t) /\ o = if n =? Z.of_nat (length frame)
        then AppNext (dat ++ drop (length dat) buf) (SockaddrIn (sin_family foreign) fp addr) else AppBreak)) as W.
    { destruct (n =? _); [destruct (Z.eqb_spec (Z.of_nat (length dat)) (-1)); [lia|]|]; by apply wp_ret. }
    eapply wp_mono; [exact W|]. intros o s' [-> ->]. exists frame, n, (dat ++ drop (length dat) buf). split_and!; [done| |done].
    simpl. by rewrite Ht, Etr.
Qed.

(** What the interrupts of an arriving datagram leave of a host, apart from the entry. *)
Lemma wire_host_sent s i f d dev p m ip q peer hw w :
  wire_host s i f d dev p m ip q peer hw -> w_alloc w = [] -> 
  udp_ready (set_world (fun _ => w) (next_id s)) /\ ip_host (set_world (fun _ => w) (next_id s)) i f d m ip /\
  ether_station (set_world (fun _ => w) (next_id s)) d dev q.
Proof.
  intros [R [] [] _ _ _] Hw. split; [exact R|]. split; constructor; try done. by eapply (get_interface_ext _ _ s).
Qed.

(** C7. A datagram and its echo.  Hosts A and B are on one wire and have each other's
    hardware address in their caches; a control block of each answers for its port and
    has nothing waiting, and B runs the echo application on it.  What A sends to B's
    port crosses the wire, B's interrupts bring it to the application, whose next round
    writes one frame, and the rounds of A's interrupts for that frame leave A's
    [udp_recvfrom] with the very bytes that were sent and B's endpoint as their source. *)
Theorem echo_over_wire (sA sB : stack) (iA iB : iface_id) (fA fB : ip_interface) (dA dB : dev_id) (devA devB : network_device)
    (pA pB : ether_priv) (mA mB : nat) (ipA ipB : network_protocol) (lA lB : irq_entry) (kA kB : nat) (qA qB : udp_pcb)
    (soc : Z) (data : list Z) (len : Z) (buf : list Z) (foreign : sockaddr_in) (fuel : nat)
    (HA : wire_host sA iA fA dA devA pA mA ipA lA (if_unicast fB) (take 6 (dev_address devB)))
    (HB : wire_host sB iB fB dB devB pB mB ipB lB (if_unicast fA) (take 6 (dev_address devA)))
    (LA : listens sA kA qA (if_unicast fA)) (LB : listens sB kB qB (if_unicast fB)) (Sv : serves sB soc kB qB)
    (Hlen : 0 <= len <= Z.of_nat (length data)) (Hb : bytes data) (Hbuf : length buf = 1024%nat) (H1024 : len <= 1024)
    (HmA : len <= dev_mtu devA - 28) (HmB : len <= dev_mtu devB - 28) :
  wp (udp_sendto (Z.of_nat kA) data len (Endpoint (if_unicast fB) (ep_port (pcb_local qB)))) sA (fun _ sA1 => exists frame n,
    w_trace (st_world sA1) = w_trace (st_world sA) ++ [(SysWrite (ep_fd pA) frame, n)] /\
    wp (intr_dispatch (S (S fuel)) (irq_num lB)) (arriving frame sB) (fun _ sB1 =>
    wp (intr_dispatch (S fuel) SIGUSR1) sB1 (fun _ sB2 =>
    wp (echo_round false soc buf foreign) sB2 (fun _ sB3 => exists frame' n',
      w_trace (st_world sB3) = w_trace (st_world sB2) ++ [(SysWrite (ep_fd pB) frame', n')] /\
      wp (intr_dispatch (S (S fuel)) (irq_num lA)) (arriving frame' sA1) (fun _ sA2 =>
      wp (intr_dispatch (S fuel) SIGUSR1) sA2 (fun _ sA3 =>
        forall size rbuf, 0 <= size <= Z.of_nat (length rbuf) ->
        wp (udp_recvfrom (Z.of_nat kA) size rbuf) sA3 (fun o _ =>
          o = recv_entry size rbuf (UdpQueueEntry (Endpoint (if_unicast fB) (ep_port (pcb_local qB))) len
                (take (Z.to_nat len) data))))))))).
Proof.
  pose proof HA as [RA _ _ LkA AlA QA]. pose proof HB as [RB HhB StB LkB AlB QB].
  pose proof LA as (HkA & EqA & BdA & PtA & LoA & SlA). pose proof LB as (HkB & EqB & BdB & PtB & LoB & SlB).
  set (dat := take (Z.to_nat len) data) in *. assert (bytes dat) as Bd by by apply bytes_take.
  assert (Z.of_nat (length dat) = len) as Ld by (unfold dat; rewrite length_take; lia).
  set (epA := Endpoint (if_unicast fA) (ep_port (pcb_local qA))). set (epB := Endpoint (if_unicast fB) (ep_port (pcb_local qB))).
  assert (forall f, for_iface f (if_unicast f) = true) as Hfor by (intros f; unfold for_iface; by rewrite Z.eqb_refl).
  eapply wp_mono; [eapply (udp_sendto_on_link sA _ fA dA devA pA); try done; by apply (listens_get sA kA qA (if_unicast fA))|].
  intros r sA1 (frame & n & w & D & -> & Hw & Ht & _). exists frame, n. split; [done|].
  eapply wp_mono; [by apply (frame_delivered fuel sB iB fB dB devB mB ipB lB epA epB dat frame kB)|].
  intros b sB1 (_ & _ & W). eapply wp_mono; [exact W|]. clear W b. intros b sB2 [_ O].
  set (e := UdpQueueEntry epA (Z.of_nat (length dat)) dat) in *.
  assert (entry_ok e) as He by (pose proof D as (_ & _ & _ & _ & _ & _ & _ & Lmax & _); split; simpl; lia).
  set (qB' := UdpPcb (pcb_st qB) (pcb_local qB) [e] (wake (pcb_ctx qB))).
  assert (received kB e (st_udp sB) !! kB = Some qB') as Hk'
    by (unfold received; by rewrite list_lookup_alter_eq, HkB; simpl; rewrite EqB).
  pose proof (listens_get _ _ _ _ RB LB) as [_ Op].
  assert (pcbs_wf (received kB e (st_udp sB))) as Wf by (eapply received_wf; [apply RB|exact HkB|done|done]).
  eapply wp_mono; [eapply (echo_round_answers sB2 soc kB qB' e buf foreign (if_unicast fA) fB dB devB pB);
    [by eapply udp_only_ready|by eapply serves_udp_only|done|done| |done|done|done|done|done|done|simpl; lia|simpl; lia|done]|].
  { destruct O as (w2 & ->). eapply on_link_ext; [..|exact LkB]; try done. apply LkB. }
  intros o sB3 (frame' & n' & b' & D' & Ht' & _). exists frame', n'. split; [done|].
  destruct (wire_host_sent _ _ _ _ _ _ _ _ _ _ _ w HA) as (RA1 & HhA1 & StA1); [congruence|].
  set (sA1 := set_world (fun _ => w) (next_id sA)) in *.
  eapply wp_mono; [apply (frame_delivered fuel sA1 iA fA dA devA mA ipA lA epB epA dat frame' kA); try done; simpl; congruence|].
  intros b2 sA2 (_ & _ & W). eapply wp_mono; [exact W|]. intros b3 sA3 [_ O3]. rewrite Ld in O3.
  apply (delivered_intro kA qA _ sA1 sA3 (if_unicast fA) (ep_port (pcb_local qA))); try done. split; simpl; [done|].
  pose proof He as [_ He']. simpl in He'. lia.
Qed.

End WireProperty.

(** ** Two concrete hosts *)

Section WireWitness.
#[local] Existing Instance little_endian_machine.

(** A host with port 7 open and a socket on it, the interrupt line of its device, and
    the hardware address of its peer in its cache. *)
Definition tap_line : irq_entry := IrqEntry ETHER_TAP_IRQ fn_ether_tap_isr NETWORK_IRQ_SHARED "net0" 1%nat.
Definition station_known (peer : Z) (hw : list Z) : arp_cache := ArpCache ARP_CACHE_STATE_RESOLVED peer hw (Timeval 0 0).
Definition station (mac : list Z) (addr peer : Z) (hw : list Z) : stack :=
  set_sock (insert 0%nat (Sock 1 AF_INET SOCK_DGRAM 0))
    (set_intr (fun v => IntrState [tap_line] (intr_sigmask v))
      (set_arp (insert 0%nat (station_known peer hw))
        (set_udp (insert 0%nat echo_pcb) (with_ip (sample_host mac addr 0x00ffffff 0xff00000a))))).

Definition wire_A : stack := station [2; 0; 0; 0; 0; 1] 0x0100000a 0x0200000a [2; 0; 0; 0; 0; 2].
Definition wire_B : stack := station [2; 0; 0; 0; 0; 2] 0x0200000a 0x0100000a [2; 0; 0; 0; 0; 1].

Lemma station_ready mac addr peer hw : length mac = 6%nat -> length hw = 6%nat -> udp_ready (station mac addr peer hw).
Proof.
  intros Hmac Hhw. destruct (sample_udp_ready mac addr 0x00ffffff 0xff00000a Hmac) as (((N & _ & Hm) & Hi & Hr & Hd) & Hu & W).
  split; [split_and!; [split_and!; [exact N| |exact Hm]|exact Hi|exact Hr|exact Hd]|by split].
  change (st_arp (station mac addr peer hw)) with (station_known peer hw :: replicate 31 arp_cache_zero). split_and!.
  - reflexivity.
  - apply Forall_cons. split; [done|by apply Forall_replicate].
  - assert (forall k e, (station_known peer hw :: replicate 31 arp_cache_zero) !! k = Some e -> k = 0%nat \/ e = arp_cache_zero) as K.
    { intros [|k] e Hk; [by left|]. right. by apply lookup_replicate_1 in Hk as [-> _]. }
    intros i j e e' [-> | ->]%K [-> | ->]%K; done.
Qed.

(** Everything but the route and the cache, which the concrete addresses decide. *)
Lemma station_link mac addr peer hw r :
  length mac = 6%nat -> ip_route_lookup (ip_routes (st_ip (station mac addr peer hw))) peer = Some r ->
  rt_nexthop r = IP_ADDR_ANY -> rt_iface r = 1%nat -> cache_lookup (st_arp (station mac addr peer hw)) peer = Some (station_known peer hw) ->
  in_u32 peer -> peer <> 0xff00000a -> peer <> IP_ADDR_BROADCAST -> in_u32 addr -> addr <> IP_ADDR_ANY ->
  on_link (station mac addr peer hw) peer (sample_iface addr 0x00ffffff 0xff00000a) 1%nat (sample_dev mac) priv_AB hw.
Proof.
  intros Hmac Hr Hn Hi Hc. constructor; try done.
  - exists r. split; [exact Hr|]. split; [exact Hn|]. rewrite Hi. exact (sample_ether_iface mac addr 0x00ffffff 0xff00000a Hmac).
  - eexists. split; [exact Hc|]. split; [reflexivity|by left].
Qed.

Lemma wire_hosts :
  (exists m ip, wire_host wire_A 1%nat iface_A 1%nat dev_A priv_AB m ip tap_line 0x0200000a (take 6 (dev_address dev_B))) /\
  (exists m ip, wire_host wire_B 1%nat iface_B 1%nat dev_B priv_AB m ip tap_line 0x0100000a (take 6 (dev_address dev_A))).
Proof.
  split; eexists _, _; constructor;
    first [by apply station_ready | by apply (bool_decide_unpack _) | reflexivity
          | constructor; first [vm_compute; reflexivity | by eexists | by left]
          | eapply station_link; try (vm_compute; reflexivity); first [discriminate | unfold in_u32; lia]].
Qed.

Lemma wire_delivers_witness :
  wp (udp_sendto 0 [1; 2; 3] 3 (Endpoint 0x0200000a 0x0700)) wire_A (fun r sA' => exists frame n,
    w_trace (st_world sA') = [(SysWrite 3 frame, n)] /\
    wp (intr_dispatch 2 ETHER_TAP_IRQ) (arriving frame wire_B) (fun _ sB1 =>
      wp (intr_dispatch 1 SIGUSR1) sB1 (fun _ sB2 =>
        wp (udp_recvfrom 0 8 (replicate 8 0)) sB2 (fun o _ =>
          o = RecvReturn 3 (Some (Endpoint 0x0100000a 0x0700)) ([1; 2; 3] ++ replicate 5 0))))).
Proof.
  destruct wire_hosts as [(mA & ipA & [RA _ _ LA _ _]) (m & ip & [RB HB SB _ _ Hq])].
  eapply wp_mono.
  - apply (wire_delivers wire_A wire_B iface_A iface_B 1%nat 1%nat dev_A dev_B priv_AB 1%nat m ip tap_line
      0 [1; 2; 3] 3 0x0200000a 0x0700 0%nat 0%nat echo_pcb echo_pcb 0%nat RA LA);
      [vm_compute; reflexivity|vm_compute; reflexivity|by left|discriminate|unfold in_u16; simpl; lia|unfold in_u16; lia
      |simpl; lia|simpl; lia|apply bytesb_spec; reflexivity|exact RB|exact HB|exact SB|reflexivity|reflexivity|exact Hq
      |vm_compute; reflexivity|vm_compute; reflexivity].
  - intros r sA' (frame & n & Ht & _ & W & _). exists frame, n. split; [exact Ht|].
    eapply wp_mono; [exact W|]. intros b sB1 (_ & _ & W1). eapply wp_mono; [exact W1|].
    intros b' sB2 (_ & _ & Hrecv). apply (Hrecv eq_refl). simpl. lia.
Defined.

Lemma echo_over_wire_witness :
  wp (udp_sendto 0 [1; 2; 3] 3 (Endpoint 0x0200000a 0x0700)) wire_A (fun _ sA1 => exists frame,
    wp (intr_dispatch 2 ETHER_TAP_IRQ) (arriving frame wire_B) (fun _ sB1 =>
    wp (intr_dispatch 1 SIGUSR1) sB1 (fun _ sB2 =>
    wp (echo_round false 0 (replicate 1024 0) (SockaddrIn AF_INET 0 0)) sB2 (fun _ sB3 => exists frame',
      wp (intr_dispatch 2 ETHER_TAP_IRQ) (arriving frame' sA1) (fun _ sA2 =>
      wp (intr_dispatch 1 SIGUSR1) sA2 (fun _ sA3 =>
      wp (udp_recvfrom 0 8 (replicate 8 0)) sA3 (fun o _ =>
        o = RecvReturn 3 (Some (Endpoint 0x0200000a 0x0700)) ([1; 2; 3] ++ replicate 5 0)))))))).
Proof.
  destruct wire_hosts as [(mA & ipA & HA) (mB & ipB & HB)].
  eapply wp_mono.
  - apply (echo_over_wire wire_A wire_B 1%nat 1%nat iface_A iface_B 1%nat 1%nat dev_A dev_B priv_AB priv_AB mA mB ipA ipB
      tap_line tap_line 0%nat 0%nat echo_pcb echo_pcb 0 [1; 2; 3] 3 (replicate 1024 0) (SockaddrIn AF_INET 0 0) 0%nat HA HB).
    + split_and!; [vm_compute; reflexivity|reflexivity|discriminate|done|by left|vm_compute; reflexivity].
    + split_and!; [vm_compute; reflexivity|reflexivity|discriminate|done|by left|vm_compute; reflexivity].
    + exists 0%nat, (Sock 1 AF_INET SOCK_DGRAM 0). split_and!; vm_compute; reflexivity.
    + simpl. lia.
    + apply bytesb_spec. reflexivity.
    + reflexivity.
    + lia.
    + simpl. lia.
    + simpl. lia.
  - intros r sA1 (frame & n & _ & W). exists frame. eapply wp_mono; [exact W|]. clear W. intros b sB1 W.
    eapply wp_mono; [exact W|]. clear W. intros b1 sB2 W. eapply wp_mono; [exact W|]. clear W.
    intros o sB3 (frame' & n' & _ & W). exists frame'. eapply wp_mono; [exact W|]. clear W. intros b2 sA2 W.
    eapply wp_mono; [exact W|]. clear W. intros b3 sA3 W. apply (W 8 (replicate 8 0)). simpl. lia.
Defined.

End WireWitness.
