(* ===== verification/Typed.v ===== *)
(** * Machine widths (the field types of the headers)

    C integers are modelled by [Z].  This file shows that what is computed from packets
    and arguments stays in range: in every state the system reaches, the fields listed
    in [typed] hold values of their C types, every queue holds bytes, and every frame
    written to a device is a sequence of bytes of a length that Ethernet allows.
    Not covered are the fields that only the code's own constants and small counts
    reach: the socket table, the scheduling contexts, the timestamps and timers, the
    interrupt lines and the drivers' private data; and the lengths of queued packets,
    which [stack_ready] relates to their data.
    [types P m] is the judgement: run in a state with such fields, [m] leaves such a
    state and returns a value in [P]. *)

From stdpp Require Import base numbers list option gmap strings.
From Stdlib Require Import ZArith Lia.
From S2P Require Import Prelude Util CLib Queue State Sync Net Ether Drivers Arp Ip Icmp Udp Sock Log Stack Softirq Boot App System Threads.
Open Scope Z_scope.
Open Scope cmonad_scope.

(** ** Typed states *)

Record dev_typed (d : network_device) : Prop := {
  dt_index : in_u32 (dev_index d);
  dt_type : in_u16 (dev_type d);
  dt_mtu : in_u16 (dev_mtu d);
  dt_flags : in_u16 (dev_flags d);
  dt_header_len : in_u16 (dev_header_len d);
  dt_address_len : in_u16 (dev_address_len d);
  dt_address : bytes (dev_address d);
  dt_broadcast : bytes (dev_broadcast d);
}.

Record iface_typed (f : ip_interface) : Prop := {
  it_unicast : in_u32 (if_unicast f);
  it_netmask : in_u32 (if_netmask f);
  it_broadcast : in_u32 (if_broadcast f);
}.

Definition proto_typed (p : network_protocol) : Prop :=
  in_u16 (np_type p) /\ Forall (fun e => bytes (nqe_data e)) (np_queue p).

Definition cache_typed (e : arp_cache) : Prop := in_u32 (ac_pa e) /\ bytes (ac_ha e).

Record route_typed (r : ip_route) : Prop := {
  rt_network_typed : in_u32 (rt_network r);
  rt_netmask_typed : in_u32 (rt_netmask r);
  rt_nexthop_typed : in_u32 (rt_nexthop r);
}.

Definition endpoint_typed (e : endpoint) : Prop := in_u32 (ep_address e) /\ in_u16 (ep_port e).

Definition datagram_typed (e : udp_queue_entry) : Prop :=
  endpoint_typed (uqe_foreign e) /\ in_u16 (uqe_len e) /\ bytes (uqe_data e).

Definition pcb_typed (p : udp_pcb) : Prop := endpoint_typed (pcb_local p) /\ Forall datagram_typed (pcb_queue p).

(** A frame given to the kernel, and the room for one. *)
Definition frame_typed (frame : list Z) : Prop :=
  bytes frame /\ ETHER_FRAME_SIZE_MIN <= Z.of_nat (length frame) <= ETHER_FRAME_SIZE_MAX.

Definition call_typed (c : syscall) : Prop :=
  match c with
  | SysWrite _ frame => frame_typed frame
  | SysRead _ size => size = ETHER_FRAME_SIZE_MAX
  | _ => True
  end.

(** What the kernel stores in a buffer. *)
Definition answer_typed (r : sysres) : Prop := bytes (r_data r).

(** The fields covered: of devices, interfaces, protocols with their queues, the ARP
    cache, routes, the identification counter and control blocks with their queues;
    and the frames exchanged with the kernel. *)
Record typed (s : stack) : Prop := {
  t_devs : map_Forall (fun _ => dev_typed) (n_devs (st_net s));
  t_ifs : map_Forall (fun _ => iface_typed) (n_ifs (st_net s));
  t_index : in_u32 (n_index (st_net s));
  t_protocols : Forall proto_typed (n_protocols (st_net s));
  t_arp : Forall cache_typed (st_arp s);
  t_routes : Forall route_typed (ip_routes (st_ip s));
  t_ip_protocols : Forall (fun p => in_u8 (ipp_type p)) (ip_protocols (st_ip s));
  t_id : in_u16 (ip_id (st_ip s));
  t_udp : Forall pcb_typed (st_udp s);
  t_trace : Forall (fun c => call_typed c.1) (w_trace (st_world s));
  t_answers : Forall answer_typed (w_sys (st_world s));
}.

(** The parts of a state that are typed. *)
Definition typed_view (s : stack) :=
  (n_devs (st_net s), n_ifs (st_net s), n_index (st_net s), n_protocols (st_net s), st_arp s,
   ip_routes (st_ip s), ip_protocols (st_ip s), ip_id (st_ip s), st_udp s, w_trace (st_world s), w_sys (st_world s)).

Lemma typed_same s s' : typed_view s' = typed_view s -> typed s -> typed s'.
Proof. unfold typed_view. intros [= E1 E2 E3 E4 E5 E6 E7 E8 E9 E10 E11] []. constructor; by rewrite ?E1, ?E2, ?E3, ?E4, ?E5, ?E6, ?E7, ?E8, ?E9, ?E10, ?E11. Qed.

Lemma typed_devs f s : typed s -> map_Forall (fun _ => dev_typed) (f (n_devs (st_net s))) -> typed (set_net (set_devs f) s).
Proof. intros [] H. by constructor. Qed.

Lemma typed_ifs f s : typed s -> map_Forall (fun _ => iface_typed) (f (n_ifs (st_net s))) -> typed (set_net (set_ifs f) s).
Proof. intros [] H. by constructor. Qed.

Lemma typed_protocols f s : typed s -> Forall proto_typed (f (n_protocols (st_net s))) -> typed (set_net (set_protocols f) s).
Proof. intros [] H. by constructor. Qed.

Lemma typed_arp f s : typed s -> Forall cache_typed (f (st_arp s)) -> typed (set_arp f s).
Proof. intros [] H. by constructor. Qed.

Lemma typed_udp f s : typed s -> Forall pcb_typed (f (st_udp s)) -> typed (set_udp f s).
Proof. intros [] H. by constructor. Qed.

(** ** The judgement *)

Notation types := (maintains typed).

Lemma types_preserves {A} (m : C A) : Preserves typed_view m -> types any m.
Proof. apply maintains_preserves. intros s s'. apply typed_same. Qed.

#[export] Hint Resolve store16_bytes store32_bytes hton16_range ntoh16_range u8_range u16_range u32_range bytes_take bytes_drop bytes_zeros
  bytes_nil : maintains.

(** What was read from a buffer of bytes. *)
Lemma rd8_typed buf off v : rd8 buf off = Some v -> bytes buf -> in_u8 v.
Proof. intros. by eapply rd8_bytes. Qed.

Lemma rd16_typed {Mc : Machine} buf off v : rd16 buf off = Some v -> bytes buf -> in_u16 v.
Proof. intros. by eapply rd16_bytes. Qed.

Lemma rd32_typed {Mc : Machine} buf off v : rd32 buf off = Some v -> bytes buf -> in_u32 v.
Proof. intros. by eapply rd32_bytes. Qed.

Lemma rdn_typed buf off n v : rdn buf off n = Some v -> bytes buf -> bytes v.
Proof. intros. by eapply rdn_bytes. Qed.
#[export] Hint Resolve rd8_typed rd16_typed rd32_typed rdn_typed : maintains.

Lemma bytes_app_2 l k : bytes l -> bytes k -> bytes (l ++ k).
Proof. intros. by apply bytes_app. Qed.

Lemma bytes_cons_2 b l : in_u8 b -> bytes l -> bytes (b :: l).
Proof. intros. by apply bytes_cons. Qed.

#[export] Hint Resolve bytes_app_2 bytes_cons_2 : maintains.

(** A constant in its range. *)
Ltac const_range x :=
  lazymatch x with Z0 => idtac | Zpos _ => idtac | Z.of_nat ?n => is_const n | _ => is_const x end;
  vm_compute; split; [discriminate|reflexivity].
#[export] Hint Extern 1 (in_u8 ?x) => const_range x : maintains.
#[export] Hint Extern 1 (in_u16 ?x) => const_range x : maintains.
#[export] Hint Extern 1 (in_u32 ?x) => const_range x : maintains.

(** ** Shared effects *)

Lemma typed_world f s :
  typed s -> w_trace (f (st_world s)) = w_trace (st_world s) -> w_sys (f (st_world s)) = w_sys (st_world s) ->
  typed (set_world f s).
Proof. intros T Et Es. eapply typed_same; [|exact T]. unfold typed_view. simpl. by rewrite Et, Es. Qed.

Lemma types_memory_alloc : types any memory_alloc.
Proof.
  intros s T. unfold memory_alloc. apply pw_bind, pw_get. destruct (w_alloc _); [by apply pw_ret|].
  apply pw_bind, pw_modify, pw_ret. split; [by apply typed_world|done].
Qed.

Lemma types_gettimeofday : types any gettimeofday.
Proof.
  intros s T. unfold gettimeofday. apply pw_bind, pw_get. destruct (w_clock _) as [|t [|t' r]]; [by apply pw_ret..|].
  apply pw_bind, pw_modify, pw_ret. split; [by apply typed_world|done].
Qed.

Lemma types_mutex_lock m : types any (mutex_lock m).
Proof. apply types_preserves. unfold mutex_lock. solve_preserves. Qed.

Lemma types_mutex_unlock m : types any (mutex_unlock m).
Proof. apply types_preserves. unfold mutex_unlock. solve_preserves. Qed.

Lemma types_raise_signal sig : types any (raise_signal sig).
Proof. apply maintains_modify. intros s T. by apply typed_world; [|case_decide..]. Qed.

Lemma types_syscall c dflt : call_typed c -> answer_typed dflt -> types answer_typed (syscall_do c dflt).
Proof.
  intros Hc Hd s T. unfold syscall_do. apply pw_bind, pw_get.
  assert (exists r rest, match w_sys (st_world s) with [] => (dflt, []) | r :: rest => (r, rest) end = (r, rest) /\
    answer_typed r /\ Forall answer_typed rest) as (r & rest & -> & Hr & Hrest).
  { destruct T as []. destruct (w_sys (st_world s)) as [|r rest]; [by eexists _, _|].
    apply Forall_cons in t_answers0 as [? ?]. by eexists _, _. }
  apply pw_bind, pw_modify, pw_ret. split; [|done]. destruct T as []. constructor; try done.
  simpl. apply Forall_app. split; [done|by apply Forall_singleton].
Qed.

Lemma types_get_dev d : types dev_typed (get_dev d).
Proof.
  unfold get_dev. eapply (maintains_bind _ (map_Forall (fun _ => dev_typed) ∘ n_devs)); [apply maintains_gets; by intros s []|].
  intros n Hn. eapply maintains_mono; [apply maintains_opt|]. intros dev E. exact (Hn _ _ E).
Qed.

Lemma types_set_dev d f : (forall dev, dev_typed dev -> dev_typed (f dev)) -> types any (set_dev d f).
Proof.
  intros Hf. unfold set_dev. eapply maintains_bind; [apply types_get_dev|]. intros dev Hd. apply maintains_modify.
  intros s T. apply typed_devs; [done|]. apply map_Forall_insert_2; [auto|apply T].
Qed.

Lemma types_get_iface i : types iface_typed (get_iface i).
Proof.
  unfold get_iface. eapply (maintains_bind _ (map_Forall (fun _ => iface_typed) ∘ n_ifs)); [apply maintains_gets; by intros s []|].
  intros n Hn. eapply maintains_mono; [apply maintains_opt|]. intros f E. exact (Hn _ _ E).
Qed.

Lemma types_iface_dev i : types any (iface_dev i).
Proof. unfold iface_dev. eapply maintains_bind; [apply types_get_iface|]. intros f _. eapply maintains_any, maintains_opt. Qed.

Lemma types_queue_push {A} (q : list A) x : types (fun o => forall q', o = Some q' -> q' = fifo_push q x) (queue_push_c q x).
Proof.
  unfold queue_push_c. eapply maintains_bind; [apply types_memory_alloc|]. intros [] _; apply maintains_ret; intros q' E; [by injection E|done].
Qed.

#[export] Hint Resolve types_memory_alloc types_gettimeofday types_mutex_lock types_mutex_unlock types_raise_signal types_syscall
  types_get_dev types_set_dev types_get_iface types_iface_dev types_queue_push : maintains.


(** Reading the components of the state. *)
Definition ip_typed (p : ip_state) : Prop :=
  Forall route_typed (ip_routes p) /\ Forall (fun e => in_u8 (ipp_type e)) (ip_protocols p) /\ in_u16 (ip_id p).

Lemma types_gets_net : types (fun n => Forall proto_typed (n_protocols n) /\ in_u32 (n_index n)) (gets st_net).
Proof. apply maintains_gets. by intros s []. Qed.

Lemma types_gets_arp : types (Forall cache_typed) (gets st_arp).
Proof. apply maintains_gets. by intros s []. Qed.

Lemma types_gets_ip : types ip_typed (gets st_ip).
Proof. apply maintains_gets. by intros s []. Qed.

Lemma types_gets_udp : types (Forall pcb_typed) (gets st_udp).
Proof. apply maintains_gets. by intros s []. Qed.

Lemma types_gets_intr : types any (gets st_intr).
Proof. by apply maintains_gets. Qed.

Lemma types_gets_sock : types any (gets st_sock).
Proof. by apply maintains_gets. Qed.

#[export] Hint Resolve types_gets_net types_gets_arp types_gets_ip types_gets_udp types_gets_intr types_gets_sock : maintains.

Lemma list_find_typed {A} (P Q : A -> Prop) `{forall x, Decision (Q x)} l i x :
  Forall P l -> list_find Q l = Some (i, x) -> P x.
Proof. intros Hl (Hx & _)%list_find_Some. by eapply Forall_lookup_1. Qed.

(** ** net.c *)

Lemma types_set_queue i q : Forall (fun e => bytes (nqe_data e)) q -> types any (set_queue i q).
Proof.
  intros Hq. apply maintains_modify. intros s T. apply typed_protocols; [done|].
  apply Forall_alter; [apply T|]. by intros p _ [? _].
Qed.
#[export] Hint Resolve types_set_queue : maintains.

Lemma types_network_input ty data len d : bytes data -> types any (network_input_handler ty data len d).
Proof.
  intros Hb. unfold network_input_handler, raise_softirq. eapply maintains_bind; [apply types_gets_net|]. intros n [Hn _].
  destruct (list_find _ _) as [[i p]|] eqn:Ep; [|by maintains_tac].
  apply (list_find_typed _ _ _ _ _ Hn) in Ep as [_ Hp]. maintains_step. maintains_step; [by maintains_tac|]. maintains_step. maintains_step. maintains_step; [|by maintains_tac].
  eapply maintains_bind; [apply types_set_queue|intros; by maintains_tac].
  rewrite (H1 _ eq_refl). unfold fifo_push. apply Forall_app. split; [done|]. apply Forall_singleton. simpl. eauto with maintains.
Qed.

Lemma types_find_interface l family : types any (find_interface l family).
Proof. induction l; simpl; by maintains_tac. Qed.
#[export] Hint Resolve types_network_input types_find_interface : maintains.

Lemma types_get_interface d family : types any (network_device_get_interface d family).
Proof. unfold network_device_get_interface. by maintains_tac. Qed.
#[export] Hint Resolve types_get_interface : maintains.

(** ** Devices *)

Section TypedDrivers.
Context {Mc : Machine}.

Lemma types_dev_private d : types any (dev_private d).
Proof. unfold dev_private. by maintains_tac. Qed.
#[local] Hint Resolve types_dev_private : maintains.

#[local] Hint Extern 1 (call_typed _) => first [exact I | reflexivity] : maintains.
#[local] Hint Extern 1 (answer_typed (SysRes _ _ _)) => solve [apply bytesb_spec; reflexivity] : maintains.

Lemma types_transmit_helper d ty data len dst callback :
  in_u16 ty -> bytes data -> bytes dst -> (forall d frame n, frame_typed frame -> types any (callback d frame n)) ->
  types any (ether_transmit_helper d ty data len dst callback).
Proof.
  intros Ht Hb Hd Hc. unfold ether_transmit_helper. maintains_step.
  match goal with H : dev_typed _ |- _ => destruct H end. maintains_step. maintains_step. maintains_step. maintains_step; [by maintains_tac|].
  eapply maintains_bind; [apply Hc; split; [eauto 12 with maintains|]|intros r _; by maintains_tac].
  repeat match goal with H : rdn _ _ _ = Some _ |- _ => apply rdn_length in H end.
  unfold ETHER_PAYLOAD_SIZE_MAX, ETHER_PAYLOAD_SIZE_MIN, ETHER_FRAME_SIZE_MAX, ETHER_FRAME_SIZE_MIN, ETHER_HDR_SIZE, ETHER_ADDR_LEN in *.
  rewrite length_take, !length_app, length_store16, length_replicate. destruct (Z.ltb_spec len (60 - 14)); lia.
Qed.

Lemma types_ether_write d frame n : frame_typed frame -> types any (ether_tap_write d frame n) /\ types any (ether_pcap_write d frame n).
Proof.
  intros Hb. assert (forall fd, call_typed (SysWrite fd frame)) by done.
  split; unfold ether_tap_write, ether_pcap_write; by maintains_tac.
Qed.

Lemma types_transmit o f d ty data len dst :
  stack_transmit o = Some f -> in_u16 ty -> bytes data -> bytes dst -> types any (f d ty data len dst).
Proof.
  intros E Ht Hb Hd. destruct o; injection E as <-; unfold loopback_transmit, ether_tap_transmit, ether_pcap_transmit;
    [by maintains_tac|apply types_transmit_helper; [done..|]; intros; by apply types_ether_write..].
Qed.

Lemma types_device_output d ty data len dst :
  in_u16 ty -> bytes data -> bytes dst -> types any (network_device_output d ty data len dst).
Proof.
  intros Ht Hb Hd. unfold network_device_output. maintains_step. maintains_step; [by maintains_tac|]. maintains_step; [by maintains_tac|]. maintains_step. maintains_step.
  match goal with E : drv_transmit _ = Some _ |- _ => eapply maintains_bind; [by apply (types_transmit _ _ _ _ _ _ _ E)|] end.
  intros r _. by maintains_tac.
Qed.

Lemma types_poll_helper d read :
  (forall d, types (fun r => bytes r.2) (read d ETHER_FRAME_SIZE_MAX)) -> types any (ether_poll_helper d read).
Proof.
  intros Hr. unfold ether_poll_helper. eapply maintains_bind; [apply Hr|]. intros [flen frame] Hf. simpl in Hf. by maintains_tac.
Qed.

Lemma types_ether_read d :
  types (fun r => bytes r.2) (ether_tap_read d ETHER_FRAME_SIZE_MAX) /\ types (fun r => bytes r.2) (ether_pcap_read d ETHER_FRAME_SIZE_MAX).
Proof.
  split; unfold ether_tap_read, ether_pcap_read;
    (maintains_step; maintains_step; unfold answer_typed in *; maintains_step; apply maintains_ret; simpl; [apply bytes_nil|assumption]).
Qed.

Lemma types_isr fuel d fd read :
  (forall d, types (fun r => bytes r.2) (read d ETHER_FRAME_SIZE_MAX)) -> types any (isr_loop fuel d fd read).
Proof.
  intros Hr. pose proof (types_poll_helper d read Hr). induction fuel as [|fuel IH]; cbn [isr_loop]; by maintains_tac.
Qed.

Lemma types_call_irq fuel e : types any (call_irq fuel e).
Proof.
  unfold call_irq, ether_tap_isr, ether_pcap_isr. destruct (irq_handler e); (maintains_step; apply types_isr; intros; apply types_ether_read).
Qed.

End TypedDrivers.
#[export] Hint Resolve types_device_output types_call_irq types_dev_private : maintains.
#[export] Hint Extern 1 (call_typed _) => exact I : maintains.
#[export] Hint Extern 1 (answer_typed (SysRes _ _ _)) => solve [apply bytesb_spec; reflexivity] : maintains.

(** ** arp.c *)

Section TypedProtocols.
Context {Mc : Machine}.

Lemma cksum16_range data n init c : cksum16 data n init = Some c -> in_u16 c.
Proof. unfold cksum16. intros E. repeat case_match; simplify_eq; apply u16_range. Qed.
#[local] Hint Resolve cksum16_range : maintains.

Lemma types_set_cache i f : (forall e, cache_typed e -> cache_typed (f e)) -> types any (set_cache i f).
Proof. intros Hf. apply maintains_modify. intros s T. apply typed_arp; [done|]. apply Forall_alter; [apply T|]. auto. Qed.
#[local] Hint Resolve types_set_cache : maintains.

Lemma arp_message_bytes op sha spa tha tpa :
  in_u16 op -> bytes sha -> in_u32 spa -> bytes tha -> in_u32 tpa -> bytes (arp_message op sha spa tha tpa).
Proof. intros. unfold arp_message. eauto 20 with maintains. Qed.
#[local] Hint Resolve arp_message_bytes : maintains.

Ltac typed_parts := repeat match goal with
  | H : dev_typed _ |- _ => destruct H
  | H : iface_typed _ |- _ => destruct H
  | H : route_typed _ |- _ => destruct H
  | H : cache_typed _ |- _ => destruct H
  | H : endpoint_typed _ |- _ => destruct H
  | H : pcb_typed _ |- _ => destruct H
  | H : ip_typed _ |- _ => destruct H as (? & ? & ?)
  end.

Lemma types_arp_request i tpa : in_u32 tpa -> types any (arp_request i tpa).
Proof. intros Ht. unfold arp_request. do 4 maintains_step. typed_parts. apply types_device_output; eauto with maintains. Qed.

Lemma types_arp_reply i tha tpa dst : bytes tha -> in_u32 tpa -> bytes dst -> types any (arp_reply i tha tpa dst).
Proof. intros Hh Ht Hd. unfold arp_reply. do 5 maintains_step. typed_parts. apply types_device_output; eauto with maintains. Qed.
#[local] Hint Resolve types_arp_request types_arp_reply : maintains.

Lemma types_arp_cache_update pa ha : bytes ha -> types any (arp_cache_update pa ha).
Proof.
  intros Hb. unfold arp_cache_update. maintains_step. maintains_step; [|by maintains_tac]. maintains_step.
  do 3 (eapply maintains_bind; [first [apply types_set_cache; intros e []; by split; eauto with maintains|eauto with maintains]|intros ? _]). by maintains_tac.
Qed.

Lemma types_arp_cache_insert pa ha : in_u32 pa -> bytes ha -> types any (arp_cache_insert pa ha).
Proof.
  intros Hp Hb. unfold arp_cache_insert. maintains_step. maintains_step; [|by maintains_tac]. maintains_step.
  do 3 (eapply maintains_bind; [first [apply types_set_cache; intros e []; by split; eauto with maintains|eauto with maintains]|intros ? _]). by maintains_tac.
Qed.
#[local] Hint Resolve types_arp_cache_update types_arp_cache_insert : maintains.

Lemma types_arp_input data len d : bytes data -> types any (arp_input data len d).
Proof.
  intros Hb. unfold arp_input, arp_input_merge, arp_input_update, arp_input_insert. by maintains_tac.
Qed.

Lemma types_arp_resolve i pa ha : in_u32 pa -> bytes ha -> types (fun r => bytes r.2) (arp_resolve i pa ha).
Proof.
  intros Hp Hb. unfold arp_resolve. do 3 maintains_step. maintains_step; [by apply maintains_ret|]. maintains_step; [by apply maintains_ret|].
  maintains_step. eapply maintains_bind; [apply types_gets_arp|]. intros caches Hc. maintains_step.
  - eapply maintains_bind; [apply maintains_opt|]. intros e He. pose proof (Forall_lookup_1 _ _ _ _ Hc He) as [? Hha].
    maintains_step; maintains_tac; apply maintains_ret; simpl; eauto with maintains.
  - maintains_step; [|maintains_tac; by apply maintains_ret].
    do 3 (eapply maintains_bind; [first [apply types_set_cache; intros e []; by split|eauto with maintains]|intros ? _]).
    do 2 maintains_step. by apply maintains_ret.
Qed.

Lemma types_arp_timer : types any arp_timer.
Proof.
  unfold arp_timer. maintains_step. maintains_step. eapply maintains_bind; [|intros; by maintains_tac].
  apply maintains_modify. intros s T. apply typed_arp; [done|]. apply Forall_map. eapply Forall_impl; [apply T|].
  intros e He. unfold arp_timer_entry. repeat case_match; [|done..]. split; [const_range 0|apply bytes_zeros].
Qed.
#[local] Hint Resolve types_arp_input types_arp_resolve types_arp_timer : maintains.

(** ** ip.c *)

Lemma types_ip_output_device i data len dst : bytes data -> in_u32 dst -> types any (ip_output_device i data len dst).
Proof.
  intros Hb Hd. unfold ip_output_device. do 3 maintains_step. typed_parts. maintains_step; [maintains_step|].
  - maintains_step. apply types_device_output; eauto with maintains.
  - eapply maintains_bind; [apply types_arp_resolve; eauto with maintains|]. intros [r hw] Hw. simpl in Hw. maintains_step; [by maintains_tac|].
    apply types_device_output; eauto with maintains.
  - apply types_device_output; eauto with maintains.
Qed.

Lemma types_ip_dump data : types any (ip_dump data).
Proof. unfold ip_dump. by maintains_tac. Qed.
#[local] Hint Resolve types_ip_dump types_ip_output_device ip_header_bytes : maintains.

Lemma types_ip_output_core i protocol data len src dst nexthop id offset :
  in_u8 protocol -> bytes data -> in_u32 src -> in_u32 dst -> in_u32 nexthop -> in_u16 id -> in_u16 offset ->
  types any (ip_output_core i protocol data len src dst nexthop id offset).
Proof.
  intros. unfold ip_output_core. maintains_step. maintains_step; [by maintains_tac|]. do 4 maintains_step. apply types_ip_output_device; [|done].
  apply bytes_app. split; [|eauto with maintains]. apply ip_header_bytes; eauto with maintains.
Qed.

Lemma types_ip_generate_id : types in_u16 ip_generate_id.
Proof.
  unfold ip_generate_id. maintains_step. eapply maintains_bind; [apply types_gets_ip|]. intros p (_ & _ & Hid).
  eapply maintains_bind; [|intros ? _; by maintains_tac].
  apply maintains_modify. intros s []. constructor; try done. apply u16_range.
Qed.

Lemma route_lookup_typed routes dst r : ip_route_lookup routes dst = Some r -> Forall route_typed routes -> route_typed r.
Proof.
  unfold ip_route_lookup. assert (forall c, (forall x, c = Some x -> route_typed x) -> ip_route_loop routes dst c = Some r ->
    Forall route_typed routes -> route_typed r) as H; [|by eapply H].
  induction routes as [|x routes IH]; intros c Hc E HF; simpl in E; [auto|]. apply Forall_cons in HF as [Hx HF].
  eapply IH; [|exact E|done]. intros y Ey. repeat case_match; simplify_eq; auto.
Qed.

Lemma types_ip_send_packet protocol data len src dst :
  in_u8 protocol -> bytes data -> in_u32 dst -> types any (ip_send_packet protocol data len src dst).
Proof.
  intros Hp Hb Hd. unfold ip_send_packet. maintains_step; [by maintains_tac|]. eapply maintains_bind; [apply types_gets_ip|]. intros p (Hr & _ & _).
  destruct (ip_route_lookup _ _) as [r|] eqn:Er; [|by maintains_tac]. apply route_lookup_typed in Er as []; [|done].
  maintains_step. typed_parts. maintains_step; [by maintains_tac|]. do 2 maintains_step. maintains_step; [by maintains_tac|].
  eapply maintains_bind; [apply types_ip_generate_id|]. intros id Hid.
  eapply maintains_bind; [apply types_ip_output_core; first [done|by case_match|const_range 0]|intros ? _; by maintains_tac].
Qed.
#[local] Hint Resolve types_ip_send_packet : maintains.

(** ** icmp.c *)

Lemma icmp_message_bytes ty code sum values data :
  in_u8 ty -> in_u8 code -> in_u16 sum -> in_u32 values -> bytes data -> bytes (icmp_message ty code sum values data).
Proof. intros. unfold icmp_message. eauto 12 with maintains. Qed.

Lemma types_icmp_input data len src dst i : bytes data -> in_u32 src -> types any (icmp_input data len src dst i).
Proof.
  intros Hb Hs. assert (forall ty code values data len src dst, in_u8 ty -> in_u8 code -> in_u32 values -> bytes data -> in_u32 dst ->
    types any (icmp_output ty code values data len src dst)) as Out.
  { intros. unfold icmp_output, icmp_dump. maintains_step; [by maintains_tac|]. do 3 maintains_step.
    apply types_ip_send_packet; [const_range ICMP_PROTOCOL|apply icmp_message_bytes; eauto with maintains|done]. }
  unfold icmp_input, icmp_dump. by maintains_tac.
Qed.


(** ** udp.c *)

Lemma types_get_pcb k : types pcb_typed (get_pcb k).
Proof.
  unfold get_pcb. eapply maintains_bind; [apply types_gets_udp|]. intros pcbs Hp. eapply maintains_mono; [apply maintains_opt|].
  intros p E. exact (Forall_lookup_1 _ _ _ _ Hp E).
Qed.

Lemma types_set_pcb k f : (forall p, pcb_typed p -> pcb_typed (f p)) -> types any (set_pcb k f).
Proof. intros Hf. apply maintains_modify. intros s T. apply typed_udp; [done|]. apply Forall_alter; [apply T|]. auto. Qed.
#[local] Hint Resolve types_get_pcb types_set_pcb : maintains.

Lemma types_ctx_set k f : types any (ctx_set (pcb_ctx_ref k) f).
Proof. apply maintains_modify. intros s T. apply (typed_udp _ s T). apply Forall_alter; [apply T|]. done. Qed.

Lemma types_ctx_get k : types any (ctx_get (pcb_ctx_ref k)).
Proof. apply types_preserves. unfold ctx_get. solve_preserves. Qed.

Lemma types_errno e : types any (modify (set_world (set_errno e))).
Proof. apply maintains_modify. intros s T. by apply typed_world. Qed.
#[local] Hint Resolve types_ctx_set types_ctx_get types_errno : maintains.

Lemma types_sched k m r :
  types any (sched_sleep_enter (pcb_ctx_ref k) m) /\ types any (sched_sleep_leave (pcb_ctx_ref k) m r) /\
  types any (sched_wakeup (pcb_ctx_ref k)) /\ types any (sched_interrupt (pcb_ctx_ref k)) /\
  types any (sched_ctx_init (pcb_ctx_ref k)) /\ types any sched_ctx_destroy.
Proof.
  split_and!; unfold sched_sleep_enter, sched_sleep_leave, sched_wakeup, sched_interrupt, sched_ctx_init, sched_ctx_destroy; by maintains_tac.
Qed.
#[local] Hint Extern 1 (types _ (sched_sleep_enter _ _)) => apply (proj1 (types_sched _ _ 0)) : maintains.
#[local] Hint Extern 1 (types _ (sched_sleep_leave _ _ _)) => apply (proj1 (proj2 (types_sched _ _ _))) : maintains.
#[local] Hint Extern 1 (types _ (sched_wakeup _)) => apply (proj1 (proj2 (proj2 (types_sched _ udp_mutex 0)))) : maintains.
#[local] Hint Extern 1 (types _ (sched_interrupt _)) => apply (proj1 (proj2 (proj2 (proj2 (types_sched _ udp_mutex 0))))) : maintains.
#[local] Hint Extern 1 (types _ (sched_ctx_init _)) => apply (proj1 (proj2 (proj2 (proj2 (proj2 (types_sched _ udp_mutex 0)))))) : maintains.
#[local] Hint Extern 1 (types _ sched_ctx_destroy) => apply (proj2 (proj2 (proj2 (proj2 (proj2 (types_sched 0 udp_mutex 0)))))) : maintains.

Lemma udp_hdr_typed src dst len sum :
  in_u16 src -> in_u16 dst -> in_u16 len -> in_u16 sum -> bytes (udp_hdr src dst len sum).
Proof. intros. unfold udp_hdr. eauto 12 with maintains. Qed.

Lemma types_udp_input data len src dst i : bytes data -> in_u32 src -> types any (udp_input data len src dst i).
Proof.
  intros Hb Hs. assert (types any (udp_input_deliver data len src dst)) as D; [|unfold udp_input; by maintains_tac].
  unfold udp_input_deliver. do 2 maintains_step. maintains_step; [|by maintains_tac]. maintains_step. maintains_step; [by maintains_tac|]. do 4 maintains_step.
  maintains_step; [|by maintains_tac]. eapply maintains_bind; [|intros ? _; by maintains_tac]. apply types_set_pcb. intros q [Hl _]. split; [done|].
  match goal with H : forall q', Some _ = Some q' -> _ |- _ => rewrite (H _ eq_refl) end. typed_parts.
  apply Forall_app. split; [done|]. apply Forall_singleton. split; [split|split]; simpl; eauto with maintains.
Qed.

Lemma types_udp_output src dst data len :
  endpoint_typed src -> endpoint_typed dst -> bytes data -> types any (udp_output src dst data len).
Proof.
  intros [Hs Hsp] [Hd Hdp] Hb. unfold udp_output. maintains_step; [by maintains_tac|]. do 3 maintains_step.
  eapply maintains_bind; [apply types_ip_send_packet|intros ? _; by maintains_tac]; [const_range UDP_PROTOCOL| |done].
  apply bytes_app. split; [apply udp_hdr_typed|]; eauto with maintains.
Qed.

Lemma types_event_handler : types any event_handler.
Proof.
  assert (forall n k, types any (udp_interrupt_loop k n)) as L by (induction n; intros k; cbn [udp_interrupt_loop]; by maintains_tac).
  unfold event_handler. by maintains_tac.
Qed.

Lemma types_udp_open : types any udp_open.
Proof.
  assert (forall k st, types any (set_pcb k (with_state st))) by (intros; by apply types_set_pcb).
  unfold udp_open, udp_pcb_alloc. by maintains_tac.
Qed.

Lemma types_queue_flush k : types any (udp_queue_flush k).
Proof.
  unfold udp_queue_flush. maintains_step.
  match goal with H : pcb_typed ?p |- _ =>
    destruct (queue_drain_spec (pcb_queue p) (pcb_queue p) (length (pcb_queue p))) as (q & -> & Hq); [done|lia|] end.
  change (q = []) in Hq. subst q. apply types_set_pcb. intros p [Hl _]. by split.
Qed.

Lemma types_udp_release k : types any (udp_pcb_release k).
Proof.
  assert (forall k st, types any (set_pcb k (with_state st))) by (intros; by apply types_set_pcb).
  assert (types any (set_pcb k (with_local (Endpoint IP_ADDR_ANY 0)))).
  { apply types_set_pcb. intros p [_ Hq]. split; [|done]. split; [const_range IP_ADDR_ANY|const_range 0]. }
  pose proof (types_queue_flush k). unfold udp_pcb_release. by maintains_tac.
Qed.
#[local] Hint Resolve types_udp_release : maintains.

Lemma types_udp_close id : types any (udp_close id).
Proof. unfold udp_close. by maintains_tac. Qed.

Lemma types_udp_bind id local : endpoint_typed local -> types any (udp_bind id local).
Proof.
  intros Hl. assert (forall k, types any (set_pcb k (with_local local))) by (intros; apply types_set_pcb; intros p [_ Hq]; by split).
  unfold udp_bind. by maintains_tac.
Qed.

Lemma port_loop_range pcbs addr p n q : udp_port_loop pcbs addr p n = Some q -> p <= q < p + Z.of_nat n.
Proof. revert p. induction n as [|n IH]; intros p E; simpl in E; [done|]. case_match; [apply IH in E; lia|]. injection E as <-. lia. Qed.

Lemma types_sendto_local id foreign :
  types (fun o => forall e, o = Some e -> endpoint_typed e) (udp_sendto_local id foreign).
Proof.
  unfold udp_sendto_local. maintains_step. destruct (udp_pcb_get _ _) as [k|]; [|by apply maintains_ret]. maintains_step. typed_parts.
  eapply (maintains_bind _ (fun o => forall x, o = Some x -> in_u32 x)).
  { case_match; [|apply maintains_ret; by intros x [= <-]].
    eapply (maintains_bind _ any); [unfold ip_get_interface; by maintains_tac|]. intros [i|] _; [|by apply maintains_ret]. maintains_step. apply maintains_ret. intros x [= <-]. by typed_parts. }
  intros [x|] Hx; [|by apply maintains_ret]. specialize (Hx x eq_refl). eapply (maintains_bind _ any).
  - case_match; [|by maintains_tac]. destruct (udp_port_loop _ _ _ _) as [port|] eqn:Ep; [|by maintains_tac].
    apply port_loop_range in Ep. apply types_set_pcb. intros p [_ Hq]. split; [|done]. split; [done|].
    apply hton16_range. unfold in_u16, UDP_SOURCE_PORT_MIN, UDP_SOURCE_PORT_MAX in *. lia.
  - intros ? _. maintains_step. case_match; apply maintains_ret; [done|]. intros e [= <-]. typed_parts. by split.
Qed.

Lemma types_udp_sendto id data len foreign : bytes data -> endpoint_typed foreign -> types any (udp_sendto id data len foreign).
Proof.
  intros Hb Hf. unfold udp_sendto. maintains_step. eapply maintains_bind; [apply types_sendto_local|]. intros [e|] He; maintains_step; [|by maintains_tac].
  apply types_udp_output; auto.
Qed.

(** What a receiver gets. *)
Definition recv_typed (o : recv_outcome) : Prop :=
  match o with
  | RecvReturn _ foreign buf => (forall e, foreign = Some e -> endpoint_typed e) /\ bytes buf
  | RecvSleep _ => True
  end.

Lemma types_recv_loop k size buf : bytes buf -> types recv_typed (udp_recv_loop k size buf).
Proof.
  intros Hb. unfold udp_recv_loop. maintains_step. match goal with H : pcb_typed _ |- _ => destruct H as [Hl Hq] end.
  destruct (fifo_pop _) as [[e|] q] eqn:E.
  - assert (datagram_typed e /\ Forall datagram_typed q) as [(Hf & _ & Hd) Hq'].
    { unfold fifo_pop in E. simpl in E. destruct (pcb_queue a); simplify_eq. by apply Forall_cons in Hq. }
    eapply maintains_bind; [apply types_set_pcb; intros p [? _]; by split|]. intros ? _. do 2 maintains_step. case_match; [by maintains_tac|].
    apply maintains_ret. split; [by intros e' [= <-]|]. eauto with maintains.
  - maintains_step. case_match; [by apply maintains_ret|]. do 2 maintains_step. by apply maintains_ret.
Qed.

Lemma types_udp_recvfrom id size buf : bytes buf -> types recv_typed (udp_recvfrom id size buf).
Proof.
  intros Hb. unfold udp_recvfrom. do 2 maintains_step. case_match; [by apply types_recv_loop|]. maintains_step. by apply maintains_ret.
Qed.

Lemma types_udp_resume k size buf : bytes buf -> types recv_typed (udp_recvfrom_resume k size buf).
Proof.
  intros Hb. unfold udp_recvfrom_resume. maintains_step. case_match; [do 2 maintains_step; by apply maintains_ret|]. maintains_step.
  case_match; [do 2 maintains_step; by apply maintains_ret|by apply types_recv_loop].
Qed.

(** ** sock.c *)

Definition sockaddr_typed (a : sockaddr_in) : Prop := in_u16 (sin_family a) /\ in_u16 (sin_port a) /\ in_u32 (sin_addr a).

Definition sock_outcome_typed (o : sock_outcome) : Prop :=
  match o with SockReturn _ addr buf => sockaddr_typed addr /\ bytes buf | SockSleep _ => True end.

Lemma types_set_sk k f : types any (set_sk k f).
Proof. apply maintains_modify. intros s T. by apply (typed_same s). Qed.

Lemma types_get_sk k : types any (get_sk k).
Proof. unfold get_sk. maintains_step. eapply maintains_any, maintains_opt. Qed.
#[local] Hint Resolve types_set_sk types_get_sk types_udp_open types_udp_close types_udp_bind types_udp_sendto : maintains.

Lemma types_sock_open domain type protocol : types any (sock_open domain type protocol).
Proof. unfold sock_open, sock_alloc. by maintains_tac. Qed.

Lemma types_sock_close id : types any (sock_close id).
Proof. unfold sock_close, sock_free. by maintains_tac. Qed.

Lemma sockaddr_endpoint a : sockaddr_typed a -> endpoint_typed (Endpoint (sin_addr a) (sin_port a)).
Proof. intros (_ & ? & ?). by split. Qed.
#[local] Hint Resolve sockaddr_endpoint : maintains.

Lemma types_sock_bind id addr : sockaddr_typed addr -> types any (sock_bind id addr).
Proof. intros Ha. unfold sock_bind. by maintains_tac. Qed.

Lemma types_sock_sendto id buf n addr : bytes buf -> sockaddr_typed addr -> types any (sock_sendto id buf n addr).
Proof. intros Hb Ha. unfold sock_sendto. by maintains_tac. Qed.

Lemma recv_finish_typed addr o : sockaddr_typed addr -> recv_typed o -> sock_outcome_typed (sock_recv_finish addr o).
Proof.
  intros Ha. destruct o as [r [e|] buf|k]; simpl; [|by intros [_ ?]|done]. intros [He Hb]. destruct (He e eq_refl).
  case_match; simpl; [|done]. split; [|done]. by destruct Ha.
Qed.

Lemma types_sock_recvfrom id buf n addr :
  bytes buf -> sockaddr_typed addr -> types sock_outcome_typed (sock_recvfrom id buf n addr).
Proof.
  intros Hb Ha. unfold sock_recvfrom. case_match; [|by apply maintains_ret]. maintains_step. case_match; [by apply maintains_ret|].
  eapply maintains_bind; [by apply types_udp_recvfrom|]. intros o Ho. apply maintains_ret. by apply recv_finish_typed.
Qed.

Lemma types_sock_resume k buf n addr :
  bytes buf -> sockaddr_typed addr -> types sock_outcome_typed (sock_recvfrom_resume k buf n addr).
Proof.
  intros Hb Ha. unfold sock_recvfrom_resume. eapply maintains_bind; [by apply types_udp_resume|]. intros o Ho.
  apply maintains_ret. by apply recv_finish_typed.
Qed.

(** ** Handlers and the interrupt thread *)

Lemma types_ip_input data len d : bytes data -> types any (ip_input data len d).
Proof.
  intros Hb. assert (forall h data len src dst i, bytes data -> in_u32 src -> types any (stack_ip_dispatch h data len src dst i)) as H
    by (intros [] **; simpl; [by apply types_icmp_input|by apply types_udp_input]).
  unfold ip_input, call_ip_handler. by maintains_tac.
Qed.

Lemma types_packet i : types any (packet_step i).
Proof.
  unfold packet_step. eapply maintains_bind; [apply types_gets_net|]. intros n [Hn _].
  eapply maintains_bind; [apply maintains_opt|]. intros p Hp. pose proof (Forall_lookup_1 _ _ _ _ Hn Hp) as [_ Hq]. cbn beta.
  destruct (np_queue p) as [|e q] eqn:E; simpl; [by maintains_tac|]. apply Forall_cons in Hq as [He Hq].
  eapply maintains_bind; [by apply types_set_queue|]. intros ? _. eapply (maintains_bind _ any); [|intros ? _; by maintains_tac].
  destruct (np_handler p); [by apply types_arp_input|by apply types_ip_input].
Qed.

Lemma types_drain_all fuel k i : types any (protocol_drain_all fuel i k).
Proof. apply maintains_drain_all, types_packet. Qed.

Lemma types_timer_loop k i : types any (timer_loop i k).
Proof.
  revert i. induction k as [|k IH]; intros i; cbn [timer_loop]; [by maintains_tac|]. do 3 maintains_step.
  eapply maintains_bind; [|intros ? _; apply IH]. instantiate (1 := any). case_match; [|by maintains_tac].
  match goal with |- types _ (bind (call_timer ?h) _) => destruct h end. eapply maintains_bind; [apply types_arp_timer|]. intros ? _.
  apply maintains_modify. intros s T. by apply (typed_same s).
Qed.

Lemma types_event_loop l : types any (event_loop l).
Proof.
  induction l as [|e l IH]; cbn [event_loop]; [by maintains_tac|]. eapply maintains_bind; [|intros ? _; exact IH].
  destruct (ne_handler e). apply types_event_handler.
Qed.

Lemma types_irq_loop fuel sig l : types any (irq_loop fuel sig l).
Proof. induction l as [|e l IH]; cbn [irq_loop]; by maintains_tac. Qed.

Lemma types_intr_dispatch fuel sig : types any (intr_dispatch fuel sig).
Proof.
  unfold intr_dispatch, network_protocol_handler, network_event_handler, network_timer_handler.
  pose proof types_drain_all. pose proof types_timer_loop. pose proof types_event_loop. pose proof types_irq_loop. by maintains_tac.
Qed.

(** ** Start-up *)

Lemma in_u32_land a b : in_u32 a -> in_u32 b -> in_u32 (Z.land a b).
Proof.
  unfold in_u32. intros Ha Hb. assert (0 <= Z.land a b) by (apply Z.land_nonneg; lia).
  destruct (Z.eq_dec (Z.land a b) 0) as [->|]; [lia|]. split; [done|]. apply Z.log2_lt_pow2; [lia|].
  pose proof (Z.log2_land a b ltac:(lia) ltac:(lia)). assert (Z.log2 a < 32); [|lia].
  destruct (Z.eq_dec a 0) as [->|]; [done|]. apply Z.log2_lt_pow2; lia.
Qed.

Lemma in_u32_lor a b : in_u32 a -> in_u32 b -> in_u32 (Z.lor a b).
Proof.
  unfold in_u32. intros Ha Hb. assert (0 <= Z.lor a b) by (apply Z.lor_nonneg; lia).
  destruct (Z.eq_dec (Z.lor a b) 0) as [->|]; [lia|]. split; [done|]. apply Z.log2_lt_pow2; [lia|].
  rewrite Z.log2_lor by lia. assert (forall c, 0 <= c < 2 ^ 32 -> Z.log2 c < 32) as L; [|apply Z.max_lub_lt; auto].
  intros c Hc. destruct (Z.eq_dec c 0) as [->|]; [done|]. apply Z.log2_lt_pow2; lia.
Qed.
#[local] Hint Resolve in_u32_land in_u32_lor : maintains.

Lemma ip_pton_typed k idx sp n : bytes n -> bytes (ip_pton_loop idx k sp n).2.
Proof.
  revert idx sp n. induction k as [|k IH]; intros idx sp n Hn; cbn [ip_pton_loop]; [done|]. repeat case_match; try done.
  apply IH. by apply Forall_insert; [|apply u8_range].
Qed.

Lemma load32_bytes_typed n : bytes n -> in_u32 (load32_bytes n).
Proof.
  intros Hn. unfold load32_bytes. destruct n as [|a [|b [|c [|d [|]]]]]; [const_range 0..| |const_range 0].
  apply bytes_cons in Hn as [? [? [? [? _]%bytes_cons]%bytes_cons]%bytes_cons]. by apply load32_range.
Qed.

Lemma ip_address_typed p n : in_u32 n -> in_u32 (ip_string_to_address p n).2.
Proof.
  intros Hn. unfold ip_string_to_address. pose proof (ip_pton_typed 4 0 p (store32 n) (store32_bytes _ Hn)) as H.
  destruct (ip_pton_loop _ _ _ _) as [r b]. by apply load32_bytes_typed.
Qed.

Lemma ether_pton_typed p n : bytes n -> bytes (ether_addr_pton p n).2.
Proof.
  assert (forall k idx p ep n, bytes n -> bytes (ether_pton_loop idx k p ep n).2) as L.
  { induction k as [|k IH]; intros idx q ep m Hm; cbn [ether_pton_loop]; [done|]. repeat case_match; try done.
    apply IH. by apply Forall_insert; [|apply u8_range]. }
  intros Hn. destruct p as [p|]; [|done]. unfold ether_addr_pton. pose proof (L ETHER_ADDR_LEN 0%nat p p n Hn) as H.
  destruct (ether_pton_loop _ _ _ _ _) as [[ended ep] m]. by case_match.
Qed.

(** A change outside the typed parts. *)
Lemma types_untyped f : (forall s, typed_view (f s) = typed_view s) -> types any (modify f).
Proof. intros H. apply maintains_modify. intros s T. by apply (typed_same s). Qed.

Lemma types_protocol_register name ty h : in_u16 ty -> types any (network_protocol_register name ty h).
Proof.
  intros Ht. assert (forall p, proto_typed p -> types any (modify (set_net (set_protocols (cons p))))).
  { intros p Hp. apply maintains_modify. intros s T. apply typed_protocols; [done|]. apply Forall_cons. split; [done|apply T]. }
  unfold network_protocol_register. maintains_step. case_match; [by maintains_tac|]. maintains_step. case_match; [by maintains_tac|].
  eapply maintains_bind; [eauto|intros ? _; by maintains_tac]. apply H. by split.
Qed.

Lemma types_timer_register name i h : types any (network_timer_register name i h).
Proof.
  unfold network_timer_register. maintains_step. case_match; [by maintains_tac|]. maintains_step.
  eapply maintains_bind; [by apply types_untyped|intros ? _; by maintains_tac].
Qed.

Lemma types_ip_register_protocol name ty h : in_u8 ty -> types any (ip_register_protocol name ty h).
Proof.
  intros Ht. unfold ip_register_protocol. maintains_step. case_match; [by maintains_tac|]. maintains_step. case_match; [by maintains_tac|].
  eapply maintains_bind; [|intros ? _; by maintains_tac]. apply maintains_modify. intros s []. constructor; try done.
  apply Forall_cons. by split.
Qed.

Lemma types_event_subscribe h : types any (network_event_subscribe h).
Proof.
  unfold network_event_subscribe. maintains_step. case_match; [by maintains_tac|].
  eapply maintains_bind; [by apply types_untyped|intros ? _; by maintains_tac].
Qed.

Lemma types_network_init : types any network_init.
Proof.
  assert (forall f, types any (modify (set_intr f))) by (intros; by apply types_untyped).
  pose proof types_protocol_register. pose proof types_timer_register. pose proof types_ip_register_protocol. pose proof types_event_subscribe.
  unfold network_init, intr_init, arp_init, ip_initialize, icmp_init, udp_init. by maintains_tac.
Qed.

(** Assignments to the fields of a device. *)
Lemma dev_address_typed a dev : bytes a -> dev_typed dev -> dev_typed (with_address a dev).
Proof. by intros ? []. Qed.

Lemma dev_flags_typed fl dev : in_u16 fl -> dev_typed dev -> dev_typed (with_flags fl dev).
Proof. by intros ? []. Qed.

Lemma dev_index_typed i name dev : in_u32 i -> dev_typed dev -> dev_typed (with_index_name i name dev).
Proof. by intros ? []. Qed.

Lemma types_device_allocate f : dev_typed (f network_device_zero) -> types any (network_device_allocate (Some f)).
Proof.
  intros Hf. unfold network_device_allocate. maintains_step. case_match; [by maintains_tac|]. maintains_step.
  eapply maintains_bind; [|intros ? _; by maintains_tac]. apply maintains_modify. intros s T. apply typed_devs; [done|].
  apply map_Forall_insert_2; [done|apply T].
Qed.

Lemma types_device_register d : types any (network_device_register d).
Proof.
  unfold network_device_register. eapply maintains_bind; [apply types_gets_net|]. intros n [_ Hi].
  eapply maintains_bind; [apply maintains_modify; intros s []; constructor; try done; apply u32_range|]. intros ? _.
  eapply maintains_bind; [apply types_set_dev; intros; by apply dev_index_typed|]. intros ? _.
  eapply maintains_bind; [by apply types_untyped|intros ? _; by maintains_tac].
Qed.

Lemma types_set_priv d p : types any (set_dev d (with_priv p)).
Proof. apply types_set_dev. by intros dev []. Qed.

Lemma types_set_ops d o : types any (set_dev d (with_ops o)).
Proof. apply types_set_dev. by intros dev []. Qed.
#[local] Hint Resolve types_device_register types_set_priv types_set_ops : maintains.

Lemma types_ether_tap_init name addr : types any (ether_tap_init name addr).
Proof.
  unfold ether_tap_init. eapply maintains_bind; [apply types_device_allocate|].
  { constructor; first [const_range 0|apply bytesb_spec; reflexivity]. }
  intros [d|] _; [|by maintains_tac]. eapply (maintains_bind _ any).
  { destruct addr as [a|]; cbn [init_address]; [|by maintains_tac]. maintains_step. typed_parts. pose proof (ether_pton_typed (Some a) _ dt_address0) as Hp.
    destruct (ether_addr_pton _ _) as [r bs]. eapply maintains_bind; [|intros ? _; by maintains_tac].
    apply types_set_dev. intros dev Hdev. by apply dev_address_typed. }
  intros [] _; [|by maintains_tac]. cbn [negb]. assert (forall f, types any (modify (set_intr f))) by (intros; by apply types_untyped).
  unfold ether_attach, intr_request_irq. by maintains_tac.
Qed.

Lemma types_allocate_interface u m : types any (ip_allocate_interface u m).
Proof.
  unfold ip_allocate_interface. maintains_step. case_match; [by maintains_tac|].
  pose proof (ip_address_typed u 0 ltac:(const_range 0)) as Hu. pose proof (ip_address_typed m 0 ltac:(const_range 0)) as Hm.
  destruct (ip_string_to_address u 0) as [r ua], (ip_string_to_address m 0) as [r' ma]. simpl in Hu, Hm.
  case_match; [by maintains_tac|]. case_match; [by maintains_tac|]. maintains_step. eapply maintains_bind; [|intros ? _; by maintains_tac].
  apply maintains_modify. intros s T. apply typed_ifs; [done|]. apply map_Forall_insert_2; [|apply T]. constructor; simpl; auto with maintains.
Qed.

Lemma types_route_add network netmask nexthop i :
  in_u32 network -> in_u32 netmask -> in_u32 nexthop -> types any (ip_route_add network netmask nexthop i).
Proof.
  intros Hn Hm Hh. unfold ip_route_add. maintains_step. case_match; [by maintains_tac|].
  eapply maintains_bind; [|intros ? _; by maintains_tac]. apply maintains_modify. intros s []. constructor; try done.
  apply Forall_cons. split; [by constructor|done].
Qed.

Lemma types_register_interface d i : types any (ip_register_interface d i).
Proof.
  unfold ip_register_interface. eapply (maintains_bind _ any).
  { unfold network_device_add_interface. do 3 maintains_step. case_match; [by maintains_tac|]. typed_parts. eapply maintains_bind.
    - apply maintains_modify. intros s T. apply typed_ifs; [done|]. apply map_Forall_insert_2; [by constructor|apply T].
    - intros ? _. eapply maintains_bind; [apply types_set_dev; by intros dev []|intros ? _; by maintains_tac]. }
  intros r _. case_match; [by maintains_tac|]. maintains_step. typed_parts.
  eapply maintains_bind; [apply types_route_add; auto with maintains|]. intros [rt|] _; [|by maintains_tac].
  eapply maintains_bind; [by apply types_untyped|intros ? _; by maintains_tac].
Qed.

Lemma types_set_gateway i gw : types any (ip_set_default_gateway i gw).
Proof.
  unfold ip_set_default_gateway. pose proof (ip_address_typed gw 0 ltac:(const_range 0)) as Hg.
  destruct (ip_string_to_address gw 0) as [r a]. simpl in Hg. case_match; [by maintains_tac|].
  eapply maintains_bind; [apply types_route_add; auto with maintains|intros ? _; by maintains_tac].
Qed.

Lemma types_ether_open d : types any (ether_tap_open d) /\ types any (ether_pcap_open d).
Proof.
  assert (forall fd, types any (sys_close fd)) as Hc by (intros; unfold sys_close; by maintains_tac).
  assert (forall fd, types (fun r => bytes r.2) (sys_hwaddr fd)) as Hh.
  { intros fd. unfold sys_hwaddr. maintains_step. unfold answer_typed in *. apply maintains_ret. simpl.
    apply bytes_take, bytes_app. split; [done|]. apply bytesb_spec. reflexivity. }
  assert (types any (ether_tap_addr d) /\ types any (ether_pcap_addr d)) as [Ht Hp].
  { split; unfold ether_tap_addr, ether_pcap_addr, sys_socket; (maintains_step; case_match; [by maintains_tac|];
      eapply maintains_bind; [apply Hh|]; intros [r hw] Hw; simpl in Hw; case_match; [by maintains_tac|];
      eapply maintains_bind; [apply types_set_dev; intros dev Hdev; apply dev_address_typed; [|done]; destruct Hdev; auto with maintains|];
      intros ? _; by maintains_tac). }
  assert (forall fd calls, Forall (types any) calls -> types any (setup_calls fd calls)) as Hs.
  { intros fd calls. induction 1; cbn [setup_calls]; by maintains_tac. }
  split; unfold ether_tap_open, ether_pcap_open, sys_open, sys_socket, set_fd; (do 3 maintains_step; case_match; [by maintains_tac|];
    eapply maintains_bind; [apply Hs; unfold sys_ioctl, sys_fcntl, sys_bind; repeat (constructor; [by maintains_tac|]); by constructor|];
    intros [] _; [|by maintains_tac]; unfold setup_address; by maintains_tac).
Qed.

Lemma types_network_run : types any network_run.
Proof.
  assert (forall d, types any (network_device_open d)) as Ho.
  { intros d. unfold network_device_open. maintains_step. case_match; [by maintains_tac|]. maintains_step. eapply (maintains_bind _ any).
    - match goal with |- context [drv_open ?o] => destruct o end; [by maintains_tac|..]; simpl;
        (eapply maintains_bind; [apply types_ether_open|intros ? _; by maintains_tac]).
    - intros [] _; [by maintains_tac|]. eapply maintains_bind; [|intros ? _; by maintains_tac].
      apply types_set_dev. intros. apply dev_flags_typed; [apply u16_range|done]. }
  assert (forall l, types any (open_all l)) by (induction l; cbn [open_all]; by maintains_tac).
  unfold network_run, intr_run. by maintains_tac.
Qed.

Lemma app_args_typed argv a : app_args argv = inr a -> sockaddr_typed a.
Proof.
  assert (forall arg l, sockaddr_typed l -> app_port arg l = inr a -> sockaddr_typed a) as Port.
  { intros arg l (Hf & _ & Ha) E. unfold app_port in E. case_match; [done|]. injection E as <-. split; [done|]. split; [|done].
    apply hton16_range. unfold in_u16. simpl. lia. }
  unfold app_args. intros E. repeat case_match; try done; (eapply Port; [|exact E]); (split; [const_range AF_INET|split; [const_range 0|]]); simpl.
  - const_range 0.
  - match goal with E : ip_string_to_address ?p ?n = (_, _) |- _ => pose proof (ip_address_typed p n ltac:(const_range 0)) as Hz; rewrite E in Hz end. done.
Qed.

Lemma types_app_start argv : types any (app_start argv).
Proof.
  assert (types any setup) as Hs.
  { pose proof types_network_init. pose proof types_ether_tap_init. pose proof types_allocate_interface.
    pose proof types_register_interface. pose proof types_set_gateway. pose proof types_network_run. unfold setup. by maintains_tac. }
  unfold app_start. destruct (app_args argv) as [|a] eqn:E; [by maintains_tac|]. apply app_args_typed in E.
  pose proof types_sock_open. pose proof types_sock_bind. by maintains_tac.
Qed.

(** ** Runs of the system *)

(** The arguments of a call have their C types. *)
Definition op_typed (op : sys_op) : Prop :=
  match op with
  | OpBind _ addr => sockaddr_typed addr
  | OpSend _ buf _ addr | OpRecv _ buf _ addr | OpResume _ buf _ addr => bytes buf /\ sockaddr_typed addr
  | _ => True
  end.

Lemma types_sys_exec fuel op : op_typed op -> types any (sys_exec fuel op).
Proof.
  intros Ho. destruct op; cbn [sys_exec op_typed] in *.
  - eapply maintains_bind; [|intros ? _; apply types_intr_dispatch]. apply maintains_modify. intros s T. by apply typed_world.
  - unfold on_signal, network_interrupt. by maintains_tac.
  - pose proof (types_sock_open domain type protocol). by maintains_tac.
  - pose proof (types_sock_close id). by maintains_tac.
  - pose proof (types_sock_bind id addr Ho). by maintains_tac.
  - destruct Ho as [Hb Ha]. pose proof (types_sock_sendto id buf n addr Hb Ha). by maintains_tac.
  - destruct Ho as [Hb Ha]. pose proof (types_sock_recvfrom id buf n addr Hb Ha). by maintains_tac.
  - destruct Ho as [Hb Ha]. pose proof (types_sock_resume k buf n addr Hb Ha). by maintains_tac.
Qed.

Lemma typed_boot w : Forall answer_typed (w_sys w) -> w_trace w = [] -> typed (stack_boot w).
Proof.
  intros Hw Ht. constructor.
  - apply map_Forall_empty.
  - apply map_Forall_empty.
  - const_range 0.
  - by apply Forall_nil.
  - apply Forall_replicate. split; [const_range 0|apply bytesb_spec; reflexivity].
  - by apply Forall_nil.
  - by apply Forall_nil.
  - const_range 0.
  - apply Forall_replicate. split; [split; const_range 0|by apply Forall_nil].
  - simpl. rewrite Ht. by apply Forall_nil.
  - done.
Qed.

(** The states of a run in which the kernel stores bytes and the application passes
    arguments of the declared types. *)
Inductive typed_run : stack -> Prop :=
| trun_start argv w soc s :
    Forall answer_typed (w_sys w) -> w_trace w = [] -> app_start argv (stack_boot w) = Ret (inr soc) s -> typed_run s
| trun_step s s' w op fuel :
    typed_run s -> env_step (st_world s) w -> Forall answer_typed (w_sys w) ->
    op_ok (set_world (fun _ => w) s) op -> op_typed op -> sys_exec fuel op (set_world (fun _ => w) s) = Ret true s' -> typed_run s'.

Lemma typed_env w s :
  typed s -> w_trace w = w_trace (st_world s) -> Forall answer_typed (w_sys w) -> typed (set_world (fun _ => w) s).
Proof. intros [] Et Ha. constructor; try done. simpl. by rewrite Et. Qed.

Lemma typed_run_typed s : typed_run s -> typed s.
Proof.
  induction 1 as [argv w soc s Ha Ht E|s s' w op fuel _ T (_ & _ & Et) Ha _ Ho E].
  - pose proof (types_app_start argv (stack_boot w) (typed_boot w Ha Ht)) as P. unfold pw in P. rewrite E in P. apply P.
  - pose proof (types_sys_exec fuel op Ho _ (typed_env w s T Et Ha)) as P. unfold pw in P. rewrite E in P. apply P.
Qed.

Lemma typed_run_reachable s : typed_run s -> reachable s.
Proof.
  induction 1 as [argv w soc s Ha Ht E|s s' w op fuel _ IH He Ha Hok Ho E]; [by eapply reach_start|].
  eapply reach_step; [exact IH|]. by eapply sys_step_intro.
Qed.

(** Runs with any answers of the kernel and any arguments of the declared types:
    datagrams whose length fields [ip_input] does not survive are not excluded, only
    the step that faults on one leads to no further state. *)
Inductive wide_run : stack -> Prop :=
| wide_start argv w soc s :
    Forall answer_typed (w_sys w) -> w_trace w = [] -> app_start argv (stack_boot w) = Ret (inr soc) s -> wide_run s
| wide_step s s' w op fuel :
    wide_run s -> w_trace w = w_trace (st_world s) -> Forall answer_typed (w_sys w) -> op_typed op ->
    sys_exec fuel op (set_world (fun _ => w) s) = Ret true s' -> wide_run s'.

Lemma typed_run_wide s : typed_run s -> wide_run s.
Proof.
  induction 1 as [argv w soc s Ha Ht E|s s' w op fuel _ IH (_ & _ & Et) Ha _ Ho E]; [by eapply wide_start|by eapply wide_step].
Qed.

Lemma wide_run_typed s : wide_run s -> typed s.
Proof.
  induction 1 as [argv w soc s Ha Ht E|s s' w op fuel _ T Et Ha Ho E].
  - pose proof (types_app_start argv (stack_boot w) (typed_boot w Ha Ht)) as P. unfold pw in P. rewrite E in P. apply P.
  - pose proof (types_sys_exec fuel op Ho _ (typed_env w s T Et Ha)) as P. unfold pw in P. rewrite E in P. apply P.
Qed.

(** C18. Machine widths are respected where values are computed from packets: in every
    state of a run in which the kernel stores bytes and the application passes
    arguments of the declared types (malformed datagrams included), the numbers and
    hardware addresses of the devices, the addresses of interfaces, routes, cache
    entries and control blocks, the ports, the protocol types, the identification
    counter and the lengths of waiting datagrams are in the range of their C types,
    every queued packet and datagram holds bytes, every frame written to a device so
    far is a sequence of bytes of 60 to 1514, and what [sock_recvfrom] hands to its
    caller is a buffer of bytes and an address of the declared widths. *)
Theorem system_typed (s : stack) (H : wide_run s) :
  typed s /\
  (forall id buf n addr, bytes buf -> sockaddr_typed addr ->
     pw (sock_recvfrom id buf n addr) s (fun o s' => typed s' /\ sock_outcome_typed o)).
Proof.
  pose proof (wide_run_typed s H) as T. split; [done|].
  intros id buf n addr Hb Haddr. by apply types_sock_recvfrom.
Qed.

End TypedProtocols.

(** A datagram whose header is longer than its total length arrives: it is queued, and
    the state it is queued in is typed. *)
Definition short_total_frame : list Z :=
  replicate 6 255 ++ [2; 0; 0; 0; 0; 2] ++ [8; 0] ++ [0x45; 0; 0; 10] ++ replicate 42 0.

Definition short_total_world : world :=
  World [] [Timeval 0 0] [SysRes 1 0 [0]; SysRes 60 0 short_total_frame] (w_trace (st_world running_server)) [ETHER_TAP_IRQ] 0.

Lemma system_typed_witness :
  exists s, sys_exec (Mc := little_endian_machine) 10 (OpRound ETHER_TAP_IRQ)
    (set_world (fun _ => short_total_world) running_server) = Ret true s /\ typed s.
Proof.
  assert (exists s, sys_exec (Mc := little_endian_machine) 10 (OpRound ETHER_TAP_IRQ)
    (set_world (fun _ => short_total_world) running_server) = Ret true s) as [s E] by (eexists; vm_compute; reflexivity).
  exists s. split; [exact E|].
  apply (system_typed (Mc := little_endian_machine) s).
  apply (wide_step (Mc := little_endian_machine) running_server s short_total_world (OpRound ETHER_TAP_IRQ) 10);
    [|reflexivity| |exact I|exact E].
  - apply (wide_start (Mc := little_endian_machine) ["udp_app"; "7"]%string (world_quiet (Timeval 0 0)) 0);
      [by apply Forall_nil|reflexivity|vm_compute; reflexivity].
  - apply Forall_cons. split; [apply bytesb_spec; reflexivity|]. apply Forall_singleton. apply bytesb_spec. reflexivity.
Defined.
