(* ===== verification/Refine.v ===== *)
(** * The running system and the datagram service

    Service.v relates the functions of udp.c, called one after the other, to the
    contract of the datagram service.  Here the calls are those of the running system
    of System.v: the socket calls of the application's threads, and the inputs that
    the rounds of the interrupt thread pass up from the queues, in any interleaving. *)

From stdpp Require Import base numbers list option gmap strings.
From Stdlib Require Import ZArith Lia.
From S2P Require Import Prelude Util CLib Queue State Sync Net Ether Drivers Arp Ip Icmp Udp Service Sock Stack Softirq Boot App System Threads Typed.
Open Scope Z_scope.
Open Scope cmonad_scope.

(** ** Rounds of the interrupt thread *)

(** A datagram came in. *)
Definition is_input (e : event) : Prop := match e with EInput _ _ _ _ => True | _ => False end.

Section Served.
Context {Mc : Machine}.

Definition boxes (s : stack) : service := mailboxes (st_udp s).

(** The mailboxes changed by inputs only. *)
Definition served (s s' : stack) : Prop := exists es, Forall is_input es /\ spec_run (boxes s) es (boxes s').

#[export] Instance served_preorder : PreOrder served.
Proof.
  split.
  - intros s. exists []. split; [by apply Forall_nil|constructor].
  - intros s1 s2 s3 (es & F & R) (es' & F' & R'). exists (es ++ es'). split; [by apply Forall_app|by eapply spec_run_app].
Qed.

Lemma served_same s s' : boxes s' = boxes s -> served s s'.
Proof. intros E. exists []. rewrite E. split; [by apply Forall_nil|constructor]. Qed.

(** The mailboxes did not change. *)
Definition boxes_kept (s s' : stack) : Prop := boxes s' = boxes s.

#[export] Instance boxes_kept_preorder : PreOrder boxes_kept.
Proof. split; [done|]. unfold boxes_kept. by intros s1 s2 s3 -> ->. Qed.

Lemma evolves_kept {A} (m : C A) : Preserves apps m -> Evolves boxes_kept m.
Proof. intros H s a s' E. apply H in E. unfold apps in E. injection E as Eu _ _. unfold boxes_kept, boxes. by rewrite Eu. Qed.

Lemma kept_served {A} (m : C A) : Evolves boxes_kept m -> Evolves served m.
Proof. intros H s a s' E. apply served_same. by eapply H. Qed.

Lemma evolves_served {A} (m : C A) : Preserves apps m -> Evolves served m.
Proof. intros H. by apply kept_served, evolves_kept. Qed.

(** A change of a control block that its mailbox does not show. *)
Lemma mailboxes_alter f k pcbs : (forall p, open_box (f p) = open_box p) -> mailboxes (alter f k pcbs) = mailboxes pcbs.
Proof.
  intros Hf. symmetry. apply abstracts_mailboxes. intros j. rewrite (mailboxes_abstracts pcbs). destruct (decide (k = j)) as [<-|Hne].
  - rewrite list_lookup_alter_eq. destruct (pcbs !! k) as [p|]; [|done]. simpl. by rewrite Hf.
  - by rewrite list_lookup_alter_ne.
Qed.

Lemma ctx_set_kept k f : Evolves boxes_kept (ctx_set (pcb_ctx_ref k) f).
Proof. apply evolves_modify. intros s. unfold boxes_kept, boxes. by apply mailboxes_alter. Qed.

#[export] Instance wakeup_kept k : Evolves boxes_kept (sched_wakeup (pcb_ctx_ref k)).
Proof. unfold sched_wakeup, ctx_get. solve_evolves. apply ctx_set_kept. Qed.

#[export] Instance interrupt_kept k : Evolves boxes_kept (sched_interrupt (pcb_ctx_ref k)).
Proof. unfold sched_interrupt, ctx_get. solve_evolves. all: apply ctx_set_kept. Qed.

#[export] Instance mutex_kept m : Evolves boxes_kept (mutex_lock m).
Proof. apply evolves_kept, _. Qed.

#[export] Instance mutex_unlock_kept m : Evolves boxes_kept (mutex_unlock m).
Proof. apply evolves_kept, _. Qed.

(** The mailboxes changed by the input of this datagram, or not at all. *)
Definition served_once (data : list Z) (len src dst : Z) (s s' : stack) : Prop :=
  exists es, (es = [] \/ es = [EInput data len src dst]) /\ spec_run (boxes s) es (boxes s').

Lemma served_once_kept data len src dst s s' : boxes s' = boxes s -> served_once data len src dst s s'.
Proof. intros E. exists []. rewrite E. split; [by left|constructor]. Qed.

(** A datagram that passed the checks goes to the mailbox that answers for it. *)
Lemma deliver_once data len src dst hlen s :
  bytes data -> 8 <= len -> rd16 data 4 = Some hlen -> len = ntoh16 hlen -> udp_verifies data len src dst ->
  pw (udp_input_deliver data len src dst) s (fun _ s' => served_once data len src dst s s').
Proof.
  intros Hb H8 E4 El Hv. unfold udp_input_deliver. apply pw_bind, pw_gets, pw_bind, pw_opt. intros dport E2.
  destruct (udp_pcb_select _ _ _) as [k|] eqn:Ek; [|by apply pw_ret, served_once_kept].
  destruct (abstracts_select _ _ (Endpoint dst dport) _ (mailboxes_abstracts (st_udp s)) Ek) as (p & Hp & Ho & Ha & Hmin).
  apply pw_bind. eapply pw_mono; [apply (pw_preserves st_udp); by apply memory_alloc_frame|]. intros ok s1 Eu1.
  assert (boxes s1 = boxes s) as B1 by (unfold boxes; by rewrite Eu1).
  destruct ok; cbn [negb]; [|by apply pw_ret, served_once_kept]. apply pw_bind, pw_opt. intros sport E0. apply pw_bind, pw_opt. intros payload Epl.
  unfold get_pcb. pw_steps. rename a into p1, E into Ep1. rewrite Eu1, Hp in Ep1. injection Ep1 as <-. unfold queue_push_c. apply pw_bind.
  eapply pw_mono; [apply (pw_preserves st_udp); by apply memory_alloc_frame|]. intros ok s2 Eu2.
  assert (boxes s2 = boxes s) as B2 by (unfold boxes; by rewrite Eu2, Eu1).
  destruct ok; [|pw_steps; by apply served_once_kept]. unfold set_pcb. pw_steps.
  set (e := UdpQueueEntry _ _ _). set (s3 := set_udp _ s2).
  assert (spec_run (boxes s) [EInput data len src dst] (boxes s3)) as S3.
  { eapply (spec_run_one true).
    assert (boxes s3 = <[k := Mailbox (pcb_local p) (mb_inbox (box p) ++ [(Endpoint src sport, take (Z.to_nat (len - 8)) (drop 8 data))])]> (boxes s)) as ->.
    { unfold boxes. symmetry. apply abstracts_mailboxes. unfold s3. simpl. rewrite Eu2, Eu1.
      eapply abstracts_insert; [apply mailboxes_abstracts|exact Hp|done|]. unfold box. simpl. rewrite fmap_app. simpl.
      apply rdn_Some in Epl as [_ ->]. unfold UDP_HDR_SIZE. rewrite u16_small; [done|].
      pose proof (ntoh16_range hlen (rd16_bytes _ _ _ Hb E4)) as Hr. rewrite <- El in Hr. unfold in_u16 in *. lia. }
    eapply (spec_input _ _ _ _ _ _ (Endpoint dst dport) _ k (box p));
      [|by eapply abstracts_open; [apply mailboxes_abstracts|..]|done|done].
    exists sport. split_and!; try done. rewrite E4. simpl. by rewrite El. }
  eapply pw_mono; [apply (pw_evolves boxes_kept), _|]. intros r s4 S4. apply pw_ret.
  exists [EInput data len src dst]. split; [by right|]. by rewrite S4.
Qed.

Lemma udp_input_once data len src dst i s :
  bytes data -> pw (udp_input data len src dst i) s (fun _ s' => served_once data len src dst s s').
Proof.
  intros Hb. unfold udp_input. destruct (Z.ltb_spec len UDP_HDR_SIZE) as [|H8]; [by apply pw_ret, served_once_kept|]. unfold UDP_HDR_SIZE in H8.
  apply pw_bind, pw_opt. intros hlen Eh. destruct (Z.eqb_spec len (ntoh16 hlen)) as [El|]; [|by apply pw_ret, served_once_kept]. cbn [negb].
  apply pw_bind, pw_opt. intros psum Ep. apply pw_bind, pw_opt. intros sum Es.
  destruct (Z.eqb_spec sum 0) as [->|]; cbn [negb]; [|pw_steps; by apply served_once_kept].
  apply pw_bind, pw_opt. intros header _. apply pw_bind. eapply pw_mono; [apply (pw_evolves boxes_kept), _|]. intros u s1 B1.
  apply pw_bind. eapply pw_mono; [apply (deliver_once _ _ _ _ hlen); [done|lia|done|done|by exists psum]|]. intros u' s2 (es & Hes & Hr).
  rewrite B1 in Hr. eapply pw_mono; [apply (pw_evolves boxes_kept), _|]. intros u'' s3 B3. exists es. split; [done|]. by rewrite B3.
Qed.

Lemma udp_input_served data len src dst i : bytes data -> Evolves served (udp_input data len src dst i).
Proof.
  intros Hb s u s' E. pose proof (udp_input_once data len src dst i s Hb) as W. unfold pw in W. rewrite E in W.
  destruct W as (es & Hes & Hr). exists es. split; [|done]. destruct Hes as [->| ->]; [by apply Forall_nil|by apply Forall_singleton].
Qed.

#[export] Instance event_kept : Evolves boxes_kept network_event_handler.
Proof.
  assert (forall n k, Evolves boxes_kept (udp_interrupt_loop k n)) by (induction n; intros k; simpl; unfold get_pcb; solve_evolves).
  assert (forall l, Evolves boxes_kept (event_loop l)); [|unfold network_event_handler; solve_evolves].
  induction l as [|e l IH]; simpl; solve_evolves; unfold event_handler; solve_evolves.
Qed.

#[export] Instance timer_kept : Evolves boxes_kept network_timer_handler.
Proof.
  assert (Preserves apps arp_timer) by (unfold arp_timer; solve_preserves).
  assert (forall k i, Preserves apps (timer_loop i k)).
  { induction k as [|k IH]; intros i; simpl; solve_preserves. }
  apply evolves_kept. unfold network_timer_handler. solve_preserves.
Qed.

(** Only the soft interrupt passes datagrams up. *)
Lemma dispatch_kept fuel sig : sig <> SIGUSR1 -> Evolves boxes_kept (intr_dispatch fuel sig).
Proof.
  intros Hs.
  assert (forall c d, Preserves apps (syscall_do c d)) by (intros; by apply syscall_frame).
  assert (forall ty data len d, Preserves apps (network_input_handler ty data len d)) by (intros; apply preserves_driver_apps, _).
  assert (forall d, Preserves apps (dev_private d)) by (intros; unfold dev_private; solve_preserves).
  assert (forall (pcap : bool) d, Preserves apps (ether_poll_helper d (if pcap then ether_pcap_read else ether_tap_read))).
  { intros [] d; unfold ether_poll_helper, ether_pcap_read, ether_tap_read; solve_preserves. }
  assert (forall (pcap : bool) n d fd, Preserves apps (isr_loop n d fd (if pcap then ether_pcap_read else ether_tap_read))) as Hi.
  { intros pcap. induction n as [|n IH]; intros d fd; cbn [isr_loop]; solve_preserves. }
  assert (forall e, Preserves apps (call_irq fuel e)).
  { intros e. unfold call_irq, ether_tap_isr, ether_pcap_isr. destruct (irq_handler e); solve_preserves; [apply (Hi false)|apply (Hi true)]. }
  assert (forall l, Preserves apps (irq_loop fuel sig l)) by (induction l; cbn [irq_loop]; solve_preserves).
  unfold intr_dispatch. destruct (Z.eqb_spec sig SIGUSR1); [done|]. solve_evolves. by apply evolves_kept.
Qed.

(** With the queues of a typed state, which hold bytes. *)
Definition serving (s0 s : stack) : Prop := typed s /\ served s0 s.

Lemma serving_intro {A} (P : A -> Prop) (m : C A) s0 : types P m -> Evolves served m -> maintains (serving s0) P m.
Proof.
  intros Ht Hs s [T S]. eapply pw_mono; [apply pw_and; [by apply Ht|by apply (pw_evolves served)]|].
  intros a s' [[T' Ha] S']. split; [|done]. split; [done|by transitivity s].
Qed.

Lemma serving_ip_input data len d s0 : bytes data -> maintains (serving s0) any (ip_input data len d).
Proof.
  intros Hb.
  assert (forall A (m : C A) P, types P m -> Preserves apps m -> maintains (serving s0) P m) as Apps
    by (intros A m P Ht Hp; apply serving_intro; [done|by apply evolves_served]).
  assert (forall h data len src dst i, bytes data -> in_u32 src -> maintains (serving s0) any (stack_ip_dispatch h data len src dst i)) as H.
  { intros [] b l src dst i Hd Hs; simpl.
    - apply Apps; [by apply types_icmp_input|apply _].
    - apply serving_intro; [by apply types_udp_input|by apply udp_input_served]. }
  pose proof (fun d f => Apps _ _ _ (types_get_interface d f) _). pose proof (fun i => Apps _ _ _ (types_get_iface i) _).
  pose proof (fun b => Apps _ _ _ (types_ip_dump b) ltac:(unfold ip_dump; solve_preserves)). pose proof (Apps _ _ _ types_gets_ip _).
  unfold ip_input, call_ip_handler. by maintains_tac.
Qed.

Lemma serving_packet i s0 : maintains (serving s0) any (packet_step i).
Proof.
  unfold packet_step. eapply maintains_bind; [apply serving_intro; [apply types_gets_net|apply _]|]. intros n [Hn _].
  eapply maintains_bind; [apply maintains_opt|]. intros p Hp. pose proof (Forall_lookup_1 _ _ _ _ Hn Hp) as [_ Hq]. cbn beta.
  destruct (np_queue p) as [|e q] eqn:E; simpl; [by maintains_tac|]. apply Forall_cons in Hq as [He Hq].
  eapply maintains_bind; [apply serving_intro; [by apply types_set_queue|apply evolves_served; by apply preserves_modify]|]. intros ? _.
  eapply (maintains_bind _ any); [|intros ? _; by maintains_tac].
  destruct (np_handler p); [|by apply serving_ip_input]. apply serving_intro; [by apply types_arp_input|apply evolves_served, _].
Qed.

Lemma serving_dispatch fuel sig s0 : maintains (serving s0) any (intr_dispatch fuel sig).
Proof.
  destruct (decide (sig = SIGUSR1)) as [->|Hs];
    [|apply serving_intro; [apply types_intr_dispatch|by apply kept_served, dispatch_kept]].
  unfold intr_dispatch. replace (SIGUSR1 =? SIGUSR1) with true by done. unfold network_protocol_handler.
  eapply maintains_bind; [apply serving_intro; [apply types_gets_net|apply _]|]. intros n _.
  apply maintains_drain_all. intros. apply serving_packet.
Qed.

End Served.

(** ** Calls of the application *)

(** The socket a descriptor stands for. *)
Definition sock_at (s : stack) (id : Z) (x : sock) : Prop := exists i, sock_get id = Some i /\ st_sock s !! i = Some x.

Definition addr_endpoint (addr : sockaddr_in) : endpoint := Endpoint (sin_addr addr) (sin_port addr).

(** What [op], which leads from [s] to [s'], is at the service: some inputs in a round
    of the interrupt thread; for a call of the application one call of the service, on the
    descriptor of its socket, with the answer the application gets; or nothing, when
    sock.c refuses the call or there is nothing to do. *)
Definition op_events `{Machine} (s : stack) (op : sys_op) (es : list event) (s' : stack) : Prop :=
  match op with
  | OpRound _ => Forall is_input es
  | OpInterrupt => es = []
  | OpOpen _ _ _ => es = [] \/ exists r, es = [EOpen r]
  | OpClose id => es = [] \/ exists x r, sock_at s id x /\ es = [EClose (sk_desc x) r]
  | OpBind id addr =>
      es = [] \/ exists x r, sock_at s id x /\ es = [EBind (sk_desc x) (addr_endpoint addr) r] /\ sock_bind id addr s = Ret r s'
  | OpSend id buf n addr =>
      es = [] \/ exists x r, sock_at s id x /\ es = [ESend (sk_desc x) (addr_endpoint addr) r] /\ sock_sendto id buf n addr s = Ret r s'
  | OpRecv id buf n addr =>
      es = [] \/ exists x o, sock_at s id x /\ es = [ERecv (sk_desc x) n buf o] /\
        sock_recvfrom id buf n addr s = Ret (sock_recv_finish addr o) s'
  | OpResume k buf n addr =>
      exists o, es = [EResume k n buf o] /\ sock_recvfrom_resume k buf n addr s = Ret (sock_recv_finish addr o) s'
  end.

Section Calls.
Context {Mc : Machine}.

Lemma call_refines {A} (m : C A) (f : A -> event) op s a s' :
  udp_exec op = bind m (fun a => ret (f a)) -> udp_ready s -> udp_op_ok op -> m s = Ret a s' ->
  spec_run (boxes s) [f a] (boxes s').
Proof.
  intros Ex R Ok E. pose proof (exec_refines op s R Ok) as W. unfold wp in W. rewrite Ex in W. unfold bind in W. rewrite E in W.
  destruct W as [_ St]. by eapply spec_run_one.
Qed.

Lemma get_sk_inv k s x s' : get_sk k s = Ret x s' -> s' = s /\ st_sock s !! k = Some x.
Proof. unfold get_sk, gets, opt, bind. destruct (st_sock s !! k); [by intros [= -> <-]|done]. Qed.

Lemma spec_run_refl m : spec_run m [] m.
Proof. constructor. Qed.
#[local] Hint Resolve spec_run_refl : core.

Ltac sock_call E :=
  let i := fresh "i" in let Hi := fresh "Hi" in let x := fresh "x" in let s1 := fresh "s1" in let Ex := fresh "Ex" in let Hx := fresh "Hx" in
  match type of E with context [sock_get ?id] => destruct (sock_get id) as [i|] eqn:Hi; [|injection E as _ <-; exists []; auto] end;
  apply bind_inv in E as (x & s1 & Ex & E); apply get_sk_inv in Ex as [-> Hx];
  match type of E with (if ?b then _ else _) _ = _ => destruct b; [injection E as _ <-; exists []; auto|] end;
  assert (sock_at _ _ x) by (by exists i).

Lemma sock_open_refines a b c s r s' :
  udp_ready s -> sock_open a b c s = Ret r s' -> exists es, (es = [] \/ exists r, es = [EOpen r]) /\ spec_run (boxes s) es (boxes s').
Proof.
  intros R E. unfold sock_open in E. destruct (_ || _); [injection E as _ <-; exists []; auto|].
  apply bind_inv in E as (k & s1 & E1 & E).
  assert (st_udp s1 = st_udp s /\ udp_ready s1) as [U1 R1].
  { unfold sock_alloc, set_sk in E1. apply bind_inv in E1 as (socks & s0 & [= <- <-] & E1).
    destruct (list_find _ _) as [[j x]|]; [|by injection E1 as _ <-]. apply bind_inv in E1 as (u & s2 & [= _ <-] & [= _ <-]). done. }
  assert (boxes s1 = boxes s) as B1 by (unfold boxes; by rewrite U1).
  destruct k as [k|]; [|injection E as _ <-; exists []; rewrite B1; auto].
  apply bind_inv in E as (u & s2 & [= _ <-] & E). apply bind_inv in E as (u' & s3 & E3 & E).
  apply bind_inv in E as (x & s4 & Ex & E). apply get_sk_inv in Ex as [-> _].
  assert (s' = s3) as -> by (by destruct (sk_desc x =? -1); injection E as _ <-).
  destruct (b =? SOCK_DGRAM); [|injection E3 as _ <-; exists []; unfold boxes; simpl; rewrite U1; auto].
  apply bind_inv in E3 as (d & s5 & E5 & [= _ <-]). exists [EOpen d]. split; [eauto|].
  rewrite <- B1. pose proof (fun R => call_refines udp_open EOpen UOpen _ _ _ eq_refl R I E5) as Rn. exact (Rn R1).
Qed.

(** Every step of the system is what the contract allows. *)
Lemma sys_exec_refines fuel op s s' :
  sys_ok s -> typed s -> op_ok s op -> sys_exec fuel op s = Ret true s' ->
  exists es, op_events s op es s' /\ spec_run (boxes s) es (boxes s').
Proof.
  intros (_ & [U _] & _) T Hop E. pose proof U as (_ & _ & L & _). destruct op; cbn [sys_exec op_ok] in *;
    [|apply bind_inv in E as (r & s1 & E & [= <-])..]; cbn [op_events].
  - apply bind_inv in E as (u & s1 & [= _ <-] & E). set (s1 := set_world _ s) in *.
    assert (serving s1 s1) as S1 by (split; [by apply typed_world|done]).
    pose proof (serving_dispatch fuel sig s1 s1 S1) as W. unfold pw in W. rewrite E in W. by destruct W as [[_ S] _].
  - exists []. split; [done|]. unfold on_signal, network_interrupt, raise_signal in E. by injection E as _ <-.
  - by eapply sock_open_refines.
  - unfold sock_close in E. destruct (sock_get id) as [i|] eqn:Hi; [|injection E as _ <-; exists []; auto].
    apply bind_inv in E as (x & s2 & Ex & E). apply get_sk_inv in Ex as [-> Hx].
    destruct (sk_type x =? SOCK_DGRAM); [|injection E as _ <-; exists []; auto].
    apply bind_inv in E as (d & s3 & E3 & E). apply bind_inv in E as (u & s4 & [= _ <-] & [= _ <-]).
    exists [EClose (sk_desc x) d]. split; [right; exists x, d; split; [by exists i|done]|].
    exact (call_refines (udp_close (sk_desc x)) (EClose (sk_desc x)) (UClose (sk_desc x)) _ _ _ eq_refl U I E3).
  - pose proof E as E0. unfold sock_bind in E. sock_call E. exists [EBind (sk_desc x) (addr_endpoint addr) r]. split; [by right; exists x, r|].
    exact (call_refines (udp_bind (sk_desc x) (addr_endpoint addr)) _ (UBind (sk_desc x) (addr_endpoint addr)) _ _ _ eq_refl U I E).
  - pose proof E as E0. unfold sock_sendto in E. sock_call E. exists [ESend (sk_desc x) (addr_endpoint addr) r]. split; [by right; exists x, r|].
    exact (call_refines (udp_sendto (sk_desc x) buf n (addr_endpoint addr)) _ (USend (sk_desc x) buf n (addr_endpoint addr)) _ _ _ eq_refl U Hop E).
  - pose proof E as E0. unfold sock_recvfrom in E. sock_call E. apply bind_inv in E as (o & s3 & E3 & [= <- <-]).
    exists [ERecv (sk_desc x) n buf o]. split; [by right; exists x, o|].
    exact (call_refines (udp_recvfrom (sk_desc x) n buf) _ (URecv (sk_desc x) n buf) _ _ _ eq_refl U Hop E3).
  - pose proof E as E0. unfold sock_recvfrom_resume in E. apply bind_inv in E as (o & s3 & E3 & [= <- <-]). destruct Hop as [[p Hp] Hn].
    exists [EResume k n buf o]. split; [by exists o|]. apply lookup_lt_Some in Hp. rewrite L in Hp.
    exact (call_refines (udp_recvfrom_resume k n buf) _ (UResume k n buf) _ _ _ eq_refl U (conj Hp Hn) E3).
Qed.

(** What the contract says of a descriptor, for its control block. *)
Lemma mailboxes_in_order pcbs es pcbs' k p :
  spec_run (mailboxes pcbs) es (mailboxes pcbs') -> pcbs !! k = Some p -> pcb_st p = UDP_PCB_STATE_OPEN ->
  (forall r, EClose (Z.of_nat k) r ∉ es) ->
  exists p', pcbs' !! k = Some p' /\ pcb_st p' = UDP_PCB_STATE_OPEN /\ in_order k es (mb_inbox (box p)) (mb_inbox (box p')).
Proof.
  intros Hr Hk Ho Hc. destruct (spec_run_order _ _ _ k (box p) Hr) as (mb & Hm & O); [|done|].
  - eapply abstracts_open; [apply mailboxes_abstracts|done|done].
  - apply (abstracts_lookup _ _ _ _ (mailboxes_abstracts _)) in Hm as (p' & Hp' & Ho' & ->). eauto.
Qed.

(** ** Runs *)

Record sys_event := SysEvent { se_before : stack; se_op : sys_op; se_after : stack }.

(** The steps from [s] to [s'], each in the environment of its moment. *)
Inductive sys_path : stack -> list sys_event -> stack -> Prop :=
| path_done s : sys_path s [] s
| path_step s w op fuel s1 path s2 :
    env_step (st_world s) w -> Forall answer_typed (w_sys w) -> op_ok (set_world (fun _ => w) s) op -> op_typed op ->
    sys_exec fuel op (set_world (fun _ => w) s) = Ret true s1 -> sys_path s1 path s2 ->
    sys_path s (SysEvent (set_world (fun _ => w) s) op s1 :: path) s2.

Lemma sys_path_refines s path s' :
  sys_path s path s' -> typed_run s -> exists ess,
    Forall2 (fun ev es => op_events (se_before ev) (se_op ev) es (se_after ev)) path ess /\
    spec_run (boxes s) (concat ess) (boxes s').
Proof.
  induction 1 as [s|s w op fuel s1 path s2 Hw Ha Hop Hty E _ IH]; intros T; [exists []; split; [constructor|done]|].
  assert (typed_run s1) as T1 by (by eapply trun_step). set (s0 := set_world (fun _ => w) s) in *.
  destruct (sys_exec_refines fuel op s0 s1) as (es & He & Hr); [exact (reachable_ok s (typed_run_reachable s T))| |done|done|].
  { pose proof Hw as (_ & _ & Et). apply typed_env; [by apply typed_run_typed|done|done]. }
  destruct (IH T1) as (ess & Hf & Hr'). exists (es :: ess). split; [by constructor|]. simpl. by eapply spec_run_app.
Qed.

(** The running system refines the datagram service: any interleaving of rounds of
    the interrupt thread and calls of the application's threads, from any state the
    system reaches, is a run of the contract, in which a round is a sequence of inputs
    and a socket call at most one call of the service with the answer the application
    gets; and a descriptor that is not closed meanwhile hands out, in order and each
    at most once, what was in its mailbox and some of what came in, the rest waiting
    at the end. *)
Theorem system_refines_service (s : stack) (path : list sys_event) (s' : stack) (H : typed_run s) (P : sys_path s path s') :
  exists ess,
    Forall2 (fun ev es => op_events (se_before ev) (se_op ev) es (se_after ev)) path ess /\
    spec_run (mailboxes (st_udp s)) (concat ess) (mailboxes (st_udp s')) /\
    forall k p, st_udp s !! k = Some p -> pcb_st p = UDP_PCB_STATE_OPEN -> (forall r, EClose (Z.of_nat k) r ∉ concat ess) ->
      exists p', st_udp s' !! k = Some p' /\ pcb_st p' = UDP_PCB_STATE_OPEN /\
        in_order k (concat ess) (mb_inbox (box p)) (mb_inbox (box p')).
Proof.
  destruct (sys_path_refines s path s' P H) as (ess & Hf & Hr). exists ess. split; [done|]. split; [done|].
  intros k p Hk Ho Hc. by eapply mailboxes_in_order.
Qed.

End Calls.

(** ** A concrete run

    [udp_app 7] opens a second socket while its first one is bound to port 7. *)

Section RefineWitness.
#[local] Existing Instance little_endian_machine.

Definition quiet_world : world := World [] [Timeval 0 0] [] (w_trace (st_world running_server)) [] 0.
Definition first_socket : stack := set_world (fun _ => quiet_world) running_server.
Definition second_socket : stack :=
  match sys_exec 1 (OpOpen AF_INET SOCK_DGRAM 0) first_socket with Ret _ s => s | Fault _ => first_socket end.

Definition second_path : list sys_event := [SysEvent first_socket (OpOpen AF_INET SOCK_DGRAM 0) second_socket].

Lemma system_refines_service_witness :
  exists ess, spec_run (mailboxes (st_udp running_server)) (concat ess) (mailboxes (st_udp second_socket)).
Proof.
  destruct (system_refines_service running_server second_path second_socket) as (ess & _ & Hr & _).
  - apply (trun_start ["udp_app"; "7"]%string (world_quiet (Timeval 0 0)) 0);
      [by apply Forall_nil|reflexivity|vm_compute; reflexivity].
  - apply (path_step running_server quiet_world (OpOpen AF_INET SOCK_DGRAM 0) 1 second_socket []).
    + split; [by apply Forall_nil|]. split; [|reflexivity]. apply (bool_decide_unpack _). vm_compute. exact I.
    + by apply Forall_nil.
    + exact I.
    + exact I.
    + vm_compute. reflexivity.
    + apply path_done.
  - exists ess. exact Hr.
Defined.

End RefineWitness.
