(* ===== verification/Network.v ===== *)
(** * Hosts on a wire

    Several hosts run the stack and share a medium that may lose, duplicate, reorder
    and misdirect frames, but hands out no frame that no host has written.  [net_run]
    is a run of such a network; the theorem is that whatever waits at a control block
    of any host was passed to [sock_sendto] by an application on one of them. *)

From stdpp Require Import base numbers list option gmap strings.
From Stdlib Require Import ZArith Lia.
From S2P Require Import Prelude Util CLib Queue State Sync Net Ether Drivers Arp Ip Icmp Udp Sock Stack Softirq Boot App System Threads.
Open Scope Z_scope.
Open Scope cmonad_scope.

Section Honest.
Context {Mc : Machine}.

(** [Sent src dst data]: an application has sent [data] from [src] to [dst]. *)
Context (Sent : endpoint -> endpoint -> list Z -> Prop).

(** ** Honest packets *)

Definition udp_honest (src dst : Z) (msg : list Z) : Prop :=
  exists sport dport sum data,
    msg = udp_hdr sport dport (8 + Z.of_nat (length data)) sum ++ data /\
    Sent (Endpoint src sport) (Endpoint dst dport) data.

(** A datagram, as it was made or as padded on the wire. *)
Definition ip_honest (buf : list Z) : Prop :=
  exists id protocol c src dst msg pad,
    buf = ip_datagram id protocol c src dst msg ++ pad /\ Z.of_nat (length msg) <= 65515 /\
    (protocol = UDP_PROTOCOL -> udp_honest src dst msg).

Definition packet_honest (ty : Z) (buf : list Z) : Prop := ty = NETWORK_PROTOCOL_TYPE_IP -> ip_honest buf.

Definition frame_honest (frame : list Z) : Prop :=
  exists dst src ty payload,
    frame = ether_frame dst src ty payload /\ length dst = 6%nat /\ length src = 6%nat /\ in_u16 ty /\ packet_honest ty payload.

Definition call_honest (c : syscall) : Prop := match c with SysWrite _ frame => frame_honest frame | _ => True end.

(** What the kernel hands out as a frame is one. *)
Definition answer_honest (r : sysres) : Prop :=
  14 <= r_ret r <= Z.of_nat (length (r_data r)) -> frame_honest (take (Z.to_nat (r_ret r)) (r_data r)).

Definition queued_honest (p : network_protocol) (e : network_protocol_queue_entry) : Prop :=
  nqe_len e = Z.of_nat (length (nqe_data e)) /\ packet_honest (np_type p) (nqe_data e).

Definition proto_honest (p : network_protocol) : Prop :=
  (np_handler p = fn_ip_input -> np_type p = NETWORK_PROTOCOL_TYPE_IP) /\ Forall (queued_honest p) (np_queue p).

Definition ip_proto_honest (p : ip_protocol) : Prop := ipp_handler p = fn_udp_input -> ipp_type p = UDP_PROTOCOL.

Definition entry_honest (e : udp_queue_entry) : Prop :=
  uqe_len e = Z.of_nat (length (uqe_data e)) /\ uqe_len e <= 65507 /\ exists dst, Sent (uqe_foreign e) dst (uqe_data e).

Definition pcb_honest (p : udp_pcb) : Prop := Forall entry_honest (pcb_queue p).

Record honest (s : stack) : Prop := {
  h_protocols : Forall proto_honest (n_protocols (st_net s));
  h_ip : Forall ip_proto_honest (ip_protocols (st_ip s));
  h_udp : Forall pcb_honest (st_udp s);
  h_trace : Forall (fun c => call_honest c.1) (w_trace (st_world s));
  h_answers : Forall answer_honest (w_sys (st_world s));
}.

Definition honest_view (s : stack) :=
  (n_protocols (st_net s), ip_protocols (st_ip s), st_udp s, w_trace (st_world s), w_sys (st_world s)).

Lemma honest_same s s' : honest_view s' = honest_view s -> honest s -> honest s'.
Proof. unfold honest_view. intros [= E1 E2 E3 E4 E5] []. constructor; by rewrite ?E1, ?E2, ?E3, ?E4, ?E5. Qed.

Lemma honest_preserves {A} (m : C A) : Preserves honest_view m -> maintains honest any m.
Proof. apply maintains_preserves. intros s s'. apply honest_same. Qed.

Lemma honest_world f s :
  honest s -> w_trace (f (st_world s)) = w_trace (st_world s) -> w_sys (f (st_world s)) = w_sys (st_world s) ->
  honest (set_world f s).
Proof. intros H Et Es. eapply honest_same; [|exact H]. unfold honest_view. simpl. by rewrite Et, Es. Qed.

Lemma honest_udp f s : honest s -> Forall pcb_honest (f (st_udp s)) -> honest (set_udp f s).
Proof. intros [] H. by constructor. Qed.

(** ** Shared effects *)

#[local] Instance alloc_honest : Preserves honest_view memory_alloc.
Proof. unfold memory_alloc. solve_preserves. Qed.

#[local] Instance clock_honest : Preserves honest_view gettimeofday.
Proof. unfold gettimeofday. solve_preserves. Qed.

#[local] Instance lock_honest m : Preserves honest_view (mutex_lock m).
Proof. unfold mutex_lock. solve_preserves. Qed.

#[local] Instance unlock_honest m : Preserves honest_view (mutex_unlock m).
Proof. unfold mutex_unlock. solve_preserves. Qed.

#[local] Instance signal_honest sig : Preserves honest_view (raise_signal sig).
Proof. unfold raise_signal. apply preserves_modify. intros s. unfold honest_view. simpl. by case_decide. Qed.

#[local] Instance get_dev_honest d : Preserves honest_view (get_dev d).
Proof. unfold get_dev. solve_preserves. Qed.

#[local] Instance get_iface_honest i : Preserves honest_view (get_iface i).
Proof. unfold get_iface. solve_preserves. Qed.

#[local] Instance iface_dev_honest i : Preserves honest_view (iface_dev i).
Proof. unfold iface_dev. solve_preserves. Qed.

#[local] Instance dev_private_honest d : Preserves honest_view (dev_private d).
Proof. unfold dev_private. solve_preserves. Qed.

#[local] Instance get_interface_honest d family : Preserves honest_view (network_device_get_interface d family).
Proof.
  unfold network_device_get_interface. apply preserves_bind; [apply _|]. intros dev. induction (dev_interfaces dev); simpl; solve_preserves.
Qed.

#[local] Instance set_cache_honest i f : Preserves honest_view (set_cache i f).
Proof. unfold set_cache. solve_preserves. Qed.

#[local] Hint Extern 2 (maintains honest any _) => apply honest_preserves; typeclasses eauto : maintains.

Lemma syscall_honest c dflt : call_honest c -> answer_honest dflt -> maintains honest answer_honest (syscall_do c dflt).
Proof.
  intros Hc Hd s H. unfold syscall_do. apply pw_bind, pw_get.
  assert (exists r rest, match w_sys (st_world s) with [] => (dflt, []) | r :: rest => (r, rest) end = (r, rest) /\
    answer_honest r /\ Forall answer_honest rest) as (r & rest & -> & Hr & Hrest).
  { destruct H as [_ _ _ _ Ha]. destruct (w_sys (st_world s)) as [|r rest]; [by eexists _, _|].
    apply Forall_cons in Ha as [? ?]. by eexists _, _. }
  apply pw_bind, pw_modify, pw_ret. split; [|done]. destruct H. constructor; try done.
  simpl. apply Forall_app. split; [done|by apply Forall_singleton].
Qed.

Lemma answer_nothing n e : n < 14 -> answer_honest (SysRes n e []).
Proof. intros Hn [? _]. simpl in *. lia. Qed.
#[local] Hint Extern 1 (call_honest _) => exact I : maintains.
#[local] Hint Extern 1 (answer_honest (SysRes _ _ _)) => apply answer_nothing; reflexivity : maintains.
#[local] Hint Resolve syscall_honest : maintains.

(** ** Packets that come in *)

Lemma gets_net_honest : maintains honest (fun n => Forall proto_honest (n_protocols n)) (gets st_net).
Proof. apply maintains_gets. by intros s []. Qed.

(** The queue of a protocol is replaced. *)
Lemma honest_queue i p q s :
  honest s -> n_protocols (st_net s) !! i = Some p -> Forall (queued_honest p) q ->
  Forall proto_honest (alter (with_queue q) i (n_protocols (st_net s))).
Proof.
  intros [Hp _ _ _ _] Hi Hq. apply Forall_lookup. intros j x Hj. destruct (decide (i = j)) as [<-|Hne].
  - rewrite list_lookup_alter_eq, Hi in Hj. injection Hj as <-. destruct (Forall_lookup_1 _ _ _ _ Hp Hi) as [Ht _]. by split.
  - rewrite list_lookup_alter_ne in Hj by done. by eapply Forall_lookup_1.
Qed.

Definition honest_rest (s : stack) := (ip_protocols (st_ip s), st_udp s, w_trace (st_world s), w_sys (st_world s)).

Lemma honest_parts s s' :
  honest s -> honest_rest s' = honest_rest s -> Forall proto_honest (n_protocols (st_net s')) -> honest s'.
Proof. intros [] [= E1 E2 E3 E4] Hp. constructor; by rewrite ?E1, ?E2, ?E3, ?E4. Qed.

#[local] Instance input_rest ty data len d : Preserves honest_rest (network_input_handler ty data len d).
Proof.
  unfold network_input_handler, queue_push_c, memory_alloc, raise_softirq, raise_signal, set_queue. solve_preserves.
  apply preserves_modify. intros s. unfold honest_rest. simpl. by case_decide.
Qed.

Lemma network_input_honest ty data len d :
  0 <= len -> (forall buf, rdn data 0 (Z.to_nat len) = Some buf -> packet_honest ty buf) ->
  maintains honest any (network_input_handler ty data len d).
Proof.
  intros Hlen Hp s H. eapply pw_mono; [apply pw_and; [apply input_queues|apply (pw_preserves honest_rest), _]|].
  intros a s' [[_ Hq] Er]. split; [|done]. eapply honest_parts; [exact H|done|]. pose proof H as [Hps _ _ _ _].
  destruct Hq as [->|(ty' & e & -> & -> & _ & El & Eb)]; [done|].
  unfold enqueue. destruct (list_find _ _) as [[i p]|] eqn:E; [|done]. apply find_type_Some in E as [Hi <-].
  apply honest_queue with (p := p); [done|done|]. apply Forall_app.
  split; [by apply (Forall_lookup_1 _ _ _ _ Hps Hi)|]. apply Forall_singleton.
  split; [apply rdn_length in Eb; lia|by apply Hp].
Qed.

Lemma packet_honest_pad ty buf pad : packet_honest ty buf -> packet_honest ty (buf ++ pad).
Proof.
  intros H Hty. destruct (H Hty) as (id & protocol & c & src & dst & msg & pad' & -> & Hl & Hu).
  exists id, protocol, c, src, dst, msg, (pad' ++ pad). by rewrite app_assoc.
Qed.

(** Type and payload of an honest frame, as they are read. *)
Lemma frame_honest_read frame n t :
  frame_honest (take n frame) -> (14 <= n)%nat -> rd16 frame 12 = Some t ->
  packet_honest (ntoh16 t) (take (n - 14) (drop 14 frame)).
Proof.
  intros (dst & src & ty & payload & Ef & Ld & Ls & Hty & Hp) Hn Ht.
  assert (frame = ether_frame dst src ty payload ++ drop n frame) as E0 by (by rewrite <- Ef, take_drop).
  destruct (rd16_be (ty / 256) (ty mod 256) (dst ++ src)
    (payload ++ replicate (46 - length payload) 0 ++ drop n frame) 12) as (v & Ev & Env);
    [unfold in_u16, in_u8 in *; Z.div_mod_to_equations; lia..|by rewrite length_app, Ld, Ls|].
  assert (ntoh16 t = ty) as ->.
  { rewrite E0 in Ht. unfold ether_frame in Ht. rewrite <- !app_assoc in Ht. rewrite <- !app_assoc in Ev. rewrite Ev in Ht. injection Ht as <-.
    rewrite Env. Z.div_mod_to_equations; lia. }
  rewrite firstn_skipn_comm. replace (14 + (n - 14))%nat with n by lia. rewrite Ef.
  unfold ether_frame. rewrite 2!app_assoc, drop_app_length' by (by rewrite !length_app, Ld, Ls). by apply packet_honest_pad.
Qed.

(** A frame read from a device. *)
Lemma poll_honest d read :
  (forall d n, maintains honest (fun r => 14 <= r.1 <= Z.of_nat (length r.2) -> frame_honest (take (Z.to_nat r.1) r.2)) (read d n)) ->
  maintains honest any (ether_poll_helper d read).
Proof.
  intros Hr. unfold ether_poll_helper. eapply maintains_bind; [apply Hr|]. intros [flen frame] Hf. cbn iota. cbn [fst snd] in Hf.
  change ETHER_HDR_SIZE with 14. destruct (Z.ltb_spec flen 14); [by maintains_tac|]. do 3 maintains_step.
  destruct (_ && _); [by maintains_tac|]. eapply maintains_bind; [apply maintains_opt|]. intros t Ht. cbn beta in *.
  apply network_input_honest; [lia|]. intros buf Eb. apply rdn_Some in Eb as [Hle ->]. rewrite length_drop in Hle. rewrite drop_0.
  replace (Z.to_nat (flen - 14)) with (Z.to_nat flen - 14)%nat by lia.
  assert (14 <= length frame)%nat as L14.
  { unfold rd16 in Ht. destruct (drop 12 frame) as [|b0 [|b1 rest]] eqn:Ed; [done..|].
    apply (f_equal length) in Ed. rewrite length_drop in Ed. simpl in Ed. lia. }
  apply frame_honest_read; [apply Hf; lia|lia|done].
Qed.

Lemma isr_honest (pcap : bool) fuel d fd : maintains honest any (isr_loop fuel d fd (if pcap then ether_pcap_read else ether_tap_read)).
Proof.
  assert (maintains honest any (ether_poll_helper d (if pcap then ether_pcap_read else ether_tap_read))) as Hp.
  { apply poll_honest. clear d. intros d n. destruct pcap; unfold ether_pcap_read, ether_tap_read; do 2 maintains_step;
      (destruct (_ <=? 0); apply maintains_ret; [simpl; lia|done]). }
  induction fuel as [|fuel IH]; cbn [isr_loop]; by maintains_tac.
Qed.

Lemma call_irq_honest fuel e : maintains honest any (call_irq fuel e).
Proof.
  unfold call_irq, ether_tap_isr, ether_pcap_isr.
  destruct (irq_handler e); maintains_step; [apply (isr_honest false)|apply (isr_honest true)].
Qed.

(** ** Packets that go out *)

Lemma transmit_honest d ty data len dst callback :
  in_u16 ty -> 0 <= len -> packet_honest ty (take (Z.to_nat len) data) ->
  (forall d frame n, frame_honest frame -> maintains honest any (callback d frame n)) ->
  maintains honest any (ether_transmit_helper d ty data len dst callback).
Proof.
  intros Hty Hlen Hp Hc s H. destruct (ether_transmit_helper d ty data len dst callback s) as [r s'|] eqn:E;
    unfold pw; rewrite E; [|done]. pose proof E as E0. unfold ether_transmit_helper in E0.
  apply bind_inv in E0 as (dev & s1 & E1 & E0). apply bind_inv in E0 as (hd & s2 & E2 & E0). apply bind_inv in E0 as (hs & s3 & E3 & E0).
  apply bind_inv in E0 as (pl & s4 & E4 & E0).
  destruct (n_devs (st_net s) !! d) as [dev'|] eqn:Ed; [|unfold get_dev, bind, gets, opt in E1; by rewrite Ed in E1].
  rewrite (get_dev_ok d s dev' Ed) in E1. injection E1 as -> <-.
  destruct (rdn dst 0 ETHER_ADDR_LEN) as [hd'|] eqn:R2; [|done]. destruct (rdn (dev_address dev) 0 ETHER_ADDR_LEN) as [hs'|] eqn:R3; [|done].
  destruct (rdn data 0 (Z.to_nat len)) as [pl'|] eqn:R4; [|done]. apply rdn_Some in R2 as [L2 _], R3 as [L3 _], R4 as [L4 _].
  change ETHER_ADDR_LEN with 6%nat in *. destruct (Z.gtb_spec len ETHER_PAYLOAD_SIZE_MAX) as [|Hmax]; [done|].
  change ETHER_PAYLOAD_SIZE_MAX with 1500 in Hmax.
  rewrite (ether_transmit_run d ty data len dst callback s dev) in E by first [done|lia].
  apply bind_inv in E as (r' & s5 & E5 & E). injection E as <- <-.
  pose proof (Hc d (ether_frame (take 6 dst) (take 6 (dev_address dev)) ty (take (Z.to_nat len) data))
    (Z.of_nat (length (ether_frame (take 6 dst) (take 6 (dev_address dev)) ty (take (Z.to_nat len) data))))) as W.
  specialize (W ltac:(eexists _, _, _, _; split_and!; [done|rewrite length_take; lia|rewrite length_take; lia|done|done]) s H).
  unfold pw in W. by rewrite E5 in W.
Qed.

Lemma device_output_honest d ty data len dst :
  in_u16 ty -> 0 <= len -> packet_honest ty (take (Z.to_nat len) data) ->
  maintains honest any (network_device_output d ty data len dst).
Proof.
  intros Hty Hlen Hp. unfold network_device_output. maintains_step. case_match; [by maintains_tac|]. case_match; [by maintains_tac|].
  eapply maintains_bind; [apply maintains_opt|]. intros o _. eapply maintains_bind; [apply maintains_opt|]. intros f Ef.
  eapply (maintains_bind _ any); [|intros r _; by maintains_tac].
  assert (forall d frame n, frame_honest frame -> maintains honest any (ether_tap_write d frame n) /\ maintains honest any (ether_pcap_write d frame n)) as Hw.
  { clear. intros d frame n Hf. assert (forall fd, call_honest (SysWrite fd frame)) by done.
    split; unfold ether_tap_write, ether_pcap_write; maintains_step;
      (eapply maintains_bind; [apply syscall_honest; [done|intros [? ?]; simpl in *; lia]|intros; by maintains_tac]). }
  destruct o; injection Ef as <-; unfold loopback_transmit, ether_tap_transmit, ether_pcap_transmit.
  - eapply maintains_bind; [|intros; by maintains_tac]. apply network_input_honest; [done|]. intros buf Eb. apply rdn_Some in Eb as [_ ->]. by rewrite drop_0.
  - apply transmit_honest; [done..|]. intros. by apply Hw.
  - apply transmit_honest; [done..|]. intros. by apply Hw.
Qed.

Lemma arp_output_honest d data len dst : 0 <= len -> maintains honest any (network_device_output d ETHER_TYPE_ARP data len dst).
Proof. intros Hlen. by apply device_output_honest. Qed.
#[local] Hint Resolve call_irq_honest arp_output_honest Nat2Z.is_nonneg : maintains.


(** ** arp.c *)

#[local] Instance cache_update_honest pa ha : Preserves honest_view (arp_cache_update pa ha).
Proof. unfold arp_cache_update. solve_preserves. Qed.

#[local] Instance cache_insert_honest pa ha : Preserves honest_view (arp_cache_insert pa ha).
Proof. unfold arp_cache_insert. solve_preserves. Qed.

#[local] Instance gets_honest {A} (f : stack -> A) : Preserves honest_view (gets f).
Proof. apply _. Qed.

Lemma arp_input_honest data len d : maintains honest any (arp_input data len d).
Proof. unfold arp_input, arp_input_merge, arp_input_update, arp_input_insert, arp_reply. by maintains_tac. Qed.

Lemma arp_resolve_honest i pa ha : maintains honest any (arp_resolve i pa ha).
Proof. unfold arp_resolve, arp_request. by maintains_tac. Qed.

Lemma arp_timer_honest : maintains honest any arp_timer.
Proof. apply honest_preserves. unfold arp_timer. solve_preserves. Qed.
#[local] Hint Resolve arp_input_honest arp_resolve_honest arp_timer_honest : maintains.

(** ** ip.c *)

#[local] Instance ip_dump_honest data : Preserves honest_view (ip_dump data).
Proof. unfold ip_dump. solve_preserves. Qed.

Lemma ip_generate_id_honest : maintains honest any ip_generate_id.
Proof. apply honest_preserves. unfold ip_generate_id. solve_preserves. Qed.

Lemma ip_output_honest i protocol data len src dst nexthop id :
  0 <= len ->
  (protocol = UDP_PROTOCOL -> forall msg, rdn data 0 (Z.to_nat len) = Some msg -> udp_honest src dst msg) ->
  maintains honest any (ip_output_core i protocol data len src dst nexthop id 0).
Proof.
  intros Hlen Hu. unfold ip_output_core. maintains_step. change MIN_IP_HEADER_SIZE with 20. change MAX_IP_PACKET_SIZE with 65535.
  destruct (Z.gtb_spec (20 + len) 65535) as [|Hmax]; [by maintains_tac|].
  eapply maintains_bind; [apply maintains_opt|]. intros msg Em. pose proof (rdn_length _ _ _ _ Em) as Lm.
  do 3 maintains_step. rewrite u16_small by (unfold in_u16; lia). set (buf := ip_header _ _ _ _ _ _ _ ++ msg).
  assert (packet_honest NETWORK_PROTOCOL_TYPE_IP (take (Z.to_nat (20 + len)) buf)) as Hb.
  { intros _. exists id, protocol, a, src, dst, msg, []. rewrite app_nil_r. split_and!; [|lia|intros ->; by apply Hu].
    unfold ip_datagram. rewrite Lm, Z2Nat.id by lia. apply take_ge. unfold buf. rewrite length_app, length_ip_header. lia. }
  assert (forall d hw, maintains honest any (network_device_output d NETWORK_PROTOCOL_TYPE_IP buf (20 + len) hw)) as Ho
    by (intros; by apply device_output_honest; [|lia|]).
  clearbody buf. unfold ip_output_device. by maintains_tac.
Qed.

(** The source of the datagram is the address of the interface of the route. *)
Lemma ip_send_honest protocol data len src dst s :
  honest s -> 0 <= len ->
  (protocol = UDP_PROTOCOL -> forall r f msg, ip_route_lookup (ip_routes (st_ip s)) dst = Some r ->
     n_ifs (st_net s) !! rt_iface r = Some f -> src = IP_ADDR_ANY \/ src = if_unicast f ->
     rdn data 0 (Z.to_nat len) = Some msg -> udp_honest (if_unicast f) dst msg) ->
  pw (ip_send_packet protocol data len src dst) s (fun _ s' => honest s').
Proof.
  intros H Hlen Hu. unfold ip_send_packet. destruct (_ && _); [by apply pw_ret|]. apply pw_bind, pw_gets.
  destruct (ip_route_lookup _ _) as [r|] eqn:Er; [|by apply pw_ret]. cbv zeta. unfold get_iface. pw_steps. rename a into f.
  destruct (_ && _) eqn:G; [by apply pw_ret|].
  assert (src = IP_ADDR_ANY \/ src = if_unicast f) as Hsrc by lia. set (nexthop := if negb _ then _ else _). clearbody nexthop.
  match goal with |- pw ?m _ _ => assert (maintains honest any m) as Hm end.
  - maintains_step. maintains_step. case_match; [by maintains_tac|]. eapply maintains_bind; [apply ip_generate_id_honest|]. intros id _.
    eapply maintains_bind; [apply ip_output_honest; [done|]|intros; by maintains_tac]. intros Hp msg Em. by eapply Hu.
  - eapply pw_mono; [by apply Hm|]. by intros a s' [? _].
Qed.

(** ** icmp.c *)

Lemma icmp_input_honest data len src dst i : maintains honest any (icmp_input data len src dst i).
Proof.
  assert (forall ty code values data len src dst, 0 <= len -> maintains honest any (icmp_output ty code values data len src dst)) as Out.
  { clear. intros ty code values data len src dst Hlen. unfold icmp_output, icmp_dump. case_match; [by maintains_tac|].
    do 3 maintains_step. intros s Hs. eapply pw_mono; [apply ip_send_honest; [done|unfold ICMP_HDR_SIZE; lia|done]|]. done. }
  unfold icmp_input, icmp_dump. change ICMP_HDR_SIZE with 8. destruct (Z.ltb_spec len 8); [by maintains_tac|].
  assert (forall ty code values data src dst, maintains honest any (icmp_output ty code values data (len - 8) src dst))
    by (intros; apply Out; lia). by maintains_tac.
Qed.

(** ** udp.c *)

Lemma get_pcb_honest k : maintains honest pcb_honest (get_pcb k).
Proof.
  unfold get_pcb. eapply (maintains_bind _ (Forall pcb_honest)); [apply maintains_gets; by intros s []|]. intros pcbs Hp.
  eapply maintains_mono; [apply maintains_opt|]. intros p E. exact (Forall_lookup_1 _ _ _ _ Hp E).
Qed.

Lemma set_pcb_honest k f : (forall p, pcb_honest p -> pcb_honest (f p)) -> maintains honest any (set_pcb k f).
Proof. intros Hf. apply maintains_modify. intros s H. apply honest_udp; [done|]. apply Forall_alter; [apply H|]. auto. Qed.

Lemma ctx_set_honest k f : maintains honest any (ctx_set (pcb_ctx_ref k) f).
Proof. apply maintains_modify. intros s H. apply (honest_udp _ s H). apply Forall_alter; [apply H|]. done. Qed.

#[local] Instance ctx_get_honest k : Preserves honest_view (ctx_get (pcb_ctx_ref k)).
Proof. unfold ctx_get. solve_preserves. Qed.

#[local] Instance errno_honest e : Preserves honest_view (modify (set_world (set_errno e))).
Proof. by apply preserves_modify. Qed.
#[local] Hint Resolve get_pcb_honest ctx_set_honest : maintains.

Lemma sched_honest k m r :
  maintains honest any (sched_sleep_enter (pcb_ctx_ref k) m) /\ maintains honest any (sched_sleep_leave (pcb_ctx_ref k) m r) /\
  maintains honest any (sched_wakeup (pcb_ctx_ref k)) /\ maintains honest any (sched_interrupt (pcb_ctx_ref k)) /\
  maintains honest any (sched_ctx_init (pcb_ctx_ref k)) /\ maintains honest any sched_ctx_destroy.
Proof.
  split_and!; unfold sched_sleep_enter, sched_sleep_leave, sched_wakeup, sched_interrupt, sched_ctx_init, sched_ctx_destroy;
    by maintains_tac.
Qed.

Lemma udp_message_read sport dport sum data pad :
  let buf := (udp_hdr sport dport (8 + Z.of_nat (length data)) sum ++ data) ++ pad in
  rd16 buf 0 = Some sport /\ rdn buf 8 (length data) = Some data.
Proof.
  intros buf. destruct (udp_hdr_fields sport dport (8 + Z.of_nat (length data)) sum (data ++ pad)) as (F0 & _ & _ & _).
  unfold buf. rewrite <- app_assoc. split; [done|]. apply rdn_app_mid; [by rewrite length_udp_hdr|done].
Qed.

Lemma udp_input_honest msg pad src dst i :
  udp_honest src dst msg -> Z.of_nat (length msg) <= 65515 ->
  maintains honest any (udp_input (msg ++ pad) (Z.of_nat (length msg)) src dst i).
Proof.
  intros (sport & dport & sum & data & -> & Hs) Hl. rewrite length_app, length_udp_hdr in *.
  destruct (udp_message_read sport dport sum data pad) as [F0 Fd]. set (buf := _ ++ pad) in *. clearbody buf.
  assert (maintains honest any (udp_input_deliver buf (Z.of_nat (8 + length data)) src dst)) as D; [|unfold udp_input; by maintains_tac].
  unfold udp_input_deliver. change UDP_HDR_SIZE with 8. rewrite u16_small by (unfold in_u16; lia).
  replace (Z.to_nat (Z.of_nat (8 + length data) - 8)) with (length data) by lia. rewrite F0, Fd.
  maintains_step. maintains_step. case_match; [|by maintains_tac]. maintains_step. case_match; [by maintains_tac|].
  eapply maintains_bind; [apply maintains_opt|]. intros ? [= <-]. eapply maintains_bind; [apply maintains_opt|]. intros ? [= <-].
  eapply maintains_bind; [apply get_pcb_honest|]. intros p Hp.
  eapply (maintains_bind _ (fun o => forall q, o = Some q -> Forall entry_honest q)).
  { unfold queue_push_c. maintains_step. case_match; apply maintains_ret; [|done]. intros q [= <-]. apply Forall_app. split; [done|].
    apply Forall_singleton. split; [simpl; lia|]. split; [simpl; lia|]. by exists (Endpoint dst dport). }
  intros [q|] Hq; [|by maintains_tac]. eapply maintains_bind; [apply set_pcb_honest; intros; by apply Hq|]. intros ? _.
  eapply maintains_bind; [apply (sched_honest _ udp_mutex 0)|intros; by maintains_tac].
Qed.

Lemma udp_output_honest src dst data len s :
  honest s -> 0 <= len ->
  (forall r f, ip_route_lookup (ip_routes (st_ip s)) (ep_address dst) = Some r -> n_ifs (st_net s) !! rt_iface r = Some f ->
     ep_address src = IP_ADDR_ANY \/ ep_address src = if_unicast f ->
     Sent (Endpoint (if_unicast f) (ep_port src)) dst (take (Z.to_nat len) data)) ->
  pw (udp_output src dst data len) s (fun _ s' => honest s').
Proof.
  intros H Hlen Hs. unfold udp_output. change (MAX_IP_PAYLOAD_SIZE - UDP_HDR_SIZE) with 65507.
  destruct (Z.gtb_spec len 65507) as [|Hmax]; [by apply pw_ret|]. pw_steps. eapply pw_mono.
  - apply ip_send_honest; [done|apply u16_range|]. intros _ r f msg Er Ef Hsrc Em. exists (ep_port src), (ep_port dst), a1, a.
    apply rdn_Some in E as [L Ea]. rewrite drop_0 in Ea.
    assert (length a = Z.to_nat len) as La by (rewrite Ea, length_take; lia).
    unfold UDP_HDR_SIZE in *. rewrite u16_small in * by (unfold in_u16; lia). rewrite La, Z2Nat.id by lia.
    split; [|rewrite Ea; destruct dst; by eapply Hs].
    rewrite rdn_in in Em by (rewrite length_app, length_udp_hdr; lia). injection Em as <-. rewrite drop_0. apply take_ge.
    rewrite length_app, length_udp_hdr. lia.
  - intros r s' H'. by case_match; apply pw_ret.
Qed.

(** ** The interrupt thread *)

Lemma ip_input_honest buf d : ip_honest buf -> maintains honest any (ip_input buf (Z.of_nat (length buf)) d).
Proof.
  intros (id & protocol & c & src & dst & msg & pad & -> & Hl & Hu). unfold ip_datagram. rewrite <- app_assoc.
  destruct (ip_header_fields (20 + Z.of_nat (length msg)) id 0 protocol c src dst (msg ++ pad))
    as (F0 & F2 & F6 & F9 & _ & F12 & F16 & Fd).
  set (data := ip_header _ _ _ _ _ _ _ ++ msg ++ pad) in *. clearbody data.
  unfold ip_input. rewrite F0, F2, F6, F9, F12, F16. case_match; [by maintains_tac|]. maintains_step. case_match; [|by maintains_tac].
  apply maintains_bind_Some. case_match; [by maintains_tac|]. change (u16 (Z.shiftl (Z.land 69 15) 2)) with 20.
  case_match; [by maintains_tac|]. apply maintains_bind_Some. rewrite ntoh16_hton16 by (unfold in_u16; lia). case_match; [by maintains_tac|].
  maintains_step. case_match; [by maintains_tac|]. do 2 apply maintains_bind_Some. maintains_step. case_match; [by maintains_tac|].
  maintains_step. do 2 apply maintains_bind_Some.
  eapply (maintains_bind _ (fun p => Forall ip_proto_honest (ip_protocols p))); [apply maintains_gets; by intros s []|].
  intros p Hp. destruct (list_find _ _) as [[j e]|] eqn:E; [|by maintains_tac]. apply list_find_Some in E as (Ej & Et & _).
  pose proof (Forall_lookup_1 _ _ _ _ Hp Ej) as He. change (Z.to_nat 20) with 20%nat. rewrite Fd, u64_small by lia.
  replace (20 + Z.of_nat (length msg) - 20) with (Z.of_nat (length msg)) by lia.
  unfold call_ip_handler, stack_ip_dispatch. destruct (ipp_handler e) eqn:Eh; [apply icmp_input_honest|].
  apply udp_input_honest; [|done]. apply Hu. rewrite <- Et. by apply He.
Qed.

Lemma packet_honest_step i : maintains honest any (packet_step i).
Proof.
  intros s H. unfold packet_step. apply pw_bind, pw_gets, pw_bind, pw_opt. intros p Hp.
  pose proof H as [Hps _ _ _ _]. destruct (Forall_lookup_1 _ _ _ _ Hps Hp) as [Ht Hq].
  destruct (np_queue p) as [|e q] eqn:E; simpl; [by apply pw_ret|]. apply Forall_cons in Hq as [[El He] Hq].
  unfold set_queue. apply pw_bind, pw_modify, pw_bind.
  assert (honest (set_net (set_protocols (alter (with_queue q) i)) s)) as H1 by (eapply honest_parts; [done|done|by eapply honest_queue]).
  assert (maintains honest any (call_protocol (np_handler p) (nqe_data e) (nqe_len e) (nqe_dev e))) as Hc.
  { destruct (np_handler p); cbn [call_protocol stack_dispatch]; [apply arp_input_honest|]. rewrite El. apply ip_input_honest. by apply He, Ht. }
  eapply pw_mono; [by apply Hc|]. intros u s2 [H2 _]. by apply pw_ret.
Qed.

Lemma drain_all_honest fuel k i : maintains honest any (protocol_drain_all fuel i k).
Proof. apply maintains_drain_all, packet_honest_step. Qed.

Lemma timer_loop_honest k i : maintains honest any (timer_loop i k).
Proof.
  revert i. induction k as [|k IH]; intros i; cbn [timer_loop]; [by maintains_tac|]. do 3 maintains_step.
  eapply (maintains_bind _ any); [|intros ? _; apply IH]. case_match; [|by maintains_tac].
  match goal with |- maintains _ _ (bind (call_timer ?h) _) => destruct h end. eapply maintains_bind; [apply arp_timer_honest|]. intros ? _.
  apply maintains_modify. intros s H'. by apply (honest_same s).
Qed.

Lemma event_loop_honest l : maintains honest any (event_loop l).
Proof.
  assert (forall n k, maintains honest any (udp_interrupt_loop k n)) as L.
  { induction n as [|n IH]; intros k; cbn [udp_interrupt_loop]; [by maintains_tac|].
    pose proof (proj1 (proj2 (proj2 (proj2 (sched_honest k udp_mutex 0))))). by maintains_tac. }
  induction l as [|e l IH]; cbn [event_loop]; [by maintains_tac|]. eapply (maintains_bind _ any); [|intros ? _; exact IH].
  destruct (ne_handler e). cbn [call_event stack_dispatch]. unfold event_handler. by maintains_tac.
Qed.

Lemma intr_dispatch_honest fuel sig : maintains honest any (intr_dispatch fuel sig).
Proof.
  assert (forall l, maintains honest any (irq_loop fuel sig l)) by (induction l; cbn [irq_loop]; by maintains_tac).
  unfold intr_dispatch, network_protocol_handler, network_event_handler, network_timer_handler.
  pose proof drain_all_honest. pose proof timer_loop_honest. pose proof event_loop_honest. by maintains_tac.
Qed.

(** ** The calls of the application *)

#[local] Hint Extern 1 (maintains honest any (sched_sleep_enter _ _)) => apply (proj1 (sched_honest _ _ 0)) : maintains.
#[local] Hint Extern 1 (maintains honest any (sched_sleep_leave _ _ _)) => apply (proj1 (proj2 (sched_honest _ _ _))) : maintains.
#[local] Hint Extern 1 (maintains honest any (sched_wakeup _)) => apply (proj1 (proj2 (proj2 (sched_honest _ udp_mutex 0)))) : maintains.
#[local] Hint Extern 1 (maintains honest any (sched_ctx_init _)) => apply (proj1 (proj2 (proj2 (proj2 (proj2 (sched_honest _ udp_mutex 0)))))) : maintains.
#[local] Hint Extern 1 (maintains honest any sched_ctx_destroy) => apply (proj2 (proj2 (proj2 (proj2 (proj2 (sched_honest 0 udp_mutex 0)))))) : maintains.

(** Assignments to the other fields of a control block. *)
Lemma set_pcb_same k f : (forall p, pcb_queue (f p) = pcb_queue p) -> maintains honest any (set_pcb k f).
Proof. intros Hf. apply set_pcb_honest. intros p. unfold pcb_honest. by rewrite Hf. Qed.

Lemma with_state_honest k st : maintains honest any (set_pcb k (with_state st)).
Proof. by apply set_pcb_same. Qed.

Lemma with_local_honest k e : maintains honest any (set_pcb k (with_local e)).
Proof. by apply set_pcb_same. Qed.
#[local] Hint Resolve with_state_honest with_local_honest : maintains.

Lemma udp_release_honest k : maintains honest any (udp_pcb_release k).
Proof.
  assert (maintains honest any (udp_queue_flush k)); [|unfold udp_pcb_release; by maintains_tac].
  unfold udp_queue_flush. maintains_step.
  match goal with H : pcb_honest ?p |- _ =>
    destruct (queue_drain_spec (pcb_queue p) (pcb_queue p) (length (pcb_queue p))) as (q & -> & Hq); [done|lia|] end.
  change (q = []) in Hq. subst q. apply set_pcb_honest. intros p _. by apply Forall_nil.
Qed.
#[local] Hint Resolve udp_release_honest : maintains.

(** What a receiver gets: a datagram sent, cut to the length returned. *)
Definition recv_honest (o : recv_outcome) : Prop :=
  match o with
  | RecvReturn r (Some src) buf =>
      0 <= r <= 65507 /\
      exists dst data, Sent src dst data /\ r <= Z.of_nat (length data) /\ take (Z.to_nat r) buf = take (Z.to_nat r) data
  | RecvReturn r None _ => r = -1
  | RecvSleep _ => True
  end.

Lemma recv_loop_honest k size buf : 0 <= size -> maintains honest recv_honest (udp_recv_loop k size buf).
Proof.
  intros Hsize. unfold udp_recv_loop. maintains_step. destruct (pcb_queue a) as [|e q] eqn:E; simpl.
  - maintains_step. case_match; [by apply maintains_ret|]. do 2 maintains_step. by apply maintains_ret.
  - unfold pcb_honest in *. rewrite E in *. match goal with H : Forall _ (_ :: _) |- _ => apply Forall_cons in H as [(El & Hmax & dst & He) Hq] end.
    eapply maintains_bind; [by apply set_pcb_honest|]. intros ? _. maintains_step.
    eapply maintains_bind; [apply maintains_opt|]. intros data Ed. cbn beta. case_match; [by maintains_tac|]. apply maintains_ret.
    apply rdn_Some in Ed as [Hl ->]. rewrite drop_0. split; [lia|].
    exists dst, (uqe_data e). split_and!; [done|lia|].
    rewrite take_app_length'; [done|]. rewrite length_take. lia.
Qed.

Lemma udp_recvfrom_honest id size buf : 0 <= size -> maintains honest recv_honest (udp_recvfrom id size buf).
Proof.
  intros Hsize. unfold udp_recvfrom. do 2 maintains_step. case_match; [by apply recv_loop_honest|]. maintains_step. by apply maintains_ret.
Qed.

Lemma udp_resume_honest k size buf : 0 <= size -> maintains honest recv_honest (udp_recvfrom_resume k size buf).
Proof.
  intros Hsize. unfold udp_recvfrom_resume. maintains_step. case_match; [do 2 maintains_step; by apply maintains_ret|]. maintains_step.
  case_match; [do 2 maintains_step; by apply maintains_ret|by apply recv_loop_honest].
Qed.

Lemma udp_calls_honest id local :
  maintains honest any udp_open /\ maintains honest any (udp_close id) /\ maintains honest any (udp_bind id local).
Proof. split_and!; unfold udp_open, udp_pcb_alloc, udp_close, udp_bind; by maintains_tac. Qed.

(** sock.c *)

Definition sock_honest (o : sock_outcome) : Prop :=
  match o with
  | SockReturn r addr buf =>
      r <> -1 -> 0 <= r /\ exists dst data, Sent (Endpoint (sin_addr addr) (sin_port addr)) dst data /\
        r <= Z.of_nat (length data) /\ take (Z.to_nat r) buf = take (Z.to_nat r) data
  | SockSleep _ => True
  end.

Lemma set_sk_honest k f : maintains honest any (set_sk k f).
Proof. apply maintains_modify. intros s H. by apply (honest_same s). Qed.

#[local] Instance get_sk_honest k : Preserves honest_view (get_sk k).
Proof. unfold get_sk. solve_preserves. Qed.
#[local] Hint Resolve set_sk_honest : maintains.

Lemma sock_calls_honest :
  (forall a b c, maintains honest any (sock_open a b c)) /\ (forall id, maintains honest any (sock_close id)) /\
  (forall id addr, maintains honest any (sock_bind id addr)).
Proof.
  split_and!; intros; unfold sock_open, sock_alloc, sock_close, sock_free, sock_bind.
  - pose proof (proj1 (udp_calls_honest 0 (Endpoint 0 0))). by maintains_tac.
  - assert (forall x, maintains honest any (udp_close x)) by (intros x; apply (udp_calls_honest x (Endpoint 0 0))). by maintains_tac.
  - assert (forall x e, maintains honest any (udp_bind x e)) by (intros x e; apply (udp_calls_honest x e)). by maintains_tac.
Qed.

Lemma recv_finish_honest addr o : recv_honest o -> sock_honest (sock_recv_finish addr o).
Proof.
  destruct o as [r [src|] buf|k]; simpl; [|intros ->; done|done]. intros (Hr & dst & data & Hs & Hl & Ht).
  assert (s32 r = r) as -> by (apply s32_small; lia). destruct (Z.eqb_spec r (-1)); [lia|]. simpl. intros _. split; [lia|].
  exists dst, data. by destruct src.
Qed.

Lemma sock_recvfrom_honest id buf n addr : 0 <= n -> maintains honest sock_honest (sock_recvfrom id buf n addr).
Proof.
  intros Hn. unfold sock_recvfrom. case_match; [|by apply maintains_ret]. maintains_step. case_match; [by apply maintains_ret|].
  eapply maintains_bind; [by apply udp_recvfrom_honest|]. intros o Ho. apply maintains_ret. by apply recv_finish_honest.
Qed.

Lemma sock_resume_honest k buf n addr : 0 <= n -> maintains honest sock_honest (sock_recvfrom_resume k buf n addr).
Proof.
  intros Hn. unfold sock_recvfrom_resume. eapply maintains_bind; [by apply udp_resume_honest|]. intros o Ho.
  apply maintains_ret. by apply recv_finish_honest.
Qed.

(** What an honest state says of the applications and the wire. *)
Lemma honest_integrity s :
  honest s ->
  (forall k p e, st_udp s !! k = Some p -> e ∈ pcb_queue p -> exists dst, Sent (uqe_foreign e) dst (uqe_data e)) /\
  (forall id buf n addr, 0 <= n -> pw (sock_recvfrom id buf n addr) s (fun o _ => sock_honest o)) /\
  (forall fd frame n, (SysWrite fd frame, n) ∈ w_trace (st_world s) -> frame_honest frame).
Proof.
  intros H. split_and!.
  - intros k p e Hk He. destruct H as [_ _ Hu _ _]. pose proof (Forall_lookup_1 _ _ _ _ Hu Hk) as Hp. unfold pcb_honest in Hp.
    rewrite Forall_forall in Hp. apply (Hp e He).
  - intros id buf n addr Hn. eapply pw_mono; [by apply sock_recvfrom_honest|]. by intros o s' [_ ?].
  - intros fd frame n Hin. destruct H as [_ _ _ Ht _]. rewrite Forall_forall in Ht. exact (Ht _ Hin).
Qed.

End Honest.

(** ** Runs of a network *)

Section Runs.
Context {Mc : Machine}.

(** By [op], which leads from [s] to [s'], an application sends [data] from [src] to
    [dst]: the source is the endpoint of the control block of its socket, the
    address that of the interface towards [dst] if it is bound to none. *)
Definition sends (s : stack) (op : sys_op) (s' : stack) (src dst : endpoint) (data : list Z) : Prop :=
  match op with
  | OpSend id buf n addr =>
      dst = Endpoint (sin_addr addr) (sin_port addr) /\ data = take (Z.to_nat n) buf /\
      exists i x k p, sock_get id = Some i /\ st_sock s !! i = Some x /\ udp_pcb_get (st_udp s) (sk_desc x) = Some k /\
        st_udp s' !! k = Some p /\ ep_port src = ep_port (pcb_local p) /\ local_address s p dst (ep_address src)
  | _ => False
  end.

(** The frame a host is handed was written by one of the hosts. *)
Definition on_wire (hosts : list stack) (r : sysres) : Prop :=
  14 <= r_ret r <= Z.of_nat (length (r_data r)) ->
  exists h s fd n, hosts !! h = Some s /\ (SysWrite fd (take (Z.to_nat (r_ret r)) (r_data r)), n) ∈ w_trace (st_world s).

(** A host before any traffic. *)
Record calm (s : stack) : Prop := {
  c_protocols : Forall (fun p => np_queue p = [] /\ (np_handler p = fn_ip_input -> np_type p = NETWORK_PROTOCOL_TYPE_IP))
    (n_protocols (st_net s));
  c_ip : Forall ip_proto_honest (ip_protocols (st_ip s));
  c_udp : Forall (fun p => pcb_queue p = []) (st_udp s);
  c_trace : Forall (fun c => match c.1 with SysWrite _ _ => False | _ => True end) (w_trace (st_world s));
}.

Definition quiet (s : stack) : Prop := sys_ok s /\ calm s /\ w_sys (st_world s) = [].

Record net_event := NetEvent { ev_host : nat; ev_before : stack; ev_op : sys_op; ev_after : stack }.

(** Any host does a step of its own at any time; the environment may fail its calls
    and hand it any frame that is on the wire, at any time and any number of times. *)
Inductive net_run : list stack -> list net_event -> Prop :=
| net_start hosts : Forall quiet hosts -> net_run hosts []
| net_step hosts log h s w op fuel s' :
    net_run hosts log -> hosts !! h = Some s -> env_step (st_world s) w -> Forall (on_wire hosts) (w_sys w) ->
    op_ok (set_world (fun _ => w) s) op -> sys_exec fuel op (set_world (fun _ => w) s) = Ret true s' ->
    net_run (<[h := s']> hosts) (log ++ [NetEvent h s op s']).

Definition sent_in (log : list net_event) (src dst : endpoint) (data : list Z) : Prop :=
  exists ev, ev ∈ log /\ sends (ev_before ev) (ev_op ev) (ev_after ev) src dst data.

(** *** The invariant *)

Lemma quiet_honest s : quiet s -> honest (sent_in []) s.
Proof.
  intros (_ & [] & Ea). constructor.
  - eapply Forall_impl; [exact c_protocols0|]. intros p [Hq Ht]. split; [done|]. rewrite Hq. by apply Forall_nil.
  - done.
  - eapply Forall_impl; [exact c_udp0|]. intros p Hq. unfold pcb_honest. rewrite Hq. by apply Forall_nil.
  - eapply Forall_impl; [exact c_trace0|]. intros [[] n]; done.
  - rewrite Ea. by apply Forall_nil.
Qed.

Section Mono.
Context (Sent Sent' : endpoint -> endpoint -> list Z -> Prop) (Hmono : forall src dst data, Sent src dst data -> Sent' src dst data).

Lemma packet_honest_mono ty buf : packet_honest Sent ty buf -> packet_honest Sent' ty buf.
Proof.
  intros H Hty. destruct (H Hty) as (id & protocol & c & src & dst & msg & pad & -> & Hl & Hu).
  exists id, protocol, c, src, dst, msg, pad. split_and!; [done|done|]. intros E.
  destruct (Hu E) as (sport & dport & sum & data & -> & Hs). exists sport, dport, sum, data. auto.
Qed.

Lemma frame_honest_mono frame : frame_honest Sent frame -> frame_honest Sent' frame.
Proof.
  intros (dst & src & ty & payload & -> & ? & ? & ? & Hp). exists dst, src, ty, payload. split_and!; [done..|].
  by apply packet_honest_mono.
Qed.

Lemma honest_mono s : honest Sent s -> honest Sent' s.
Proof.
  intros []. constructor; [..|done| | |].
  - eapply Forall_impl; [exact h_protocols0|]. intros p [Ht Hq]. split; [done|]. eapply Forall_impl; [exact Hq|].
    intros e [? He]. split; [done|by apply packet_honest_mono].
  - eapply Forall_impl; [exact h_udp0|]. intros p Hp. eapply Forall_impl; [exact Hp|]. intros e (? & ? & dst & He).
    split_and!; [done|done|]. exists dst. auto.
  - eapply Forall_impl; [exact h_trace0|]. intros [[] n]; try done. apply frame_honest_mono.
  - eapply Forall_impl; [exact h_answers0|]. intros r Hr Hlen. by apply frame_honest_mono, Hr.
Qed.

End Mono.

(** A datagram leaves from the endpoint of control block [k], which [pcbs] has. *)
Lemma udp_output_sends Sent id buf n addr i x k p a pcbs s :
  let dst := Endpoint (sin_addr addr) (sin_port addr) in
  stack_ready s -> honest Sent s -> 0 <= n <= Z.of_nat (length buf) ->
  sock_get id = Some i -> st_sock s !! i = Some x -> udp_pcb_get (st_udp s) (sk_desc x) = Some k ->
  pcbs_wf pcbs -> pcbs !! k = Some p -> local_address s p dst a -> Forall (pcb_honest Sent) pcbs ->
  wp (udp_output (Endpoint a (ep_port (pcb_local p))) dst buf n) (set_udp (fun _ => pcbs) s) (fun _ s' =>
    honest (fun src dst data => Sent src dst data \/ sends s (OpSend id buf n addr) s' src dst data) s').
Proof.
  intros dst R H Hn Ei Hx Hk Wp Hp Hloc Hh. set (s1 := set_udp _ s).
  assert (udp_ready s1) as U1 by (destruct R as ((? & ? & _) & _); by split).
  assert (stack_ready s1) as R1 by (by eapply stack_ready_udp).
  set (Sent1 := fun src dst data => Sent src dst data \/ sends s (OpSend id buf n addr) s1 src dst data).
  assert (honest Sent1 s1) as H1.
  { apply honest_udp; [eapply honest_mono; [|exact H]; by left|]. simpl. eapply Forall_impl; [exact Hh|]. intros q Hq.
    eapply Forall_impl; [exact Hq|]. intros e (? & ? & d & He). split_and!; [done|done|]. exists d. by left. }
  eapply wp_mono; [apply (wp_preserves apps); [apply _|]; apply wp_pw; [by apply udp_output_ready|]; apply udp_output_honest; [exact H1|lia|]|].
  - intros r f Er Ef Hsrc. right. cbn [ep_address ep_port] in *.
    assert (a = if_unicast f) as <-.
    { unfold local_address in Hloc. destruct (Z.eqb_spec (ep_address (pcb_local p)) IP_ADDR_ANY) as [|Hne].
      - destruct Hloc as (r' & f' & Er' & Ef' & ->). change (ip_routes (st_ip s1)) with (ip_routes (st_ip s)) in Er.
        change (n_ifs (st_net s1)) with (n_ifs (st_net s)) in Ef. congruence.
      - destruct Hsrc; congruence. }
    split_and!; [done|done|]. by exists i, x, k, p.
  - intros r s' [[_ H'] E]. eapply honest_mono; [|exact H']. unfold apps in E. injection E as Eu _ _.
    intros src d data [?|Hs]; [by left|]. right. unfold sends in *. by rewrite Eu.
Qed.

(** What [sock_sendto] puts on the wire or into a queue is what the application sends. *)
Lemma sock_sendto_honest Sent id buf n addr s :
  sys_ok s -> honest Sent s -> 0 <= n <= Z.of_nat (length buf) ->
  wp (sock_sendto id buf n addr) s (fun _ s' =>
    honest (fun src dst data => Sent src dst data \/ sends s (OpSend id buf n addr) s' src dst data) s').
Proof.
  intros (R & [U (Ls & _)] & _) H Hn. unfold sock_sendto. pose proof H as [_ _ Hu _ _].
  assert (honest (fun src dst data => Sent src dst data \/ sends s (OpSend id buf n addr) s src dst data) s) as H0
    by (eapply honest_mono; [|exact H]; auto).
  destruct (sock_get id) as [i|] eqn:Ei; [|by apply wp_ret]. pose proof (sock_get_Some _ _ Ei) as [_ Hlt].
  destruct (lookup_lt_is_Some_2 (st_sock s) i) as [x Hx]; [by rewrite Ls|]. apply wp_bind. eapply wp_of_run; [by apply get_sk_run|].
  destruct (_ || _); [by apply wp_ret|]. apply udp_sendto_wp; [done|done|]. intros k p a Hk Hp Hloc. split.
  - intros _. pose proof (udp_output_sends Sent id buf n addr i x k p a (st_udp s) s) as W. destruct s. apply W; try done. apply U.
  - intros port _ _ pcbs Wf. set (p' := with_local (Endpoint (ep_address (pcb_local p)) port) p).
    apply (udp_output_sends Sent id buf n addr i x k p' a pcbs s); try done.
    + unfold pcbs, bound. by rewrite list_lookup_alter_eq, Hp.
    + apply Forall_alter; [done|]. done.
Qed.

(** A step of a host. *)
Lemma sys_exec_honest Sent fuel op s s' :
  sys_ok s -> honest Sent s -> op_ok s op -> sys_exec fuel op s = Ret true s' ->
  honest (fun src dst data => Sent src dst data \/ sends s op s' src dst data) s'.
Proof.
  intros Ok H Hop E. assert (forall A (m : C A) P, maintains (honest Sent) P m -> (m;; ret true) s = Ret true s' ->
    honest (fun src dst data => Sent src dst data \/ sends s op s' src dst data) s') as Keep.
  { intros A m P Hm Em. apply bind_inv in Em as (a & s1 & E1 & Em). injection Em as <-. pose proof (Hm s H) as W. unfold pw in W.
    rewrite E1 in W. eapply honest_mono; [|apply W]. auto. }
  destruct (sock_calls_honest Sent) as (Ho & Hc & Hb). destruct op; cbn [sys_exec op_ok] in *.
  - assert (maintains (honest Sent) any (sys_exec fuel (OpRound sig))) as Hm.
    { cbn [sys_exec]. eapply maintains_bind; [|intros ? _; apply intr_dispatch_honest]. apply maintains_modify. intros t Ht. by apply honest_world. }
    pose proof (Hm s H) as W. unfold pw in W. cbn [sys_exec] in W. rewrite E in W. eapply honest_mono; [|apply W]. auto.
  - eapply (Keep _ on_signal any); [|exact E]. apply honest_preserves. unfold on_signal, network_interrupt, raise_signal.
    solve_preserves. apply preserves_modify. intros t. unfold honest_view. simpl. by case_decide.
  - by eapply Keep.
  - eapply Keep; [|exact E]. auto.
  - eapply Keep; [|exact E]. auto.
  - pose proof (sock_sendto_honest Sent id buf n addr s Ok H Hop) as W. apply bind_inv in E as (a & s1 & E1 & E). injection E as <-.
    unfold wp in W. by rewrite E1 in W.
  - eapply Keep; [|exact E]. apply sock_recvfrom_honest. lia.
  - destruct Hop as [_ Hop]. eapply Keep; [|exact E]. apply sock_resume_honest. lia.
Qed.

Lemma sent_in_step log ev src dst data :
  sent_in log src dst data \/ sends (ev_before ev) (ev_op ev) (ev_after ev) src dst data -> sent_in (log ++ [ev]) src dst data.
Proof.
  intros [(ev' & Hin & Hs)|Hs]; [exists ev'|exists ev]; (split; [set_solver|done]).
Qed.

Lemma net_run_honest hosts log :
  net_run hosts log -> forall h s, hosts !! h = Some s -> sys_ok s /\ honest (sent_in log) s.
Proof.
  induction 1 as [hosts Hq|hosts log h s w op fuel s' _ IH Hh (Ha & _ & Et) Hw Hop E]; intros g t Hg.
  { pose proof (Forall_lookup_1 _ _ _ _ Hq Hg) as Hqt. split; [apply Hqt|by apply quiet_honest]. }
  apply list_lookup_insert_Some in Hg as [(<- & <- & _)|[_ Hg]].
  2:{ destruct (IH g t Hg) as [Ok H]. split; [done|]. eapply honest_mono; [|exact H]. intros. apply sent_in_step. by left. }
  destruct (IH h s Hh) as [Ok H]. set (s0 := set_world (fun _ => w) s) in *.
  assert (sys_ok s0) as Ok0 by exact Ok.
  assert (honest (sent_in log) s0) as H0.
  { destruct H. constructor; try done; [simpl; by rewrite Et|]. eapply Forall_impl; [exact Hw|].
    intros r Hr Hlen. destruct (Hr Hlen) as (g & u & fd & n & Hgu & Hin). destruct (IH g u Hgu) as [_ [_ _ _ Htr _]].
    rewrite Forall_forall in Htr. exact (Htr _ Hin). }
  split; [by eapply sys_step_ok|]. eapply honest_mono; [|by eapply sys_exec_honest]. intros src dst data Hs. apply sent_in_step. exact Hs.
Qed.

(** Nothing is made up or changed on the way.  In every run of a network of hosts,
    however frames are lost, duplicated, reordered or misdirected, and whatever
    calls of the environment fail: every datagram that waits at a control block, and
    whatever [sock_recvfrom] returns with its source address, is one that an
    application on one of the hosts passed to [sock_sendto] before, from that source
    endpoint, with exactly these bytes (cut to the length returned); and every frame
    on the wire whose type is IP and whose protocol is UDP carries such a datagram. *)
Theorem network_integrity (hosts : list stack) (log : list net_event) (h : nat) (s : stack)
    (Hrun : net_run hosts log) (Hh : hosts !! h = Some s) :
  (forall k p e, st_udp s !! k = Some p -> e ∈ pcb_queue p -> exists dst, sent_in log (uqe_foreign e) dst (uqe_data e)) /\
  (forall id buf n addr, 0 <= n -> pw (sock_recvfrom id buf n addr) s (fun o _ => sock_honest (sent_in log) o)) /\
  (forall fd frame n, (SysWrite fd frame, n) ∈ w_trace (st_world s) -> frame_honest (sent_in log) frame).
Proof. destruct (net_run_honest hosts log Hrun h s Hh) as [_ H]. by apply honest_integrity. Qed.

End Runs.

(** ** The echo application starts without traffic *)

Section Start.
Context {Mc : Machine}.

Definition calm_view (s : stack) := (n_protocols (st_net s), ip_protocols (st_ip s), st_udp s, w_trace (st_world s)).

Lemma calm_preserves {A} (m : C A) : Preserves calm_view m -> maintains calm any m.
Proof.
  apply maintains_preserves. unfold calm_view. intros s s' [= E1 E2 E3 E4] []. constructor; by rewrite ?E1, ?E2, ?E3, ?E4.
Qed.

#[local] Instance alloc_calm : Preserves calm_view memory_alloc.
Proof. unfold memory_alloc. solve_preserves. Qed.

#[local] Instance clock_calm : Preserves calm_view gettimeofday.
Proof. unfold gettimeofday. solve_preserves. Qed.

#[local] Instance set_dev_calm d f : Preserves calm_view (set_dev d f).
Proof. unfold set_dev, get_dev. solve_preserves. Qed.

#[local] Instance lock_calm m : Preserves calm_view (mutex_lock m).
Proof. unfold mutex_lock. solve_preserves. Qed.

#[local] Instance unlock_calm m : Preserves calm_view (mutex_unlock m).
Proof. unfold mutex_unlock. solve_preserves. Qed.

#[local] Hint Extern 2 (maintains calm any _) => apply calm_preserves; typeclasses eauto : maintains.

Lemma syscall_calm c dflt : match c with SysWrite _ _ => False | _ => True end -> maintains calm any (syscall_do c dflt).
Proof.
  intros Hc s []. unfold syscall_do. apply pw_bind, pw_get. destruct (match w_sys _ with [] => _ | _ => _ end) as [r rest].
  apply pw_bind, pw_modify, pw_ret. split; [|done]. constructor; try done. simpl. apply Forall_app. split; [done|by apply Forall_singleton].
Qed.

Lemma protocol_register_calm name ty h :
  (h = fn_ip_input -> ty = NETWORK_PROTOCOL_TYPE_IP) -> maintains calm any (network_protocol_register name ty h).
Proof.
  intros Hh. unfold network_protocol_register. maintains_step. case_match; [by maintains_tac|]. maintains_step. case_match; [by maintains_tac|].
  eapply maintains_bind; [|intros; by maintains_tac]. apply maintains_modify. intros s []. constructor; try done.
  apply Forall_cons. by split.
Qed.

Lemma ip_register_calm name ty h : (h = fn_udp_input -> ty = UDP_PROTOCOL) -> maintains calm any (ip_register_protocol name ty h).
Proof.
  intros Hh. unfold ip_register_protocol. maintains_step. case_match; [by maintains_tac|]. maintains_step. case_match; [by maintains_tac|].
  eapply maintains_bind; [|intros; by maintains_tac]. apply maintains_modify. intros s []. constructor; try done.
  apply Forall_cons. by split.
Qed.

Lemma network_init_calm : maintains calm any network_init.
Proof.
  assert (Preserves calm_view intr_init) by (unfold intr_init; solve_preserves).
  assert (forall n i h, Preserves calm_view (network_timer_register n i h)) by (intros; unfold network_timer_register; solve_preserves).
  assert (forall h, Preserves calm_view (network_event_subscribe h)) by (intros; unfold network_event_subscribe; solve_preserves).
  pose proof protocol_register_calm. pose proof ip_register_calm.
  assert (forall n ty, maintains calm any (network_protocol_register n ty fn_arp_input)) by (intros; by apply protocol_register_calm).
  assert (forall n ty, maintains calm any (ip_register_protocol n ty fn_icmp_input)) by (intros; by apply ip_register_calm).
  unfold network_init, arp_init, ip_initialize, icmp_init, udp_init. by maintains_tac.
Qed.

Lemma network_run_calm : maintains calm any network_run.
Proof.
  assert (forall d, Preserves calm_view (get_dev d)) by (intros; unfold get_dev; solve_preserves).
  assert (forall d, Preserves calm_view (dev_private d)) by (intros; unfold dev_private; solve_preserves).
  assert (forall c dflt, match c with SysWrite _ _ => False | _ => True end -> maintains calm any (syscall_do c dflt)) by apply syscall_calm.
  assert (forall fd calls, Forall (maintains calm any) calls -> maintains calm any (setup_calls fd calls)) as Hs.
  { intros fd calls. assert (maintains calm any (sys_close fd)) by (unfold sys_close; by maintains_tac).
    induction 1; cbn [setup_calls]; by maintains_tac. }
  assert (forall d, maintains calm any (ether_tap_addr d) /\ maintains calm any (ether_pcap_addr d)) as Ha.
  { intros d. split; unfold ether_tap_addr, ether_pcap_addr, sys_socket, sys_hwaddr, sys_close; by maintains_tac. }
  assert (forall d, maintains calm any (ether_tap_open d) /\ maintains calm any (ether_pcap_open d)) as Ho.
  { intros d. destruct (Ha d). split; unfold ether_tap_open, ether_pcap_open, sys_open, sys_socket, set_fd;
      (do 3 maintains_step; case_match; [by maintains_tac|];
       eapply maintains_bind; [apply Hs; unfold sys_ioctl, sys_fcntl, sys_bind; repeat (constructor; [by maintains_tac|]); by constructor|];
       intros [] _; [|by maintains_tac]; unfold setup_address, sys_close; by maintains_tac). }
  assert (forall d, maintains calm any (network_device_open d)).
  { intros d. unfold network_device_open. maintains_step. case_match; [by maintains_tac|]. maintains_step. eapply (maintains_bind _ any).
    - match goal with |- context [drv_open ?o] => destruct o end; [by maintains_tac|..]; simpl;
        (eapply maintains_bind; [apply Ho|intros; by maintains_tac]).
    - intros [] _; by maintains_tac. }
  assert (forall l, maintains calm any (open_all l)) by (induction l; cbn [open_all]; by maintains_tac).
  unfold network_run, intr_run. by maintains_tac.
Qed.

Lemma sock_start_calm :
  (forall a b c, maintains calm any (sock_open a b c)) /\ (forall id addr, maintains calm any (sock_bind id addr)).
Proof.
  assert (forall k f, (forall p, pcb_queue (f p) = pcb_queue p) -> maintains calm any (set_pcb k f)) as Hp.
  { intros k f Hf. apply maintains_modify. intros s []. constructor; try done. simpl. apply Forall_alter; [done|]. intros p _ Hq. by rewrite Hf. }
  assert (forall k f, maintains calm any (ctx_set (pcb_ctx_ref k) f)).
  { intros k f. apply maintains_modify. intros s []. constructor; try done. simpl. by apply Forall_alter. }
  assert (forall k st, maintains calm any (set_pcb k (with_state st))) by (intros; by apply Hp).
  assert (forall k e, maintains calm any (set_pcb k (with_local e))) by (intros; by apply Hp).
  assert (forall k f, Preserves calm_view (set_sk k f)) by (intros; unfold set_sk; solve_preserves).
  assert (forall k, Preserves calm_view (get_sk k)) by (intros; unfold get_sk; solve_preserves).
  assert (forall k, Preserves calm_view (get_pcb k)) by (intros; unfold get_pcb; solve_preserves).
  split; intros; unfold sock_open, sock_alloc, sock_bind, udp_open, udp_pcb_alloc, udp_bind, sched_ctx_init; by maintains_tac.
Qed.

Lemma setup_calm : maintains calm any setup.
Proof.
  assert (forall d, Preserves calm_view (get_dev d)) by (intros; unfold get_dev; solve_preserves).
  assert (forall i, Preserves calm_view (get_iface i)) by (intros; unfold get_iface; solve_preserves).
  assert (forall name addr, Preserves calm_view (ether_tap_init name addr)).
  { intros. unfold ether_tap_init, network_device_allocate, init_address, ether_attach, network_device_register, intr_request_irq. solve_preserves. }
  assert (forall u m, Preserves calm_view (ip_allocate_interface u m)) by (intros; unfold ip_allocate_interface; solve_preserves).
  assert (forall a b c i, Preserves calm_view (ip_route_add a b c i)) by (intros; unfold ip_route_add; solve_preserves).
  assert (forall l family, Preserves calm_view (find_interface l family)) by (induction l; intros; simpl; solve_preserves).
  assert (forall d i, Preserves calm_view (ip_register_interface d i)).
  { intros. unfold ip_register_interface, network_device_add_interface. solve_preserves. }
  assert (forall i g, Preserves calm_view (ip_set_default_gateway i g)) by (intros; unfold ip_set_default_gateway; solve_preserves).
  pose proof network_init_calm. unfold setup.
  pose proof network_run_calm. by maintains_tac.
Qed.

(** Reaching the loop of [main] takes no traffic. *)
Lemma app_start_quiet argv w soc s :
  w_trace w = [] -> app_start argv (stack_boot w) = Ret (inr soc) s -> w_sys (st_world s) = [] -> quiet s.
Proof.
  intros Ht E Ea. split; [by eapply reachable_ok, reach_start|]. split; [|done].
  assert (calm (stack_boot w)) as C0.
  { constructor; [by apply Forall_nil|by apply Forall_nil|by apply Forall_replicate|simpl; rewrite Ht; by apply Forall_nil]. }
  assert (maintains calm any (app_start argv)) as Hm.
  { pose proof setup_calm. pose proof sock_start_calm as [? ?]. unfold app_start. by maintains_tac. }
  pose proof (Hm _ C0) as W. unfold pw in W. rewrite E in W. apply W.
Qed.

End Start.

(** ** A concrete run

    Two hosts run [udp_app 7]; one sends three bytes to the broadcast address of the
    network, and the other takes the frame. *)

Section NetworkWitness.
#[local] Existing Instance little_endian_machine.

Definition after (fuel : nat) (op : sys_op) (s : stack) : stack :=
  match sys_exec fuel op s with Ret _ s' => s' | Fault _ => s end.

Definition with_world (alloc : list bool) (answers : list sysres) (pending : list Z) (s : stack) : stack :=
  set_world (fun w => World alloc [Timeval 0 0] answers (w_trace w) pending 0) s.

(** 192.0.2.255, port 7 *)
Definition everyone : sockaddr_in := SockaddrIn AF_INET 0x0700 0xff0200c0.
Definition op_shout : sys_op := OpSend 0 [1; 2; 3] 3 everyone.
Definition shouted : stack := after 1 op_shout (with_world [] [] [] running_server).
Definition shout_frame : list Z :=
  match last (w_trace (st_world shouted)) with Some (SysWrite _ frame, _) => frame | _ => [] end.
Definition hearing : stack :=
  after 3 (OpRound ETHER_TAP_IRQ)
    (with_world [] [SysRes 1 0 [0]; SysRes (Z.of_nat (length shout_frame)) 0 shout_frame] [ETHER_TAP_IRQ] running_server).
Definition heard : stack := after 3 (OpRound SIGUSR1) (with_world [] [] [SIGUSR1] hearing).

Definition shout_log : list net_event :=
  [NetEvent 0 running_server op_shout shouted; NetEvent 1 running_server (OpRound ETHER_TAP_IRQ) hearing;
   NetEvent 1 hearing (OpRound SIGUSR1) heard].

Example heard_queue :
  pcb_queue <$> (st_udp heard !! 0%nat) = Some [UdpQueueEntry (Endpoint 0x020200c0 0x0700) 3 [1; 2; 3]].
Proof. vm_compute. reflexivity. Qed.

Lemma running_server_quiet : quiet running_server.
Proof. apply (app_start_quiet ["udp_app"; "7"]%string (world_quiet (Timeval 0 0)) 0); vm_compute; reflexivity. Qed.

Lemma frame_sane frame : sys_sane (SysRes (Z.of_nat (length frame)) 0 frame).
Proof. right. simpl. lia. Qed.

(** The answers of the second step: the frame is sane, and was written in the first. *)
Lemma shout_answers :
  Forall answer_ok [SysRes 1 0 [0]; SysRes (Z.of_nat (length shout_frame)) 0 shout_frame] /\
  Forall (on_wire [shouted; running_server]) [SysRes 1 0 [0]; SysRes (Z.of_nat (length shout_frame)) 0 shout_frame].
Proof.
  split; (apply Forall_cons; split; [|apply Forall_singleton]).
  - split; [right; vm_compute; discriminate|]. intros t Ht. discriminate Ht.
  - split; [apply frame_sane|]. intros t _ _ vhl tot Hv Ht. vm_compute in Hv, Ht. injection Hv as <-. injection Ht as <-.
    vm_compute. split; [split|]; discriminate.
  - intros [Hr _]. exfalso. apply Hr. reflexivity.
  - intros _. exists 0%nat, shouted, 3, 60. split; [reflexivity|].
    apply (list_elem_of_lookup_2 _ (pred (length (w_trace (st_world shouted))))). vm_compute. reflexivity.
Qed.

Lemma shout_run : net_run [shouted; heard] shout_log.
Proof.
  destruct shout_answers as [Ha Hw].
  assert (net_run [running_server; running_server] []) as R0.
  { apply net_start, Forall_cons. split; [exact running_server_quiet|]. apply Forall_singleton. exact running_server_quiet. }
  assert (net_run [shouted; running_server] [NetEvent 0 running_server op_shout shouted]) as R1.
  { apply (net_step _ [] 0 running_server (World [] [Timeval 0 0] [] (w_trace (st_world running_server)) [] 0) op_shout 1 shouted R0);
      [reflexivity| |by apply Forall_nil|simpl; lia|vm_compute; reflexivity].
    split; [by apply Forall_nil|]. split; [|reflexivity]. apply (bool_decide_unpack _). vm_compute. exact I. }
  assert (net_run [shouted; hearing] [NetEvent 0 running_server op_shout shouted; NetEvent 1 running_server (OpRound ETHER_TAP_IRQ) hearing]) as R2.
  { apply (net_step _ [_] 1 running_server (World [] [Timeval 0 0] [SysRes 1 0 [0]; SysRes (Z.of_nat (length shout_frame)) 0 shout_frame]
      (w_trace (st_world running_server)) [ETHER_TAP_IRQ] 0) (OpRound ETHER_TAP_IRQ) 3 hearing R1); [reflexivity| |exact Hw| |vm_compute; reflexivity].
    - split; [exact Ha|]. split; [|reflexivity]. apply (bool_decide_unpack _). vm_compute. exact I.
    - split; apply (bool_decide_unpack _); vm_compute; exact I. }
  apply (net_step _ [_; _] 1 hearing (World [] [Timeval 0 0] [] (w_trace (st_world hearing)) [SIGUSR1] 0) (OpRound SIGUSR1) 3 heard R2);
    [reflexivity| |by apply Forall_nil| |vm_compute; reflexivity].
  - split; [by apply Forall_nil|]. split; [|reflexivity]. apply (bool_decide_unpack _). vm_compute. exact I.
  - split; apply (bool_decide_unpack _); vm_compute; exact I.
Qed.

Lemma network_integrity_witness :
  exists dst, sent_in shout_log (Endpoint 0x020200c0 0x0700) dst [1; 2; 3].
Proof.
  destruct (network_integrity [shouted; heard] shout_log 1 heard shout_run eq_refl) as (H & _ & _).
  destruct (st_udp heard !! 0%nat) as [p|] eqn:E; [|vm_compute in E; discriminate E].
  apply (H 0%nat p (UdpQueueEntry (Endpoint 0x020200c0 0x0700) 3 [1; 2; 3]) E).
  pose proof heard_queue as Q. rewrite E in Q. injection Q as ->. by left.
Defined.

End NetworkWitness.
