(* ===== verification/Concurrent.v ===== *)
(** * Widths, bounds, service and network, with threads between critical sections

    The finer steps of Threads.v, under the properties that Typed.v, Refine.v and
    Network.v show call by call: the fields keep their widths and the traffic its
    bounds, what the threads do is a run of the datagram service, and over a network of
    such hosts nothing is received that was not sent. *)

From stdpp Require Import base numbers list option gmap strings relations.
From Stdlib Require Import ZArith Lia.
From S2P Require Import Prelude Util CLib Queue State Sync Net Ether Drivers Arp Ip Icmp Udp Service Sock Stack Softirq Boot App System Threads Typed Refine Network.
Open Scope Z_scope.
Open Scope cmonad_scope.

(** ** Widths *)

Section FineTyped.
Context {Mc : Machine}.

Definition sending_typed (x : sending) : Prop :=
  endpoint_typed (sn_local x) /\ endpoint_typed (sn_foreign x) /\ bytes (sn_data x).

(** Arguments of the declared types. *)
Definition fine_typed (op : fine_op) : Prop :=
  match op with
  | FineCall op => op_typed op
  | FineSend _ buf _ addr => bytes buf /\ sockaddr_typed addr
  | _ => True
  end.

Lemma types_sock_section id addr : types (fun o => forall e, o = Some e -> endpoint_typed e) (sock_sendto_local id addr).
Proof.
  unfold sock_sendto_local. destruct (sock_get id); [|by apply maintains_ret]. eapply maintains_bind; [apply types_get_sk|]. intros x _.
  destruct (_ || _); [by apply maintains_ret|]. unfold udp_sendto_section. eapply maintains_bind; [apply types_mutex_lock|]. intros ? _.
  eapply maintains_bind; [apply types_sendto_local|]. intros o Ho. eapply maintains_bind; [apply types_mutex_unlock|]. intros ? _.
  by apply maintains_ret.
Qed.

Definition control_typed (c : control) : Prop := Forall sending_typed (ct_out c).

Lemma types_fine fuel c op :
  control_typed c -> fine_typed op -> types (fun o => forall c', o = Some c' -> control_typed c') (fine_exec fuel c op).
Proof.
  intros Hc Ho. assert (forall P' : stack -> Prop, maintains P' (fun o => forall c', o = Some c' -> control_typed c') (ret (Some c))) as Same
    by (intros; apply maintains_ret; by intros c' [= <-]).
  destruct op as [op| | |id buf n addr|j]; cbn [fine_exec].
  - eapply maintains_bind; [by apply types_sys_exec|]. intros [] _; [apply Same|by apply maintains_ret].
  - eapply maintains_bind; [apply maintains_modify; intros s T; by apply typed_world|]. intros ? _. apply maintains_ret. by intros c' [= <-].
  - destruct (ct_irq c) as [i|]; [|apply Same]. eapply maintains_bind; [apply types_gets_net|]. intros n _.
    case_match; [eapply maintains_bind; [apply types_packet|]; intros more _|]; apply maintains_ret; by intros c' [= <-].
  - eapply maintains_bind; [apply types_sock_section|]. intros o He. apply maintains_ret. intros c' [= <-]. destruct o as [l|]; [|done].
    apply Forall_app. split; [done|]. apply Forall_singleton. destruct Ho as [Hb Ha]. split_and!; [by apply He|by apply sockaddr_endpoint|done].
  - destruct (ct_out c !! j) as [x|] eqn:Hx; [|apply Same]. destruct (Forall_lookup_1 _ _ _ _ Hc Hx) as (Hl & Hf & Hb).
    eapply maintains_bind; [by apply types_udp_output|]. intros ? _. apply maintains_ret. intros c' [= <-]. by apply Forall_delete.
Qed.

(** The runs in which the kernel stores bytes and the application passes arguments of
    the declared types. *)
Inductive fine_run : stack * control -> Prop :=
| frun_start argv w soc s :
    Forall answer_typed (w_sys w) -> w_trace w = [] -> app_start argv (stack_boot w) = Ret (inr soc) s -> fine_run (s, idle [])
| frun_env s c w : fine_run (s, c) -> env_step (st_world s) w -> Forall answer_typed (w_sys w) -> fine_run (set_world (fun _ => w) s, c)
| frun_act x y : fine_run x -> fine_act fine_typed x y -> fine_run y.

Lemma fine_run_reachable x : fine_run x -> fine_reachable x.
Proof.
  induction 1 as [argv w soc s Ha Ht E|s c w _ IH Env _|x y _ IH St]; [by eapply fine_start|..].
  - eapply fine_next; [exact IH|by apply fine_env].
  - eapply fine_next; [exact IH|by eapply fine_act_step].
Qed.

Lemma fine_run_typed x : fine_run x -> typed x.1 /\ control_typed x.2.
Proof.
  induction 1 as [argv w soc s Ha Ht E|s c w _ [T Tc] (_ & _ & Et) Ha|x y _ [T Tc] St].
  - split; [|by apply Forall_nil]. apply typed_run_typed. by eapply trun_start.
  - split; [by apply typed_env|done].
  - destruct St as [s c op fuel s' c' Ho _ E]. pose proof (types_fine fuel c op Tc Ho s T) as W. unfold pw in W. rewrite E in W.
    destruct W as [T' Hc]. split; [done|]. by apply Hc.
Qed.

(** The runs of Typed.v are among them. *)
Lemma typed_run_fine s : typed_run s -> fine_run (s, idle []).
Proof.
  induction 1 as [argv w soc s Ha Ht E|s s' w op fuel R IH Env Ha Hop Ho E]; [by eapply frun_start|].
  assert (forall x y, rtc (fine_act fine_typed) x y -> fine_run x -> fine_run y) as Rtc
    by (induction 1; [done|]; intros; eauto using frun_act).
  eapply Rtc; [|by eapply frun_env]. pose proof Env as (Hok & _).
  eapply sys_exec_fine; try done; [exact (reachable_ok s (typed_run_reachable s R))|by destruct op].
Qed.

(** ** Bounds *)

(** C19. Bounds of the running system.  In every state of such a run, with sends cut
    after the critical section of [udp_sendto] and soft interrupts between two packets,
    and no malformed datagrams received ([answer_ok]): each frame handed to the kernel
    so far has a length that Ethernet allows, 60 to 1514 bytes, and each read was given
    the room of a whole frame; a packet that waits for its handler comes from a device
    there is and has the length its entry says; and a datagram that waits for the
    application has the length its entry says, at most 65527 bytes, what is left of 65535
    without the UDP header. *)
Theorem system_bounded (s : stack) (c : control) (H : fine_run (s, c)) :
  Forall (fun call => match call.1 with
    | SysWrite _ frame => 60 <= Z.of_nat (length frame) <= 1514
    | SysRead _ size => size = 1514
    | _ => True end) (w_trace (st_world s)) /\
  (forall i p e, n_protocols (st_net s) !! i = Some p -> e ∈ np_queue p ->
    is_Some (n_devs (st_net s) !! nqe_dev e) /\ nqe_len e = Z.of_nat (length (nqe_data e))) /\
  (forall k p e, st_udp s !! k = Some p -> e ∈ pcb_queue p ->
    uqe_len e = Z.of_nat (length (uqe_data e)) /\ uqe_len e <= 65527).
Proof.
  destruct (fine_run_typed _ H) as [T _]. pose proof (fine_reachable_inv _ (fine_run_reachable _ H)) as [((U & _ & _ & Ok) & _) _].
  pose proof U as (_ & _ & _ & Wp & _). simpl in *. split_and!.
  - eapply Forall_impl; [apply T|]. intros [[] n]; simpl; try done. by intros [_ ?].
  - intros i p e Hi He. rewrite Forall_lookup in Ok. destruct (Ok i p Hi) as [_ Hq]. rewrite Forall_forall in Hq.
    by destruct (Hq e He) as (? & ? & _).
  - intros k p e Hk He. destruct (Wp k p Hk) as [Hq _]. rewrite Forall_forall in Hq. exact (Hq e He).
Qed.

End FineTyped.

(** ** The datagram service *)

Section FineService.
Context {Mc : Machine}.

(** The input that the packet [data] of the IP queue stands for: its payload behind the
    header, of the length that its fields say, with its addresses, when its protocol is
    the one [udp_input] is registered for. *)
Definition packet_input (s : stack) (data : list Z) (ev : event) : Prop :=
  exists vhl tot proto src dst,
    rd8 data 0 = Some vhl /\ rd16 data 2 = Some tot /\ rd8 data 9 = Some proto /\
    rd32 data 12 = Some src /\ rd32 data 16 = Some dst /\ handler_of s proto = Some fn_udp_input /\
    ev = EInput (drop (Z.to_nat (4 * (vhl mod 16))) data) (ntoh16 tot - 4 * (vhl mod 16)) src dst.

(** A round of the soft interrupt's inner loop, at queue [i]: the first packet is taken
    off the queue, where at most one answer is put at the end, and is at most one
    input, that of its own bytes; without a packet there is none. *)
Definition packet_events (s : stack) (i : nat) (es : list event) (s' : stack) : Prop :=
  match n_protocols (st_net s) !! i with
  | None => es = []
  | Some p =>
      match np_queue p with
      | [] => es = []
      | e :: q =>
          (exists answer, (length answer <= 1)%nat /\
             n_protocols (st_net s') = alter (with_queue (q ++ answer)) i (n_protocols (st_net s))) /\
          (es = [] \/ np_handler p = fn_ip_input /\ exists ev, packet_input s (nqe_data e) ev /\ es = [ev])
      end
  end.

(** What a part of a call is at the service.  A send is one when its critical section
    has given it an endpoint; its output is nothing to the mailboxes of the host, and
    so are the rounds for other signals than that of the soft interrupt. *)
Definition fine_events (s : stack) (c : control) (op : fine_op) (es : list event) (s' : stack) : Prop :=
  match op with
  | FineCall (OpRound _) => es = []
  | FineCall op => op_events s op es s'
  | FinePacket => match ct_irq c with Some i => packet_events s i es s' | None => es = [] end
  | FineSend id _ _ addr => es = [] \/ exists x r, sock_at s id x /\ es = [ESend (sk_desc x) (addr_endpoint addr) r]
  | FineSoftirq | FineOutput _ => es = []
  end.

(** A datagram of the queue is an input of its own bytes, or none. *)
Lemma ip_input_refines e s u s' :
  udp_ready s -> queued_ok (st_net s) NETWORK_PROTOCOL_TYPE_IP e -> bytes (nqe_data e) ->
  ip_input (nqe_data e) (nqe_len e) (nqe_dev e) s = Ret u s' ->
  exists es, (es = [] \/ exists ev, packet_input s (nqe_data e) ev /\ es = [ev]) /\ spec_run (boxes s) es (boxes s').
Proof.
  intros (Ri & _) ([dev Hd] & Hl & Sane) Hb E. pose proof Ri as ((N & _) & _). rewrite Hl in E.
  assert (boxes s' = boxes s -> exists es, (es = [] \/ exists ev, packet_input s (nqe_data e) ev /\ es = [ev]) /\
    spec_run (boxes s) es (boxes s')) as None' by (intros ->; exists []; split; [by left|constructor]).
  destruct (ip_input_cases (nqe_data e) (Z.of_nat (length (nqe_data e))) (nqe_dev e) s dev N Hd ltac:(lia))
    as [E'|(vhl & tot & off & proto & src & dst & i & f & Ev & Et & _ & Ep & Es & Ed & _ & _ & _ & _ & _ & _ & _ & _ & E')];
    rewrite E' in E; [injection E as _ <-; by apply None'|]. clear E'.
  destruct (Sane eq_refl vhl tot Ev Et) as [Hs Hmax]. rewrite u64_small in E by lia.
  unfold ip_deliver in E. destruct (handler_of s proto) as [h|] eqn:Eh; [|injection E as _ <-; by apply None'].
  set (data := drop _ (nqe_data e)) in *. set (len := ntoh16 tot - 4 * (vhl mod 16)) in *. destruct h.
  - apply None'. change (icmp_input data len src dst i s = Ret u s') in E. eapply (evolves_kept (icmp_input _ _ _ _ _)); [apply _|exact E].
  - change (udp_input data len src dst i s = Ret u s') in E.
    pose proof (udp_input_once data len src dst i s (bytes_drop _ _ Hb)) as W. unfold pw in W. rewrite E in W. destruct W as (es & Hes & Hr). exists es. split; [|done].
    destruct Hes as [->| ->]; [by left|]. right. eexists. split; [|done]. exists vhl, tot, proto, src, dst. done.
Qed.

Lemma packet_refines i s more s' :
  stack_ready s -> typed s -> packet_step i s = Ret more s' ->
  exists es, packet_events s i es s' /\ spec_run (boxes s) es (boxes s').
Proof.
  intros R T E. unfold packet_step in E. apply bind_inv in E as (n & s0 & [= <- <-] & E).
  apply bind_inv in E as (p & s0 & Ep & E). unfold packet_events.
  destruct (n_protocols (st_net s) !! i) as [p'|] eqn:Hi; [|done]. injection Ep as <- <-.
  pose proof (Forall_lookup_1 _ _ _ _ (t_protocols _ T) Hi) as [_ Hbq].
  pose proof R as (Ru & Links & _ & Ok). rewrite Forall_lookup in Ok. destruct (Ok i p' Hi) as [Hh Hqs].
  destruct (np_queue p') as [|e q] eqn:Hq; cbn [fifo_pop list_fifo] in E.
  { injection E as _ <-. exists []. split; [done|constructor]. }
  apply Forall_cons in Hqs as [He _]. apply Forall_cons in Hbq as [Hbe _].
  apply bind_inv in E as (u & s1 & [= _ <-] & E). set (s1 := set_net _ s) in *. apply bind_inv in E as (u' & s2 & E & [= _ <-]).
  pose proof (handler_step (np_type p') (np_handler p') e s1 Ru Links Hh He) as W. unfold wp in W. rewrite E in W. destruct W as [_ A].
  pose proof (answers_tail s s1 s2 i p' e q R Hi Hq eq_refl A) as Tail.
  destruct Hh as [[Ety Eh]|[_ Eh]]; rewrite Eh in E |- *; cbn in E.
  - rewrite Ety in He. destruct (ip_input_refines e s1 u' s2 Ru He Hbe E) as (es & Hes & Hr). exists es. split; [|exact Hr].
    split; [done|]. destruct Hes as [->|(ev & Hev & ->)]; [by left|right; by eauto].
  - exists []. split; [split; [done|by left]|].
    assert (boxes s2 = boxes s1) as -> by (eapply (evolves_kept (arp_input _ _ _)); [apply _|exact E]). constructor.
Qed.

Lemma section_refines id foreign s :
  udp_ready s -> wp (udp_sendto_section id foreign) s (fun _ s' => forall r, spec_run (boxes s) [ESend id foreign r] (boxes s')).
Proof.
  intros R. pose proof (mailboxes_abstracts (st_udp s)) as A. unfold udp_sendto_section. apply udp_section_wp; [done|..].
  - intros _. apply wp_ret. intros r. eapply (spec_run_one true). constructor.
  - intros k p addr E Hp _. destruct (abstracts_get _ _ _ _ A E) as (p' & Hp' & Ho & D). simplify_eq. split.
    + intros _. apply wp_ret. intros r. eapply (spec_run_one true). constructor.
    + intros port H0 (q & Hq & -> & Hsel) pcbs W'. apply wp_ret. intros r. eapply (spec_run_one true).
      assert (boxes (set_udp (fun _ => pcbs) s) = <[k := Mailbox (Endpoint (ep_address (pcb_local p)) (hton16 q)) (mb_inbox (box p))]> (boxes s)) as ->.
      { unfold boxes. symmetry. apply abstracts_mailboxes. simpl. by eapply abstracts_insert. }
      eapply (spec_send_port _ _ _ _ (box p) _ addr); [done|done|done|]. by apply (abstracts_select_None _ _ _ A).
Qed.

Lemma fine_exec_refines fuel c op s c' s' :
  fine_inv s c -> typed s -> fine_ok s c op -> fine_exec fuel c op s = Ret (Some c') s' ->
  exists es, fine_events s c op es s' /\ spec_run (boxes s) es (boxes s').
Proof.
  intros [Ok _] T Hop E. destruct op as [op| | |id buf n addr|j]; cbn [fine_exec fine_ok fine_events] in *.
  - destruct Hop as (Hop & _ & Hc). apply bind_inv in E as (b & s1 & E1 & E). destruct b; [|done]. injection E as _ <-.
    destruct (sys_exec_refines fuel op s s1 Ok T Hop E1) as (es & He & Hr).
    destruct op; try by exists es. destruct Hc as [Hs _]. exists []. split; [done|].
    cbn [sys_exec] in E1. apply bind_inv in E1 as (u & s2 & [= _ <-] & E1).
    assert (boxes s1 = boxes s) as -> by (by eapply (dispatch_kept fuel sig Hs) in E1). constructor.
  - apply bind_inv in E as (u & s1 & [= _ <-] & [= _ <-]). exists []. split; [done|constructor].
  - destruct (ct_irq c) as [i|]; [|by destruct Hop]. apply bind_inv in E as (n & s1 & [= <- <-] & E).
    destruct (Nat.ltb_spec i (length (n_protocols (st_net s)))) as [Hi|Hi].
    + apply bind_inv in E as (more & s1 & E1 & [= _ <-]). eapply packet_refines; [apply Ok|done|exact E1].
    + injection E as _ <-. exists []. split; [|constructor]. unfold packet_events. by rewrite lookup_ge_None_2.
  - apply bind_inv in E as (o & s1 & E1 & [= _ <-]). unfold sock_sendto_local in E1.
    destruct (sock_get id) as [i|] eqn:Hi; [|injection E1 as _ <-; exists []; split; [by left|constructor]].
    apply bind_inv in E1 as (x & s2 & Ex & E1). apply get_sk_inv in Ex as [-> Hx].
    destruct (_ || _); [injection E1 as _ <-; exists []; split; [by left|constructor]|].
    pose proof (section_refines (sk_desc x) (addr_endpoint addr) s) as W. unfold wp in W. unfold addr_endpoint in W at 1. rewrite E1 in W.
    exists [ESend (sk_desc x) (addr_endpoint addr) 0]. split; [right; exists x, 0; split; [by exists i|done]|]. apply W, Ok.
  - destruct Hop as [x Hx]. rewrite Hx in E. apply bind_inv in E as (r & s1 & E1 & [= _ <-]). exists []. split; [done|].
    pose proof (udp_output_apps (sn_local x) (sn_foreign x) (sn_data x) (sn_len x) _ _ _ E1) as Ea.
    unfold apps in Ea. injection Ea as Eu _ _. unfold boxes. rewrite Eu. constructor.
Qed.

Record fine_event := FineEvent { fe_before : stack; fe_control : control; fe_op : fine_op; fe_after : stack }.

(** The parts done between two states, the environment changing at any time. *)
Inductive fine_path : stack * control -> list fine_event -> stack * control -> Prop :=
| fpath_done x : fine_path x [] x
| fpath_env s c w path y :
    env_step (st_world s) w -> Forall answer_typed (w_sys w) -> fine_path (set_world (fun _ => w) s, c) path y -> fine_path (s, c) path y
| fpath_act s c op fuel s1 c1 path y :
    fine_typed op -> fine_ok s c op -> fine_exec fuel c op s = Ret (Some c1) s1 -> fine_path (s1, c1) path y ->
    fine_path (s, c) (FineEvent s c op s1 :: path) y.

Lemma fine_path_refines x path y :
  fine_path x path y -> fine_run x -> exists ess,
    Forall2 (fun ev es => fine_events (fe_before ev) (fe_control ev) (fe_op ev) es (fe_after ev)) path ess /\ spec_run (boxes x.1) (concat ess) (boxes y.1).
Proof.
  induction 1 as [x|s c w path y Env Ha _ IH|s c op fuel s1 c1 path y Ho Hop E _ IH]; intros R.
  - exists []. split; constructor.
  - apply IH. by apply frun_env.
  - assert (fine_run (s1, c1)) as R1 by (eapply frun_act; [exact R|by eapply fine_act_intro]).
    destruct (fine_exec_refines fuel c op s c1 s1) as (es & He & Hr); [|by destruct (fine_run_typed _ R)|done|done|].
    { exact (fine_reachable_inv _ (fine_run_reachable _ R)). }
    destruct (IH R1) as (ess & Hf & Hr'). exists (es :: ess). split; [by constructor|]. simpl. by eapply spec_run_app.
Qed.

(** C4. The running system refines the datagram service, with its threads interrupted
    between critical sections (sends cut after the critical section of [udp_sendto], soft
    interrupts between two packets; no malformed datagrams, [answer_ok]).  Whatever the
    threads do from any state of a run is a run of the contract, in which a packet of
    the soft interrupt is taken off its queue and is at most one input, of the packet's
    own payload, length and addresses; the critical section of a send is at most one
    send; a receive, a bind, an open or a close is at most one call of the service with
    the answer the application gets; and everything else, the rounds for other signals
    and the output of a datagram included, is nothing.  A descriptor that is not closed
    meanwhile hands out, in order and each at most once, what was in its mailbox and
    some of what came in, the rest waiting at the end. *)
Theorem threads_refine_service (x y : stack * control) (path : list fine_event) (H : fine_run x) (P : fine_path x path y) :
  exists ess,
    Forall2 (fun ev es => fine_events (fe_before ev) (fe_control ev) (fe_op ev) es (fe_after ev)) path ess /\
    spec_run (mailboxes (st_udp x.1)) (concat ess) (mailboxes (st_udp y.1)) /\
    forall k p, st_udp x.1 !! k = Some p -> pcb_st p = UDP_PCB_STATE_OPEN -> (forall r, EClose (Z.of_nat k) r ∉ concat ess) ->
      exists p', st_udp y.1 !! k = Some p' /\ pcb_st p' = UDP_PCB_STATE_OPEN /\
        in_order k (concat ess) (mb_inbox (box p)) (mb_inbox (box p')).
Proof.
  destruct (fine_path_refines x path y P H) as (ess & Hf & Hr). exists ess. split; [done|]. split; [done|].
  intros k p Hk Ho Hc. by eapply mailboxes_in_order.
Qed.

End FineService.

(** ** The network *)

Section FineNetwork.
Context {Mc : Machine}.

(** Some send of the log was of [data] to [dst] from [src]; a send that got no address
    leaves the choice to IP. *)
Definition sent_by (log : list net_event) (src dst : endpoint) (data : list Z) : Prop :=
  exists ev a, ev ∈ log /\ sends (ev_before ev) (ev_op ev) (ev_after ev) (Endpoint a (ep_port src)) dst data /\
    (a = ep_address src \/ a = IP_ADDR_ANY).

(** A thread on its way to [udp_output] is with a send of the log. *)
Definition begun_in (log : list net_event) (x : sending) : Prop :=
  exists ev, ev ∈ log /\ sends (ev_before ev) (ev_op ev) (ev_after ev) (sn_local x) (sn_foreign x) (take (Z.to_nat (sn_len x)) (sn_data x)).

(** A send is logged with the state its critical section starts from and the one it leaves. *)
Definition send_event (h : nat) (s : stack) (op : fine_op) (s' : stack) : list net_event :=
  match op with FineSend id buf n addr => [NetEvent h s (OpSend id buf n addr) s'] | _ => [] end.

(** As [net_run], in parts: any host does a part of a call at any time, and its environment changes at any time. *)
Inductive wire_run : list (stack * control) -> list net_event -> Prop :=
| wrun_start hosts : Forall quiet hosts -> wire_run (map (fun s => (s, idle [])) hosts) []
| wrun_env hosts log h s c w :
    wire_run hosts log -> hosts !! h = Some (s, c) -> env_step (st_world s) w -> Forall (on_wire (map fst hosts)) (w_sys w) ->
    wire_run (<[h := (set_world (fun _ => w) s, c)]> hosts) log
| wrun_act hosts log h s c op fuel s' c' :
    wire_run hosts log -> hosts !! h = Some (s, c) -> fine_ok s c op -> fine_exec fuel c op s = Ret (Some c') s' ->
    wire_run (<[h := (s', c')]> hosts) (log ++ send_event h s op s').

(** *** The invariant *)

Lemma sent_by_mono log log' src dst data : log ⊆ log' -> sent_by log src dst data -> sent_by log' src dst data.
Proof. intros Hl (ev & a & Hev & ?). exists ev, a. split; [by apply Hl|done]. Qed.

Lemma begun_in_mono log log' x : log ⊆ log' -> begun_in log x -> begun_in log' x.
Proof. intros Hl (ev & Hev & ?). exists ev. split; [by apply Hl|done]. Qed.

(** The endpoint the critical section gives a send is that of its control block. *)
Lemma section_sends Sent id buf n addr s :
  sys_ok s -> honest Sent s ->
  wp (sock_sendto_local id addr) s (fun o s' => honest Sent s' /\
    forall l, o = Some l -> sends s (OpSend id buf n addr) s' l (Endpoint (sin_addr addr) (sin_port addr)) (take (Z.to_nat n) buf)).
Proof.
  intros (R & [U (Ls & _)] & _) H. pose proof H as [_ _ Hu _ _]. unfold sock_sendto_local.
  assert (forall s', honest Sent s' -> honest Sent s' /\ forall l, None = Some l -> sends s (OpSend id buf n addr) s' l
    (Endpoint (sin_addr addr) (sin_port addr)) (take (Z.to_nat n) buf)) as Nothing by done.
  destruct (sock_get id) as [i|] eqn:Ei; [|by apply wp_ret, Nothing]. pose proof (sock_get_Some _ _ Ei) as [_ Hlt].
  destruct (lookup_lt_is_Some_2 (st_sock s) i) as [x Hx]; [by rewrite Ls|]. apply wp_bind. eapply wp_of_run; [by apply get_sk_run|].
  destruct (_ || _); [by apply wp_ret, Nothing|]. unfold udp_sendto_section.
  apply udp_section_wp; [done|intros _; by apply wp_ret, Nothing|]. intros k p a Hk Hp Hloc. split.
  - intros _. apply wp_ret. split; [done|]. intros l [= <-]. split_and!; [done|done|]. by exists i, x, k, p.
  - intros port _ _ pcbs Wf. apply wp_ret. set (p' := with_local (Endpoint (ep_address (pcb_local p)) port) p).
    split; [apply honest_udp; [done|]; by apply Forall_alter|].
    intros l [= <-]. split_and!; [done|done|]. exists i, x, k, p'. split_and!; try done. simpl. unfold pcbs, bound.
    by rewrite list_lookup_alter_eq, Hp.
Qed.

(** A part of a call of host [h]. *)
Lemma fine_exec_honest fuel c op s c' s' h log :
  fine_inv s c -> honest (sent_by log) s -> Forall (begun_in log) (ct_out c) -> fine_ok s c op ->
  fine_exec fuel c op s = Ret (Some c') s' ->
  honest (sent_by (log ++ send_event h s op s')) s' /\ Forall (begun_in (log ++ send_event h s op s')) (ct_out c').
Proof.
  intros [Ok Hl] H B Hop E. destruct op as [op| | |id buf n addr|j]; cbn [fine_exec fine_ok send_event] in *; rewrite ?app_nil_r.
  - destruct Hop as (Hop & _ & Hns). apply bind_inv in E as (b & s1 & E1 & E). destruct b; [|done]. injection E as <- <-. split; [|done].
    pose proof (sys_exec_honest _ _ _ _ _ Ok H Hop E1) as H1. eapply honest_mono; [|exact H1]. intros src dst data [?|Hs]; [done|]. by destruct op.
  - apply bind_inv in E as (u & s1 & [= _ <-] & [= <- <-]). split; [by apply honest_world|exact B].
  - destruct (ct_irq c) as [i|]; [|by destruct Hop]. apply bind_inv in E as (n & s1 & [= <- <-] & E).
    case_match; [|by injection E as <- <-]. apply bind_inv in E as (more & s1 & E1 & [= <- <-]).
    pose proof (packet_honest_step (sent_by log) i s H) as W. unfold pw in W. rewrite E1 in W. split; [apply W|exact B].
  - apply bind_inv in E as (o & s1 & E1 & [= <- <-]). pose proof (section_sends (sent_by log) id buf n addr s Ok H) as W.
    unfold wp in W. rewrite E1 in W. destruct W as [H1 Hs]. set (ev := NetEvent h s (OpSend id buf n addr) s1).
    assert (log ⊆ log ++ [ev]) as Hsub by set_solver.
    split; [eapply honest_mono; [|exact H1]; intros; by eapply sent_by_mono|].
    assert (Forall (begun_in (log ++ [ev])) (ct_out c)) as B' by (eapply Forall_impl; [exact B|]; intros; by eapply begun_in_mono).
    destruct o as [l|]; [|done]. apply Forall_app. split; [done|]. apply Forall_singleton. exists ev. split; [set_solver|]. by apply Hs.
  - destruct Hop as [x Hx]. rewrite Hx in E. apply bind_inv in E as (r & s1 & E1 & [= <- <-]). split; [|by apply Forall_delete].
    destruct (Forall_lookup_1 _ _ _ _ B Hx) as (ev & Hev & Hs). pose proof (Forall_lookup_1 _ _ _ _ Hl Hx) as [Hn _].
    pose proof (udp_output_honest (sent_by log) (sn_local x) (sn_foreign x) (sn_data x) (sn_len x) s H Hn) as W. unfold pw in W.
    rewrite E1 in W. apply W. intros rt f _ _ Hsrc. exists ev, (ep_address (sn_local x)). split; [done|]. simpl.
    split; [by destruct (sn_local x)|]. by destruct Hsrc; [right|left].
Qed.

Lemma wire_run_honest hosts log :
  wire_run hosts log -> forall h s c, hosts !! h = Some (s, c) ->
    fine_inv s c /\ honest (sent_by log) s /\ Forall (begun_in log) (ct_out c).
Proof.
  induction 1 as [hosts Hq|hosts log h s c w _ IH Hh (_ & _ & Et) Hw|hosts log h s c op fuel s' c' _ IH Hh Hop E]; intros g t d Hg.
  - rewrite list_lookup_fmap in Hg. destruct (hosts !! g) as [u|] eqn:Hu; [|done]. injection Hg as <- <-.
    pose proof (Forall_lookup_1 _ _ _ _ Hq Hu) as Qu. split_and!; [split; [apply Qu|by apply Forall_nil]| |by apply Forall_nil].
    eapply honest_mono; [|by apply quiet_honest]. intros src dst data (ev & Hev & _). set_solver.
  - apply list_lookup_insert_Some in Hg as [(<- & [= <- <-] & _)|[_ Hg]]; [|exact (IH g t d Hg)].
    destruct (IH h s c Hh) as (Inv & H & B). split_and!; [exact Inv| |done]. destruct H. constructor; try done; [simpl; by rewrite Et|].
    eapply Forall_impl; [exact Hw|]. intros r Hr Hlen. destruct (Hr Hlen) as (g & u & fd & n & Hgu & Hin).
    rewrite list_lookup_fmap in Hgu. destruct (hosts !! g) as [[u' e]|] eqn:Hu; [|done]. injection Hgu as <-.
    destruct (IH g u' e Hu) as (_ & [_ _ _ Htr _] & _). rewrite Forall_forall in Htr. exact (Htr _ Hin).
  - apply list_lookup_insert_Some in Hg as [(<- & [= <- <-] & _)|[_ Hg]].
    + destruct (IH h s c Hh) as (Inv & H & B). split; [by eapply fine_exec_inv|]. by eapply fine_exec_honest.
    + destruct (IH g t d Hg) as (Inv & H & B). assert (log ⊆ log ++ send_event h s op s') as Hsub by (intros ev Hev; apply elem_of_app; by left).
      split_and!; [exact Inv|eapply honest_mono; [|exact H]; intros; by eapply sent_by_mono|].
      eapply Forall_impl; [exact B|]. intros; by eapply begun_in_mono.
Qed.

(** C5. Nothing is made up or changed on the way, with threads interrupted between
    their critical sections.  In every run of a network of hosts, however frames are
    lost, duplicated, reordered or misdirected, whatever calls of the environment fail
    and however the parts of calls and interrupts interleave: every datagram that
    waits at a control block, and whatever [sock_recvfrom] returns with its source
    address, is one that an application on one of the hosts passed to [sock_sendto]
    before, from the source endpoint it was given then, with exactly these bytes
    (cut to the length returned); and every frame on the wire whose type is IP and whose
    protocol is UDP carries such a datagram. *)
Theorem threads_integrity (hosts : list (stack * control)) (log : list net_event) (h : nat) (s : stack) (c : control)
    (Hrun : wire_run hosts log) (Hh : hosts !! h = Some (s, c)) :
  (forall k p e, st_udp s !! k = Some p -> e ∈ pcb_queue p -> exists dst, sent_by log (uqe_foreign e) dst (uqe_data e)) /\
  (forall id buf n addr, 0 <= n -> pw (sock_recvfrom id buf n addr) s (fun o _ => sock_honest (sent_by log) o)) /\
  (forall fd frame n, (SysWrite fd frame, n) ∈ w_trace (st_world s) -> frame_honest (sent_by log) frame).
Proof. destruct (wire_run_honest hosts log Hrun h s c Hh) as (_ & H & _). by apply honest_integrity. Qed.

(** *** Runs of whole calls are runs in parts *)

Lemma wire_run_rtc hosts log h x y :
  wire_run hosts log -> hosts !! h = Some x -> rtc (fine_act (fun _ => True)) x y -> exists log', wire_run (<[h := y]> hosts) log'.
Proof.
  intros R Hh P. revert hosts log R Hh. induction P as [x|x y z St _ IH]; intros hosts log R Hh.
  - exists log. by rewrite list_insert_id.
  - destruct St as [s c op fuel s' c' _ Hop E]. pose proof (wrun_act _ _ _ _ _ _ _ _ _ R Hh Hop E) as R1.
    destruct (IH _ _ R1) as (log' & R'); [apply list_lookup_insert_eq; by eapply lookup_lt_Some|].
    exists log'. by rewrite list_insert_insert_eq in R'.
Qed.

Lemma net_run_wire hosts log : net_run hosts log -> exists log', wire_run (map (fun s => (s, idle [])) hosts) log'.
Proof.
  induction 1 as [hosts Hq|hosts log h s w op fuel s' R [log' IH] Hh Env Hw Hop E]; [exists []; by apply wrun_start|].
  assert (map (fun s => (s, idle [])) hosts !! h = Some (s, idle [])) as Hm by (by rewrite list_lookup_fmap, Hh).
  assert (map fst (map (fun s => (s, idle [])) hosts) = hosts) as Ef by (rewrite map_map; simpl; apply map_id).
  destruct (net_run_honest hosts log R h s Hh) as [Ok _]. pose proof Env as (Ha & _).
  destruct (wire_run_rtc (<[h := (set_world (fun _ => w) s, idle [])]> (map (fun s => (s, idle [])) hosts)) log' h
    (set_world (fun _ => w) s, idle []) (s', idle [])) as (log'' & R').
  - apply wrun_env; [done|done|done|by rewrite Ef].
  - apply list_lookup_insert_eq. by eapply lookup_lt_Some.
  - eapply sys_exec_fine; [done|done|done|exact Ok|exact Ha|exact Hop|exact E|by destruct op].
  - exists log''. rewrite list_insert_insert_eq in R'. by rewrite list_fmap_insert.
Qed.

End FineNetwork.

(** ** Concrete runs *)

Section ConcurrentWitness.
#[local] Existing Instance little_endian_machine.

Lemma running_server_typed : typed_run running_server.
Proof.
  apply (trun_start ["udp_app"; "7"]%string (world_quiet (Timeval 0 0)) 0); [by apply Forall_nil|reflexivity|vm_compute; reflexivity].
Qed.

(** The host of the network example that has sent a frame. *)
Lemma shouted_run : fine_run (shouted, idle []).
Proof.
  apply typed_run_fine.
  apply (trun_step running_server shouted (World [] [Timeval 0 0] [] (w_trace (st_world running_server)) [] 0) op_shout 1);
    [|split; [by apply Forall_nil|split; [apply (bool_decide_unpack _); vm_compute; exact I|reflexivity]]|by apply Forall_nil|simpl; lia| |vm_compute; reflexivity].
  - exact running_server_typed.
  - split; [apply bytesb_spec; reflexivity|]. split_and!; (split; [vm_compute; discriminate|vm_compute; reflexivity]).
Qed.

Lemma system_bounded_witness :
  (SysWrite 3 shout_frame, 60) ∈ w_trace (st_world shouted) /\ 60 <= Z.of_nat (length shout_frame) <= 1514.
Proof.
  assert ((SysWrite 3 shout_frame, 60) ∈ w_trace (st_world shouted)) as Hin.
  { apply (list_elem_of_lookup_2 _ (pred (length (w_trace (st_world shouted))))). vm_compute. reflexivity. }
  split; [exact Hin|]. destruct (system_bounded shouted (idle []) shouted_run) as (Hf & _). rewrite Forall_forall in Hf. exact (Hf _ Hin).
Defined.

Lemma fine_after_path x op path y :
  fine_typed op -> fine_ok x.1 x.2 op -> fine_done (fine_exec 1 x.2 op x.1) = true -> fine_path (fine_after x op) path y ->
  fine_path x (FineEvent x.1 x.2 op (fine_after x op).1 :: path) y.
Proof.
  destruct x as [s c]. unfold fine_after. cbn [fst snd]. intros Ho Hop Hd P.
  destruct (fine_exec 1 c op s) as [[c'|] s'|] eqn:E; try discriminate Hd. by eapply fpath_act.
Qed.

(** The host of the network example that has a broadcast datagram in its IP queue: the
    soft interrupt passes over the ARP queue and takes the packet. *)
Definition softirq_due : stack := with_world [] [] [SIGUSR1] hearing.
Definition softirq_begun : stack * control := fine_after (softirq_due, idle []) FineSoftirq.
Definition arp_passed : stack * control := fine_after softirq_begun FinePacket.
Definition packet_taken : stack * control := fine_after arp_passed FinePacket.

Definition packet_path : list fine_event :=
  [FineEvent softirq_due (idle []) FineSoftirq softirq_begun.1;
   FineEvent softirq_begun.1 softirq_begun.2 FinePacket arp_passed.1;
   FineEvent arp_passed.1 arp_passed.2 FinePacket packet_taken.1].

Lemma packet_path_ok : fine_path (softirq_due, idle []) packet_path packet_taken.
Proof.
  unfold packet_path, packet_taken, arp_passed, softirq_begun.
  apply (fine_after_path (softirq_due, idle [])); [exact I| |vm_compute; reflexivity|].
  { split; [reflexivity|]. split; apply (bool_decide_unpack _); vm_compute; exact I. }
  apply fine_after_path; [exact I|vm_compute; by eexists|vm_compute; reflexivity|].
  apply fine_after_path; [exact I|vm_compute; by eexists|vm_compute; reflexivity|apply fpath_done].
Qed.

Lemma softirq_due_run : fine_run (softirq_due, idle []).
Proof.
  apply frun_env; [apply typed_run_fine|split; [by apply Forall_nil|split; [|reflexivity]]|by apply Forall_nil].
  - apply (trun_step running_server hearing (World [] [Timeval 0 0] [SysRes 1 0 [0]; SysRes (Z.of_nat (length shout_frame)) 0 shout_frame]
      (w_trace (st_world running_server)) [ETHER_TAP_IRQ] 0) (OpRound ETHER_TAP_IRQ) 3); [exact running_server_typed|..|vm_compute; reflexivity].
    + split; [exact (proj1 shout_answers)|]. split; [|reflexivity]. apply (bool_decide_unpack _). vm_compute. exact I.
    + apply Forall_cons. split; [apply bytesb_spec; reflexivity|]. apply Forall_singleton. apply bytesb_spec. vm_compute. reflexivity.
    + split; apply (bool_decide_unpack _); vm_compute; exact I.
    + exact I.
  - apply (bool_decide_unpack _). vm_compute. exact I.
Qed.

Lemma threads_refine_service_witness :
  (exists ess, spec_run (mailboxes (st_udp softirq_due)) (concat ess) (mailboxes (st_udp packet_taken.1))) /\
  pcb_queue <$> (st_udp softirq_due !! 0%nat) = Some [] /\
  pcb_queue <$> (st_udp packet_taken.1 !! 0%nat) = Some [UdpQueueEntry (Endpoint 0x020200c0 0x0700) 3 [1; 2; 3]].
Proof.
  split; [|split; vm_compute; reflexivity].
  destruct (threads_refine_service (softirq_due, idle []) packet_taken packet_path softirq_due_run packet_path_ok) as (ess & _ & Hr & _).
  exists ess. exact Hr.
Defined.

(** The network example, in parts. *)
Lemma threads_integrity_witness :
  exists log dst, wire_run [(shouted, idle []); (heard, idle [])] log /\ sent_by log (Endpoint 0x020200c0 0x0700) dst [1; 2; 3].
Proof.
  destruct (net_run_wire _ _ shout_run) as (log & R).
  destruct (threads_integrity [(shouted, idle []); (heard, idle [])] log 1 heard (idle []) R eq_refl) as (H & _ & _).
  destruct (st_udp heard !! 0%nat) as [p|] eqn:E; [|vm_compute in E; discriminate E].
  destruct (H 0%nat p (UdpQueueEntry (Endpoint 0x020200c0 0x0700) 3 [1; 2; 3]) E) as (dst & Hs).
  - pose proof heard_queue as Q. rewrite E in Q. injection Q as ->. by left.
  - exists log, dst. split; [exact R|exact Hs].
Defined.

End ConcurrentWitness.
